(* ===== verification/_CoqProject ===== *)
-Q . S2P
Prelude.v
GoStrings.v
GoTime.v
GoError.v
GoContext.v
GoHttp.v
GoEncoding.v
Sha256.v
GoList.v
SandboxTypes.v
KVServer.v
RedisStore.v
ValkeyStore.v
StoreSpec.v
StoreRefinement.v
StoreInstances.v
CodecModel.v
StoreTheorems.v
StoreSingleton.v
Lru.v
Caches.v
CacheTheorems.v
K8sTypes.v
Cluster.v
WorldModel.v
WmAuth.v
WmAuthTheorems.v
Reconciler.v
ReconcilerTheorems.v
WorkloadBuilder.v
K8sClient.v
WmHandlers.v
WmStable.v
WmCreate.v
WmTheorems.v
WmTheorems2.v
WmTheorems3.v
BuilderTheorems.v
GarbageCollector.v
GcTheorems.v
GcLiveness.v
GcConcurrent.v
CiController.v
CiTheorems.v
GoHeap.v
ApiHeap.v
DeepCopyTheorems.v
HeapBuilder.v
HeapBuilderTheorems.v
InformerFactory.v
InformerTheorems.v
Clientset.v
ClientsetTheorems.v
GoPath.v
Mtls.v
MtlsTheorems.v
GoProxy.v
RouterAuth.v
RouterJwt.v
JwtModel.v
RouterSession.v
RouterHandlers.v
RouterServer.v
RouterTheorems.v
RouterWorld.v
RouterTheorems2.v
RouterTheorems3.v
PicodFiles.v
PicodServer.v
PicodTheorems.v
PicodWorld.v
PicodFilesTheorems.v
PicodAuthTheorems.v
WmServer.v
WmServerTheorems.v
Lifecycle.v
LifecycleTheorems.v
ServerMain.v
ServerMainTheorems.v
EndToEndTheorems.v
