(* ===== verification/Prelude.v ===== *)
(** * AgentCube

    A verification library for the services of AgentCube, which run code of
    AI agents in Kubernetes sandboxes. This file is the root: the header
    describes the development, the rest is the prelude (tactics, hints, generic
    lemmas) that every other file uses.

    ** The program

    Four Go programs and what they share:

    - the _router_ ([pkg/router], [cmd/router]) receives the calls of users,
      authenticates them with OIDC tokens, finds or creates the sandbox of the
      session, and proxies the call to it with a token it signs;
    - the _workload manager_ ([pkg/workloadmanager], [cmd/workload-manager])
      creates and deletes sandboxes through the Kubernetes API on behalf of
      service accounts, waits until they are ready, collects the idle and
      expired ones, and reconciles the CodeInterpreter resource;
    - _PicoD_ ([pkg/picod]) runs inside a sandbox: command execution and files
      under a workspace directory, for callers with a token of the router;
    - the _session store_ ([pkg/store]), on Redis or Valkey, is the only state
      the router and the workload manager share; [pkg/mtls] secures the
      connection between the two, [pkg/api] and [pkg/common/types] hold the
      errors and records they exchange.

    ** How it is modelled

    Go code becomes functions: state and the outside world are passed
    explicitly, [error] results are values of [goerr] and [res] ([GoError]),
    panics are values, integers keep their width where the code can overflow
    ([GoTime], [GoEncoding], [Prelude.wrap64]). A lock makes a method one step;
    where the code releases a lock in the middle, or threads interleave, there
    is a transition system. Where sharing matters, pointers, slices and maps are
    references into a heap and the objects represent the pure values of the other
    files ([GoHeap]). Everything is executable.

    Code that is not in the repository is a type class that the definitions
    take as an argument, with its documented behaviour in a second class of
    laws where a theorem needs it; a concrete instance shows that the laws can
    hold and is used by the witnesses:

    - [KVServer], [KVClose], [KVLaws], [KVReliable]: Redis or Valkey ([KVModel],
      and [KVFlaky], which fails);
    - [Env], [EnvLaws]: clock, random numbers, selects of the Go runtime;
      [Cluster], [ClusterView], [Watchers], [CiApi], [Secrets]: the Kubernetes
      API ([WM], [CiWorld], [RW]);
    - [ApiErrors], [NetErrors]: predicates of apimachinery on errors;
    - [KeyFormats], [JwtLib], [KeyPairs], [PicoJwt] and their laws: PEM, X.509
      keys and golang-jwt ([JwtModel]); [KeySet]: the keys of go-oidc;
    - [UrlLib], [RouterNet], [Upstream]: URLs and the network of the router;
    - [Files], [FilesLaws], [Exec], [TimeText]: the operating system under
      PicoD ([PW], a file system with symbolic links);
    - [X509], [CertIO], [Disk], [SleepLaws]: certificates, their files and file
      notifications ([MtlsModel]); [WriteLaws]: reading what was written;
    - [Wire], [ResponseCodec], [JwtPayload]: the connection between the router and
      the workload manager ([EndToEndTheorems]);
    - [LibCopies], [LibCopiesLaws]: the deep copies of the Kubernetes types
      ([HeapModel]); [RestTypes], [RestLib], [RestLaws], [Unstructured]: clients
      made from a configuration ([RestModel]); [Manager]: controller-runtime;
    - [JsonText], [SandboxCodec]: JSON texts ([CodecModel]).

    ** Files

    Language and standard library: [GoStrings], [GoTime], [GoError] (with
    [pkg/api/errors.go]), [GoContext], [GoHttp], [GoEncoding], [Sha256],
    [GoList], [GoProxy] ([httputil.ReverseProxy]), [GoPath]
    ([path/filepath]).

    Session store: [SandboxTypes] ([pkg/common/types]); [KVServer]; [RedisStore]
    and [ValkeyStore] ([store_redis.go], [store_valkey.go]); [StoreSpec], the
    abstract registry behind [store.Store] and the interface as two classes,
    [Store] for the sessions and [StoreConn] for the connection;
    [StoreRefinement], [StoreInstances], the refinement and the instances;
    [CodecModel]; [StoreSingleton] ([singleton.go]); theorems in [StoreTheorems].

    Workload manager: [Lru] and [Caches] ([client_cache.go], with the pointer
    structure of its list); [K8sTypes] ([pkg/apis/runtime/v1alpha1] and the
    Kubernetes objects); [Cluster], [WorldModel]; [WmAuth] ([auth.go],
    [identity.go]); [Reconciler] ([sandbox_controller.go], a transition
    system); [WorkloadBuilder] ([workload_builder.go], [utils.go]);
    [K8sClient] ([k8s_client.go], [sandbox_helper.go]); [WmHandlers]
    ([handlers.go]); [GarbageCollector] ([garbage_collection.go]);
    [CiController] ([codeinterpreter_controller.go]); [WmServer] ([server.go],
    [informers.go], flag validation of [cmd]); [Lifecycle] (the threads of
    [cmd/workload-manager/main.go]). Lemmas in [WmStable], [WmCreate]; theorems in [CacheTheorems], [WmAuthTheorems],
    [ReconcilerTheorems], [WmTheorems], [WmTheorems2], [WmTheorems3],
    [BuilderTheorems], [GcTheorems], [CiTheorems], [WmServerTheorems],
    [LifecycleTheorems]; [GcConcurrent] (the collector among other clients of the
    store, a transition system), [GcLiveness] (its loop over time).

    Memory: [GoHeap] (heap, representation and copying); [ApiHeap] (the API types
    in memory and [zz_generated.deepcopy.go]); [HeapBuilder] ([workload_builder.go]
    and [convertToPodTemplate] again, with the cells they share with the informer
    cache); [DeepCopyTheorems], [HeapBuilderTheorems].

    Generated client: [InformerFactory] ([client-go/informers], [client-go/listers]
    and [NewInformers], the factory and its goroutines as a transition system);
    [Clientset] ([client-go/clientset], [NewK8sClient], user clients, the schemes);
    [InformerTheorems], [ClientsetTheorems].

    Router: [RouterAuth] ([oidc.go], [auth.go]); [RouterJwt] ([jwt.go]);
    [RouterSession] ([session_manager.go], over [Mtls]); [RouterHandlers] ([handlers.go],
    [config.go]); [RouterServer] ([server.go], with the concurrency limit as a
    transition system); [JwtModel], [RouterWorld]; [RouterTheorems],
    [RouterTheorems2], [RouterTheorems3].

    PicoD: [PicodFiles] ([files.go]); [PicodServer] ([execute.go], [auth.go],
    [server.go] with its routes and middleware); [PicodTheorems], [PicodWorld], [PicodFilesTheorems],
    [PicodAuthTheorems].

    Mutual TLS: [Mtls] ([pkg/mtls], the rotation as a transition system),
    [MtlsTheorems].

    Programs: [ServerMain] (the mains of the router and PicoD, [cmd/router] and
    [cmd/picod], with their [Start]: configuration and threads; the way of
    [cmd/workload-manager] to its threads),
    [ServerMainTheorems]; [EndToEndTheorems] (the router's client connected to the
    routes of the workload manager).

    ** What the theorems show

    - Store: both stores refine the registry; they cannot be told apart on a
      working connection; on a failing one an operation touches at most its
      own session; Redis keeps record and indexes consistent; the one race and
      the reserved identifiers the code has; the store is configured once.
    - Creation, deletion, collection: a creation is atomic towards the store,
      leaves no object behind when it fails, its waits end, its errors are
      opaque, its owner is authenticated; deletion branch by branch; the
      collector removes exactly the idle and expired sessions in its window; among
      other clients it removes only what was so when listed, and may remove a
      session touched since; its loop drains a backlog of expired sessions, a
      hundred at a tick, and index entries that a broken deletion leaves behind
      can stall it.
    - Access: who reaches which sandbox through the router; the workload
      manager serves only reviewed tokens; the identity the router signs is the
      one the workload manager reads; PicoD accepts what the router signs and runs
      nothing for other callers; the replicas of the router share one key; the transport is never weaker than
      asked for and the router accepts no server but the workload manager;
      certificates rotate as a pair.
    - Composition: a session created by a call of the router that the workload
      manager serves is recorded once, with the caller as owner, and later calls
      reach it, for this caller only; what the router forwards to a sandbox runs the handler
      of PicoD in a container as the workload manager describes it.
    - Memory: generated copies share nothing with the original; the builders
      return what the pure ones return and never write to the informer cache.
    - Clients: every informer runs once and none after shutdown; the listers read
      the caches that are started and waited for; a user's client presents the
      token of the user.
    - Concurrency: watchers of the sandbox controller get their own sandbox and
      are not forgotten; the limiter's bound; the shutdown order of the
      workload manager; the requests that the exit of the router and of PicoD
      cuts off.
    - PicoD: the path jail, command execution, upload and download as a round
      trip, and the way out of the jail through the upload of a new file below a
      link.
    - Caches: both are bounded LRU caches with the freshness their users rely on.

    ** Fuel

    Loops that are not structural take fuel that theorems show to be enough:
    [Wm.claim_loop] (one round per second up to the two-minute timeout),
    [K8s.probe_loop] with [probe_fuel] (timeout divided by interval, plus two)
    in [creation_waits_terminate]; [Mtls.wait_loop] with [wait_fuel] (timeout
    divided by half a second, plus two) in [certificate_wait_ends];
    [Picod.deepest] takes the length of the path, as every round removes a
    character ([PicodTheorems]); [Gc.run_loop] takes the number of ticks, as the
    loop has no other end than its context; [Sha256.blocks] the length of the padded
    message. The walk of [PW] is limited to 255 links and components, as
    operating systems limit it.

    ** Not modelled

    Logging and metrics; the transport (sockets, HTTP and TLS framing, gzip);
    the requests of the generated client and the reflectors behind the informers,
    which are of client-go, and the fake clientset for tests; controller-runtime
    behind the controllers; parsing of command lines; the Python command line and
    SDK; manifests. *)

From Stdlib Require Import Sorted.
From stdpp Require Import base tactics numbers list gmap strings pretty sorting.

(** ** Scope, options *)

Declare Scope cube_scope.
Delimit Scope cube_scope with cube.
#[global] Open Scope Z_scope.

Create HintDb cube discriminated.
#[export] Hint Constants Opaque : cube.
#[export] Hint Variables Opaque : cube.

(** ** Tactics *)

(** Case split on the innermost scrutinee of a [match] or [if] in the goal,
    remembering the equation. *)
Ltac split_match :=
  match goal with
  | |- context [match ?x with _ => _ end] =>
      lazymatch x with
      | context [match _ with _ => _ end] => fail
      | _ => destruct x eqn:?
      end
  end.

(** The same in a hypothesis. *)
Ltac split_match_in H :=
  match type of H with
  | context [match ?x with _ => _ end] =>
      lazymatch x with
      | context [match _ with _ => _ end] => fail
      | _ => destruct x eqn:?
      end
  end.

(** Turn the boolean tests of the code into propositions. *)
Ltac b2p :=
  repeat match goal with
  | H : negb _ = true |- _ => apply negb_true_iff in H
  | H : negb _ = false |- _ => apply negb_false_iff in H
  | H : (_ && _)%bool = true |- _ => apply andb_true_iff in H as [? ?]
  | H : (_ || _)%bool = false |- _ => apply orb_false_iff in H as [? ?]
  | H : bool_decide _ = true |- _ => apply bool_decide_eq_true in H
  | H : bool_decide _ = false |- _ => apply bool_decide_eq_false in H
  | H : (_ =? _)%string = true |- _ => apply String.eqb_eq in H
  | H : (_ =? _)%string = false |- _ => apply String.eqb_neq in H
  | H : (_ =? _) = true |- _ => apply Z.eqb_eq in H
  | H : (_ =? _) = false |- _ => apply Z.eqb_neq in H
  | H : (_ <? _) = true |- _ => apply Z.ltb_lt in H
  | H : (_ <? _) = false |- _ => apply Z.ltb_ge in H
  | H : (_ <=? _) = true |- _ => apply Z.leb_le in H
  | H : (_ <=? _) = false |- _ => apply Z.leb_gt in H
  end.

Ltac crush := repeat (simplify_eq/=; b2p; try done; try split_match).

(** ** Machine integers

    Go's [int64] arithmetic wraps around; [wrap64] is the representative of a
    residue class in [-2^63, 2^63). *)

Definition int64_min : Z := - 2 ^ 63.
Definition int64_max : Z := 2 ^ 63 - 1.

Definition wrap64 (z : Z) : Z := (z + 2 ^ 63) `mod` 2 ^ 64 - 2 ^ 63.

Definition in_int64 (z : Z) : Prop := int64_min <= z <= int64_max.

Lemma wrap64_id z : in_int64 z -> wrap64 z = z.
Proof.
  unfold in_int64, int64_min, int64_max, wrap64. intros H.
  rewrite Z.mod_small; lia.
Qed.

Lemma wrap64_range z : in_int64 (wrap64 z).
Proof.
  unfold in_int64, int64_min, int64_max, wrap64.
  pose proof (Z.mod_pos_bound (z + 2 ^ 63) (2 ^ 64) ltac:(lia)). lia.
Qed.

(** [float64(z)] for an [int64] [z]: round to nearest, ties to even, at 53
    significant bits. The result of the conversion is always an integer, so it
    is kept in [Z]. *)
Definition float64_of_int (z : Z) : Z :=
  let e := Z.log2 (Z.abs z) - 52 in
  if e <=? 0 then z
  else
    let m := 2 ^ e in
    let q := Z.abs z / m in
    let r := Z.abs z `mod` m in
    let q' := if (2 * r <? m) || ((2 * r =? m) && Z.even q) then q else q + 1 in
    Z.sgn z * (q' * m).

Lemma float64_of_int_exact z : Z.abs z < 2 ^ 53 -> float64_of_int z = z.
Proof.
  intros H. unfold float64_of_int. destruct (decide (z = 0)) as [->|Hz]; [done|].
  assert (Z.log2 (Z.abs z) < 53) by (apply Z.log2_lt_pow2; lia).
  destruct (Z.leb_spec (Z.log2 (Z.abs z) - 52) 0); [done|lia].
Qed.

(** ** Lists *)

Section lists.
Context {A : Type}.
Implicit Types l : list A.

Lemma omap_app_comm {B} (f : A -> option B) l1 l2 :
  omap f (l1 ++ l2) = omap f l1 ++ omap f l2.
Proof. induction l1 as [|x l1 IH]; cbn; [done|]. destruct (f x); cbn; by rewrite IH. Qed.

Lemma omap_fmap_comp {B C} (f : B -> option C) (h : A -> B) l :
  omap f (h <$> l) = omap (fun x => f (h x)) l.
Proof. induction l as [|x l IH]; cbn; [done|]. destruct (f (h x)); by rewrite IH. Qed.

Lemma Sorted_weaken (R Q : relation A) l :
  (forall a b, R a b -> Q a b) -> Sorted R l -> Sorted Q l.
Proof.
  intros H. induction 1 as [|x l HS IH Hd]; constructor; [done|].
  destruct Hd; constructor; auto.
Qed.

(** Strong sortedness survives filtering, truncation and partial maps. *)
Lemma StronglySorted_filter (R : relation A) (P : A -> Prop) `{!forall x, Decision (P x)} l :
  StronglySorted R l -> StronglySorted R (filter P l).
Proof.
  induction 1 as [|x l HS IH HF]; [constructor|]. rewrite filter_cons.
  case_decide; [|done]. constructor; [done|]. apply Forall_forall. intros y Hy.
  apply list_elem_of_filter in Hy as [_ Hy]. rewrite Forall_forall in HF. by apply HF.
Qed.

Lemma StronglySorted_take (R : relation A) n l :
  StronglySorted R l -> StronglySorted R (take n l).
Proof.
  intros HS. revert n. induction HS as [|x l HS IH HF]; intros [|n]; cbn; try constructor.
  - apply IH.
  - by apply Forall_take.
Qed.

Lemma StronglySorted_omap {B} (R : relation A) (Q : relation B) (f : A -> option B) l :
  (forall x y a b, x ∈ l -> y ∈ l -> f x = Some a -> f y = Some b -> R x y -> Q a b) ->
  StronglySorted R l -> StronglySorted Q (omap f l).
Proof.
  intros Hf HS. induction HS as [|x l HS IH HF]; [constructor|]. cbn.
  assert (StronglySorted Q (omap f l)) by (apply IH; intros; eapply (Hf x0 y); eauto; by constructor).
  destruct (f x) as [b|] eqn:E; [|done]. constructor; [done|].
  apply Forall_forall. intros c Hc. apply list_elem_of_omap in Hc as (y & Hy & Hc).
  rewrite Forall_forall in HF. eapply (Hf x y); eauto; by constructor.
Qed.

Lemma length_omap_le {B} (f : A -> option B) l : (length (omap f l) <= length l)%nat.
Proof. induction l as [|x l IH]; cbn; [lia|]. destruct (f x); cbn; lia. Qed.

Lemma elem_of_take_self n l x : x ∈ take n l -> x ∈ l.
Proof. intros H. rewrite <- (take_drop n l). set_solver. Qed.

Lemma NoDup_take n l : NoDup l -> NoDup (take n l).
Proof. intros H. rewrite <- (take_drop n l) in H. by apply NoDup_app in H as [? _]. Qed.
End lists.

#[export] Hint Resolve NoDup_take elem_of_take_self : cube.
