(* ===== verification/GoStrings.v ===== *)
(** * The parts of Go's [strings], [strconv] and [net] packages the code uses

    Go strings are byte strings; here they are [string], one [ascii] per byte.
    Case mapping and white space are the ASCII ones: the only literals the
    program compares after [strings.ToLower] or [strings.EqualFold] are ASCII
    ("Bearer", "redis", "false", "https", "connection refused", ...). *)

From Stdlib Require Import Ascii.
From stdpp Require Import base list strings pretty.
From S2P Require Import Prelude.

Module Strs.

(** [strings.HasPrefix(s, p)] *)
Definition HasPrefix (s p : string) : bool := String.prefix p s.

Fixpoint drop (n : nat) (s : string) : string :=
  match n, s with
  | O, _ => s
  | S n, String _ s => drop n s
  | S _, EmptyString => EmptyString
  end.

(** [strings.TrimPrefix(s, p)] *)
Definition TrimPrefix (s p : string) : string :=
  if HasPrefix s p then drop (String.length p) s else s.

(** [strings.Contains(s, sub)] *)
Fixpoint Contains (s sub : string) : bool :=
  HasPrefix s sub ||
  match s with
  | EmptyString => false
  | String _ s' => Contains s' sub
  end.

Definition lower_ascii (c : ascii) : ascii :=
  let n := Ascii.nat_of_ascii c in
  if ((65 <=? n) && (n <=? 90))%nat then Ascii.ascii_of_nat (n + 32) else c.

(** [strings.ToLower(s)] *)
Fixpoint ToLower (s : string) : string :=
  match s with
  | EmptyString => EmptyString
  | String c s => String (lower_ascii c) (ToLower s)
  end.

(** [strings.EqualFold(a, b)] *)
Definition EqualFold (a b : string) : bool := String.eqb (ToLower a) (ToLower b).

(** [strings.Split(s, sep)] for a one-byte separator: never empty. *)
Fixpoint Split (sep : ascii) (s : string) : list string :=
  match s with
  | EmptyString => [EmptyString]
  | String c s' =>
      if Ascii.eqb c sep then EmptyString :: Split sep s'
      else match Split sep s' with
           | [] => [String c EmptyString]
           | w :: ws => String c w :: ws
           end
  end.

(** [strings.Cut(s, sep)]: the part before the first separator, and the part
    after it when there is one. *)
Fixpoint Cut (sep : ascii) (s : string) : string * option string :=
  match s with
  | EmptyString => (EmptyString, None)
  | String c s' =>
      if Ascii.eqb c sep then (EmptyString, Some s')
      else let '(a, b) := Cut sep s' in (String c a, b)
  end.

(** [strings.SplitN(s, sep, n)] for [n > 0]: at most [n] parts, the last one
    keeps the rest unsplit. *)
Fixpoint SplitN (sep : ascii) (n : nat) (s : string) : list string :=
  match n with
  | O => []
  | S O => [s]
  | S n' => match Cut sep s with
            | (a, None) => [a]
            | (a, Some b) => a :: SplitN sep n' b
            end
  end.

(** [strings.Join(l, sep)] *)
Fixpoint Join (l : list string) (sep : string) : string :=
  match l with
  | [] => ""
  | [s] => s
  | s :: l => s +:+ sep +:+ Join l sep
  end.

Definition is_space (c : ascii) : bool :=
  let n := Ascii.nat_of_ascii c in ((n =? 32) || ((9 <=? n) && (n <=? 13)))%nat.

Fixpoint trim_left (s : string) : string :=
  match s with
  | String c s' => if is_space c then trim_left s' else s
  | EmptyString => EmptyString
  end.

Fixpoint trim_right (s : string) : string :=
  match s with
  | EmptyString => EmptyString
  | String c s' =>
      match trim_right s' with
      | EmptyString => if is_space c then EmptyString else String c EmptyString
      | r => String c r
      end
  end.

(** [strings.TrimSpace(s)] *)
Definition TrimSpace (s : string) : string := trim_right (trim_left s).

(** [strings.Fields(s)]: the maximal runs of non-space bytes. [cur] is the run
    being read, reversed by accumulation through [String.append]. *)
Fixpoint fields_go (cur : string) (s : string) : list string :=
  match s with
  | EmptyString => if String.eqb cur "" then [] else [cur]
  | String c s' =>
      if is_space c
      then if String.eqb cur "" then fields_go "" s' else cur :: fields_go "" s'
      else fields_go (cur +:+ String c EmptyString) s'
  end.

Definition Fields (s : string) : list string := fields_go "" s.

(** [strconv.Itoa] *)
Definition Itoa (z : Z) : string := pretty z.

(** [strconv.Quote] ([%q]): the escapes of ASCII; bytes from 128 on are kept. *)
Definition dquote : string := String "034"%char "".

Definition hex_digit (n : N) : ascii :=
  ascii_of_N (if (n <? 10)%N then 48 + n else 87 + n)%N.

Definition escape_char (c : ascii) : string :=
  let n := N_of_ascii c in
  if (n =? 34)%N then "\" +:+ dquote
  else if (n =? 92)%N then "\\"
  else if (n =? 7)%N then "\a" else if (n =? 8)%N then "\b" else if (n =? 12)%N then "\f"
  else if (n =? 10)%N then "\n" else if (n =? 13)%N then "\r" else if (n =? 9)%N then "\t"
  else if (n =? 11)%N then "\v"
  else if ((n <? 32) || (n =? 127))%N then
    "\x" +:+ String (hex_digit (n / 16)) (String (hex_digit (n mod 16)) "")
  else String c "".

Fixpoint escape (s : string) : string :=
  match s with EmptyString => "" | String c s => escape_char c +:+ escape s end.

Definition Quote (s : string) : string := dquote +:+ escape s +:+ dquote.

(** [net.JoinHostPort(host, port)]: a host with a colon (IPv6) is bracketed. *)
Definition JoinHostPort (host port : string) : string :=
  if Contains host ":" then "[" +:+ host +:+ "]:" +:+ port
  else host +:+ ":" +:+ port.

(** No occurrence of a byte. *)
Fixpoint free_of (c : ascii) (s : string) : bool :=
  match s with
  | EmptyString => true
  | String d s => negb (Ascii.eqb d c) && free_of c s
  end.

(** ** Facts *)

Lemma append_nil_l s : "" +:+ s = s.
Proof. reflexivity. Qed.

Lemma append_cons c s t : String c s +:+ t = String c (s +:+ t).
Proof. reflexivity. Qed.

Ltac str := simpl in *; rewrite ?append_nil_l, ?append_cons in *; simpl in *.

Lemma append_nil_r s : s +:+ "" = s.
Proof. induction s as [|c s IH]; str; [done|]. by rewrite IH. Qed.

Lemma append_assoc a b c : (a +:+ b) +:+ c = a +:+ (b +:+ c).
Proof. induction a as [|x a IH]; str; [done|]. by rewrite IH. Qed.

Lemma prefix_append p s : String.prefix p (p +:+ s) = true.
Proof.
  induction p as [|c p IH]; str; [by destruct s|]. destruct (Ascii.ascii_dec c c); [done|congruence].
Qed.

Lemma prefix_spec p s : String.prefix p s = true -> exists r, s = p +:+ r.
Proof.
  revert s. induction p as [|c p IH]; intros s H; [by exists s|].
  destruct s as [|d s]; str; [done|].
  destruct (Ascii.ascii_dec c d) as [->|]; [|done].
  destruct (IH _ H) as [r ->]. by exists r.
Qed.

Lemma drop_append p s : drop (String.length p) (p +:+ s) = s.
Proof. induction p as [|c p IH]; str; done. Qed.

Lemma TrimPrefix_append p s : TrimPrefix (p +:+ s) p = s.
Proof. unfold TrimPrefix, HasPrefix. by rewrite prefix_append, drop_append. Qed.

Lemma Split_nonempty sep s : Split sep s <> [].
Proof.
  destruct s as [|c s]; str; [done|]. destruct (Ascii.eqb c sep); [done|].
  by destruct (Split sep s).
Qed.

(** Joining the parts gives the string back. *)
Lemma Join_Split sep s : Join (Split sep s) (String sep EmptyString) = s.
Proof.
  induction s as [|c s IH]; [done|]. cbn [Split].
  destruct (Ascii.eqb_spec c sep) as [->|Hne].
  - destruct (Split sep s) as [|w ws] eqn:E; [by apply Split_nonempty in E|].
    by rewrite <- IH.
  - destruct (Split sep s) as [|w ws] eqn:E; [by apply Split_nonempty in E|].
    rewrite <- IH. destruct ws; [done|]. cbn [Join]. by rewrite append_cons.
Qed.

(** No part contains the separator. *)
Lemma Split_free sep s : Forall (fun w => free_of sep w = true) (Split sep s).
Proof.
  induction s as [|c s IH]; cbn [Split]; [by repeat constructor|].
  destruct (Ascii.eqb c sep) eqn:E; [by constructor|].
  destruct (Split sep s) as [|w ws].
  - repeat constructor. str. by rewrite E.
  - inversion IH; subst. constructor; [|done]. str. by rewrite E.
Qed.

(** A part without the separator is split off whole. *)
Lemma Split_app sep a b :
  free_of sep a = true -> Split sep (a +:+ String sep b) = a :: Split sep b.
Proof.
  intros Ha. induction a as [|c a IH]; str; [by rewrite Ascii.eqb_refl|].
  apply andb_true_iff in Ha as [Hc Ha]. apply negb_true_iff in Hc. by rewrite Hc, (IH Ha).
Qed.

Lemma Split_self sep a : free_of sep a = true -> Split sep a = [a].
Proof.
  intros Ha. induction a as [|c a IH]; str; [done|].
  apply andb_true_iff in Ha as [Hc Ha]. apply negb_true_iff in Hc. by rewrite Hc, (IH Ha).
Qed.

(** Two decompositions around a separator that occurs in neither left part
    agree. *)
Lemma free_append_inj sep a b a' b' :
  free_of sep a = true -> free_of sep a' = true ->
  a +:+ String sep b = a' +:+ String sep b' -> a = a' /\ b = b'.
Proof.
  revert a'. induction a as [|c a IH]; intros [|c' a'] Ha Ha' H; str.
  - by simplify_eq.
  - injection H as -> _. by rewrite Ascii.eqb_refl in Ha'.
  - injection H as <- _. by rewrite Ascii.eqb_refl in Ha.
  - injection H as -> H. apply andb_true_iff in Ha as [_ Ha].
    apply andb_true_iff in Ha' as [_ Ha'].
    destruct (IH _ Ha Ha' H) as [-> ->]. done.
Qed.

Lemma Cut_some sep a b :
  free_of sep a = true -> Cut sep (a +:+ String sep b) = (a, Some b).
Proof.
  intros Ha. induction a as [|c a IH]; str; [by rewrite Ascii.eqb_refl|].
  apply andb_true_iff in Ha as [Hc Ha]. apply negb_true_iff in Hc. by rewrite Hc, (IH Ha).
Qed.

Lemma Cut_inv sep s a b :
  Cut sep s = (a, Some b) -> s = a +:+ String sep b /\ free_of sep a = true.
Proof.
  revert a. induction s as [|c s IH]; intros a H; str; [done|].
  destruct (Ascii.eqb_spec c sep) as [->|Hne]; [by simplify_eq|].
  destruct (Cut sep s) as [a' b'] eqn:E. simplify_eq.
  destruct (IH a' eq_refl) as [-> Hf]. split; [done|].
  str. rewrite Hf. by destruct (Ascii.eqb_spec c sep).
Qed.

Lemma SplitN_2_some sep a b :
  free_of sep a = true -> SplitN sep 2 (a +:+ String sep b) = [a; b].
Proof. intros Ha. cbn [SplitN]. by rewrite Cut_some. Qed.

Lemma SplitN_2_inv sep s a b :
  SplitN sep 2 s = [a; b] -> s = a +:+ String sep b /\ free_of sep a = true.
Proof.
  cbn [SplitN]. destruct (Cut sep s) as [a' [b'|]] eqn:E; intros H; simplify_eq.
  by apply Cut_inv.
Qed.

End Strs.

#[export] Hint Resolve Strs.Split_nonempty Strs.Split_free : cube.
