(* ===== verification/GoTime.v ===== *)
(** * Go's [time] package as the code uses it

    A [Time] is the number of nanoseconds since the zero [time.Time]
    (January 1, year 1, 00:00:00 UTC), so [IsZero] is the test against [0].
    Seconds are kept at Go's width: [time.Unix] wraps the internal second
    counter at 64 bits and [Time.Add] saturates it, as [time.Time] does.
    A [Duration] is an [int64] number of nanoseconds. *)

From stdpp Require Import base numbers strings.
From S2P Require Import Prelude GoStrings.

Abbreviation Time := Z.
Abbreviation Duration := Z.

Module Tm.

Definition Nanosecond : Duration := 1.
Definition Millisecond : Duration := 1000000.
Definition Second : Duration := 1000000000.
Definition Minute : Duration := 60 * Second.
Definition Hour : Duration := 60 * Minute.

(** [time.Time{}] *)
Definition zero : Time := 0.

(** Seconds from year 1 to the Unix epoch. *)
Definition unixToInternal : Z := 62135596800.

Definition IsZero (t : Time) : bool := t =? 0.

(** [t.Unix()] *)
Definition Unix (t : Time) : Z := wrap64 (t / Second - unixToInternal).

(** [time.Unix(sec, 0)] *)
Definition OfUnix (sec : Z) : Time := wrap64 (sec + unixToInternal) * Second.

Definition sat_sec (s : Z) : Z :=
  if int64_max <? s then int64_max else if s <? int64_min then - int64_max else s.

(** [t.Add(d)]: the second counter saturates. *)
Definition Add (t : Time) (d : Duration) : Time :=
  sat_sec ((t + d) / Second) * Second + (t + d) `mod` Second.

Definition Before (a b : Time) : bool := a <? b.
Definition After (a b : Time) : bool := b <? a.

(** [a.Sub(b)]: saturates at the [Duration] range. *)
Definition Sub (a b : Time) : Duration := Z.max int64_min (Z.min int64_max (a - b)).

(** Instants for which no second counter overflows when a [Duration] is added;
    it spans more than 100 billion years around the zero time. *)
Definition sane (t : Time) : Prop := - 2 ^ 62 * Second <= t <= 2 ^ 62 * Second.

Lemma Add_exact t d : sane t -> in_int64 d -> Add t d = t + d.
Proof.
  unfold sane, in_int64, int64_min, int64_max, Add, sat_sec, int64_min, int64_max, Second.
  intros Ht Hd.
  assert (- 2 ^ 63 <= (t + d) / 1000000000 <= 2 ^ 63 - 1) as Hb.
  { split; [apply Z.div_le_lower_bound; lia|].
    apply Z.lt_succ_r. apply Z.div_lt_upper_bound; lia. }
  destruct (Z.ltb_spec (2 ^ 63 - 1) ((t + d) / 1000000000)); [lia|].
  destruct (Z.ltb_spec ((t + d) / 1000000000) (- 2 ^ 63)); [lia|].
  rewrite (Z_div_mod_eq_full (t + d) 1000000000) at 3. lia.
Qed.

Lemma Unix_exact t : sane t -> Unix t = t / Second - unixToInternal.
Proof.
  unfold sane, Unix, Second, unixToInternal. intros Ht. apply wrap64_id.
  unfold in_int64, int64_min, int64_max.
  assert (- 2 ^ 62 <= t / 1000000000 <= 2 ^ 62); [|lia].
  split; [apply Z.div_le_lower_bound; lia|apply Z.div_le_upper_bound; lia].
Qed.

(** [time.Unix(t.Unix(), 0)] is [t] truncated to the second. *)
Lemma OfUnix_Unix t : sane t -> OfUnix (Unix t) = t / Second * Second.
Proof.
  intros Ht. unfold OfUnix. rewrite Unix_exact by done.
  replace (t / Second - unixToInternal + unixToInternal) with (t / Second) by lia.
  rewrite wrap64_id; [done|].
  revert Ht. unfold sane, in_int64, int64_min, int64_max, Second. intros Ht.
  assert (- 2 ^ 62 <= t / 1000000000 <= 2 ^ 62); [|lia].
  split; [apply Z.div_le_lower_bound; lia|apply Z.div_le_upper_bound; lia].
Qed.

(** Unix seconds are monotone on sane instants. *)
Lemma Unix_mono a b : sane a -> sane b -> a <= b -> Unix a <= Unix b.
Proof.
  intros Ha Hb H. rewrite !Unix_exact by done.
  assert (a / Second <= b / Second) by (apply Z.div_le_mono; [unfold Second; lia|done]). lia.
Qed.

(** ** [Duration.String] *)

(** Fractional digits of [v] over [prec] places, without trailing zeros, and
    the integral part ([fmtFrac]). *)
Fixpoint fmtFrac (prec : nat) (v : Z) (print : bool) (acc : string) : string * Z :=
  match prec with
  | O => ((if print then "." +:+ acc else acc), v)
  | S prec =>
      let digit := v `mod` 10 in
      let print := print || negb (digit =? 0) in
      fmtFrac prec (v / 10) print (if print then Strs.Itoa digit +:+ acc else acc)
  end.

Definition unit_str (prec : nat) (u : Z) (suffix : string) : string :=
  let '(frac, n) := fmtFrac prec u false "" in Strs.Itoa n +:+ frac +:+ suffix.

(** [d.String()] *)
Definition String_ (d : Duration) : string :=
  let u := Z.abs d in
  let sign := if d <? 0 then "-" else "" in
  if u <? Second then
    if u =? 0 then "0s"
    else if u <? 1000 then sign +:+ Strs.Itoa u +:+ "ns"
    else if u <? Millisecond then sign +:+ unit_str 3 u "µs"
    else sign +:+ unit_str 6 u "ms"
  else
    let '(frac, s) := fmtFrac 9 u false "" in
    let m := s / 60 in
    let h := m / 60 in
    sign +:+ (if 0 <? m then (if 0 <? h then Strs.Itoa h +:+ "h" else "") +:+ Strs.Itoa (m `mod` 60) +:+ "m" else "")
      +:+ Strs.Itoa (s `mod` 60) +:+ frac +:+ "s".

Example String_default : String_ (15 * Minute) = "15m0s".
Proof. reflexivity. Qed.
Example String_frac : String_ (90 * Minute + 1500 * Millisecond) = "1h30m1.5s".
Proof. reflexivity. Qed.
Example String_ms : String_ (-1500000) = "-1.5ms".
Proof. reflexivity. Qed.

(** A [time.Ticker] of period [d] started at [start], received from at [now]: when
    its next tick is due. Ticks of a receiver that is late are dropped. *)
Definition nextTick (start : Time) (d : Duration) (now : Time) : Time := start + ((now - start) / d + 1) * d.

Lemma nextTick_after start d k now : 0 < d -> start + k * d <= now -> start + (k + 1) * d <= nextTick start d now.
Proof.
  intros Hd Hk. unfold nextTick. assert (k <= (now - start) / d) by (apply Z.div_le_lower_bound; lia). nia.
Qed.

End Tm.

(** Instants whose Unix seconds a [float64] holds exactly. *)
Definition in_era (t : Time) : Prop := Tm.OfUnix 0 <= t <= Tm.OfUnix (2 ^ 50).

Lemma in_era_sane t d : in_era t -> 0 <= d <= 5 * Tm.Minute -> Tm.sane t /\ Tm.sane (t + d).
Proof.
  assert (Tm.OfUnix 0 = 62135596800 * Tm.Second /\ Tm.OfUnix (2 ^ 50) = (2 ^ 50 + 62135596800) * Tm.Second) as [H1 H2]
    by (split; reflexivity).
  unfold in_era, Tm.sane. rewrite H1, H2. unfold Tm.Minute, Tm.Second. lia.
Qed.

#[export] Hint Resolve Tm.Add_exact : cube.
