(* ===== verification/GoError.v ===== *)
(** * Go errors, results and the API errors of [pkg/api/errors.go]

    An [error] value is a finite tree: sentinel values created by
    [errors.New], texts that wrap nothing, [fmt.Errorf] with one or two [%w]
    verbs, and the Kubernetes [StatusError], which carries a [metav1.Status]
    and wraps nothing. [errors.Is] walks the tree as the language documents.

    [apimachinery]'s error constructors and predicates are not part of the
    repository: they are the class [ApiErrors], with the documented behaviour
    the code relies on as its laws. *)

From stdpp Require Import base list strings.
From S2P Require Import Prelude GoStrings.

(** ** Error values *)

(** Sentinel errors: package [store], package [api], package
    [workloadmanager], and the ones of [context] and [io]. *)
Inductive sentinel :=
  | ErrNotFound                            (* store.ErrNotFound *)
  | ErrAgentRuntimeNotFound | ErrCodeInterpreterNotFound
  | ErrTemplateMissing | ErrPublicKeyMissing
  | errSandboxCreationTimeout | errSandboxReadyWatcherNotRegistered
  | errSandboxReadyWatcherClosed | errSandboxReadyWatcherMissingSandbox
  | ErrNoIdentityHeader | ErrPublicKeyNotCached | ErrVerificationFailed
  | ctxCanceled | ctxDeadlineExceeded
  | ioEOF | ioErrUnexpectedEOF.

#[export] Instance sentinel_eq_dec : EqDecision sentinel.
Proof. solve_decision. Defined.

Definition sentinel_text (s : sentinel) : string :=
  match s with
  | ErrNotFound => "store: not found"
  | ErrAgentRuntimeNotFound => "agent runtime not found"
  | ErrCodeInterpreterNotFound => "code interpreter not found"
  | ErrTemplateMissing => "resource has no pod template"
  | ErrPublicKeyMissing => "public key not yet loaded from Router Secret"
  | errSandboxCreationTimeout => "sandbox creation timed out"
  | errSandboxReadyWatcherNotRegistered => "sandbox ready watcher not registered"
  | errSandboxReadyWatcherClosed => "sandbox ready watcher closed before sandbox was ready"
  | errSandboxReadyWatcherMissingSandbox => "sandbox ready watcher returned empty sandbox"
  | ErrNoIdentityHeader => "identity header absent"
  | ErrPublicKeyNotCached => "identity verifier public key not cached"
  | ErrVerificationFailed => "identity token verification failed"
  | ctxCanceled => "context canceled"
  | ctxDeadlineExceeded => "context deadline exceeded"
  | ioEOF => "EOF"
  | ioErrUnexpectedEOF => "unexpected EOF"
  end.

(** The fields of [metav1.Status] the code reads. *)
Record Status := { Reason : string; Code : Z; Message : string }.

Inductive goerr :=
  | ESent (s : sentinel)
  | EText (msg : string)
  | EWrap (pre : string) (e : goerr) (post : string)
  | EJoin (e1 e2 : goerr)
  | EStatus (st : Status).

(** [err.Error()] *)
Fixpoint Error (e : goerr) : string :=
  match e with
  | ESent s => sentinel_text s
  | EText m => m
  | EWrap pre e post => pre +:+ Error e +:+ post
  | EJoin a b => Error a +:+ ": " +:+ Error b
  | EStatus st => Message st
  end.

(** [errors.Is(err, target)] for a sentinel target *)
Fixpoint Is (e : goerr) (t : sentinel) : bool :=
  match e with
  | ESent s => bool_decide (s = t)
  | EText _ => false
  | EWrap _ e _ => Is e t
  | EJoin a b => Is a t || Is b t
  | EStatus _ => false
  end.

(** [fmt.Errorf("<pre>: %w", e)] *)
Definition Wrapf (pre : string) (e : goerr) : goerr := EWrap (pre +:+ ": ") e "".

(** ** Results

    A Go function that returns [(T, error)] returns [res T]; one that returns
    only [error] returns [option goerr], [None] for [nil]. *)
Inductive res (A : Type) := Ok (a : A) | Err (e : goerr).
Arguments Ok {A} a.
Arguments Err {A} e.

Definition is_ok {A} (r : res A) : bool := match r with Ok _ => true | Err _ => false end.

Definition res_err {A} (r : res A) : option goerr :=
  match r with Ok _ => None | Err e => Some e end.

(** Early return on error, the error wrapped by [f]. *)
Definition bindE {A B} (f : goerr -> goerr) (r : res A) (k : A -> res B) : res B :=
  match r with Ok a => k a | Err e => Err (f e) end.

Notation "'try' x '<-' r 'wrap' f ';' k" := (bindE f r (fun x => k))
  (at level 100, x pattern, r at next level, f at next level, right associativity,
   format "'[v' 'try'  x  '<-'  r  'wrap'  f ';' '/' k ']'") : cube_scope.

Lemma bindE_ok {A B} f (r : res A) (k : A -> res B) b :
  bindE f r k = Ok b <-> exists a, r = Ok a /\ k a = Ok b.
Proof. destruct r; cbn; split; [eauto| |done|]; intros (? & ? & ?); by simplify_eq. Qed.

(** ** Kubernetes API errors (third-party: [k8s.io/apimachinery]) *)

Record GroupResource := { Group : string; Resource : string }.

(** [apierrors] constructors and predicates, with what their documentation
    says: the constructors build a status of the given reason and code, the
    predicates recognise it also through wrapping. *)
Class ApiErrors := {
  NewNotFound : GroupResource -> string -> Status;
  NewServiceUnavailable : string -> Status;
  NewInternalErrorStatus : goerr -> Status;
  IsNotFound : goerr -> bool;
  IsAlreadyExists : goerr -> bool;
  IsTimeout : goerr -> bool;
  IsServerTimeout : goerr -> bool;
  IsTooManyRequests : goerr -> bool;
  IsServiceUnavailable : goerr -> bool;
  IsInternalError : goerr -> bool;
  IsUnexpectedServerError : goerr -> bool;
}.

Class ApiErrorLaws `{ApiErrors} : Prop := {
  NotFound_code gr n : Code (NewNotFound gr n) = 404;
  InternalError_code e : Code (NewInternalErrorStatus e) = 500;
  IsInternalError_New e : IsInternalError (EStatus (NewInternalErrorStatus e)) = true;
  IsNotFound_New gr n : IsNotFound (EStatus (NewNotFound gr n)) = true;
  IsNotFound_wrap pre e post : IsNotFound (EWrap pre e post) = IsNotFound e;
}.

(** A concrete implementation of the interface, used where a statement is
    evaluated: predicates read the reason of the first status of the chain. *)
Module ApiModel.
Fixpoint reason_of (e : goerr) : string :=
  match e with
  | EStatus st => Reason st
  | EWrap _ e _ => reason_of e
  | EJoin a b => if String.eqb (reason_of a) "" then reason_of b else reason_of a
  | _ => ""
  end.

Definition has_reason (r : string) (e : goerr) : bool := String.eqb (reason_of e) r.

#[export] Instance api : ApiErrors := {
  NewNotFound gr n :=
    {| Reason := "NotFound"; Code := 404;
       Message := Resource gr +:+ "." +:+ Group gr +:+ " " +:+ n +:+ " not found" |};
  NewServiceUnavailable m :=
    {| Reason := "ServiceUnavailable"; Code := 503; Message := m |};
  NewInternalErrorStatus e :=
    {| Reason := "InternalError"; Code := 500;
       Message := "Internal error occurred: " +:+ Error e |};
  IsNotFound := has_reason "NotFound";
  IsAlreadyExists := has_reason "AlreadyExists";
  IsTimeout := has_reason "Timeout";
  IsServerTimeout := has_reason "ServerTimeout";
  IsTooManyRequests := has_reason "TooManyRequests";
  IsServiceUnavailable := has_reason "ServiceUnavailable";
  IsInternalError := has_reason "InternalError";
  IsUnexpectedServerError := has_reason "UnexpectedServerError";
}.

#[export] Instance api_laws : ApiErrorLaws.
Proof. by split. Qed.
End ApiModel.

(** ** [pkg/api/errors.go] *)

Module Api.
Section api.
Context `{!ApiErrors}.

Definition resourceGroup : string := "agentcube.volcano.sh".
Definition sessionResource : GroupResource :=
  {| Group := resourceGroup; Resource := "sessions" |}.
Definition agentRuntimeResource : GroupResource :=
  {| Group := resourceGroup; Resource := "agentruntimes" |}.
Definition codeInterpreterResource : GroupResource :=
  {| Group := resourceGroup; Resource := "codeinterpreters" |}.

Definition NewSessionNotFoundError (sessionID : string) : goerr :=
  EStatus (NewNotFound sessionResource sessionID).

Definition workloadResource (kind : string) : GroupResource :=
  if String.eqb kind "CodeInterpreter" then codeInterpreterResource
  else agentRuntimeResource.

Definition NewSandboxTemplateNotFoundError (namespace name kind : string) : goerr :=
  EStatus (NewNotFound (workloadResource kind) (namespace +:+ "/" +:+ name)).

Definition NewUpstreamUnavailableError (err : goerr) : goerr :=
  EStatus (NewServiceUnavailable (Error err)).

Definition NewInternalError (err : goerr) : goerr :=
  EStatus (NewInternalErrorStatus err).
End api.
End Api.
