(* ===== verification/GoContext.v ===== *)
(** * Go's [context]

    A context is described by the instant at which it ends, if it does, with
    the error ([Err]) and the cause ([Cause]) it then has. A request context
    is an input of the handlers; derived contexts are computed, the first of
    the parent's end and the own deadline deciding. Deadlines are differences
    of monotonic clock readings, so they are plain sums. *)

From stdpp Require Import base numbers.
From S2P Require Import Prelude GoTime GoError.

Module Ctx.

Record Context := { ends : option Time; endErr : goerr; endCause : goerr }.

(** [context.Background()] *)
Definition Background : Context :=
  {| ends := None; endErr := ESent ctxCanceled; endCause := ESent ctxCanceled |}.

(** [ctx.Err()] at [now] *)
Definition Err (c : Context) (now : Time) : option goerr :=
  match ends c with
  | Some t => if t <=? now then Some (endErr c) else None
  | None => None
  end.

(** [context.Cause(ctx)] at [now] *)
Definition Cause (c : Context) (now : Time) : option goerr :=
  match ends c with
  | Some t => if t <=? now then Some (endCause c) else None
  | None => None
  end.

(** [context.WithTimeoutCause(parent, d, cause)] at [now] *)
Definition WithTimeoutCause (parent : Context) (d : Duration) (cause : goerr) (now : Time) : Context :=
  let deadline := now + d in
  match ends parent with
  | Some t =>
      if t <=? deadline then parent
      else {| ends := Some deadline; endErr := ESent ctxDeadlineExceeded; endCause := cause |}
  | None => {| ends := Some deadline; endErr := ESent ctxDeadlineExceeded; endCause := cause |}
  end.

(** [context.WithTimeout(parent, d)] *)
Definition WithTimeout (parent : Context) (d : Duration) (now : Time) : Context :=
  WithTimeoutCause parent d (ESent ctxDeadlineExceeded) now.

(** A context produced by the standard library ends with one of the two
    context errors. *)
Definition std (c : Context) : Prop :=
  endErr c = ESent ctxCanceled \/ endErr c = ESent ctxDeadlineExceeded.

Lemma std_WithTimeoutCause p d e now : std p -> std (WithTimeoutCause p d e now).
Proof. unfold WithTimeoutCause. intros Hp. repeat case_match; [done|by right..]. Qed.

Lemma std_Background : std Background.
Proof. by left. Qed.

(** A derived context has ended at its deadline, whatever its parent does. *)
Lemma Err_deadline p d e now t :
  now + d <= t -> Err (WithTimeoutCause p d e now) t <> None.
Proof.
  intros Ht. unfold Err, WithTimeoutCause.
  destruct (ends p) as [t'|] eqn:Hp; [destruct (Z.leb_spec t' (now + d))|]; cbn; rewrite ?Hp.
  - rewrite (proj2 (Z.leb_le _ _)) by lia. done.
  - rewrite (proj2 (Z.leb_le _ _)) by lia. done.
  - rewrite (proj2 (Z.leb_le _ _)) by lia. done.
Qed.

(** An end is permanent. *)
Lemma Err_mono c t t' : t <= t' -> Err c t <> None -> Err c t' = Err c t.
Proof.
  unfold Err. destruct (ends c) as [u|]; [|done]. intros Ht.
  destruct (Z.leb_spec u t); [|done]. rewrite (proj2 (Z.leb_le u t')) by lia. done.
Qed.

End Ctx.
