(* ===== verification/GoHttp.v ===== *)
(** * [net/http] headers and the responses of the HTTP handlers *)

From stdpp Require Import base list strings.
From S2P Require Import Prelude GoStrings.

(** Header fields in order; names compare without case, as canonicalisation
    makes them. *)
Definition Header := list (string * string).

Module Hdr.

(** [h.Get(k)]: the first value, or the empty string *)
Fixpoint Get (k : string) (h : Header) : string :=
  match h with
  | [] => ""
  | (k', v) :: h => if Strs.EqualFold k k' then v else Get k h
  end.

(** [h.Del(k)] *)
Fixpoint Del (k : string) (h : Header) : Header :=
  match h with
  | [] => []
  | (k', v) :: h => if Strs.EqualFold k k' then Del k h else (k', v) :: Del k h
  end.

(** [h.Set(k, v)] *)
Definition Set_ (k v : string) (h : Header) : Header := (k, v) :: Del k h.

Lemma EqualFold_refl s : Strs.EqualFold s s = true.
Proof. apply String.eqb_refl. Qed.

Lemma Get_Set k v h : Get k (Set_ k v h) = v.
Proof. cbn. by rewrite EqualFold_refl. Qed.

Lemma Get_Del_ne k k' h : Strs.EqualFold k k' = false -> Get k (Del k' h) = Get k h.
Proof.
  intros Hne. induction h as [|[k'' v] h IH]; [done|]. cbn.
  destruct (Strs.EqualFold k' k'') eqn:E1; cbn.
  - rewrite IH. destruct (Strs.EqualFold k k'') eqn:E2; [|done].
    unfold Strs.EqualFold in *. apply String.eqb_eq in E1, E2. rewrite E1, E2, String.eqb_refl in Hne. done.
  - destruct (Strs.EqualFold k k''); [done|]. apply IH.
Qed.

Lemma Get_Del k h : Get k (Del k h) = "".
Proof.
  induction h as [|[k' v] h IH]; [done|]. cbn.
  destruct (Strs.EqualFold k k') eqn:E; [done|]. cbn. by rewrite E.
Qed.

Lemma Get_Set_ne k k' v h : Strs.EqualFold k k' = false -> Get k (Set_ k' v h) = Get k h.
Proof. intros Hne. cbn. rewrite Hne. by apply Get_Del_ne. Qed.

End Hdr.

(** Status codes. *)
Definition StatusOK : Z := 200.
Definition StatusBadRequest : Z := 400.
Definition StatusUnauthorized : Z := 401.
Definition StatusForbidden : Z := 403.
Definition StatusNotFound : Z := 404.
Definition StatusRequestEntityTooLarge : Z := 413.
Definition StatusTooManyRequests : Z := 429.
Definition StatusInternalServerError : Z := 500.
Definition StatusBadGateway : Z := 502.
Definition StatusServiceUnavailable : Z := 503.
Definition StatusGatewayTimeout : Z := 504.
