(* ===== verification/GoEncoding.v ===== *)
(** * [encoding/base64] and the value type of [encoding/json]

    [json] is what [json.Unmarshal] builds in an [interface{}]; the step from
    text to value is the class [JsonText]. A number is the [float64]
    [m * 2^e], kept exactly. *)

From Stdlib Require Import Ascii.
From stdpp Require Import base list strings.
From S2P Require Import Prelude GoStrings.

(** ** JSON values *)

Inductive json :=
  | JNull
  | JBool (b : bool)
  | JNum (m e : Z)
  | JStr (s : string)
  | JArr (l : list json)
  | JObj (l : list (string * json)).

(** [m[k]] on a decoded object: a repeated key keeps its last value. *)
Fixpoint obj_get (k : string) (l : list (string * json)) : option json :=
  match l with
  | [] => None
  | (k', v) :: l => match obj_get k l with
                    | Some v' => Some v'
                    | None => if String.eqb k k' then Some v else None
                    end
  end.

(** [s, _ := v.(string)] *)
Definition as_string (v : option json) : string :=
  match v with Some (JStr s) => s | _ => "" end.

(** [f, _ := v.(float64)] *)
Definition as_float (v : option json) : Z * Z :=
  match v with Some (JNum m e) => (m, e) | _ => (0, 0) end.

(** [for _, x := range arr { if s, ok := x.(string); ok { append } }] *)
Fixpoint strings_of (l : list json) : list string :=
  match l with
  | [] => []
  | JStr s :: l => s :: strings_of l
  | _ :: l => strings_of l
  end.

(** [int64(f)]: truncation toward zero; out of range the result is the one of
    the amd64 instruction, the smallest [int64]. *)
Definition float_to_int64 (f : Z * Z) : Z :=
  let '(m, e) := f in
  let v := if 0 <=? e then m * 2 ^ e else Z.quot m (2 ^ (- e)) in
  if (int64_min <=? v) && (v <=? int64_max) then v else int64_min.

Definition float_is_zero (f : Z * Z) : bool := f.1 =? 0.

Lemma float_to_int64_int z : in_int64 z -> float_to_int64 (z, 0) = z.
Proof.
  unfold in_int64, float_to_int64. intros H. cbn. rewrite Z.mul_1_r.
  destruct (Z.leb_spec int64_min z), (Z.leb_spec z int64_max); cbn; lia.
Qed.

(** [json.Unmarshal(data, &v)] for [v] of type [interface{}] *)
Class JsonText := { json_parse : string -> option json }.

(** ** Base64 *)

Module B64.

Definition code (url : bool) (c : ascii) : option Z :=
  let n := Z.of_nat (Ascii.nat_of_ascii c) in
  if (65 <=? n) && (n <=? 90) then Some (n - 65)
  else if (97 <=? n) && (n <=? 122) then Some (n - 97 + 26)
  else if (48 <=? n) && (n <=? 57) then Some (n - 48 + 52)
  else if n =? (if url then 45 else 43) then Some 62
  else if n =? (if url then 95 else 47) then Some 63
  else None.

Definition byte (z : Z) : ascii := Ascii.ascii_of_nat (Z.to_nat (z `mod` 256)).

(** Line breaks are ignored. *)
Fixpoint skip_newlines (s : string) : string :=
  match s with
  | EmptyString => EmptyString
  | String c s =>
      let n := Ascii.nat_of_ascii c in
      if (n =? 10)%nat || (n =? 13)%nat then skip_newlines s
      else String c (skip_newlines s)
  end.

(** Quanta of four characters; [pad] says whether the last one is padded. *)
Fixpoint quanta (url pad : bool) (s : string) : option string :=
  match s with
  | EmptyString => Some EmptyString
  | String a (String b EmptyString) =>
      if pad then None
      else match code url a, code url b with
           | Some x, Some y => Some (String (byte (x * 4 + y / 16)) EmptyString)
           | _, _ => None
           end
  | String a (String b (String c EmptyString)) =>
      if pad then None
      else match code url a, code url b, code url c with
           | Some x, Some y, Some z =>
               Some (String (byte (x * 4 + y / 16))
                      (String (byte (y * 16 + z / 4)) EmptyString))
           | _, _, _ => None
           end
  | String a (String b (String c (String d rest))) =>
      match code url a, code url b with
      | Some x, Some y =>
          let b0 := byte (x * 4 + y / 16) in
          if pad && String.eqb rest "" && Ascii.eqb d "="%char then
            if Ascii.eqb c "="%char then Some (String b0 EmptyString)
            else match code url c with
                 | Some z => Some (String b0 (String (byte (y * 16 + z / 4)) EmptyString))
                 | None => None
                 end
          else match code url c, code url d with
               | Some z, Some w =>
                   match quanta url pad rest with
                   | Some t => Some (String b0 (String (byte (y * 16 + z / 4))
                                 (String (byte (z * 64 + w)) t)))
                   | None => None
                   end
               | _, _ => None
               end
      | _, _ => None
      end
  | _ => None
  end.

(** [base64.RawURLEncoding.DecodeString] *)
Definition RawURLDecode (s : string) : option string := quanta true false (skip_newlines s).

(** [base64.StdEncoding.DecodeString] *)
Definition StdDecode (s : string) : option string := quanta false true (skip_newlines s).

Example StdDecode_hello : StdDecode "aGVsbG8=" = Some "hello".
Proof. reflexivity. Qed.

Example RawURLDecode_short : RawURLDecode "aGVsbG8" = Some "hello".
Proof. reflexivity. Qed.
End B64.
