(* ===== verification/Sha256.v ===== *)
(** * SHA-256 ([crypto/sha256]) and [encoding/hex]

    The digest of FIPS 180-4 on 32-bit words kept as [Z] in [0, 2^32). *)

From Stdlib Require Import Ascii.
From stdpp Require Import base list strings.
From S2P Require Import Prelude GoStrings.

Module Sha256.

Definition w32 (z : Z) : Z := z `mod` 2 ^ 32.
Definition rotr (n x : Z) : Z := Z.lor (Z.shiftr x n) (w32 (Z.shiftl x (32 - n))).

(** The constants are the leading 32 fractional bits of the cube roots of the
    first 64 primes and of the square roots of the first eight. *)
Definition prime (n : Z) : bool :=
  forallb (fun d => negb (n `mod` d =? 0)) (seqZ 2 (n - 2)).
Definition primes (n : nat) : list Z := take n (List.filter prime (seqZ 2 320)).

(** The integer cube root, from its highest bit [b] down. *)
Fixpoint cbrt (b : nat) (x acc : Z) : Z :=
  match b with
  | O => acc
  | S b =>
      let a := Z.setbit acc (Z.of_nat b) in
      cbrt b x (if a * a * a <=? x then a else acc)
  end.

Definition K : list Z :=
  Eval vm_compute in (fun p => w32 (cbrt 36 (p * 2 ^ 96) 0)) <$> primes 64.

Definition H0 : list Z :=
  Eval vm_compute in (fun p => w32 (Z.sqrt (p * 2 ^ 64))) <$> primes 8.

Fixpoint bytes (s : string) : list Z :=
  match s with
  | EmptyString => []
  | String c s => Z.of_N (N_of_ascii c) :: bytes s
  end.

(** Big-endian bytes of a 64-bit length. *)
Definition be64 (z : Z) : list Z :=
  (fun i => Z.land (Z.shiftr z (8 * i)) 255) <$> [7; 6; 5; 4; 3; 2; 1; 0].

Definition pad (m : list Z) : list Z :=
  let n := length m in
  let z := ((119 - n `mod` 64) `mod` 64)%nat in
  m ++ 128 :: replicate z 0 ++ be64 (8 * Z.of_nat n).

Fixpoint words (l : list Z) : list Z :=
  match l with
  | a :: b :: c :: d :: l =>
      Z.lor (Z.shiftl a 24) (Z.lor (Z.shiftl b 16) (Z.lor (Z.shiftl c 8) d)) :: words l
  | _ => []
  end.

(** The message schedule, newest word first. *)
Fixpoint schedule (n : nat) (rw : list Z) : list Z :=
  match n with
  | O => rw
  | S n =>
      let w2 := nth 1 rw 0 in let w7 := nth 6 rw 0 in
      let w15 := nth 14 rw 0 in let w16 := nth 15 rw 0 in
      let s0 := Z.lxor (rotr 7 w15) (Z.lxor (rotr 18 w15) (Z.shiftr w15 3)) in
      let s1 := Z.lxor (rotr 17 w2) (Z.lxor (rotr 19 w2) (Z.shiftr w2 10)) in
      schedule n (w32 (w16 + s0 + w7 + s1) :: rw)
  end.

Definition round (st : list Z) (kw : Z * Z) : list Z :=
  match st with
  | [a; b; c; d; e; f; g; h] =>
      let s1 := Z.lxor (rotr 6 e) (Z.lxor (rotr 11 e) (rotr 25 e)) in
      let ch := Z.lxor (Z.land e f) (Z.land (Z.lxor e (2 ^ 32 - 1)) g) in
      let t1 := w32 (h + s1 + ch + kw.1 + kw.2) in
      let s0 := Z.lxor (rotr 2 a) (Z.lxor (rotr 13 a) (rotr 22 a)) in
      let maj := Z.lxor (Z.land a b) (Z.lxor (Z.land a c) (Z.land b c)) in
      [w32 (t1 + s0 + maj); a; b; c; w32 (d + t1); e; f; g]
  | _ => st
  end.

Definition block (h : list Z) (ws : list Z) : list Z :=
  let w := reverse (schedule 48 (reverse ws)) in
  zip_with (fun x y => w32 (x + y)) h (foldl round h (zip K w)).

Fixpoint blocks (fuel : nat) (h ws : list Z) : list Z :=
  match fuel, ws with
  | S fuel, _ :: _ => blocks fuel (block h (take 16 ws)) (drop 16 ws)
  | _, _ => h
  end.

(** [sha256.Sum256(b)] as eight words *)
Definition Sum256 (s : string) : list Z :=
  let ws := words (pad (bytes s)) in blocks (length ws) H0 ws.

Definition hexdigit (z : Z) : ascii :=
  ascii_of_N (Z.to_N (if z <? 10 then 48 + z else 87 + z)).

Definition hex32 (w : Z) (acc : string) : string :=
  foldr (fun i acc => String (hexdigit (Z.land (Z.shiftr w (4 * i)) 15)) acc) acc
    [7; 6; 5; 4; 3; 2; 1; 0].

(** [hex.EncodeToString(h[:])] *)
Definition hex (d : list Z) : string := foldr hex32 "" d.

Example sum_abc :
  hex (Sum256 "abc") = "ba7816bf8f01cfea414140de5dae2223b00361a396177a9cb410ff61f20015ad".
Proof. vm_compute. reflexivity. Qed.

Lemma length_hex d : String.length (hex d) = (8 * length d)%nat.
Proof.
  induction d as [|w d IH]; [done|]. change (hex (w :: d)) with (hex32 w (hex d)). cbn [length].
  assert (String.length (hex32 w (hex d)) = (8 + String.length (hex d))%nat) as -> by reflexivity. lia.
Qed.

Lemma length_round st kw : length st = 8%nat -> length (round st kw) = 8%nat.
Proof. by intros H; do 9 (destruct st as [|? st]; try done). Qed.

Lemma length_block h ws : length h = 8%nat -> length (block h ws) = 8%nat.
Proof.
  intros H. unfold block. rewrite length_zip_with.
  assert (forall l st, length st = 8%nat -> length (foldl round st l) = 8%nat) as Hf.
  { induction l as [|kw l IH]; intros st Hs; [done|]. cbn. by apply IH, length_round. }
  rewrite Hf by done. lia.
Qed.

Lemma length_Sum256 s : length (Sum256 s) = 8%nat.
Proof.
  unfold Sum256. generalize (words (pad (bytes s))) as ws. intros ws. generalize (length ws) as n.
  assert (length H0 = 8%nat) as HH by done. revert HH. generalize H0 as h.
  intros h HH n. revert h ws HH. induction n as [|n IH]; intros h [|w ws] HH; try done.
  cbn. by apply IH, length_block.
Qed.

End Sha256.
