(* ===== verification/GoList.v ===== *)
(** * Go's [container/list] as the caches use it

    An element is identified by its address, here a number that [PushFront]
    allocates; the list keeps (address, value) pairs from front to back. *)

From stdpp Require Import base list.
From S2P Require Import Prelude.

Module GoList.
Section golist.
Context {A : Type}.

Record t := { elems : list (nat * A); nextElem : nat }.

(** [list.New()] *)
Definition New : t := {| elems := []; nextElem := 0 |}.

Definition without (e : nat) (l : list (nat * A)) : list (nat * A) :=
  filter (fun p => p.1 <> e) l.

(** [l.PushFront(v)]: the new element and the list *)
Definition PushFront (v : A) (l : t) : nat * t :=
  (nextElem l, {| elems := (nextElem l, v) :: elems l; nextElem := S (nextElem l) |}).

(** [l.Remove(e)] *)
Definition Remove (e : nat) (l : t) : t :=
  {| elems := without e (elems l); nextElem := nextElem l |}.

(** [l.MoveToFront(e)]: nothing happens when [e] is not an element of [l]. *)
Definition MoveToFront (e : nat) (l : t) : t :=
  {| elems := filter (fun p => p.1 = e) (elems l) ++ without e (elems l);
     nextElem := nextElem l |}.

(** [l.Back()] *)
Definition Back (l : t) : option (nat * A) := last (elems l).

Definition wf (l : t) : Prop :=
  NoDup (elems l).*1 /\ forall e v, (e, v) ∈ elems l -> (e < nextElem l)%nat.

Lemma without_fresh e (l : list (nat * A)) : e ∉ l.*1 -> without e l = l.
Proof.
  induction l as [|[a v] l IH]; [done|]. rewrite fmap_cons. intros [Hne Hn]%not_elem_of_cons.
  unfold without in *. rewrite filter_cons_True by (cbn in *; congruence). by rewrite IH.
Qed.

Lemma filter_key_fresh e (l : list (nat * A)) : e ∉ l.*1 -> filter (fun p => p.1 = e) l = [].
Proof.
  induction l as [|[a v] l IH]; [done|]. rewrite fmap_cons. intros [Hne Hn]%not_elem_of_cons.
  rewrite filter_cons_False by (cbn in *; congruence). by apply IH.
Qed.

(** Around one of its elements a well-formed list splits in one way, and the
    operations on that element are the expected edits. *)
Lemma split_at e v (l : list (nat * A)) :
  NoDup l.*1 -> (e, v) ∈ l -> exists l1 l2, l = (l1 ++ (e, v) :: l2) /\ e ∉ l1.*1 /\ e ∉ l2.*1.
Proof.
  intros Hnd (l1 & l2 & ->)%list_elem_of_split. exists l1, l2. split; [done|].
  rewrite fmap_app in Hnd. cbn in Hnd. apply NoDup_app in Hnd as (_ & Hd & [Hn _]%NoDup_cons).
  split; [|done]. intros Hin. apply (Hd _ Hin). left.
Qed.

Lemma without_split e v l1 l2 :
  e ∉ l1.*1 -> e ∉ l2.*1 -> without e (l1 ++ (e, v) :: l2) = l1 ++ l2.
Proof.
  intros H1 H2. unfold without. rewrite filter_app, filter_cons_False by (cbn; naive_solver).
  f_equal; by apply without_fresh.
Qed.

Lemma filter_key_split e v (l1 l2 : list (nat * A)) :
  e ∉ l1.*1 -> e ∉ l2.*1 -> filter (fun p => p.1 = e) (l1 ++ (e, v) :: l2) = [(e, v)].
Proof.
  intros H1 H2. rewrite filter_app, filter_cons_True by done.
  by rewrite !filter_key_fresh.
Qed.

Lemma elem_of_without e p (l : list (nat * A)) : p ∈ without e l <-> p ∈ l /\ p.1 <> e.
Proof. unfold without. rewrite list_elem_of_filter. naive_solver. Qed.

Lemma wf_New : wf New.
Proof. split; cbn; [constructor|]. intros e v []%not_elem_of_nil. Qed.

Lemma wf_PushFront v l : wf l -> wf (PushFront v l).2.
Proof.
  intros [Hnd Hlt]. split; cbn.
  - constructor; [|done]. intros ([e w] & He & Hin)%list_elem_of_fmap. apply Hlt in Hin. cbn in *. lia.
  - intros e w [[= -> ->]|Hin]%elem_of_cons; [lia|]. apply Hlt in Hin. lia.
Qed.

Lemma wf_Remove e l : wf l -> wf (Remove e l).
Proof.
  intros [Hnd Hlt]. split; cbn.
  - clear Hlt. induction (elems l) as [|[a v] xs IH]; [constructor|].
    apply NoDup_cons in Hnd as [Hn Hnd]. unfold without in *. rewrite filter_cons. case_decide; [|by apply IH].
    cbn. constructor; [|by apply IH].
    intros ([a' w] & -> & [_ Hin]%list_elem_of_filter)%list_elem_of_fmap.
    apply Hn, list_elem_of_fmap. by exists (a', w).
  - intros a v [Hin _]%elem_of_without. by eapply Hlt.
Qed.

Lemma elems_MoveToFront e v l :
  wf l -> (e, v) ∈ elems l -> elems (MoveToFront e l) = (e, v) :: without e (elems l).
Proof.
  intros [Hnd _] Hin. cbn. destruct (split_at _ _ _ Hnd Hin) as (l1 & l2 & -> & H1 & H2).
  by rewrite filter_key_split.
Qed.

Lemma wf_MoveToFront e v l : wf l -> (e, v) ∈ elems l -> wf (MoveToFront e l).
Proof.
  intros Hw Hin. pose proof (wf_Remove e l Hw) as [Hnd Hlt].
  split; rewrite (elems_MoveToFront _ v _ Hw Hin).
  - cbn. constructor; [|done].
    intros ([a w] & Ha & [_ Hne]%elem_of_without)%list_elem_of_fmap. cbn in *. congruence.
  - intros a w [[= -> ->]|[Ha _]%elem_of_without]%elem_of_cons; by eapply Hw.
Qed.

End golist.
Arguments t : clear implicits.
End GoList.
