(* ===== verification/SandboxTypes.v ===== *)
(** * [pkg/common/types]: the session record shared by all components

    One module per Go struct, so that the fields keep their Go names. The
    JSON codec of the session record is the class [SandboxCodec]. *)

From stdpp Require Import base list gmap strings.
From S2P Require Import Prelude GoStrings GoTime GoError.

Definition AgentRuntimeKind : string := "AgentRuntime".
Definition CodeInterpreterKind : string := "CodeInterpreter".
Definition SandboxKind : string := "Sandbox".
Definition SandboxClaimsKind : string := "SandboxClaim".

Module EntryPoint.
Record SandboxEntryPoint := { Path : string; Protocol : string; Endpoint : string }.

#[global] Instance eq_dec : EqDecision SandboxEntryPoint.
Proof. solve_decision. Defined.
End EntryPoint.
Export EntryPoint (SandboxEntryPoint).

Module Info.
Record SandboxInfo := {
  Kind : string;
  SandboxID : string;
  SandboxNamespace : string;
  Name : string;
  EntryPoints : list SandboxEntryPoint;
  SessionID : string;
  OwnerID : string;
  CreatedAt : Time;
  ExpiresAt : Time;
  IdleTimeout : Duration;
  LastActivityAt : Time;
  Status : string;
}.

#[global] Instance eq_dec : EqDecision SandboxInfo.
Proof. solve_decision. Defined.

(** [s.LastActivityAt = t] *)
Definition set_LastActivityAt (t : Time) (s : SandboxInfo) : SandboxInfo :=
  {| Kind := Kind s; SandboxID := SandboxID s; SandboxNamespace := SandboxNamespace s;
     Name := Name s; EntryPoints := EntryPoints s; SessionID := SessionID s;
     OwnerID := OwnerID s; CreatedAt := CreatedAt s; ExpiresAt := ExpiresAt s;
     IdleTimeout := IdleTimeout s; LastActivityAt := t; Status := Status s |}.

(** What survives serialisation: [LastActivityAt] has the tag [json:"-"]. *)
Definition persisted (s : SandboxInfo) : SandboxInfo := set_LastActivityAt Tm.zero s.

Lemma set_LastActivityAt_twice t t' s :
  set_LastActivityAt t (set_LastActivityAt t' s) = set_LastActivityAt t s.
Proof. done. Qed.
End Info.
Abbreviation SandboxInfo := Info.SandboxInfo.

Module CreateReq.
Record CreateSandboxRequest := { Kind : string; Name : string; Namespace : string }.

Definition set_Kind (k : string) (r : CreateSandboxRequest) : CreateSandboxRequest :=
  {| Kind := k; Name := Name r; Namespace := Namespace r |}.

(** method [Validate] *)
Definition Validate (car : CreateSandboxRequest) : option goerr :=
  if String.eqb (Kind car) AgentRuntimeKind || String.eqb (Kind car) CodeInterpreterKind then
    if String.eqb (Namespace car) "" then Some (EText "namespace is required")
    else if String.eqb (Name car) "" then Some (EText "name is required")
    else None
  else Some (EText ("invalid kind " +:+ Kind car)).

Lemma Validate_ok car :
  Validate car = None <->
  (Kind car = AgentRuntimeKind \/ Kind car = CodeInterpreterKind) /\
  Namespace car <> "" /\ Name car <> "".
Proof.
  unfold Validate.
  destruct (String.eqb_spec (Kind car) AgentRuntimeKind),
    (String.eqb_spec (Kind car) CodeInterpreterKind),
    (String.eqb_spec (Namespace car) ""), (String.eqb_spec (Name car) "");
    cbn; naive_solver.
Qed.
End CreateReq.
Export CreateReq (CreateSandboxRequest).

Module CreateResp.
Record CreateSandboxResponse := {
  Kind : string; SessionID : string; SandboxID : string; SandboxName : string;
  EntryPoints : list SandboxEntryPoint; OwnerID : string;
}.
End CreateResp.
Export CreateResp (CreateSandboxResponse).

(** [encoding/json] on [types.SandboxInfo]. A value is [storable] when
    [json.Marshal] succeeds on it and loses nothing but the excluded field
    (its strings are valid UTF-8 and its instants have a four-digit year). *)
Class SandboxCodec := {
  marshal : SandboxInfo -> option string;
  unmarshal : string -> option SandboxInfo;
  storable : SandboxInfo -> Prop;
}.

Class SandboxCodecLaws `{SandboxCodec} : Prop := {
  codec_roundtrip i :
    storable i -> exists b, marshal i = Some b /\ b <> "" /\ unmarshal b = Some (Info.persisted i);
}.
