(* ===== verification/KVServer.v ===== *)
(** * The key-value server (third-party: Redis or Valkey)

    The server is a parameter: a state type [S] with a command function
    [kv_do]. Each call may fail on the network, in which case the command may
    or may not have been applied. [redis_step] writes down the documented
    effect of the commands the stores send, on a single typed key space, and
    [KVLaws] says that the server follows it. [KVModel] is a server that
    never fails, which shows the laws can hold. *)

From Stdlib Require Import Sorted.
From stdpp Require Import base list gmap strings sorting.
From S2P Require Import Prelude GoStrings GoError.

(** Values are strings or sorted sets (member to score). *)
Inductive kvval := VStr (b : string) | VZset (z : gmap string Z).

Abbreviation keyspace := (gmap string kvval).

Inductive reply :=
  | RNil
  | ROk
  | RStr (s : string)
  | RInt (n : Z)
  | RStrs (l : list (option string))
  | RPairs (l : list (string * Z))
  | RErr (msg : string).

Inductive cmd :=
  | Ping
  | Get (k : string)
  | MGet (ks : list string)
  | SetNX (k v : string)
  | SetXX (k v : string)
  | Del (k : string)
  | Exists_ (k : string)
  | ZAdd (k : string) (score : Z) (m : string)
  | ZRem (k : string) (m : string)
  | ZRangeByScore (k : string) (max : Z) (count : Z)
  | Script (body : keyspace -> reply * keyspace).

(** Sorted sets are ordered by score, members of equal score by their bytes. *)
Definition zle (a b : string * Z) : Prop :=
  a.2 < b.2 \/ (a.2 = b.2 /\ String.leb a.1 b.1 = true).

#[export] Instance zle_dec : RelDecision zle.
Proof. intros a b. unfold zle. apply _. Defined.

Lemma leb_total a b : String.leb a b = true \/ String.leb b a = true.
Proof.
  unfold String.leb. rewrite (String.compare_antisym a b).
  destruct (String.compare b a); cbn; auto.
Qed.

#[export] Instance zle_total : Total zle.
Proof.
  intros [a x] [b y]. unfold zle; cbn.
  destruct (Z.lt_trichotomy x y) as [?|[->|?]]; [by auto| |by auto].
  destruct (leb_total a b); auto.
Qed.

(** The members with score at most [max], in order. *)
Definition zsorted (z : gmap string Z) (max : Z) : list (string * Z) :=
  filter (fun p => p.2 <= max) (merge_sort zle (map_to_list z)).

Definition zrange (z : gmap string Z) (max count : Z) : list (string * Z) :=
  take (Z.to_nat count) (zsorted z max).

Definition wrongtype : reply :=
  RErr "WRONGTYPE Operation against a key holding the wrong kind of value".

(** The sorted set at a key; a missing key is an empty set. *)
Definition zset_at (ks : keyspace) (k : string) : option (gmap string Z) :=
  match ks !! k with
  | None => Some ∅
  | Some (VZset z) => Some z
  | Some (VStr _) => None
  end.

(** An empty sorted set is removed from the key space. *)
Definition put_zset (k : string) (z : gmap string Z) (ks : keyspace) : keyspace :=
  if decide (z = ∅) then delete k ks else <[k := VZset z]> ks.

Definition mget_one (ks : keyspace) (k : string) : option string :=
  match ks !! k with Some (VStr b) => Some b | _ => None end.

(** The documented effect of one command. *)
Definition redis_step (ks : keyspace) (c : cmd) : reply * keyspace :=
  match c with
  | Ping => (RStr "PONG", ks)
  | Get k => match ks !! k with
             | None => (RNil, ks)
             | Some (VStr b) => (RStr b, ks)
             | Some (VZset _) => (wrongtype, ks)
             end
  | MGet l => (RStrs (mget_one ks <$> l), ks)
  | SetNX k v => match ks !! k with
                 | None => (RInt 1, <[k := VStr v]> ks)
                 | Some _ => (RInt 0, ks)
                 end
  | SetXX k v => match ks !! k with
                 | None => (RNil, ks)
                 | Some _ => (ROk, <[k := VStr v]> ks)
                 end
  | Del k => match ks !! k with
             | None => (RInt 0, ks)
             | Some _ => (RInt 1, delete k ks)
             end
  | Exists_ k => (RInt (if decide (is_Some (ks !! k)) then 1 else 0), ks)
  | ZAdd k sc m => match zset_at ks k with
                   | None => (wrongtype, ks)
                   | Some z => (RInt (if decide (is_Some (z !! m)) then 0 else 1),
                                put_zset k (<[m := sc]> z) ks)
                   end
  | ZRem k m => match zset_at ks k with
                | None => (wrongtype, ks)
                | Some z => (RInt (if decide (is_Some (z !! m)) then 1 else 0),
                             put_zset k (delete m z) ks)
                end
  | ZRangeByScore k max count =>
      match zset_at ks k with
      | None => (wrongtype, ks)
      | Some z => (RPairs (zrange z max count), ks)
      end
  | Script body => body ks
  end.

(** The client connection: [inl e] is a transport failure. *)
Class KVServer (S : Type) := {
  kv_do : cmd -> S -> (goerr + reply) * S;
  kv_view : S -> keyspace;
}.

Class KVLaws (S : Type) `{KVServer S} : Prop := {
  kv_ok c s r s' :
    kv_do c s = (inr r, s') -> redis_step (kv_view s) c = (r, kv_view s');
  kv_fail c s e s' :
    kv_do c s = (inl e, s') ->
    kv_view s' = kv_view s \/ kv_view s' = (redis_step (kv_view s) c).2;
  kv_fail_foreign c s e s' :
    kv_do c s = (inl e, s') -> Is e ErrNotFound = false;
}.

(** Closing the client: the error that go-redis reports ([valkey-go] reports
    none), and the connection after it. *)
Class KVClose (S : Type) := { kv_close : S -> option goerr * S }.

(** A server whose connection never fails. *)
Class KVReliable (S : Type) `{KVServer S} : Prop := {
  kv_reliable c s : exists r s', kv_do c s = (inr r, s');
}.

Module KVModel.
#[export] Instance server : KVServer keyspace := {
  kv_do c ks := let '(r, ks') := redis_step ks c in (inr r, ks');
  kv_view ks := ks;
}.

#[export] Instance laws : KVLaws keyspace.
Proof. split; intros c s x s'; cbn; destruct (redis_step s c); naive_solver. Qed.

#[export] Instance reliable : KVReliable keyspace.
Proof. split. intros c s. cbn. destruct (redis_step s c). eauto. Qed.
End KVModel.

(** A server whose connection breaks after [n] commands: the [n+1]-st command
    is lost, and so is every later one. *)
Module KVFlaky.
#[export] Instance server : KVServer (keyspace * nat) := {
  kv_do c s := match s.2 with
               | O => (inl (EText "connection reset"), s)
               | S n => let '(r, ks') := redis_step s.1 c in (inr r, (ks', n))
               end;
  kv_view s := s.1;
}.

#[export] Instance laws : KVLaws (keyspace * nat).
Proof.
  split; intros c [ks [|n]] x s'; cbn; try destruct (redis_step ks c); naive_solver.
Qed.
End KVFlaky.

(** ** Facts about the documented commands *)

Lemma zset_at_put k z ks : zset_at (put_zset k z ks) k = Some z.
Proof. unfold zset_at, put_zset. case_decide; by simplify_map_eq. Qed.

Lemma zset_at_put_ne k k' z ks : k <> k' -> zset_at (put_zset k z ks) k' = zset_at ks k'.
Proof. intros. unfold zset_at, put_zset. case_decide; by simplify_map_eq. Qed.

Lemma put_zset_ne k k' z ks : k <> k' -> put_zset k z ks !! k' = ks !! k'.
Proof. intros. unfold put_zset. case_decide; by simplify_map_eq. Qed.

Lemma zsorted_perm z max :
  zsorted z max ≡ₚ filter (fun p => p.2 <= max) (map_to_list z).
Proof. unfold zsorted. by rewrite merge_sort_Permutation. Qed.

Lemma elem_of_zsorted z max m sc :
  (m, sc) ∈ zsorted z max <-> z !! m = Some sc /\ sc <= max.
Proof.
  rewrite zsorted_perm, list_elem_of_filter, elem_of_map_to_list. cbn. naive_solver.
Qed.

Lemma zsorted_fst_NoDup z max : NoDup (zsorted z max).*1.
Proof.
  rewrite zsorted_perm.
  pose proof (NoDup_fst_map_to_list z) as H. revert H.
  generalize (map_to_list z). intros l. induction l as [|[m s] l IH]; [done|].
  rewrite fmap_cons, filter_cons. intros [Hm Hl]%NoDup_cons.
  case_decide; [|by apply IH]. rewrite fmap_cons. apply NoDup_cons. split; [|by apply IH].
  intros Hin. apply Hm. apply list_elem_of_fmap in Hin as ([m' s'] & -> & Hin).
  apply list_elem_of_filter in Hin as [_ Hin]. apply list_elem_of_fmap. by exists (m', s').
Qed.

Lemma zrange_NoDup z max count : NoDup (zrange z max count).*1.
Proof. unfold zrange. rewrite fmap_take. apply NoDup_take, zsorted_fst_NoDup. Qed.

Lemma elem_of_zrange z max count m sc :
  (m, sc) ∈ zrange z max count -> z !! m = Some sc /\ sc <= max.
Proof. intros H%elem_of_take_self. by apply elem_of_zsorted. Qed.

(** Ranges come out by increasing score. *)
Lemma zrange_sorted z max count :
  StronglySorted (fun a b => a.2 <= b.2) (zrange z max count).
Proof.
  apply StronglySorted_take, StronglySorted_filter, Sorted_StronglySorted.
  - intros a b c; lia.
  - eapply Sorted_weaken; [|apply (Sorted_merge_sort zle)].
    intros a b [?|[-> _]]; lia.
Qed.

(** The members up to a score come first in the range up to a higher one. *)
Lemma zsorted_prefix z a b : a <= b -> exists l, zsorted z b = zsorted z a ++ l.
Proof.
  intros Hab. unfold zsorted.
  assert (StronglySorted (fun p q : string * Z => p.2 <= q.2) (merge_sort zle (map_to_list z))) as Hs.
  { apply Sorted_StronglySorted; [intros x y c; lia|].
    eapply Sorted_weaken; [|apply (Sorted_merge_sort zle)]. intros p q [?|[-> _]]; lia. }
  induction Hs as [|p l Hs IH Hp]; [by exists []|]. rewrite !filter_cons. destruct (decide (p.2 <= a)) as [Ha|Ha].
  - rewrite decide_True by lia. destruct IH as [l' ->]. by exists l'.
  - exists (if decide (p.2 <= b) then p :: filter (fun q => q.2 <= b) l else filter (fun q => q.2 <= b) l).
    assert (filter (fun q : string * Z => q.2 <= a) l = []) as ->; [|done].
    clear Hs IH. induction Hp as [|q l Hq Hl IHl]; [done|]. rewrite filter_cons, decide_False by lia. done.
Qed.

Lemma zrange_older z a b n x : a <= b -> x ∈ take (Z.to_nat n) (zsorted z a) -> x ∈ zrange z b n.
Proof.
  intros Hab Hx. unfold zrange. destruct (zsorted_prefix z a b Hab) as [l ->].
  rewrite take_app, elem_of_app. by left.
Qed.

(** A range that is not cut short is complete. *)
Lemma zrange_complete z max count m sc :
  Z.of_nat (length (zsorted z max)) <= count ->
  z !! m = Some sc -> sc <= max -> (m, sc) ∈ zrange z max count.
Proof.
  intros Hlen Hm Hsc. unfold zrange. rewrite take_ge by lia. by apply elem_of_zsorted.
Qed.

Lemma length_zrange z max count : 0 <= count -> Z.of_nat (length (zrange z max count)) <= count.
Proof. intros H. unfold zrange. rewrite length_take. lia. Qed.

#[export] Hint Resolve zrange_NoDup : cube.
