(* ===== verification/RedisStore.v ===== *)
(** * [pkg/store/store_redis.go]: the Redis implementation of [store.Store]

    Every method takes the state of the server connection and returns it with
    the result. [time.Now()] is an argument. The client library (go-redis) is
    used through its documented behaviour: a pipeline sends its commands in
    order and reports the error of the first one that failed; a nil reply is
    the error [redis.Nil], except for the boolean reply of [SETXX]. *)

From stdpp Require Import base list gmap strings.
From S2P Require Import Prelude GoStrings GoTime GoError SandboxTypes KVServer.

Module Redis.

(** [cli], the connection, is the state [S] that the methods take. *)
Record redisStore := {
sessionPrefix : string;
expiryIndexKey : string;
lastActivityIndexKey : string;
}.

Record Options := { Addr : string; Password : string }.

(** [os.Getenv]: an unset variable reads as the empty string. *)
Definition Getenv (env : string -> option string) (k : string) : string :=
default "" (env k).

Definition makeRedisOptions (env : string -> option string) : res Options :=
let redisAddr := Getenv env "REDIS_ADDR" in
if String.eqb redisAddr "" then Err (EText "missing env var REDIS_ADDR")
else
  let redisPassword := Getenv env "REDIS_PASSWORD" in
  if negb (String.eqb (Strs.ToLower (Getenv env "REDIS_PASSWORD_REQUIRED")) "false")
     && String.eqb redisPassword ""
  then Err (EText "REDIS_PASSWORD is required but not set")
  else Ok {| Addr := redisAddr; Password := redisPassword |}.

(** The options of the client with the store; [redis.NewClient] does not fail. *)
Definition initRedisStore (env : string -> option string) : res (Options * redisStore) :=
match makeRedisOptions env with
| Err e => Err (Wrapf "make redis options failed" e)
| Ok redisOptions =>
    Ok (redisOptions,
        {| sessionPrefix := "session:"; expiryIndexKey := "session:expiry";
           lastActivityIndexKey := "session:last_activity" |})
end.

(** The error of a go-redis command. *)
Inductive cmdErr := RedisNil | RedisErr (e : goerr).

Definition cmd_err (r : goerr + reply) : option cmdErr :=
match r with
| inl e => Some (RedisErr e)
| inr (RErr m) => Some (RedisErr (EText m))
| inr RNil => Some RedisNil
| inr _ => None
end.

Definition to_err (e : cmdErr) : goerr :=
match e with RedisNil => EText "redis: nil" | RedisErr e => e end.

(** [pipe.Exec]'s error: the one of the first failed command. *)
Definition first_err (l : list (goerr + reply)) : option cmdErr := head (omap cmd_err l).

(** [cmd.Bytes()] of a [GET] *)
Definition Bytes (r : goerr + reply) : cmdErr + string :=
match cmd_err r with
| Some e => inl e
| None => match r with inr (RStr b) => inr b | _ => inl (RedisErr (EText "unexpected reply")) end
end.

(** The [for _, z := range zs] loop building [ids] and [scores]. *)
Definition index_scores (zs : list (string * Z)) : gmap string Time :=
foldl (fun m z => <[z.1 := Tm.OfUnix z.2]> m) ∅ zs.

(** [if t, ok := scores[s.SessionID]; ok { s.LastActivityAt = t }] *)
Definition apply_score (scores : gmap string Time) (s : SandboxInfo) : SandboxInfo :=
match scores !! Info.SessionID s with
| Some t => Info.set_LastActivityAt t s
| None => s
end.

Section store.
Context {S : Type} `{!KVServer S} `{!SandboxCodec}.
Implicit Types (rs : redisStore) (st : S).

Definition sessionKey rs (sessionID : string) : string := sessionPrefix rs +:+ sessionID.

(** A pipeline: commands in order, one reply each. *)
Fixpoint pipeline (cs : list cmd) st : list (goerr + reply) * S :=
  match cs with
  | [] => ([], st)
  | c :: cs =>
      let '(r, st) := kv_do c st in
      let '(rs, st) := pipeline cs st in (r :: rs, st)
  end.

(** The second loop of [loadSandboxesBySessionIDs]: skip missing keys, stop
    at the first other error. *)
Fixpoint decode_replies (sessionIDs : list string) (cmds : list (goerr + reply))
    : res (list SandboxInfo) :=
  match sessionIDs, cmds with
  | id :: ids, r :: rs =>
      match Bytes r with
      | inl RedisNil => decode_replies ids rs
      | inl (RedisErr e) =>
          Err (Wrapf ("loadSandboxesBySessionIDs: get sandbox JSON for session " +:+ id) e)
      | inr data =>
          match unmarshal data with
          | None => Err (EText ("loadSandboxesBySessionIDs: unmarshal sandbox for session " +:+ id))
          | Some i => match decode_replies ids rs with
                      | Ok l => Ok (i :: l)
                      | Err e => Err e
                      end
          end
      end
  | _, _ => Ok []
  end.

Definition loadSandboxesBySessionIDs rs (sessionIDs : list string) st
    : res (list SandboxInfo) * S :=
  match sessionIDs with
  | [] => (Ok [], st)
  | _ =>
      let '(cmds, st) := pipeline ((fun id => Get (sessionKey rs id)) <$> sessionIDs) st in
      match first_err cmds with
      | Some (RedisErr e) => (Err (Wrapf "redis pipeline exec failed" e), st)
      | _ => (decode_replies sessionIDs cmds, st)
      end
  end.

Definition PingStore st : option goerr * S :=
  let '(r, st) := kv_do Ping st in
  match cmd_err r, r with
  | Some e, _ => (Some (Wrapf "ping error" (to_err e)), st)
  | None, inr (RStr resp) =>
      if String.eqb resp "PONG" then (None, st)
      else (Some (EText ("unexpected ping response: " +:+ resp)), st)
  | None, _ => (Some (EText "unexpected ping response: "), st)
  end.

Definition GetSandboxBySessionID rs (sessionID : string) st : res SandboxInfo * S :=
  let key := sessionKey rs sessionID in
  let '(r, st) := kv_do (Get key) st in
  match Bytes r with
  | inl RedisNil => (Err (ESent ErrNotFound), st)
  | inl (RedisErr e) =>
      (Err (Wrapf ("GetSandboxBySessionID: redis GET " +:+ key +:+ " failed") e), st)
  | inr b => match unmarshal b with
             | None => (Err (EText "GetSandboxBySessionID: unmarshal sandbox failed"), st)
             | Some i => (Ok i, st)
             end
  end.

Definition StoreSandbox rs (now : Time) (sandboxRedis : option SandboxInfo) st
    : option goerr * S :=
  match sandboxRedis with
  | None => (Some (EText "StoreSandbox: sandbox is nil"), st)
  | Some sb =>
      match marshal sb with
      | None => (Some (EText "StoreSandbox: marshal sandbox failed"), st)
      | Some b =>
          if Tm.IsZero (Info.ExpiresAt sb)
          then (Some (EText "StoreSandbox: sandbox expired at is zero"), st)
          else
            let '(cmder, st) :=
              pipeline [SetNX (sessionKey rs (Info.SessionID sb)) b;
                        ZAdd (expiryIndexKey rs)
                          (float64_of_int (Tm.Unix (Info.ExpiresAt sb))) (Info.SessionID sb);
                        ZAdd (lastActivityIndexKey rs)
                          (float64_of_int (Tm.Unix now)) (Info.SessionID sb)] st in
            match first_err cmder with
            | Some e => (Some (Wrapf "StoreSandbox: redis Pipeline EXEC" (to_err e)), st)
            | None => match cmder with
                      | [] => (Some (EText "StoreSandbox: unexpected empty cmder"), st)
                      | _ => match omap cmd_err cmder with
                             | e :: _ => (Some (Wrapf "StoreSandbox: EXEC pipeline failed" (to_err e)), st)
                             | [] => (None, st)
                             end
                      end
            end
      end
  end.

Definition UpdateSandbox rs (sandboxRedis : option SandboxInfo) st : option goerr * S :=
  match sandboxRedis with
  | None => (Some (EText "UpdateSandbox: sandbox is nil"), st)
  | Some sb =>
      let sk := sessionKey rs (Info.SessionID sb) in
      match marshal sb with
      | None => (Some (EText "UpdateSandbox: marshal sandbox"), st)
      | Some b =>
          let '(r, st) := kv_do (SetXX sk b) st in
          match cmd_err r with
          | Some (RedisErr e) => (Some (Wrapf ("UpdateSandbox: redis SETXX " +:+ sk) e), st)
          | Some RedisNil =>
              (Some (EText ("UpdateSandbox: redis SETXX " +:+ sk +:+ ", key does not exist")), st)
          | None => (None, st)
          end
      end
  end.

Definition DeleteSandboxBySessionID rs (sessionID : string) st : option goerr * S :=
  let '(cmder, st) :=
    pipeline [Del (sessionKey rs sessionID);
              ZRem (expiryIndexKey rs) sessionID;
              ZRem (lastActivityIndexKey rs) sessionID] st in
  match first_err cmder with
  | Some e => (Some (Wrapf "DeleteSandboxBySessionID: pipeline EXEC" (to_err e)), st)
  | None => (None, st)
  end.

(** The reply of [ZRANGEBYSCORE]. *)
Definition Pairs (r : goerr + reply) : cmdErr + list (string * Z) :=
  match cmd_err r with
  | Some e => inl e
  | None => match r with inr (RPairs l) => inr l | _ => inl (RedisErr (EText "unexpected reply")) end
  end.

Definition ListExpiredSandboxes rs (before : Time) (limit : Z) st
    : res (list SandboxInfo) * S :=
  if limit <=? 0 then (Ok [], st)
  else
    let '(r, st) :=
      kv_do (ZRangeByScore (expiryIndexKey rs) (float64_of_int (Tm.Unix before)) limit) st in
    match Pairs r with
    | inl e => (Err (Wrapf "ListExpiredSandboxes: ZRangeByScore failed" (to_err e)), st)
    | inr zs => loadSandboxesBySessionIDs rs zs.*1 st
    end.

Definition ListInactiveSandboxes rs (before : Time) (limit : Z) st
    : res (list SandboxInfo) * S :=
  if limit <=? 0 then (Ok [], st)
  else
    let '(r, st) :=
      kv_do (ZRangeByScore (lastActivityIndexKey rs) (float64_of_int (Tm.Unix before)) limit) st in
    match Pairs r with
    | inl e => (Err (Wrapf "ListInactiveSandboxes: ZRangeByScoreWithScores failed" (to_err e)), st)
    | inr zs =>
        let '(r, st) := loadSandboxesBySessionIDs rs zs.*1 st in
        match r with
        | Err e => (Err e, st)
        | Ok sandboxes => (Ok (apply_score (index_scores zs) <$> sandboxes), st)
        end
    end.

Definition Close `{!KVClose S} st : option goerr * S := kv_close st.

(** [updateSessionLastActivityScript]: EXISTS and ZADD in one atomic script. *)
Definition updateSessionLastActivityScript (key1 key2 argv1 : string) (argv2 : Z)
    (ks : keyspace) : reply * keyspace :=
  match redis_step ks (Exists_ key1) with
  | (RInt 1, ks) =>
      match redis_step ks (ZAdd key2 argv2 argv1) with
      | (RErr m, ks) => (RErr m, ks)
      | (_, ks) => (RInt 1, ks)
      end
  | (_, ks) => (RInt 0, ks)
  end.

Definition UpdateSessionLastActivity rs (now : Time) (sessionID : string) (at_ : Time) st
    : option goerr * S :=
  if String.eqb sessionID "" then
    (Some (EText "UpdateSessionLastActivity: sessionID is empty"), st)
  else
    let at_ := if Tm.IsZero at_ then now else at_ in
    let '(r, st) :=
      kv_do (Script (updateSessionLastActivityScript (sessionKey rs sessionID)
               (lastActivityIndexKey rs) sessionID (float64_of_int (Tm.Unix at_)))) st in
    match cmd_err r with
    | Some e =>
        (Some (Wrapf ("UpdateSessionLastActivity: script execution failed for sessionID "
                      +:+ sessionID) (to_err e)), st)
    | None => match r with
              | inr (RInt res) => if res =? 0 then (Some (ESent ErrNotFound), st) else (None, st)
              | _ => (Some (EText "unexpected reply"), st)
              end
    end.
End store.

End Redis.
