(* ===== verification/ValkeyStore.v ===== *)
(** * [pkg/store/store_valkey.go]: the Valkey implementation of [store.Store]

    Same conventions as [RedisStore]. The client library (valkey-go) is used
    through its documented behaviour: [DoMulti] sends the commands in order
    and returns one result each; [AsStrSlice] turns a nil element into the
    empty string; a nil reply is an error recognised by [IsValkeyNil]. *)

From Stdlib Require Import Ascii.
From stdpp Require Import base list gmap strings.
From S2P Require Import Prelude GoStrings GoTime GoError SandboxTypes KVServer RedisStore.

Module Valkey.

(** [cli], the connection, is the state [S] that the methods take. *)
Record valkeyStore := {
sessionPrefix : string;
expiryIndexKey : string;
lastActivityIndexKey : string;
}.

Record ClientOption := {
InitAddress : list string; Password : string;
DisableCache : bool; ForceSingleClient : bool;
}.

(** [strconv.ParseBool] *)
Definition ParseBool (s : string) : option bool :=
if bool_decide (s ∈ ["1"; "t"; "T"; "TRUE"; "true"; "True"]) then Some true
else if bool_decide (s ∈ ["0"; "f"; "F"; "FALSE"; "false"; "False"]) then Some false
else None.

(** [if v != "" { b, err := ParseBool(v); if err == nil && b { ... } }] *)
Definition flag_set (v : string) : bool :=
if String.eqb v "" then false else default false (ParseBool v).

Definition makeValkeyOptions (env : string -> option string) : res ClientOption :=
let valkeyAddr := Redis.Getenv env "VALKEY_ADDR" in
if String.eqb valkeyAddr "" then Err (EText "missing env var VALKEY_ADDR")
else
  let valkeyPassword := Redis.Getenv env "VALKEY_PASSWORD" in
  if negb (String.eqb (Strs.ToLower (Redis.Getenv env "VALKEY_PASSWORD_REQUIRED")) "false")
     && String.eqb valkeyPassword ""
  then Err (EText "VALKEY_PASSWORD is required but not set")
  else Ok {| InitAddress := Strs.Split ","%char valkeyAddr; Password := valkeyPassword;
             DisableCache := flag_set (Redis.Getenv env "VALKEY_DISABLE_CACHE");
             ForceSingleClient := flag_set (Redis.Getenv env "VALKEY_FORCE_SINGLE") |}.

(** [newClient] is [valkey.NewClient], which connects. The options of the
    client with the store. *)
Definition initValkeyStore (newClient : ClientOption -> option goerr)
  (env : string -> option string) : res (ClientOption * valkeyStore) :=
match makeValkeyOptions env with
| Err e => Err (Wrapf "make valkey client options failed" e)
| Ok opts =>
    match newClient opts with
    | Some e => Err (Wrapf "create valkey client failed" e)
    | None =>
        Ok (opts, {| sessionPrefix := "session:"; expiryIndexKey := "session:expiry";
                     lastActivityIndexKey := "session:last_activity" |})
    end
end.

(** [resp.Error()]; the boolean says whether [IsValkeyNil] holds. *)
Definition resp_err (r : goerr + reply) : option (bool * goerr) :=
match r with
| inl e => Some (false, e)
| inr (RErr m) => Some (false, EText m)
| inr RNil => Some (true, EText "valkey nil message")
| inr _ => None
end.

(** The loop over the results of [DoMulti]: the first error. *)
Definition first_resp_err (l : list (goerr + reply)) : option goerr :=
snd <$> head (omap resp_err l).

Definition AsBytes (r : goerr + reply) : (bool * goerr) + string :=
match resp_err r with
| Some e => inl e
| None => match r with inr (RStr b) => inr b | _ => inl (false, EText "unexpected reply") end
end.

(** [ToString()]: simple and bulk strings. *)
Definition ToString (r : goerr + reply) : (bool * goerr) + string :=
match resp_err r with
| Some e => inl e
| None => match r with
          | inr (RStr b) => inr b
          | inr ROk => inr "OK"
          | _ => inl (false, EText "unexpected reply")
          end
end.

Definition AsStrSlice (r : goerr + reply) : (bool * goerr) + list string :=
match resp_err r with
| Some e => inl e
| None => match r with
          | inr (RStrs l) => inr (default "" <$> l)
          | inr (RPairs l) => inr l.*1
          | _ => inl (false, EText "unexpected reply")
          end
end.

Definition AsZScores (r : goerr + reply) : (bool * goerr) + list (string * Z) :=
match resp_err r with
| Some e => inl e
| None => match r with inr (RPairs l) => inr l | _ => inl (false, EText "unexpected reply") end
end.

Definition AsInt64 (r : goerr + reply) : (bool * goerr) + Z :=
match resp_err r with
| Some e => inl e
| None => match r with inr (RInt n) => inr n | _ => inl (false, EText "unexpected reply") end
end.

Section store.
Context {S : Type} `{!KVServer S} `{!SandboxCodec}.
Implicit Types (vs : valkeyStore) (st : S).

Definition sessionKey vs (sessionID : string) : string := sessionPrefix vs +:+ sessionID.

(** [vs.cli.DoMulti(ctx, commands...)] *)
Fixpoint DoMulti (cs : list cmd) st : list (goerr + reply) * S :=
  match cs with
  | [] => ([], st)
  | c :: cs =>
      let '(r, st) := kv_do c st in
      let '(rs, st) := DoMulti cs st in (r :: rs, st)
  end.

(** The loop over the MGET result: empty strings are missing keys. *)
Fixpoint decode_strings (sessionIDs : list string) (l : list string) : res (list SandboxInfo) :=
  match l with
  | [] => Ok []
  | b :: l =>
      if String.eqb b "" then decode_strings (tail sessionIDs) l
      else match unmarshal b with
           | None => Err (EText ("unmarshal sandbox failed, sessionID: " +:+
                                 default "" (head sessionIDs)))
           | Some i => match decode_strings (tail sessionIDs) l with
                       | Ok infos => Ok (i :: infos)
                       | Err e => Err e
                       end
           end
  end.

Definition loadSandboxesBySessionIDs vs (sessionIDs : list string) st
    : res (list SandboxInfo) * S :=
  match sessionIDs with
  | [] => (Ok [], st)
  | _ =>
      let '(r, st) := kv_do (MGet (sessionKey vs <$> sessionIDs)) st in
      match AsStrSlice r with
      | inl (_, e) => (Err (Wrapf "loadSandboxesBySessionIDs: Valkey MGet sandboxes failed" e), st)
      | inr l =>
          if (length sessionIDs <? length l)%nat
          then (Err (EText "unexpected MGet result size"), st)
          else (decode_strings sessionIDs l, st)
      end
  end.

Definition PingStore st : option goerr * S :=
  let '(r, st) := kv_do Ping st in
  match ToString r with
  | inl (_, e) => (Some (Wrapf "ping error" e), st)
  | inr resp => if String.eqb resp "PONG" then (None, st)
                else (Some (EText ("unexpected ping response: " +:+ resp)), st)
  end.

Definition GetSandboxBySessionID vs (sessionID : string) st : res SandboxInfo * S :=
  let key := sessionKey vs sessionID in
  let '(r, st) := kv_do (Get key) st in
  match AsBytes r with
  | inl (true, _) => (Err (ESent ErrNotFound), st)
  | inl (false, e) => (Err (Wrapf ("GetSandboxBySessionID: valkey GET " +:+ key) e), st)
  | inr b => match unmarshal b with
             | None => (Err (EText "GetSandboxBySessionID: unmarshal sandbox failed"), st)
             | Some i => (Ok i, st)
             end
  end.

Definition StoreSandbox vs (now : Time) (sandboxStore : option SandboxInfo) st
    : option goerr * S :=
  match sandboxStore with
  | None => (Some (EText "StoreSandbox: sandbox is nil"), st)
  | Some sb =>
      if Tm.IsZero (Info.ExpiresAt sb)
      then (Some (EText "StoreSandbox: sandbox expires time is zero"), st)
      else
        match marshal sb with
        | None => (Some (EText "StoreSandbox: marshal sandbox"), st)
        | Some b =>
            let '(resps, st) :=
              DoMulti [SetNX (sessionKey vs (Info.SessionID sb)) b;
                       ZAdd (expiryIndexKey vs)
                         (float64_of_int (Tm.Unix (Info.ExpiresAt sb))) (Info.SessionID sb);
                       ZAdd (lastActivityIndexKey vs)
                         (float64_of_int (Tm.Unix now)) (Info.SessionID sb)] st in
            match first_resp_err resps with
            | Some e => (Some (Wrapf "StoreSandbox: DoMulti failed" e), st)
            | None => (None, st)
            end
        end
  end.

Definition UpdateSandbox vs (sandboxStore : option SandboxInfo) st : option goerr * S :=
  match sandboxStore with
  | None => (Some (EText "UpdateSandbox: sandbox is nil"), st)
  | Some sb =>
      let sk := sessionKey vs (Info.SessionID sb) in
      match marshal sb with
      | None => (Some (EText "UpdateSandbox: marshal sandbox failed"), st)
      | Some b =>
          let '(r, st) := kv_do (SetXX sk b) st in
          let not_exists := Some (EText ("UpdateSandbox: valkey SETXX " +:+ sk +:+ ", key not exists")) in
          match ToString r with
          | inl (false, e) =>
              (Some (Wrapf ("UpdateSandbox: valkey SETXX " +:+ sk +:+ " failed") e), st)
          | inl (true, _) => (not_exists, st)
          | inr msg => if String.eqb msg "OK" then (None, st) else (not_exists, st)
          end
      end
  end.

Definition DeleteSandboxBySessionID vs (sessionID : string) st : option goerr * S :=
  let '(resps, st) :=
    DoMulti [Del (sessionKey vs sessionID);
             ZRem (expiryIndexKey vs) sessionID;
             ZRem (lastActivityIndexKey vs) sessionID] st in
  match first_resp_err resps with
  | Some e => (Some (Wrapf "DeleteSandboxBySessionID: DoMulti failed" e), st)
  | None => (None, st)
  end.

Definition ListExpiredSandboxes vs (before : Time) (limit : Z) st
    : res (list SandboxInfo) * S :=
  if limit <=? 0 then (Ok [], st)
  else
    let '(r, st) :=
      kv_do (ZRangeByScore (expiryIndexKey vs) (float64_of_int (Tm.Unix before)) limit) st in
    match AsStrSlice r with
    | inl (_, e) => (Err (Wrapf "ListExpiredSandboxes: ZRangeByScore failed" e), st)
    | inr ids => loadSandboxesBySessionIDs vs ids st
    end.

Definition ListInactiveSandboxes vs (before : Time) (limit : Z) st
    : res (list SandboxInfo) * S :=
  if limit <=? 0 then (Ok [], st)
  else
    let '(r, st) :=
      kv_do (ZRangeByScore (lastActivityIndexKey vs) (float64_of_int (Tm.Unix before)) limit) st in
    match AsZScores r with
    | inl (_, e) => (Err (Wrapf "ListInactiveSandboxes: ZRangeByScore WITHSCORES failed" e), st)
    | inr zs =>
        let '(r, st) := loadSandboxesBySessionIDs vs zs.*1 st in
        match r with
        | Err e => (Err e, st)
        | Ok sandboxes => (Ok (Redis.apply_score (Redis.index_scores zs) <$> sandboxes), st)
        end
    end.

(** The client's [Close] returns nothing. *)
Definition Close `{!KVClose S} st : option goerr * S := (None, (kv_close st).2).

(** The two commands of [UpdateSessionLastActivity], separately: other
    clients may run between them. *)
Definition touch_check vs (sessionID : string) st : option goerr * S :=
  let '(r, st) := kv_do (Exists_ (sessionKey vs sessionID)) st in
  match AsInt64 r with
  | inl (_, e) => (Some (Wrapf "UpdateSessionLastActivity: valkey Exists failed" e), st)
  | inr n => if n =? 1 then (None, st) else (Some (ESent ErrNotFound), st)
  end.

Definition touch_write vs (sessionID : string) (at_ : Time) st : option goerr * S :=
  let '(r, st) :=
    kv_do (ZAdd (lastActivityIndexKey vs) (float64_of_int (Tm.Unix at_)) sessionID) st in
  match resp_err r with
  | Some (_, e) => (Some (Wrapf "UpdateSessionLastActivity: ZADD failed" e), st)
  | None => (None, st)
  end.

Definition UpdateSessionLastActivity vs (now : Time) (sessionID : string) (at_ : Time) st
    : option goerr * S :=
  if String.eqb sessionID "" then
    (Some (EText "UpdateSessionLastActivity: sessionID is empty"), st)
  else
    let at_ := if Tm.IsZero at_ then now else at_ in
    let '(r, st) := touch_check vs sessionID st in
    match r with
    | Some e => (Some e, st)
    | None => touch_write vs sessionID at_ st
    end.
End store.

End Valkey.
