(* ===== verification/StoreSpec.v ===== *)
(** * The session registry: what [store.Store] promises

    [registry] is the abstract state behind the interface of
    [pkg/store/interface.go]: the session records and the two time indexes.
    [spec_run] gives the effect of each operation on it. The class [Store] is
    the Go interface and [StoreLaws] its contract: an operation that does not
    fail does what [spec_run] says; one that fails touches at most its own
    session. *)

From stdpp Require Import base list gmap strings.
From S2P Require Import Prelude GoStrings GoTime GoError SandboxTypes KVServer.

Record registry := {
  sessions : gmap string SandboxInfo;
  expiry : gmap string Z;
  activity : gmap string Z;
}.

Definition empty_registry : registry := {| sessions := ∅; expiry := ∅; activity := ∅ |}.

(** ** Elementary updates *)

Definition put_session (sid : string) (i : SandboxInfo) (g : registry) : registry :=
  {| sessions := <[sid := i]> (sessions g); expiry := expiry g; activity := activity g |}.
Definition add_session (sid : string) (i : SandboxInfo) (g : registry) : registry :=
  match sessions g !! sid with Some _ => g | None => put_session sid i g end.
Definition del_session (sid : string) (g : registry) : registry :=
  {| sessions := delete sid (sessions g); expiry := expiry g; activity := activity g |}.
Definition set_expiry (sid : string) (sc : Z) (g : registry) : registry :=
  {| sessions := sessions g; expiry := <[sid := sc]> (expiry g); activity := activity g |}.
Definition del_expiry (sid : string) (g : registry) : registry :=
  {| sessions := sessions g; expiry := delete sid (expiry g); activity := activity g |}.
Definition set_activity (sid : string) (sc : Z) (g : registry) : registry :=
  {| sessions := sessions g; expiry := expiry g; activity := <[sid := sc]> (activity g) |}.
Definition del_activity (sid : string) (g : registry) : registry :=
  {| sessions := sessions g; expiry := expiry g; activity := delete sid (activity g) |}.

(** ** Operations and their specification *)

Inductive op :=
  | OpGet (sid : string)
  | OpStore (now : Time) (i : SandboxInfo)
  | OpUpdate (i : SandboxInfo)
  | OpDelete (sid : string)
  | OpListExpired (before : Time) (limit : Z)
  | OpListInactive (before : Time) (limit : Z)
  | OpTouch (now : Time) (sid : string) (at_ : Time).

Inductive out :=
  | Done
  | Found (i : SandboxInfo)
  | Listed (l : list SandboxInfo)
  | NotFound
  | Failed.

#[export] Instance out_eq_dec : EqDecision out.
Proof. solve_decision. Defined.

(** The score of an instant in a sorted set. *)
Definition score (t : Time) : Z := float64_of_int (Tm.Unix t).

Definition list_expired (g : registry) (before : Time) (limit : Z) : list SandboxInfo :=
  omap (fun p => sessions g !! p.1) (zrange (expiry g) (score before) limit).

Definition list_inactive (g : registry) (before : Time) (limit : Z) : list SandboxInfo :=
  omap (fun p => Info.set_LastActivityAt (Tm.OfUnix p.2) <$> sessions g !! p.1)
       (zrange (activity g) (score before) limit).

Definition spec_store (now : Time) (i : SandboxInfo) (g : registry) : registry :=
  let sid := Info.SessionID i in
  set_activity sid (score now)
    (set_expiry sid (score (Info.ExpiresAt i)) (add_session sid (Info.persisted i) g)).

Definition spec_delete (sid : string) (g : registry) : registry :=
  del_activity sid (del_expiry sid (del_session sid g)).

Definition spec_run (o : op) (g : registry) : out * registry :=
  match o with
  | OpGet sid => match sessions g !! sid with
                 | Some i => (Found i, g)
                 | None => (NotFound, g)
                 end
  | OpStore now i => if Tm.IsZero (Info.ExpiresAt i) then (Failed, g)
                     else (Done, spec_store now i g)
  | OpUpdate i => match sessions g !! Info.SessionID i with
                  | None => (Failed, g)
                  | Some _ => (Done, put_session (Info.SessionID i) (Info.persisted i) g)
                  end
  | OpDelete sid => (Done, spec_delete sid g)
  | OpListExpired before limit => (Listed (list_expired g before limit), g)
  | OpListInactive before limit => (Listed (list_inactive g before limit), g)
  | OpTouch now sid at_ =>
      if String.eqb sid "" then (Failed, g)
      else match sessions g !! sid with
           | None => (NotFound, g)
           | Some _ => (Done, set_activity sid (score (if Tm.IsZero at_ then now else at_)) g)
           end
  end.

(** A run of several operations. *)
Fixpoint spec_runs (os : list op) (g : registry) : list out * registry :=
  match os with
  | [] => ([], g)
  | o :: os => let '(r, g) := spec_run o g in
               let '(rs, g) := spec_runs os g in (r :: rs, g)
  end.

(** The session an operation is about. *)
Definition op_sid (o : op) : option string :=
  match o with
  | OpGet sid | OpDelete sid | OpTouch _ sid _ => Some sid
  | OpStore _ i | OpUpdate i => Some (Info.SessionID i)
  | OpListExpired _ _ | OpListInactive _ _ => None
  end.

(** Two registries agree on every session but [sid]. *)
Definition frame (sid : option string) (g g' : registry) : Prop :=
  forall s, Some s <> sid ->
    sessions g' !! s = sessions g !! s /\ expiry g' !! s = expiry g !! s /\
    activity g' !! s = activity g !! s.

(** The index keys live in the same key space as the session keys: these two
    identifiers are the ones whose session key is an index key. *)
Definition valid_sid (sid : string) : Prop := sid <> "expiry" /\ sid <> "last_activity".

(** Every record is filed under its own identifier, without the transient
    field, and the indexes only mention proper identifiers. *)
Record wf_registry (g : registry) : Prop := {
  wf_sessions sid i :
    sessions g !! sid = Some i ->
    valid_sid sid /\ Info.SessionID i = sid /\ Info.LastActivityAt i = Tm.zero;
  wf_expiry sid : is_Some (expiry g !! sid) -> valid_sid sid;
  wf_activity sid : is_Some (activity g !! sid) -> valid_sid sid;
}.

(** ** The interface *)

Class Store (W : Type) := {
  store_Get : string -> W -> res SandboxInfo * W;
  store_Store : Time -> SandboxInfo -> W -> option goerr * W;
  store_Update : SandboxInfo -> W -> option goerr * W;
  store_Delete : string -> W -> option goerr * W;
  store_ListExpired : Time -> Z -> W -> res (list SandboxInfo) * W;
  store_ListInactive : Time -> Z -> W -> res (list SandboxInfo) * W;
  store_Touch : Time -> string -> Time -> W -> option goerr * W;
}.

(** The two methods of the interface that are about the connection. *)
Class StoreConn (W : Type) := {
  store_Ping : W -> option goerr * W;
  store_Close : W -> option goerr * W;
}.

Definition err_out (e : goerr) : out := if Is e ErrNotFound then NotFound else Failed.
Definition unit_out (r : option goerr) : out :=
  match r with None => Done | Some e => err_out e end.
Definition info_out (r : res SandboxInfo) : out :=
  match r with Ok i => Found i | Err e => err_out e end.
Definition list_out (r : res (list SandboxInfo)) : out :=
  match r with Ok l => Listed l | Err e => err_out e end.

Definition run {W} `{!Store W} (o : op) (w : W) : out * W :=
  match o with
  | OpGet sid => let '(r, w) := store_Get sid w in (info_out r, w)
  | OpStore now i => let '(r, w) := store_Store now i w in (unit_out r, w)
  | OpUpdate i => let '(r, w) := store_Update i w in (unit_out r, w)
  | OpDelete sid => let '(r, w) := store_Delete sid w in (unit_out r, w)
  | OpListExpired b l => let '(r, w) := store_ListExpired b l w in (list_out r, w)
  | OpListInactive b l => let '(r, w) := store_ListInactive b l w in (list_out r, w)
  | OpTouch now sid at_ => let '(r, w) := store_Touch now sid at_ w in (unit_out r, w)
  end.

Fixpoint runs {W} `{!Store W} (os : list op) (w : W) : list out * W :=
  match os with
  | [] => ([], w)
  | o :: os => let '(r, w) := run o w in
               let '(rs, w) := runs os w in (r :: rs, w)
  end.

(** The arguments the callers pass: proper identifiers and storable records. *)
Definition op_valid `{!SandboxCodec} (o : op) : Prop :=
  match o with
  | OpGet sid | OpDelete sid | OpTouch _ sid _ => valid_sid sid
  | OpStore _ i | OpUpdate i => valid_sid (Info.SessionID i) /\ storable i
  | _ => True
  end.

(** The contract, relative to a representation relation. *)
Class StoreLaws (W : Type) `{!Store W} `{!SandboxCodec} (represents : W -> registry -> Prop) : Prop := {
  store_wf w g : represents w g -> wf_registry g;
  store_refines o w g r w' :
    represents w g -> op_valid o -> run o w = (r, w') ->
    exists g', represents w' g' /\
      if decide (r = Failed) then frame (op_sid o) g g' else spec_run o g = (r, g');
}.

(** A store whose operations never fail for reasons outside the registry. *)
Class StoreExact (W : Type) `{!Store W} `{!SandboxCodec} (represents : W -> registry -> Prop) : Prop := {
  store_exact o w g r w' :
    represents w g -> op_valid o -> run o w = (r, w') ->
    exists g', represents w' g' /\ spec_run o g = (r, g');
}.
