(* ===== verification/StoreRefinement.v ===== *)
(** * Both stores implement the session registry

    [represents_ks] relates the server's key space to the registry. Each
    command the stores send is matched with one elementary update of the
    registry; the refinement of an operation composes those steps, also when
    the connection fails half way. *)

From stdpp Require Import base list gmap strings.
From S2P Require Import Prelude GoStrings GoTime GoError SandboxTypes KVServer RedisStore ValkeyStore StoreSpec.

Definition expKey : string := "session:expiry".
Definition actKey : string := "session:last_activity".
Definition sesKey (sid : string) : string := "session:" +:+ sid.

Lemma sesKey_inj a b : sesKey a = sesKey b -> a = b.
Proof. unfold sesKey. intros H. by injection H. Qed.

Lemma sesKey_exp sid : valid_sid sid -> sesKey sid <> expKey.
Proof. intros [H _] E. apply H, sesKey_inj. exact E. Qed.

Lemma sesKey_act sid : valid_sid sid -> sesKey sid <> actKey.
Proof. intros [_ H] E. apply H, sesKey_inj. exact E. Qed.

Lemma expKey_act : expKey <> actKey.
Proof. discriminate. Qed.

(** ** Elementary updates preserve well-formedness and frame the rest *)

Section elementary.
Implicit Types g : registry.

Lemma frame_refl sid g : frame sid g g.
Proof. by intros s _. Qed.

Lemma frame_trans sid g1 g2 g3 : frame sid g1 g2 -> frame sid g2 g3 -> frame sid g1 g3.
Proof. intros H1 H2 s Hs. specialize (H1 s Hs). specialize (H2 s Hs). naive_solver congruence. Qed.

Lemma frame_put_session sid i g : frame (Some sid) g (put_session sid i g).
Proof. intros s Hs. cbn. by rewrite lookup_insert_ne by congruence. Qed.
Lemma frame_add_session sid i g : frame (Some sid) g (add_session sid i g).
Proof. unfold add_session. case_match; [apply frame_refl|apply frame_put_session]. Qed.
Lemma frame_del_session sid g : frame (Some sid) g (del_session sid g).
Proof. intros s Hs. cbn. by rewrite lookup_delete_ne by congruence. Qed.
Lemma frame_set_expiry sid sc g : frame (Some sid) g (set_expiry sid sc g).
Proof. intros s Hs. cbn. by rewrite lookup_insert_ne by congruence. Qed.
Lemma frame_del_expiry sid g : frame (Some sid) g (del_expiry sid g).
Proof. intros s Hs. cbn. by rewrite lookup_delete_ne by congruence. Qed.
Lemma frame_set_activity sid sc g : frame (Some sid) g (set_activity sid sc g).
Proof. intros s Hs. cbn. by rewrite lookup_insert_ne by congruence. Qed.
Lemma frame_del_activity sid g : frame (Some sid) g (del_activity sid g).
Proof. intros s Hs. cbn. by rewrite lookup_delete_ne by congruence. Qed.

Lemma wf_put_session sid i g :
  valid_sid sid -> Info.SessionID i = sid -> Info.LastActivityAt i = Tm.zero ->
  wf_registry g -> wf_registry (put_session sid i g).
Proof.
  intros Hv Hi Ht [H1 H2 H3]. split; cbn; [|done|done].
  intros s j [[<- <-]|[? ?]]%lookup_insert_Some; eauto.
Qed.
Lemma wf_del_session sid g : wf_registry g -> wf_registry (del_session sid g).
Proof. intros [H1 H2 H3]. split; cbn; [|done|done]. intros s j [? ?]%lookup_delete_Some; eauto. Qed.
Lemma wf_set_expiry sid sc g :
  valid_sid sid -> wf_registry g -> wf_registry (set_expiry sid sc g).
Proof.
  intros Hv [H1 H2 H3]. split; cbn; [done| |done].
  intros s [? [[<- _]|[_ ?]]%lookup_insert_Some]; eauto.
Qed.
Lemma wf_del_expiry sid g : wf_registry g -> wf_registry (del_expiry sid g).
Proof. intros [H1 H2 H3]. split; cbn; [done| |done]. intros s [? [? ?]%lookup_delete_Some]; eauto. Qed.
Lemma wf_set_activity sid sc g :
  valid_sid sid -> wf_registry g -> wf_registry (set_activity sid sc g).
Proof.
  intros Hv [H1 H2 H3]. split; cbn; [done|done|].
  intros s [? [[<- _]|[_ ?]]%lookup_insert_Some]; eauto.
Qed.
Lemma wf_del_activity sid g : wf_registry g -> wf_registry (del_activity sid g).
Proof. intros [H1 H2 H3]. split; cbn; [done|done|]. intros s [? [? ?]%lookup_delete_Some]; eauto. Qed.
End elementary.

#[export] Hint Resolve frame_refl frame_put_session frame_add_session frame_del_session
  frame_set_expiry frame_del_expiry frame_set_activity frame_del_activity : cube.
#[export] Hint Resolve wf_put_session wf_del_session wf_set_expiry wf_del_expiry
  wf_set_activity wf_del_activity : cube.

(** ** The representation relation *)

Section represents.
Context `{!SandboxCodec}.
Implicit Types (g : registry) (ks : keyspace).

(** What the key of a session holds. *)
Definition session_at ks (sid : string) (o : option SandboxInfo) : Prop :=
  match ks !! sesKey sid with
  | None => o = None
  | Some (VStr b) => b <> "" /\ exists i, unmarshal b = Some i /\ o = Some i
  | Some (VZset _) => False
  end.

Record represents_ks ks g : Prop := {
  rep_expiry : zset_at ks expKey = Some (expiry g);
  rep_activity : zset_at ks actKey = Some (activity g);
  rep_session sid : valid_sid sid -> session_at ks sid (sessions g !! sid);
  rep_wf : wf_registry g;
}.

Lemma represents_empty : represents_ks ∅ empty_registry.
Proof.
  split; cbn; [done|done| |].
  - intros sid _. unfold session_at. by rewrite lookup_empty.
  - split; cbn; [by intros sid i; rewrite lookup_empty|..];
      intros sid [x Hx]; by rewrite lookup_empty in Hx.
Qed.

Lemma session_at_same ks ks' sid o :
  ks' !! sesKey sid = ks !! sesKey sid -> session_at ks sid o -> session_at ks' sid o.
Proof. unfold session_at. by intros ->. Qed.

Lemma zset_at_same ks ks' k : ks' !! k = ks !! k -> zset_at ks' k = zset_at ks k.
Proof. unfold zset_at. by intros ->. Qed.

(** *** One command, one elementary update *)

Lemma step_write ks g sid b i :
  represents_ks ks g -> valid_sid sid -> b <> "" -> unmarshal b = Some i ->
  Info.SessionID i = sid -> Info.LastActivityAt i = Tm.zero ->
  represents_ks (<[sesKey sid := VStr b]> ks) (put_session sid i g).
Proof.
  intros [He Ha Hs Hw] Hv Hb Hu Hi Ht.
  pose proof (sesKey_exp sid Hv). pose proof (sesKey_act sid Hv). split.
  - by rewrite (zset_at_same ks) by (by rewrite lookup_insert_ne).
  - by rewrite (zset_at_same ks) by (by rewrite lookup_insert_ne).
  - intros s Hvs. cbn. destruct (decide (s = sid)) as [->|Hne].
    + unfold session_at. simplify_map_eq. eauto.
    + rewrite lookup_insert_ne by done. eapply session_at_same; [|by apply Hs].
      rewrite lookup_insert_ne; [done|]. intros E%sesKey_inj. congruence.
  - eauto with cube.
Qed.

Lemma step_setnx ks g sid b i :
  represents_ks ks g -> valid_sid sid -> b <> "" -> unmarshal b = Some i ->
  Info.SessionID i = sid -> Info.LastActivityAt i = Tm.zero ->
  exists n ks', redis_step ks (SetNX (sesKey sid) b) = (RInt n, ks') /\
    represents_ks ks' (add_session sid i g).
Proof.
  intros HR Hv Hb Hu Hi Ht. pose proof (rep_session _ _ HR _ Hv) as Hs.
  unfold session_at in Hs. unfold add_session. cbn.
  destruct (ks !! sesKey sid) as [[b'|z]|] eqn:E; [|done|].
  - destruct Hs as (_ & j & _ & ->). eauto.
  - rewrite Hs. eauto 6 using step_write.
Qed.

Lemma step_setxx ks g sid b i :
  represents_ks ks g -> valid_sid sid -> b <> "" -> unmarshal b = Some i ->
  Info.SessionID i = sid -> Info.LastActivityAt i = Tm.zero ->
  match sessions g !! sid with
  | None => redis_step ks (SetXX (sesKey sid) b) = (RNil, ks)
  | Some _ => exists ks', redis_step ks (SetXX (sesKey sid) b) = (ROk, ks') /\
      represents_ks ks' (put_session sid i g)
  end.
Proof.
  intros HR Hv Hb Hu Hi Ht. pose proof (rep_session _ _ HR _ Hv) as Hs.
  unfold session_at in Hs. cbn.
  destruct (ks !! sesKey sid) as [[b'|z]|] eqn:E; [|done|].
  - destruct Hs as (_ & j & _ & ->). eauto using step_write.
  - by rewrite Hs.
Qed.

Lemma step_del ks g sid :
  represents_ks ks g -> valid_sid sid ->
  exists n ks', redis_step ks (Del (sesKey sid)) = (RInt n, ks') /\
    represents_ks ks' (del_session sid g).
Proof.
  intros [He Ha Hs Hw] Hv. pose proof (sesKey_exp sid Hv). pose proof (sesKey_act sid Hv).
  assert (represents_ks (delete (sesKey sid) ks) (del_session sid g)) as HR'.
  { split; [| | |eauto with cube].
    - by rewrite (zset_at_same ks) by (by rewrite lookup_delete_ne).
    - by rewrite (zset_at_same ks) by (by rewrite lookup_delete_ne).
    - intros s Hvs. cbn. destruct (decide (s = sid)) as [->|Hne].
      + unfold session_at. by simplify_map_eq.
      + rewrite lookup_delete_ne by done. eapply session_at_same; [|by apply Hs].
        rewrite lookup_delete_ne; [done|]. intros E%sesKey_inj. congruence. }
  cbn. destruct (ks !! sesKey sid) as [v|] eqn:E; [eauto|].
  exists 0, ks. split; [done|]. by rewrite <- (delete_id ks (sesKey sid)).
Qed.

Lemma session_at_put_zset ks k z sid o :
  sesKey sid <> k -> session_at ks sid o -> session_at (put_zset k z ks) sid o.
Proof. intros Hne. apply session_at_same. by rewrite put_zset_ne. Qed.

Lemma step_zadd_exp ks g sid sc :
  represents_ks ks g -> valid_sid sid ->
  exists n ks', redis_step ks (ZAdd expKey sc sid) = (RInt n, ks') /\
    represents_ks ks' (set_expiry sid sc g).
Proof.
  intros [He Ha Hs Hw] Hv. cbn. rewrite He. eexists _, _. split; [done|]. split; cbn.
  - apply zset_at_put.
  - by rewrite zset_at_put_ne.
  - intros s Hvs. apply session_at_put_zset; auto using sesKey_exp.
  - by apply wf_set_expiry.
Qed.

Lemma step_zadd_act ks g sid sc :
  represents_ks ks g -> valid_sid sid ->
  exists n ks', redis_step ks (ZAdd actKey sc sid) = (RInt n, ks') /\
    represents_ks ks' (set_activity sid sc g).
Proof.
  intros [He Ha Hs Hw] Hv. cbn. rewrite Ha. eexists _, _. split; [done|]. split; cbn.
  - by rewrite zset_at_put_ne.
  - apply zset_at_put.
  - intros s Hvs. apply session_at_put_zset; auto using sesKey_act.
  - by apply wf_set_activity.
Qed.

Lemma step_zrem_exp ks g sid :
  represents_ks ks g ->
  exists n ks', redis_step ks (ZRem expKey sid) = (RInt n, ks') /\
    represents_ks ks' (del_expiry sid g).
Proof.
  intros [He Ha Hs Hw]. cbn. rewrite He. eexists _, _. split; [done|]. split; cbn.
  - apply zset_at_put.
  - by rewrite zset_at_put_ne.
  - intros s Hvs. apply session_at_put_zset; auto using sesKey_exp.
  - by apply wf_del_expiry.
Qed.

Lemma step_zrem_act ks g sid :
  represents_ks ks g ->
  exists n ks', redis_step ks (ZRem actKey sid) = (RInt n, ks') /\
    represents_ks ks' (del_activity sid g).
Proof.
  intros [He Ha Hs Hw]. cbn. rewrite Ha. eexists _, _. split; [done|]. split; cbn.
  - by rewrite zset_at_put_ne.
  - apply zset_at_put.
  - intros s Hvs. apply session_at_put_zset; auto using sesKey_act.
  - by apply wf_del_activity.
Qed.

Lemma step_exists ks g sid :
  represents_ks ks g -> valid_sid sid ->
  redis_step ks (Exists_ (sesKey sid)) =
  (RInt (if sessions g !! sid is Some _ then 1 else 0), ks).
Proof.
  intros HR Hv. pose proof (rep_session _ _ HR _ Hv) as Hs. unfold session_at in Hs. cbn.
  destruct (ks !! sesKey sid) as [[b'|z]|] eqn:E; [|done|].
  - destruct Hs as (_ & j & _ & ->). by rewrite decide_True by eauto.
  - rewrite Hs. by rewrite decide_False by (by intros []).
Qed.
End represents.

(** ** Through the connection *)

Section connection.
Context {S : Type} `{!KVServer S} `{!KVLaws S} `{!SandboxCodec}.
Implicit Types (st : S) (g : registry).

Definition represents st g : Prop := represents_ks (kv_view st) g.

(** A transport failure: an error that is not the store's, possible only on
    an unreliable connection. *)
Definition transport (e : goerr) : Prop := Is e ErrNotFound = false /\ ~ KVReliable S.

Lemma do_upd c st r st' g g1 rep ks1 :
  represents st g ->
  redis_step (kv_view st) c = (rep, ks1) -> represents_ks ks1 g1 ->
  kv_do c st = (r, st') ->
  (r = inr rep /\ represents st' g1) \/
  (exists e, r = inl e /\ transport e /\ (represents st' g \/ represents st' g1)).
Proof.
  intros HR Hc H1 Hdo. destruct r as [e|rep'].
  - right. exists e. split; [done|]. split.
    + split; [by eapply kv_fail_foreign|]. intros [Hrel].
      destruct (Hrel c st) as (? & ? & ?). congruence.
    + unfold represents. destruct (kv_fail _ _ _ _ Hdo) as [->| ->]; [by left|right].
      by rewrite Hc.
  - left. apply kv_ok in Hdo. rewrite Hc in Hdo. injection Hdo as -> ->. done.
Qed.

(** Commands that do not write. *)
Lemma do_read c st r st' g rep :
  represents st g -> redis_step (kv_view st) c = (rep, kv_view st) ->
  kv_do c st = (r, st') ->
  represents st' g /\ (r = inr rep \/ exists e, r = inl e /\ transport e).
Proof.
  intros HR Hc Hdo.
  destruct (do_upd _ _ _ _ _ _ _ _ HR Hc HR Hdo) as [[-> ?]|(e & -> & ? & [?|?])]; eauto 6.
Qed.

(** A command that performs an elementary update of session [sid]. *)
Definition cmd_upd (sid : string) (c : cmd) (u : registry -> registry) : Prop :=
  forall ks g, represents_ks ks g ->
    frame (Some sid) g (u g) /\
    exists n ks', redis_step ks c = (RInt n, ks') /\ represents_ks ks' (u g).

Lemma upds_frame sid cs us ks g :
  Forall2 (cmd_upd sid) cs us -> represents_ks ks g ->
  frame (Some sid) g (foldl (fun g u => u g) g us).
Proof.
  intros HF. revert ks g. induction HF as [|c u cs us Hc HF IH]; intros ks g HR; cbn.
  { apply frame_refl. }
  destruct (Hc _ _ HR) as (Hfr & n & ks' & _ & HR2).
  eapply frame_trans; [exact Hfr|]. by eapply IH.
Qed.

Lemma pipeline_upd sid cs us st rs st' g :
  Forall2 (cmd_upd sid) cs us -> represents st g -> Redis.pipeline cs st = (rs, st') ->
  exists g', represents st' g' /\
    ((omap Redis.cmd_err rs = [] /\ length rs = length cs /\ g' = foldl (fun g u => u g) g us) \/
     (exists e, Redis.first_err rs = Some (Redis.RedisErr e) /\ transport e /\
                frame (Some sid) g g')).
Proof.
  intros HF. revert st rs st' g. induction HF as [|c u cs us Hc HF IH]; intros st rs st' g HR Hp.
  { cbn in Hp. simplify_eq. eauto 6. }
  cbn in Hp. destruct (kv_do c st) as [r st1] eqn:Hdo.
  destruct (Redis.pipeline cs st1) as [rs1 st2] eqn:Hp1. simplify_eq.
  destruct (Hc _ _ HR) as (Hfr & n & ks1 & Hs & HR1).
  destruct (do_upd _ _ _ _ _ _ _ _ HR Hs HR1 Hdo) as [[-> HR']|(e & -> & He & HR')].
  - destruct (IH _ _ _ _ HR' Hp1) as (g' & Hg' & [(H1 & H2 & ->)|(e & H1 & H2 & H3)]).
    + exists (foldl (fun g u => u g) (u g) us). split; [done|]. left. cbn. auto.
    + exists g'. split; [done|]. right. exists e. eauto using frame_trans.
  - assert (exists g1, represents st1 g1 /\ frame (Some sid) g g1) as (g1 & HRg1 & Hf1).
    { destruct HR'; eauto using frame_refl. }
    destruct (IH _ _ _ _ HRg1 Hp1) as (g' & Hg' & Hor).
    exists g'. split; [done|]. right. exists e. split; [done|]. split; [done|].
    eapply frame_trans; [done|]. destruct Hor as [(_ & _ & ->)|(? & _ & _ & ?)]; [|done].
    by eapply upds_frame.
Qed.

(** *** Reading records *)

Definition get_reply (o : option SandboxInfo) (r : reply) : Prop :=
  match o with
  | None => r = RNil
  | Some i => exists b, r = RStr b /\ unmarshal b = Some i /\ b <> ""
  end.

Lemma step_get ks g sid :
  represents_ks ks g -> valid_sid sid ->
  exists r, redis_step ks (Get (sesKey sid)) = (r, ks) /\ get_reply (sessions g !! sid) r.
Proof.
  intros HR Hv. pose proof (rep_session _ _ HR _ Hv) as Hs. unfold session_at in Hs. cbn.
  destruct (ks !! sesKey sid) as [[b|z]|]; [|done|rewrite Hs; cbn; eauto].
  destruct Hs as (Hb & i & Hu & ->). cbn. eauto 6.
Qed.

(** What the pipelined [GET]s of a list of identifiers return. *)
Definition loaded g (id : string) (r : goerr + reply) : Prop :=
  match r with
  | inr r => get_reply (sessions g !! id) r
  | inl e => transport e
  end.

Lemma pipeline_gets ids st rs st' g :
  Forall valid_sid ids -> represents st g ->
  Redis.pipeline ((fun id => Get (sesKey id)) <$> ids) st = (rs, st') ->
  represents st' g /\ Forall2 (loaded g) ids rs.
Proof.
  revert st rs. induction ids as [|id ids IH]; intros st rs Hv HR Hp.
  { cbn in Hp. by simplify_eq. }
  cbn in Hp. destruct (kv_do _ st) as [r st1] eqn:Hdo.
  destruct (Redis.pipeline _ st1) as [rs1 st2] eqn:Hp1. simplify_eq.
  inversion Hv as [|? ? Hid Hids]; subst.
  destruct (step_get _ _ _ HR Hid) as (rep & Hs & Hrep).
  destruct (do_read _ _ _ _ _ _ HR Hs Hdo) as [HR1 Hr].
  destruct (IH _ _ Hids HR1 Hp1) as [HR2 HF]. split; [done|].
  constructor; [|done]. destruct Hr as [->|(e & -> & He)]; done.
Qed.

Lemma decode_loaded g ids rs :
  Forall2 (loaded g) ids rs ->
  (Redis.decode_replies ids rs = Ok (omap (fun id => sessions g !! id) ids) /\
   (forall e, Redis.first_err rs <> Some (Redis.RedisErr e))) \/
  (exists e, Redis.decode_replies ids rs = Err e /\ transport e).
Proof.
  induction 1 as [|id r ids rs Hl HF IH]; [left; done|].
  destruct r as [e|rep]; cbn in Hl.
  { right. cbn. exists (Wrapf ("loadSandboxesBySessionIDs: get sandbox JSON for session "
      +:+ id) e). by destruct Hl. }
  destruct (sessions g !! id) as [i|] eqn:Hi; cbn in Hl.
  - destruct Hl as (b & -> & Hu & _). cbn. rewrite Hu, Hi.
    destruct IH as [[-> Hf]|(e & -> & He)]; [left|right; eauto]. done.
  - subst rep. cbn. rewrite Hi. destruct IH as [[-> Hf]|(e & -> & He)]; [left|right; eauto]. done.
Qed.

Lemma first_err_loaded g ids rs e :
  Forall2 (loaded g) ids rs -> Redis.first_err rs = Some (Redis.RedisErr e) -> transport e.
Proof.
  unfold Redis.first_err. induction 1 as [|id r ids rs Hl HF IH]; cbn; [done|].
  destruct r as [e'|rep]; cbn in *; [by intros ?; simplify_eq|].
  destruct (sessions g !! id) as [i|]; cbn in Hl;
    [destruct Hl as (b & -> & _)|subst rep]; cbn; done.
Qed.

(** The scores map assigns to each listed record the score it was listed
    under. *)
Lemma index_scores_go zs (m : gmap string Time) id :
  id ∉ zs.*1 ->
  foldl (fun m (z : string * Z) => <[z.1 := Tm.OfUnix z.2]> m) m zs !! id = m !! id.
Proof.
  revert m. induction zs as [|[k sc] zs IH]; intros m Hn; cbn; [done|].
  rewrite fmap_cons, not_elem_of_cons in Hn. destruct Hn as [Hk Hn].
  rewrite IH by done. by rewrite lookup_insert_ne by (by apply not_eq_sym).
Qed.

Lemma index_scores_lookup zs id sc :
  NoDup zs.*1 -> (id, sc) ∈ zs -> Redis.index_scores zs !! id = Some (Tm.OfUnix sc).
Proof.
  unfold Redis.index_scores. generalize (∅ : gmap string Time).
  induction zs as [|[k s] zs IH]; intros m Hnd Hin; [by apply elem_of_nil in Hin|].
  rewrite fmap_cons, NoDup_cons in Hnd. destruct Hnd as [Hk Hnd]. cbn [foldl].
  apply elem_of_cons in Hin as [Heq|Hin]; [|by apply IH]. simplify_eq.
  rewrite index_scores_go by done. cbn. apply lookup_insert_eq.
Qed.

Lemma apply_scores g zs :
  wf_registry g -> NoDup zs.*1 ->
  Redis.apply_score (Redis.index_scores zs) <$> omap (fun id => sessions g !! id) zs.*1 =
  omap (fun p => Info.set_LastActivityAt (Tm.OfUnix p.2) <$> sessions g !! p.1) zs.
Proof.
  intros Hw Hnd.
  assert (forall p, p ∈ zs -> Redis.index_scores zs !! p.1 = Some (Tm.OfUnix p.2)) as Hidx
    by (intros [id sc] Hin; by apply index_scores_lookup).
  revert Hidx. generalize (Redis.index_scores zs) as m. clear Hnd. intros m.
  induction zs as [|[id sc] zs IH]; intros Hidx; [done|].
  cbn. destruct (sessions g !! id) as [i|] eqn:Hi; cbn.
  - rewrite IH by set_solver. f_equal. unfold Redis.apply_score.
    destruct (wf_sessions _ Hw _ _ Hi) as (_ & -> & _).
    pose proof (Hidx (id, sc) ltac:(set_solver)) as Hm. cbn in Hm. by rewrite Hm.
  - apply IH. set_solver.
Qed.

Lemma zrange_valid (z : gmap string Z) max count :
  (forall sid, is_Some (z !! sid) -> valid_sid sid) -> Forall valid_sid (zrange z max count).*1.
Proof.
  intros Hz. apply Forall_fmap, Forall_forall. intros [m sc] Hin%elem_of_zrange. apply Hz.
  destruct Hin. cbn. eauto.
Qed.
End connection.
