(* ===== verification/StoreInstances.v ===== *)
(** * The two stores as instances of the [Store] interface

    Every operation of either store refines [spec_run]; on a reliable
    connection it refines it exactly, so that the two stores cannot be told
    apart by any sequence of operations. [redis_laws] and [valkey_laws] discharge
    [StoreLaws], the contract the handlers and the garbage collector are verified
    against; [lift_store] makes a store of a component of a world a store of the
    world. *)

From stdpp Require Import base list gmap strings.
From S2P Require Import Prelude GoStrings GoTime GoError SandboxTypes KVServer RedisStore ValkeyStore StoreSpec StoreRefinement.

Definition redis0 : Redis.redisStore :=
  {| Redis.sessionPrefix := "session:"; Redis.expiryIndexKey := expKey;
     Redis.lastActivityIndexKey := actKey |}.

Definition valkey0 : Valkey.valkeyStore :=
  {| Valkey.sessionPrefix := "session:"; Valkey.expiryIndexKey := expKey;
     Valkey.lastActivityIndexKey := actKey |}.

(** The stores the constructors build have these keys. *)
Lemma initRedisStore_keys env o rs : Redis.initRedisStore env = Ok (o, rs) -> rs = redis0.
Proof. unfold Redis.initRedisStore. destruct (Redis.makeRedisOptions env); [|done]. by intros [= <- <-]. Qed.

Lemma initValkeyStore_keys new env o vs : Valkey.initValkeyStore new env = Ok (o, vs) -> vs = valkey0.
Proof.
  unfold Valkey.initValkeyStore. destruct (Valkey.makeValkeyOptions env) as [o'|]; [|done].
  destruct (new o'); [done|]. by intros [= <- <-].
Qed.

Definition redis_store {S} `{!KVServer S} `{!SandboxCodec} : Store S := {|
  store_Get := Redis.GetSandboxBySessionID redis0;
  store_Store now i := Redis.StoreSandbox redis0 now (Some i);
  store_Update i := Redis.UpdateSandbox redis0 (Some i);
  store_Delete := Redis.DeleteSandboxBySessionID redis0;
  store_ListExpired := Redis.ListExpiredSandboxes redis0;
  store_ListInactive := Redis.ListInactiveSandboxes redis0;
  store_Touch := Redis.UpdateSessionLastActivity redis0;
|}.

Definition valkey_store {S} `{!KVServer S} `{!SandboxCodec} : Store S := {|
  store_Get := Valkey.GetSandboxBySessionID valkey0;
  store_Store now i := Valkey.StoreSandbox valkey0 now (Some i);
  store_Update i := Valkey.UpdateSandbox valkey0 (Some i);
  store_Delete := Valkey.DeleteSandboxBySessionID valkey0;
  store_ListExpired := Valkey.ListExpiredSandboxes valkey0;
  store_ListInactive := Valkey.ListInactiveSandboxes valkey0;
  store_Touch := Valkey.UpdateSessionLastActivity valkey0;
|}.

Definition redis_conn {S} `{!KVServer S} `{!KVClose S} : StoreConn S :=
  {| store_Ping := Redis.PingStore; store_Close := Redis.Close |}.

Definition valkey_conn {S} `{!KVServer S} `{!KVClose S} : StoreConn S :=
  {| store_Ping := Valkey.PingStore; store_Close := Valkey.Close |}.

(** A ping changes no key, and on a reliable connection it succeeds. *)
Section ping.
Context {S : Type} `{!KVServer S} `{!KVLaws S}.
Implicit Types st : S.

Lemma do_ping st r st' :
  kv_do Ping st = (r, st') -> kv_view st' = kv_view st /\ (r = inr (RStr "PONG") \/ ~ KVReliable S /\ exists e, r = inl e).
Proof.
  intros H. destruct r as [e|r].
  - split; [destruct (kv_fail _ _ _ _ H) as [|]; done|]. right. split; [|eauto].
    intros [Hr]. destruct (Hr Ping st) as (? & ? & ?). congruence.
  - apply kv_ok in H. cbn in H. simplify_eq. auto.
Qed.

Lemma redis_ping_view st : kv_view (Redis.PingStore st).2 = kv_view st /\ (KVReliable S -> (Redis.PingStore st).1 = None).
Proof.
  unfold Redis.PingStore. destruct (kv_do Ping st) as [r st'] eqn:H.
  apply do_ping in H as [Hv [->|[Hn [e ->]]]]; cbn; [done|]. split; [done|]. by intros.
Qed.

Lemma valkey_ping_view st : kv_view (Valkey.PingStore st).2 = kv_view st /\ (KVReliable S -> (Valkey.PingStore st).1 = None).
Proof.
  unfold Valkey.PingStore. destruct (kv_do Ping st) as [r st'] eqn:H.
  apply do_ping in H as [Hv [->|[Hn [e ->]]]]; cbn; [done|]. split; [done|]. by intros.
Qed.
End ping.

Section refinement.
Context {S : Type} `{!KVServer S} `{!KVLaws S} `{!SandboxCodec} `{!SandboxCodecLaws}.
Implicit Types (st : S) (g : registry).

(** The outcome [r] and the state [st'] are what the specification allows. *)
Definition refined (o : op) g (r : out) st' : Prop :=
  exists g', represents st' g' /\
    (spec_run o g = (r, g') \/
     (r = Failed /\ ~ KVReliable S /\ frame (op_sid o) g g')).

Lemma refined_fail o g e st' g' :
  represents st' g' -> transport (S := S) e -> frame (op_sid o) g g' ->
  refined o g (err_out e) st'.
Proof.
  intros HR [He Hrel] Hf. exists g'. split; [done|]. right.
  unfold err_out. by rewrite He.
Qed.

Lemma transport_wrap pre (e : goerr) : transport (S := S) e -> transport (S := S) (Wrapf pre e).
Proof. done. Qed.

Hint Resolve transport_wrap frame_refl : core.

Ltac refine_fail :=
  eapply refined_fail;
    [eassumption|repeat apply transport_wrap; eassumption|cbn; first [eassumption|eauto with cube]].

(** The elementary updates behind the commands. *)
Lemma upd_setnx sid b i :
  valid_sid sid -> b <> "" -> unmarshal b = Some i ->
  Info.SessionID i = sid -> Info.LastActivityAt i = Tm.zero ->
  cmd_upd sid (SetNX (sesKey sid) b) (add_session sid i).
Proof. intros ????? ks g HR. split; eauto using step_setnx with cube. Qed.
Lemma upd_zadd_exp sid sc : valid_sid sid -> cmd_upd sid (ZAdd expKey sc sid) (set_expiry sid sc).
Proof. intros ? ks g HR. split; eauto using step_zadd_exp with cube. Qed.
Lemma upd_zadd_act sid sc : valid_sid sid -> cmd_upd sid (ZAdd actKey sc sid) (set_activity sid sc).
Proof. intros ? ks g HR. split; eauto using step_zadd_act with cube. Qed.
Lemma upd_del sid : valid_sid sid -> cmd_upd sid (Del (sesKey sid)) (del_session sid).
Proof. intros ? ks g HR. split; eauto using step_del with cube. Qed.
Lemma upd_zrem_exp sid : cmd_upd sid (ZRem expKey sid) (del_expiry sid).
Proof. intros ks g HR. split; eauto using step_zrem_exp with cube. Qed.
Lemma upd_zrem_act sid : cmd_upd sid (ZRem actKey sid) (del_activity sid).
Proof. intros ks g HR. split; eauto using step_zrem_act with cube. Qed.

Definition store_upds (now : Time) (i : SandboxInfo) : list (registry -> registry) :=
  [add_session (Info.SessionID i) (Info.persisted i);
   set_expiry (Info.SessionID i) (score (Info.ExpiresAt i));
   set_activity (Info.SessionID i) (score now)].

Definition delete_upds (sid : string) : list (registry -> registry) :=
  [del_session sid; del_expiry sid; del_activity sid].

Lemma store_cmds now i b :
  valid_sid (Info.SessionID i) -> b <> "" -> unmarshal b = Some (Info.persisted i) ->
  Forall2 (cmd_upd (Info.SessionID i))
    [SetNX (sesKey (Info.SessionID i)) b;
     ZAdd expKey (score (Info.ExpiresAt i)) (Info.SessionID i);
     ZAdd actKey (score now) (Info.SessionID i)] (store_upds now i).
Proof.
  intros Hv Hb Hu. constructor; [by apply upd_setnx|]. constructor; [by apply upd_zadd_exp|].
  constructor; [by apply upd_zadd_act|constructor].
Qed.

Lemma delete_cmds sid :
  valid_sid sid ->
  Forall2 (cmd_upd sid) [Del (sesKey sid); ZRem expKey sid; ZRem actKey sid] (delete_upds sid).
Proof.
  intros Hv. constructor; [by apply upd_del|]. constructor; [by apply upd_zrem_exp|].
  constructor; [by apply upd_zrem_act|constructor].
Qed.

(** ** Redis *)

Lemma redis_get sid st r st' g :
  represents st g -> valid_sid sid -> Redis.GetSandboxBySessionID redis0 sid st = (r, st') ->
  refined (OpGet sid) g (info_out r) st'.
Proof.
  intros HR Hv. unfold Redis.GetSandboxBySessionID.
  destruct (step_get _ _ _ HR Hv) as (rep & Hs & Hrep).
  change (Redis.sessionKey redis0 sid) with (sesKey sid).
  destruct (kv_do _ st) as [x st1] eqn:Hdo.
  destruct (do_read _ _ _ _ _ _ HR Hs Hdo) as [HR1 [->|(e & -> & He)]].
  - destruct (sessions g !! sid) as [i|] eqn:Hi; cbn in Hrep.
    + destruct Hrep as (b & -> & Hu & _). cbn. rewrite Hu. intros [= <- <-].
      exists g. split; [done|]. left. cbn. by rewrite Hi.
    + subst rep. cbn. intros [= <- <-]. exists g. split; [done|]. left. cbn. by rewrite Hi.
  - cbn. intros [= <- <-]. refine_fail.
Qed.

Lemma redis_store_op now i st r st' g :
  represents st g -> valid_sid (Info.SessionID i) -> storable i ->
  Redis.StoreSandbox redis0 now (Some i) st = (r, st') ->
  refined (OpStore now i) g (unit_out r) st'.
Proof.
  intros HR Hv Hst. unfold Redis.StoreSandbox.
  destruct (codec_roundtrip i Hst) as (b & -> & Hb & Hu).
  destruct (Tm.IsZero (Info.ExpiresAt i)) eqn:Hz.
  { intros [= <- <-]. exists g. split; [done|]. left. cbn. by rewrite Hz. }
  destruct (Redis.pipeline _ st) as [rs st1] eqn:Hp.
  eapply (pipeline_upd (Info.SessionID i) _ (store_upds now i)) in Hp as (g' & HR' & [(He & Hlen & ->)|(e & He & Ht & Hf)]);
    [| |by apply store_cmds|exact HR].
  - unfold Redis.first_err. rewrite He. cbn. destruct rs; [done|]. intros [= <- <-].
    eexists. split; [done|]. left. cbn. by rewrite Hz.
  - rewrite He. cbn. intros [= <- <-]. refine_fail.
Qed.

Lemma redis_update i st r st' g :
  represents st g -> valid_sid (Info.SessionID i) -> storable i ->
  Redis.UpdateSandbox redis0 (Some i) st = (r, st') -> refined (OpUpdate i) g (unit_out r) st'.
Proof.
  intros HR Hv Hst. unfold Redis.UpdateSandbox.
  destruct (codec_roundtrip i Hst) as (b & -> & Hb & Hu).
  change (Redis.sessionKey redis0 (Info.SessionID i)) with (sesKey (Info.SessionID i)).
  pose proof (step_setxx _ _ _ _ _ HR Hv Hb Hu eq_refl eq_refl) as Hs.
  destruct (kv_do _ st) as [x st1] eqn:Hdo.
  destruct (sessions g !! Info.SessionID i) as [j|] eqn:Hi.
  - destruct Hs as (ks' & Hs & HR').
    destruct (do_upd _ _ _ _ _ _ _ _ HR Hs HR' Hdo) as [[-> HR1]|(e & -> & He & HR1)].
    + cbn. intros [= <- <-]. eexists. split; [done|]. left. cbn. by rewrite Hi.
    + cbn. intros [= <- <-]. destruct HR1; refine_fail.
  - destruct (do_read _ _ _ _ _ _ HR Hs Hdo) as [HR1 [->|(e & -> & He)]]; cbn; intros [= <- <-].
    + exists g. split; [done|]. left. cbn. by rewrite Hi.
    + refine_fail.
Qed.

Lemma redis_delete sid st r st' g :
  represents st g -> valid_sid sid ->
  Redis.DeleteSandboxBySessionID redis0 sid st = (r, st') -> refined (OpDelete sid) g (unit_out r) st'.
Proof.
  intros HR Hv. unfold Redis.DeleteSandboxBySessionID.
  destruct (Redis.pipeline _ st) as [rs st1] eqn:Hp.
  eapply (pipeline_upd sid _ (delete_upds sid)) in Hp as (g' & HR' & [(He & Hlen & ->)|(e & He & Ht & Hf)]);
    [| |by apply delete_cmds|exact HR].
  - unfold Redis.first_err. rewrite He. cbn. intros [= <- <-]. eexists. split; [done|]. by left.
  - rewrite He. cbn. intros [= <- <-]. refine_fail.
Qed.

(** The batch read both list operations end with. *)
Lemma redis_load ids st r st' g :
  represents st g -> Forall valid_sid ids ->
  Redis.loadSandboxesBySessionIDs redis0 ids st = (r, st') ->
  represents st' g /\
  (r = Ok (omap (fun id => sessions g !! id) ids) \/
   exists e, r = Err e /\ transport (S := S) e).
Proof.
  intros HR Hv. unfold Redis.loadSandboxesBySessionIDs. destruct ids as [|id ids].
  { cbn. intros [= <- <-]. by auto. }
  destruct (Redis.pipeline _ st) as [rs st1] eqn:Hp.
  apply (pipeline_gets (id :: ids)) with (g := g) in Hp as [HR1 HF]; [|done|done].
  destruct (Redis.first_err rs) as [[|e]|] eqn:He; intros Heq.
  2: { injection Heq as <- <-. split; [done|]. right. eexists. split; [done|].
       apply transport_wrap. by eapply first_err_loaded. }
  all: destruct (decode_loaded _ _ _ HF) as [[Hd _]|(e & Hd & Hte)];
    rewrite Hd in Heq; injection Heq as <- <-; eauto.
Qed.

Lemma redis_list_expired before limit st r st' g :
  represents st g -> Redis.ListExpiredSandboxes redis0 before limit st = (r, st') ->
  refined (OpListExpired before limit) g (list_out r) st'.
Proof.
  intros HR. unfold Redis.ListExpiredSandboxes. destruct (Z.leb_spec limit 0).
  { intros [= <- <-]. exists g. split; [done|]. left. cbn. unfold list_expired, zrange.
    by replace (Z.to_nat limit) with 0%nat by lia. }
  destruct (kv_do _ st) as [x st1] eqn:Hdo.
  assert (redis_step (kv_view st) (ZRangeByScore expKey (score before) limit) =
    (RPairs (zrange (expiry g) (score before) limit), kv_view st)) as Hs
    by (cbn; by rewrite (rep_expiry _ _ HR)).
  destruct (do_read _ _ _ _ _ _ HR Hs Hdo) as [HR1 [->|(e & -> & He)]]; cbn.
  - intros Hl. apply redis_load with (g := g) in Hl as [HR2 [->|(e & -> & He)]];
      [|refine_fail|done|].
    + exists g. split; [done|]. left. cbn. unfold list_expired. by rewrite omap_fmap_comp.
    + apply zrange_valid, wf_expiry, (rep_wf _ _ HR).
  - intros [= <- <-]. refine_fail.
Qed.

Lemma redis_list_inactive before limit st r st' g :
  represents st g -> Redis.ListInactiveSandboxes redis0 before limit st = (r, st') ->
  refined (OpListInactive before limit) g (list_out r) st'.
Proof.
  intros HR. unfold Redis.ListInactiveSandboxes. destruct (Z.leb_spec limit 0).
  { intros [= <- <-]. exists g. split; [done|]. left. cbn. unfold list_inactive, zrange.
    by replace (Z.to_nat limit) with 0%nat by lia. }
  destruct (kv_do _ st) as [x st1] eqn:Hdo.
  assert (redis_step (kv_view st) (ZRangeByScore actKey (score before) limit) =
    (RPairs (zrange (activity g) (score before) limit), kv_view st)) as Hs
    by (cbn; by rewrite (rep_activity _ _ HR)).
  destruct (do_read _ _ _ _ _ _ HR Hs Hdo) as [HR1 [->|(e & -> & He)]]; cbn.
  - destruct (Redis.loadSandboxesBySessionIDs _ _ st1) as [y st2] eqn:Hl.
    apply redis_load with (g := g) in Hl as [HR2 [->|(e & -> & He)]];
      [|intros [= <- <-]; refine_fail|done|].
    + intros [= <- <-]. exists g. split; [done|]. left. cbn. unfold list_inactive.
      rewrite apply_scores; [done|apply (rep_wf _ _ HR)|apply zrange_NoDup].
    + apply zrange_valid, wf_activity, (rep_wf _ _ HR).
  - intros [= <- <-]. refine_fail.
Qed.

Definition touch_script (now : Time) (sid : string) (at_ : Time) : cmd :=
  Script (Redis.updateSessionLastActivityScript (sesKey sid) actKey sid
            (score (if Tm.IsZero at_ then now else at_))).

Lemma redis_touch now sid at_ st r st' g :
  represents st g -> valid_sid sid ->
  Redis.UpdateSessionLastActivity redis0 now sid at_ st = (r, st') ->
  refined (OpTouch now sid at_) g (unit_out r) st'.
Proof.
  intros HR Hv. unfold Redis.UpdateSessionLastActivity.
  destruct (String.eqb sid "") eqn:Hsid.
  { intros [= <- <-]. exists g. split; [done|]. left. cbn. by rewrite Hsid. }
  destruct (kv_do _ st) as [x st1] eqn:Hdo.
  pose proof (step_exists _ _ _ HR Hv) as Hex.
  destruct (step_zadd_act _ _ sid (score (if Tm.IsZero at_ then now else at_)) HR Hv)
    as (n & ks' & Hz & HR').
  destruct (sessions g !! sid) as [i|] eqn:Hi.
  - assert (redis_step (kv_view st) (touch_script now sid at_) = (RInt 1, ks')) as Hs.
    { unfold touch_script. cbn [redis_step]. unfold Redis.updateSessionLastActivityScript.
      by rewrite Hex, Hz. }
    destruct (do_upd _ _ _ _ _ _ _ _ HR Hs HR' Hdo) as [[-> HR1]|(e & -> & He & HR1)].
    + cbn. intros [= <- <-]. eexists. split; [done|]. left. cbn. by rewrite Hsid, Hi.
    + cbn. intros [= <- <-]. destruct HR1; refine_fail.
  - assert (redis_step (kv_view st) (touch_script now sid at_) = (RInt 0, kv_view st)) as Hs.
    { unfold touch_script. cbn [redis_step]. unfold Redis.updateSessionLastActivityScript.
      by rewrite Hex. }
    destruct (do_read _ _ _ _ _ _ HR Hs Hdo) as [HR1 [->|(e & -> & He)]].
    + cbn. intros [= <- <-]. exists g. split; [done|]. left. cbn. by rewrite Hsid, Hi.
    + cbn. intros [= <- <-]. refine_fail.
Qed.

Lemma redis_refined o st r st' g :
  represents st g -> op_valid o -> run (Store0 := redis_store) o st = (r, st') ->
  refined o g r st'.
Proof.
  intros HR Hv. destruct o; cbn in *.
  all: match goal with |- context [let '(_, _) := ?c in _] => destruct c eqn:E end.
  all: intros [= <- <-]; destruct_and?;
    eauto using redis_get, redis_store_op, redis_update, redis_delete, redis_list_expired,
      redis_list_inactive, redis_touch.
Qed.

(** ** Valkey *)

Lemma DoMulti_pipeline cs st : Valkey.DoMulti cs st = Redis.pipeline cs st.
Proof.
  revert st. induction cs as [|c cs IH]; intros st; cbn; [done|].
  destruct (kv_do c st) as [r st1]. by rewrite IH.
Qed.

(** Both clients see the same first error, nil replies apart. *)
Lemma first_resp_err_none rs : omap Redis.cmd_err rs = [] -> Valkey.first_resp_err rs = None.
Proof.
  unfold Valkey.first_resp_err. induction rs as [|[e|[]] rs IH]; cbn; try done; by intros ->%IH.
Qed.

Lemma first_resp_err_some rs e :
  Redis.first_err rs = Some (Redis.RedisErr e) -> Valkey.first_resp_err rs = Some e.
Proof.
  unfold Valkey.first_resp_err, Redis.first_err.
  induction rs as [|[e'|[]] rs IH]; cbn; try done; by intros [= ->].
Qed.

Lemma valkey_get sid st r st' g :
  represents st g -> valid_sid sid -> Valkey.GetSandboxBySessionID valkey0 sid st = (r, st') ->
  refined (OpGet sid) g (info_out r) st'.
Proof.
  intros HR Hv. unfold Valkey.GetSandboxBySessionID.
  destruct (step_get _ _ _ HR Hv) as (rep & Hs & Hrep).
  change (Valkey.sessionKey valkey0 sid) with (sesKey sid).
  destruct (kv_do _ st) as [x st1] eqn:Hdo.
  destruct (do_read _ _ _ _ _ _ HR Hs Hdo) as [HR1 [->|(e & -> & He)]].
  - destruct (sessions g !! sid) as [i|] eqn:Hi; cbn in Hrep.
    + destruct Hrep as (b & -> & Hu & _). cbn. rewrite Hu. intros [= <- <-].
      exists g. split; [done|]. left. cbn. by rewrite Hi.
    + subst rep. cbn. intros [= <- <-]. exists g. split; [done|]. left. cbn. by rewrite Hi.
  - cbn. intros [= <- <-]. refine_fail.
Qed.

Lemma valkey_store_op now i st r st' g :
  represents st g -> valid_sid (Info.SessionID i) -> storable i ->
  Valkey.StoreSandbox valkey0 now (Some i) st = (r, st') ->
  refined (OpStore now i) g (unit_out r) st'.
Proof.
  intros HR Hv Hst. unfold Valkey.StoreSandbox.
  destruct (codec_roundtrip i Hst) as (b & -> & Hb & Hu).
  destruct (Tm.IsZero (Info.ExpiresAt i)) eqn:Hz.
  { intros [= <- <-]. exists g. split; [done|]. left. cbn. by rewrite Hz. }
  rewrite DoMulti_pipeline. destruct (Redis.pipeline _ st) as [rs st1] eqn:Hp.
  eapply (pipeline_upd (Info.SessionID i) _ (store_upds now i)) in Hp as
    (g' & HR' & [(He & Hlen & ->)|(e & He & Ht & Hf)]); [| |by apply store_cmds|exact HR].
  - rewrite (first_resp_err_none _ He). intros [= <- <-].
    eexists. split; [done|]. left. cbn. by rewrite Hz.
  - rewrite (first_resp_err_some _ _ He). intros [= <- <-]. refine_fail.
Qed.

Lemma valkey_update i st r st' g :
  represents st g -> valid_sid (Info.SessionID i) -> storable i ->
  Valkey.UpdateSandbox valkey0 (Some i) st = (r, st') -> refined (OpUpdate i) g (unit_out r) st'.
Proof.
  intros HR Hv Hst. unfold Valkey.UpdateSandbox.
  destruct (codec_roundtrip i Hst) as (b & -> & Hb & Hu).
  change (Valkey.sessionKey valkey0 (Info.SessionID i)) with (sesKey (Info.SessionID i)).
  pose proof (step_setxx _ _ _ _ _ HR Hv Hb Hu eq_refl eq_refl) as Hs.
  destruct (kv_do _ st) as [x st1] eqn:Hdo.
  destruct (sessions g !! Info.SessionID i) as [j|] eqn:Hi.
  - destruct Hs as (ks' & Hs & HR').
    destruct (do_upd _ _ _ _ _ _ _ _ HR Hs HR' Hdo) as [[-> HR1]|(e & -> & He & HR1)].
    + cbn. intros [= <- <-]. eexists. split; [done|]. left. cbn. by rewrite Hi.
    + cbn. intros [= <- <-]. destruct HR1; refine_fail.
  - destruct (do_read _ _ _ _ _ _ HR Hs Hdo) as [HR1 [->|(e & -> & He)]]; cbn; intros [= <- <-].
    + exists g. split; [done|]. left. cbn. by rewrite Hi.
    + refine_fail.
Qed.

Lemma valkey_delete sid st r st' g :
  represents st g -> valid_sid sid ->
  Valkey.DeleteSandboxBySessionID valkey0 sid st = (r, st') -> refined (OpDelete sid) g (unit_out r) st'.
Proof.
  intros HR Hv. unfold Valkey.DeleteSandboxBySessionID.
  rewrite DoMulti_pipeline. destruct (Redis.pipeline _ st) as [rs st1] eqn:Hp.
  eapply (pipeline_upd sid _ (delete_upds sid)) in Hp as
    (g' & HR' & [(He & Hlen & ->)|(e & He & Ht & Hf)]); [| |by apply delete_cmds|exact HR].
  - rewrite (first_resp_err_none _ He). intros [= <- <-]. eexists. split; [done|]. by left.
  - rewrite (first_resp_err_some _ _ He). intros [= <- <-]. refine_fail.
Qed.

(** MGET returns one entry per key, empty for a missing record. *)
Lemma decode_mget ks g ids :
  represents_ks ks g -> Forall valid_sid ids ->
  Valkey.decode_strings ids (default "" <$> (mget_one ks <$> (sesKey <$> ids))) =
  Ok (omap (fun id => sessions g !! id) ids).
Proof.
  intros HR. induction 1 as [|sid ids Hid Hids IH]; [done|].
  pose proof (rep_session _ _ HR _ Hid) as Hs. unfold session_at in Hs.
  destruct (ks !! sesKey sid) as [[b|z]|] eqn:E; [|done|].
  - assert (mget_one ks (sesKey sid) = Some b) as Hm by (unfold mget_one; by rewrite E).
    destruct Hs as (Hb & i & Hu & Hi). cbn. rewrite Hm, Hi. cbn.
    destruct (String.eqb_spec b ""); [done|]. by rewrite Hu, IH.
  - assert (mget_one ks (sesKey sid) = None) as Hm by (unfold mget_one; by rewrite E).
    cbn. by rewrite Hm, Hs.
Qed.

Lemma valkey_load ids st r st' g :
  represents st g -> Forall valid_sid ids ->
  Valkey.loadSandboxesBySessionIDs valkey0 ids st = (r, st') ->
  represents st' g /\
  (r = Ok (omap (fun id => sessions g !! id) ids) \/
   exists e, r = Err e /\ transport (S := S) e).
Proof.
  intros HR Hv. unfold Valkey.loadSandboxesBySessionIDs. destruct ids as [|id ids].
  { intros [= <- <-]. by auto. }
  change (Valkey.sessionKey valkey0) with sesKey.
  destruct (kv_do _ st) as [x st1] eqn:Hdo.
  destruct (do_read (MGet (sesKey <$> id :: ids)) _ _ _ _
    (RStrs (mget_one (kv_view st) <$> (sesKey <$> id :: ids))) HR eq_refl Hdo)
    as [HR1 [->|(e & -> & He)]].
  - unfold Valkey.AsStrSlice. cbn [Valkey.resp_err].
    rewrite (decode_mget _ _ _ HR Hv), !length_fmap, Nat.ltb_irrefl.
    intros [= <- <-]. by auto.
  - intros [= <- <-]. split; [done|]. right. eexists. split; [done|]. by apply transport_wrap.
Qed.

Lemma valkey_list_expired before limit st r st' g :
  represents st g -> Valkey.ListExpiredSandboxes valkey0 before limit st = (r, st') ->
  refined (OpListExpired before limit) g (list_out r) st'.
Proof.
  intros HR. unfold Valkey.ListExpiredSandboxes. destruct (Z.leb_spec limit 0).
  { intros [= <- <-]. exists g. split; [done|]. left. cbn. unfold list_expired, zrange.
    by replace (Z.to_nat limit) with 0%nat by lia. }
  destruct (kv_do _ st) as [x st1] eqn:Hdo.
  assert (redis_step (kv_view st) (ZRangeByScore expKey (score before) limit) =
    (RPairs (zrange (expiry g) (score before) limit), kv_view st)) as Hs
    by (cbn; by rewrite (rep_expiry _ _ HR)).
  destruct (do_read _ _ _ _ _ _ HR Hs Hdo) as [HR1 [->|(e & -> & He)]]; cbn.
  - intros Hl. apply valkey_load with (g := g) in Hl as [HR2 [->|(e & -> & He)]];
      [|refine_fail|done|].
    + exists g. split; [done|]. left. cbn. unfold list_expired. by rewrite omap_fmap_comp.
    + apply zrange_valid, wf_expiry, (rep_wf _ _ HR).
  - intros [= <- <-]. refine_fail.
Qed.

Lemma valkey_list_inactive before limit st r st' g :
  represents st g -> Valkey.ListInactiveSandboxes valkey0 before limit st = (r, st') ->
  refined (OpListInactive before limit) g (list_out r) st'.
Proof.
  intros HR. unfold Valkey.ListInactiveSandboxes. destruct (Z.leb_spec limit 0).
  { intros [= <- <-]. exists g. split; [done|]. left. cbn. unfold list_inactive, zrange.
    by replace (Z.to_nat limit) with 0%nat by lia. }
  destruct (kv_do _ st) as [x st1] eqn:Hdo.
  assert (redis_step (kv_view st) (ZRangeByScore actKey (score before) limit) =
    (RPairs (zrange (activity g) (score before) limit), kv_view st)) as Hs
    by (cbn; by rewrite (rep_activity _ _ HR)).
  destruct (do_read _ _ _ _ _ _ HR Hs Hdo) as [HR1 [->|(e & -> & He)]]; cbn.
  - destruct (Valkey.loadSandboxesBySessionIDs _ _ st1) as [y st2] eqn:Hl.
    apply valkey_load with (g := g) in Hl as [HR2 [->|(e & -> & He)]];
      [|intros [= <- <-]; refine_fail|done|].
    + intros [= <- <-]. exists g. split; [done|]. left. cbn. unfold list_inactive.
      rewrite apply_scores; [done|apply (rep_wf _ _ HR)|apply zrange_NoDup].
    + apply zrange_valid, wf_activity, (rep_wf _ _ HR).
  - intros [= <- <-]. refine_fail.
Qed.

(** The two halves of the activity update. *)
Lemma valkey_check sid st r st' g :
  represents st g -> valid_sid sid -> Valkey.touch_check valkey0 sid st = (r, st') ->
  represents st' g /\
  ((r = None /\ is_Some (sessions g !! sid)) \/
   (r = Some (ESent ErrNotFound) /\ sessions g !! sid = None) \/
   (exists e, r = Some e /\ transport (S := S) e)).
Proof.
  intros HR Hv. unfold Valkey.touch_check.
  change (Valkey.sessionKey valkey0 sid) with (sesKey sid).
  pose proof (step_exists _ _ _ HR Hv) as Hs.
  destruct (kv_do _ st) as [x st1] eqn:Hdo.
  destruct (do_read _ _ _ _ _ _ HR Hs Hdo) as [HR1 [->|(e & -> & He)]].
  - destruct (sessions g !! sid) as [i|] eqn:Hi; cbn; intros [= <- <-]; eauto 6.
  - cbn. intros [= <- <-]. eauto 7 using transport_wrap.
Qed.

Lemma valkey_write sid at_ st r st' g :
  represents st g -> valid_sid sid -> Valkey.touch_write valkey0 sid at_ st = (r, st') ->
  (r = None /\ represents st' (set_activity sid (score at_) g)) \/
  (exists e, r = Some e /\ transport (S := S) e /\
     (represents st' g \/ represents st' (set_activity sid (score at_) g))).
Proof.
  intros HR Hv. unfold Valkey.touch_write.
  destruct (step_zadd_act _ _ sid (score at_) HR Hv) as (n & ks' & Hs & HR').
  destruct (kv_do _ st) as [x st1] eqn:Hdo.
  destruct (do_upd _ _ _ _ _ _ _ _ HR Hs HR' Hdo) as [[-> HR1]|(e & -> & He & HR1)];
    cbn; intros [= <- <-]; [by left|right]. eauto using transport_wrap.
Qed.

Lemma valkey_touch now sid at_ st r st' g :
  represents st g -> valid_sid sid ->
  Valkey.UpdateSessionLastActivity valkey0 now sid at_ st = (r, st') ->
  refined (OpTouch now sid at_) g (unit_out r) st'.
Proof.
  intros HR Hv. unfold Valkey.UpdateSessionLastActivity.
  destruct (String.eqb sid "") eqn:Hsid.
  { intros [= <- <-]. exists g. split; [done|]. left. cbn. by rewrite Hsid. }
  destruct (Valkey.touch_check _ _ st) as [c st1] eqn:Hc.
  apply valkey_check with (g := g) in Hc as [HR1 [[-> [i Hi]]|[[-> Hi]|(e & -> & He)]]]; [| | |done..].
  - intros Hw. apply valkey_write with (g := g) in Hw as [[-> HR2]|(e & -> & He & HR2)]; [| |done..].
    + eexists. split; [done|]. left. cbn. by rewrite Hsid, Hi.
    + destruct HR2; refine_fail.
  - intros [= <- <-]. exists g. split; [done|]. left. cbn. by rewrite Hsid, Hi.
  - intros [= <- <-]. refine_fail.
Qed.

Lemma valkey_refined o st r st' g :
  represents st g -> op_valid o -> run (Store0 := valkey_store) o st = (r, st') ->
  refined o g r st'.
Proof.
  intros HR Hv. destruct o; cbn in *.
  all: match goal with |- context [let '(_, _) := ?c in _] => destruct c eqn:E end.
  all: intros [= <- <-]; destruct_and?;
    eauto using valkey_get, valkey_store_op, valkey_update, valkey_delete, valkey_list_expired,
      valkey_list_inactive, valkey_touch.
Qed.
End refinement.

(** ** The contract, also inside a larger world *)

Section laws.
Context {S : Type} `{!KVServer S} `{!KVLaws S} `{!SandboxCodec} `{!SandboxCodecLaws}.

Lemma spec_run_failed o g g' : spec_run o g = (Failed, g') -> g' = g.
Proof. destruct o; cbn; intros Hs; repeat case_match; by simplify_eq. Qed.

Lemma refined_laws (str : Store S) :
  (forall o st r st' g, represents st g -> op_valid o -> run (Store0 := str) o st = (r, st') ->
     refined o g r st') -> StoreLaws S (Store0 := str) represents.
Proof.
  intros Href. split.
  - intros w g HR. apply (rep_wf _ _ HR).
  - intros o w g r w' HR Hv Hr. destruct (Href _ _ _ _ _ HR Hv Hr) as (g' & HR' & Hor).
    exists g'. split; [done|]. destruct Hor as [Hs|(-> & _ & Hf)].
    + case_decide as Hd; [|done]. subst. apply spec_run_failed in Hs as ->. apply frame_refl.
    + by rewrite decide_True.
Qed.

Lemma redis_laws : StoreLaws S (Store0 := redis_store) represents.
Proof. apply refined_laws. intros. by eapply redis_refined. Qed.

Lemma valkey_laws : StoreLaws S (Store0 := valkey_store) represents.
Proof. apply refined_laws. intros. by eapply valkey_refined. Qed.

Lemma redis_exact `{!KVReliable S} : StoreExact S (Store0 := redis_store) represents.
Proof.
  split. intros o w g r w' HR Hv Hr.
  destruct (redis_refined _ _ _ _ _ HR Hv Hr) as (g' & HR' & [Hs|(_ & Hn & _)]); [eauto|by destruct Hn].
Qed.

Lemma valkey_exact `{!KVReliable S} : StoreExact S (Store0 := valkey_store) represents.
Proof.
  split. intros o w g r w' HR Hv Hr.
  destruct (valkey_refined _ _ _ _ _ HR Hv Hr) as (g' & HR' & [Hs|(_ & Hn & _)]); [eauto|by destruct Hn].
Qed.

End laws.

Section lift.
Context {S W : Type} (str : Store S) (get : W -> S) (set : S -> W -> W).

Definition on {A} (f : S -> A * S) (w : W) : A * W := let '(r, s) := f (get w) in (r, set s w).

Definition lift_store : Store W := {|
  store_Get sid := on (store_Get sid);
  store_Store now i := on (store_Store now i);
  store_Update i := on (store_Update i);
  store_Delete sid := on (store_Delete sid);
  store_ListExpired b l := on (store_ListExpired b l);
  store_ListInactive b l := on (store_ListInactive b l);
  store_Touch now sid t := on (store_Touch now sid t);
|}.

Lemma run_lift o w : run (Store0 := lift_store) o w = on (run (Store0 := str) o) w.
Proof.
  destruct o; cbn; unfold on; cbn;
    match goal with |- context [?f (get w)] => by destruct (f (get w)) end.
Qed.

Lemma lift_laws `{!SandboxCodec} (rep : S -> registry -> Prop) :
  (forall s w, get (set s w) = s) ->
  StoreLaws S (Store0 := str) rep -> StoreLaws W (Store0 := lift_store) (fun w g => rep (get w) g).
Proof.
  intros Hgs Hl. split; [intros w g; apply store_wf|].
  intros o w g r w' HR Hv. rewrite run_lift. unfold on. destruct (run o (get w)) as [r1 s1] eqn:Hr.
  intros [= <- <-]. rewrite Hgs. by eapply store_refines.
Qed.

Lemma lift_exact `{!SandboxCodec} (rep : S -> registry -> Prop) :
  (forall s w, get (set s w) = s) ->
  StoreExact S (Store0 := str) rep -> StoreExact W (Store0 := lift_store) (fun w g => rep (get w) g).
Proof.
  intros Hgs Hl. split. intros o w g r w' HR Hv. rewrite run_lift. unfold on.
  destruct (run o (get w)) as [r1 s1] eqn:Hr. intros [= <- <-]. rewrite Hgs. by eapply store_exact.
Qed.

End lift.
