(* ===== verification/CodecModel.v ===== *)
(** * A concrete codec for the session record

    A self-delimiting text encoding that satisfies [SandboxCodecLaws]; it is
    used to evaluate statements that are parametric in the codec. *)

From Stdlib Require Import Ascii.
From stdpp Require Import base list countable strings.
From S2P Require Import Prelude GoTime GoError SandboxTypes.

Module CodecModel.

#[export] Instance ep_countable : Countable SandboxEntryPoint.
Proof.
  apply (inj_countable' (fun e => (EntryPoint.Path e, EntryPoint.Protocol e, EntryPoint.Endpoint e))
           (fun '(a, b, c) => {| EntryPoint.Path := a; EntryPoint.Protocol := b; EntryPoint.Endpoint := c |})).
  by intros [].
Defined.

Definition to_tuple (s : SandboxInfo) :=
  ((Info.Kind s, Info.SandboxID s, Info.SandboxNamespace s, Info.Name s, Info.EntryPoints s,
    Info.SessionID s), (Info.OwnerID s, Info.CreatedAt s, Info.ExpiresAt s, Info.IdleTimeout s,
    Info.LastActivityAt s, Info.Status s)).

Definition of_tuple (t : string * string * string * string * list SandboxEntryPoint * string *
    (string * Z * Z * Z * Z * string)) : SandboxInfo :=
  let '((k, i, n, m, e, s), (o, c, x, d, l, z)) := t in
  {| Info.Kind := k; Info.SandboxID := i; Info.SandboxNamespace := n; Info.Name := m;
     Info.EntryPoints := e; Info.SessionID := s; Info.OwnerID := o; Info.CreatedAt := c;
     Info.ExpiresAt := x; Info.IdleTimeout := d; Info.LastActivityAt := l; Info.Status := z |}.

#[export] Instance info_countable : Countable SandboxInfo.
Proof. apply (inj_countable' to_tuple of_tuple). by intros []. Defined.

Fixpoint pos_text (p : positive) : string :=
  match p with
  | xH => String "."%char EmptyString
  | xO p => String "0"%char (pos_text p)
  | xI p => String "1"%char (pos_text p)
  end.

Fixpoint text_pos (s : string) : option positive :=
  match s with
  | EmptyString => None
  | String c s => if Ascii.eqb c "."%char then Some xH
                  else if Ascii.eqb c "0"%char then xO <$> text_pos s
                  else xI <$> text_pos s
  end.

Lemma text_pos_text p : text_pos (pos_text p) = Some p.
Proof. induction p as [p IH|p IH|]; cbn; try rewrite IH; done. Qed.

#[export] Instance codec : SandboxCodec := {
  marshal i := Some (pos_text (encode (Info.persisted i)));
  unmarshal b := text_pos b ≫= decode;
  storable _ := True;
}.

#[export] Instance codec_laws : SandboxCodecLaws.
Proof.
  split. intros i _. eexists. split; [done|]. split.
  - by destruct (encode (Info.persisted i)).
  - cbn. rewrite text_pos_text. cbn. apply decode_encode.
Qed.
End CodecModel.
