(* ===== verification/StoreTheorems.v ===== *)
(** * Properties of the session store *)

From Stdlib Require Import Sorted.
From stdpp Require Import base list gmap strings sorting.
From S2P Require Import Prelude GoStrings GoTime GoError SandboxTypes KVServer RedisStore ValkeyStore StoreSpec StoreRefinement StoreInstances CodecModel.

(** ** Sequences of operations *)

Section sequences.
Context {S : Type} `{!KVServer S} `{!KVLaws S} `{!KVReliable S}.
Context `{!SandboxCodec} `{!SandboxCodecLaws}.

Lemma refined_exact o g r (st' : S) :
  refined o g r st' -> exists g', represents st' g' /\ spec_run o g = (r, g').
Proof. intros (g' & HR & [?|(_ & Hn & _)]); [eauto|by destruct Hn]. Qed.

Lemma runs_exact (str : Store S) :
  (forall o st r st' g, represents st g -> op_valid o -> run (Store0 := str) o st = (r, st') ->
     refined o g r st') ->
  forall os (st : S) g, Forall op_valid os -> represents st g ->
    (runs (Store0 := str) os st).1 = (spec_runs os g).1 /\
    represents (runs (Store0 := str) os st).2 (spec_runs os g).2.
Proof.
  intros Hstep os. induction os as [|o os IH]; intros st g Hv HR; [done|].
  inversion Hv as [|? ? Ho Hos]; subst. cbn.
  destruct (run o st) as [r st1] eqn:Hr.
  destruct (refined_exact _ _ _ _ (Hstep _ _ _ _ _ HR Ho Hr)) as (g1 & HR1 & ->).
  destruct (IH st1 g1 Hos HR1) as [He HR2].
  destruct (runs os st1) as [rs st2], (spec_runs os g1) as [rs' g2]. cbn in *. by subst.
Qed.
End sequences.

(** ** Index consistency *)

(** Records and index entries go together. *)
Definition consistent (g : registry) : Prop :=
  forall sid, (is_Some (sessions g !! sid) <-> is_Some (activity g !! sid)) /\
              (is_Some (sessions g !! sid) <-> is_Some (expiry g !! sid)).

Lemma spec_run_consistent o g : consistent g -> consistent (spec_run o g).2.
Proof.
  intros Hc. unfold consistent. intros s. destruct (Hc s) as [H1 H2].
  destruct o as [sid|now i|i|sid|b l|b l|now sid at_]; cbn; try done.
  - by destruct (sessions g !! sid).
  - destruct (Tm.IsZero _); cbn; [done|]. unfold add_session.
    destruct (sessions g !! Info.SessionID i) eqn:E; cbn; rewrite !lookup_insert;
      (case_decide; [subst|done]); rewrite ?E; split; split; eauto.
  - destruct (sessions g !! Info.SessionID i) as [j|] eqn:E; cbn; [|done].
    rewrite lookup_insert. case_decide; [subst|done]. rewrite E in H1, H2.
    split; (split; intros _; [|eauto]); [apply H1|apply H2]; eauto.
  - rewrite !lookup_delete. case_decide; [|done]. split; split; by intros [].
  - destruct (String.eqb sid ""); [done|]. destruct (sessions g !! sid) as [j|] eqn:E; cbn; [|done].
    rewrite lookup_insert. case_decide; [subst|done]. rewrite E in *. split; [|done]. split; eauto.
Qed.

Lemma spec_runs_consistent os g : consistent g -> consistent (spec_runs os g).2.
Proof.
  revert g. induction os as [|o os IH]; intros g Hc; cbn; [done|].
  pose proof (spec_run_consistent o g Hc) as H1. destruct (spec_run o g) as [r g1].
  specialize (IH g1 H1). by destruct (spec_runs os g1).
Qed.

(** [C4] On a reliable connection, whatever sequence of valid operations is
    run from corresponding states, the Redis store and the Valkey store both
    return exactly the outcomes of the abstract session registry, and end in a
    state that represents the registry's: the two backends are
    interchangeable. *)
Theorem stores_implement_registry {S} `{!KVServer S} `{!KVLaws S} `{!KVReliable S}
    `{!SandboxCodec} `{!SandboxCodecLaws} (os : list op) (st : S) (g : registry) :
  Forall op_valid os -> represents st g ->
  (runs (Store0 := redis_store) os st).1 = (spec_runs os g).1 /\
  represents (runs (Store0 := redis_store) os st).2 (spec_runs os g).2 /\
  (runs (Store0 := valkey_store) os st).1 = (spec_runs os g).1 /\
  represents (runs (Store0 := valkey_store) os st).2 (spec_runs os g).2.
Proof.
  intros Hv HR.
  destruct (runs_exact redis_store redis_refined os st g Hv HR).
  destruct (runs_exact valkey_store valkey_refined os st g Hv HR). done.
Qed.

Import CodecModel.CodecModel.

(** A record to run the model on. *)
Definition info0 (sid : string) : SandboxInfo :=
  {| Info.Kind := SandboxKind; Info.SandboxID := "uid-1"; Info.SandboxNamespace := "default";
     Info.Name := "agent-abc"; Info.EntryPoints := []; Info.SessionID := sid; Info.OwnerID := "alice";
     Info.CreatedAt := Tm.OfUnix 1000; Info.ExpiresAt := Tm.OfUnix 30000;
     Info.IdleTimeout := 15 * Tm.Minute; Info.LastActivityAt := Tm.zero; Info.Status := "ready" |}.

Lemma valid_sid_s1 : valid_sid "s1".
Proof. by split. Qed.

Definition ops0 : list op :=
  [OpStore (Tm.OfUnix 1000) (info0 "s1"); OpGet "s1"; OpDelete "s1"; OpGet "s1"].

Lemma stores_implement_registry_witness :
  (runs (Store0 := redis_store (KVServer0 := KVModel.server)) ops0 ∅).1 =
    [Done; Found (info0 "s1"); Done; NotFound] /\
  (runs (Store0 := valkey_store (KVServer0 := KVModel.server)) ops0 ∅).1 =
    [Done; Found (info0 "s1"); Done; NotFound].
Proof.
  assert (Forall op_valid ops0) as Hv by (repeat constructor; done).
  pose proof (stores_implement_registry (KVLaws0 := KVModel.laws)
    (KVReliable0 := KVModel.reliable) ops0 ∅ empty_registry Hv represents_empty) as (-> & _ & -> & _).
  split; vm_compute; reflexivity.
Defined.

(** [C22] On any connection, an operation of either store that reports a
    failure other than not-found leaves a well-formed registry in which every
    other session (its record and both index entries) is unchanged. *)
Theorem store_failure_frame {S} `{!KVServer S} `{!KVLaws S}
    `{!SandboxCodec} `{!SandboxCodecLaws} (o : op) (st st' : S) (g : registry) (str : Store S) :
  str = redis_store \/ str = valkey_store ->
  represents st g -> op_valid o -> run (Store0 := str) o st = (Failed, st') ->
  exists g', represents st' g' /\ wf_registry g' /\ frame (op_sid o) g g'.
Proof.
  intros Hstr HR Hv Hrun.
  assert (refined o g Failed st') as (g' & HR' & Hor).
  { destruct Hstr as [-> | ->]; [by eapply redis_refined|by eapply valkey_refined]. }
  exists g'. split; [done|]. split; [by apply (rep_wf _ _ HR')|].
  destruct Hor as [Hspec|(_ & _ & ?)]; [|done].
  destruct o; cbn in Hspec; repeat case_match; simplify_eq; apply frame_refl.
Qed.

Lemma store_failure_frame_witness :
  exists st', run (Store0 := redis_store (KVServer0 := KVFlaky.server))
    (OpStore (Tm.OfUnix 1000) (info0 "s1")) (∅, 2%nat) = (Failed, st') /\
  exists g', represents (KVServer0 := KVFlaky.server) st' g' /\ wf_registry g' /\
    frame (Some "s1") empty_registry g'.
Proof.
  eexists. split; [vm_compute; reflexivity|].
  refine (store_failure_frame (KVLaws0 := KVFlaky.laws)
    (OpStore (Tm.OfUnix 1000) (info0 "s1")) (∅, 2%nat) _ empty_registry redis_store _ _ _ _).
  - by left.
  - apply represents_empty.
  - by repeat split.
  - vm_compute. reflexivity.
Defined.

(** ** Index consistency and the activity update *)

(** A record and its two index entries appear and disappear together: any
    sequence of valid operations of the Redis store on a reliable connection
    keeps the registry consistent. *)
Theorem redis_runs_consistent {S} `{!KVServer S} `{!KVLaws S} `{!KVReliable S}
    `{!SandboxCodec} `{!SandboxCodecLaws} (os : list op) (st : S) (g : registry) :
  Forall op_valid os -> represents st g -> consistent g ->
  exists g', represents (runs (Store0 := redis_store) os st).2 g' /\ consistent g'.
Proof.
  intros Hv HR Hc. destruct (runs_exact redis_store redis_refined os st g Hv HR) as [_ HR'].
  exists (spec_runs os g).2. split; [done|]. by apply spec_runs_consistent.
Qed.

Lemma consistent_empty : consistent empty_registry.
Proof. intros sid. cbn. rewrite !lookup_empty. done. Qed.

Lemma redis_runs_consistent_witness :
  exists g', represents (KVServer0 := KVModel.server)
    (runs (Store0 := redis_store (KVServer0 := KVModel.server)) ops0 ∅).2 g' /\ consistent g'.
Proof.
  apply (redis_runs_consistent (KVLaws0 := KVModel.laws) (KVReliable0 := KVModel.reliable)
    ops0 ∅ empty_registry).
  - repeat constructor; done.
  - apply represents_empty.
  - apply consistent_empty.
Defined.

(** [C40] The Valkey store checks and writes in two commands. When another
    client deletes the session between them, the update still reports success
    and leaves an activity entry without a record: an index entry that no
    later deletion by the garbage collector removes, because listing skips it. *)
Theorem valkey_touch_race {S} `{!KVServer S} `{!KVLaws S} `{!KVReliable S}
    `{!SandboxCodec} `{!SandboxCodecLaws} (sid : string) (at_ : Time) (st : S) (g : registry) i :
  represents st g -> valid_sid sid -> sessions g !! sid = Some i ->
  exists st1 st2 st3 g3,
    Valkey.touch_check valkey0 sid st = (None, st1) /\
    Valkey.DeleteSandboxBySessionID valkey0 sid st1 = (None, st2) /\
    Valkey.touch_write valkey0 sid at_ st2 = (None, st3) /\
    represents st3 g3 /\ sessions g3 !! sid = None /\ activity g3 !! sid = Some (score at_) /\
    forall before limit x, x ∈ list_inactive g3 before limit -> Info.SessionID x <> sid.
Proof.
  intros HR Hv Hi.
  destruct (Valkey.touch_check valkey0 sid st) as [r1 st1] eqn:E1.
  destruct (valkey_check _ _ _ _ _ HR Hv E1) as [HR1 [[-> _]|[[-> Hn]|(e & -> & [_ Hr])]]];
    [|congruence|done].
  destruct (Valkey.DeleteSandboxBySessionID valkey0 sid st1) as [r2 st2] eqn:E2.
  pose proof (refined_exact _ _ _ _ (valkey_delete _ _ _ _ _ HR1 Hv E2)) as (g2 & HR2 & [= Ho <-]).
  assert (r2 = None) as -> by (destruct r2 as [e|]; [|done]; unfold unit_out, err_out in Ho; by destruct (Is e _)).
  destruct (Valkey.touch_write valkey0 sid at_ st2) as [r3 st3] eqn:E3.
  destruct (valkey_write _ _ _ _ _ _ HR2 Hv E3) as [[-> HR3]|(e & -> & [_ Hr] & _)]; [|done].
  eexists st1, st2, st3, _. repeat (split; [done|]). cbn. rewrite lookup_delete_eq, lookup_insert_eq.
  repeat (split; [done|]). intros before limit x Hx Hsid.
  unfold list_inactive in Hx. apply list_elem_of_omap in Hx as ([k sc] & _ & Hx). cbn in Hx.
  destruct (delete sid (sessions g) !! k) as [j|] eqn:Hj; [|done]. cbn in Hx. injection Hx as <-.
  apply lookup_delete_Some in Hj as [Hne Hj].
  destruct (wf_sessions _ (rep_wf _ _ HR) _ _ Hj) as (_ & Hsj & _). cbn in Hsid. congruence.
Qed.

(** A registry with one session, and its key space. *)
Definition ks1 : keyspace :=
  (run (Store0 := valkey_store (KVServer0 := KVModel.server))
     (OpStore (Tm.OfUnix 1000) (info0 "s1")) ∅).2.

Definition reg1 : registry := spec_store (Tm.OfUnix 1000) (info0 "s1") empty_registry.

Lemma represents_ks1 : represents (KVServer0 := KVModel.server) ks1 reg1.
Proof.
  destruct (runs_exact (KVReliable0 := KVModel.reliable)
    (valkey_store (KVServer0 := KVModel.server)) (valkey_refined (KVLaws0 := KVModel.laws))
    [OpStore (Tm.OfUnix 1000) (info0 "s1")] ∅ empty_registry) as [_ H].
  - repeat constructor; done.
  - apply represents_empty.
  - exact H.
Qed.

Lemma valkey_touch_race_witness :
  exists st1 st2 st3 g3,
    Valkey.touch_check (KVServer0 := KVModel.server) valkey0 "s1" ks1 = (None, st1) /\
    Valkey.DeleteSandboxBySessionID (KVServer0 := KVModel.server) valkey0 "s1" st1 = (None, st2) /\
    Valkey.touch_write (KVServer0 := KVModel.server) valkey0 "s1" (Tm.OfUnix 2000) st2 = (None, st3) /\
    represents (KVServer0 := KVModel.server) st3 g3 /\ sessions g3 !! "s1" = None /\
    activity g3 !! "s1" = Some (score (Tm.OfUnix 2000)) /\
    forall before limit x, x ∈ list_inactive g3 before limit -> Info.SessionID x <> "s1".
Proof.
  apply (valkey_touch_race (KVLaws0 := KVModel.laws) (KVReliable0 := KVModel.reliable)
    "s1" (Tm.OfUnix 2000) ks1 reg1 (info0 "s1")).
  - apply represents_ks1.
  - apply valid_sid_s1.
  - vm_compute. reflexivity.
Defined.

(** ** Listing *)

(** [C37] Listing inactive sessions, with either store: the result has at most
    [limit] records, by increasing last activity; each is a stored record
    carrying its own last activity, which is not after [before]; and when no
    more than [limit] index entries qualify, every qualifying session is
    listed. *)
Theorem list_inactive_correct {S} `{!KVServer S} `{!KVLaws S}
    `{!SandboxCodec} `{!SandboxCodecLaws} (str : Store S) (before : Time) (limit : Z)
    (st st' : S) (g : registry) (l : list SandboxInfo) :
  str = redis_store \/ str = valkey_store -> 0 <= limit ->
  represents st g -> run (Store0 := str) (OpListInactive before limit) st = (Listed l, st') ->
  let act x := default 0 (activity g !! Info.SessionID x) in
  Z.of_nat (length l) <= limit /\
  StronglySorted (fun a b => act a <= act b) l /\
  (forall x, x ∈ l -> exists i sc,
     sessions g !! Info.SessionID x = Some i /\ activity g !! Info.SessionID x = Some sc /\
     x = Info.set_LastActivityAt (Tm.OfUnix sc) i /\ sc <= score before) /\
  (Z.of_nat (length (zsorted (activity g) (score before))) <= limit ->
   forall sid i sc, sessions g !! sid = Some i -> activity g !! sid = Some sc ->
     sc <= score before -> Info.set_LastActivityAt (Tm.OfUnix sc) i ∈ l).
Proof.
  intros Hstr Hlim HR Hrun act.
  assert (l = list_inactive g before limit) as ->.
  { assert (refined (OpListInactive before limit) g (Listed l) st') as (g' & _ & [[= ?]|[? _]]);
      [|done|done].
    destruct Hstr as [-> | ->]; [by eapply redis_refined|by eapply valkey_refined]. }
  pose proof (rep_wf _ _ HR) as Hw. unfold list_inactive.
  assert (forall p x, p ∈ zrange (activity g) (score before) limit ->
    Info.set_LastActivityAt (Tm.OfUnix p.2) <$> sessions g !! p.1 = Some x ->
    Info.SessionID x = p.1 /\ activity g !! p.1 = Some p.2 /\ p.2 <= score before /\
    exists i, sessions g !! p.1 = Some i /\ x = Info.set_LastActivityAt (Tm.OfUnix p.2) i) as Hel.
  { intros [k sc] x Hp Hx. apply elem_of_zrange in Hp as [Hk Hsc]. cbn in *.
    destruct (sessions g !! k) as [i|] eqn:Hi; [|done]. cbn in Hx. injection Hx as <-.
    destruct (wf_sessions _ Hw _ _ Hi) as (_ & Hs & _). cbn. eauto 7. }
  split; [|split; [|split]].
  - pose proof (length_zrange (activity g) (score before) limit Hlim).
    pose proof (length_omap_le (fun p => Info.set_LastActivityAt (Tm.OfUnix p.2) <$> sessions g !! p.1)
      (zrange (activity g) (score before) limit)). lia.
  - eapply StronglySorted_omap; [|apply zrange_sorted].
    intros p q a b Hp Hq Ha Hb Hpq. unfold act.
    destruct (Hel _ _ Hp Ha) as (-> & -> & _), (Hel _ _ Hq Hb) as (-> & -> & _). done.
  - intros x (p & Hp & Hx)%list_elem_of_omap. destruct (Hel _ _ Hp Hx) as (-> & ? & ? & i & ? & ->).
    eauto 6.
  - intros Hlen sid i sc Hi Ha Hsc. apply list_elem_of_omap. exists (sid, sc). cbn. rewrite Hi.
    split; [|done]. by apply zrange_complete.
Qed.

Lemma list_inactive_correct_witness :
  exists l, (run (Store0 := redis_store (KVServer0 := KVModel.server))
    (OpListInactive (Tm.OfUnix 5000) 100) ks1).1 = Listed l /\
    l = [Info.set_LastActivityAt (Tm.OfUnix 1000) (info0 "s1")] /\ Z.of_nat (length l) <= 100.
Proof.
  eexists. split; [vm_compute; reflexivity|]. split; [vm_compute; reflexivity|].
  eapply (list_inactive_correct (KVLaws0 := KVModel.laws) redis_store (Tm.OfUnix 5000) 100 ks1 _ reg1);
    [by left|lia|apply represents_ks1|vm_compute; reflexivity].
Defined.

(** The session keys and the index keys share a prefix, so the identifier
    "expiry" addresses the expiry index: as soon as a session is stored,
    looking it up is an error that is not [ErrNotFound]. *)
Theorem redis_get_reserved {S} `{!KVServer S} `{!KVLaws S} `{!KVReliable S}
    `{!SandboxCodec} (st : S) (g : registry) :
  represents st g -> expiry g <> ∅ ->
  exists e st', Redis.GetSandboxBySessionID redis0 "expiry" st = (Err e, st') /\
    Is e ErrNotFound = false.
Proof.
  intros HR Hne. unfold Redis.GetSandboxBySessionID.
  pose proof (rep_expiry _ _ HR) as He. unfold zset_at in He.
  assert (redis_step (kv_view st) (Get expKey) = (wrongtype, kv_view st)) as Hs.
  { cbn. destruct (kv_view st !! expKey) as [[b|z]|]; [done|done|]. by simplify_eq. }
  destruct (kv_do (Get (Redis.sessionKey redis0 "expiry")) st) as [r st1] eqn:Hdo.
  destruct (do_read _ _ _ _ _ _ HR Hs Hdo) as [_ [->|(e & -> & [_ Hr])]]; [|done].
  eexists _, st1. cbn. done.
Qed.

Lemma redis_get_reserved_witness :
  exists e st', Redis.GetSandboxBySessionID (KVServer0 := KVModel.server) redis0 "expiry" ks1 = (Err e, st') /\
    Is e ErrNotFound = false.
Proof.
  apply (redis_get_reserved (KVLaws0 := KVModel.laws) (KVReliable0 := KVModel.reliable) ks1 reg1).
  - apply represents_ks1.
  - vm_compute. discriminate.
Defined.
