(* ===== verification/StoreSingleton.v ===== *)
(** * The store singleton ([pkg/store/singleton.go])

    [Storage] runs [initStore] once per process and returns the provider it
    set; a failed initialisation terminates the process. *)

From stdpp Require Import base strings.
From S2P Require Import Prelude GoStrings GoError RedisStore ValkeyStore StoreInstances.

Module Singleton.

Definition redisStoreType : string := "redis".
Definition valkeyStoreType : string := "valkey".

(** The [Store] interface value the package variable [provider] holds, with the
    options of its client. *)
Inductive Provider :=
  | RedisProvider (cli : Redis.Options) (s : Redis.redisStore)
  | ValkeyProvider (cli : Valkey.ClientOption) (s : Valkey.valkeyStore).

(** [initStoreOnce] and [provider]. *)
Record state := { once_done : bool; provider : option Provider }.

(** [klog.Fatalf] ends the process. *)
Inductive outcome := Returned (p : option Provider) | Exited (msg : string).

Section singleton.
Context (env : string -> option string).
(** [valkey.NewClient], which may refuse the options. *)
Context (newClient : Valkey.ClientOption -> option goerr).

Definition initStore : option goerr * option Provider :=
  let providerType := Strs.ToLower (default redisStoreType (env "STORE_TYPE")) in
  if String.eqb providerType redisStoreType then
    match Redis.initRedisStore env with
    | Err e => (Some (Wrapf "init redis store failed" e), None)
    | Ok (o, s) => (None, Some (RedisProvider o s))
    end
  else if String.eqb providerType valkeyStoreType then
    match Valkey.initValkeyStore newClient env with
    | Err e => (Some (Wrapf "init valkey store failed" e), None)
    | Ok (o, s) => (None, Some (ValkeyProvider o s))
    end
  else (Some (EText ("unsupported provider type: " +:+ providerType)), None).

Definition Storage (s : state) : outcome * state :=
  if once_done s then (Returned (provider s), s)
  else
    match initStore with
    | (Some e, _) => (Exited ("init store failed: " +:+ Error e), {| once_done := true; provider := provider s |})
    | (None, p) => (Returned p, {| once_done := true; provider := p |})
    end.

End singleton.

(** ** Properties *)

(** The setting that allows an empty password. *)
Definition password_optional (env : string -> option string) (var : string) : Prop :=
  Strs.ToLower (Redis.Getenv env var) = "false".

Lemma redis_options_secure env o :
  Redis.makeRedisOptions env = Ok o ->
  Redis.Addr o <> "" /\ (Redis.Password o <> "" \/ password_optional env "REDIS_PASSWORD_REQUIRED").
Proof.
  unfold Redis.makeRedisOptions. destruct (String.eqb_spec (Redis.Getenv env "REDIS_ADDR") ""); [done|].
  destruct (String.eqb_spec (Strs.ToLower (Redis.Getenv env "REDIS_PASSWORD_REQUIRED")) "false");
    destruct (String.eqb_spec (Redis.Getenv env "REDIS_PASSWORD") ""); cbn; intros [= <-]; cbn; auto.
Qed.

Lemma valkey_options_secure env o :
  Valkey.makeValkeyOptions env = Ok o ->
  Valkey.InitAddress o <> [] /\ (Valkey.Password o <> "" \/ password_optional env "VALKEY_PASSWORD_REQUIRED").
Proof.
  unfold Valkey.makeValkeyOptions. destruct (String.eqb_spec (Redis.Getenv env "VALKEY_ADDR") ""); [done|].
  destruct (String.eqb_spec (Strs.ToLower (Redis.Getenv env "VALKEY_PASSWORD_REQUIRED")) "false");
    destruct (String.eqb_spec (Redis.Getenv env "VALKEY_PASSWORD") ""); cbn [negb andb]; intros [= <-];
    (split; [apply Strs.Split_nonempty|cbn; auto]).
Qed.

(** A process whose [Storage] returned has a store that is configured with an
    address and, unless the environment turns the requirement off, with a
    password, and keeps it: every later call returns the same provider,
    whatever the environment says by then. *)
Theorem storage_configured_once env newClient p s' :
  Storage env newClient {| once_done := false; provider := None |} = (Returned p, s') ->
  ((exists o, p = Some (RedisProvider o redis0) /\ Redis.Addr o <> "" /\
      (Redis.Password o <> "" \/ password_optional env "REDIS_PASSWORD_REQUIRED")) \/
   (exists o, p = Some (ValkeyProvider o valkey0) /\ Valkey.InitAddress o <> [] /\ newClient o = None /\
      (Valkey.Password o <> "" \/ password_optional env "VALKEY_PASSWORD_REQUIRED"))) /\
  forall env' newClient', Storage env' newClient' s' = (Returned p, s').
Proof.
  unfold Storage at 1, initStore. cbn [once_done]. intros H.
  destruct (String.eqb _ redisStoreType); [|destruct (String.eqb _ valkeyStoreType); [|done]].
  - unfold Redis.initRedisStore in H. destruct (Redis.makeRedisOptions env) as [o|] eqn:Ho; [|done]. simplify_eq.
    split; [|done]. left. exists o. split; [done|by apply redis_options_secure].
  - unfold Valkey.initValkeyStore in H. destruct (Valkey.makeValkeyOptions env) as [o|] eqn:Ho; [|done].
    destruct (newClient o) eqn:Hn; [done|]. simplify_eq. apply valkey_options_secure in Ho as [? ?].
    split; [|done]. right. by exists o.
Qed.

End Singleton.
