(* ===== verification/Lru.v ===== *)
(** * The pointer structure shared by the two LRU caches

    Both caches of [pkg/workloadmanager/client_cache.go] keep a map from keys
    to entry pointers and a [container/list] of the same pointers, each entry
    pointing back to its list element. [Lru.t] is that structure with its
    heap; [view] reads it as the list of (key, value) pairs from the most to
    the least recently used; the lemmas say that every code step that the
    caches are made of is the expected edit of the view. *)

From stdpp Require Import base list gmap strings.
From S2P Require Import Prelude GoList.

Module Lru.

(** An entry of the heap: the key, the payload fields, the [element] pointer. *)
Record entry (V : Type) := { key : string; val : V; element : nat }.
Arguments key {V}. Arguments val {V}. Arguments element {V}.

Record t (V : Type) := {
  heap : gmap nat (entry V);
  cache : gmap string nat;
  lruList : GoList.t nat;
  maxSize : Z;
}.
Arguments heap {V}. Arguments cache {V}. Arguments lruList {V}. Arguments maxSize {V}.

Section lru.
Context {V : Type}.
Implicit Types (c : t V) (k : string) (e : entry V).

Definition New (maxSize : Z) : t V :=
  {| heap := ∅; cache := ∅; lruList := GoList.New; maxSize := maxSize |}.

(** [entry, exists := c.cache[key]], with the entry read from the heap *)
Definition lookup c k : option (nat * entry V) :=
  match cache c !! k with
  | Some p => match heap c !! p with Some e => Some (p, e) | None => None end
  | None => None
  end.

(** [c.lruList.Remove(entry.element); delete(c.cache, key)] *)
Definition drop c k e : t V :=
  {| heap := heap c; cache := delete k (cache c);
     lruList := GoList.Remove (element e) (lruList c); maxSize := maxSize c |}.

(** [c.lruList.MoveToFront(entry.element)] *)
Definition touch c e : t V :=
  {| heap := heap c; cache := cache c;
     lruList := GoList.MoveToFront (element e) (lruList c); maxSize := maxSize c |}.

(** Assignments to the payload fields of the entry at [p]. *)
Definition assign c (p : nat) (v : V) : t V :=
  {| heap := alter (fun e => {| key := key e; val := v; element := element e |}) p (heap c);
     cache := cache c; lruList := lruList c; maxSize := maxSize c |}.

Definition evictOldest c : t V :=
  match GoList.Back (lruList c) with
  | None => c
  | Some (el, p) =>
      match heap c !! p with
      | None => c
      | Some e =>
          {| heap := heap c; cache := delete (key e) (cache c);
             lruList := GoList.Remove el (lruList c); maxSize := maxSize c |}
      end
  end.

(** [entry := &...Entry{...}; entry.element = c.lruList.PushFront(entry); c.cache[key] = entry] *)
Definition push c k (v : V) : t V :=
  let p := fresh (dom (heap c)) in
  let '(el, l) := GoList.PushFront p (lruList c) in
  {| heap := <[p := {| key := k; val := v; element := el |}]> (heap c);
     cache := <[k := p]> (cache c); lruList := l; maxSize := maxSize c |}.

(** [len(c.cache)] *)
Definition len c : Z := Z.of_nat (size (cache c)).

(** ** The view *)

Definition read (h : gmap nat (entry V)) (p : nat * nat) : option (string * V) :=
  (fun e => (key e, val e)) <$> h !! p.2.

Definition view c : list (string * V) := omap (read (heap c)) (GoList.elems (lruList c)).

(** The specification's edits of the view. *)
Definition assoc (k : string) (l : list (string * V)) : option V :=
  snd <$> head (filter (fun p => p.1 = k) l).
Definition erase (k : string) (l : list (string * V)) : list (string * V) :=
  filter (fun p => p.1 <> k) l.
Definition evict (l : list (string * V)) : list (string * V) := take (pred (length l)) l.

Record wf c : Prop := {
  wf_list : GoList.wf (lruList c);
  wf_elem el p : (el, p) ∈ GoList.elems (lruList c) ->
    exists e, heap c !! p = Some e /\ element e = el /\ cache c !! key e = Some p;
  wf_cache k p : cache c !! k = Some p ->
    exists e, heap c !! p = Some e /\ key e = k /\ (element e, p) ∈ GoList.elems (lruList c);
}.

Lemma lookup_Some c k p e :
  wf c -> lookup c k = Some (p, e) ->
  cache c !! k = Some p /\ heap c !! p = Some e /\ key e = k /\
  (element e, p) ∈ GoList.elems (lruList c).
Proof.
  unfold lookup. intros Hw Hl. destruct (cache c !! k) as [q|] eqn:Hc; [|done].
  destruct (wf_cache c Hw _ _ Hc) as (e' & He & Hk & Hin). rewrite He in Hl. by simplify_eq.
Qed.

Lemma lookup_None c k : wf c -> lookup c k = None -> cache c !! k = None.
Proof.
  unfold lookup. intros Hw Hl. destruct (cache c !! k) as [q|] eqn:Hc; [|done].
  destruct (wf_cache c Hw _ _ Hc) as (e' & He & _). by rewrite He in Hl.
Qed.

(** Two elements with the same entry, or entries with the same key, are one. *)
Lemma elem_unique c el1 p1 el2 p2 e1 e2 :
  wf c -> (el1, p1) ∈ GoList.elems (lruList c) -> (el2, p2) ∈ GoList.elems (lruList c) ->
  heap c !! p1 = Some e1 -> heap c !! p2 = Some e2 -> key e1 = key e2 -> el1 = el2 /\ p1 = p2.
Proof.
  intros Hw H1 H2 E1 E2 Hk.
  destruct (wf_elem c Hw _ _ H1) as (e1' & ? & ? & Hc1), (wf_elem c Hw _ _ H2) as (e2' & ? & ? & Hc2).
  simplify_eq. rewrite Hk, Hc2 in Hc1. by simplify_eq.
Qed.

Lemma omap_read_cons h el p l e :
  h !! p = Some e -> omap (read h) ((el, p) :: l) = (key e, val e) :: omap (read h) l.
Proof. intros He. cbn. unfold read at 1. cbn. by rewrite He. Qed.

Lemma erase_cons k k' (v : V) l :
  erase k ((k', v) :: l) = if decide (k' <> k) then (k', v) :: erase k l else erase k l.
Proof. unfold erase. by rewrite filter_cons. Qed.

(** Removing an element's address is erasing its key from the view. *)
Lemma view_without c l k p e :
  wf c -> (element e, p) ∈ GoList.elems (lruList c) -> heap c !! p = Some e -> key e = k ->
  (forall x, x ∈ l -> x ∈ GoList.elems (lruList c)) ->
  omap (read (heap c)) (GoList.without (element e) l) = erase k (omap (read (heap c)) l).
Proof.
  intros Hw Hin He Hk. induction l as [|[el q] l IH]; intros Hl; [done|].
  assert ((el, q) ∈ GoList.elems (lruList c)) as Hq by (apply Hl; left).
  destruct (wf_elem c Hw _ _ Hq) as (e' & He' & Hel & Hc').
  rewrite (omap_read_cons _ _ _ _ _ He'), erase_cons.
  unfold GoList.without in *. rewrite filter_cons. cbn [fst].
  assert (el <> element e <-> key e' <> k) as Hiff.
  { split; intros Hne Heq; apply Hne.
    - by destruct (elem_unique c _ _ _ _ _ _ Hw Hq Hin He' He ltac:(congruence)).
    - pose proof (wf_list c Hw) as [Hnd _].
      destruct (GoList.split_at _ _ _ Hnd Hin) as (l1 & l2 & El & Hn1 & Hn2).
      rewrite El, Heq in Hq.
      apply elem_of_app in Hq as [Hq|[[= ->]|Hq]%elem_of_cons]; [exfalso|congruence|exfalso];
        [apply Hn1|apply Hn2]; apply list_elem_of_fmap; exists (element e, q); split; done. }
  destruct (decide (el <> element e)) as [Hd|Hd], (decide (key e' <> k)) as [Hd'|Hd']; try tauto.
  - rewrite (omap_read_cons _ _ _ _ _ He'). f_equal. apply IH. intros x Hx. apply Hl. by right.
  - apply IH. intros x Hx. apply Hl. by right.
Qed.

(** ** Reading the view *)

Lemma elem_of_view c k v :
  wf c -> (k, v) ∈ view c <-> exists p e, lookup c k = Some (p, e) /\ val e = v.
Proof.
  intros Hw. unfold view. rewrite list_elem_of_omap. split.
  - intros ([el p] & Hin & Hr). destruct (wf_elem c Hw _ _ Hin) as (e & He & _ & Hc).
    unfold read in Hr. cbn in Hr. rewrite He in Hr. cbn in Hr. simplify_eq.
    exists p, e. unfold lookup. by rewrite Hc, He.
  - intros (p & e & Hl & <-). destruct (lookup_Some c _ _ _ Hw Hl) as (_ & He & <- & Hin).
    exists (element e, p). split; [done|]. unfold read. cbn. by rewrite He.
Qed.

Lemma view_NoDup c : wf c -> NoDup (view c).*1.
Proof.
  intros Hw. unfold view. pose proof (wf_list c Hw) as [Hnd _].
  assert (forall x, x ∈ GoList.elems (lruList c) -> x ∈ GoList.elems (lruList c)) as Hl by done.
  revert Hnd Hl. generalize (GoList.elems (lruList c)) at 1 2 4 as l.
  induction l as [|[el p] l IH]; intros Hnd Hl; [constructor|].
  cbn in Hnd. apply NoDup_cons in Hnd as [Hn Hnd].
  assert ((el, p) ∈ GoList.elems (lruList c)) as Hin by (apply Hl; left).
  destruct (wf_elem c Hw _ _ Hin) as (e & He & _).
  rewrite (omap_read_cons _ _ _ _ _ He), fmap_cons. constructor.
  - intros ([k v] & Hk & ([el' q] & Hq & Hr)%list_elem_of_omap)%list_elem_of_fmap. cbn in Hk.
    assert ((el', q) ∈ GoList.elems (lruList c)) as Hin' by (apply Hl; by right).
    destruct (wf_elem c Hw _ _ Hin') as (e' & He' & _). unfold read in Hr. cbn in Hr.
    rewrite He' in Hr. cbn in Hr. simplify_eq.
    destruct (elem_unique c _ _ _ _ _ _ Hw Hin Hin' He He' ltac:(done)) as [-> ->].
    apply Hn, list_elem_of_fmap. by exists (el', q).
  - apply IH; [done|]. intros x Hx. apply Hl. by right.
Qed.

Lemma assoc_elem k v (l : list (string * V)) :
  NoDup l.*1 -> (k, v) ∈ l -> assoc k l = Some v.
Proof.
  unfold assoc. induction l as [|[k' v'] l IH]; intros Hnd Hin; [by apply elem_of_nil in Hin|].
  rewrite fmap_cons in Hnd. apply NoDup_cons in Hnd as [Hn Hnd]. cbn in Hn. rewrite filter_cons.
  apply elem_of_cons in Hin as [[= <- <-]|Hin]; [by rewrite decide_True|].
  rewrite decide_False; [by apply IH|]. cbn. intros ->. apply Hn, list_elem_of_fmap. by exists (k, v).
Qed.

Lemma assoc_Some k v (l : list (string * V)) : assoc k l = Some v -> (k, v) ∈ l.
Proof.
  unfold assoc. intros H. destruct (filter _ l) as [|[k' v'] l'] eqn:Hf; [done|]. cbn in H. simplify_eq.
  assert ((k', v) ∈ filter (fun p => p.1 = k) l) as Hin by (rewrite Hf; left).
  apply list_elem_of_filter in Hin as [Hk Hin]. cbn in Hk. by subst.
Qed.

(** A lookup of the cache reads the view. *)
Lemma lookup_assoc c k : wf c -> assoc k (view c) = (fun pe => val pe.2) <$> lookup c k.
Proof.
  intros Hw. destruct (lookup c k) as [[p e]|] eqn:Hl; cbn.
  - apply assoc_elem; [by apply view_NoDup|]. apply elem_of_view; [done|]. by exists p, e.
  - destruct (assoc k (view c)) as [v|] eqn:Ha; [|done].
    apply assoc_Some, elem_of_view in Ha as (p & e & Hl' & _); [|done]. congruence.
Qed.

(** [len(c.cache)] is the length of the view. *)
Lemma len_view c : wf c -> len c = Z.of_nat (length (view c)).
Proof.
  intros Hw. unfold len. f_equal. rewrite <- size_dom, <- (length_fmap fst (view c)).
  rewrite <- (size_list_to_set (C := gset string) (view c).*1) by by apply view_NoDup. f_equal.
  apply set_eq. intros k. rewrite elem_of_dom, elem_of_list_to_set, list_elem_of_fmap. split.
  - intros [p Hc]. destruct (wf_cache c Hw _ _ Hc) as (e & He & Hk & _). exists (k, val e).
    split; [done|]. apply elem_of_view; [done|]. exists p, e. unfold lookup. by rewrite Hc, He.
  - intros ([k' v] & -> & (p & e & Hl & _)%elem_of_view); [|done]. cbn.
    apply lookup_Some in Hl as [-> _]; [done|done].
Qed.

(** ** The steps *)

Lemma wf_empty n : wf (New n).
Proof.
  split; cbn; [apply GoList.wf_New| |]; [intros el p []%not_elem_of_nil|].
  intros k p. by rewrite lookup_empty.
Qed.

Lemma wf_remove c k el p e :
  wf c -> (el, p) ∈ GoList.elems (lruList c) -> heap c !! p = Some e -> key e = k ->
  wf {| heap := heap c; cache := delete k (cache c);
        lruList := GoList.Remove el (lruList c); maxSize := maxSize c |}.
Proof.
  intros Hw Hin He Hk. split; cbn.
  - apply GoList.wf_Remove, Hw.
  - intros el' q [Hq Hne]%GoList.elem_of_without.
    destruct (wf_elem c Hw _ _ Hq) as (e' & He' & Hel & Hc). exists e'. repeat split; [done..|].
    rewrite lookup_delete_ne; [done|]. intros ->.
    destruct (elem_unique c _ _ _ _ _ _ Hw Hq Hin He' He ltac:(congruence)). by subst.
  - intros k' q [Hne Hc]%lookup_delete_Some. destruct (wf_cache c Hw _ _ Hc) as (e' & He' & Hk' & Hin').
    exists e'. repeat split; [done..|]. apply GoList.elem_of_without. split; [done|].
    cbn. intros <-. destruct (wf_elem c Hw _ _ Hin) as (e'' & He'' & _ & Hc'').
    pose proof (wf_list c Hw) as [Hnd _].
    destruct (GoList.split_at _ _ _ Hnd Hin) as (l1 & l2 & El & Hn1 & Hn2). rewrite El in Hin'.
    apply elem_of_app in Hin' as [H|[[= ->]|H]%elem_of_cons]; [apply Hn1|congruence|apply Hn2];
      apply list_elem_of_fmap; by exists (element e', q).
Qed.

Lemma wf_drop c k p e : wf c -> lookup c k = Some (p, e) -> wf (drop c k e).
Proof.
  intros Hw Hl. destruct (lookup_Some c _ _ _ Hw Hl) as (_ & He & Hk & Hin). by eapply wf_remove.
Qed.

Lemma view_drop c k p e :
  wf c -> lookup c k = Some (p, e) -> view (drop c k e) = erase k (view c).
Proof.
  intros Hw Hl. destruct (lookup_Some c _ _ _ Hw Hl) as (_ & He & Hk & Hin).
  unfold view, drop. cbn [heap lruList GoList.Remove GoList.elems]. by eapply view_without.
Qed.

Lemma wf_touch c k p e : wf c -> lookup c k = Some (p, e) -> wf (touch c e).
Proof.
  intros Hw Hl. destruct (lookup_Some c _ _ _ Hw Hl) as (_ & He & Hk & Hin).
  assert (forall x, x ∈ GoList.elems (GoList.MoveToFront (element e) (lruList c)) <->
    x ∈ GoList.elems (lruList c)) as Hperm.
  { intros [el q]. rewrite (GoList.elems_MoveToFront _ p _ (wf_list c Hw) Hin), elem_of_cons,
      GoList.elem_of_without. cbn. split; [intros [[= -> ->]|[? _]]; done|]. intros Hq.
    destruct (decide (el = element e)) as [->|]; [left|by right].
    pose proof (wf_list c Hw) as [Hnd _].
    destruct (GoList.split_at _ _ _ Hnd Hin) as (l1 & l2 & El & Hn1 & Hn2). rewrite El in Hq.
    apply elem_of_app in Hq as [H|[?|H]%elem_of_cons]; [exfalso; apply Hn1|done|exfalso; apply Hn2];
      apply list_elem_of_fmap; by exists (element e, q). }
  split; cbn [touch heap cache lruList].
  - by eapply GoList.wf_MoveToFront; [apply Hw|].
  - intros el q Hq%Hperm. by apply Hw.
  - intros k' q Hc. destruct (wf_cache c Hw _ _ Hc) as (e' & ? & ? & ?). exists e'.
    repeat split; [done..|]. by apply Hperm.
Qed.

Lemma view_touch c k p e :
  wf c -> lookup c k = Some (p, e) -> view (touch c e) = (k, val e) :: erase k (view c).
Proof.
  intros Hw Hl. destruct (lookup_Some c _ _ _ Hw Hl) as (_ & He & Hk & Hin).
  unfold view. cbn [touch heap lruList].
  rewrite (GoList.elems_MoveToFront _ p _ (wf_list c Hw) Hin), (omap_read_cons _ _ _ _ _ He), Hk.
  f_equal. by eapply view_without.
Qed.

Lemma lookup_assign c k p e v :
  wf c -> lookup c k = Some (p, e) ->
  lookup (assign c p v) k = Some (p, {| key := key e; val := v; element := element e |}).
Proof.
  intros Hw Hl. destruct (lookup_Some c _ _ _ Hw Hl) as (Hc & He & _).
  unfold lookup, assign. cbn. by rewrite Hc, lookup_alter_eq, He.
Qed.

Lemma wf_assign c p v : wf c -> wf (assign c p v).
Proof.
  intros Hw. split; cbn.
  - apply Hw.
  - intros el q Hin. destruct (wf_elem c Hw _ _ Hin) as (e & He & Hel & Hc).
    destruct (decide (p = q)) as [->|]; [rewrite lookup_alter_eq, He|rewrite lookup_alter_ne by done];
      eexists; eauto.
  - intros k q Hc. destruct (wf_cache c Hw _ _ Hc) as (e & He & Hk & Hin).
    destruct (decide (p = q)) as [->|]; [rewrite lookup_alter_eq, He|rewrite lookup_alter_ne by done];
      eexists; eauto.
Qed.

Lemma view_assign c k p e v :
  wf c -> lookup c k = Some (p, e) -> erase k (view (assign c p v)) = erase k (view c).
Proof.
  intros Hw Hl. destruct (lookup_Some c _ _ _ Hw Hl) as (Hc & He & Hk & _).
  unfold view, assign. cbn [heap lruList].
  assert (forall x, x ∈ GoList.elems (lruList c) -> x ∈ GoList.elems (lruList c)) as Hs by done.
  revert Hs. generalize (GoList.elems (lruList c)) at 1 3 4 as l.
  induction l as [|[el q] l IH]; intros Hs; [done|].
  destruct (wf_elem c Hw el q) as (e' & He' & _ & Hc'); [apply Hs; left|].
  rewrite (omap_read_cons (heap c) _ _ _ _ He'), erase_cons.
  destruct (decide (p = q)) as [<-|Hne].
  - erewrite omap_read_cons by (rewrite lookup_alter_eq, He; done).
    simplify_eq. rewrite erase_cons. cbn. rewrite !decide_False by naive_solver.
    apply IH. intros x Hx. apply Hs. by right.
  - erewrite omap_read_cons by (rewrite lookup_alter_ne; done). rewrite erase_cons.
    rewrite IH by (intros x Hx; apply Hs; by right). done.
Qed.

Lemma wf_evict c : wf c -> wf (evictOldest c).
Proof.
  intros Hw. unfold evictOldest, GoList.Back. destruct (last _) as [[el p]|] eqn:Hl; [|done].
  apply last_Some_elem_of in Hl. destruct (wf_elem c Hw _ _ Hl) as (e & He & _). rewrite He.
  by eapply wf_remove.
Qed.

Lemma evict_snoc (l : list (string * V)) x : evict (l ++ [x]) = l.
Proof. unfold evict. rewrite length_app. cbn. rewrite Nat.add_1_r. cbn. by apply take_app_length. Qed.

Lemma view_evict c : wf c -> view (evictOldest c) = evict (view c).
Proof.
  intros Hw. unfold evictOldest, GoList.Back. destruct (last _) as [[el p]|] eqn:Hl.
  - pose proof (last_Some_elem_of _ _ Hl) as Hin. apply last_Some in Hl as [l El].
    destruct (wf_elem c Hw _ _ Hin) as (e & He & _). rewrite He. unfold view. cbn.
    pose proof (wf_list c Hw) as [Hnd _]. rewrite El in *. rewrite fmap_app in Hnd. cbn in Hnd.
    apply NoDup_app in Hnd as (_ & Hd & _).
    rewrite GoList.without_split; [|intros Ha; by apply (Hd _ Ha); left|apply not_elem_of_nil].
    rewrite app_nil_r, omap_app_comm, (omap_read_cons _ _ _ [] _ He). by rewrite evict_snoc.
  - apply last_None in Hl. unfold view. by rewrite Hl.
Qed.

Lemma wf_push c k v : wf c -> cache c !! k = None -> wf (push c k v).
Proof.
  intros Hw Hk. unfold push. set (p := fresh _).
  assert (heap c !! p = None) as Hp by (apply not_elem_of_dom, is_fresh).
  split; cbn.
  - apply (GoList.wf_PushFront p _ (wf_list c Hw)).
  - intros el q [[= -> ->]|Hin]%elem_of_cons; [rewrite lookup_insert_eq; eexists; split_and!; [done..|]; apply lookup_insert_eq|].
    destruct (wf_elem c Hw _ _ Hin) as (e & He & Hel & Hc). exists e.
    rewrite !lookup_insert_ne by congruence. done.
  - intros k' q [[<- <-]|[Hne Hc]]%lookup_insert_Some.
    + rewrite lookup_insert_eq. eexists. split_and!; [done..|]. left.
    + destruct (wf_cache c Hw _ _ Hc) as (e & He & Hke & Hin). exists e.
      rewrite lookup_insert_ne by congruence. split_and!; [done..|by right].
Qed.

Lemma view_push c k v : wf c -> view (push c k v) = (k, v) :: view c.
Proof.
  intros Hw. unfold push, view. set (p := fresh _).
  assert (heap c !! p = None) as Hp by (apply not_elem_of_dom, is_fresh). cbn [GoList.PushFront heap lruList GoList.elems].
  erewrite omap_read_cons by apply lookup_insert_eq. f_equal.
  assert (forall x, x ∈ GoList.elems (lruList c) -> x ∈ GoList.elems (lruList c)) as Hs by done.
  revert Hs. generalize (GoList.elems (lruList c)) at 1 3 4 as l.
  induction l as [|[el q] l IH]; intros Hs; [done|].
  destruct (wf_elem c Hw el q) as (e' & He' & _); [apply Hs; left|].
  rewrite (omap_read_cons (heap c) _ _ _ _ He').
  erewrite omap_read_cons by (rewrite lookup_insert_ne; [done|congruence]).
  rewrite IH by (intros x Hx; apply Hs; by right). done.
Qed.

(** Eviction removes keys only. *)
Lemma evict_cache_None c k : cache c !! k = None -> cache (evictOldest c) !! k = None.
Proof. intros Hk. unfold evictOldest. repeat case_match; cbn; try done. by apply lookup_delete_None; right. Qed.

End lru.
End Lru.
