(* ===== verification/Caches.v ===== *)
(** * The client and token caches ([pkg/workloadmanager/client_cache.go])

    [ClientCache] and [TokenCache] are LRU caches over the pointer structure
    of [Lru.v]. The mutex makes every method one atomic step, so a concurrent
    execution is a sequence of calls; [runs] executes such a sequence, and
    [spec_runs] is the same sequence on an association list kept in order of
    recency. *)

From Stdlib Require Import Ascii.
From stdpp Require Import base list gmap strings.
From S2P Require Import Prelude GoStrings GoTime GoEncoding GoList Lru.

(** ** The recency list both caches implement *)

Module LruSpec.
Section spec.
Context {V : Type}.

Definition set (max : Z) (k : string) (v : V) (l : list (string * V)) : list (string * V) :=
  match Lru.assoc k l with
  | Some _ => (k, v) :: Lru.erase k l
  | None => (k, v) :: (if max <=? Z.of_nat (length l) then Lru.evict l else l)
  end.

Lemma assoc_head k v (l : list (string * V)) : Lru.assoc k ((k, v) :: l) = Some v.
Proof. unfold Lru.assoc. by rewrite filter_cons_True. Qed.

(** A value just set is found. *)
Lemma assoc_set max k v (l : list (string * V)) : Lru.assoc k (set max k v l) = Some v.
Proof. unfold set. destruct (Lru.assoc k l); apply assoc_head. Qed.

Lemma length_erase k (l : list (string * V)) : (length (Lru.erase k l) <= length l)%nat.
Proof. apply length_filter. Qed.

Lemma length_erase_assoc k (l : list (string * V)) v :
  Lru.assoc k l = Some v -> (length (Lru.erase k l) < length l)%nat.
Proof.
  intros H%Lru.assoc_Some. unfold Lru.erase. apply length_filter_lt with (k, v); [done|]. cbn. tauto.
Qed.

Lemma length_set max k v (l : list (string * V)) :
  0 < max -> Z.of_nat (length l) <= max -> Z.of_nat (length (set max k v l)) <= max.
Proof.
  intros Hm Hl. unfold set. destruct (Lru.assoc k l) as [v'|] eqn:Ha; cbn.
  - pose proof (length_erase_assoc _ _ _ Ha). lia.
  - destruct (Z.leb_spec max (Z.of_nat (length l))); [|lia].
    unfold Lru.evict. rewrite length_take. lia.
Qed.

Lemma elem_of_erase p k (l : list (string * V)) : p ∈ Lru.erase k l <-> p ∈ l /\ p.1 <> k.
Proof. unfold Lru.erase. rewrite list_elem_of_filter. tauto. Qed.

Lemma elem_of_set max k v p (l : list (string * V)) :
  p ∈ set max k v l -> p = (k, v) \/ (p ∈ l /\ p.1 <> k).
Proof.
  unfold set. destruct (Lru.assoc k l) as [v'|] eqn:Ha; intros [->|Hin]%elem_of_cons; auto.
  - right. by apply elem_of_erase.
  - right. assert (p ∈ l) as Hl.
    { destruct (_ <=? _); [|done]. unfold Lru.evict in Hin. by eapply elem_of_take_self. }
    split; [done|]. intros Hk. destruct p as [k' v']. cbn in Hk. subst k'.
    assert ((k, v') ∈ filter (fun p => p.1 = k) l) as Hf by by apply list_elem_of_filter.
    unfold Lru.assoc in Ha. destruct (filter _ l); [by apply elem_of_nil in Hf|done].
Qed.
End spec.
End LruSpec.

(** ** [ClientCache] *)

Module ClientCache.
Section cache.
Context {JT : JsonText} {client : Type}.

(** [clientCacheEntry]'s payload: the client and the token's expiry. *)
Record payload := { cl : client; tokenExpiry : Time }.

Definition parseJWTExpiry (token : string) : Time :=
  match Strs.Split "."%char token with
  | [_; p; _] =>
      match B64.RawURLDecode p with
      | None => Tm.zero
      | Some payload =>
          match json_parse payload with
          | Some (JObj claims) =>
              match obj_get "exp" claims with
              | Some (JNum m e) => Tm.OfUnix (float_to_int64 (m, e))
              | _ => Tm.zero
              end
          | _ => Tm.zero
          end
      end
  | _ => Tm.zero
  end.

Definition NewClientCache (maxSize : Z) : Lru.t payload :=
  Lru.New (if maxSize <=? 0 then 100 else maxSize).

Definition Get (now : Time) (k : string) (c : Lru.t payload) : option client * Lru.t payload :=
  match Lru.lookup c k with
  | None => (None, c)
  | Some (_, entry) =>
      if negb (Tm.IsZero (tokenExpiry (Lru.val entry)))
         && Tm.After now (tokenExpiry (Lru.val entry))
      then (None, Lru.drop c k entry)
      else (Some (cl (Lru.val entry)), Lru.touch c entry)
  end.

Definition evictOldest (c : Lru.t payload) : Lru.t payload := Lru.evictOldest c.

Definition Set_ (k token : string) (v : client) (c : Lru.t payload) : Lru.t payload :=
  let expiry := parseJWTExpiry token in
  match Lru.lookup c k with
  | Some (p, entry) => Lru.touch (Lru.assign c p {| cl := v; tokenExpiry := expiry |}) entry
  | None =>
      let c := if Lru.maxSize c <=? Lru.len c then evictOldest c else c in
      Lru.push c k {| cl := v; tokenExpiry := expiry |}
  end.

Definition Remove (k : string) (c : Lru.t payload) : Lru.t payload :=
  match Lru.lookup c k with
  | None => c
  | Some (_, entry) => Lru.drop c k entry
  end.

Definition Size (c : Lru.t payload) : Z := Lru.len c.

(** Sequences of calls. *)
Inductive op :=
  | OGet (now : Time) (k : string)
  | OSet (k token : string) (v : client)
  | ORemove (k : string).

Definition run (o : op) (c : Lru.t payload) : option client * Lru.t payload :=
  match o with
  | OGet now k => Get now k c
  | OSet k token v => (None, Set_ k token v c)
  | ORemove k => (None, Remove k c)
  end.

Fixpoint runs (os : list op) (c : Lru.t payload) : list (option client) * Lru.t payload :=
  match os with
  | [] => ([], c)
  | o :: os =>
      let '(r, c) := run o c in let '(rs, c) := runs os c in (r :: rs, c)
  end.

(** The same calls on the recency list. *)
Definition spec_run (max : Z) (o : op) (l : list (string * payload))
    : option client * list (string * payload) :=
  match o with
  | OGet now k =>
      match Lru.assoc k l with
      | None => (None, l)
      | Some v =>
          if negb (Tm.IsZero (tokenExpiry v)) && Tm.After now (tokenExpiry v)
          then (None, Lru.erase k l) else (Some (cl v), (k, v) :: Lru.erase k l)
      end
  | OSet k token v =>
      (None, LruSpec.set max k {| cl := v; tokenExpiry := parseJWTExpiry token |} l)
  | ORemove k => (None, Lru.erase k l)
  end.

Fixpoint spec_runs (max : Z) (os : list op) (l : list (string * payload))
    : list (option client) * list (string * payload) :=
  match os with
  | [] => ([], l)
  | o :: os =>
      let '(r, l) := spec_run max o l in
      let '(rs, l) := spec_runs max os l in (r :: rs, l)
  end.

End cache.
Arguments payload : clear implicits.
Arguments op : clear implicits.
End ClientCache.

(** ** [TokenCache] *)

Module TokenCache.

Record payload := { authenticated : bool; username : string; lastAccess : Time }.

Record cache := { base : Lru.t payload; ttl : Duration }.

Definition with_base (c : cache) (b : Lru.t payload) : cache := {| base := b; ttl := ttl c |}.

Definition NewTokenCache (maxSize : Z) (ttl : Duration) : cache :=
  {| base := Lru.New (if maxSize <=? 0 then 1000 else maxSize);
     ttl := if ttl <=? 0 then 5 * Tm.Minute else ttl |}.

(** [now] is the clock at [time.Since], [now'] at [time.Now()]. *)
Definition Get (now now' : Time) (token : string) (c : cache) : (bool * bool * string) * cache :=
  match Lru.lookup (base c) token with
  | None => ((false, false, ""), c)
  | Some (p, entry) =>
      if ttl c <? Tm.Sub now (lastAccess (Lru.val entry))
      then ((false, false, ""), with_base c (Lru.drop (base c) token entry))
      else
        let v := {| authenticated := authenticated (Lru.val entry);
                    username := username (Lru.val entry); lastAccess := now' |} in
        ((true, authenticated v, username v),
         with_base c (Lru.touch (Lru.assign (base c) p v) entry))
  end.

Definition evictOldest (c : cache) : cache := with_base c (Lru.evictOldest (base c)).

Definition Set_ (now : Time) (token : string) (auth : bool) (user : string) (c : cache) : cache :=
  let v := {| authenticated := auth; username := user; lastAccess := now |} in
  match Lru.lookup (base c) token with
  | Some (p, entry) => with_base c (Lru.touch (Lru.assign (base c) p v) entry)
  | None =>
      let c := if Lru.maxSize (base c) <=? Lru.len (base c) then evictOldest c else c in
      with_base c (Lru.push (base c) token v)
  end.

Definition Remove (token : string) (c : cache) : cache :=
  match Lru.lookup (base c) token with
  | None => c
  | Some (_, entry) => with_base c (Lru.drop (base c) token entry)
  end.

Definition Size (c : cache) : Z := Lru.len (base c).

Inductive op :=
  | OGet (now now' : Time) (token : string)
  | OSet (now : Time) (token : string) (auth : bool) (user : string)
  | ORemove (token : string).

Definition run (o : op) (c : cache) : (bool * bool * string) * cache :=
  match o with
  | OGet now now' t => Get now now' t c
  | OSet now t a u => ((false, false, ""), Set_ now t a u c)
  | ORemove t => ((false, false, ""), Remove t c)
  end.

Fixpoint runs (os : list op) (c : cache) : list (bool * bool * string) * cache :=
  match os with
  | [] => ([], c)
  | o :: os =>
      let '(r, c) := run o c in let '(rs, c) := runs os c in (r :: rs, c)
  end.

Definition spec_run (max : Z) (ttl : Duration) (o : op) (l : list (string * payload))
    : (bool * bool * string) * list (string * payload) :=
  match o with
  | OGet now now' k =>
      match Lru.assoc k l with
      | None => ((false, false, ""), l)
      | Some v =>
          if ttl <? Tm.Sub now (lastAccess v) then ((false, false, ""), Lru.erase k l)
          else ((true, authenticated v, username v),
                (k, {| authenticated := authenticated v; username := username v;
                       lastAccess := now' |}) :: Lru.erase k l)
      end
  | OSet now k a u =>
      ((false, false, ""),
       LruSpec.set max k {| authenticated := a; username := u; lastAccess := now |} l)
  | ORemove k => ((false, false, ""), Lru.erase k l)
  end.

Fixpoint spec_runs (max : Z) (ttl : Duration) (os : list op) (l : list (string * payload))
    : list (bool * bool * string) * list (string * payload) :=
  match os with
  | [] => ([], l)
  | o :: os =>
      let '(r, l) := spec_run max ttl o l in
      let '(rs, l) := spec_runs max ttl os l in (r :: rs, l)
  end.

End TokenCache.

Definition makeCacheKey (namespace serviceAccountName : string) : string :=
  namespace +:+ ":" +:+ serviceAccountName.
