(* ===== verification/CacheTheorems.v ===== *)
(** * Properties of the client and token caches *)

From Stdlib Require Import Ascii.
From stdpp Require Import base list gmap strings.
From S2P Require Import Prelude GoStrings GoTime GoEncoding GoList Lru Caches.

(** ** The steps both caches share *)

Section steps.
Context {V : Type}.

(** [c] is well formed, of capacity [max], and reads as [l]. *)
Record shows (max : Z) (c : Lru.t V) (l : list (string * V)) : Prop := {
  shows_wf : Lru.wf c;
  shows_max : Lru.maxSize c = max;
  shows_view : Lru.view c = l;
}.

Lemma erase_absent k (l : list (string * V)) : Lru.assoc k l = None -> Lru.erase k l = l.
Proof.
  unfold Lru.assoc, Lru.erase. induction l as [|[k' v] l IH]; [done|]. rewrite !filter_cons. cbn.
  destruct (decide (k' = k)) as [->|Hne]; [done|]. rewrite decide_True by done.
  intros H. by rewrite IH.
Qed.

Lemma shows_drop max c l k p e :
  shows max c l -> Lru.lookup c k = Some (p, e) -> shows max (Lru.drop c k e) (Lru.erase k l).
Proof.
  intros [Hw Hm <-] Hl. split; [by eapply Lru.wf_drop|done|by eapply Lru.view_drop].
Qed.

Lemma shows_touch max c l k p e :
  shows max c l -> Lru.lookup c k = Some (p, e) ->
  shows max (Lru.touch c e) ((k, Lru.val e) :: Lru.erase k l).
Proof.
  intros [Hw Hm <-] Hl. split; [by eapply Lru.wf_touch|done|by eapply Lru.view_touch].
Qed.

Lemma shows_write max c l k p e v :
  shows max c l -> Lru.lookup c k = Some (p, e) ->
  shows max (Lru.touch (Lru.assign c p v) e) ((k, v) :: Lru.erase k l).
Proof.
  intros [Hw Hm <-] Hl. pose proof (Lru.lookup_assign c k p e v Hw Hl) as Hl'.
  rewrite <- (Lru.view_assign c k p e v Hw Hl).
  apply (shows_touch max _ _ _ _ _ (Build_shows max (Lru.assign c p v) _ (Lru.wf_assign c p v Hw) Hm eq_refl) Hl').
Qed.

Lemma shows_push max c l k v :
  shows max c l -> Lru.lookup c k = None ->
  shows max (Lru.push (if Lru.maxSize c <=? Lru.len c then Lru.evictOldest c else c) k v)
    ((k, v) :: (if max <=? Z.of_nat (length l) then Lru.evict l else l)).
Proof.
  intros [Hw Hm <-] Hl. pose proof (Lru.lookup_None c k Hw Hl) as Hk.
  rewrite Hm, Lru.len_view by done. destruct (_ <=? _).
  - split.
    + apply Lru.wf_push; [by apply Lru.wf_evict|by apply Lru.evict_cache_None].
    + unfold Lru.push, Lru.evictOldest. cbn. by repeat case_match.
    + rewrite Lru.view_push by by apply Lru.wf_evict. by rewrite Lru.view_evict.
  - split; [by apply Lru.wf_push|done|by apply Lru.view_push].
Qed.

Lemma shows_assoc max c l k :
  shows max c l -> Lru.assoc k l = (fun pe => Lru.val pe.2) <$> Lru.lookup c k.
Proof. intros [Hw _ <-]. by apply Lru.lookup_assoc. Qed.

Lemma shows_set max c l k v :
  shows max c l ->
  shows max
    (match Lru.lookup c k with
     | Some (p, e) => Lru.touch (Lru.assign c p v) e
     | None => Lru.push (if Lru.maxSize c <=? Lru.len c then Lru.evictOldest c else c) k v
     end) (LruSpec.set max k v l).
Proof.
  intros Hs. unfold LruSpec.set. rewrite (shows_assoc _ _ _ _ Hs).
  destruct (Lru.lookup c k) as [[p e]|] eqn:Hl; cbn; [by eapply shows_write|by apply shows_push].
Qed.

Lemma shows_remove max c l k :
  shows max c l ->
  shows max (match Lru.lookup c k with Some (_, e) => Lru.drop c k e | None => c end)
    (Lru.erase k l).
Proof.
  intros Hs. destruct (Lru.lookup c k) as [[p e]|] eqn:Hl; [by eapply shows_drop|].
  rewrite erase_absent; [done|]. by rewrite (shows_assoc _ _ _ _ Hs), Hl.
Qed.

Lemma shows_New n : shows n (Lru.New n) [].
Proof. split; [apply Lru.wf_empty|done..]. Qed.

Lemma shows_len max c l : shows max c l -> Lru.len c = Z.of_nat (length l).
Proof. intros [Hw _ <-]. by apply Lru.len_view. Qed.

End steps.

(** ** [ClientCache] *)

Section client.
Context {JT : JsonText} {client : Type}.

Lemma client_run_shows max (o : ClientCache.op client) c l :
  shows max c l ->
  (ClientCache.run o c).1 = (ClientCache.spec_run max o l).1 /\
  shows max (ClientCache.run o c).2 (ClientCache.spec_run max o l).2.
Proof.
  intros Hs. destruct o as [now k|k token v|k]; cbn.
  - unfold ClientCache.Get. rewrite (shows_assoc _ _ _ _ Hs).
    destruct (Lru.lookup c k) as [[p e]|] eqn:Hl; cbn; [|done].
    destruct (_ && _); cbn; (split; [done|]); [by eapply shows_drop|by eapply shows_touch].
  - split; [done|]. unfold ClientCache.Set_, ClientCache.evictOldest. by apply shows_set.
  - split; [done|]. unfold ClientCache.Remove. by apply shows_remove.
Qed.

Lemma client_runs_shows max (os : list (ClientCache.op client)) c l :
  shows max c l ->
  (ClientCache.runs os c).1 = (ClientCache.spec_runs max os l).1 /\
  shows max (ClientCache.runs os c).2 (ClientCache.spec_runs max os l).2.
Proof.
  revert c l. induction os as [|o os IH]; intros c l Hs; [done|]. cbn.
  pose proof (client_run_shows max o c l Hs) as [Hr Hs'].
  destruct (ClientCache.run o c) as [r c'], (ClientCache.spec_run max o l) as [r' l']. cbn in *. subst.
  specialize (IH c' l' Hs') as [Hrs Hs'']. destruct (ClientCache.runs os c'), (ClientCache.spec_runs max os l').
  cbn in *. by subst.
Qed.

Lemma client_spec_bounded max (os : list (ClientCache.op client)) l :
  0 < max -> Z.of_nat (length l) <= max ->
  Z.of_nat (length (ClientCache.spec_runs max os l).2) <= max.
Proof.
  intros Hm. revert l. induction os as [|o os IH]; intros l Hl; [done|]. cbn.
  assert (Z.of_nat (length (ClientCache.spec_run max o l).2) <= max) as Hl'.
  { destruct o as [now k|k token v|k]; cbn.
    - destruct (Lru.assoc k l) as [v|] eqn:Ha; [|done]. pose proof (LruSpec.length_erase_assoc _ _ _ Ha).
      destruct (_ && _); cbn; lia.
    - by apply LruSpec.length_set.
    - pose proof (LruSpec.length_erase k l). lia. }
  destruct (ClientCache.spec_run max o l) as [r l']. specialize (IH l' Hl').
  by destruct (ClientCache.spec_runs max os l').
Qed.

(** The token and client of the last [Set] of [k] that no [Remove] follows. *)
Fixpoint last_set (k : string) (os : list (ClientCache.op client)) (acc : option (string * client))
    : option (string * client) :=
  match os with
  | [] => acc
  | ClientCache.OSet k' token v :: os =>
      last_set k os (if String.eqb k k' then Some (token, v) else acc)
  | ClientCache.ORemove k' :: os => last_set k os (if String.eqb k k' then None else acc)
  | ClientCache.OGet _ _ :: os => last_set k os acc
  end.

Definition from_sets (l : list (string * ClientCache.payload client))
    (f : string -> option (string * client)) : Prop :=
  forall k v, (k, v) ∈ l -> exists token, f k = Some (token, ClientCache.cl v) /\
    ClientCache.tokenExpiry v = ClientCache.parseJWTExpiry token.

Lemma from_sets_runs max os l f :
  from_sets l f ->
  from_sets (ClientCache.spec_runs max os l).2 (fun k => last_set k os (f k)).
Proof.
  revert l f. induction os as [|o os IH]; intros l f Hf; [done|]. cbn.
  destruct o as [now k0|k0 token v0|k0]; cbn.
  - assert (from_sets (ClientCache.spec_run max (ClientCache.OGet now k0) l).2 f) as Hf'.
    { cbn. destruct (Lru.assoc k0 l) as [v|] eqn:Ha; [|done]. apply Lru.assoc_Some in Ha.
      destruct (_ && _); cbn; intros k v' Hin.
      - apply LruSpec.elem_of_erase in Hin as [Hin _]. by apply Hf.
      - apply elem_of_cons in Hin as [[= -> ->]|[Hin _]%LruSpec.elem_of_erase]; by apply Hf. }
    specialize (IH _ f Hf'). cbn in IH.
    destruct (match Lru.assoc k0 l with Some _ => _ | None => _ end) as [r l']. cbn in IH.
    by destruct (ClientCache.spec_runs max os l').
  - match goal with |- context [ClientCache.spec_runs max os ?l'] => set (l1 := l') end.
    specialize (IH l1 (fun k => if String.eqb k k0 then Some (token, v0) else f k)).
    destruct (ClientCache.spec_runs max os l1). apply IH.
    intros k v [[= -> ->]|[Hin Hne]]%LruSpec.elem_of_set.
    + rewrite String.eqb_refl. by exists token.
    + cbn in Hne. rewrite (proj2 (String.eqb_neq k k0) Hne). by apply Hf.
  - specialize (IH (Lru.erase k0 l) (fun k => if String.eqb k k0 then None else f k)).
    destruct (ClientCache.spec_runs max os (Lru.erase k0 l)). apply IH.
    intros k v [Hin Hne]%LruSpec.elem_of_erase. cbn in Hne.
    rewrite (proj2 (String.eqb_neq k k0) Hne). by apply Hf.
Qed.

End client.

(** The client cache is a bounded LRU cache: any sequence of calls on a new
    cache returns what the recency list returns, keeps the map, the list and
    the back pointers consistent, and never holds more than the configured
    number of entries (100 when the configured size is not positive). *)
Lemma client_cache_refines_lru {JT : JsonText} {client : Type} (n : Z)
    (os : list (ClientCache.op client)) :
  let max := if n <=? 0 then 100 else n in
  let c := (ClientCache.runs os (ClientCache.NewClientCache n)).2 in
  (ClientCache.runs os (ClientCache.NewClientCache n)).1 = (ClientCache.spec_runs max os []).1 /\
  Lru.view c = (ClientCache.spec_runs max os []).2 /\ Lru.wf c /\ ClientCache.Size c <= max.
Proof.
  intros max c. assert (0 < max) as Hm by (unfold max; destruct (Z.leb_spec n 0); lia).
  destruct (client_runs_shows max os (ClientCache.NewClientCache n) [] (shows_New max)) as [Hr Hs].
  split; [done|]. split; [apply (shows_view _ _ _ Hs)|]. split; [apply (shows_wf _ _ _ Hs)|].
  unfold ClientCache.Size, c. rewrite (shows_len _ _ _ Hs). apply client_spec_bounded; cbn; lia.
Qed.

(** A cached client is never stale: what [Get] returns after any sequence
    of calls is the client of the last [Set] of that key (no [Remove] since),
    and the token it was stored with has no expiry or has not expired yet. *)
Lemma client_cache_get_fresh {JT : JsonText} {client : Type} (n : Z)
    (os : list (ClientCache.op client)) (now : Time) (k : string) (v : client) c' :
  ClientCache.Get now k (ClientCache.runs os (ClientCache.NewClientCache n)).2 = (Some v, c') ->
  exists token, last_set k os None = Some (token, v) /\
    (ClientCache.parseJWTExpiry token = Tm.zero \/ now <= ClientCache.parseJWTExpiry token).
Proof.
  intros Hg. set (max := if n <=? 0 then 100 else n).
  destruct (client_runs_shows max os (ClientCache.NewClientCache n) [] (shows_New max)) as [_ Hs].
  pose proof (from_sets_runs max os [] (fun _ => None)) as Hf.
  destruct (Lru.lookup (ClientCache.runs os (ClientCache.NewClientCache n)).2 k) as [[p e]|] eqn:Hl;
    unfold ClientCache.Get in Hg; rewrite Hl in Hg; [|done].
  pose proof (shows_assoc _ _ _ k Hs) as Ha. rewrite Hl in Ha. apply Lru.assoc_Some in Ha.
  destruct (Hf ltac:(intros ? ? []%elem_of_nil) _ _ Ha) as (token & Ht & He). cbn in Ht, He.
  destruct (_ && _) eqn:Hb; [done|]. simplify_eq. exists token. split; [done|]. rewrite <- He.
  unfold Tm.After, Tm.IsZero, Tm.zero in *. apply andb_false_iff in Hb as [Hb|Hb]; b2p; auto.
Qed.

(** Every token expires at Unix second 2000. *)
Definition exp2000 : JsonText := {| json_parse _ := Some (JObj [("exp", JNum 2000 0)]) |}.

(** ** [TokenCache] *)

Section token.
Implicit Types (c : TokenCache.cache) (l : list (string * TokenCache.payload)).

Lemma token_run_shows max (o : TokenCache.op) c l :
  shows max (TokenCache.base c) l ->
  let r := TokenCache.run o c in let r' := TokenCache.spec_run max (TokenCache.ttl c) o l in
  r.1 = r'.1 /\ TokenCache.ttl r.2 = TokenCache.ttl c /\ shows max (TokenCache.base r.2) r'.2.
Proof.
  intros Hs. destruct o as [now now' k|now k a u|k]; cbn.
  - unfold TokenCache.Get. rewrite (shows_assoc _ _ _ _ Hs).
    destruct (Lru.lookup (TokenCache.base c) k) as [[p e]|] eqn:Hl; cbn; [|done].
    destruct (_ <? _); cbn; (split_and!; [done..|]); [by eapply shows_drop|by eapply shows_write].
  - pose proof (shows_set max _ _ k
      {| TokenCache.authenticated := a; TokenCache.username := u; TokenCache.lastAccess := now |} Hs) as Hs'.
    unfold TokenCache.Set_. destruct (Lru.lookup (TokenCache.base c) k) as [[p e]|]; [done|].
    by destruct (_ <=? _).
  - pose proof (shows_remove max _ _ k Hs) as Hs'.
    unfold TokenCache.Remove. by destruct (Lru.lookup (TokenCache.base c) k) as [[p e]|].
Qed.

Lemma token_runs_shows max (os : list TokenCache.op) c l :
  shows max (TokenCache.base c) l ->
  let r := TokenCache.runs os c in let r' := TokenCache.spec_runs max (TokenCache.ttl c) os l in
  r.1 = r'.1 /\ TokenCache.ttl r.2 = TokenCache.ttl c /\ shows max (TokenCache.base r.2) r'.2.
Proof.
  revert c l. induction os as [|o os IH]; intros c l Hs; [done|]. cbn.
  pose proof (token_run_shows max o c l Hs) as (Hr & Ht & Hs'). cbn in *.
  destruct (TokenCache.run o c) as [r c'], (TokenCache.spec_run max (TokenCache.ttl c) o l) as [r' l'].
  cbn in *. subst. specialize (IH c' l' Hs') as (Hrs & Ht' & Hs''). rewrite Ht in *.
  destruct (TokenCache.runs os c'), (TokenCache.spec_runs max (TokenCache.ttl c) os l'). cbn in *. by subst.
Qed.

Lemma token_spec_bounded max ttl (os : list TokenCache.op) l :
  0 < max -> Z.of_nat (length l) <= max ->
  Z.of_nat (length (TokenCache.spec_runs max ttl os l).2) <= max.
Proof.
  intros Hm. revert l. induction os as [|o os IH]; intros l Hl; [done|]. cbn.
  assert (Z.of_nat (length (TokenCache.spec_run max ttl o l).2) <= max) as Hl'.
  { destruct o as [now now' k|now k a u|k]; cbn.
    - destruct (Lru.assoc k l) as [v|] eqn:Ha; [|done]. pose proof (LruSpec.length_erase_assoc _ _ _ Ha).
      destruct (_ <? _); cbn; lia.
    - by apply LruSpec.length_set.
    - pose proof (LruSpec.length_erase k l). lia. }
  destruct (TokenCache.spec_run max ttl o l) as [r l']. specialize (IH l' Hl').
  by destruct (TokenCache.spec_runs max ttl os l').
Qed.

(** What is known of a token: the verdict of its last [Set] (no [Remove]
    since), and the instants at which a call recorded an access. *)
Definition note (k : string) (o : TokenCache.op) (acc : option (bool * string) * list Time)
    : option (bool * string) * list Time :=
  match o with
  | TokenCache.OSet now k' a u => if String.eqb k k' then (Some (a, u), now :: acc.2) else acc
  | TokenCache.ORemove k' => if String.eqb k k' then (None, acc.2) else acc
  | TokenCache.OGet _ now' k' => if String.eqb k k' then (acc.1, now' :: acc.2) else acc
  end.

Fixpoint history (k : string) (os : list TokenCache.op) (acc : option (bool * string) * list Time)
    : option (bool * string) * list Time :=
  match os with [] => acc | o :: os => history k os (note k o acc) end.

Definition explained l (f : string -> option (bool * string) * list Time) : Prop :=
  forall k v, (k, v) ∈ l ->
    (f k).1 = Some (TokenCache.authenticated v, TokenCache.username v) /\
    TokenCache.lastAccess v ∈ (f k).2.

Lemma explained_run max ttl o l f :
  explained l f -> explained (TokenCache.spec_run max ttl o l).2 (fun k => note k o (f k)).
Proof.
  intros Hf k v Hin. destruct o as [now now' k0|now k0 a u|k0]; cbn in *.
  - destruct (Lru.assoc k0 l) as [v0|] eqn:Ha.
    + apply Lru.assoc_Some in Ha. destruct (_ <? _); cbn in Hin.
      * apply LruSpec.elem_of_erase in Hin as [Hin Hne]. cbn in Hne.
        rewrite (proj2 (String.eqb_neq k k0) Hne). by apply Hf.
      * apply elem_of_cons in Hin as [[= -> ->]|[Hin Hne]%LruSpec.elem_of_erase].
        -- rewrite String.eqb_refl. cbn. split; [by apply Hf in Ha as [-> _]|left].
        -- cbn in Hne. rewrite (proj2 (String.eqb_neq k k0) Hne). by apply Hf.
    + cbn in Hin. apply Hf in Hin as [H1 H2]. destruct (String.eqb k k0); [|done]. split; [done|by right].
  - apply LruSpec.elem_of_set in Hin as [[= -> ->]|[Hin Hne]].
    + rewrite String.eqb_refl. split; [done|left].
    + cbn in Hne. rewrite (proj2 (String.eqb_neq k k0) Hne). by apply Hf.
  - apply LruSpec.elem_of_erase in Hin as [Hin Hne]. cbn in Hne.
    rewrite (proj2 (String.eqb_neq k k0) Hne). by apply Hf.
Qed.

Lemma explained_runs max ttl os l f :
  explained l f -> explained (TokenCache.spec_runs max ttl os l).2 (fun k => history k os (f k)).
Proof.
  revert l f. induction os as [|o os IH]; intros l f Hf; [done|]. cbn.
  pose proof (explained_run max ttl o l f Hf) as Hf'.
  destruct (TokenCache.spec_run max ttl o l) as [r l']. specialize (IH l' _ Hf').
  by destruct (TokenCache.spec_runs max ttl os l').
Qed.

Lemma token_lookup_shows max c l k p e :
  shows max (TokenCache.base c) l -> Lru.lookup (TokenCache.base c) k = Some (p, e) ->
  (k, Lru.val e) ∈ l.
Proof.
  intros Hs Hl. apply Lru.assoc_Some. rewrite (shows_assoc _ _ _ _ Hs), Hl. done.
Qed.

End token.

(** The token cache is a bounded LRU cache: any sequence of calls on a new
    cache returns what the recency list returns, keeps the pointer structure
    consistent, and never holds more entries than configured (1000 when the
    configured size is not positive). *)
Lemma token_cache_refines_lru (n : Z) (t : Duration) (os : list TokenCache.op) :
  let max := if n <=? 0 then 1000 else n in
  let ttl := if t <=? 0 then 5 * Tm.Minute else t in
  let c := (TokenCache.runs os (TokenCache.NewTokenCache n t)).2 in
  (TokenCache.runs os (TokenCache.NewTokenCache n t)).1 = (TokenCache.spec_runs max ttl os []).1 /\
  Lru.view (TokenCache.base c) = (TokenCache.spec_runs max ttl os []).2 /\
  Lru.wf (TokenCache.base c) /\ TokenCache.Size c <= max.
Proof.
  intros max ttl c. assert (0 < max) as Hm by (unfold max; destruct (Z.leb_spec n 0); lia).
  destruct (token_runs_shows max os (TokenCache.NewTokenCache n t) [] (shows_New max)) as (Hr & _ & Hs).
  split; [done|]. split; [apply (shows_view _ _ _ Hs)|]. split; [apply (shows_wf _ _ _ Hs)|].
  unfold TokenCache.Size, c. rewrite (shows_len _ _ _ Hs). apply token_spec_bounded; cbn; lia.
Qed.

(** [C23] Both caches are bounded LRU caches: any sequence of calls on a new
    cache returns what the recency list of the specification returns, keeps the
    map, the list and the back pointers consistent, and never holds more than
    the configured number of entries (100 clients or 1000 verdicts when the
    configured size is not positive). *)
Theorem caches_refine_lru {JT : JsonText} {client : Type} (n : Z) (t : Duration)
    (cos : list (ClientCache.op client)) (tos : list TokenCache.op) :
  (let max := if n <=? 0 then 100 else n in
   let '(out, c) := ClientCache.runs cos (ClientCache.NewClientCache n) in
   out = (ClientCache.spec_runs max cos []).1 /\ Lru.view c = (ClientCache.spec_runs max cos []).2 /\
   Lru.wf c /\ ClientCache.Size c <= max) /\
  (let max := if n <=? 0 then 1000 else n in
   let ttl := if t <=? 0 then 5 * Tm.Minute else t in
   let '(out, c) := TokenCache.runs tos (TokenCache.NewTokenCache n t) in
   out = (TokenCache.spec_runs max ttl tos []).1 /\ Lru.view (TokenCache.base c) = (TokenCache.spec_runs max ttl tos []).2 /\
   Lru.wf (TokenCache.base c) /\ TokenCache.Size c <= max).
Proof.
  pose proof (client_cache_refines_lru n cos) as Hc. pose proof (token_cache_refines_lru n t tos) as Ht. cbv zeta in *.
  destruct (ClientCache.runs cos _), (TokenCache.runs tos _). by split.
Qed.

(** A verdict served from the token cache is the one of the last [Set] of
    that token with no [Remove] since, and the token was accessed (stored or
    looked up) within the time to live before the lookup. *)
Lemma token_cache_get_recent (n : Z) (t : Duration) (os : list TokenCache.op)
    (now now' : Time) (k : string) (a : bool) (u : string) c' :
  TokenCache.Get now now' k (TokenCache.runs os (TokenCache.NewTokenCache n t)).2
    = ((true, a, u), c') ->
  (history k os (None, [])).1 = Some (a, u) /\
  exists t0, t0 ∈ (history k os (None, [])).2 /\
    Tm.Sub now t0 <= (if t <=? 0 then 5 * Tm.Minute else t).
Proof.
  intros Hg. set (max := if n <=? 0 then 1000 else n).
  destruct (token_runs_shows max os (TokenCache.NewTokenCache n t) [] (shows_New max)) as (_ & Ht & Hs).
  unfold TokenCache.Get in Hg. destruct (Lru.lookup _ k) as [[p e]|] eqn:Hl; [|done].
  pose proof (token_lookup_shows _ _ _ _ _ _ Hs Hl) as Hin.
  apply (explained_runs _ _ os [] (fun _ => (None, []))) in Hin as [H1 H2];
    [|intros ? ? []%elem_of_nil].
  destruct (_ <? _) eqn:Hb; [done|]. cbn in Hg. simplify_eq. split; [done|].
  exists (TokenCache.lastAccess (Lru.val e)). split; [done|]. b2p. by rewrite Ht in Hb.
Qed.

(** Consecutive instants, the first after [t0], at most [d] apart. *)
Fixpoint within (d : Duration) (t0 : Time) (ts : list Time) : Prop :=
  match ts with [] => True | t :: ts => Tm.Sub t t0 <= d /\ within d t ts end.

Lemma sliding_gets max ttl k a u ts : forall t0 l v,
  Lru.assoc k l = Some v -> v = {| TokenCache.authenticated := a; TokenCache.username := u; TokenCache.lastAccess := t0 |} ->
  within ttl t0 ts ->
  (TokenCache.spec_runs max ttl ((fun x => TokenCache.OGet x x k) <$> ts) l).1 =
    replicate (length ts) (true, a, u).
Proof.
  induction ts as [|x ts IH]; intros t0 l v Ha Hv Hw; [done|]. destruct Hw as [Hx Hw].
  cbn [fmap list_fmap TokenCache.spec_runs TokenCache.spec_run].
  rewrite Ha, (proj2 (Z.ltb_ge _ _)) by (by subst v). subst v. cbn.
  match goal with |- context [TokenCache.spec_runs max ttl _ ?l'] => set (l1 := l') end.
  specialize (IH x l1 _ (LruSpec.assoc_head _ _ _) eq_refl Hw).
  destruct (TokenCache.spec_runs max ttl _ l1). cbn in *. by rewrite IH.
Qed.

(** The time to live slides: once a verdict is stored, lookups that follow
    each other within the time to live are all answered from the cache with
    that verdict, however long the sequence lasts. *)
Lemma token_cache_sliding (n : Z) (t : Duration) (t0 : Time) (k : string) (a : bool) (u : string)
    (ts : list Time) :
  within (if t <=? 0 then 5 * Tm.Minute else t) t0 ts ->
  (TokenCache.runs ((fun x => TokenCache.OGet x x k) <$> ts)
     (TokenCache.Set_ t0 k a u (TokenCache.NewTokenCache n t))).1 = replicate (length ts) (true, a, u).
Proof.
  intros Hw. set (max := if n <=? 0 then 1000 else n).
  destruct (token_run_shows max (TokenCache.OSet t0 k a u) (TokenCache.NewTokenCache n t) [] (shows_New max))
    as (_ & Ht & Hs). cbn [TokenCache.run snd] in Ht, Hs.
  destruct (token_runs_shows max ((fun x => TokenCache.OGet x x k) <$> ts) _ _ Hs) as (-> & _ & _).
  rewrite Ht. eapply (sliding_gets _ _ _ _ _ _ t0); [|reflexivity|exact Hw].
  apply LruSpec.assoc_set.
Qed.

(** What the caches serve is current. After any sequence of calls on new
    caches: a cached client is the one of the last [Set] of its key with no
    [Remove] since, and its token has no expiry or has not expired; a cached
    verdict is the one of the last [Set] of its token with no [Remove] since,
    and the token was stored or looked up within the time to live before. *)
Theorem cache_hits_current {JT : JsonText} {client : Type} (n : Z) (t : Duration)
    (cos : list (ClientCache.op client)) (tos : list TokenCache.op) (now now' : Time) (k : string) :
  (forall v c', ClientCache.Get now k (ClientCache.runs cos (ClientCache.NewClientCache n)).2 = (Some v, c') ->
     exists token, last_set k cos None = Some (token, v) /\
       (ClientCache.parseJWTExpiry token = Tm.zero \/ now <= ClientCache.parseJWTExpiry token)) /\
  (forall a u c', TokenCache.Get now now' k (TokenCache.runs tos (TokenCache.NewTokenCache n t)).2 = ((true, a, u), c') ->
     (history k tos (None, [])).1 = Some (a, u) /\
     exists t0, t0 ∈ (history k tos (None, [])).2 /\ Tm.Sub now t0 <= (if t <=? 0 then 5 * Tm.Minute else t)).
Proof.
  split.
  - intros v c'. apply client_cache_get_fresh.
  - intros a u c'. apply token_cache_get_recent.
Qed.

Lemma cache_hits_current_witness :
  (exists token, last_set "k" [ClientCache.OSet "k" "h.e30.s" 7%nat] None = Some (token, 7%nat) /\
     (ClientCache.parseJWTExpiry (JT := exp2000) token = Tm.zero \/
      Tm.OfUnix 1000 <= ClientCache.parseJWTExpiry (JT := exp2000) token)) /\
  (history "k" [TokenCache.OSet (Tm.OfUnix 999) "k" true "bob"] (None, [])).1 = Some (true, "bob").
Proof.
  destruct (cache_hits_current (JT := exp2000) 3 (2 * Tm.Second) [ClientCache.OSet "k" "h.e30.s" 7%nat]
    [TokenCache.OSet (Tm.OfUnix 999) "k" true "bob"] (Tm.OfUnix 1000) (Tm.OfUnix 1000) "k") as [Hc Ht].
  split; [eapply Hc; vm_compute; reflexivity|]. eapply (Ht true "bob"). vm_compute. reflexivity.
Defined.

(** ** Cache keys *)

Lemma makeCacheKey_inj ns sa ns' sa' :
  Strs.free_of ":"%char ns = true -> Strs.free_of ":"%char ns' = true ->
  makeCacheKey ns sa = makeCacheKey ns' sa' -> ns = ns' /\ sa = sa'.
Proof. unfold makeCacheKey. intros H1 H2 Heq. by eapply Strs.free_append_inj. Qed.
