(* ===== verification/K8sTypes.v ===== *)
(** * Kubernetes objects as the code builds and reads them

    The fields of the API types that the repository's code reads or writes.
    The fields it only copies with the rest of a [PodSpec] are kept together
    in [podOther]. The types of [pkg/apis/runtime/v1alpha1] are complete up to
    the status conditions. *)

From stdpp Require Import base list gmap strings.
From S2P Require Import Prelude GoTime SandboxTypes.

Record OwnerReference := {
  or_APIVersion : string; or_Kind : string; or_Name : string; or_UID : string;
  or_Controller : option bool;
}.

Record ObjectMeta := {
  Name : string;
  Namespace : string;
  UID : string;
  Labels : gmap string string;
  Annotations : gmap string string;
  OwnerReferences : list OwnerReference;
  CreationTimestamp : Time;
}.

Definition meta0 : ObjectMeta :=
  {| Name := ""; Namespace := ""; UID := ""; Labels := ∅; Annotations := ∅;
     OwnerReferences := []; CreationTimestamp := Tm.zero |}.

(** [corev1.EnvVar] with a literal value *)
Record EnvVar := { env_Name : string; env_Value : string }.

#[export] Instance EnvVar_eq_dec : EqDecision EnvVar.
Proof. solve_decision. Defined.

Record Container := {
  c_Name : string; c_Image : string; c_ImagePullPolicy : string; c_Env : list EnvVar;
  c_Command : list string; c_Args : list string; c_Resources : gmap string string;
}.

#[export] Instance Container_eq_dec : EqDecision Container.
Proof. solve_decision. Defined.

Record PodSpec := {
  ImagePullSecrets : list string;
  RuntimeClassName : option string;
  Containers : list Container;
  podOther : gmap string string;
}.

(** [reflect.DeepEqual] on pod specifications *)
#[export] Instance PodSpec_eq_dec : EqDecision PodSpec.
Proof. solve_decision. Defined.

Definition podSpec0 : PodSpec :=
  {| ImagePullSecrets := []; RuntimeClassName := None; Containers := []; podOther := ∅ |}.

Definition set_RuntimeClassName (r : option string) (p : PodSpec) : PodSpec :=
  {| ImagePullSecrets := ImagePullSecrets p; RuntimeClassName := r;
     Containers := Containers p; podOther := podOther p |}.

(** [metav1.Condition] *)
Record Condition := { cond_Type : string; cond_Status : string }.

(** [sandboxv1alpha1.Sandbox] *)
Record Sandbox := {
  sb_APIVersion : string;
  sb_Kind : string;
  sb_Meta : ObjectMeta;
  sb_PodSpec : PodSpec;
  sb_PodLabels : gmap string string;
  sb_PodAnnotations : gmap string string;
  sb_ShutdownTime : option Time;
  sb_Replicas : option Z;
  sb_Conditions : list Condition;
}.

(** [extensionsv1alpha1.SandboxClaim] *)
Record SandboxClaim := {
  sc_APIVersion : string;
  sc_Kind : string;
  sc_Meta : ObjectMeta;
  sc_TemplateRef : string;
  sc_StatusSandboxName : string;
}.

Record Pod := { pod_Meta : ObjectMeta; pod_Phase : string; pod_IP : string }.

(** ** [pkg/apis/runtime/v1alpha1] *)

Record TargetPort := { PathPrefix : string; port_Name : string; Port : Z; Protocol : string }.

Definition ProtocolTypeHTTP : string := "HTTP".
Definition ProtocolTypeHTTPS : string := "HTTPS".
Definition AuthModePicoD : string := "picod".
Definition AuthModeNone : string := "none".

Module AR.

Record SandboxTemplate := {
  t_Labels : gmap string string;
  t_Annotations : gmap string string;
  t_Spec : PodSpec;
}.

Record AgentRuntimeSpec := {
  Ports : list TargetPort;
  Template : option SandboxTemplate;   (* a pointer *)
  SessionTimeout : option Duration;
  MaxSessionDuration : option Duration;
}.

Record AgentRuntime := { ar_Meta : ObjectMeta; Spec : AgentRuntimeSpec }.

End AR.

Module CI.

Record CodeInterpreterSandboxTemplate := {
  t_Labels : gmap string string;
  t_Annotations : gmap string string;
  t_RuntimeClassName : option string;
  Image : string;
  ImagePullPolicy : string;
  t_ImagePullSecrets : list string;
  Environment : list EnvVar;
  Command : list string;
  Args : list string;
  Resources : gmap string string;
}.

Record CodeInterpreterSpec := {
  Ports : list TargetPort;
  Template : option CodeInterpreterSandboxTemplate;   (* a pointer *)
  SessionTimeout : option Duration;
  MaxSessionDuration : option Duration;
  WarmPoolSize : option Z;
  AuthMode : string;
}.

(** [metav1.Condition] without its transition time *)
Record StatusCondition := {
  st_Type : string; st_Status : string; st_Reason : string; st_Message : string;
  ObservedGeneration : Z;
}.

Record CodeInterpreterStatus := { Ready : bool; Conditions : list StatusCondition }.

Record CodeInterpreter := {
  ci_Meta : ObjectMeta; Generation : Z; Spec : CodeInterpreterSpec; Status : CodeInterpreterStatus;
}.

End CI.
