(* ===== verification/Cluster.v ===== *)
(** * The environment of the workload manager

    [Env] is what the handlers observe of the Go runtime: the clock, random
    numbers, and the outcome of a [select] between a context and a timer.
    [Cluster] is the Kubernetes API and the network. Both act on a world [W]
    that other processes change as well, so every call returns a new world. *)

From stdpp Require Import base list gmap strings.
From S2P Require Import Prelude GoTime GoError GoContext SandboxTypes K8sTypes.

(** What a receive on a readiness channel, raced with the request context and
    a timer, can yield: the sandbox pointer that was sent, the channel closed,
    the context done, the timer fired. *)
Inductive ready_event :=
  | GotUpdate (sandbox : option Sandbox)
  | ChanClosed
  | CtxDone
  | TimerFired.

Class Env (W : Type) := {
  clock : W -> Time;                              (* time.Now() *)
  Intn : Z -> W -> Z * W;                         (* rand.Intn(n) *)
  NewUUID : W -> string * W;                      (* uuid.New().String() *)
  (** [select { case <-ctx.Done(): false; case <-timer(t): true }] *)
  select_timer : Ctx.Context -> Time -> W -> bool * W;
  (** [select { case <-ctx.Done(): false; case <-time.After(d): true }] *)
  select_after : Ctx.Context -> Duration -> W -> bool * W;
  (** [select] on a readiness channel, the context and a timer at [t] *)
  select_ready : nat -> Ctx.Context -> Time -> W -> ready_event * W;
}.

(** A client of the API server: the service's own, or one made for a token. *)
Class Cluster (D W : Type) := {
  own_client : D;
  SandboxPodNameAnnotation : string;
  dynamicNewForConfig : string -> res D;
  toUnstructured_sandbox : Sandbox -> option goerr;
  toUnstructured_claim : SandboxClaim -> option goerr;
  api_createSandbox : D -> Ctx.Context -> Sandbox -> W -> res Sandbox * W;
  (** the inner result is the conversion from the unstructured object *)
  api_getSandbox : D -> Ctx.Context -> string -> string -> W -> res (res Sandbox) * W;
  api_deleteSandbox : D -> Ctx.Context -> string -> string -> W -> option goerr * W;
  api_createClaim : D -> Ctx.Context -> SandboxClaim -> W -> res SandboxClaim * W;
  api_getClaim : D -> Ctx.Context -> string -> string -> W -> res (res SandboxClaim) * W;
  api_deleteClaim : D -> Ctx.Context -> string -> string -> W -> option goerr * W;
  api_getPod : Ctx.Context -> string -> string -> W -> res Pod * W;
  lister_pods : string -> string -> string -> W -> res (list Pod);
  lister_agentRuntime : string -> string -> W -> res AR.AgentRuntime;
  lister_codeInterpreter : string -> string -> W -> res CI.CodeInterpreter;
  api_reviewToken : Ctx.Context -> string -> W -> res (bool * string) * W;
  (** [net.Dialer.DialContext] with a timeout; a connection is represented by
      the outcome of closing it *)
  dial : Ctx.Context -> string -> Duration -> W -> res (option goerr) * W;
}.

(** Registration of readiness watchers with the sandbox controller, as the
    handlers use it. *)
Class Watchers (W : Type) := {
  WatchSandboxOnce : string -> string -> W -> nat * W;
  UnWatchSandbox : string -> string -> W -> W;
}.

(** The documented behaviour of the runtime: the clock does not go back; a
    fired timer is due; a done context has ended; [rand.Intn] is in range. *)
Class EnvLaws (W : Type) `{!Env W} : Prop := {
  clock_timer ctx t w : clock w <= clock (select_timer ctx t w).2;
  clock_ready ch ctx t w : clock w <= clock (select_ready ch ctx t w).2;
  timer_due ctx t w w' : select_timer ctx t w = (true, w') -> t <= clock w';
  timer_done ctx t w w' : select_timer ctx t w = (false, w') -> Ctx.Err ctx (clock w') <> None;
  after_due ctx d w w' : select_after ctx d w = (true, w') -> clock w + d <= clock w';
  after_done ctx d w w' : select_after ctx d w = (false, w') -> Ctx.Err ctx (clock w') <> None;
  (** a context that is already done wins over a timer that is not due yet *)
  after_ctx_first ctx d w :
    Ctx.Err ctx (clock w) <> None -> 0 < d -> (select_after ctx d w).1 = false;
  ready_done ch ctx t w w' : select_ready ch ctx t w = (CtxDone, w') -> Ctx.Err ctx (clock w') <> None;
  ready_due ch ctx t w w' : select_ready ch ctx t w = (TimerFired, w') -> t <= clock w';
  Intn_range n w : 0 < n -> 0 <= (Intn n w).1 < n;
}.

(** A predicate of the world that no call of these interfaces affects; the
    session store's contents are one, as neither the API server nor the
    runtime writes to it. *)
Class Stable (D W : Type) `{!Env W} `{!Cluster D W} `{!Watchers W} (P : W -> Prop) : Prop := {
  stable_Intn n w : P w -> P (Intn n w).2;
  stable_UUID w : P w -> P (NewUUID w).2;
  stable_timer ctx t w : P w -> P (select_timer ctx t w).2;
  stable_after ctx d w : P w -> P (select_after ctx d w).2;
  stable_ready ch ctx t w : P w -> P (select_ready ch ctx t w).2;
  stable_createSandbox d ctx s w : P w -> P (api_createSandbox d ctx s w).2;
  stable_getSandbox (d : D) ctx ns n w : P w -> P (api_getSandbox d ctx ns n w).2;
  stable_deleteSandbox (d : D) ctx ns n w : P w -> P (api_deleteSandbox d ctx ns n w).2;
  stable_createClaim d ctx s w : P w -> P (api_createClaim d ctx s w).2;
  stable_getClaim (d : D) ctx ns n w : P w -> P (api_getClaim d ctx ns n w).2;
  stable_deleteClaim (d : D) ctx ns n w : P w -> P (api_deleteClaim d ctx ns n w).2;
  stable_getPod ctx ns n w : P w -> P (api_getPod ctx ns n w).2;
  stable_review ctx t w : P w -> P (api_reviewToken ctx t w).2;
  stable_dial ctx e t w : P w -> P (dial ctx e t w).2;
  stable_watch ns n w : P w -> P (WatchSandboxOnce ns n w).2;
  stable_unwatch ns n w : P w -> P (UnWatchSandbox ns n w);
}.

(** What the API server promises about the objects it holds, [present] being
    "exists and is not marked for deletion": a delete that succeeds, or reports
    not-found, leaves no such object. *)
Inductive objkey := SandboxObj (ns name : string) | ClaimObj (ns name : string).

Class ClusterView (D W : Type) `{!Cluster D W} `{!ApiErrors} (present : W -> objkey -> Prop) : Prop := {
  delete_sandbox_gone d ctx ns n w r w' :
    api_deleteSandbox d ctx ns n w = (r, w') ->
    (r = None \/ exists e, r = Some e /\ IsNotFound e = true) -> ~ present w' (SandboxObj ns n);
  delete_claim_gone d ctx ns n w r w' :
    api_deleteClaim d ctx ns n w = (r, w') ->
    (r = None \/ exists e, r = Some e /\ IsNotFound e = true) -> ~ present w' (ClaimObj ns n);
}.
