(* ===== verification/WorldModel.v ===== *)
(** * A concrete world

    A small deterministic cluster with a key-value server, used to evaluate
    statements that are proved for every world: objects are maps, creation
    makes a sandbox ready at once, unknown tokens are refused, endpoints in
    [w_down] do not accept connections. *)

From stdpp Require Import base list gmap strings.
From S2P Require Import Prelude GoStrings GoTime GoError GoContext SandboxTypes K8sTypes Cluster KVServer RedisStore ValkeyStore StoreSpec StoreRefinement StoreInstances CodecModel.

Module WM.
Import ApiModel CodecModel.CodecModel.

Record world := {
  w_kv : keyspace;
  w_clock : Time;
  w_next : nat;
  w_sandboxes : gmap (string * string) Sandbox;
  w_claims : gmap (string * string) SandboxClaim;
  w_pods : gmap (string * string) Pod;
  w_ars : gmap (string * string) AR.AgentRuntime;
  w_cis : gmap (string * string) CI.CodeInterpreter;
  w_users : gmap string string;
  w_down : list string;
  w_chans : gmap nat (string * string);
}.

Definition world0 : world :=
  {| w_kv := ∅; w_clock := Tm.OfUnix 1700000000; w_next := 0; w_sandboxes := ∅; w_claims := ∅; w_pods := ∅;
     w_ars := ∅; w_cis := ∅; w_users := ∅; w_down := []; w_chans := ∅ |}.

Definition set_kv (k : keyspace) (w : world) : world :=
  {| w_kv := k; w_clock := w_clock w; w_next := w_next w; w_sandboxes := w_sandboxes w;
     w_claims := w_claims w; w_pods := w_pods w; w_ars := w_ars w; w_cis := w_cis w;
     w_users := w_users w; w_down := w_down w; w_chans := w_chans w |}.
Definition set_clock (t : Time) (w : world) : world :=
  {| w_kv := w_kv w; w_clock := t; w_next := w_next w; w_sandboxes := w_sandboxes w;
     w_claims := w_claims w; w_pods := w_pods w; w_ars := w_ars w; w_cis := w_cis w;
     w_users := w_users w; w_down := w_down w; w_chans := w_chans w |}.
Definition set_next (n : nat) (w : world) : world :=
  {| w_kv := w_kv w; w_clock := w_clock w; w_next := n; w_sandboxes := w_sandboxes w;
     w_claims := w_claims w; w_pods := w_pods w; w_ars := w_ars w; w_cis := w_cis w;
     w_users := w_users w; w_down := w_down w; w_chans := w_chans w |}.
Definition set_sandboxes m (w : world) : world :=
  {| w_kv := w_kv w; w_clock := w_clock w; w_next := w_next w; w_sandboxes := m;
     w_claims := w_claims w; w_pods := w_pods w; w_ars := w_ars w; w_cis := w_cis w;
     w_users := w_users w; w_down := w_down w; w_chans := w_chans w |}.
Definition set_claims m (w : world) : world :=
  {| w_kv := w_kv w; w_clock := w_clock w; w_next := w_next w; w_sandboxes := w_sandboxes w;
     w_claims := m; w_pods := w_pods w; w_ars := w_ars w; w_cis := w_cis w;
     w_users := w_users w; w_down := w_down w; w_chans := w_chans w |}.
Definition set_pods m (w : world) : world :=
  {| w_kv := w_kv w; w_clock := w_clock w; w_next := w_next w; w_sandboxes := w_sandboxes w;
     w_claims := w_claims w; w_pods := m; w_ars := w_ars w; w_cis := w_cis w;
     w_users := w_users w; w_down := w_down w; w_chans := w_chans w |}.
Definition set_chans m (w : world) : world :=
  {| w_kv := w_kv w; w_clock := w_clock w; w_next := w_next w; w_sandboxes := w_sandboxes w;
     w_claims := w_claims w; w_pods := w_pods w; w_ars := w_ars w; w_cis := w_cis w;
     w_users := w_users w; w_down := w_down w; w_chans := m |}.

(** Whether a context ends before an instant. *)
Definition ends_before (ctx : Ctx.Context) (t : Time) : option Time :=
  match Ctx.ends ctx with
  | Some e => if e <? t then Some e else None
  | None => None
  end.

#[export] Instance env : Env world := {
  clock := w_clock;
  Intn n w := (0, w);
  NewUUID w := ("uuid-" +:+ Strs.Itoa (Z.of_nat (w_next w)), set_next (S (w_next w)) w);
  select_timer ctx t w :=
    match ends_before ctx (Z.max t (w_clock w)) with
    | Some e => (false, set_clock (Z.max e (w_clock w)) w)
    | None => (true, set_clock (Z.max t (w_clock w)) w)
    end;
  select_after ctx d w :=
    match ends_before ctx (w_clock w + d) with
    | Some e => (false, set_clock (Z.max e (w_clock w)) w)
    | None => (true, set_clock (Z.max (w_clock w + d) (w_clock w)) w)
    end;
  select_ready ch ctx t w :=
    match w_chans w !! ch ≫= fun k => w_sandboxes w !! k with
    | Some s => (GotUpdate (Some s), w)
    | None =>
        match ends_before ctx (Z.max t (w_clock w)) with
        | Some e => (CtxDone, set_clock (Z.max e (w_clock w)) w)
        | None => (TimerFired, set_clock (Z.max t (w_clock w)) w)
        end
    end;
}.

Definition ready : Condition := {| cond_Type := "Ready"; cond_Status := "True" |}.

Definition make_ready (s : Sandbox) : Sandbox :=
  {| sb_APIVersion := sb_APIVersion s; sb_Kind := sb_Kind s;
     sb_Meta := sb_Meta s; sb_PodSpec := sb_PodSpec s; sb_PodLabels := sb_PodLabels s;
     sb_PodAnnotations := sb_PodAnnotations s; sb_ShutdownTime := sb_ShutdownTime s;
     sb_Replicas := sb_Replicas s; sb_Conditions := [ready] |}.

Definition not_found : goerr := EStatus (NewNotFound {| Group := ""; Resource := "objects" |} "x").

Definition running (m : ObjectMeta) : Pod :=
  {| pod_Meta := m; pod_Phase := "Running"; pod_IP := "10.0.0.1" |}.

Definition lookup_res {A} (o : option A) : res A :=
  match o with Some a => Ok a | None => Err not_found end.

Definition key (m : ObjectMeta) : string * string := (Namespace m, Name m).

#[export] Instance cluster : Cluster string world := {
  own_client := "";
  SandboxPodNameAnnotation := "agents.x-k8s.io/pod-name";
  dynamicNewForConfig token := Ok token;
  toUnstructured_sandbox _ := None;
  toUnstructured_claim _ := None;
  api_createSandbox _ _ s w :=
    (Ok s, set_pods (<[key (sb_Meta s) := running (sb_Meta s)]> (w_pods w))
             (set_sandboxes (<[key (sb_Meta s) := make_ready s]> (w_sandboxes w)) w));
  api_getSandbox _ _ ns n w := (lookup_res (Ok <$> w_sandboxes w !! (ns, n)), w);
  api_deleteSandbox _ _ ns n w :=
    match w_sandboxes w !! (ns, n) with
    | Some _ => (None, set_sandboxes (delete (ns, n) (w_sandboxes w)) w)
    | None => (Some not_found, w)
    end;
  api_createClaim _ _ s w := (Ok s, set_claims (<[key (sc_Meta s) := s]> (w_claims w)) w);
  api_getClaim _ _ ns n w := (lookup_res (Ok <$> w_claims w !! (ns, n)), w);
  api_deleteClaim _ _ ns n w :=
    match w_claims w !! (ns, n) with
    | Some _ => (None, set_claims (delete (ns, n) (w_claims w)) w)
    | None => (Some not_found, w)
    end;
  api_getPod _ ns n w := (lookup_res (w_pods w !! (ns, n)), w);
  lister_pods ns k v w :=
    Ok (filter (fun p => Labels (pod_Meta p) !! k = Some v /\ Namespace (pod_Meta p) = ns)
          (map_to_list (w_pods w)).*2);
  lister_agentRuntime ns n w := lookup_res (w_ars w !! (ns, n));
  lister_codeInterpreter ns n w := lookup_res (w_cis w !! (ns, n));
  api_reviewToken _ t w :=
    match w_users w !! t with Some u => (Ok (true, u), w) | None => (Ok (false, ""), w) end;
  dial _ e _ w := (if decide (e ∈ w_down w) then Err (EText "connection refused") else Ok None, w);
}.

#[export] Instance watchers : Watchers world := {
  WatchSandboxOnce ns n w := (w_next w, set_next (S (w_next w)) (set_chans (<[w_next w := (ns, n)]> (w_chans w)) w));
  UnWatchSandbox _ _ w := w;
}.

#[export] Instance laws : EnvLaws world.
Proof.
  split; cbn; intros; unfold ends_before in *.
  - repeat case_match; cbn; lia.
  - destruct (_ ≫= _); cbn; [lia|]. repeat case_match; cbn; lia.
  - repeat case_match; simplify_eq; cbn; lia.
  - unfold Ctx.Err. destruct (Ctx.ends ctx) as [e|]; [|done].
    destruct (e <? _); [|done]. simplify_eq. cbn. by rewrite (proj2 (Z.leb_le _ _)) by lia.
  - repeat case_match; simplify_eq; cbn; lia.
  - unfold Ctx.Err. destruct (Ctx.ends ctx) as [e|]; [|done].
    destruct (e <? _); [|done]. simplify_eq. cbn. by rewrite (proj2 (Z.leb_le _ _)) by lia.
  - unfold Ctx.Err in *. destruct (Ctx.ends ctx) as [e|]; [|done].
    destruct (Z.leb_spec e (w_clock w)); [|done]. by rewrite (proj2 (Z.ltb_lt _ _)) by lia.
  - destruct (_ ≫= _); [done|]. unfold Ctx.Err. destruct (Ctx.ends ctx) as [e|]; [|done].
    destruct (e <? _); [|done]. simplify_eq. cbn. by rewrite (proj2 (Z.leb_le _ _)) by lia.
  - destruct (_ ≫= _); [done|]. repeat case_match; simplify_eq; cbn; lia.
  - lia.
Qed.

(** ** The session store of the world *)

#[export] Instance store : Store world :=
  lift_store (redis_store (KVServer0 := KVModel.server)) w_kv set_kv.

Definition rep (w : world) (g : registry) : Prop :=
  represents (KVServer0 := KVModel.server) (w_kv w) g.

#[export] Instance store_laws : StoreLaws world rep.
Proof.
  apply (lift_laws _ w_kv set_kv represents); [done|].
  apply (redis_laws (KVLaws0 := KVModel.laws)).
Qed.

#[export] Instance exact_store : StoreExact world rep.
Proof.
  apply (lift_exact _ w_kv set_kv represents); [done|].
  apply (redis_exact (KVLaws0 := KVModel.laws) (KVReliable0 := KVModel.reliable)).
Qed.

(** No call turns the clock back. *)
#[export] Instance stable_clock (t : Time) : Stable string world (fun w => t <= clock w).
Proof.
  split; intros; cbn in *; unfold ends_before; try done.
  all: repeat (case_match; cbn in *); try done; lia.
Qed.

(** The store contents are stable. *)
#[export] Instance stable_kv (P : keyspace -> Prop) : Stable string world (fun w => P (w_kv w)).
Proof. split; intros; cbn; repeat (case_match; cbn); done. Qed.

#[export] Instance stable_rep g : Stable string world (fun w => rep w g).
Proof. apply (stable_kv (fun k => represents (KVServer0 := KVModel.server) k g)). Qed.

Definition present (w : world) (k : objkey) : Prop :=
  match k with
  | SandboxObj ns n => is_Some (w_sandboxes w !! (ns, n))
  | ClaimObj ns n => is_Some (w_claims w !! (ns, n))
  end.

#[export] Instance view : ClusterView string world present.
Proof.
  split; cbn; intros d ctx ns n w r w' Hr _; destruct (_ !! _) eqn:Hl; simplify_eq; cbn;
    rewrite ?lookup_delete_eq, ?Hl; intros [? ?]; done.
Qed.

End WM.
