(* ===== verification/WmAuth.v ===== *)
(** * Authentication in the workload manager

    [pkg/workloadmanager/auth.go] (service account tokens) and
    [pkg/workloadmanager/identity.go] (the identity token the router signs).
    PEM and X.509 parsing and [golang-jwt] are classes with what the code
    relies on as laws. *)

From Stdlib Require Import Ascii.
From stdpp Require Import base list gmap strings.
From S2P Require Import Prelude GoStrings GoTime GoError GoContext GoHttp GoEncoding Sha256 Lru Caches K8sTypes Cluster.

(** ** Keys and tokens *)

(** What [x509.ParsePKIXPublicKey] yields: an RSA key or another kind. *)
Inductive PublicKey (K : Type) := RSAKey (k : K) | OtherKey.
Arguments RSAKey {K}. Arguments OtherKey {K}.

Class KeyFormats (K : Type) := {
  pem_Decode : string -> option string;
  ParsePKIXPublicKey : string -> res (PublicKey K);
}.

(** [jwt.Parse(raw, keyfunc, WithValidMethods(ms), WithExpirationRequired())]
    at a given instant; the claims are a JSON object ([jwt.MapClaims]). *)
Class JwtLib (K : Type) := {
  jwt_Parse : K -> list string -> Time -> string -> res (list (string * json));
  (** the token is a JWS of these claims by the holder of the key *)
  jwt_signed : K -> string -> string -> list (string * json) -> Prop;
}.

(** A token that parses is signed with an accepted method and unexpired. *)
Class JwtLaws (K : Type) `{!JwtLib K} : Prop := {
  jwt_Parse_sound k ms now raw claims :
    jwt_Parse k ms now raw = Ok claims ->
    exists m, m ∈ ms /\ jwt_signed k m raw claims /\
      exists x e, obj_get "exp" claims = Some (JNum x e) /\
        now < Tm.OfUnix (float_to_int64 (x, e));
  (** errors of a library do not wrap the sentinels of its callers *)
  jwt_Parse_foreign k ms now raw e :
    jwt_Parse k ms now raw = Err e -> Is e ErrNoIdentityHeader = false /\ Is e ErrPublicKeyNotCached = false;
}.

Class KeyFormatLaws (K : Type) `{!KeyFormats K} : Prop := {
  ParsePKIX_foreign b e :
    ParsePKIXPublicKey b = Err e -> Is e ErrNoIdentityHeader = false /\ Is e ErrPublicKeyNotCached = false;
}.

(** ** [identity.go] *)

Module Identity.
Section identity.
Context {K : Type} `{!KeyFormats K} `{!JwtLib K}.

Definition identityJWTHeader : string := "X-AgentCube-User-Identity".

Definition verifyIdentityJWT (now : Time) (publicKeyPEM rawToken : string) : res string :=
  match pem_Decode publicKeyPEM with
  | None => Err (EText "failed to decode public key PEM")
  | Some block =>
      match ParsePKIXPublicKey block with
      | Err e => Err (Wrapf "failed to parse public key" e)
      | Ok OtherKey => Err (EText "public key is not RSA")
      | Ok (RSAKey rsaPub) =>
          match jwt_Parse rsaPub ["RS256"] now rawToken with
          | Err e => Err (Wrapf "token verification failed" e)
          | Ok claims =>
              let aud := as_string (obj_get "aud" claims) in
              if negb (String.eqb aud "workloadmanager")
              then Err (EText ("invalid audience: " +:+ Strs.Quote aud))
              else
                let sub := as_string (obj_get "sub" claims) in
                if String.eqb sub "" then Err (EText "missing sub claim") else Ok sub
          end
      end
  end.

(** [cachedKey] is the package variable [cachedPublicKey]. *)
Definition extractOwnerID (now : Time) (cachedKey : string) (h : Header) : res string :=
  let rawToken := Hdr.Get identityJWTHeader h in
  if String.eqb rawToken "" then Err (ESent ErrNoIdentityHeader)
  else if String.eqb cachedKey "" then Err (ESent ErrPublicKeyNotCached)
  else
    match verifyIdentityJWT now cachedKey rawToken with
    | Err e => Err (EJoin (ESent ErrVerificationFailed) e)
    | Ok sub => Ok sub
    end.

Definition sha256Short (s : string) : string :=
  String.substring 0 63 (Sha256.hex (Sha256.Sum256 s)).

(** [(ownerID, statusCode, errMsg)], from [handlers.go] *)
Definition resolveSandboxOwnerID (now : Time) (cachedKey : string) (h : Header) : string * Z * string :=
  match extractOwnerID now cachedKey h with
  | Ok ownerID => (ownerID, 0, "")
  | Err e =>
      if Is e ErrNoIdentityHeader then ("", 0, "")
      else if Is e ErrPublicKeyNotCached
      then ("", StatusServiceUnavailable, "identity verifier not ready")
      else ("", StatusUnauthorized, "invalid identity token")
  end.

End identity.
End Identity.

(** ** [auth.go] *)

Module WmAuth.

(** The four context values [authMiddleware] stores. *)
Record UserInfo := {
  userToken : string; userNamespace : string;
  serviceAccount : string; serviceAccountName : string;
}.

Definition noUser : UserInfo :=
  {| userToken := ""; userNamespace := ""; serviceAccount := ""; serviceAccountName := "" |}.

Inductive verdict := Next (ctx : option UserInfo) | Aborted (code : Z) (msg : string).

Section auth.
Context {D W : Type} `{!Env W} `{!Cluster D W}.
Implicit Types (w : W) (tc : TokenCache.cache).

Definition validateServiceAccountToken (ctx : Ctx.Context) (token : string) tc w
    : res (bool * string) * TokenCache.cache * W :=
  let '(found, authenticated, username, tc) :=
    let '(r, tc) := TokenCache.Get (clock w) (clock w) token tc in (r, tc) in
  if found then
    (Ok (if authenticated then (true, username) else (false, "")), tc, w)
  else
    let '(result, w) := api_reviewToken ctx token w in
    match result with
    | Err e => (Err (Wrapf "failed to review token" e), tc, w)
    | Ok (auth, user) =>
        let username := if auth then user else "" in
        let tc := TokenCache.Set_ (clock w) token auth username tc in
        (Ok (if auth then (true, username) else (false, "")), tc, w)
    end.

(** The parts of [system:serviceaccount:<namespace>:<name>] *)
Definition parseServiceAccount (s : string) : option (string * string) :=
  match Strs.Split ":"%char s with
  | [a; b; namespace; name] =>
      if String.eqb a "system" && String.eqb b "serviceaccount"
      then Some (namespace, name) else None
  | _ => None
  end.

Definition authMiddleware (enableAuth : bool) (ctx : Ctx.Context) (h : Header) tc w
    : verdict * TokenCache.cache * W :=
  if negb enableAuth then (Next None, tc, w)
  else
    let authHeader := Hdr.Get "Authorization" h in
    if String.eqb authHeader "" then
      (Aborted StatusUnauthorized "Missing authorization header", tc, w)
    else
      match Strs.Fields authHeader with
      | [scheme; token] =>
          if negb (String.eqb scheme "Bearer") then
            (Aborted StatusUnauthorized "Invalid authorization header format", tc, w)
          else
            let '(r, tc, w) := validateServiceAccountToken ctx token tc w in
            match r with
            | Err _ => (Aborted StatusUnauthorized "Token validation failed", tc, w)
            | Ok (false, _) => (Aborted StatusUnauthorized "Invalid or expired token", tc, w)
            | Ok (true, sa) =>
                match parseServiceAccount sa with
                | None => (Aborted StatusUnauthorized "Invalid service account format", tc, w)
                | Some (ns, name) =>
                    (Next (Some {| userToken := token; userNamespace := ns;
                                   serviceAccount := sa; serviceAccountName := name |}), tc, w)
                end
            end
      | _ => (Aborted StatusUnauthorized "Invalid authorization header format", tc, w)
      end.

Definition extractUserInfo (ctx : option UserInfo) : UserInfo := default noUser ctx.

End auth.
End WmAuth.
