(* ===== verification/WmAuthTheorems.v ===== *)
(** * Properties of the workload manager's authentication *)

From Stdlib Require Import Ascii.
From stdpp Require Import base list gmap strings.
From S2P Require Import Prelude GoStrings GoTime GoError GoContext GoHttp GoEncoding Sha256 Lru Caches CacheTheorems K8sTypes Cluster WorldModel WmAuth.

(** ** Service account names *)

Definition colon : ascii := ":"%char.

Lemma parseServiceAccount_inv s ns name :
  WmAuth.parseServiceAccount s = Some (ns, name) ->
  s = "system:serviceaccount:" +:+ ns +:+ ":" +:+ name /\
  Strs.free_of colon ns = true /\ Strs.free_of colon name = true.
Proof.
  unfold WmAuth.parseServiceAccount. pose proof (Strs.Join_Split colon s) as Hj.
  pose proof (Strs.Split_free colon s) as Hf. change ":"%char with colon.
  destruct (Strs.Split colon s) as [|a [|b [|c [|d [|]]]]] eqn:Hs; try done.
  destruct (String.eqb_spec a "system") as [->|]; [|done].
  destruct (String.eqb_spec b "serviceaccount") as [->|]; [|done].
  cbn [andb]. intros [= <- <-]. rewrite <- Hj. split; [done|].
  repeat match goal with H : Forall _ (_ :: _) |- _ => apply Forall_cons in H as [? ?] end. done.
Qed.

Lemma parseServiceAccount_ok ns name :
  Strs.free_of colon ns = true -> Strs.free_of colon name = true ->
  WmAuth.parseServiceAccount ("system:serviceaccount:" +:+ ns +:+ ":" +:+ name) = Some (ns, name).
Proof.
  intros Hn Hm. unfold WmAuth.parseServiceAccount.
  assert ("system:serviceaccount:" +:+ ns +:+ ":" +:+ name =
    "system" +:+ String colon ("serviceaccount" +:+ String colon (ns +:+ String colon name))) as -> by done.
  fold colon. rewrite !Strs.Split_app by done. by rewrite Strs.Split_self.
Qed.

(** ** Token validation

    [P token a u]: the API server's review of [token] may answer
    authenticated [a] for user [u]. *)

Section validation.
Context {D W : Type} `{!Env W} `{!Cluster D W}.
Context (P : string -> bool -> string -> Prop).

(** Every cached verdict is one the API server gave. *)
Definition cache_sound (tc : TokenCache.cache) : Prop :=
  Lru.wf (TokenCache.base tc) /\
  forall k v, (k, v) ∈ Lru.view (TokenCache.base tc) ->
    P k (TokenCache.authenticated v) (TokenCache.username v).

Lemma cache_sound_shows tc :
  cache_sound tc -> shows (Lru.maxSize (TokenCache.base tc)) (TokenCache.base tc) (Lru.view (TokenCache.base tc)).
Proof. intros [Hw _]. by split. Qed.

Lemma cache_sound_New n t : cache_sound (TokenCache.NewTokenCache n t).
Proof. split; [apply Lru.wf_empty|]. intros k v []%elem_of_nil. Qed.

Lemma cache_sound_Get now now' k tc r tc' :
  cache_sound tc -> TokenCache.Get now now' k tc = (r, tc') ->
  cache_sound tc' /\ (r.1.1 = true -> P k r.1.2 r.2).
Proof.
  intros Hs Hg. pose proof (cache_sound_shows _ Hs) as Hsh. destruct Hs as [Hw Hp].
  destruct (token_run_shows _ (TokenCache.OGet now now' k) tc _ Hsh) as (Hr & _ & Hsh').
  cbn [TokenCache.run] in Hr, Hsh'. rewrite Hg in Hr, Hsh'. cbn [fst snd] in *.
  split.
  - split; [apply (shows_wf _ _ _ Hsh')|]. rewrite (shows_view _ _ _ Hsh'). cbn.
    destruct (Lru.assoc k _) as [v0|] eqn:Ha; [|done]. apply Lru.assoc_Some in Ha.
    destruct (_ <? _); cbn; intros k' v Hin.
    + apply LruSpec.elem_of_erase in Hin as [Hin _]. by apply Hp.
    + apply elem_of_cons in Hin as [[= -> ->]|[Hin _]%LruSpec.elem_of_erase]; [|by apply Hp].
      by apply (Hp _ _ Ha).
  - subst r. cbn. destruct (Lru.assoc k _) as [v0|] eqn:Ha; [|done].
    apply Lru.assoc_Some in Ha. destruct (_ <? _); [done|]. intros _. by apply (Hp _ _ Ha).
Qed.

Lemma cache_sound_Set now k a u tc :
  cache_sound tc -> P k a u -> cache_sound (TokenCache.Set_ now k a u tc).
Proof.
  intros Hs HP. pose proof (cache_sound_shows _ Hs) as Hsh. destruct Hs as [Hw Hp].
  destruct (token_run_shows _ (TokenCache.OSet now k a u) tc _ Hsh) as (_ & _ & Hsh').
  cbn [TokenCache.run snd] in Hsh'. split; [apply (shows_wf _ _ _ Hsh')|].
  rewrite (shows_view _ _ _ Hsh'). cbn. intros k' v [[= -> ->]|[Hin _]]%LruSpec.elem_of_set; [done|by apply Hp].
Qed.

Lemma validate_sound ctx token tc w r tc' w' :
  (forall w a u w', api_reviewToken (D := D) ctx token w = (Ok (a, u), w') ->
    P token a (if a then u else "")) ->
  cache_sound tc -> WmAuth.validateServiceAccountToken (D := D) ctx token tc w = (r, tc', w') ->
  cache_sound tc' /\ forall u, r = Ok (true, u) -> P token true u.
Proof.
  intros HP Hs Hv. unfold WmAuth.validateServiceAccountToken in Hv.
  destruct (TokenCache.Get (clock w) (clock w) token tc) as [[[found auth] user] tc1] eqn:Hg.
  destruct (cache_sound_Get _ _ _ _ _ _ Hs Hg) as [Hs1 Hp1]. cbn in Hp1.
  destruct found.
  - simplify_eq. split; [done|]. intros u Hu. destruct auth; simplify_eq. by apply Hp1.
  - destruct (api_reviewToken ctx token w) as [[[auth' user']|e] w1] eqn:Hrev; simplify_eq.
    + apply HP in Hrev. split; [by apply cache_sound_Set|]. intros u Hu. by destruct auth'; simplify_eq.
    + by split.
Qed.

End validation.

(** With authentication enabled, a request passes only with a bearer token
    that the TokenReview API accepted, now or when the cached verdict was
    stored, for a user of the form system:serviceaccount:ns:name; the handler
    then sees exactly that token, namespace and name. [P] is any property of
    the review's answers; cached verdicts keep it. *)
Lemma auth_accepts_reviewed {D W : Type} `{!Env W} `{!Cluster D W}
    (P : string -> bool -> string -> Prop) (ctx : Ctx.Context) (h : Header)
    (tc tc' : TokenCache.cache) (w w' : W) (v : WmAuth.verdict) :
  (forall ctx t w a u w', api_reviewToken (D := D) ctx t w = (Ok (a, u), w') -> P t a (if a then u else "")) ->
  cache_sound P tc ->
  WmAuth.authMiddleware (D := D) true ctx h tc w = (v, tc', w') ->
  cache_sound P tc' /\
  (v = WmAuth.Next None -> False) /\
  forall u, v = WmAuth.Next (Some u) ->
    Strs.Fields (Hdr.Get "Authorization" h) = ["Bearer"; WmAuth.userToken u] /\
    P (WmAuth.userToken u) true (WmAuth.serviceAccount u) /\
    WmAuth.serviceAccount u =
      "system:serviceaccount:" +:+ WmAuth.userNamespace u +:+ ":" +:+ WmAuth.serviceAccountName u /\
    Strs.free_of colon (WmAuth.userNamespace u) = true /\
    Strs.free_of colon (WmAuth.serviceAccountName u) = true.
Proof.
  intros HP Hs Ha. unfold WmAuth.authMiddleware in Ha. cbn [negb] in Ha.
  destruct (String.eqb (Hdr.Get "Authorization" h) ""); [by (simplify_eq; split_and!)|].
  destruct (Strs.Fields (Hdr.Get "Authorization" h)) as [|scheme [|token [|]]]; try by (simplify_eq; split_and!).
  destruct (String.eqb_spec scheme "Bearer") as [->|]; [|by (cbn [negb] in Ha; simplify_eq; split_and!)]. cbn [negb] in Ha.
  destruct (WmAuth.validateServiceAccountToken ctx token tc w) as [[r tc1] w1] eqn:Hv.
  destruct (validate_sound P ctx token tc w r tc1 w1 (HP ctx token) Hs Hv) as [Hs1 Hr].
  destruct r as [[[] sa]|e]; [|by (simplify_eq; split_and!)..].
  destruct (WmAuth.parseServiceAccount sa) as [[ns name]|] eqn:Hp; simplify_eq; [|by split_and!].
  apply parseServiceAccount_inv in Hp as (Hsa & Hn & Hm). split_and!; [done..|].
  intros u [= <-]. cbn. by split_and!; [|apply Hr| | |].
Qed.

(** ** A concrete request *)

Import WM.

Definition world_bob : world :=
  {| w_kv := ∅; w_clock := 0; w_next := 0; w_sandboxes := ∅; w_claims := ∅; w_pods := ∅; w_ars := ∅; w_cis := ∅;
     w_users := <["tok" := "system:serviceaccount:ns:bob"]> ∅; w_down := []; w_chans := ∅ |}.

(** The API server has given this answer in some world. *)
Definition reviewed (t : string) (a : bool) (u : string) : Prop :=
  exists ctx (w : world) user w', api_reviewToken (D := string) ctx t w = (Ok (a, user), w') /\
    u = if a then user else "".

Definition bob : WmAuth.UserInfo :=
  {| WmAuth.userToken := "tok"; WmAuth.userNamespace := "ns";
     WmAuth.serviceAccount := "system:serviceaccount:ns:bob"; WmAuth.serviceAccountName := "bob" |}.
