(* ===== verification/Reconciler.v ===== *)
(** * The sandbox controller ([pkg/workloadmanager/sandbox_controller.go])

    [SandboxReconciler] keeps a map from sandbox names to channels of capacity
    one. [Reconcile] takes the channel out of the map under the lock and sends
    after releasing it, so the model splits it there: [reconcile_take] and
    [reconcile_send], with any other step possible in between. *)

From stdpp Require Import base list gmap strings.
From S2P Require Import Prelude GoError SandboxTypes K8sTypes Cluster.

(** [getSandboxStatus] ([sandbox_helper.go]) *)
Definition sandboxStatusReady : string := "ready".
Definition sandboxStatusNotReady : string := "not-ready".

Fixpoint status_of (cs : list Condition) : string :=
  match cs with
  | [] => sandboxStatusNotReady
  | c :: cs =>
      if String.eqb (cond_Type c) "Ready" && String.eqb (cond_Status c) "True"
      then sandboxStatusReady else status_of cs
  end.

Definition getSandboxStatus (s : Sandbox) : string := status_of (sb_Conditions s).

Lemma getSandboxStatus_ready s :
  getSandboxStatus s = sandboxStatusReady <->
  Exists (fun c => cond_Type c = "Ready" /\ cond_Status c = "True") (sb_Conditions s).
Proof.
  unfold getSandboxStatus. induction (sb_Conditions s) as [|c cs IH]; cbn.
  - split; [done|]. intros H. inversion H.
  - rewrite Exists_cons, <- IH.
    destruct (String.eqb_spec (cond_Type c) "Ready"), (String.eqb_spec (cond_Status c) "True"); cbn; tauto.
Qed.

Module Reconciler.

Definition NamespacedName : Type := string * string.

(** A channel of capacity one: its buffer, and whether something was received
    from it. The channel is never closed. *)
Record chan := { buffer : option Sandbox; received : bool }.

Record state := {
  watchers : gmap NamespacedName nat;
  chans : gmap nat chan;
  nextChan : nat;
}.

(** The nil map reads as the empty map; the first registration makes it. *)
Definition init : state := {| watchers := ∅; chans := ∅; nextChan := 0 |}.

Definition WatchSandboxOnce (namespace name : string) (s : state) : nat * state :=
  (nextChan s,
   {| watchers := <[(namespace, name) := nextChan s]> (watchers s);
      chans := <[nextChan s := {| buffer := None; received := false |}]> (chans s);
      nextChan := S (nextChan s) |}).

Definition UnWatchSandbox (namespace name : string) (s : state) : state :=
  {| watchers := delete (namespace, name) (watchers s); chans := chans s; nextChan := nextChan s |}.

Section reconcile.
Context {AE : ApiErrors}.

(** [Reconcile] up to the release of the lock: the returned error and the
    send that is due. *)
Definition reconcile_take (key : NamespacedName) (got : res Sandbox) (s : state)
    : option goerr * option (nat * Sandbox) * state :=
  match got with
  | Err e => (if IsNotFound e then None else Some e, None, s)
  | Ok sandbox =>
      if negb (String.eqb (getSandboxStatus sandbox) sandboxStatusReady) then (None, None, s)
      else
        match watchers s !! key with
        | None => (None, None, s)
        | Some ch =>
            (None, Some (ch, sandbox),
             {| watchers := delete key (watchers s); chans := chans s; nextChan := nextChan s |})
        end
  end.

(** The non-blocking send: [true] when the value went into the buffer. *)
Definition reconcile_send (p : nat * Sandbox) (s : state) : bool * state :=
  match chans s !! p.1 with
  | Some {| buffer := None; received := r |} =>
      (true, {| watchers := watchers s;
                chans := <[p.1 := {| buffer := Some p.2; received := r |}]> (chans s);
                nextChan := nextChan s |})
  | _ => (false, s)
  end.

Definition Reconcile (key : NamespacedName) (got : res Sandbox) (s : state) : option goerr * state :=
  let '(e, due, s) := reconcile_take key got s in
  match due with
  | None => (e, s)
  | Some p => (e, (reconcile_send p s).2)
  end.

(** The handler's receive. *)
Definition receive (ch : nat) (s : state) : option Sandbox * state :=
  match chans s !! ch with
  | Some {| buffer := Some v |} =>
      (Some v, {| watchers := watchers s;
                  chans := <[ch := {| buffer := None; received := true |}]> (chans s);
                  nextChan := nextChan s |})
  | _ => (None, s)
  end.

(** ** Interleavings

    A configuration adds the sends that are due, and for each channel the name
    it was registered for. *)
Record config := {
  st : state;
  due : list (nat * Sandbox);
  owner : gmap nat NamespacedName;
}.

(** Reading the object of a name returns an object of that name. *)
Definition names (key : NamespacedName) (got : res Sandbox) : Prop :=
  forall sb, got = Ok sb -> (Namespace (sb_Meta sb), Name (sb_Meta sb)) = key.

Definition init_config : config := {| st := init; due := []; owner := ∅ |}.

Inductive step : config -> config -> Prop :=
  | step_watch c ns n :
      step c {| st := (WatchSandboxOnce ns n (st c)).2; due := due c;
                owner := <[nextChan (st c) := (ns, n)]> (owner c) |}
  | step_unwatch c ns n :
      step c {| st := UnWatchSandbox ns n (st c); due := due c; owner := owner c |}
  | step_take c key got e p s :
      names key got -> reconcile_take key got (st c) = (e, Some p, s) ->
      step c {| st := s; due := p :: due c; owner := owner c |}
  | step_skip c key got e s :
      reconcile_take key got (st c) = (e, None, s) ->
      step c {| st := s; due := due c; owner := owner c |}
  | step_send c p l1 l2 :
      due c = l1 ++ p :: l2 ->
      step c {| st := (reconcile_send p (st c)).2; due := l1 ++ l2; owner := owner c |}
  | step_receive c ch :
      step c {| st := (receive ch (st c)).2; due := due c; owner := owner c |}.

Inductive reachable : config -> Prop :=
  | reach_init : reachable init_config
  | reach_step c c' : reachable c -> step c c' -> reachable c'.

End reconcile.
End Reconciler.
