(* ===== verification/ReconcilerTheorems.v ===== *)
(** * Properties of the sandbox controller *)

From stdpp Require Import base list gmap strings.
From S2P Require Import Prelude GoError SandboxTypes K8sTypes Cluster Reconciler.
Import Reconciler.

Section invariant.
Context {AE : ApiErrors}.

Definition empty_chan : chan := {| buffer := None; received := false |}.

Definition key_of (sb : Sandbox) : NamespacedName := (Namespace (sb_Meta sb), Name (sb_Meta sb)).

(** A channel waits in at most one place: the map or the list of due sends,
    and there it is empty. *)
Record inv (c : config) : Prop := {
  inv_chans ch x : chans (st c) !! ch = Some x -> (ch < nextChan (st c))%nat;
  inv_watch k ch :
    watchers (st c) !! k = Some ch ->
    chans (st c) !! ch = Some empty_chan /\ owner c !! ch = Some k /\ ch ∉ (due c).*1;
  inv_due ch sb :
    (ch, sb) ∈ due c ->
    chans (st c) !! ch = Some empty_chan /\ owner c !! ch = Some (key_of sb) /\
    getSandboxStatus sb = sandboxStatusReady;
  inv_nodup : NoDup (due c).*1;
  inv_buffer ch sb r :
    chans (st c) !! ch = Some {| buffer := Some sb; received := r |} ->
    owner c !! ch = Some (key_of sb) /\ getSandboxStatus sb = sandboxStatusReady;
}.

Lemma inv_init : inv init_config.
Proof.
  split; cbn; try (intros; by rewrite lookup_empty in *).
  - intros ch sb []%elem_of_nil.
  - constructor.
Qed.

Lemma fst_elem {A B} (x : A) (y : B) l : (x, y) ∈ l -> x ∈ l.*1.
Proof. intros H. apply list_elem_of_fmap. by exists (x, y). Qed.

Lemma elem_fst {A B} (x : A) (l : list (A * B)) : x ∈ l.*1 -> exists y, (x, y) ∈ l.
Proof. intros ([a y] & -> & H)%list_elem_of_fmap. by exists y. Qed.

Lemma inv_watch_step c ns n :
  inv c -> inv {| st := (WatchSandboxOnce ns n (st c)).2; due := due c;
                  owner := <[nextChan (st c) := (ns, n)]> (owner c) |}.
Proof.
  intros [Hc Hw Hd Hn Hb].
  assert (forall ch x, chans (st c) !! ch = Some x -> ch <> nextChan (st c)) as Hne.
  { intros ch x Hx ->. apply Hc in Hx. lia. }
  split; cbn.
  - intros ch x [[<- _]|[_ Hx]]%lookup_insert_Some; [lia|]. apply Hc in Hx. lia.
  - intros k ch [[<- <-]|[Hk Hx]]%lookup_insert_Some.
    + rewrite !lookup_insert_eq. split_and!; [done..|]. intros (sb & H)%elem_fst.
      apply Hd in H as (H & _). by apply (Hne _ _ H).
    + destruct (Hw _ _ Hx) as (H1 & H2 & H3). pose proof (Hne _ _ H1).
      by rewrite !lookup_insert_ne by done.
  - intros ch sb Hin. destruct (Hd _ _ Hin) as (H1 & H2 & H3). pose proof (Hne _ _ H1).
    by rewrite !lookup_insert_ne by done.
  - done.
  - intros ch sb r [[_ [=]]|[Hk Hx]]%lookup_insert_Some. rewrite lookup_insert_ne by done. by eapply Hb.
Qed.

Lemma inv_unwatch_step c ns n :
  inv c -> inv {| st := UnWatchSandbox ns n (st c); due := due c; owner := owner c |}.
Proof.
  intros [Hc Hw Hd Hn Hb]. split; cbn; [done| |done..].
  intros k ch [_ Hx]%lookup_delete_Some. by apply Hw.
Qed.

Lemma take_inv key got s e p s' :
  reconcile_take key got s = (e, Some p, s') ->
  exists ch sb, p = (ch, sb) /\ got = Ok sb /\ getSandboxStatus sb = sandboxStatusReady /\
    watchers s !! key = Some ch /\
    s' = {| watchers := delete key (watchers s); chans := chans s; nextChan := nextChan s |}.
Proof.
  unfold reconcile_take. destruct got as [sb|er]; [|done].
  destruct (String.eqb_spec (getSandboxStatus sb) sandboxStatusReady); [|done]. cbn.
  destruct (watchers s !! key) as [ch|] eqn:Hk; [|done]. intros [= <- <- <-]. eauto 10.
Qed.

Lemma skip_inv key got s e s' : reconcile_take key got s = (e, None, s') -> s' = s.
Proof. unfold reconcile_take. intros H. repeat case_match; by simplify_eq. Qed.

Lemma inv_take_step c key got e p s :
  names key got -> reconcile_take key got (st c) = (e, Some p, s) ->
  inv c -> inv {| st := s; due := p :: due c; owner := owner c |}.
Proof.
  intros Hnm (ch & sb & -> & -> & Hr & Hk & ->)%take_inv [Hc Hw Hd Hn Hb].
  specialize (Hnm sb eq_refl). destruct (Hw _ _ Hk) as (H1 & H2 & H3). split; cbn.
  - done.
  - intros k ch' [Hne Hx]%lookup_delete_Some. destruct (Hw _ _ Hx) as (H4 & H5 & H6).
    split_and!; [done..|]. intros [->|?]%elem_of_cons; [congruence|done].
  - intros ch' sb' [[= -> ->]|Hin]%elem_of_cons; [|by apply Hd].
    split_and!; [done| |done]. unfold key_of. by rewrite Hnm.
  - by constructor.
  - done.
Qed.

Lemma inv_send_step c p l1 l2 :
  due c = l1 ++ p :: l2 -> inv c ->
  (reconcile_send p (st c)).1 = true /\
  inv {| st := (reconcile_send p (st c)).2; due := l1 ++ l2; owner := owner c |}.
Proof.
  destruct p as [ch sb]. intros Hdue [Hc Hw Hd Hn Hb].
  assert ((ch, sb) ∈ due c) as Hin by (rewrite Hdue; apply elem_of_app; right; left).
  destruct (Hd _ _ Hin) as (H1 & H2 & H3). unfold reconcile_send. cbn. rewrite H1. cbn. split; [done|].
  assert (ch ∉ (l1 ++ l2).*1) as Hni.
  { rewrite Hdue, fmap_app in Hn. cbn in Hn. apply NoDup_app in Hn as (_ & Hdis & [Hn2 _]%NoDup_cons).
    rewrite fmap_app. intros [H|H]%elem_of_app; [|done]. apply (Hdis _ H). left. }
  split; cbn.
  - intros ch' x [[<- _]|[_ Hx]]%lookup_insert_Some; [by eapply Hc|by eapply Hc].
  - intros k ch' Hx. destruct (Hw _ _ Hx) as (H4 & H5 & H6).
    rewrite lookup_insert_ne; [split_and!; [done..|]|].
    + intros Hx'. apply H6. rewrite Hdue. rewrite fmap_app in *. cbn.
      apply elem_of_app in Hx' as [?|?]; apply elem_of_app; [by left|right; by right].
    + intros ->. apply H6. by eapply fst_elem.
  - intros ch' sb' Hin'. assert ((ch', sb') ∈ due c) as Hin2.
    { rewrite Hdue. apply elem_of_app in Hin' as [?|?]; apply elem_of_app; [by left|right; by right]. }
    destruct (Hd _ _ Hin2) as (H4 & H5 & H6). rewrite lookup_insert_ne; [done|].
    intros ->. apply Hni. by eapply fst_elem.
  - rewrite Hdue, fmap_app in Hn. cbn in Hn. rewrite fmap_app.
    apply NoDup_app in Hn as (Hn1 & Hdis & [_ Hn2]%NoDup_cons). apply NoDup_app. split_and!; [done| |done].
    intros x Hx Hx2. apply (Hdis _ Hx). by right.
  - intros ch' sb' r [[<- [= <- _]]|[_ Hx]]%lookup_insert_Some; [done|by eapply Hb].
Qed.

Lemma inv_receive_step c ch :
  inv c -> inv {| st := (receive ch (st c)).2; due := due c; owner := owner c |}.
Proof.
  intros [Hc Hw Hd Hn Hb]. unfold receive.
  destruct (chans (st c) !! ch) as [[[sb|] r]|] eqn:Hch; [|by split..].
  split; cbn.
  - intros ch' x [[<- _]|[_ Hx]]%lookup_insert_Some; by eapply Hc.
  - intros k ch' Hx. destruct (Hw _ _ Hx) as (H4 & H5 & H6). rewrite lookup_insert_ne; [done|]. intros ->. unfold empty_chan in *. congruence.
  - intros ch' sb' Hin. destruct (Hd _ _ Hin) as (H4 & H5 & H6). rewrite lookup_insert_ne; [done|]. intros ->. unfold empty_chan in *. congruence.
  - done.
  - intros ch' sb' r' [[<- [=]]|[_ Hx]]%lookup_insert_Some. by eapply Hb.
Qed.

Lemma inv_step c c' : step c c' -> inv c -> inv c'.
Proof.
  intros Hs Hi. destruct Hs.
  - by apply inv_watch_step.
  - by apply inv_unwatch_step.
  - by eapply inv_take_step.
  - apply skip_inv in H as ->. by destruct c.
  - by apply (inv_send_step c p l1 l2).
  - by apply inv_receive_step.
Qed.

Lemma inv_reachable c : reachable c -> inv c.
Proof. induction 1; [apply inv_init|by eapply inv_step]. Qed.

End invariant.

(** [C36] The channels carry what they should. In every interleaving of
    registrations, cancellations, reconciliations and receives: a send that is
    due finds its channel empty, so the notification is put in the buffer and
    neither blocks nor is dropped; and whoever receives from a channel gets a
    ready sandbox with exactly the namespace and name the channel was
    registered for. *)
Theorem reconciler_channels {AE : ApiErrors} (c : config) :
  reachable c ->
  (forall p, p ∈ due c -> (reconcile_send p (st c)).1 = true) /\
  (forall ch sb s', receive ch (st c) = (Some sb, s') ->
     owner c !! ch = Some (Namespace (sb_Meta sb), Name (sb_Meta sb)) /\ getSandboxStatus sb = sandboxStatusReady).
Proof.
  intros Hr%inv_reachable. split.
  - intros p (l1 & l2 & Hd)%list_elem_of_split. by apply (inv_send_step c p l1 l2).
  - intros ch sb s'. unfold receive.
    destruct (chans (st c) !! ch) as [[[v|] r]|] eqn:Hch; [|done..]. intros [= <- _]. by eapply (inv_buffer c Hr).
Qed.

(** [C21] No lost notification: while a watcher is registered for a sandbox, a
    reconciliation that reads it ready delivers it to that watcher. *)
Theorem reconciler_notifies {AE : ApiErrors} (c : config) (k : NamespacedName) (ch : nat) (sb : Sandbox) :
  reachable c -> watchers (st c) !! k = Some ch -> getSandboxStatus sb = sandboxStatusReady ->
  let '(e, s) := Reconcile k (Ok sb) (st c) in
  e = None /\ watchers s !! k = None /\ (receive ch s).1 = Some sb.
Proof.
  intros Hr%inv_reachable Hw Hs. unfold Reconcile, reconcile_take. rewrite Hs, Hw. cbn.
  destruct (inv_watch c Hr _ _ Hw) as (Hc & _). unfold reconcile_send. cbn. rewrite Hc. cbn.
  split_and!; [done|by rewrite lookup_delete_eq|]. unfold receive. cbn. by rewrite lookup_insert_eq.
Qed.

(** ** A concrete run: a watcher for [ns/a], the sandbox becomes ready *)

Import ApiModel.

Definition sb_a : Sandbox :=
  {| sb_APIVersion := "agents.x-k8s.io/v1alpha1"; sb_Kind := "Sandbox";
     sb_Meta := {| Name := "a"; Namespace := "ns"; UID := "u"; Labels := ∅; Annotations := ∅;
                   OwnerReferences := []; CreationTimestamp := 0 |};
     sb_PodSpec := podSpec0; sb_PodLabels := ∅; sb_PodAnnotations := ∅; sb_ShutdownTime := None;
     sb_Replicas := None;
     sb_Conditions := [{| cond_Type := "Ready"; cond_Status := "True" |}] |}.

Definition conf1 : config :=
  {| st := (WatchSandboxOnce "ns" "a" init).2; due := []; owner := <[0%nat := ("ns", "a")]> ∅ |}.
Definition conf2 : config :=
  {| st := {| watchers := delete ("ns", "a") (watchers (st conf1)); chans := chans (st conf1); nextChan := 1 |};
     due := [(0%nat, sb_a)]; owner := owner conf1 |}.
Definition conf3 : config :=
  {| st := (reconcile_send (0%nat, sb_a) (st conf2)).2; due := [] ++ []; owner := owner conf1 |}.

Lemma reachable1 : reachable (AE := ApiModel.api) conf1.
Proof. apply (reach_step _ _ reach_init (step_watch init_config "ns" "a")). Qed.

Lemma reachable2 : reachable (AE := ApiModel.api) conf2.
Proof.
  apply (reach_step _ _ reachable1
    (step_take conf1 ("ns", "a") (Ok sb_a) None (0%nat, sb_a) (st conf2) ltac:(by intros ? [= <-]) eq_refl)).
Qed.

Lemma reachable3 : reachable (AE := ApiModel.api) conf3.
Proof. apply (reach_step _ _ reachable2 (step_send conf2 (0%nat, sb_a) [] [] eq_refl)). Qed.

Lemma reconciler_channels_witness :
  (reconcile_send (0%nat, sb_a) (st conf2)).1 = true /\
  owner conf3 !! 0%nat = Some ("ns", "a") /\ getSandboxStatus sb_a = sandboxStatusReady.
Proof.
  split.
  - apply (reconciler_channels (AE := ApiModel.api) conf2 reachable2). left.
  - eapply (proj2 (reconciler_channels (AE := ApiModel.api) conf3 reachable3) 0%nat sb_a). vm_compute. reflexivity.
Defined.

Lemma reconciler_notifies_witness :
  let '(e, s) := Reconcile (AE := ApiModel.api) ("ns", "a") (Ok sb_a) (st conf1) in
  e = None /\ watchers s !! ("ns", "a") = None /\ (receive 0 s).1 = Some sb_a.
Proof.
  apply (reconciler_notifies (AE := ApiModel.api) conf1 ("ns", "a") 0%nat sb_a reachable1);
    vm_compute; reflexivity.
Defined.
