(* ===== verification/WorkloadBuilder.v ===== *)
(** * Building sandboxes ([pkg/workloadmanager/workload_builder.go], [utils.go]) *)

From Stdlib Require Import Ascii.
From stdpp Require Import base list gmap strings.
From S2P Require Import Prelude GoStrings GoTime GoError SandboxTypes K8sTypes Cluster WmAuth.

(** ** Constants of [k8s_client.go] *)

Definition DefaultSandboxTTL : Duration := 8 * Tm.Hour.
Definition DefaultSandboxIdleTimeout : Duration := 15 * Tm.Minute.
Definition SessionIdLabelKey : string := "runtime.agentcube.io/session-id".
Definition WorkloadNameLabelKey : string := "runtime.agentcube.io/workload-name".
Definition SandboxNameLabelKey : string := "runtime.agentcube.io/sandbox-name".
Definition IdleTimeoutAnnotationKey : string := "runtime.agentcube.io/idle-timeout".

Module Entry.
Record sandboxEntry := {
  Kind : string; SessionID : string; OwnerID : string;
  Ports : list TargetPort; IdleTimeout : Duration;
}.

Definition set_OwnerID (o : string) (e : sandboxEntry) : sandboxEntry :=
  {| Kind := Kind e; SessionID := SessionID e; OwnerID := o;
     Ports := Ports e; IdleTimeout := IdleTimeout e |}.
End Entry.
Abbreviation sandboxEntry := Entry.sandboxEntry.

Module Builder.

(** ** The router's public key *)

Definition IdentitySecretName : string := "picod-router-identity".
Definition PublicKeyDataKey : string := "public.pem".

(** [init]: the namespace of the identity secret *)
Definition IdentitySecretNamespace (env : string -> option string) : string :=
  let ns := default "" (env "AGENTCUBE_NAMESPACE") in
  if negb (String.eqb ns "") then ns else "default".

(** [GetCachedPublicKey] reads the package variable, here passed as [cached]. *)
Definition GetCachedPublicKey (cached : string) : string := cached.
Definition IsPublicKeyCached (cached : string) : bool := negb (String.eqb cached "").

(** [secret] is the answer to the read of the Secret: its data, or an error. *)
Definition loadPublicKeyFromSecret (ns : string) (secret : res (gmap string string)) (cached : string)
    : option goerr * string :=
  match secret with
  | Err e => (Some e, cached)
  | Ok data =>
      match data !! PublicKeyDataKey with
      | None => (Some (EText ("public key not found in secret " +:+ ns +:+ "/" +:+ IdentitySecretName
                   +:+ " (key: " +:+ PublicKeyDataKey +:+ ")")), cached)
      | Some k => (None, k)
      end
  end.

Definition nextRetryInterval (i : Duration) : Duration :=
  let i := i * 2 in if 10 * Tm.Second <? i then 10 * Tm.Second else i.

(** The retry loop of [InitPublicKeyCache] on the successive answers: the
    sleeps it makes and the key it ends with. *)
Fixpoint InitPublicKeyCache_loop (ns : string) (interval : Duration)
    (answers : list (res (gmap string string))) (cached : string) : list Duration * string :=
  match answers with
  | [] => ([], cached)
  | a :: answers =>
      match loadPublicKeyFromSecret ns a cached with
      | (None, k) => ([], k)
      | (Some _, cached) =>
          let '(sleeps, k) := InitPublicKeyCache_loop ns (nextRetryInterval interval) answers cached in
          (interval :: sleeps, k)
      end
  end.

Definition InitPublicKeyCache (ns : string) (answers : list (res (gmap string string))) (cached : string) :=
  InitPublicKeyCache_loop ns (100 * Tm.Millisecond) answers cached.

(** ** Sandbox objects *)

Record buildSandboxParams := {
  namespace : string; workloadName : string; sandboxName : string; sessionID : string;
  ownerID : string; ttl : Duration; idleTimeout : Duration; podSpec : PodSpec;
  podLabels : gmap string string; podAnnotations : gmap string string;
}.

Record buildSandboxClaimParams := {
  c_namespace : string; c_name : string; c_sandboxTemplateName : string; c_sessionID : string;
  c_ownerID : string; c_idleTimeout : Duration; c_ownerReference : option OwnerReference;
}.

(** The ownership metadata written when an owner is known. *)
Definition owned_annotations (o : string) (m : gmap string string) : gmap string string :=
  if negb (String.eqb o "") then <["agentcube.io/owner" := o]> m else m.
Definition owned_labels (o : string) (m : gmap string string) : gmap string string :=
  if negb (String.eqb o "") then <["agentcube.io/owner-hash" := Identity.sha256Short o]> m else m.

Definition buildSandboxObject (now : Time) (p : buildSandboxParams) : Sandbox :=
  let ttl := if ttl p =? 0 then DefaultSandboxTTL else ttl p in
  let idleTimeout := if idleTimeout p =? 0 then DefaultSandboxIdleTimeout else idleTimeout p in
  {| sb_APIVersion := "agents.x-k8s.io/v1alpha1";
     sb_Kind := SandboxKind;
     sb_Meta :=
       {| Name := sandboxName p; Namespace := namespace p; UID := "";
          Labels := owned_labels (ownerID p)
            (<[SessionIdLabelKey := sessionID p]>
              (<[WorkloadNameLabelKey := workloadName p]>
                (<["managed-by" := "agentcube-workload-manager"]> ∅)));
          Annotations := owned_annotations (ownerID p)
            (<[IdleTimeoutAnnotationKey := Tm.String_ idleTimeout]> ∅);
          OwnerReferences := []; CreationTimestamp := Tm.zero |};
     sb_PodSpec := podSpec p;
     sb_PodLabels := <[SandboxNameLabelKey := sandboxName p]>
                       (<[SessionIdLabelKey := sessionID p]> (podLabels p));
     sb_PodAnnotations := podAnnotations p;
     sb_ShutdownTime := Some (Tm.Add now ttl);
     sb_Replicas := Some 1;
     sb_Conditions := [] |}.

Definition buildSandboxClaimObject (p : buildSandboxClaimParams) : SandboxClaim :=
  let idleTimeout := if c_idleTimeout p =? 0 then DefaultSandboxIdleTimeout else c_idleTimeout p in
  {| sc_APIVersion := "extensions.agents.x-k8s.io/v1alpha1";
     sc_Kind := SandboxClaimsKind;
     sc_Meta :=
       {| Name := c_name p; Namespace := c_namespace p; UID := "";
          Labels := owned_labels (c_ownerID p)
            (<[SessionIdLabelKey := c_sessionID p]> (<[SandboxNameLabelKey := c_name p]> ∅));
          Annotations := owned_annotations (c_ownerID p)
            (<[IdleTimeoutAnnotationKey := Tm.String_ idleTimeout]> ∅);
          OwnerReferences := match c_ownerReference p with Some r => [r] | None => [] end;
          CreationTimestamp := Tm.zero |};
     sc_TemplateRef := c_sandboxTemplateName p;
     sc_StatusSandboxName := "" |}.

(** An empty runtime class name counts as none. *)
Definition normalizeRuntimeClassName (r : option string) : option string :=
  match r with
  | Some r => if String.eqb r "" then None else Some r
  | None => None
  end.

Definition buildCodeInterpreterEnvVars (cachedKey : string) (templateEnv : list EnvVar) (authMode : string)
    : list EnvVar :=
  if String.eqb authMode AuthModePicoD
  then templateEnv ++ [{| env_Name := "PICOD_AUTH_PUBLIC_KEY"; env_Value := GetCachedPublicKey cachedKey |}]
  else templateEnv.

Section build.
Context {D W : Type} `{!Env W} `{!Cluster D W} {AE : ApiErrors}.
Implicit Types w : W.

Definition letters : string := "abcdefghijklmnopqrstuvwxyz0123456789".

(** [RandString(n)] *)
Fixpoint RandString (n : nat) w : string * W :=
  match n with
  | O => ("", w)
  | S n =>
      let '(i, w) := Intn (Z.of_nat (String.length letters)) w in
      let c := default "a"%char (String.get (Z.to_nat i) letters) in
      let '(s, w) := RandString n w in
      (String c s, w)
  end.

(** The outer [option] is [None] when a nil template is dereferenced. *)
Definition buildSandboxByAgentRuntime (namespace name ownerID : string) w
    : option (res (Sandbox * sandboxEntry)) * W :=
  match lister_agentRuntime (D := D) namespace name w with
  | Err e =>
      if IsNotFound e then (Some (Err (ESent ErrAgentRuntimeNotFound)), w)
      else (Some (Err (Wrapf ("failed to get agent runtime " +:+ namespace +:+ "/" +:+ name) e)), w)
  | Ok ar =>
      let '(sessionID, w) := NewUUID w in
      let '(suffix, w) := RandString 8 w in
      let sandboxName := name +:+ "-" +:+ suffix in
      let spec := AR.Spec ar in
      match AR.Template spec with
      | None => (None, w)
      | Some t =>
          let idleTimeout := default DefaultSandboxIdleTimeout (AR.SessionTimeout spec) in
          let params :=
            {| namespace := namespace; workloadName := name; sandboxName := sandboxName;
               sessionID := sessionID; ownerID := ownerID;
               ttl := default 0 (AR.MaxSessionDuration spec); idleTimeout := idleTimeout;
               podSpec := set_RuntimeClassName
                 (normalizeRuntimeClassName (RuntimeClassName (AR.t_Spec t))) (AR.t_Spec t);
               podLabels := AR.t_Labels t; podAnnotations := AR.t_Annotations t |} in
          (Some (Ok (buildSandboxObject (clock w) params,
             {| Entry.Kind := SandboxKind; Entry.SessionID := sessionID; Entry.OwnerID := "";
                Entry.Ports := AR.Ports spec; Entry.IdleTimeout := idleTimeout |})), w)
      end
  end.

Definition defaultPorts : list TargetPort :=
  [{| PathPrefix := "/"; port_Name := ""; Port := 8080; Protocol := ProtocolTypeHTTP |}].

(** The pod of a code interpreter without a warm pool. *)
Definition codeInterpreterPodSpec (cachedKey : string) (t : CI.CodeInterpreterSandboxTemplate) (authMode : string)
    : PodSpec :=
  {| ImagePullSecrets := CI.t_ImagePullSecrets t;
     RuntimeClassName := normalizeRuntimeClassName (CI.t_RuntimeClassName t);
     Containers := [{| c_Name := "code-interpreter"; c_Image := CI.Image t;
                       c_ImagePullPolicy := CI.ImagePullPolicy t;
                       c_Env := buildCodeInterpreterEnvVars cachedKey (CI.Environment t) authMode;
                       c_Command := CI.Command t; c_Args := CI.Args t; c_Resources := CI.Resources t |}];
     podOther := ∅ |}.

Definition buildSandboxByCodeInterpreter (cachedKey : string) (namespace codeInterpreterName ownerID : string) w
    : option (res (Sandbox * option SandboxClaim * sandboxEntry)) * W :=
  match lister_codeInterpreter (D := D) namespace codeInterpreterName w with
  | Err e =>
      if IsNotFound e then (Some (Err (ESent ErrCodeInterpreterNotFound)), w)
      else (Some (Err (Wrapf ("failed to get code interpreter " +:+ namespace +:+ "/" +:+ codeInterpreterName) e)), w)
  | Ok ci =>
      let spec := CI.Spec ci in
      if String.eqb (CI.AuthMode spec) AuthModePicoD && negb (IsPublicKeyCached cachedKey)
      then (Some (Err (ESent ErrPublicKeyMissing)), w)
      else
        let '(sessionID, w) := NewUUID w in
        let '(suffix, w) := RandString 8 w in
        let sandboxName := codeInterpreterName +:+ "-" +:+ suffix in
        let idleTimeout := default DefaultSandboxIdleTimeout (CI.SessionTimeout spec) in
        let ports := match CI.Ports spec with [] => defaultPorts | ps => ps end in
        let entry kind :=
          {| Entry.Kind := kind; Entry.SessionID := sessionID; Entry.OwnerID := "";
             Entry.Ports := ports; Entry.IdleTimeout := idleTimeout |} in
        if (match CI.WarmPoolSize spec with Some n => 0 <? n | None => false end) then
          let sandboxClaim := buildSandboxClaimObject
            {| c_namespace := namespace; c_name := sandboxName; c_sandboxTemplateName := codeInterpreterName;
               c_sessionID := sessionID; c_ownerID := ownerID; c_idleTimeout := idleTimeout;
               c_ownerReference := Some
                 {| or_APIVersion := "runtime.agentcube.volcano.sh/v1alpha1"; or_Kind := "CodeInterpreter";
                    or_Name := Name (CI.ci_Meta ci); or_UID := UID (CI.ci_Meta ci); or_Controller := None |} |} in
          let simpleSandbox :=
            {| sb_APIVersion := ""; sb_Kind := "";
               sb_Meta := {| Name := sandboxName; Namespace := namespace; UID := "";
                             Labels := <[SessionIdLabelKey := sessionID]> ∅; Annotations := ∅;
                             OwnerReferences := []; CreationTimestamp := Tm.zero |};
               sb_PodSpec := podSpec0; sb_PodLabels := ∅; sb_PodAnnotations := ∅;
               sb_ShutdownTime := Tm.Add (clock w) <$> CI.MaxSessionDuration spec;
               sb_Replicas := None; sb_Conditions := [] |} in
          (Some (Ok (simpleSandbox, Some sandboxClaim, entry SandboxClaimsKind)), w)
        else
          match CI.Template spec with
          | None => (None, w)
          | Some t =>
              let params :=
                {| namespace := namespace; workloadName := codeInterpreterName; sandboxName := sandboxName;
                   sessionID := sessionID; ownerID := ownerID;
                   ttl := default 0 (CI.MaxSessionDuration spec); idleTimeout := idleTimeout;
                   podSpec := codeInterpreterPodSpec cachedKey t (CI.AuthMode spec);
                   podLabels := CI.t_Labels t; podAnnotations := CI.t_Annotations t |} in
              (Some (Ok (buildSandboxObject (clock w) params, None, entry SandboxKind)), w)
          end
  end.

End build.
End Builder.
