(* ===== verification/K8sClient.v ===== *)
(** * The Kubernetes client wrapper and the sandbox helpers

    [pkg/workloadmanager/k8s_client.go] and [sandbox_helper.go]. *)

From stdpp Require Import base list gmap strings.
From S2P Require Import Prelude GoStrings GoTime GoError GoContext GoEncoding SandboxTypes K8sTypes Cluster Lru Caches Reconciler WorkloadBuilder.

Module K8s.

(** [UserK8sClient] *)
Record UserK8sClient (D : Type) := { dynamicClient : D; u_namespace : string }.
Arguments dynamicClient {D}. Arguments u_namespace {D}.

Section client.
Context {D W : Type} `{!Env W} `{!Cluster D W} {AE : ApiErrors} {JT : JsonText}.
Implicit Types w : W.

(** [NewUserK8sClient]: the base configuration with the user's bearer token *)
Definition NewUserK8sClient (userToken namespace : string) : res (UserK8sClient D) :=
  match dynamicNewForConfig (W := W) userToken with
  | Err e => Err (Wrapf "failed to create dynamic client with user token" e)
  | Ok d => Ok {| dynamicClient := d; u_namespace := namespace |}
  end.

Definition GetOrCreateUserK8sClient (now : Time) (userToken namespace serviceAccountName : string)
    (c : Lru.t (ClientCache.payload (UserK8sClient D)))
    : res (UserK8sClient D) * Lru.t (ClientCache.payload (UserK8sClient D)) :=
  let cacheKey := makeCacheKey namespace serviceAccountName in
  let '(cached, c) := ClientCache.Get now cacheKey c in
  match cached with
  | Some client => (Ok client, c)
  | None =>
      match NewUserK8sClient userToken namespace with
      | Err e => (Err e, c)
      | Ok client => (Ok client, ClientCache.Set_ cacheKey userToken client c)
      end
  end.

(** The package's [SandboxInfo]: the name of the created object. *)
Definition createSandbox (d : D) (ctx : Ctx.Context) (sandbox : Sandbox) w : res (string * string) * W :=
  match toUnstructured_sandbox (D := D) (W := W) sandbox with
  | Some e => (Err (Wrapf "failed to convert sandbox to unstructured" e), w)
  | None =>
      let '(r, w) := api_createSandbox d ctx sandbox w in
      match r with
      | Err e => (Err (Wrapf "failed to create sandbox" e), w)
      | Ok created => (Ok (Name (sb_Meta created), Namespace (sb_Meta created)), w)
      end
  end.

Definition getSandbox (d : D) (ctx : Ctx.Context) (namespace sandboxName : string) w : res Sandbox * W :=
  let '(r, w) := api_getSandbox d ctx namespace sandboxName w in
  match r with
  | Err e => (Err (Wrapf ("failed to get sandbox " +:+ namespace +:+ "/" +:+ sandboxName) e), w)
  | Ok (Err e) => (Err (Wrapf ("failed to convert sandbox " +:+ namespace +:+ "/" +:+ sandboxName) e), w)
  | Ok (Ok s) => (Ok s, w)
  end.

Definition createSandboxClaim (d : D) (ctx : Ctx.Context) (claim : SandboxClaim) w : option goerr * W :=
  match toUnstructured_claim (D := D) (W := W) claim with
  | Some e => (Some (Wrapf "failed to convert sandbox claim to unstructured" e), w)
  | None =>
      let '(r, w) := api_createClaim d ctx claim w in
      match r with
      | Err e => (Some (Wrapf "failed to create sandbox claim" e), w)
      | Ok _ => (None, w)
      end
  end.

Definition getSandboxClaim (d : D) (ctx : Ctx.Context) (namespace name : string) w : res SandboxClaim * W :=
  let '(r, w) := api_getClaim d ctx namespace name w in
  match r with
  | Err e => (Err (Wrapf ("failed to get sandbox claim " +:+ namespace +:+ "/" +:+ name) e), w)
  | Ok (Err e) => (Err (Wrapf ("failed to convert sandbox claim " +:+ namespace +:+ "/" +:+ name) e), w)
  | Ok (Ok s) => (Ok s, w)
  end.

Definition deleteSandbox (d : D) (ctx : Ctx.Context) (namespace sandboxName : string) w : option goerr * W :=
  let '(r, w) := api_deleteSandbox d ctx namespace sandboxName w in
  match r with
  | Some e => if negb (IsNotFound e) then (Some (Wrapf "failed to delete sandbox" e), w) else (None, w)
  | None => (None, w)
  end.

Definition deleteSandboxClaim (d : D) (ctx : Ctx.Context) (namespace name : string) w : option goerr * W :=
  let '(r, w) := api_deleteClaim d ctx namespace name w in
  match r with
  | Some e => if negb (IsNotFound e) then (Some (Wrapf "failed to delete sandbox claim" e), w) else (None, w)
  | None => (None, w)
  end.

Definition validateAndGetPodIP (pod : Pod) : res string :=
  if negb (String.eqb (pod_Phase pod) "Running")
  then Err (EText ("pod not running yet, status: " +:+ pod_Phase pod))
  else if String.eqb (pod_IP pod) "" then Err (EText "pod IP not assigned yet")
  else Ok (pod_IP pod).

(** Whether an owner reference makes the sandbox the pod's controller. *)
Definition controls (sandboxName : string) (r : OwnerReference) : bool :=
  String.eqb (or_Kind r) "Sandbox" && String.eqb (or_Name r) sandboxName &&
  match or_Controller r with None => true | Some b => b end.

Fixpoint owned_pod (sandboxName : string) (pods : list Pod) : option Pod :=
  match pods with
  | [] => None
  | p :: pods =>
      if existsb (controls sandboxName) (OwnerReferences (pod_Meta p)) then Some p
      else owned_pod sandboxName pods
  end.

Definition GetSandboxPodIP (ctx : Ctx.Context) (namespace sandboxName podName : string) w : res string * W :=
  if negb (String.eqb podName "") then
    let '(r, w) := api_getPod (D := D) ctx namespace podName w in
    match r with
    | Err e => (Err (Wrapf ("failed to get sandbox pod " +:+ namespace +:+ "/" +:+ podName) e), w)
    | Ok pod => (validateAndGetPodIP pod, w)
    end
  else
    match lister_pods (D := D) namespace SandboxNameLabelKey sandboxName w with
    | Err e => (Err (Wrapf "failed to list pods from cache" e), w)
    | Ok pods =>
        match owned_pod sandboxName pods with
        | Some pod => (validateAndGetPodIP pod, w)
        | None => (Err (EText ("no pod found for sandbox " +:+ sandboxName)), w)
        end
    end.

(** ** [sandbox_helper.go] *)

Definition defaultSandboxReadyProbeTimeout : Duration := 15 * Tm.Second.
Definition defaultSandboxReadyProbeInterval : Duration := 1 * Tm.Second.
Definition defaultSandboxReadyDialTimeout : Duration := 1 * Tm.Second.

Definition orDefaultIdle (d : Duration) : Duration := if d =? 0 then DefaultSandboxIdleTimeout else d.

Definition buildSandboxPlaceHolder (now : Time) (sandboxCR : Sandbox) (entry : sandboxEntry) : SandboxInfo :=
  let createdAt := CreationTimestamp (sb_Meta sandboxCR) in
  {| Info.Kind := Entry.Kind entry; Info.SandboxID := "";
     Info.SandboxNamespace := Namespace (sb_Meta sandboxCR); Info.Name := Name (sb_Meta sandboxCR);
     Info.EntryPoints := []; Info.SessionID := Entry.SessionID entry; Info.OwnerID := Entry.OwnerID entry;
     Info.CreatedAt := if Tm.IsZero createdAt then now else createdAt;
     Info.ExpiresAt := match sb_ShutdownTime sandboxCR with
                       | Some t => t | None => Tm.Add now DefaultSandboxTTL end;
     Info.IdleTimeout := orDefaultIdle (Entry.IdleTimeout entry);
     Info.LastActivityAt := Tm.zero; Info.Status := "creating" |}.

Definition entryEndpoint (podIP : string) (port : TargetPort) : string :=
  Strs.JoinHostPort podIP (Strs.Itoa (Port port)).

Definition buildSandboxInfo (sandbox : Sandbox) (podIP : string) (entry : sandboxEntry) : SandboxInfo :=
  let createdAt := CreationTimestamp (sb_Meta sandbox) in
  {| Info.Kind := Entry.Kind entry; Info.SandboxID := UID (sb_Meta sandbox);
     Info.SandboxNamespace := Namespace (sb_Meta sandbox); Info.Name := Name (sb_Meta sandbox);
     Info.EntryPoints :=
       (fun port => {| EntryPoint.Path := PathPrefix port; EntryPoint.Protocol := Protocol port;
                       EntryPoint.Endpoint := entryEndpoint podIP port |}) <$> Entry.Ports entry;
     Info.SessionID := Entry.SessionID entry; Info.OwnerID := Entry.OwnerID entry;
     Info.CreatedAt := createdAt;
     Info.ExpiresAt := match sb_ShutdownTime sandbox with
                       | Some t => t | None => Tm.Add createdAt DefaultSandboxTTL end;
     Info.IdleTimeout := orDefaultIdle (Entry.IdleTimeout entry);
     Info.LastActivityAt := Tm.zero; Info.Status := getSandboxStatus sandbox |}.

Definition sandboxEntrypointDial (ctx : Ctx.Context) (endpoint : string) (timeout : Duration) w : option goerr * W :=
  let '(r, w) := dial (D := D) ctx endpoint timeout w in
  match r with
  | Err e => (Some e, w)
  | Ok close => (close, w)
  end.

Definition dialTimeoutOf (probeInterval : Duration) : Duration :=
  if (probeInterval <=? 0) || (defaultSandboxReadyDialTimeout <? probeInterval)
  then defaultSandboxReadyDialTimeout else probeInterval.

Fixpoint probeSandboxEntryPoints (ctx : Ctx.Context) (podIP : string) (ports : list TargetPort)
    (probeInterval : Duration) w : option goerr * W :=
  match ports with
  | [] => (None, w)
  | port :: ports =>
      let endpoint := entryEndpoint podIP port in
      let '(r, w) := sandboxEntrypointDial ctx endpoint (dialTimeoutOf probeInterval) w in
      match r with
      | Some e => (Some (EWrap ("entrypoint " +:+ endpoint +:+ " not reachable: ") e ""), w)
      | None => probeSandboxEntryPoints ctx podIP ports probeInterval w
      end
  end.

(** The probe loop; [None] when the fuel runs out. *)
Fixpoint probe_loop (fuel : nat) (probeCtx : Ctx.Context) (podIP : string) (ports : list TargetPort)
    (probeInterval : Duration) w : option (option goerr) * W :=
  match fuel with
  | O => (None, w)
  | S fuel =>
      let '(r, w) := probeSandboxEntryPoints probeCtx podIP ports probeInterval w in
      match r with
      | None => (Some None, w)
      | Some lastErr =>
          let '(fired, w) := select_after probeCtx probeInterval w in
          if fired then probe_loop fuel probeCtx podIP ports probeInterval w
          else (Some (Some (Wrapf "sandbox entrypoints not ready before timeout" lastErr)), w)
      end
  end.

(** [Server.config]'s probe settings; [0] means unset. *)
Record ProbeConfig := { SandboxReadyProbeTimeout : Duration; SandboxReadyProbeInterval : Duration }.

Definition orDefault (d dflt : Duration) : Duration := if 0 <? d then d else dflt.

(** Enough iterations: each waits at least one interval. *)
Definition probe_fuel (timeout interval : Duration) : nat := S (S (Z.to_nat (timeout / interval))).

Definition waitForSandboxEntryPointsReady (cfg : ProbeConfig) (ctx : Ctx.Context) (podIP : string)
    (entry : sandboxEntry) w : option (option goerr) * W :=
  match Entry.Ports entry with
  | [] => (Some None, w)
  | ports =>
      let probeTimeout := orDefault (SandboxReadyProbeTimeout cfg) defaultSandboxReadyProbeTimeout in
      let probeInterval := orDefault (SandboxReadyProbeInterval cfg) defaultSandboxReadyProbeInterval in
      let probeCtx := Ctx.WithTimeout ctx probeTimeout (clock w) in
      probe_loop (probe_fuel probeTimeout probeInterval) probeCtx podIP ports probeInterval w
  end.

End client.
End K8s.
