(* ===== verification/WmHandlers.v ===== *)
(** * The workload manager's HTTP handlers ([pkg/workloadmanager/handlers.go])

    A handler runs against a world [W] with a session store, the runtime, the
    cluster and the readiness watchers, and a server state [Srv] with the
    caches and the configuration. Loops take fuel that their theorems show to
    be enough. *)

From stdpp Require Import base list gmap strings.
From S2P Require Import Prelude GoStrings GoTime GoError GoContext GoHttp GoEncoding SandboxTypes StoreSpec K8sTypes Cluster Lru Caches WmAuth Reconciler WorkloadBuilder K8sClient.

(** [utilnet]'s predicates (third-party). *)
Class NetErrors := {
  net_IsTimeout : goerr -> bool;
  net_IsProbableEOF : goerr -> bool;
  net_IsConnectionReset : goerr -> bool;
  net_IsHTTP2ConnectionLost : goerr -> bool;
  net_IsConnectionRefused : goerr -> bool;
}.

Module Wm.

Definition sandboxCreationTimeout : Duration := 2 * Tm.Minute.
Definition storeCleanupTimeout : Duration := 30 * Tm.Second.

(** ** Errors *)

Definition isContextError (e : goerr) : bool := Is e ctxCanceled || Is e ctxDeadlineExceeded.

(** [context.Cause(waitCtx) == errSandboxCreationTimeout] *)
Definition timedOut (c : option goerr) : bool :=
  match c with Some (ESent errSandboxCreationTimeout) => true | _ => false end.

Definition sandboxReadyWaitContextError (parentCtx waitCtx : Ctx.Context) (now : Time) : option goerr :=
  match Ctx.Err waitCtx now with
  | None => None
  | Some we =>
      if timedOut (Ctx.Cause waitCtx now) then Some (ESent errSandboxCreationTimeout)
      else match Ctx.Err parentCtx now with Some e => Some e | None => Some we end
  end.

(** [Some waitErr] when the wait has ended. *)
Definition sandboxReadyWaitEnded (parentCtx waitCtx : Ctx.Context) (readErr : option goerr) (now : Time)
    : option goerr :=
  match sandboxReadyWaitContextError parentCtx waitCtx now with
  | Some e => Some e
  | None => match readErr with Some e => if isContextError e then Some e else None | None => None end
  end.

Section errors.
Context {AE : ApiErrors} {NE : NetErrors}.

Definition isRetryableSandboxReadError (e : goerr) : bool :=
  if isContextError e then false
  else IsNotFound e || IsTimeout e || IsServerTimeout e || IsTooManyRequests e ||
    IsServiceUnavailable e || IsInternalError e || IsUnexpectedServerError e ||
    Is e ioEOF || Is e ioErrUnexpectedEOF || net_IsTimeout e || net_IsProbableEOF e ||
    net_IsConnectionReset e || net_IsHTTP2ConnectionLost e || net_IsConnectionRefused e.

Definition isInternalSandboxCreateError (e : goerr) : bool :=
  IsInternalError e || Is e errSandboxReadyWatcherNotRegistered ||
  Is e errSandboxReadyWatcherClosed || Is e errSandboxReadyWatcherMissingSandbox.

End errors.

(** ** Responses *)

Inductive body := CreatedBody (r : CreateSandboxResponse) | MessageBody (fields : list (string * string)).

Inductive response :=
  | JSON (code : Z) (b : body)
  | ErrorJSON (code : Z) (msg : string)
  | NoBody (code : Z)
  | Panicked.

Definition code_of (r : response) : Z :=
  match r with JSON c _ | ErrorJSON c _ | NoBody c => c | Panicked => 500 end.

Definition handleHealth : response := JSON StatusOK (MessageBody [("status", "healthy")]).

(** The server: configuration and in-memory caches. *)
Record Srv (D : Type) := {
  EnableAuth : bool;
  probe : K8s.ProbeConfig;
  tokenCache : TokenCache.cache;
  clientCache : Lru.t (ClientCache.payload (K8s.UserK8sClient D));
  cachedPublicKey : string;
}.
Arguments EnableAuth {D}. Arguments probe {D}. Arguments tokenCache {D}.
Arguments clientCache {D}. Arguments cachedPublicKey {D}.

Definition with_clientCache {D} (s : Srv D) c : Srv D :=
  {| EnableAuth := EnableAuth s; probe := probe s; tokenCache := tokenCache s;
     clientCache := c; cachedPublicKey := cachedPublicKey s |}.

(** A request as the handlers read it: the bound JSON body (or none), the
    headers, the context, the user that the middleware stored. *)
Record Request := {
  reqBody : option CreateSandboxRequest;
  reqHeader : Header;
  reqCtx : Ctx.Context;
  reqUser : option WmAuth.UserInfo;
}.

Section handlers.
Context {D W K : Type} `{!Env W} `{!Cluster D W} `{!Watchers W} `{!Store W}.
Context {AE : ApiErrors} {NE : NetErrors} {JT : JsonText} `{!KeyFormats K} `{!JwtLib K}.
Implicit Types (w : W) (s : Srv D).

Definition extractUserK8sClient (r : Request) s w : res D * Srv D :=
  let u := WmAuth.extractUserInfo (reqUser r) in
  if String.eqb (WmAuth.userToken u) "" || String.eqb (WmAuth.userNamespace u) ""
     || String.eqb (WmAuth.serviceAccountName u) ""
  then (Err (EText "unable to extract user credentials"), s)
  else
    let '(c, cache) := K8s.GetOrCreateUserK8sClient (W := W) (clock w) (WmAuth.userToken u)
      (WmAuth.userNamespace u) (WmAuth.serviceAccountName u) (clientCache s) in
    match c with
    | Err e => (Err (Wrapf "create user client failed" e), with_clientCache s cache)
    | Ok client => (Ok (K8s.dynamicClient client), with_clientCache s cache)
    end.

(** ** Creation *)

Definition createK8sResources (ctx : Ctx.Context) (d : D) (sandbox : Sandbox) (claim : option SandboxClaim) w
    : option goerr * W :=
  match claim with
  | Some c =>
      let '(r, w) := K8s.createSandboxClaim d ctx c w in
      match r with
      | None => (None, w)
      | Some e =>
          if isContextError e then (Some e, w)
          else (Some (Api.NewInternalError (EWrap ("create sandbox claim " +:+ Namespace (sc_Meta c) +:+ "/"
                  +:+ Name (sc_Meta c) +:+ " failed: ") e "")), w)
      end
  | None =>
      let '(r, w) := K8s.createSandbox d ctx sandbox w in
      match r with
      | Ok _ => (None, w)
      | Err e =>
          if isContextError e then (Some e, w)
          else (Some (Api.NewInternalError (Wrapf "failed to create sandbox" e)), w)
      end
  end.

Definition waitForDirectSandboxReady (ctx : Ctx.Context) (resultChan : option nat) w : res Sandbox * W :=
  match resultChan with
  | None => (Err (ESent errSandboxReadyWatcherNotRegistered), w)
  | Some ch =>
      let '(ev, w) := select_ready ch ctx (clock w + sandboxCreationTimeout) w in
      match ev with
      | ChanClosed => (Err (ESent errSandboxReadyWatcherClosed), w)
      | GotUpdate None => (Err (ESent errSandboxReadyWatcherMissingSandbox), w)
      | GotUpdate (Some created) => (Ok created, w)
      | CtxDone => (Err (default (ESent ctxCanceled) (Ctx.Err ctx (clock w))), w)
      | TimerFired => (Err (ESent errSandboxCreationTimeout), w)
      end
  end.

(** One reading of the claim and of the sandbox it adopted: [inl] ends the
    wait with a result, [inr] asks for another round. *)
Definition claim_round (ctx waitCtx : Ctx.Context) (d : D) (claim : SandboxClaim) w : (res Sandbox + unit) * W :=
  let ns := Namespace (sc_Meta claim) in
  let '(r, w) := K8s.getSandboxClaim d waitCtx ns (Name (sc_Meta claim)) w in
  match sandboxReadyWaitEnded ctx waitCtx (res_err r) (clock w) with
  | Some waitErr => (inl (Err waitErr), w)
  | None =>
      match r with
      | Err e =>
          if negb (isRetryableSandboxReadError e) then (inl (Err (Api.NewInternalError e)), w)
          else (inr (), w)
      | Ok c =>
          let sandboxName := sc_StatusSandboxName c in
          if String.eqb sandboxName "" then (inr (), w)
          else
            let '(r, w) := K8s.getSandbox d waitCtx ns sandboxName w in
            match sandboxReadyWaitEnded ctx waitCtx (res_err r) (clock w) with
            | Some waitErr => (inl (Err waitErr), w)
            | None =>
                match r with
                | Err e =>
                    if negb (isRetryableSandboxReadError e) then (inl (Err (Api.NewInternalError e)), w)
                    else (inr (), w)
                | Ok created =>
                    if String.eqb (getSandboxStatus created) sandboxStatusReady then
                      match sandboxReadyWaitContextError ctx waitCtx (clock w) with
                      | Some waitErr => (inl (Err waitErr), w)
                      | None => (inl (Ok created), w)
                      end
                    else (inr (), w)
                end
            end
      end
  end.

(** The loop: a round ends with a tick of a one-second ticker started at
    [start], the next of which is due at [due]; [None] when the fuel runs out. *)
Fixpoint claim_loop (fuel : nat) (due start : Time) (ctx waitCtx : Ctx.Context) (d : D)
    (claim : SandboxClaim) w : option (res Sandbox) * W :=
  match fuel with
  | O => (None, w)
  | S fuel =>
      let '(r, w) := claim_round ctx waitCtx d claim w in
      match r with
      | inl r => (Some r, w)
      | inr _ =>
          let '(tick, w) := select_timer waitCtx due w in
          if tick then claim_loop fuel (Tm.nextTick start Tm.Second (clock w)) start ctx waitCtx d claim w
          else (Some (Err (default (ESent ctxCanceled)
                 (sandboxReadyWaitContextError ctx waitCtx (clock w)))), w)
      end
  end.

Definition waitForClaimSandboxReadyWithTimeout (ctx : Ctx.Context) (d : D) (claim : SandboxClaim)
    (timeout : Duration) w : option (res Sandbox) * W :=
  let waitCtx := Ctx.WithTimeoutCause ctx timeout (ESent errSandboxCreationTimeout) (clock w) in
  claim_loop (S (S (Z.to_nat (timeout / Tm.Second)))) (clock w + Tm.Second) (clock w) ctx waitCtx d claim w.

Definition waitForClaimSandboxReady ctx d claim w :=
  waitForClaimSandboxReadyWithTimeout ctx d claim sandboxCreationTimeout w.

(** The value of a loop; the theorems show the bound is never reached. *)
Definition loopBound : goerr := EText "loop bound reached".
Definition of_loop {A} (r : option (res A)) : res A := default (Err loopBound) r.

Definition waitForCreatedSandbox (ctx : Ctx.Context) (d : D) (claim : option SandboxClaim)
    (resultChan : option nat) w : res Sandbox * W :=
  match claim with
  | Some c => let '(r, w) := waitForClaimSandboxReady ctx d c w in (of_loop r, w)
  | None => waitForDirectSandboxReady ctx resultChan w
  end.

Definition rollbackSandboxCreation (d : D) (sandbox : Sandbox) (claim : option SandboxClaim)
    (sessionID : string) w : W :=
  let ctxTimeout := Ctx.WithTimeout Ctx.Background storeCleanupTimeout (clock w) in
  let w :=
    match claim with
    | Some c => (K8s.deleteSandboxClaim d ctxTimeout (Namespace (sc_Meta c)) (Name (sc_Meta c)) w).2
    | None => (K8s.deleteSandbox d ctxTimeout (Namespace (sb_Meta sandbox)) (Name (sb_Meta sandbox)) w).2
    end in
  (store_Delete sessionID w).2.

(** What the store records about the created sandbox. *)
Definition storeCacheInfo (placeholder : SandboxInfo) (created : Sandbox) (podIP : string)
    (claim : option SandboxClaim) (entry : sandboxEntry) : SandboxInfo :=
  let i := K8s.buildSandboxInfo created podIP entry in
  match claim with
  | None => i
  | Some c =>
      {| Info.Kind := Info.Kind i; Info.SandboxID := Info.SandboxID i;
         Info.SandboxNamespace := Namespace (sc_Meta c); Info.Name := Name (sc_Meta c);
         Info.EntryPoints := Info.EntryPoints i; Info.SessionID := Info.SessionID i;
         Info.OwnerID := Info.OwnerID i; Info.CreatedAt := Info.CreatedAt placeholder;
         Info.ExpiresAt := Info.ExpiresAt placeholder; Info.IdleTimeout := Info.IdleTimeout i;
         Info.LastActivityAt := Info.LastActivityAt i; Info.Status := Info.Status i |}
  end.

Definition createResponse (i : SandboxInfo) (entry : sandboxEntry) : CreateSandboxResponse :=
  {| CreateResp.Kind := Info.Kind i; CreateResp.SessionID := Entry.SessionID entry;
     CreateResp.SandboxID := Info.SandboxID i; CreateResp.SandboxName := Info.Name i;
     CreateResp.EntryPoints := Info.EntryPoints i; CreateResp.OwnerID := Entry.OwnerID entry |}.

(** Context errors pass through, others become internal errors. *)
Definition internalOr (e wrapped : goerr) : goerr :=
  if isContextError e then e else Api.NewInternalError wrapped.

(** [createSandbox] between the placeholder and the deferred rollback. *)
Definition createSandbox_body (cfg : K8s.ProbeConfig) (ctx : Ctx.Context) (d : D) (sandbox : Sandbox)
    (claim : option SandboxClaim) (entry : sandboxEntry) (resultChan : option nat)
    (placeholder : SandboxInfo) w : res CreateSandboxResponse * W :=
  let '(r, w) := createK8sResources ctx d sandbox claim w in
  match r with
  | Some e => (Err e, w)
  | None =>
      let '(r, w) := waitForCreatedSandbox ctx d claim resultChan w in
      match r with
      | Err e => (Err e, w)
      | Ok created =>
          let ns := Namespace (sb_Meta created) in
          let nameForPod := Name (sb_Meta created) in
          let podName := default nameForPod (Annotations (sb_Meta created) !! SandboxPodNameAnnotation (D := D) (W := W)) in
          let '(r, w) := K8s.GetSandboxPodIP (D := D) ctx ns nameForPod podName w in
          match r with
          | Err e =>
              (Err (internalOr e (EWrap ("failed to get sandbox " +:+ ns +:+ "/" +:+ nameForPod +:+ " pod IP: ") e "")), w)
          | Ok podIP =>
              let '(r, w) := K8s.waitForSandboxEntryPointsReady (D := D) cfg ctx podIP entry w in
              match default (Some loopBound) r with
              | Some e =>
                  (Err (internalOr e (EWrap ("failed to verify sandbox " +:+ ns +:+ "/" +:+ nameForPod +:+ " entrypoints: ") e "")), w)
              | None =>
                  let i := storeCacheInfo placeholder created podIP claim entry in
                  let '(r, w) := store_Update i w in
                  match r with
                  | Some e => (Err (internalOr e (Wrapf "update store cache failed" e)), w)
                  | None => (Ok (createResponse i entry), w)
                  end
              end
          end
      end
  end.

Definition createSandbox (cfg : K8s.ProbeConfig) (ctx : Ctx.Context) (d : D) (sandbox : Sandbox)
    (claim : option SandboxClaim) (entry : sandboxEntry) (resultChan : option nat) w
    : res CreateSandboxResponse * W :=
  let placeholder := K8s.buildSandboxPlaceHolder (clock w) sandbox entry in
  let '(r, w) := store_Store (clock w) placeholder w in
  match r with
  | Some e => (Err (internalOr e (Wrapf "store sandbox placeholder failed" e)), w)
  | None =>
      let '(r, w) := createSandbox_body cfg ctx d sandbox claim entry resultChan placeholder w in
      match r with
      | Ok resp => (Ok resp, w)
      | Err e => (Err e, rollbackSandboxCreation d sandbox claim (Entry.SessionID entry) w)
      end
  end.

Definition respondSandboxCreateError (e : goerr) : response :=
  if Is e ctxCanceled then NoBody 499
  else if Is e ctxDeadlineExceeded then ErrorJSON StatusGatewayTimeout "request timed out"
  else if Is e errSandboxCreationTimeout then ErrorJSON StatusGatewayTimeout (Error e)
  else ErrorJSON StatusInternalServerError
         (if isInternalSandboxCreateError e then "internal server error" else Error e).

Definition buildSandbox (kind : string) (cachedKey namespace name ownerID : string) w
    : option (res (Sandbox * option SandboxClaim * sandboxEntry)) * W :=
  if String.eqb kind AgentRuntimeKind then
    let '(r, w) := Builder.buildSandboxByAgentRuntime (D := D) namespace name ownerID w in
    ((fun r => match r with Ok (sb, e) => Ok (sb, None, e) | Err e => Err e end) <$> r, w)
  else Builder.buildSandboxByCodeInterpreter (D := D) cachedKey namespace name ownerID w.

Definition handleSandboxCreate (r : Request) (kind : string) s w : response * Srv D * W :=
  match reqBody r with
  | None => (ErrorJSON StatusBadRequest "Invalid request body", s, w)
  | Some req =>
      let req := CreateReq.set_Kind kind req in
      match CreateReq.Validate req with
      | Some e => (ErrorJSON StatusBadRequest (Error e), s, w)
      | None =>
          let '(ownerID, statusCode, errMsg) :=
            Identity.resolveSandboxOwnerID (K := K) (clock w) (cachedPublicKey s) (reqHeader r) in
          if negb (statusCode =? 0) then (ErrorJSON statusCode errMsg, s, w)
          else
            let '(b, w) := buildSandbox (CreateReq.Kind req) (cachedPublicKey s)
              (CreateReq.Namespace req) (CreateReq.Name req) ownerID w in
            match b with
            | None => (Panicked, s, w)
            | Some (Err e) =>
                if Is e ErrAgentRuntimeNotFound || Is e ErrCodeInterpreterNotFound
                then (ErrorJSON StatusNotFound (Error e), s, w)
                else (ErrorJSON StatusInternalServerError "internal server error", s, w)
            | Some (Ok (sandbox, claim, entry)) =>
                let entry := if negb (String.eqb ownerID "") then Entry.set_OwnerID ownerID entry else entry in
                let sandboxName := Name (sb_Meta sandbox) in
                let namespace := Namespace (sb_Meta sandbox) in
                let '(d, s) :=
                  if EnableAuth s then extractUserK8sClient r s w
                  else (Ok (own_client (D := D) (W := W)), s) in
                match d with
                | Err e => (ErrorJSON StatusUnauthorized (Error e), s, w)
                | Ok d =>
                    let '(ch, w) :=
                      match claim with
                      | None => let '(ch, w) := WatchSandboxOnce namespace sandboxName w in (Some ch, w)
                      | Some _ => (None, w)
                      end in
                    let '(r, w) := createSandbox (probe s) (reqCtx r) d sandbox claim entry ch w in
                    let w := match claim with None => UnWatchSandbox namespace sandboxName w | Some _ => w end in
                    match r with
                    | Err e => (respondSandboxCreateError e, s, w)
                    | Ok resp => (JSON StatusOK (CreatedBody resp), s, w)
                    end
                end
            end
      end
  end.

Definition handleAgentRuntimeCreate r s w := handleSandboxCreate r AgentRuntimeKind s w.
Definition handleCodeInterpreterCreate r s w := handleSandboxCreate r CodeInterpreterKind s w.

(** ** Deletion *)

Definition handleDeleteSandbox (r : Request) (sessionID : string) s w : response * Srv D * W :=
  let internal := ErrorJSON StatusInternalServerError "internal server error" in
  let '(got, w) := store_Get sessionID w in
  match got with
  | Err e =>
      if Is e ErrNotFound
      then (ErrorJSON StatusNotFound ("Session ID " +:+ sessionID +:+ " not found, maybe already deleted"), s, w)
      else (internal, s, w)
  | Ok sandbox =>
      let '(d, s) :=
        if EnableAuth s then extractUserK8sClient r s w else (Ok (own_client (D := D) (W := W)), s) in
      match d with
      | Err e => (ErrorJSON StatusUnauthorized (Error e), s, w)
      | Ok d =>
          let del := if String.eqb (Info.Kind sandbox) SandboxClaimsKind
                     then K8s.deleteSandboxClaim else K8s.deleteSandbox in
          let '(e, w) := del d (reqCtx r) (Info.SandboxNamespace sandbox) (Info.Name sandbox) w in
          if (match e with Some e => negb (IsNotFound e) | None => false end) then (internal, s, w)
          else
            let '(e, w) := store_Delete sessionID w in
            match e with
            | Some _ => (internal, s, w)
            | None => (JSON StatusOK (MessageBody [("message", "Sandbox deleted successfully")]), s, w)
            end
      end
  end.

End handlers.
End Wm.
