(* ===== verification/WmStable.v ===== *)
(** * What the handlers' cluster calls leave alone, and that their waits end

    A predicate of the world that every call of the runtime and the cluster
    preserves is preserved by the procedures built from them. Both waiting loops
    race a context with a deadline against a timer: the number of rounds
    the definitions allow is never reached. *)

From stdpp Require Import base list gmap strings.
From S2P Require Import Prelude GoStrings GoTime GoError GoContext GoHttp GoEncoding SandboxTypes StoreSpec K8sTypes Cluster WorldModel Lru Caches WmAuth Reconciler WorkloadBuilder K8sClient WmHandlers.

Section stable.
Context {D W : Type} `{!Env W} `{!Cluster D W} `{!Watchers W}.
Context {AE : ApiErrors} {NE : NetErrors}.
Context (P : W -> Prop) `{!Stable D W P}.
Implicit Types w : W.

Lemma K8s_createSandbox_stable d ctx sb w : P w -> P (K8s.createSandbox (D := D) d ctx sb w).2.
Proof.
  intros Hw. unfold K8s.createSandbox. destruct (toUnstructured_sandbox sb); [done|].
  pose proof (stable_createSandbox d ctx sb w Hw). by destruct (api_createSandbox d ctx sb w) as [[] ?].
Qed.

Lemma K8s_createClaim_stable d ctx sb w : P w -> P (K8s.createSandboxClaim (D := D) d ctx sb w).2.
Proof.
  intros Hw. unfold K8s.createSandboxClaim. destruct (toUnstructured_claim sb); [done|].
  pose proof (stable_createClaim d ctx sb w Hw). by destruct (api_createClaim d ctx sb w) as [[] ?].
Qed.

Lemma K8s_getSandbox_stable d ctx ns n w : P w -> P (K8s.getSandbox (D := D) d ctx ns n w).2.
Proof.
  intros Hw. unfold K8s.getSandbox.
  pose proof (stable_getSandbox d ctx ns n w Hw). by destruct (api_getSandbox d ctx ns n w) as [[[]|] ?].
Qed.

Lemma K8s_getClaim_stable d ctx ns n w : P w -> P (K8s.getSandboxClaim (D := D) d ctx ns n w).2.
Proof.
  intros Hw. unfold K8s.getSandboxClaim.
  pose proof (stable_getClaim d ctx ns n w Hw). by destruct (api_getClaim d ctx ns n w) as [[[]|] ?].
Qed.

Lemma K8s_deleteSandbox_stable d ctx ns n w : P w -> P (K8s.deleteSandbox (D := D) d ctx ns n w).2.
Proof.
  intros Hw. unfold K8s.deleteSandbox. pose proof (stable_deleteSandbox d ctx ns n w Hw).
  destruct (api_deleteSandbox d ctx ns n w) as [[e|] ?]; [by destruct (IsNotFound e)|done].
Qed.

Lemma K8s_deleteClaim_stable d ctx ns n w : P w -> P (K8s.deleteSandboxClaim (D := D) d ctx ns n w).2.
Proof.
  intros Hw. unfold K8s.deleteSandboxClaim. pose proof (stable_deleteClaim d ctx ns n w Hw).
  destruct (api_deleteClaim d ctx ns n w) as [[e|] ?]; [by destruct (IsNotFound e)|done].
Qed.

Lemma K8s_podIP_stable ctx ns n p w : P w -> P (K8s.GetSandboxPodIP (D := D) ctx ns n p w).2.
Proof.
  intros Hw. unfold K8s.GetSandboxPodIP. destruct (negb _).
  - pose proof (stable_getPod ctx ns p w Hw). by destruct (api_getPod ctx ns p w) as [[] ?].
  - destruct (lister_pods _ _ _ _); [|done]. by destruct (K8s.owned_pod _ _).
Qed.

Lemma probe_stable ctx ip ports i w : P w -> P (K8s.probeSandboxEntryPoints (D := D) ctx ip ports i w).2.
Proof.
  revert w. induction ports as [|p ports IH]; intros w Hw; cbn; [done|].
  pose proof (stable_dial ctx (K8s.entryEndpoint ip p) (K8s.dialTimeoutOf i) w Hw).
  unfold K8s.sandboxEntrypointDial. destruct (dial _ _ _ w) as [[[e|]|e] w1]; cbn in *; [done| |done].
  by apply IH.
Qed.

Lemma probe_loop_stable fuel ctx ip ports i w : P w -> P (K8s.probe_loop (D := D) fuel ctx ip ports i w).2.
Proof.
  revert w. induction fuel as [|fuel IH]; intros w Hw; cbn; [done|].
  pose proof (probe_stable ctx ip ports i w Hw) as H1.
  destruct (K8s.probeSandboxEntryPoints _ _ _ _ w) as [[e|] w1]; cbn in *; [|done].
  pose proof (stable_after ctx i w1 H1) as H2. destruct (select_after ctx i w1) as [[] w2]; cbn in *; [by apply IH|done].
Qed.

Lemma entrypoints_stable cfg ctx ip entry w :
  P w -> P (K8s.waitForSandboxEntryPointsReady (D := D) cfg ctx ip entry w).2.
Proof.
  intros Hw. unfold K8s.waitForSandboxEntryPointsReady. destruct (Entry.Ports entry); [done|].
  by apply probe_loop_stable.
Qed.

Lemma resources_stable ctx d sb claim w : P w -> P (Wm.createK8sResources (D := D) ctx d sb claim w).2.
Proof.
  intros Hw. unfold Wm.createK8sResources. destruct claim as [c|].
  - pose proof (K8s_createClaim_stable d ctx c w Hw). destruct (K8s.createSandboxClaim _ _ _ w) as [[e|] ?]; [|done].
    by destruct (Wm.isContextError e).
  - pose proof (K8s_createSandbox_stable d ctx sb w Hw). destruct (K8s.createSandbox _ _ _ w) as [[|e] ?]; [done|].
    by destruct (Wm.isContextError e).
Qed.

Lemma claim_round_stable ctx wctx d claim w : P w -> P (Wm.claim_round (D := D) ctx wctx d claim w).2.
Proof.
  intros Hw. unfold Wm.claim_round.
  pose proof (K8s_getClaim_stable d wctx (Namespace (sc_Meta claim)) (Name (sc_Meta claim)) w Hw) as H1.
  destruct (K8s.getSandboxClaim _ _ _ _ w) as [r w1]. cbn in H1.
  destruct (Wm.sandboxReadyWaitEnded _ _ _ _); [done|]. destruct r as [c|e]; [|by destruct (negb _)].
  destruct (String.eqb _ _); [done|].
  pose proof (K8s_getSandbox_stable d wctx (Namespace (sc_Meta claim)) (sc_StatusSandboxName c) w1 H1) as H2.
  destruct (K8s.getSandbox _ _ _ _ w1) as [r w2]. cbn in H2.
  destruct (Wm.sandboxReadyWaitEnded _ _ _ _); [done|]. destruct r as [s|e]; [|by destruct (negb _)].
  destruct (String.eqb _ _); [|done]. by destruct (Wm.sandboxReadyWaitContextError _ _ _).
Qed.

Lemma claim_loop_stable fuel due start ctx wctx d claim w :
  P w -> P (Wm.claim_loop (D := D) fuel due start ctx wctx d claim w).2.
Proof.
  revert due w. induction fuel as [|fuel IH]; intros due w Hw; cbn; [done|].
  pose proof (claim_round_stable ctx wctx d claim w Hw) as H1.
  destruct (Wm.claim_round _ _ _ _ w) as [[r|u] w1]; cbn in *; [done|].
  pose proof (stable_timer wctx due w1 H1) as H2.
  destruct (select_timer _ _ w1) as [[] w2]; cbn in *; [by apply IH|done].
Qed.

Lemma wait_stable ctx d claim ch w : P w -> P (Wm.waitForCreatedSandbox (D := D) ctx d claim ch w).2.
Proof.
  intros Hw. unfold Wm.waitForCreatedSandbox. destruct claim as [c|].
  - unfold Wm.waitForClaimSandboxReady, Wm.waitForClaimSandboxReadyWithTimeout.
    pose proof (claim_loop_stable (S (S (Z.to_nat (Wm.sandboxCreationTimeout / Tm.Second)))) (clock w + Tm.Second) (clock w) ctx
      (Ctx.WithTimeoutCause ctx Wm.sandboxCreationTimeout (ESent errSandboxCreationTimeout) (clock w)) d c w Hw) as H1.
    by destruct (Wm.claim_loop _ _ _ _ _ _ _ w).
  - unfold Wm.waitForDirectSandboxReady. destruct ch as [ch|]; [|done].
    pose proof (stable_ready ch ctx (clock w + Wm.sandboxCreationTimeout) w Hw) as H1.
    by destruct (select_ready _ _ _ w) as [[[]| | |] ?].
Qed.

End stable.

(** ** The waiting loops *)

Section loops.
Context {D W : Type} `{!Env W} `{!Cluster D W} `{!Watchers W}.
Context {AE : ApiErrors} {NE : NetErrors}.
Context `{!EnvLaws W} `{Hclock : forall t, Stable D W (fun w => t <= clock w)}.
Implicit Types w : W.

(** ** The claim loop *)

Lemma wait_error_ended ctx waitCtx e now :
  Ctx.Err waitCtx now <> None -> Wm.sandboxReadyWaitEnded ctx waitCtx e now <> None.
Proof.
  unfold Wm.sandboxReadyWaitEnded, Wm.sandboxReadyWaitContextError. intros He.
  destruct (Ctx.Err waitCtx now); [|done]. destruct (Wm.timedOut _); [done|]. by destruct (Ctx.Err ctx now).
Qed.

Lemma getSandboxClaim_clock d ctx ns n w : clock w <= clock (K8s.getSandboxClaim (D := D) d ctx ns n w).2.
Proof.
  unfold K8s.getSandboxClaim. pose proof (stable_getClaim (P := fun w' => clock w <= clock w') d ctx ns n w (Z.le_refl _)) as H.
  destruct (api_getClaim d ctx ns n w) as [[[]|] ?]; done.
Qed.

Lemma getSandbox_clock d ctx ns n w : clock w <= clock (K8s.getSandbox (D := D) d ctx ns n w).2.
Proof.
  unfold K8s.getSandbox. pose proof (stable_getSandbox (P := fun w' => clock w <= clock w') d ctx ns n w (Z.le_refl _)) as H.
  destruct (api_getSandbox d ctx ns n w) as [[[]|] ?]; done.
Qed.

(** Once the waiting context has ended, a round ends the wait. *)
Lemma claim_round_ended ctx waitCtx d claim w :
  Ctx.Err waitCtx (clock w) <> None -> exists r, (Wm.claim_round (D := D) ctx waitCtx d claim w).1 = inl r.
Proof.
  intros He. unfold Wm.claim_round.
  pose proof (getSandboxClaim_clock d waitCtx (Namespace (sc_Meta claim)) (Name (sc_Meta claim)) w) as Hc.
  destruct (K8s.getSandboxClaim _ _ _ _ w) as [r w1]. cbn in Hc.
  destruct (Wm.sandboxReadyWaitEnded ctx waitCtx (res_err r) (clock w1)) eqn:Hw; [by eexists|].
  exfalso. revert Hw. apply wait_error_ended. by rewrite (Ctx.Err_mono waitCtx (clock w)).
Qed.

Lemma claim_loop_ends ctx d claim timeout start : forall fuel k due w,
  0 <= timeout -> 1 <= k <= timeout / Tm.Second + 2 -> start + k * Tm.Second <= due ->
  timeout / Tm.Second + 2 <= Z.of_nat fuel + (k - 1) ->
  start + (k - 1) * Tm.Second <= clock w ->
  (Wm.claim_loop (D := D) fuel due start ctx
     (Ctx.WithTimeoutCause ctx timeout (ESent errSandboxCreationTimeout) start) d claim w).1 <> None.
Proof.
  set (waitCtx := Ctx.WithTimeoutCause _ _ _ _).
  intros fuel. induction fuel as [|fuel IH]; intros k due w Ht Hk Hdue Hf Hc; [lia|]. cbn [Wm.claim_loop].
  destruct (decide (start + timeout <= clock w)) as [Hd|Hd].
  - destruct (claim_round_ended ctx waitCtx d claim w) as [r Hr].
    { by apply Ctx.Err_deadline. }
    destruct (Wm.claim_round _ _ _ _ w) as [? w1]. cbn in Hr. by subst.
  - assert (k <= timeout / Tm.Second + 1) as Hk'.
    { assert (k - 1 <= timeout / Tm.Second); [|lia].
      apply Z.div_le_lower_bound; [unfold Tm.Second; lia|]. lia. }
    destruct (Wm.claim_round _ _ _ _ w) as [[r|[]] w1]; [done|].
    destruct (select_timer waitCtx _ w1) as [[] w2] eqn:Hsel; [|done].
    apply timer_due in Hsel. apply (IH (k + 1)); [done|lia| |lia|lia].
    apply Tm.nextTick_after; [unfold Tm.Second; lia|lia].
Qed.

(** ** The probe loop *)

Lemma probe_clock ctx ip ports i w : clock w <= clock (K8s.probeSandboxEntryPoints (D := D) ctx ip ports i w).2.
Proof.
  revert w. induction ports as [|p ports IH]; intros w; cbn; [lia|].
  pose proof (stable_dial (P := fun w' => clock w <= clock w') ctx (K8s.entryEndpoint ip p) (K8s.dialTimeoutOf i) w
    (Z.le_refl _)) as Hd. cbn in Hd.
  unfold K8s.sandboxEntrypointDial. destruct (dial _ _ _ w) as [[[e|]|e] w1]; cbn in *; [done| |done].
  etransitivity; [exact Hd|apply IH].
Qed.

Lemma probe_loop_ends ctx ip ports timeout interval start : forall fuel n w,
  0 <= timeout -> 0 < interval ->
  0 <= n -> timeout / interval + 2 <= Z.of_nat fuel + n -> n <= timeout / interval + 1 ->
  start + n * interval <= clock w ->
  (K8s.probe_loop (D := D) fuel (Ctx.WithTimeout ctx timeout start) ip ports interval w).1 <> None.
Proof.
  set (probeCtx := Ctx.WithTimeout _ _ _).
  intros fuel. induction fuel as [|fuel IH]; intros n w Ht Hi Hn Hf Hn' Hc; [lia|]. cbn [K8s.probe_loop].
  pose proof (probe_clock probeCtx ip ports interval w) as Hp.
  destruct (K8s.probeSandboxEntryPoints _ _ _ _ w) as [[e|] w1]; [|done]. cbn in Hp.
  destruct (select_after probeCtx _ w1) as [fired w2] eqn:Hsel. destruct fired; [|done].
  destruct (decide (start + timeout <= clock w1)) as [Hd|Hd].
  - pose proof (after_ctx_first probeCtx interval w1) as Hfst.
    rewrite Hsel in Hfst. cbn in Hfst. exfalso. enough (true = false) by done. apply Hfst; [|done].
    by apply Ctx.Err_deadline.
  - apply after_due in Hsel. apply (IH (n + 1)); try done; try lia.
    assert (n <= timeout / interval); [|lia]. apply Z.div_le_lower_bound; [lia|].
    rewrite Z.mul_comm. lia.
Qed.

Lemma orDefault_pos d dflt : 0 < dflt -> 0 < K8s.orDefault d dflt.
Proof. unfold K8s.orDefault. destruct (Z.ltb_spec 0 d); lia. Qed.

Lemma claim_wait_ends ctx d claim timeout w :
  0 <= timeout -> (Wm.waitForClaimSandboxReadyWithTimeout (D := D) ctx d claim timeout w).1 <> None.
Proof.
  intros Ht. pose proof (Z.div_pos timeout Tm.Second). unfold Wm.waitForClaimSandboxReadyWithTimeout.
  apply (claim_loop_ends _ _ _ _ _ _ 1); unfold Tm.Second in *; try done; lia.
Qed.

Lemma probe_wait_ends cfg ctx ip entry w :
  (K8s.waitForSandboxEntryPointsReady (D := D) cfg ctx ip entry w).1 <> None.
Proof.
  unfold K8s.waitForSandboxEntryPointsReady. destruct (Entry.Ports entry) as [|p ps]; [done|].
  set (timeout := K8s.orDefault _ _). set (interval := K8s.orDefault (K8s.SandboxReadyProbeInterval cfg) _).
  assert (0 < timeout) by (apply orDefault_pos; unfold K8s.defaultSandboxReadyProbeTimeout, Tm.Second; lia).
  assert (0 < interval) by (apply orDefault_pos; unfold K8s.defaultSandboxReadyProbeInterval, Tm.Second; lia).
  pose proof (Z.div_pos timeout interval). apply (probe_loop_ends ctx ip _ timeout interval (clock w) _ 0);
    unfold K8s.probe_fuel; try done; lia.
Qed.

End loops.
