(* ===== verification/WmCreate.v ===== *)
(** * Creating a sandbox: what it does to the session store and the cluster *)

From stdpp Require Import base list gmap strings.
From S2P Require Import Prelude GoStrings GoTime GoError GoContext GoHttp GoEncoding SandboxTypes StoreSpec K8sTypes Cluster Lru Caches WmAuth Reconciler WorkloadBuilder K8sClient WmHandlers WmStable.

(** API objects are decoded from JSON: the records built from them can be
    encoded. [good] and [good_ip] hold of the sandboxes and pod addresses that
    the cluster reports. *)
Class StorableObjects (D W : Type) `{!Env W} `{!Cluster D W} (good : Sandbox -> Prop)
    (good_ip : string -> Prop) : Prop := {
  good_get (d : D) ctx ns n w sb w' : api_getSandbox d ctx ns n w = (Ok (Ok sb), w') -> good sb;
  good_ready ch ctx t w sb w' : select_ready ch ctx t w = (GotUpdate (Some sb), w') -> good sb;
  good_pod ctx ns n w p w' : api_getPod (D := D) ctx ns n w = (Ok p, w') -> good_ip (pod_IP p);
  good_pods ns k v w ps p : lister_pods (D := D) ns k v w = Ok ps -> p ∈ ps -> good_ip (pod_IP p);
}.

Section good.
Context {D W : Type} `{!Env W} `{!Cluster D W} {AE : ApiErrors} {NE : NetErrors}.
Context (good : Sandbox -> Prop) (good_ip : string -> Prop) `{!StorableObjects D W good good_ip}.
Implicit Types w : W.

Lemma claim_round_good ctx wctx d claim w sb w' :
  Wm.claim_round (D := D) ctx wctx d claim w = (inl (Ok sb), w') ->
  good sb /\ getSandboxStatus sb = sandboxStatusReady.
Proof.
  unfold Wm.claim_round, K8s.getSandboxClaim, K8s.getSandbox.
  destruct (api_getClaim _ _ _ _ w) as [[[c|e]|e] w1]; cbn.
  2, 3: destruct (Wm.sandboxReadyWaitEnded _ _ _ _); [done|]; by destruct (negb _).
  destruct (Wm.sandboxReadyWaitEnded _ _ _ _); [done|]. destruct (String.eqb _ _); [done|].
  destruct (api_getSandbox _ _ _ _ w1) as [[[s|e]|e] w2] eqn:Hg; cbn.
  2, 3: destruct (Wm.sandboxReadyWaitEnded _ _ _ _); [done|]; by destruct (negb _).
  destruct (Wm.sandboxReadyWaitEnded _ _ _ _); [done|].
  destruct (String.eqb_spec (getSandboxStatus s) sandboxStatusReady); [|done].
  destruct (Wm.sandboxReadyWaitContextError _ _ _); [done|]. intros [= <- <-]. split; [by eapply good_get|done].
Qed.

Lemma claim_loop_good fuel due start ctx wctx d claim w sb w' :
  Wm.claim_loop (D := D) fuel due start ctx wctx d claim w = (Some (Ok sb), w') ->
  good sb /\ getSandboxStatus sb = sandboxStatusReady.
Proof.
  revert due w. induction fuel as [|fuel IH]; intros due w; cbn; [done|].
  destruct (Wm.claim_round _ _ _ _ w) as [[r|u] w1] eqn:Hr.
  - intros [= -> <-]. by eapply claim_round_good.
  - destruct (select_timer _ _ w1) as [[] w2]; [apply IH|done].
Qed.

Lemma wait_good ctx d claim ch w sb w' :
  Wm.waitForCreatedSandbox (D := D) ctx d claim ch w = (Ok sb, w') ->
  good sb /\ (is_Some claim -> getSandboxStatus sb = sandboxStatusReady).
Proof.
  unfold Wm.waitForCreatedSandbox. destruct claim as [c|].
  - unfold Wm.waitForClaimSandboxReady, Wm.waitForClaimSandboxReadyWithTimeout.
    destruct (Wm.claim_loop _ _ _ _ _ _ _ w) as [[r|] w1] eqn:Hl; cbn; [|done].
    intros [= -> <-]. apply claim_loop_good in Hl as [? ?]. done.
  - unfold Wm.waitForDirectSandboxReady. destruct ch as [ch|]; [|done].
    destruct (select_ready _ _ _ w) as [[[s|]| | |] w1] eqn:Hs; intros [= <- <-].
    split; [by eapply good_ready|]. by intros [? ?].
Qed.

Lemma owned_pod_elem n ps p : K8s.owned_pod n ps = Some p -> p ∈ ps.
Proof.
  induction ps as [|q ps IH]; cbn; [done|]. destruct (existsb _ _); [intros [= ->]; left|].
  intros Hp. right. by apply IH.
Qed.

Lemma validate_ip p ip : K8s.validateAndGetPodIP p = Ok ip -> ip = pod_IP p /\ ip <> "" /\ pod_Phase p = "Running".
Proof.
  unfold K8s.validateAndGetPodIP. destruct (String.eqb_spec (pod_Phase p) "Running"); cbn; [|done].
  destruct (String.eqb_spec (pod_IP p) ""); [done|]. by intros [= <-].
Qed.

Lemma podIP_good ctx ns n pn w ip w' : K8s.GetSandboxPodIP (D := D) ctx ns n pn w = (Ok ip, w') -> good_ip ip.
Proof.
  unfold K8s.GetSandboxPodIP. destruct (negb _).
  - destruct (api_getPod _ _ _ w) as [[p|e] w1] eqn:Hp; [|done]. intros [= Hv%validate_ip <-].
    destruct Hv as (-> & _). by eapply good_pod.
  - destruct (lister_pods _ _ _ w) as [ps|e] eqn:Hl; [|done].
    destruct (K8s.owned_pod n ps) as [p|] eqn:Ho; [|done]. intros [= Hv%validate_ip <-].
    destruct Hv as (-> & _). apply owned_pod_elem in Ho. by eapply good_pods.
Qed.

End good.

Lemma info_SessionID ph sb ip claim entry :
  Info.SessionID (Wm.storeCacheInfo ph sb ip claim entry) = Entry.SessionID entry.
Proof. by destruct claim. Qed.

Lemma spec_delete_store now i g :
  let sid := Info.SessionID i in
  sessions g !! sid = None -> expiry g !! sid = None -> activity g !! sid = None ->
  spec_delete sid (spec_store now i g) = g.
Proof.
  destruct g as [s e a]. cbn. intros Hs He Ha. unfold spec_delete, spec_store, add_session. cbn. rewrite Hs.
  unfold del_activity, del_expiry, del_session. cbn. by rewrite !delete_insert_id.
Qed.

(** ** The session store *)

Section registry.
Context {D W : Type} `{!Env W} `{!Cluster D W} `{!Watchers W} `{!Store W}.
Context {AE : ApiErrors} {NE : NetErrors} {SC : SandboxCodec}.
Context (rep : W -> registry -> Prop) `{!StoreExact W rep} `{Hst : forall g, Stable D W (fun w => rep w g)}.
Context (good : Sandbox -> Prop) (good_ip : string -> Prop) `{!StorableObjects D W good good_ip}.
Implicit Types (w : W) (g : registry).

Lemma unit_out_done r : unit_out r = Done -> r = None.
Proof. destruct r as [e|]; [|done]. unfold unit_out, err_out. by destruct (Is e _). Qed.

Lemma exact_unit o w g (f : W -> option goerr * W) :
  (forall w, run o w = let '(r, w) := f w in (unit_out r, w)) ->
  rep w g -> op_valid o ->
  exists g', rep (f w).2 g' /\ spec_run o g = (unit_out (f w).1, g').
Proof.
  intros Hf HR Hv. destruct (f w) as [r w'] eqn:Hr. cbn.
  destruct (store_exact o w g (unit_out r) w' HR Hv) as (g' & HR' & Hs); [by rewrite Hf, Hr|eauto].
Qed.

Lemma exact_Store now i w g :
  rep w g -> valid_sid (Info.SessionID i) -> storable i ->
  exists g', rep (store_Store now i w).2 g' /\ spec_run (OpStore now i) g = (unit_out (store_Store now i w).1, g').
Proof. intros HR Hv Hs. by apply (exact_unit (OpStore now i)). Qed.

Lemma exact_Update i w g :
  rep w g -> valid_sid (Info.SessionID i) -> storable i ->
  exists g', rep (store_Update i w).2 g' /\ spec_run (OpUpdate i) g = (unit_out (store_Update i w).1, g').
Proof. intros HR Hv Hs. by apply (exact_unit (OpUpdate i)). Qed.

Lemma exact_Delete sid w g :
  rep w g -> valid_sid sid -> rep (store_Delete sid w).2 (spec_delete sid g) /\ (store_Delete sid w).1 = None.
Proof.
  intros HR Hv. destruct (exact_unit (OpDelete sid) w g (store_Delete sid)) as (g' & HR' & Hs); [done..|].
  cbn in Hs. injection Hs as Ho <-. split; [done|]. by apply unit_out_done.
Qed.

(** The body either fails and leaves the store alone, or ends by replacing the
    placeholder with the record of the created sandbox. *)
Lemma body_registry cfg ctx d sb claim entry ch ph w g r w' :
  rep w g -> valid_sid (Entry.SessionID entry) -> is_Some (sessions g !! Entry.SessionID entry) ->
  (forall created ip, good created -> good_ip ip -> storable (Wm.storeCacheInfo ph created ip claim entry)) ->
  Wm.createSandbox_body (D := D) cfg ctx d sb claim entry ch ph w = (r, w') ->
  (exists e, r = Err e /\ rep w' g) \/
  (exists created ip, r = Ok (Wm.createResponse (Wm.storeCacheInfo ph created ip claim entry) entry) /\
     good created /\ good_ip ip /\ (is_Some claim -> getSandboxStatus created = sandboxStatusReady) /\
     rep w' (put_session (Entry.SessionID entry) (Info.persisted (Wm.storeCacheInfo ph created ip claim entry)) g)).
Proof.
  intros HR Hv Hi Hgood. unfold Wm.createSandbox_body.
  pose proof (resources_stable (fun w => rep w g) ctx d sb claim w HR) as H1.
  destruct (Wm.createK8sResources ctx d sb claim w) as [[e|] w1]; cbn in H1; [intros [= <- <-]; left; eauto|].
  pose proof (wait_stable (fun w => rep w g) ctx d claim ch w1 H1) as H2.
  destruct (Wm.waitForCreatedSandbox ctx d claim ch w1) as [[created|e] w2] eqn:Hw; cbn in H2; [|intros [= <- <-]; left; eauto].
  destruct (wait_good good good_ip _ _ _ _ _ _ _ Hw) as [Hg Hready].
  set (pn := default _ _).
  pose proof (K8s_podIP_stable (fun w => rep w g) ctx (Namespace (sb_Meta created)) (Name (sb_Meta created)) pn w2 H2) as H3.
  destruct (K8s.GetSandboxPodIP _ _ _ _ w2) as [[ip|e] w3] eqn:Hip; cbn in H3; [|intros [= <- <-]; left; eauto].
  apply (podIP_good good good_ip) in Hip.
  pose proof (entrypoints_stable (fun w => rep w g) cfg ctx ip entry w3 H3) as H4.
  destruct (K8s.waitForSandboxEntryPointsReady _ _ _ _ w3) as [pr w4]; cbn in H4.
  destruct (default (Some Wm.loopBound) pr) as [e|]; [intros [= <- <-]; left; eauto|].
  set (i := Wm.storeCacheInfo ph created ip claim entry).
  assert (Info.SessionID i = Entry.SessionID entry) as Hsid by apply info_SessionID.
  destruct (exact_Update i w4 g H4) as (g' & HR' & Hspec); [by rewrite Hsid|by apply Hgood|].
  destruct (store_Update i w4) as [ru w5]. cbn in *. rewrite Hsid in Hspec.
  destruct Hi as [x Hx]. rewrite Hx in Hspec. injection Hspec as Ho <-. symmetry in Ho.
  apply unit_out_done in Ho as ->. intros [= <- <-]. right. exists created, ip. by split_and!.
Qed.

End registry.

(** ** The errors of a creation *)

Section errors.
Context {D W : Type} `{!Env W} `{!Cluster D W} `{!Watchers W} `{!Store W}.
Context {AE : ApiErrors} {AL : ApiErrorLaws} {NE : NetErrors}.
Context `{!EnvLaws W} `{Hclock : forall t, Stable D W (fun w => t <= clock w)}.
Implicit Types w : W.

(** A context error, the creation timeout, or an internal error. *)
Definition classified (e : goerr) : Prop :=
  Wm.isContextError e = true \/ e = ESent errSandboxCreationTimeout \/
  (Wm.isInternalSandboxCreateError e = true /\ Is e errSandboxCreationTimeout = false).

Lemma classified_internal e : classified (Api.NewInternalError e).
Proof. right. right. unfold Wm.isInternalSandboxCreateError, Api.NewInternalError. by rewrite IsInternalError_New. Qed.

Lemma classified_internalOr e e' : classified (Wm.internalOr e e').
Proof. unfold Wm.internalOr. destruct (Wm.isContextError e) eqn:He; [by left|apply classified_internal]. Qed.

Lemma std_Err c now e : Ctx.std c -> Ctx.Err c now = Some e -> classified e.
Proof.
  unfold Ctx.Err. intros Hs. destruct (Ctx.ends c); [|done]. destruct (_ <=? _); [|done].
  intros [= <-]. left. by destruct Hs as [-> | ->].
Qed.

Lemma wait_context_classified ctx wctx now e :
  Ctx.std ctx -> Ctx.std wctx -> Wm.sandboxReadyWaitContextError ctx wctx now = Some e -> classified e.
Proof.
  intros Hc Hw. unfold Wm.sandboxReadyWaitContextError. destruct (Ctx.Err wctx now) as [we|] eqn:He; [|done].
  destruct (Wm.timedOut _); [intros [= <-]; right; by left|].
  destruct (Ctx.Err ctx now) as [pe|] eqn:Hp; intros [= <-]; [by apply (std_Err ctx now)|by apply (std_Err wctx now)].
Qed.

Lemma wait_ended_classified ctx wctx re now e :
  Ctx.std ctx -> Ctx.std wctx -> Wm.sandboxReadyWaitEnded ctx wctx re now = Some e -> classified e.
Proof.
  intros Hc Hw. unfold Wm.sandboxReadyWaitEnded.
  destruct (Wm.sandboxReadyWaitContextError ctx wctx now) as [we|] eqn:He.
  - intros [= <-]. eapply wait_context_classified; [exact Hc|exact Hw|eassumption].
  - destruct re as [e'|]; [|done]. destruct (Wm.isContextError e') eqn:Hx; [|done]. intros [= <-]. by left.
Qed.

Lemma claim_round_classified ctx wctx d claim w e w' :
  Ctx.std ctx -> Ctx.std wctx ->
  Wm.claim_round (D := D) ctx wctx d claim w = (inl (Err e), w') -> classified e.
Proof.
  intros Hc Hw. unfold Wm.claim_round.
  destruct (K8s.getSandboxClaim _ _ _ _ w) as [r w1].
  destruct (Wm.sandboxReadyWaitEnded ctx wctx (res_err r) (clock w1)) as [we|] eqn:He;
    [intros [= <- <-]; eapply wait_ended_classified; [exact Hc|exact Hw|eassumption]|].
  destruct r as [c|e1]; [|destruct (negb _); [intros [= <- <-]; apply classified_internal|done]].
  destruct (String.eqb _ _); [done|]. destruct (K8s.getSandbox _ _ _ _ w1) as [r w2].
  destruct (Wm.sandboxReadyWaitEnded ctx wctx (res_err r) (clock w2)) as [we|] eqn:He2;
    [intros [= <- <-]; eapply wait_ended_classified; [exact Hc|exact Hw|eassumption]|].
  destruct r as [s|e1]; [|destruct (negb _); [intros [= <- <-]; apply classified_internal|done]].
  destruct (String.eqb _ _); [|done].
  destruct (Wm.sandboxReadyWaitContextError ctx wctx (clock w2)) as [we|] eqn:He3; [|done].
  intros [= <- <-]. eapply wait_context_classified; [exact Hc|exact Hw|eassumption].
Qed.

Lemma claim_loop_classified fuel due start ctx wctx d claim w e w' :
  Ctx.std ctx -> Ctx.std wctx ->
  Wm.claim_loop (D := D) fuel due start ctx wctx d claim w = (Some (Err e), w') -> classified e.
Proof.
  intros Hc Hw. revert due w. induction fuel as [|fuel IH]; intros due w; cbn; [done|].
  destruct (Wm.claim_round _ _ _ _ w) as [[r|u] w1] eqn:Hr.
  - intros [= -> <-]. eapply claim_round_classified; [exact Hc|exact Hw|eassumption].
  - destruct (select_timer _ _ w1) as [[] w2]; [apply IH|]. intros [= <- <-].
    destruct (Wm.sandboxReadyWaitContextError ctx wctx (clock w2)) as [we|] eqn:He; cbn; [|by left].
    eapply wait_context_classified; [exact Hc|exact Hw|eassumption].
Qed.

Lemma wait_classified ctx d claim ch w e w' :
  Ctx.std ctx ->
  Wm.waitForCreatedSandbox (D := D) ctx d claim ch w = (Err e, w') -> classified e.
Proof.
  intros Hc. unfold Wm.waitForCreatedSandbox. destruct claim as [c|].
  - unfold Wm.waitForClaimSandboxReady.
    pose proof (claim_wait_ends ctx d c Wm.sandboxCreationTimeout w) as Hn.
    destruct (Wm.waitForClaimSandboxReadyWithTimeout _ _ _ _ w) as [[r|] w1] eqn:Hl; cbn in Hn |- *.
    + intros [= -> <-]. unfold Wm.waitForClaimSandboxReadyWithTimeout in Hl.
      eapply claim_loop_classified; [exact Hc| |exact Hl]. by apply Ctx.std_WithTimeoutCause.
    + exfalso. apply Hn; [|done]. unfold Wm.sandboxCreationTimeout, Tm.Minute, Tm.Second. lia.
  - unfold Wm.waitForDirectSandboxReady. destruct ch as [ch|].
    2: { intros [= <- <-]. right. right. unfold Wm.isInternalSandboxCreateError. cbn. by rewrite !orb_true_r. }
    destruct (select_ready _ _ _ w) as [[[s|]| | |] w1]; intros [= <- <-].
    + right. right. unfold Wm.isInternalSandboxCreateError. cbn. by rewrite !orb_true_r.
    + right. right. unfold Wm.isInternalSandboxCreateError. cbn. by rewrite !orb_true_r.
    + destruct (Ctx.Err ctx (clock w1)) as [x|] eqn:He; [by apply (std_Err ctx (clock w1))|by left].
    + right. by left.
Qed.

Lemma resources_classified ctx d sb claim w e w' :
  Wm.createK8sResources (D := D) ctx d sb claim w = (Some e, w') -> classified e.
Proof.
  unfold Wm.createK8sResources. destruct claim as [c|].
  - destruct (K8s.createSandboxClaim _ _ _ w) as [[e1|] w1]; [|done].
    destruct (Wm.isContextError e1) eqn:He; intros [= <- <-]; [by left|apply classified_internal].
  - destruct (K8s.createSandbox _ _ _ w) as [[x|e1] w1]; [done|].
    destruct (Wm.isContextError e1) eqn:He; intros [= <- <-]; [by left|apply classified_internal].
Qed.

Lemma body_classified cfg ctx d sb claim entry ch ph w e w' :
  Ctx.std ctx ->
  Wm.createSandbox_body (D := D) cfg ctx d sb claim entry ch ph w = (Err e, w') -> classified e.
Proof.
  intros Hc. unfold Wm.createSandbox_body.
  destruct (Wm.createK8sResources _ _ _ _ w) as [[e1|] w1] eqn:Hr; [intros [= <- <-]; by eapply resources_classified|].
  destruct (Wm.waitForCreatedSandbox _ _ _ _ w1) as [[cr|e1] w2] eqn:Hw; [|intros [= <- <-]; by eapply wait_classified].
  destruct (K8s.GetSandboxPodIP _ _ _ _ w2) as [[ip|e1] w3]; [|intros [= <- <-]; apply classified_internalOr].
  destruct (K8s.waitForSandboxEntryPointsReady _ _ _ _ w3) as [pr w4].
  destruct (default (Some Wm.loopBound) pr) as [e1|]; [intros [= <- <-]; apply classified_internalOr|].
  destruct (store_Update _ w4) as [[e1|] w5]; [intros [= <- <-]; apply classified_internalOr|done].
Qed.

End errors.
