(* ===== verification/WmTheorems.v ===== *)
(** * Properties of the workload manager's handlers *)

From stdpp Require Import base list gmap strings.
From S2P Require Import Prelude GoStrings GoTime GoError GoContext GoHttp GoEncoding SandboxTypes StoreSpec StoreRefinement K8sTypes Cluster WorldModel Lru Caches WmAuth Reconciler WorkloadBuilder K8sClient WmHandlers WmStable WmCreate.

(** A session identifier that occurs nowhere in the registry, as a new UUID. *)
Definition fresh_sid (sid : string) (g : registry) : Prop :=
  valid_sid sid /\ sessions g !! sid = None /\ expiry g !! sid = None /\ activity g !! sid = None.

(** The registry after a creation. *)
Lemma create_registry {D W : Type} `{!Env W} `{!Cluster D W} `{!Watchers W} `{!Store W}
    {AE : ApiErrors} {NE : NetErrors} {SC : SandboxCodec}
    (rep : W -> registry -> Prop) `{!StoreExact W rep} `{Hst : forall g, Stable D W (fun w => rep w g)}
    (good : Sandbox -> Prop) (good_ip : string -> Prop) `{!StorableObjects D W good good_ip}
    (cfg : K8s.ProbeConfig) (ctx : Ctx.Context) (d : D) (sb : Sandbox) (claim : option SandboxClaim)
    (entry : sandboxEntry) (ch : option nat) (w : W) (g : registry) r w' :
  let ph := K8s.buildSandboxPlaceHolder (clock w) sb entry in
  let sid := Entry.SessionID entry in
  rep w g -> fresh_sid sid g -> storable ph ->
  (forall created ip, good created -> good_ip ip -> storable (Wm.storeCacheInfo ph created ip claim entry)) ->
  Wm.createSandbox cfg ctx d sb claim entry ch w = (r, w') ->
  match r with
  | Err _ => rep w' g
  | Ok resp => exists i, resp = Wm.createResponse i entry /\ Info.SessionID i = sid /\
      Info.OwnerID i = Entry.OwnerID entry /\
      rep w' (put_session sid (Info.persisted i) (spec_store (clock w) ph g))
  end.
Proof.
  intros ph sid HR (Hv & Hs & He & Ha) Hph Hgood. unfold Wm.createSandbox. fold ph.
  destruct (exact_Store rep (clock w) ph w g HR Hv Hph) as (g1 & HR1 & Hspec).
  destruct (store_Store (clock w) ph w) as [[e|] w1]; cbn [fst snd] in *; cbn in Hspec.
  { destruct (Tm.IsZero _); [|by unfold err_out in Hspec; destruct (Is e _)].
    injection Hspec as _ <-. by intros [= <- <-]. }
  destruct (Tm.IsZero _); [done|]. injection Hspec as <-.
  destruct (Wm.createSandbox_body _ _ _ _ _ _ _ _ w1) as [rb w2] eqn:Hb.
  apply (body_registry rep good good_ip _ _ _ _ _ _ _ _ _ _ _ _ HR1 Hv) in Hb;
    [|unfold spec_store, add_session; cbn; fold sid; rewrite Hs; cbn; rewrite lookup_insert_eq; eauto|done].
  destruct Hb as [(e & -> & HR2)|(created & ip & -> & _ & _ & _ & HR2)]; intros [= <- <-].
  - unfold Wm.rollbackSandboxCreation.
    set (w3 := match claim with Some _ => _ | None => _ end).
    assert (rep w3 (spec_store (clock w) ph g)) as HR3.
    { unfold w3. destruct claim as [c|].
      - by apply (K8s_deleteClaim_stable (fun w => rep w (spec_store (clock _) ph g))).
      - by apply (K8s_deleteSandbox_stable (fun w => rep w (spec_store (clock _) ph g))). }
    destruct (exact_Delete rep sid w3 _ HR3 Hv) as [HR4 _].
    change sid with (Info.SessionID ph) in HR4. by rewrite spec_delete_store in HR4.
  - eexists. split; [done|]. split; [apply info_SessionID|]. split; [by destruct claim|done].
Qed.


(** ** A concrete creation *)

Import ApiModel CodecModel.CodecModel WM.

#[export] Instance no_net : NetErrors :=
  {| net_IsTimeout _ := false; net_IsProbableEOF _ := false; net_IsConnectionReset _ := false;
     net_IsHTTP2ConnectionLost _ := false; net_IsConnectionRefused _ := false |}.

#[export] Instance all_storable : StorableObjects string world (fun _ => True) (fun _ => True).
Proof. by split. Qed.

Definition probe0 : K8s.ProbeConfig :=
  {| K8s.SandboxReadyProbeTimeout := 0; K8s.SandboxReadyProbeInterval := 0 |}.

Definition port0 : TargetPort := {| PathPrefix := "/"; port_Name := ""; Port := 8080; Protocol := "HTTP" |}.

Definition entry0 : sandboxEntry :=
  {| Entry.Kind := SandboxKind; Entry.SessionID := "s1"; Entry.OwnerID := "alice";
     Entry.Ports := [port0]; Entry.IdleTimeout := 0 |}.

Definition sandbox0 : Sandbox :=
  Builder.buildSandboxObject (clock world0)
    {| Builder.namespace := "ns"; Builder.workloadName := "web"; Builder.sandboxName := "web-1";
       Builder.sessionID := "s1"; Builder.ownerID := "alice"; Builder.ttl := 0; Builder.idleTimeout := 0;
       Builder.podSpec := podSpec0; Builder.podLabels := ∅; Builder.podAnnotations := ∅ |}.

Definition watched : nat * world := WatchSandboxOnce "ns" "web-1" world0.

Definition created0 := Wm.createSandbox probe0 Ctx.Background "" sandbox0 None entry0 (Some watched.1) watched.2.

Lemma rep_world0 : rep world0 empty_registry.
Proof. apply represents_empty. Qed.

Lemma fresh_s1 : fresh_sid "s1" empty_registry.
Proof. by repeat split; vm_compute. Qed.


(** ** Termination *)

(** [C25] The waits of a creation end: neither the claim loop (one-second ticker,
    two-minute timeout) nor the entry point probe loop (configured interval and
    timeout) exceeds the number of rounds its definition allows, whatever the
    cluster answers and whenever the request is cancelled. *)
Theorem creation_waits_terminate {D W : Type} `{!Env W} `{!Cluster D W} `{!Watchers W}
    {AE : ApiErrors} {NE : NetErrors} `{!EnvLaws W}
    `{Hclock : forall t, Stable D W (fun w => t <= clock w)}
    (cfg : K8s.ProbeConfig) (ctx : Ctx.Context) (d : D) (claim : SandboxClaim) (ip : string)
    (entry : sandboxEntry) (w : W) :
  (Wm.waitForClaimSandboxReady ctx d claim w).1 <> None /\
  (K8s.waitForSandboxEntryPointsReady (D := D) cfg ctx ip entry w).1 <> None.
Proof.
  split; [|apply probe_wait_ends]. apply claim_wait_ends.
  unfold Wm.sandboxCreationTimeout, Tm.Minute, Tm.Second. lia.
Qed.

Definition claim0 : SandboxClaim :=
  {| sc_APIVersion := ""; sc_Kind := ""; sc_Meta := meta0; sc_TemplateRef := ""; sc_StatusSandboxName := "" |}.

(** The claim never gets a sandbox and the entry point refuses connections. *)
Definition world_down : world :=
  {| w_kv := ∅; w_clock := 0; w_next := 0; w_sandboxes := ∅; w_claims := <[("", "") := claim0]> ∅; w_pods := ∅;
     w_ars := ∅; w_cis := ∅; w_users := ∅; w_down := ["10.0.0.1:8080"]; w_chans := ∅ |}.

Lemma creation_waits_terminate_witness :
  (Wm.waitForClaimSandboxReady (D := string) Ctx.Background "" claim0 world_down).1
    = Some (Err (ESent errSandboxCreationTimeout)) /\
  (Wm.waitForClaimSandboxReady (D := string) Ctx.Background "" claim0 world_down).1 <> None /\
  (K8s.waitForSandboxEntryPointsReady (D := string) probe0 Ctx.Background "10.0.0.1" entry0 world_down).1 <> None.
Proof.
  split; [vm_compute; reflexivity|].
  refine (creation_waits_terminate (Watchers0 := watchers) (Hclock := stable_clock) probe0 Ctx.Background "" claim0 "10.0.0.1" entry0 world_down).
Defined.

(** ** Errors *)


