(* ===== verification/WmTheorems2.v ===== *)
(** * Properties of the workload manager's handlers: cluster objects,
    ownership, deletion *)

From stdpp Require Import base list gmap strings.
From S2P Require Import Prelude GoStrings GoTime GoError GoContext GoHttp GoEncoding SandboxTypes StoreSpec StoreRefinement StoreInstances K8sTypes Cluster WorldModel Lru Caches WmAuth Reconciler WorkloadBuilder K8sClient WmHandlers WmStable WmCreate WmTheorems.
Import ApiModel CodecModel.CodecModel WM.

(** ** No cluster object is left behind *)

(** The object a creation makes. *)
Definition created_object (sb : Sandbox) (claim : option SandboxClaim) : objkey :=
  match claim with
  | Some c => ClaimObj (Namespace (sc_Meta c)) (Name (sc_Meta c))
  | None => SandboxObj (Namespace (sb_Meta sb)) (Name (sb_Meta sb))
  end.

(** Deletions are answered: done, or there is no such object. *)
Definition deletions_answered {D W : Type} `{!Cluster D W} {AE : ApiErrors} : Prop :=
  (forall (d : D) ctx ns n (w : W) e, (api_deleteSandbox d ctx ns n w).1 = Some e -> IsNotFound e = true) /\
  (forall (d : D) ctx ns n (w : W) e, (api_deleteClaim d ctx ns n w).1 = Some e -> IsNotFound e = true).

(** [C12] When the API server answers deletions, a creation that fails leaves no
    object in the cluster: neither the sandbox nor the sandbox claim it may
    have created before failing. *)
Theorem create_failure_no_leak {D W : Type} `{!Env W} `{!Cluster D W} `{!Watchers W} `{!Store W}
    {AE : ApiErrors} {NE : NetErrors} (present : W -> objkey -> Prop) `{!ClusterView D W present}
    (cfg : K8s.ProbeConfig) (ctx : Ctx.Context) (d : D) (sb : Sandbox) (claim : option SandboxClaim)
    (entry : sandboxEntry) (ch : option nat) (w : W) e w' :
  let obj := created_object sb claim in
  deletions_answered (D := D) (W := W) ->
  (forall o w, ~ present w obj -> ~ present (run o w).2 obj) ->
  ~ present w obj ->
  Wm.createSandbox cfg ctx d sb claim entry ch w = (Err e, w') ->
  ~ present w' obj.
Proof.
  intros obj [Hds Hdc] Hstore Hno. unfold Wm.createSandbox.
  set (ph := K8s.buildSandboxPlaceHolder _ _ _).
  pose proof (Hstore (OpStore (clock w) ph) w Hno) as H1. cbn in H1.
  destruct (store_Store _ _ w) as [[e1|] w1]; [intros [= _ <-]; done|].
  destruct (Wm.createSandbox_body _ _ _ _ _ _ _ _ w1) as [[resp|e1] w2]; [done|]. intros [= _ <-].
  unfold Wm.rollbackSandboxCreation. set (w3 := match claim with Some _ => _ | None => _ end).
  assert (~ present w3 obj) as H3.
  { unfold w3, obj, created_object. destruct claim as [c|].
    - unfold K8s.deleteSandboxClaim. set (cx := Ctx.WithTimeout _ _ _).
      destruct (api_deleteClaim d cx (Namespace (sc_Meta c)) (Name (sc_Meta c)) w2) as [r w4] eqn:Hd.
      pose proof (Hdc d cx (Namespace (sc_Meta c)) (Name (sc_Meta c)) w2) as Hx. rewrite Hd in Hx. cbn in Hx.
      assert (~ present w4 (ClaimObj (Namespace (sc_Meta c)) (Name (sc_Meta c)))) as Hg.
      { eapply delete_claim_gone; [exact Hd|]. destruct r as [e2|]; eauto. }
      destruct r as [e2|]; cbn; [by destruct (negb _)|done].
    - unfold K8s.deleteSandbox. set (cx := Ctx.WithTimeout _ _ _).
      destruct (api_deleteSandbox d cx (Namespace (sb_Meta sb)) (Name (sb_Meta sb)) w2) as [r w4] eqn:Hd.
      pose proof (Hds d cx (Namespace (sb_Meta sb)) (Name (sb_Meta sb)) w2) as Hx. rewrite Hd in Hx. cbn in Hx.
      assert (~ present w4 (SandboxObj (Namespace (sb_Meta sb)) (Name (sb_Meta sb)))) as Hg.
      { eapply delete_sandbox_gone; [exact Hd|]. destruct r as [e2|]; eauto. }
      destruct r as [e2|]; cbn; [by destruct (negb _)|done]. }
  pose proof (Hstore (OpDelete (Entry.SessionID entry)) w3 H3) as H4. cbn in H4.
  by destruct (store_Delete _ w3).
Qed.

(** The sandbox is created, but its entry point never accepts connections. *)
Definition world_deaf : world :=
  {| w_kv := ∅; w_clock := Tm.OfUnix 1700000000; w_next := 1; w_sandboxes := ∅; w_claims := ∅; w_pods := ∅;
     w_ars := ∅; w_cis := ∅; w_users := ∅; w_down := ["10.0.0.1:8080"]; w_chans := <[0%nat := ("ns", "web-1")]> ∅ |}.

Lemma run_objects o w : w_sandboxes (run o w).2 = w_sandboxes w /\ w_claims (run o w).2 = w_claims w.
Proof.
  unfold store. rewrite run_lift. unfold on. by destruct (run o (w_kv w)).
Qed.

Lemma create_failure_no_leak_witness :
  exists e w', Wm.createSandbox probe0 Ctx.Background "" sandbox0 None entry0 (Some 0%nat) world_deaf = (Err e, w') /\
    ~ present w' (SandboxObj "ns" "web-1").
Proof.
  destruct (Wm.createSandbox probe0 Ctx.Background "" sandbox0 None entry0 (Some 0%nat) world_deaf) as [[resp|e] w'] eqn:Hc.
  - exfalso. vm_compute in Hc. discriminate Hc.
  - exists e, w'. split; [reflexivity|].
    refine (create_failure_no_leak (Watchers0 := watchers) present probe0 Ctx.Background "" sandbox0 None entry0
      (Some 0%nat) world_deaf e w' _ _ _ Hc).
    + split; intros d ctx ns n w x; cbn; destruct (_ !! _); cbn; [done| |done|]; by intros [= <-].
    + intros o w. unfold present. cbn. by destruct (run_objects o w) as [-> _].
    + cbn. intros [? [=]].
Defined.

(** ** Ownership of created sandboxes *)

Section owner.
Context {D W K : Type} `{!Env W} `{!Cluster D W} `{!Watchers W} `{!Store W}.
Context {AE : ApiErrors} {NE : NetErrors} {JT : JsonText} `{!KeyFormats K} `{!JwtLib K}.

Lemma build_owner kind key ns n o (w : W) sb claim entry w' :
  Wm.buildSandbox (D := D) kind key ns n o w = (Some (Ok (sb, claim, entry)), w') -> Entry.OwnerID entry = "".
Proof.
  unfold Wm.buildSandbox, Builder.buildSandboxByAgentRuntime, Builder.buildSandboxByCodeInterpreter.
  destruct (String.eqb kind AgentRuntimeKind).
  - destruct (lister_agentRuntime ns n w) as [ar|e]; [|by destruct (IsNotFound e)].
    destruct (NewUUID w) as [sid w1]. destruct (Builder.RandString 8 w1) as [sfx w2].
    destruct (AR.Template (AR.Spec ar)); cbn; intros [= <- <- <- <-]. done.
  - destruct (lister_codeInterpreter ns n w) as [ci|e]; [|by destruct (IsNotFound e)].
    destruct (_ && _); [done|]. destruct (NewUUID w) as [sid w1]. destruct (Builder.RandString 8 w1) as [sfx w2].
    destruct (match CI.WarmPoolSize _ with Some _ => _ | None => _ end); [by intros [= <- <- <- <-]|].
    destruct (CI.Template _); [by intros [= <- <- <- <-]|done].
Qed.

Lemma create_response_entry cfg ctx d sb claim entry ch (w : W) resp w' :
  Wm.createSandbox (D := D) cfg ctx d sb claim entry ch w = (Ok resp, w') ->
  exists i, resp = Wm.createResponse i entry.
Proof.
  unfold Wm.createSandbox, Wm.createSandbox_body. intros H. repeat case_match; simplify_eq. eauto.
Qed.

Lemma verify_sound (JL : JwtLaws K) now pem raw sub :
  Identity.verifyIdentityJWT (K := K) now pem raw = Ok sub ->
  exists block k claims x e, pem_Decode (K := K) pem = Some block /\ ParsePKIXPublicKey block = Ok (RSAKey k) /\
    jwt_signed k "RS256" raw claims /\ obj_get "aud" claims = Some (JStr "workloadmanager") /\
    obj_get "sub" claims = Some (JStr sub) /\ sub <> "" /\
    obj_get "exp" claims = Some (JNum x e) /\ now < Tm.OfUnix (float_to_int64 (x, e)).
Proof.
  unfold Identity.verifyIdentityJWT. destruct (pem_Decode pem) as [block|] eqn:Hp; [|done].
  destruct (ParsePKIXPublicKey block) as [[k|]|e] eqn:Hk; [|done..].
  destruct (jwt_Parse k ["RS256"] now raw) as [claims|e] eqn:Hj; [|done].
  apply jwt_Parse_sound in Hj as (m & Hm & Hsig & x & e & Hx & Hlt).
  apply list_elem_of_singleton in Hm as ->.
  destruct (String.eqb_spec (as_string (obj_get "aud" claims)) "workloadmanager") as [Ha|]; [|done]. cbn [negb].
  destruct (String.eqb_spec (as_string (obj_get "sub" claims)) "") as [|Hs]; [done|]. intros [= <-].
  exists block, k, claims, x, e. unfold as_string in *.
  destruct (obj_get "aud" claims) as [[]|]; try done. destruct (obj_get "sub" claims) as [[]|]; try done.
  by simplify_eq.
Qed.

Lemma verify_foreign (JL : JwtLaws K) (KL : KeyFormatLaws K) now pem raw e :
  Identity.verifyIdentityJWT (K := K) now pem raw = Err e ->
  Is e ErrNoIdentityHeader = false /\ Is e ErrPublicKeyNotCached = false.
Proof.
  unfold Identity.verifyIdentityJWT. destruct (pem_Decode pem) as [block|]; [|by intros [= <-]].
  destruct (ParsePKIXPublicKey block) as [[k|]|e'] eqn:Hk;
    [|by intros [= <-]|intros [= <-]; cbn; by eapply ParsePKIX_foreign].
  destruct (jwt_Parse k ["RS256"] now raw) as [claims|e'] eqn:Hj;
    [|intros [= <-]; cbn; by eapply jwt_Parse_foreign].
  destruct (negb _); [by intros [= <-]|]. destruct (String.eqb _ _); [by intros [= <-]|done].
Qed.

End owner.

(** [C19] The owner of a created sandbox is authenticated: when a creation
    succeeds, either the request carried no identity token and the sandbox has
    no owner, or the owner in the response is the subject of the token in the
    request, which is signed with the router's key by RS256, made for the
    workload manager, and not expired. *)
Theorem create_owner_verified {D W K : Type} `{!Env W} `{!Cluster D W} `{!Watchers W} `{!Store W}
    {AE : ApiErrors} {NE : NetErrors} {JT : JsonText} `{!KeyFormats K} `{!JwtLib K} {JL : JwtLaws K} {KL : KeyFormatLaws K}
    (req : Wm.Request) (kind : string) (s s' : Wm.Srv D) (w w' : W) (resp : CreateSandboxResponse) :
  Wm.handleSandboxCreate (K := K) req kind s w = (Wm.JSON 200 (Wm.CreatedBody resp), s', w') ->
  let raw := Hdr.Get Identity.identityJWTHeader (Wm.reqHeader req) in
  (raw = "" /\ CreateResp.OwnerID resp = "") \/
  (exists block k claims x e,
     pem_Decode (K := K) (Wm.cachedPublicKey s) = Some block /\ ParsePKIXPublicKey block = Ok (RSAKey k) /\
     jwt_signed k "RS256" raw claims /\ obj_get "aud" claims = Some (JStr "workloadmanager") /\
     obj_get "sub" claims = Some (JStr (CreateResp.OwnerID resp)) /\ CreateResp.OwnerID resp <> "" /\
     obj_get "exp" claims = Some (JNum x e) /\ clock w < Tm.OfUnix (float_to_int64 (x, e))).
Proof.
  unfold Wm.handleSandboxCreate. destruct (Wm.reqBody req) as [body|]; [|done].
  destruct (CreateReq.Validate _); [done|].
  destruct (Identity.resolveSandboxOwnerID _ _ _) as [[owner code] msg] eqn:Ho.
  destruct (Z.eqb_spec code 0) as [->|]; [|done]. cbn [negb].
  destruct (Wm.buildSandbox _ _ _ _ _ w) as [[[[[sb claim] entry]|e]|] w1] eqn:Hb; [|by destruct (_ || _)|done].
  apply build_owner in Hb. set (entry' := if negb (String.eqb owner "") then _ else _).
  assert (Entry.OwnerID entry' = owner) as Hent.
  { unfold entry'. by destruct (String.eqb_spec owner "") as [->|]. }
  destruct (if Wm.EnableAuth s then _ else _) as [[d|e] s1]; [|done].
  destruct (match claim with Some _ => _ | None => _ end) as [ch w2].
  destruct (Wm.createSandbox _ _ _ _ _ _ _ w2) as [[resp'|e] w3] eqn:Hc;
    [|unfold Wm.respondSandboxCreateError; by repeat destruct (Is _ _)].
  intros [= -> _ _]. apply create_response_entry in Hc as [i ->]. cbn [CreateResp.OwnerID Wm.createResponse].
  rewrite Hent. revert Ho. unfold Identity.resolveSandboxOwnerID, Identity.extractOwnerID.
  destruct (String.eqb_spec (Hdr.Get Identity.identityJWTHeader (Wm.reqHeader req)) "") as [Hraw|Hraw].
  { cbn. rewrite bool_decide_true by done. intros [= <- _]. by left. }
  destruct (String.eqb (Wm.cachedPublicKey s) "").
  { cbn. rewrite bool_decide_false, bool_decide_true by done. by intros [=]. }
  destruct (Identity.verifyIdentityJWT _ _ _) as [sub|e] eqn:Hv.
  2: { destruct (verify_foreign JL KL _ _ _ _ Hv) as [H1 H2]. cbn. rewrite H1, H2, !bool_decide_false by done. by intros [=]. }
  intros [= -> _]. right. by apply (verify_sound JL).
Qed.

(** ** A concrete router key: one token, for alice, expiring in 2033 *)

Definition alice_claims : list (string * json) :=
  [("aud", JStr "workloadmanager"); ("sub", JStr "alice"); ("exp", JNum 2000000000 0)].

#[export] Instance keys0 : KeyFormats unit :=
  {| pem_Decode s := Some s; ParsePKIXPublicKey _ := Ok (RSAKey tt) |}.

#[export] Instance jwt0 : JwtLib unit :=
  {| jwt_Parse _ ms now raw :=
       if String.eqb raw "alice-token" && bool_decide ("RS256" ∈ ms) && (now <? Tm.OfUnix 2000000000)
       then Ok alice_claims else Err (EText "token is malformed");
     jwt_signed _ m raw claims := m = "RS256" /\ raw = "alice-token" /\ claims = alice_claims |}.

#[export] Instance jwt0_laws : JwtLaws unit.
Proof.
  split; cbn.
  - intros k ms now raw claims. destruct (String.eqb_spec raw "alice-token"); cbn; [|done].
    destruct (bool_decide_reflect ("RS256" ∈ ms)); cbn; [|done].
    destruct (Z.ltb_spec now (Tm.OfUnix 2000000000)); [|done]. intros [= <-].
    exists "RS256". split; [done|]. split; [done|]. by exists 2000000000, 0.
  - intros k ms now raw e. destruct (_ && _); [done|]. by intros [= <-].
Qed.

#[export] Instance keys0_laws : KeyFormatLaws unit.
Proof. by split. Qed.

Definition agent0 : AR.AgentRuntime :=
  {| AR.ar_Meta := meta0;
     AR.Spec := {| AR.Ports := [port0];
                   AR.Template := Some {| AR.t_Labels := ∅; AR.t_Annotations := ∅; AR.t_Spec := podSpec0 |};
                   AR.SessionTimeout := None; AR.MaxSessionDuration := None |} |}.

Definition world_agent : world :=
  {| w_kv := ∅; w_clock := Tm.OfUnix 1700000000; w_next := 0; w_sandboxes := ∅; w_claims := ∅; w_pods := ∅;
     w_ars := <[("ns", "web") := agent0]> ∅; w_cis := ∅; w_users := ∅; w_down := []; w_chans := ∅ |}.

Definition srv0 : Wm.Srv string :=
  {| Wm.EnableAuth := false; Wm.probe := probe0; Wm.tokenCache := TokenCache.NewTokenCache 0 0;
     Wm.clientCache := ClientCache.NewClientCache 0; Wm.cachedPublicKey := "PEM" |}.

Definition req_alice : Wm.Request :=
  {| Wm.reqBody := Some {| CreateReq.Kind := ""; CreateReq.Name := "web"; CreateReq.Namespace := "ns" |};
     Wm.reqHeader := [("X-Agentcube-User-Identity", "alice-token")];
     Wm.reqCtx := Ctx.Background; Wm.reqUser := None |}.

#[export] Instance no_json : JsonText := {| json_parse _ := None |}.

Definition is_created (r : Wm.response) : bool :=
  match r with Wm.JSON c (Wm.CreatedBody _) => c =? 200 | _ => false end.

Lemma create_owner_verified_witness :
  exists resp s' w',
    Wm.handleSandboxCreate (K := unit) req_alice AgentRuntimeKind srv0 world_agent
      = (Wm.JSON 200 (Wm.CreatedBody resp), s', w') /\
    (("alice-token" = "" /\ CreateResp.OwnerID resp = "") \/
     (exists block k claims x e,
       pem_Decode (K := unit) "PEM" = Some block /\ ParsePKIXPublicKey block = Ok (RSAKey k) /\
       jwt_signed k "RS256" "alice-token" claims /\ obj_get "aud" claims = Some (JStr "workloadmanager") /\
       obj_get "sub" claims = Some (JStr (CreateResp.OwnerID resp)) /\ CreateResp.OwnerID resp <> "" /\
       obj_get "exp" claims = Some (JNum x e) /\ Tm.OfUnix 1700000000 < Tm.OfUnix (float_to_int64 (x, e)))).
Proof.
  assert (is_created (Wm.handleSandboxCreate (K := unit) req_alice AgentRuntimeKind srv0 world_agent).1.1 = true)
    as Hok by (vm_compute; reflexivity).
  destruct (Wm.handleSandboxCreate (K := unit) req_alice AgentRuntimeKind srv0 world_agent) as [[r s'] w'] eqn:Hh.
  destruct r as [c [resp|fields]|c m|c|]; try discriminate Hok. apply Z.eqb_eq in Hok. cbn in Hok. subst c.
  exists resp, s', w'. split; [reflexivity|].
  refine (create_owner_verified req_alice AgentRuntimeKind srv0 s' world_agent w' resp Hh).
Defined.
