(* ===== verification/WmTheorems3.v ===== *)
(** * Properties of the workload manager's handlers: deletion and user clients *)

From Stdlib Require Import Ascii.
From stdpp Require Import base list gmap strings.
From S2P Require Import Prelude GoStrings GoTime GoError GoContext GoHttp GoEncoding SandboxTypes StoreSpec StoreRefinement StoreInstances K8sTypes Cluster WorldModel Lru Caches CacheTheorems WmAuth Reconciler WorkloadBuilder K8sClient WmHandlers WmStable WmCreate WmTheorems WmTheorems2.
Import ApiModel CodecModel.CodecModel WM.

(** ** Deletion *)

Section delete.
Context {D W : Type} `{!Env W} `{!Cluster D W} `{!Watchers W} `{!Store W}.
Context {AE : ApiErrors} {JT : JsonText} {SC : SandboxCodec}.
Context (rep : W -> registry -> Prop) `{!StoreExact W rep} `{Hst : forall g, Stable D W (fun w => rep w g)}.

Lemma exact_Get sid w g :
  rep w g -> valid_sid sid ->
  exists w', rep w' g /\
    match sessions g !! sid with
    | Some i => store_Get sid w = (Ok i, w')
    | None => exists e, store_Get sid w = (Err e, w') /\ Is e ErrNotFound = true
    end.
Proof.
  intros HR Hv. destruct (store_Get sid w) as [r w'] eqn:Hg.
  destruct (store_exact (OpGet sid) w g (info_out r) w' HR Hv) as (g' & HR' & Hs); [cbn; by rewrite Hg|].
  cbn in Hs. exists w'. unfold info_out, err_out in Hs.
  destruct (sessions g !! sid) as [i|]; injection Hs as Ho <-; (split; [done|]).
  - destruct r as [j|e]; [by simplify_eq|by destruct (Is e _)].
  - destruct r as [j|e]; [done|]. exists e. split; [done|]. by destruct (Is e _).
Qed.

Lemma del_stable g kind d ctx ns n w :
  rep w g ->
  rep ((if String.eqb kind SandboxClaimsKind then K8s.deleteSandboxClaim (D := D) else K8s.deleteSandbox) d ctx ns n w).2 g.
Proof.
  intros HR. destruct (String.eqb _ _);
    [by apply (K8s_deleteClaim_stable (fun w => rep w g))|by apply (K8s_deleteSandbox_stable (fun w => rep w g))].
Qed.

Lemma del_answered kind (d : D) ctx ns n (w : W) :
  deletions_answered (D := D) (W := W) ->
  ((if String.eqb kind SandboxClaimsKind then K8s.deleteSandboxClaim (D := D) else K8s.deleteSandbox) d ctx ns n w).1 = None.
Proof.
  intros [Hs Hc]. destruct (String.eqb _ _); unfold K8s.deleteSandboxClaim, K8s.deleteSandbox.
  - specialize (Hc d ctx ns n w). destruct (api_deleteClaim d ctx ns n w) as [[e|] w']; [|done].
    by rewrite (Hc e eq_refl).
  - specialize (Hs d ctx ns n w). destruct (api_deleteSandbox d ctx ns n w) as [[e|] w']; [|done].
    by rewrite (Hs e eq_refl).
Qed.

End delete.


Definition reg_s1 : registry :=
  spec_store (clock world0) (K8s.buildSandboxPlaceHolder (clock world0) sandbox0 entry0) empty_registry.
Definition world_s1 : world :=
  (store_Store (clock world0) (K8s.buildSandboxPlaceHolder (clock world0) sandbox0 entry0) world0).2.

Lemma rep_world_s1 : rep world_s1 reg_s1.
Proof.
  destruct (exact_Store rep (clock world0) (K8s.buildSandboxPlaceHolder (clock world0) sandbox0 entry0) world0
    empty_registry rep_world0) as (g' & HR & Hs); [apply fresh_s1|exact I|].
  assert (g' = reg_s1) as -> by (cbn in Hs; by injection Hs). exact HR.
Qed.


(** Deletion does not look at the owner of the session: without
    service-account authentication, any request, with any identity or none,
    deletes any stored session. *)
Theorem delete_ignores_owner {D W : Type} `{!Env W} `{!Cluster D W} `{!Watchers W} `{!Store W}
    {AE : ApiErrors} {JT : JsonText} {SC : SandboxCodec} (rep : W -> registry -> Prop)
    `{!StoreExact W rep} `{Hst : forall g, Stable D W (fun w => rep w g)}
    (req : Wm.Request) (sid : string) (s : Wm.Srv D) (w : W) (g : registry) (i : SandboxInfo) :
  rep w g -> valid_sid sid -> sessions g !! sid = Some i -> Wm.EnableAuth s = false ->
  deletions_answered (D := D) (W := W) ->
  exists w', Wm.handleDeleteSandbox req sid s w =
      (Wm.JSON 200 (Wm.MessageBody [("message", "Sandbox deleted successfully")]), s, w') /\
    rep w' (spec_delete sid g).
Proof.
  intros HR Hv Hi Ha Hd. unfold Wm.handleDeleteSandbox.
  destruct (exact_Get rep sid w g HR Hv) as (w1 & HR1 & Hg). rewrite Hi in Hg. rewrite Hg, Ha.
  pose proof (del_stable rep g (Info.Kind i) own_client (Wm.reqCtx req) (Info.SandboxNamespace i) (Info.Name i) w1 HR1) as HR2.
  pose proof (del_answered (Info.Kind i) own_client (Wm.reqCtx req) (Info.SandboxNamespace i) (Info.Name i) w1 Hd) as Hn.
  destruct ((if String.eqb (Info.Kind i) SandboxClaimsKind then _ else _) own_client _ _ _ w1) as [e w2].
  cbn in HR2, Hn. subst e.
  destruct (exact_Delete rep sid w2 g HR2 Hv) as [HR3 Hn]. destruct (store_Delete sid w2) as [e w3].
  cbn in HR3, Hn. subst e. by exists w3.
Qed.

Definition req_mallory : Wm.Request :=
  {| Wm.reqBody := None; Wm.reqHeader := []; Wm.reqCtx := Ctx.Background; Wm.reqUser := None |}.

Lemma answered0 : deletions_answered (D := string) (W := world).
Proof. split; intros d ctx ns n w x; cbn; destruct (_ !! _); cbn; [done| |done|]; by intros [= <-]. Qed.

Lemma delete_ignores_owner_witness :
  exists i, sessions reg_s1 !! "s1" = Some i /\ Info.OwnerID i = "alice" /\
  exists w', Wm.handleDeleteSandbox req_mallory "s1" srv0 world_s1 =
      (Wm.JSON 200 (Wm.MessageBody [("message", "Sandbox deleted successfully")]), srv0, w') /\
    rep w' (spec_delete "s1" reg_s1).
Proof.
  eexists. split; [vm_compute; reflexivity|]. split; [reflexivity|].
  refine (delete_ignores_owner (Watchers0 := watchers) (Hst := stable_rep) rep req_mallory "s1" srv0 world_s1 reg_s1 _
    rep_world_s1 (proj1 fresh_s1) _ eq_refl answered0).
  vm_compute. reflexivity.
Defined.

(** ** User clients *)

(** The client cache is keyed by service account only: after a client was
    made for one token, a request of the same account with another token is
    served the client of the first token, as long as the first has not
    expired. *)
Theorem user_client_of_first_token {D W : Type} `{!Env W} `{!Cluster D W} {JT : JsonText}
    (n now now' : Time) (token token' ns sa : string) (d : D) :
  dynamicNewForConfig (W := W) token = Ok d ->
  (ClientCache.parseJWTExpiry token = Tm.zero \/ now' <= ClientCache.parseJWTExpiry token) ->
  let c0 := ClientCache.NewClientCache n in
  let '(r, c1) := K8s.GetOrCreateUserK8sClient (D := D) (W := W) now token ns sa c0 in
  r = Ok {| K8s.dynamicClient := d; K8s.u_namespace := ns |} /\
  (K8s.GetOrCreateUserK8sClient (D := D) (W := W) now' token' ns sa c1).1 = r.
Proof.
  intros Hd Hexp. set (max := if n <=? 0 then 100 else n). cbn zeta.
  unfold K8s.GetOrCreateUserK8sClient, K8s.NewUserK8sClient. set (k := makeCacheKey ns sa).
  pose proof (client_run_shows max (ClientCache.OGet (client := K8s.UserK8sClient D) now k)
    (ClientCache.NewClientCache n) [] (shows_New max)) as [Hr Hs]. cbn in Hr, Hs.
  destruct (ClientCache.Get now k (ClientCache.NewClientCache n)) as [got c1]. cbn in Hr, Hs. subst got.
  rewrite Hd. split; [done|]. set (v := {| K8s.dynamicClient := d; K8s.u_namespace := ns |}).
  pose proof (client_run_shows max (ClientCache.OSet k token v) c1 [] Hs) as [_ Hs2]. cbn [ClientCache.run snd] in Hs2.
  pose proof (client_run_shows max (ClientCache.OGet (client := K8s.UserK8sClient D) now' k) _ _ Hs2) as [Hr3 _].
  cbn [ClientCache.run fst] in Hr3. destruct (ClientCache.Get now' k _) as [got c3]. cbn [fst] in Hr3. subst got.
  cbn [ClientCache.spec_run fst snd]. rewrite LruSpec.assoc_set. cbn.
  assert (negb (Tm.IsZero (ClientCache.parseJWTExpiry token)) &&
    Tm.After now' (ClientCache.parseJWTExpiry token) = false) as ->; [|done].
  unfold Tm.IsZero, Tm.After, Tm.zero in *. destruct Hexp as [-> |?]; [done|].
  apply andb_false_iff. right. by apply Z.ltb_ge.
Qed.

Lemma user_client_of_first_token_witness :
  let '(r, c1) := K8s.GetOrCreateUserK8sClient (D := string) (W := world) 0 "t1" "ns" "bob"
    (ClientCache.NewClientCache 0) in
  r = Ok {| K8s.dynamicClient := "t1"; K8s.u_namespace := "ns" |} /\
  (K8s.GetOrCreateUserK8sClient (D := string) (W := world) 5 "t2" "ns" "bob" c1).1 = r.
Proof.
  apply (user_client_of_first_token 0 0 5 "t1" "t2" "ns" "bob" "t1"); [reflexivity|left; reflexivity].
Defined.
