(* ===== verification/BuilderTheorems.v ===== *)
(** * Properties of the objects the workload manager builds *)

From Stdlib Require Import Ascii.
From stdpp Require Import base list gmap strings.
From S2P Require Import Prelude GoStrings GoTime GoError GoContext Sha256 SandboxTypes K8sTypes Cluster WorldModel WmAuth Reconciler WorkloadBuilder K8sClient WmHandlers WmTheorems2.

(** Every character of [s] is one of [alphabet]. *)
Definition over (alphabet s : string) : Prop :=
  Forall (fun c => c ∈ String.list_ascii_of_string alphabet) (String.list_ascii_of_string s).

Lemma length_ascii s : length (String.list_ascii_of_string s) = String.length s.
Proof. induction s; cbn; congruence. Qed.

Lemma get_elem i s c : String.get i s = Some c -> c ∈ String.list_ascii_of_string s.
Proof.
  revert i. induction s as [|a s IH]; intros i; [done|]. destruct i; cbn.
  - intros [= ->]. by left.
  - intros H. right. by eapply IH.
Qed.

Lemma get_lt i s : (i < String.length s)%nat -> is_Some (String.get i s).
Proof. revert i. induction s as [|a s IH]; intros i Hi; cbn in *; [lia|]. destruct i; [done|]. apply IH. lia. Qed.

Lemma substring_take n s : String.list_ascii_of_string (String.substring 0 n s) = take n (String.list_ascii_of_string s).
Proof. revert n. induction s as [|a s IH]; intros [|n]; cbn; try done. by rewrite IH. Qed.

(** ** The random suffix *)

Lemma RandString_wf {W} `{!Env W} `{!EnvLaws W} n (w : W) :
  String.length (Builder.RandString n w).1 = n /\ over Builder.letters (Builder.RandString n w).1.
Proof.
  revert w. induction n as [|n IH]; intros w; [by split; [|constructor]|]. cbn [Builder.RandString].
  pose proof (Intn_range (Z.of_nat (String.length Builder.letters)) w ltac:(reflexivity)) as Hi.
  destruct (Intn _ w) as [i w1]. cbn [fst] in Hi. destruct (IH w1) as [Hl Ho].
  destruct (Builder.RandString n w1) as [s w2]. cbn [fst] in Hl, Ho |- *.
  destruct (get_lt (Z.to_nat i) Builder.letters) as [c Hc]; [lia|]. rewrite Hc. cbn [default fst String.length].
  split; [by f_equal|]. unfold over. cbn [String.list_ascii_of_string]. constructor; [by eapply get_elem|done].
Qed.

(** ** The owner's metadata *)

Definition hexdigits : string := "0123456789abcdef".

Lemma hexdigit_over z : 0 <= z < 16 -> Sha256.hexdigit z ∈ String.list_ascii_of_string hexdigits.
Proof.
  intros Hz. assert (exists n : nat, (n < 16)%nat /\ z = Z.of_nat n) as (n & Hn & ->) by (exists (Z.to_nat z); lia).
  do 16 (destruct n as [|n]; [apply list_elem_of_In; vm_compute; tauto|]). lia.
Qed.

Lemma nibble_range w i : 0 <= Z.land (Z.shiftr w i) 15 < 16.
Proof. change 15 with (Z.ones 4). rewrite Z.land_ones by lia. apply Z.mod_pos_bound. lia. Qed.

Lemma hex_over d : over hexdigits (Sha256.hex d).
Proof.
  unfold over. induction d as [|w d IH]; [constructor|]. change (Sha256.hex (w :: d)) with (Sha256.hex32 w (Sha256.hex d)).
  unfold Sha256.hex32. cbn [foldr String.list_ascii_of_string].
  repeat (constructor; [apply hexdigit_over, nibble_range|]). exact IH.
Qed.

Lemma sha256Short_wf s : String.length (Identity.sha256Short s) = 63%nat /\ over hexdigits (Identity.sha256Short s).
Proof.
  unfold Identity.sha256Short, over. rewrite <- length_ascii, !substring_take. split.
  - rewrite length_take, length_ascii, Sha256.length_hex, Sha256.length_Sum256. done.
  - apply Forall_take, hex_over.
Qed.

(** What the metadata says about the owner: nothing, or the owner in full and a
    digest that is a legal label value (63 hexadecimal digits). *)
Definition owner_recorded (o : string) (m : ObjectMeta) : Prop :=
  if String.eqb o "" then Annotations m !! "agentcube.io/owner" = None /\ Labels m !! "agentcube.io/owner-hash" = None
  else Annotations m !! "agentcube.io/owner" = Some o /\
    exists h, Labels m !! "agentcube.io/owner-hash" = Some h /\ String.length h = 63%nat /\ over hexdigits h.

Lemma owner_recorded_wf o m labels annotations :
  Labels m = Builder.owned_labels o labels -> Annotations m = Builder.owned_annotations o annotations ->
  labels !! "agentcube.io/owner-hash" = None -> annotations !! "agentcube.io/owner" = None -> owner_recorded o m.
Proof.
  intros Hl Ha H1 H2. unfold owner_recorded, Builder.owned_labels, Builder.owned_annotations in *.
  rewrite Hl, Ha. destruct (String.eqb o ""); cbn [negb]; [done|]. rewrite !lookup_insert_eq. split; [done|].
  exists (Identity.sha256Short o). split; [done|]. apply sha256Short_wf.
Qed.

Lemma owned_labels_ne o m k : k <> "agentcube.io/owner-hash" -> Builder.owned_labels o m !! k = m !! k.
Proof. intros Hk. unfold Builder.owned_labels. destruct (negb _); [by rewrite lookup_insert_ne|done]. Qed.

(** ** The built objects *)

(** The object of a plain sandbox: its labels reach the pod whatever the
    template says, it has an end, and no empty runtime class. *)
Record plain_sandbox (o : string) (sb : Sandbox) (entry : sandboxEntry) : Prop := {
  ps_kind : Entry.Kind entry = SandboxKind /\ sb_Kind sb = SandboxKind;
  ps_session : sb_PodLabels sb !! SessionIdLabelKey = Some (Entry.SessionID entry);
  ps_name : sb_PodLabels sb !! SandboxNameLabelKey = Some (Name (sb_Meta sb));
  ps_end : is_Some (sb_ShutdownTime sb);
  ps_class : RuntimeClassName (sb_PodSpec sb) <> Some "";
  ps_owner : owner_recorded o (sb_Meta sb);
}.

(** The claim of a warm sandbox, under the name the sandbox is watched by. *)
Record warm_claim (o template : string) (sb : Sandbox) (c : SandboxClaim) (entry : sandboxEntry) : Prop := {
  wc_kind : Entry.Kind entry = SandboxClaimsKind /\ sc_Kind c = SandboxClaimsKind;
  wc_name : Name (sc_Meta c) = Name (sb_Meta sb) /\ Namespace (sc_Meta c) = Namespace (sb_Meta sb);
  wc_session : Labels (sc_Meta c) !! SessionIdLabelKey = Some (Entry.SessionID entry);
  wc_label : Labels (sc_Meta c) !! SandboxNameLabelKey = Some (Name (sc_Meta c));
  wc_template : sc_TemplateRef c = template;
  wc_owner : owner_recorded o (sc_Meta c);
}.

Lemma normalize_ne r : Builder.normalizeRuntimeClassName r <> Some "".
Proof. destruct r as [r|]; [|done]. cbn. destruct (String.eqb_spec r ""); congruence. Qed.

Lemma plain_sandbox_wf now p entry :
  Entry.Kind entry = SandboxKind -> Entry.SessionID entry = Builder.sessionID p ->
  RuntimeClassName (Builder.podSpec p) <> Some "" ->
  plain_sandbox (Builder.ownerID p) (Builder.buildSandboxObject now p) entry /\
  Labels (sb_Meta (Builder.buildSandboxObject now p)) !! SessionIdLabelKey = Some (Builder.sessionID p).
Proof.
  intros Hk Hs Hc. split; [split; cbn; try done|].
  - rewrite lookup_insert_ne by done. by rewrite lookup_insert_eq, Hs.
  - by rewrite lookup_insert_eq.
  - by eapply owner_recorded_wf.
  - cbn. rewrite owned_labels_ne by done. by rewrite lookup_insert_eq.
Qed.

Lemma warm_claim_wf p sb entry :
  Entry.Kind entry = SandboxClaimsKind -> Entry.SessionID entry = Builder.c_sessionID p ->
  Builder.c_name p = Name (sb_Meta sb) -> Builder.c_namespace p = Namespace (sb_Meta sb) ->
  warm_claim (Builder.c_ownerID p) (Builder.c_sandboxTemplateName p) sb (Builder.buildSandboxClaimObject p) entry.
Proof.
  intros Hk Hs Hn Hns. split; cbn; try done.
  - rewrite owned_labels_ne by done. by rewrite lookup_insert_eq, Hs.
  - rewrite owned_labels_ne by done. rewrite lookup_insert_ne by done. by rewrite lookup_insert_eq.
  - by eapply owner_recorded_wf.
Qed.

(** The environment of the container, when the interpreter asks for PicoD's
    authentication: the key comes last, so it is the value that counts. *)
Definition key_injected (key : string) (sb : Sandbox) : Prop :=
  key <> "" /\ forall c, c ∈ Containers (sb_PodSpec sb) ->
    last (c_Env c) = Some {| env_Name := "PICOD_AUTH_PUBLIC_KEY"; env_Value := key |}.

Section built.
Context {D W : Type} `{!Env W} `{!Cluster D W} `{!EnvLaws W} {AE : ApiErrors}.
Implicit Types w : W.

Definition named (ns n : string) (sb : Sandbox) (entry : sandboxEntry) : Prop :=
  exists suffix, String.length suffix = 8%nat /\ over Builder.letters suffix /\
    Name (sb_Meta sb) = n +:+ "-" +:+ suffix /\ Namespace (sb_Meta sb) = ns /\
    Labels (sb_Meta sb) !! SessionIdLabelKey = Some (Entry.SessionID entry).

Lemma agent_built ns n o w sb entry w' :
  Builder.buildSandboxByAgentRuntime (D := D) ns n o w = (Some (Ok (sb, entry)), w') ->
  named ns n sb entry /\ plain_sandbox o sb entry.
Proof.
  unfold Builder.buildSandboxByAgentRuntime. destruct (lister_agentRuntime ns n w) as [ar|e]; [|by destruct (IsNotFound e)].
  destruct (NewUUID w) as [sid w1]. destruct (RandString_wf 8 w1) as [Hl Ho].
  destruct (Builder.RandString 8 w1) as [suffix w2]. cbn [fst] in Hl, Ho.
  destruct (AR.Template (AR.Spec ar)) as [t|]; [|done].
  match goal with |- context [Builder.buildSandboxObject _ ?p] => set (params := p) end. intros [= <- <- _].
  destruct (plain_sandbox_wf (clock w2) params
    {| Entry.Kind := SandboxKind; Entry.SessionID := sid; Entry.OwnerID := ""; Entry.Ports := AR.Ports (AR.Spec ar);
       Entry.IdleTimeout := default DefaultSandboxIdleTimeout (AR.SessionTimeout (AR.Spec ar)) |}) as [Hp Hs];
    [done..|apply normalize_ne|]. split; [|exact Hp]. by exists suffix.
Qed.

Lemma interpreter_built key ns n o w sb claim entry w' :
  Builder.buildSandboxByCodeInterpreter (D := D) key ns n o w = (Some (Ok (sb, claim, entry)), w') ->
  named ns n sb entry /\ Entry.Ports entry <> [] /\
  match claim with
  | Some c => warm_claim o n sb c entry
  | None => plain_sandbox o sb entry /\
      forall ci, lister_codeInterpreter (D := D) ns n w = Ok ci ->
        CI.AuthMode (CI.Spec ci) = AuthModePicoD -> key_injected key sb
  end.
Proof.
  unfold Builder.buildSandboxByCodeInterpreter.
  destruct (lister_codeInterpreter ns n w) as [ci|e]; [|by destruct (IsNotFound e)].
  destruct (String.eqb (CI.AuthMode (CI.Spec ci)) AuthModePicoD && _) eqn:Hkey; [done|].
  destruct (NewUUID w) as [sid w1]. destruct (RandString_wf 8 w1) as [Hl Ho].
  destruct (Builder.RandString 8 w1) as [suffix w2]. cbn [fst] in Hl, Ho.
  assert (match CI.Ports (CI.Spec ci) with [] => Builder.defaultPorts | ps => ps end <> []) as Hports by (by destruct (CI.Ports _)).
  destruct (match CI.WarmPoolSize (CI.Spec ci) with Some _ => _ | None => _ end).
  - match goal with |- context [Builder.buildSandboxClaimObject ?p] => set (params := p) end. intros [= <- <- <- _].
    split_and!; [by exists suffix|done|]. by apply (warm_claim_wf params).
  - destruct (CI.Template (CI.Spec ci)) as [t|]; [|done].
    match goal with |- context [Builder.buildSandboxObject _ ?p] => set (params := p) end. intros [= <- <- <- _].
    match goal with |- named _ _ _ ?e /\ _ => destruct (plain_sandbox_wf (clock w2) params e) as [Hp Hs] end;
      [done..|apply normalize_ne|].
    split_and!; [by exists suffix|done|exact Hp|]. intros ci' [= <-] Hm. rewrite Hm in Hkey.
    split; [intros ->; done|]. cbn. intros c ->%list_elem_of_singleton. cbn.
    unfold Builder.buildCodeInterpreterEnvVars. rewrite Hm. cbn. apply last_snoc.
Qed.

End built.

(** [C33] Every object the workload manager builds for a session is well formed:
    a name of the workload with eight random lower-case letters or digits, in
    the requested namespace; the session identifier of the answer on the object
    and, for a plain sandbox, on the pod, whatever labels the template sets; a
    known owner recorded in full and as a digest that fits a label; for a warm
    pool a claim under the same name; an end time and no empty runtime class
    otherwise; at least one port for a code interpreter, and, where it asks for
    PicoD's authentication, the cached key as the last, hence effective, value
    of the variable PicoD reads. *)
Theorem built_objects_wf {D W : Type} `{!Env W} `{!Cluster D W} `{!EnvLaws W} {AE : ApiErrors}
    (kind key ns n o : string) (w w' : W) sb claim entry :
  Wm.buildSandbox (D := D) kind key ns n o w = (Some (Ok (sb, claim, entry)), w') ->
  named ns n sb entry /\
  match claim with Some c => warm_claim o n sb c entry | None => plain_sandbox o sb entry end /\
  (kind <> AgentRuntimeKind -> Entry.Ports entry <> []) /\
  (kind <> AgentRuntimeKind -> claim = None -> forall ci, lister_codeInterpreter (D := D) ns n w = Ok ci ->
     CI.AuthMode (CI.Spec ci) = AuthModePicoD -> key_injected key sb).
Proof.
  unfold Wm.buildSandbox. destruct (String.eqb_spec kind AgentRuntimeKind) as [->|].
  - destruct (Builder.buildSandboxByAgentRuntime ns n o w) as [r w1] eqn:Hb.
    destruct r as [[[sb' e']|]|]; cbn; try done. intros [= <- <- <- _]. apply agent_built in Hb as [H1 H2]. done.
  - intros (H1 & H2 & H3)%interpreter_built. split_and!; [done|by destruct claim; [|destruct H3]|done|].
    intros _ -> ci. by apply H3.
Qed.

(** A code interpreter without a warm pool, for alice; its template tries to
    set the session label and the key. *)
Definition template0 : CI.CodeInterpreterSandboxTemplate :=
  {| CI.t_Labels := <[SessionIdLabelKey := "stolen"]> ∅; CI.t_Annotations := ∅; CI.t_RuntimeClassName := Some "";
     CI.Image := "picod:latest"; CI.ImagePullPolicy := ""; CI.t_ImagePullSecrets := [];
     CI.Environment := [{| env_Name := "PICOD_AUTH_PUBLIC_KEY"; env_Value := "forged" |}];
     CI.Command := []; CI.Args := []; CI.Resources := ∅ |}.

Definition ci0 : CI.CodeInterpreter :=
  {| CI.ci_Meta := meta0; CI.Generation := 1;
     CI.Spec := {| CI.Ports := []; CI.Template := Some template0; CI.SessionTimeout := None; CI.MaxSessionDuration := None;
                   CI.WarmPoolSize := None; CI.AuthMode := AuthModePicoD |};
     CI.Status := {| CI.Ready := true; CI.Conditions := [] |} |}.

Import WM ApiModel.

Definition world_ci : world :=
  {| w_kv := ∅; w_clock := Tm.OfUnix 1700000000; w_next := 0; w_sandboxes := ∅; w_claims := ∅; w_pods := ∅;
     w_ars := ∅; w_cis := <[("ns", "ci") := ci0]> ∅; w_users := ∅; w_down := []; w_chans := ∅ |}.

Lemma built_objects_wf_witness :
  exists sb entry w', Wm.buildSandbox (D := string) CodeInterpreterKind "PEM" "ns" "ci" "alice" world_ci
      = (Some (Ok (sb, None, entry)), w') /\
    named "ns" "ci" sb entry /\ plain_sandbox "alice" sb entry /\ key_injected "PEM" sb.
Proof.
  destruct (Wm.buildSandbox (D := string) CodeInterpreterKind "PEM" "ns" "ci" "alice" world_ci) as [r w'] eqn:Hb.
  assert (match r with Some (Ok (_, None, _)) => true | _ => false end = true) as Hok.
  { replace r with (Wm.buildSandbox (D := string) CodeInterpreterKind "PEM" "ns" "ci" "alice" world_ci).1
      by (rewrite Hb; reflexivity). vm_compute. reflexivity. }
  destruct r as [[[[sb [c|]] entry]|e]|]; try discriminate Hok. exists sb, entry, w'. split; [reflexivity|].
  destruct (built_objects_wf CodeInterpreterKind "PEM" "ns" "ci" "alice" world_ci w' sb None entry Hb) as (H1 & H2 & _ & H4).
  split; [exact H1|]. split; [exact H2|]. apply (H4 ltac:(discriminate) eq_refl ci0); vm_compute; reflexivity.
Defined.
