(* ===== verification/GarbageCollector.v ===== *)
(** * The garbage collector ([pkg/workloadmanager/garbage_collection.go]) *)

From stdpp Require Import base list gmap strings.
From S2P Require Import Prelude GoStrings GoTime GoError GoContext SandboxTypes StoreSpec K8sTypes Cluster WorkloadBuilder.

Module Gc.

Definition gcOnceTimeout : Duration := 2 * Tm.Minute.
Definition gcMinInactiveLookback : Duration := 1 * Tm.Minute.
Definition gcCandidateLimit : Z := 100.

(** The clients of the API server and of the store are the classes. *)
Record garbageCollector := { interval : Duration }.

Definition newGarbageCollector (interval : Duration) : garbageCollector := {| interval := interval |}.

(** The per-sandbox idle test of [once]. *)
Definition idle (now : Time) (s : SandboxInfo) : bool :=
  let activityAt := if Tm.IsZero (Info.LastActivityAt s) then Info.CreatedAt s else Info.LastActivityAt s in
  let idleTimeout := if Info.IdleTimeout s =? 0 then DefaultSandboxIdleTimeout else Info.IdleTimeout s in
  Tm.Before (Tm.Add activityAt idleTimeout) now.

(** The loop of [deduplicateSandboxes] over the concatenated lists. *)
Fixpoint dedup (seen : gset string) (l : list SandboxInfo) : list SandboxInfo :=
  match l with
  | [] => []
  | s :: l =>
      if decide (Info.SessionID s ∈ seen) then dedup seen l
      else s :: dedup ({[Info.SessionID s]} ∪ seen) l
  end.

Definition deduplicateSandboxes (lists : list (list SandboxInfo)) : list SandboxInfo :=
  dedup ∅ (concat lists).

Section gc.
Context {D W : Type} `{!Env W} `{!Cluster D W} `{!Store W} {AE : ApiErrors}.
Implicit Types w : W.

Definition deleteSandbox (ctx : Ctx.Context) (namespace name : string) w : option goerr * W :=
  let '(r, w) := api_deleteSandbox (own_client (D := D) (W := W)) ctx namespace name w in
  match r with
  | None => (None, w)
  | Some e => if IsNotFound e then (None, w)
              else (Some (Wrapf ("error deleting sandbox " +:+ namespace +:+ "/" +:+ name) e), w)
  end.

Definition deleteSandboxClaim (ctx : Ctx.Context) (namespace name : string) w : option goerr * W :=
  let '(r, w) := api_deleteClaim (own_client (D := D) (W := W)) ctx namespace name w in
  match r with
  | None => (None, w)
  | Some e => if IsNotFound e then (None, w)
              else (Some (Wrapf ("error deleting sandboxClaim " +:+ namespace +:+ "/" +:+ name) e), w)
  end.

(** The deletion loop, with the errors it collects. *)
Fixpoint collect (ctx : Ctx.Context) (l : list SandboxInfo) w : list goerr * W :=
  match l with
  | [] => ([], w)
  | s :: l =>
      let del := if String.eqb (Info.Kind s) SandboxClaimsKind then deleteSandboxClaim else deleteSandbox in
      let '(e, w) := del ctx (Info.SandboxNamespace s) (Info.Name s) w in
      match e with
      | Some e => let '(errs, w) := collect ctx l w in (e :: errs, w)
      | None =>
          let '(e, w) := store_Delete (Info.SessionID s) w in
          let '(errs, w) := collect ctx l w in
          ((match e with Some e => [e] | None => [] end) ++ errs, w)
      end
  end.

(** [for _, s := range nil] when the listing failed *)
Definition or_none (r : res (list SandboxInfo)) : list SandboxInfo :=
  match r with Ok l => l | Err _ => [] end.

Definition once w : list goerr * W :=
  let now := clock w in
  let ctx := Ctx.WithTimeout Ctx.Background gcOnceTimeout now in
  let '(candidates, w) := store_ListInactive (Tm.Add now (- gcMinInactiveLookback)) gcCandidateLimit w in
  let inactiveSandboxes := filter (fun s => idle now s = true) (or_none candidates) in
  let '(expired, w) := store_ListExpired now gcCandidateLimit w in
  collect ctx (deduplicateSandboxes [inactiveSandboxes; or_none expired]) w.

(** The loop of [run] for up to [n] ticks of a ticker started at [start], the
    next of which is due at [due]; [true] when the stop channel, the one of a
    context, ended it. *)
Fixpoint run_loop (n : nat) (gc : garbageCollector) (due start : Time) (stopCh : Ctx.Context) w : bool * W :=
  match n with
  | O => (false, w)
  | S n =>
      let '(tick, w) := select_timer stopCh due w in
      if tick then
        let next := Tm.nextTick start (interval gc) (clock w) in
        run_loop n gc next start stopCh (once w).2
      else (true, w)
  end.

Definition run (n : nat) (gc : garbageCollector) (stopCh : Ctx.Context) w : bool * W :=
  run_loop n gc (clock w + interval gc) (clock w) stopCh w.

End gc.
End Gc.
