(* ===== verification/GcTheorems.v ===== *)
(** * Properties of the garbage collector *)

From stdpp Require Import base list gmap strings.
From S2P Require Import Prelude GoStrings GoTime GoError GoContext GoHttp SandboxTypes KVServer RedisStore StoreSpec StoreRefinement StoreInstances StoreTheorems K8sTypes Cluster WorldModel WorkloadBuilder GarbageCollector WmStable WmCreate.

(** ** Deduplication *)

Lemma elem_of_dedup seen l s :
  s ∈ Gc.dedup seen l -> s ∈ l /\ Info.SessionID s ∉ seen.
Proof.
  revert seen. induction l as [|x l IH]; intros seen; cbn; [by intros ?%elem_of_nil|].
  case_decide as Hx.
  - intros [? ?]%IH. split; [by right|done].
  - intros [->|[? Hn]%IH]%elem_of_cons; [split; [left|done]|]. split; [by right|]. set_solver.
Qed.

Lemma dedup_complete seen l sid :
  sid ∈ Info.SessionID <$> l -> sid ∉ seen -> sid ∈ Info.SessionID <$> Gc.dedup seen l.
Proof.
  revert seen. induction l as [|x l IH]; intros seen; cbn; [done|].
  intros [->|Hin]%elem_of_cons Hn.
  - rewrite decide_False by done. cbn. left.
  - case_decide as Hx; [by apply IH|]. cbn. destruct (decide (sid = Info.SessionID x)) as [->|]; [left|right].
    apply IH; [done|]. set_solver.
Qed.

Lemma dedup_NoDup seen l : NoDup (Info.SessionID <$> Gc.dedup seen l).
Proof.
  revert seen. induction l as [|x l IH]; intros seen; cbn; [constructor|].
  case_decide as Hx; [apply IH|]. cbn. constructor; [|apply IH].
  intros (s & Hs & [_ Hn]%elem_of_dedup)%list_elem_of_fmap. set_solver.
Qed.

Lemma dedup_sublist seen l : Gc.dedup seen l `sublist_of` l.
Proof.
  revert seen. induction l as [|x l IH]; intros seen; cbn; [constructor|].
  case_decide; [by apply sublist_cons|by apply sublist_skip].
Qed.

(** Deduplication keeps, in order, exactly one record for each session of
    its inputs. *)
Theorem deduplicate_correct (lists : list (list SandboxInfo)) :
  let l := Gc.deduplicateSandboxes lists in
  NoDup (Info.SessionID <$> l) /\ l `sublist_of` concat lists /\
  forall sid, sid ∈ Info.SessionID <$> concat lists <-> sid ∈ Info.SessionID <$> l.
Proof.
  intros l. split; [apply dedup_NoDup|]. split; [apply dedup_sublist|]. intros sid. split.
  - intros H. apply dedup_complete; [done|set_solver].
  - intros (s & -> & [Hs _]%elem_of_dedup)%list_elem_of_fmap. by apply list_elem_of_fmap_2.
Qed.

(** ** One run *)

(** What a run removes, from the registry alone. *)
Definition idle_candidates (now : Time) (g : registry) : list SandboxInfo :=
  filter (fun s => Gc.idle now s = true)
    (list_inactive g (Tm.Add now (- Gc.gcMinInactiveLookback)) Gc.gcCandidateLimit).

Definition gc_plan (now : Time) (g : registry) : list SandboxInfo :=
  Gc.deduplicateSandboxes [idle_candidates now g; list_expired g now Gc.gcCandidateLimit].

Definition delete_all (l : list SandboxInfo) (g : registry) : registry :=
  foldl (fun g s => spec_delete (Info.SessionID s) g) g l.

(** What a listed record is. *)
Lemma elem_of_list_inactive g b n s :
  wf_registry g -> s ∈ list_inactive g b n ->
  exists i sc, sessions g !! Info.SessionID s = Some i /\ activity g !! Info.SessionID s = Some sc /\
    sc <= score b /\ s = Info.set_LastActivityAt (Tm.OfUnix sc) i.
Proof.
  intros Hw ([k sc] & [Hk Hsc]%elem_of_zrange & Hs)%list_elem_of_omap. cbn in *.
  destruct (sessions g !! k) as [i|] eqn:Hi; [|done]. cbn in Hs. injection Hs as <-.
  destruct (wf_sessions _ Hw _ _ Hi) as (_ & Hsid & _). cbn. rewrite Hsid. eauto 7.
Qed.

Lemma elem_of_list_expired g b n s :
  wf_registry g -> s ∈ list_expired g b n ->
  exists sc, sessions g !! Info.SessionID s = Some s /\ expiry g !! Info.SessionID s = Some sc /\ sc <= score b.
Proof.
  intros Hw ([k sc] & [Hk Hsc]%elem_of_zrange & Hs)%list_elem_of_omap. cbn in *.
  destruct (wf_sessions _ Hw _ _ Hs) as (_ & Hsid & _). rewrite Hsid. eauto.
Qed.

(** Every record of the plan is a stored session that is idle or expired. *)
Lemma plan_justified now g s :
  wf_registry g -> s ∈ gc_plan now g ->
  exists i, sessions g !! Info.SessionID s = Some i /\
    ((exists sc, expiry g !! Info.SessionID s = Some sc /\ sc <= score now) \/
     (exists sc, activity g !! Info.SessionID s = Some sc /\
        Gc.idle now (Info.set_LastActivityAt (Tm.OfUnix sc) i) = true)).
Proof.
  intros Hw [Hs _]%elem_of_dedup. cbn in Hs. rewrite app_nil_r in Hs.
  apply elem_of_app in Hs as [[Hid Hs]%list_elem_of_filter|Hs].
  - destruct (elem_of_list_inactive _ _ _ _ Hw Hs) as (i & sc & Hi & Ha & _ & ->). exists i. split; [done|].
    right. by exists sc.
  - destruct (elem_of_list_expired _ _ _ _ Hw Hs) as (sc & Hi & He & Hsc). exists s. split; [done|]. left. by exists sc.
Qed.

Lemma delete_all_lookup l : forall g sid,
  let gone {A} (o : option A) := if decide (sid ∈ Info.SessionID <$> l) then None else o in
  sessions (delete_all l g) !! sid = gone (sessions g !! sid) /\
  expiry (delete_all l g) !! sid = gone (expiry g !! sid) /\
  activity (delete_all l g) !! sid = gone (activity g !! sid).
Proof.
  induction l as [|s l IH]; intros g sid gone; unfold gone; [by rewrite !decide_False by set_solver|].
  cbn [delete_all foldl]. fold (delete_all l (spec_delete (Info.SessionID s) g)).
  destruct (IH (spec_delete (Info.SessionID s) g) sid) as (-> & -> & ->). cbn.
  case_decide as H1; [by rewrite !decide_True by set_solver|].
  destruct (decide (Info.SessionID s = sid)) as [->|Hne].
  - rewrite !lookup_delete_eq, !decide_True by left. done.
  - rewrite !lookup_delete_ne by done. rewrite !decide_False by set_solver. done.
Qed.

Lemma delete_all_sessions l g sid :
  sessions (delete_all l g) !! sid = if decide (sid ∈ Info.SessionID <$> l) then None else sessions g !! sid.
Proof. by apply delete_all_lookup. Qed.

Lemma delete_all_consistent l g : consistent g -> consistent (delete_all l g).
Proof.
  revert g. induction l as [|s l IH]; intros g Hc; [done|]. apply IH.
  exact (spec_run_consistent (OpDelete (Info.SessionID s)) g Hc).
Qed.

Section once.
Context {D W : Type} `{!Env W} `{!Cluster D W} `{!Watchers W} `{!Store W}.
Context {AE : ApiErrors} {SC : SandboxCodec}.
Context (rep : W -> registry -> Prop) `{!StoreExact W rep} `{!StoreLaws W rep}
  `{Hst : forall g, Stable D W (fun w => rep w g)}.

Lemma gc_del_stable g kind ctx ns n w :
  rep w g ->
  rep ((if String.eqb kind SandboxClaimsKind then Gc.deleteSandboxClaim (D := D) else Gc.deleteSandbox) ctx ns n w).2 g.
Proof.
  intros HR. destruct (String.eqb _ _); unfold Gc.deleteSandboxClaim, Gc.deleteSandbox.
  - pose proof (stable_deleteClaim (P := fun w => rep w g) own_client ctx ns n w HR).
    destruct (api_deleteClaim _ _ _ _ w) as [[e|] ?]; [by destruct (IsNotFound e)|done].
  - pose proof (stable_deleteSandbox (P := fun w => rep w g) own_client ctx ns n w HR).
    destruct (api_deleteSandbox _ _ _ _ w) as [[e|] ?]; [by destruct (IsNotFound e)|done].
Qed.

Definition gc_answered : Prop :=
  (forall (d : D) ctx ns n (w : W) e, (api_deleteSandbox d ctx ns n w).1 = Some e -> IsNotFound e = true) /\
  (forall (d : D) ctx ns n (w : W) e, (api_deleteClaim d ctx ns n w).1 = Some e -> IsNotFound e = true).

Lemma gc_del_answered kind ctx ns n (w : W) :
  gc_answered ->
  ((if String.eqb kind SandboxClaimsKind then Gc.deleteSandboxClaim (D := D) else Gc.deleteSandbox) ctx ns n w).1 = None.
Proof.
  intros [Hs Hc]. destruct (String.eqb _ _); unfold Gc.deleteSandboxClaim, Gc.deleteSandbox.
  - specialize (Hc own_client ctx ns n w). destruct (api_deleteClaim _ ctx ns n w) as [[e|] w']; [|done].
    by rewrite (Hc e eq_refl).
  - specialize (Hs own_client ctx ns n w). destruct (api_deleteSandbox _ ctx ns n w) as [[e|] w']; [|done].
    by rewrite (Hs e eq_refl).
Qed.

Lemma collect_exact ctx l : forall w g,
  gc_answered -> rep w g -> Forall (fun s => valid_sid (Info.SessionID s)) l ->
  (Gc.collect (D := D) ctx l w).1 = [] /\ rep (Gc.collect (D := D) ctx l w).2 (delete_all l g).
Proof.
  induction l as [|s l IH]; intros w g Ha HR Hv; [done|]. apply Forall_cons in Hv as [Hs Hv].
  cbn [Gc.collect]. pose proof (gc_del_stable g (Info.Kind s) ctx (Info.SandboxNamespace s) (Info.Name s) w HR) as HR1.
  pose proof (gc_del_answered (Info.Kind s) ctx (Info.SandboxNamespace s) (Info.Name s) w Ha) as Hn.
  destruct ((if String.eqb (Info.Kind s) SandboxClaimsKind then _ else _) ctx _ _ w) as [e w1].
  cbn in HR1, Hn. subst e. destruct (exact_Delete rep _ w1 g HR1 Hs) as [HR2 Hn].
  destruct (store_Delete _ w1) as [e w2]. cbn in HR2, Hn. subst e.
  destruct (IH w2 _ Ha HR2 Hv) as [H1 H2]. destruct (Gc.collect ctx l w2) as [errs w3]. cbn in *. by subst.
Qed.

Lemma list_out_inv r l : list_out r = Listed l -> r = Ok l.
Proof. destruct r as [x|e]; [by intros [= ->]|]. unfold list_out, err_out. by destruct (Is e _). Qed.

Lemma exact_ListInactive b n w g :
  rep w g -> exists w', store_ListInactive b n w = (Ok (list_inactive g b n), w') /\ rep w' g.
Proof.
  intros HR. destruct (store_ListInactive b n w) as [r w'] eqn:Hl.
  destruct (store_exact (OpListInactive b n) w g (list_out r) w' HR I) as (g' & HR' & Hs); [cbn; by rewrite Hl|].
  cbn in Hs. injection Hs as Ho <-. symmetry in Ho. apply list_out_inv in Ho as ->. eauto.
Qed.

Lemma exact_ListExpired b n w g :
  rep w g -> exists w', store_ListExpired b n w = (Ok (list_expired g b n), w') /\ rep w' g.
Proof.
  intros HR. destruct (store_ListExpired b n w) as [r w'] eqn:Hl.
  destruct (store_exact (OpListExpired b n) w g (list_out r) w' HR I) as (g' & HR' & Hs); [cbn; by rewrite Hl|].
  cbn in Hs. injection Hs as Ho <-. symmetry in Ho. apply list_out_inv in Ho as ->. eauto.
Qed.

Lemma once_exact w g :
  rep w g -> gc_answered ->
  (Gc.once (D := D) w).1 = [] /\ rep (Gc.once (D := D) w).2 (delete_all (gc_plan (clock w) g) g).
Proof.
  intros HR Ha. pose proof (store_wf w g HR) as Hw. unfold Gc.once. set (now := clock w).
  destruct (exact_ListInactive (Tm.Add now (- Gc.gcMinInactiveLookback)) Gc.gcCandidateLimit w g HR) as (w1 & -> & HR1).
  destruct (exact_ListExpired now Gc.gcCandidateLimit w1 g HR1) as (w2 & -> & HR2).
  cbn [Gc.or_none]. fold (idle_candidates now g). fold (gc_plan now g).
  apply collect_exact; [done|done|]. apply Forall_forall. intros s Hs.
  destruct (plan_justified now g s Hw Hs) as (i & Hi & _). by apply (wf_sessions _ Hw _ _ Hi).
Qed.

End once.

Lemma expired_listed now g sid i sc :
  wf_registry g -> Z.of_nat (length (zsorted (expiry g) (score now))) <= Gc.gcCandidateLimit ->
  sessions g !! sid = Some i -> expiry g !! sid = Some sc -> sc <= score now ->
  sid ∈ Info.SessionID <$> list_expired g now Gc.gcCandidateLimit.
Proof.
  intros Hw Hl Hi He Hsc. apply list_elem_of_fmap. exists i.
  destruct (wf_sessions _ Hw _ _ Hi) as (_ & Hsid & _). split; [done|].
  apply list_elem_of_omap. exists (sid, sc). split; [|done]. by apply zrange_complete.
Qed.

Lemma idle_listed now g sid i sc :
  wf_registry g -> let b := Tm.Add now (- Gc.gcMinInactiveLookback) in
  Z.of_nat (length (zsorted (activity g) (score b))) <= Gc.gcCandidateLimit ->
  sessions g !! sid = Some i -> activity g !! sid = Some sc -> sc <= score b ->
  Gc.idle now (Info.set_LastActivityAt (Tm.OfUnix sc) i) = true ->
  sid ∈ Info.SessionID <$> idle_candidates now g.
Proof.
  intros Hw b Hl Hi Ha Hsc Hid. apply list_elem_of_fmap. exists (Info.set_LastActivityAt (Tm.OfUnix sc) i).
  destruct (wf_sessions _ Hw _ _ Hi) as (_ & Hsid & _). split; [done|].
  apply list_elem_of_filter. split; [done|]. apply list_elem_of_omap. exists (sid, sc). cbn. rewrite Hi.
  split; [|done]. by apply zrange_complete.
Qed.

Lemma plan_complete now g sid i sc :
  wf_registry g -> sessions g !! sid = Some i ->
  let b := Tm.Add now (- Gc.gcMinInactiveLookback) in
  (expiry g !! sid = Some sc /\ sc <= score now /\ Z.of_nat (length (zsorted (expiry g) (score now))) <= 100) \/
  (activity g !! sid = Some sc /\ sc <= score b /\ Gc.idle now (Info.set_LastActivityAt (Tm.OfUnix sc) i) = true /\
     Z.of_nat (length (zsorted (activity g) (score b))) <= 100) ->
  sid ∈ Info.SessionID <$> gc_plan now g.
Proof.
  intros Hw Hi b Hor. apply dedup_complete; [|set_solver]. cbn. rewrite app_nil_r, fmap_app. apply elem_of_app.
  destruct Hor as [(He & Hsc & Hl)|(Hac & Hsc & Hid & Hl)].
  - right. by eapply expired_listed.
  - left. by eapply idle_listed.
Qed.


(** ** A concrete run: the session of [ns/web-1] expires *)

Import ApiModel CodecModel.CodecModel WM.

Definition info_gc : SandboxInfo :=
  {| Info.Kind := SandboxKind; Info.SandboxID := "u"; Info.SandboxNamespace := "ns"; Info.Name := "web-1";
     Info.EntryPoints := []; Info.SessionID := "s1"; Info.OwnerID := ""; Info.CreatedAt := clock world0;
     Info.ExpiresAt := clock world0 + 8 * Tm.Hour; Info.IdleTimeout := 0; Info.LastActivityAt := Tm.zero;
     Info.Status := "ready" |}.

Definition world_gc : world :=
  set_clock (clock world0 + 9 * Tm.Hour) (store_Store (clock world0) info_gc world0).2.
Definition reg_gc : registry := spec_store (clock world0) info_gc empty_registry.

Lemma rep_set_clock t w g : rep w g -> rep (set_clock t w) g.
Proof. done. Qed.

Lemma rep_world_gc : rep world_gc reg_gc.
Proof.
  destruct (exact_Store rep (clock world0) info_gc world0 empty_registry represents_empty)
    as (g' & HR & Hs); [done|exact I|].
  assert ((spec_run (OpStore (clock world0) info_gc) empty_registry).2 = reg_gc) as Hg by (vm_compute; reflexivity).
  rewrite Hs in Hg. cbn [snd] in Hg. rewrite Hg in HR. unfold world_gc. apply rep_set_clock. exact HR.
Qed.

Lemma gc_answered0 : gc_answered (D := string) (W := world).
Proof. split; intros d ctx ns n w x; cbn; destruct (_ !! _); cbn; [done| |done|]; by intros [= <-]. Qed.

