(* ===== verification/GcLiveness.v ===== *)
(** * The loop of the garbage collector over time

    [run] of [pkg/workloadmanager/garbage_collection.go]: a backlog of expired
    sessions drains, a hundred at a tick; index entries without a session, which
    a broken deletion leaves behind, stall it. *)

From stdpp Require Import base list gmap strings.
From S2P Require Import Prelude GoStrings GoTime GoError GoContext GoHttp SandboxTypes KVServer RedisStore StoreSpec StoreRefinement StoreInstances StoreTheorems K8sTypes Cluster WorldModel WorkloadBuilder GarbageCollector WmStable WmCreate GcTheorems.

(** ** The loop: a backlog of expired sessions drains *)

(** The sessions whose expiry is due at [t]. *)
Definition backlog (t : Time) (g : registry) : nat := length (zsorted (expiry g) (score t)).

Lemma score_mono a b : in_era a -> in_era b -> a <= b -> score a <= score b.
Proof.
  intros Ha Hb Hab. destruct (in_era_sane a 0 Ha) as [Sa _]; [unfold Tm.Minute, Tm.Second; lia|].
  destruct (in_era_sane b 0 Hb) as [Sb _]; [unfold Tm.Minute, Tm.Second; lia|].
  assert (forall t, in_era t -> Tm.sane t -> Z.abs (Tm.Unix t) < 2 ^ 53) as Hu.
  { intros t Ht St. rewrite Tm.Unix_exact by done. destruct Ht as [H1 H2].
    change (Tm.OfUnix 0) with (62135596800 * Tm.Second) in H1.
    change (Tm.OfUnix (2 ^ 50)) with ((2 ^ 50 + 62135596800) * Tm.Second) in H2.
    unfold Tm.unixToInternal. unfold Tm.Second in *.
    assert (62135596800 <= t / 1000000000) by (apply Z.div_le_lower_bound; lia).
    assert (t / 1000000000 <= 2 ^ 50 + 62135596800) by (apply Z.div_le_upper_bound; lia). lia. }
  unfold score. rewrite !float64_of_int_exact by auto. by apply Tm.Unix_mono.
Qed.

(** A round removes the hundred oldest entries, or all of them. *)
Lemma drain_round t now g :
  wf_registry g -> consistent g -> score t <= score now ->
  (backlog t (delete_all (gc_plan now g) g) <= backlog t g - 100)%nat.
Proof.
  intros Hw Hc Ht. unfold backlog. set (g' := delete_all (gc_plan now g) g).
  rewrite <- (length_drop (zsorted (expiry g) (score t))). apply submseteq_length, NoDup_submseteq.
  { eapply NoDup_fmap_1, zsorted_fst_NoDup. }
  intros [m sc] [Hm Hsc]%elem_of_zsorted. unfold g' in Hm. destruct (delete_all_lookup (gc_plan now g) g m) as (_ & He & _).
  rewrite He in Hm. case_decide as Hp; [done|].
  assert ((m, sc) ∈ zsorted (expiry g) (score t)) as Hin by (by apply elem_of_zsorted).
  rewrite <- (take_drop 100) in Hin. apply elem_of_app in Hin as [Hin|]; [|done]. destruct Hp.
  destruct (Hc m) as [_ Hx]. destruct (sessions g !! m) as [i|] eqn:Hi.
  2:{ exfalso. assert (is_Some (None : option SandboxInfo)) as [? ?]; [apply Hx; eauto|done]. }
  apply dedup_complete; [|set_solver]. cbn. rewrite app_nil_r, fmap_app. apply elem_of_app. right.
  apply list_elem_of_fmap. exists i. destruct (wf_sessions _ Hw _ _ Hi) as (_ & Hsid & _). split; [done|].
  apply list_elem_of_omap. exists (m, sc). split; [|done]. apply (zrange_older _ (score t)); done.
Qed.

(** Everything recorded about a session is as before. *)
Definition same_session (g g' : registry) (sid : string) : Prop :=
  sessions g' !! sid = sessions g !! sid /\ expiry g' !! sid = expiry g !! sid /\ activity g' !! sid = activity g !! sid.

(** A session that a collection at [now] may remove. *)
Definition collectable (now : Time) (g : registry) (sid : string) : Prop :=
  exists i, sessions g !! sid = Some i /\
    ((exists sc, expiry g !! sid = Some sc /\ sc <= score now) \/
     (exists sc, activity g !! sid = Some sc /\ Gc.idle now (Info.set_LastActivityAt (Tm.OfUnix sc) i) = true)).

Lemma collectable_same now g g' sid : same_session g g' sid -> collectable now g' sid -> collectable now g sid.
Proof. unfold same_session, collectable. by intros (-> & -> & ->). Qed.

Section loop.
Context {D W : Type} `{!Env W} `{!EnvLaws W} `{!Cluster D W} `{!Watchers W} `{!Store W}.
Context {AE : ApiErrors} {SC : SandboxCodec}.
Context (rep : W -> registry -> Prop) `{!StoreExact W rep} `{!StoreLaws W rep}
  `{Hst : forall g, Stable D W (fun w => rep w g)} `{Hclk : forall t, Stable D W (fun w => t <= clock w)}.
(** The requests to the store take time. *)
Context (Hstore : forall o (w : W), clock w <= clock (run o w).2).
Implicit Types (w : W) (g : registry).

Lemma collect_clock ctx l : forall w, clock w <= clock (Gc.collect (D := D) ctx l w).2.
Proof.
  induction l as [|s l IH]; intros w; [done|]. cbn [Gc.collect].
  set (del := if String.eqb (Info.Kind s) SandboxClaimsKind then _ else _).
  assert (forall c ns n, clock w <= clock (del c ns n w).2) as Hd.
  { intros c ns n. unfold del. destruct (String.eqb _ _); unfold Gc.deleteSandboxClaim, Gc.deleteSandbox.
    - pose proof (stable_deleteClaim (P := fun x => clock w <= clock x) own_client c ns n w (Z.le_refl _)) as H.
      destruct (api_deleteClaim _ _ _ _ w) as [[e|] ?]; [by destruct (IsNotFound e)|done].
    - pose proof (stable_deleteSandbox (P := fun x => clock w <= clock x) own_client c ns n w (Z.le_refl _)) as H.
      destruct (api_deleteSandbox _ _ _ _ w) as [[e|] ?]; [by destruct (IsNotFound e)|done]. }
  specialize (Hd ctx (Info.SandboxNamespace s) (Info.Name s)). destruct (del ctx _ _ w) as [[e|] w1]; cbn [snd] in Hd.
  - specialize (IH w1). destruct (Gc.collect ctx l w1) as [errs w2]. cbn in *. lia.
  - pose proof (Hstore (OpDelete (Info.SessionID s)) w1) as H1. cbn in H1.
    destruct (store_Delete _ w1) as [e w2]. cbn in H1. specialize (IH w2).
    destruct (Gc.collect ctx l w2) as [errs w3]. cbn in *. lia.
Qed.

Lemma once_clock w : clock w <= clock (Gc.once (D := D) w).2.
Proof.
  unfold Gc.once.
  match goal with |- context [store_ListInactive ?b ?n w] => pose proof (Hstore (OpListInactive b n) w) as H1; cbn in H1;
    destruct (store_ListInactive b n w) as [r1 w1] end.
  match goal with |- context [store_ListExpired ?b ?n w1] => pose proof (Hstore (OpListExpired b n) w1) as H2; cbn in H2;
    destruct (store_ListExpired b n w1) as [r2 w2] end.
  match goal with |- context [Gc.collect ?c ?l w2] => pose proof (collect_clock c l w2) as H3 end. cbn in *. lia.
Qed.

Lemma run_loop_clock n : forall gc due start ctx w, clock w <= clock (Gc.run_loop (D := D) n gc due start ctx w).2.
Proof.
  induction n as [|n IH]; intros gc due start ctx w; cbn [Gc.run_loop]; [done|].
  pose proof (clock_timer ctx due w) as H1. destruct (select_timer ctx due w) as [[] w1]; [|done]. cbn [snd] in H1.
  pose proof (once_clock w1). specialize (IH gc (Tm.nextTick start (Gc.interval gc) (clock w1)) start ctx (Gc.once (D := D) w1).2). lia.
Qed.

Lemma run_loop_stopped n : forall gc due start ctx w w',
  Gc.run_loop (D := D) n gc due start ctx w = (true, w') -> Ctx.Err ctx (clock w') <> None.
Proof.
  induction n as [|n IH]; intros gc due start ctx w w'; cbn [Gc.run_loop]; [done|].
  destruct (select_timer ctx due w) as [[] w1] eqn:Ht; [apply IH|]. intros [= <-]. by eapply timer_done.
Qed.

Lemma round_result now g sid :
  wf_registry g -> let g' := delete_all (gc_plan now g) g in
  same_session g g' sid \/ sessions g' !! sid = None /\ collectable now g sid.
Proof.
  intros Hw g'. unfold g', same_session. destruct (delete_all_lookup (gc_plan now g) g sid) as (-> & -> & ->).
  case_decide as Hp; [right|by left]. split; [done|]. apply list_elem_of_fmap in Hp as (s & -> & Hs). by apply plan_justified.
Qed.

Lemma run_loop_drains n : forall gc due start ctx w w' g t,
  rep w g -> consistent g -> gc_answered (D := D) (W := W) -> in_era t -> t <= clock w -> in_era (clock w') ->
  Gc.run_loop (D := D) n gc due start ctx w = (false, w') ->
  exists g', rep w' g' /\ consistent g' /\ (backlog t g' <= backlog t g - 100 * n)%nat /\
    forall sid, same_session g g' sid \/
      sessions g' !! sid = None /\ exists now, clock w <= now <= clock w' /\ collectable now g sid.
Proof.
  induction n as [|n IH]; intros gc due start ctx w w' g t HR Hc Ha Ht Hle Hend; cbn [Gc.run_loop].
  { intros [= <-]. exists g. split_and!; [done..|lia|]. intros sid. by left. }
  pose proof (clock_timer ctx due w) as H1. pose proof (stable_timer (P := fun x => rep x g) ctx due w HR) as HR1.
  destruct (select_timer ctx due w) as [[] w1]; [|done]. cbn [snd] in H1, HR1. intros Hrun.
  pose proof (once_clock w1) as H2. destruct (once_exact rep w1 g HR1 Ha) as [_ HR2].
  pose proof (run_loop_clock n gc (Tm.nextTick start (Gc.interval gc) (clock w1)) start ctx (Gc.once (D := D) w1).2) as H3.
  rewrite Hrun in H3. cbn [snd] in H3.
  assert (in_era (clock w1)) as He by (destruct Ht, Hend; split; lia).
  pose proof (store_wf w1 g HR1) as Hw.
  destruct (IH gc _ start ctx _ w' _ t HR2 (delete_all_consistent _ _ Hc) Ha Ht ltac:(lia) Hend Hrun) as (g' & HR' & Hc' & Hb & Hs).
  exists g'. split_and!; [done..| |].
  - pose proof (drain_round t (clock w1) g Hw Hc (score_mono _ _ Ht He ltac:(lia))). lia.
  - intros sid. destruct (Hs sid) as [Hsame|[Hn (now & Hnow & Hcol)]], (round_result (clock w1) g sid Hw) as [Hk|[Hg Hcol']].
    + left. unfold same_session in *. destruct Hsame as (-> & -> & ->). done.
    + right. split; [destruct Hsame as (-> & _); done|]. exists (clock w1). split; [lia|done].
    + right. split; [done|]. exists now. split; [lia|]. by eapply collectable_same.
    + right. split; [done|]. exists (clock w1). split; [lia|done].
Qed.

End loop.

(** [C11] The collector's loop makes progress: with a working store, an API
    server that answers deletions and complete indexes, [n] ticks of the loop
    remove every session that had expired when the loop started, as long as
    there were at most [100 n] of them. The indexes stay complete, every session
    that is gone was expired or idle for longer than its timeout at an instant
    of the run, all others are untouched, and the loop ends only when its
    context is done. *)
Theorem gc_drains {D W : Type} `{!Env W} `{!EnvLaws W} `{!Cluster D W} `{!Watchers W} `{!Store W}
    {AE : ApiErrors} {SC : SandboxCodec} (rep : W -> registry -> Prop) `{!StoreExact W rep} `{!StoreLaws W rep}
    `{Hst : forall g, Stable D W (fun w => rep w g)} `{Hclk : forall t, Stable D W (fun w => t <= clock w)}
    (Hstore : forall o (w : W), clock w <= clock (run o w).2) (n : nat) (gc : Gc.garbageCollector) stopCh (w w' : W) g ended :
  rep w g -> consistent g -> gc_answered (D := D) (W := W) -> in_era (clock w) -> in_era (clock w') ->
  Gc.run (D := D) n gc stopCh w = (ended, w') ->
  if ended then Ctx.Err stopCh (clock w') <> None
  else exists g', rep w' g' /\ consistent g' /\
    (forall sid, same_session g g' sid \/
       sessions g' !! sid = None /\ exists now, clock w <= now <= clock w' /\ collectable now g sid) /\
    ((backlog (clock w) g <= 100 * n)%nat ->
     forall sid sc, expiry g !! sid = Some sc -> sc <= score (clock w) -> sessions g' !! sid = None).
Proof.
  intros HR Hc Ha He He' Hrun. unfold Gc.run in Hrun. destruct ended.
  { eapply run_loop_stopped. exact Hrun. }
  destruct (run_loop_drains rep Hstore n gc _ _ stopCh w w' g (clock w) HR Hc Ha He ltac:(lia) He' Hrun) as (g' & HR' & Hc' & Hb & Hs).
  exists g'. split_and!; [done..|]. intros Hn sid sc Hx Hsc. destruct (Hs sid) as [(Hss & Hex & _)|[H _]]; [|done].
  assert ((sid, sc) ∈ zsorted (expiry g') (score (clock w))) as Hin by (apply elem_of_zsorted; by rewrite Hex).
  unfold backlog in *. destruct (zsorted (expiry g') (score (clock w))); [by apply not_elem_of_nil in Hin|]. cbn in Hb. lia.
Qed.

(** ** Index entries without a session stall the collection of expired ones *)

(** The window of the listing, a hundred entries, holds only entries up to [b],
    and none of them has a session. *)
Record stalled (b : Z) (g : registry) : Prop := {
  stalled_full : (100 <= length (zsorted (expiry g) b))%nat;
  stalled_orphans m sc : expiry g !! m = Some sc -> sc <= b -> sessions g !! m = None;
}.

Lemma stalled_listing b now g : stalled b g -> b <= score now -> list_expired g now Gc.gcCandidateLimit = [].
Proof.
  intros [Hl Ho] Hb. apply elem_of_nil_inv. intros i ([m sc] & Hm & Hi)%list_elem_of_omap. cbn in Hi.
  unfold zrange in Hm. destruct (zsorted_prefix (expiry g) b (score now) Hb) as [l Hz]. rewrite Hz in Hm.
  change (Z.to_nat Gc.gcCandidateLimit) with 100%nat in Hm. rewrite take_app_le in Hm by lia.
  apply elem_of_take_self, elem_of_zsorted in Hm as [Hx Hsc]. rewrite (Ho m sc Hx Hsc) in Hi. done.
Qed.

Lemma stalled_round b now g :
  wf_registry g -> stalled b g -> b <= score now ->
  let g' := delete_all (gc_plan now g) g in stalled b g' /\
  forall sid, same_session g g' sid \/ exists i sc, sessions g !! sid = Some i /\ activity g !! sid = Some sc /\
    Gc.idle now (Info.set_LastActivityAt (Tm.OfUnix sc) i) = true.
Proof.
  intros Hw Hs Hb g'. assert (forall sid, sid ∈ Info.SessionID <$> gc_plan now g -> exists i sc, sessions g !! sid = Some i /\
    activity g !! sid = Some sc /\ Gc.idle now (Info.set_LastActivityAt (Tm.OfUnix sc) i) = true) as Hplan.
  { intros sid (s & -> & [Hin _]%elem_of_dedup)%list_elem_of_fmap. rewrite (stalled_listing b now g Hs Hb) in Hin. cbn in Hin.
    rewrite !app_nil_r in Hin. apply list_elem_of_filter in Hin as [Hid Hin].
    destruct (elem_of_list_inactive _ _ _ _ Hw Hin) as (i & sc & Hi & Hac & _ & ->). by exists i, sc. }
  assert (forall sid, sessions g !! sid = None -> same_session g g' sid) as Hkeep.
  { intros sid Hn. unfold same_session, g'. destruct (delete_all_lookup (gc_plan now g) g sid) as (-> & -> & ->).
    case_decide as Hp; [|done]. apply Hplan in Hp as (i & sc & Hi & _). congruence. }
  destruct Hs as [Hl Ho]. split.
  - split.
    + etrans; [exact Hl|]. apply submseteq_length, NoDup_submseteq; [eapply NoDup_fmap_1, zsorted_fst_NoDup|].
      intros [m sc] [Hm Hsc]%elem_of_zsorted. apply elem_of_zsorted.
      destruct (Hkeep m (Ho m sc Hm Hsc)) as (_ & -> & _). done.
    + intros m sc. unfold g'. destruct (delete_all_lookup (gc_plan now g) g m) as (-> & -> & _). case_decide; [done|]. apply Ho.
  - intros sid. unfold same_session, g'. destruct (delete_all_lookup (gc_plan now g) g sid) as (-> & -> & ->).
    case_decide as Hp; [right; by apply Hplan|by left].
Qed.

Section stall.
Context {D W : Type} `{!Env W} `{!EnvLaws W} `{!Cluster D W} `{!Watchers W} `{!Store W}.
Context {AE : ApiErrors} {SC : SandboxCodec}.
Context (rep : W -> registry -> Prop) `{!StoreExact W rep} `{!StoreLaws W rep}
  `{Hst : forall g, Stable D W (fun w => rep w g)} `{Hclk : forall t, Stable D W (fun w => t <= clock w)}.
Context (Hstore : forall o (w : W), clock w <= clock (run o w).2).

(** In use from [t] to [t']. *)
Definition in_use (t t' : Time) (g : registry) (sid : string) : Prop :=
  exists i sc, sessions g !! sid = Some i /\ activity g !! sid = Some sc /\
    forall now, t <= now <= t' -> Gc.idle now (Info.set_LastActivityAt (Tm.OfUnix sc) i) = false.

Lemma stalled_loop n gc stopCh b t (w' : W) : forall (w : W) g due start,
  rep w g -> stalled b g -> gc_answered (D := D) (W := W) -> in_era t -> in_era (clock w') -> b <= score t -> t <= clock w ->
  Gc.run_loop (D := D) n gc due start stopCh w = (false, w') ->
  exists g', rep w' g' /\ stalled b g' /\ forall sid, in_use t (clock w') g sid -> same_session g g' sid.
Proof.
  induction n as [|n IH]; intros w g due start HR Hs Ha He He' Hb Hle; cbn [Gc.run_loop].
  { intros [= <-]. exists g. split_and!; [done..|]. by repeat split. }
  pose proof (clock_timer stopCh due w) as H1. pose proof (stable_timer (P := fun x => rep x g) stopCh due w HR) as HR1.
  destruct (select_timer stopCh due w) as [[] w1]; [|done]. cbn [snd] in H1, HR1. intros Hrun.
  pose proof (once_clock (D := D) Hstore w1) as H2. destruct (once_exact rep w1 g HR1 Ha) as [_ HR2].
  pose proof (run_loop_clock (D := D) Hstore n gc (Tm.nextTick start (Gc.interval gc) (clock w1)) start stopCh (Gc.once (D := D) w1).2) as H3.
  rewrite Hrun in H3. cbn [snd] in H3. assert (in_era (clock w1)) as He1 by (destruct He, He'; split; lia).
  pose proof (score_mono _ _ He He1 ltac:(lia)) as Hm.
  destruct (stalled_round b (clock w1) g (store_wf w1 g HR1) Hs (Z.le_trans _ _ _ Hb Hm)) as [Hs' Hk].
  destruct (IH _ _ _ _ HR2 Hs' Ha He He' Hb ltac:(lia) Hrun) as (g' & HR' & Hsg & Hkeep). exists g'. split_and!; [done..|].
  intros sid (i & sc & Hi & Hac & Hidle). destruct (Hk sid) as [Hsame|(i' & sc' & Hi' & Hac' & Hid)].
  - pose proof Hsame as (E1 & E2 & E3). destruct (Hkeep sid) as (F1 & F2 & F3); [exists i, sc; split_and!; [congruence..|done]|].
    unfold same_session. rewrite F1, F2, F3. done.
  - simplify_eq. rewrite Hidle in Hid by lia. done.
Qed.

(** The index entries of a hundred sessions whose deletion broke off stop the
    collection of expired sessions for good: when the hundred oldest entries of
    the expiry index have no session, then, however many ticks the loop makes,
    a session that is in use stays, expired or not. *)
Theorem orphans_stall_gc (n : nat) (gc : Gc.garbageCollector) stopCh b (w w' : W) g :
  rep w g -> stalled b g -> gc_answered (D := D) (W := W) -> in_era (clock w) -> in_era (clock w') -> b <= score (clock w) ->
  Gc.run (D := D) n gc stopCh w = (false, w') ->
  exists g', rep w' g' /\ stalled b g' /\ forall sid, in_use (clock w) (clock w') g sid -> same_session g g' sid.
Proof. intros HR Hs Ha He He' Hb. apply stalled_loop; done || lia. Qed.

End stall.

(** Where such entries come from: the commands of a deletion are separate, and a
    connection that breaks after the first of them leaves both index entries
    without a session. Looking the session up then reports that it does not
    exist, so that it cannot be deleted again. *)
Theorem broken_delete_orphans {SC : SandboxCodec} {SL : SandboxCodecLaws} ks g sid :
  represents_ks ks g -> valid_sid sid ->
  exists e ks', Redis.DeleteSandboxBySessionID (KVServer0 := KVFlaky.server) redis0 sid (ks, 1%nat) = (Some e, (ks', 0%nat)) /\
    represents_ks ks' (del_session sid g) /\
    (Redis.GetSandboxBySessionID (KVServer0 := KVModel.server) redis0 sid ks').1 = Err (ESent ErrNotFound).
Proof.
  intros HR Hv. destruct (step_del ks g sid HR Hv) as (n & ks' & Hd & HR').
  unfold Redis.DeleteSandboxBySessionID. cbn [Redis.pipeline kv_do KVFlaky.server fst snd].
  change (Redis.sessionKey redis0 sid) with (sesKey sid). rewrite Hd. cbn. do 2 eexists. split; [done|]. split; [exact HR'|].
  unfold Redis.GetSandboxBySessionID. cbn. pose proof (rep_session _ _ HR' sid Hv) as Hs. cbn in Hs.
  rewrite lookup_delete_eq in Hs. unfold session_at in Hs. change (Redis.sessionKey redis0 sid) with (sesKey sid).
  destruct (ks' !! sesKey sid) as [[x|z]|]; [|done|done]. by destruct Hs as (_ & i & _ & ?).
Qed.

(** ** A concrete run *)

Import ApiModel CodecModel.CodecModel WM.

Lemma store_clock0 o (w : world) : clock w <= clock (run o w).2.
Proof.
  pose proof (run_lift (redis_store (KVServer0 := KVModel.server)) w_kv set_kv o w) as H. unfold on in H.
  change (run o w) with (run (Store0 := lift_store (redis_store (KVServer0 := KVModel.server)) w_kv set_kv) o w). rewrite H. clear H.
  destruct (run o (w_kv w)) as [r k]. cbn. lia.
Qed.

Definition gc0 : Gc.garbageCollector := Gc.newGarbageCollector (15 * Tm.Second).

Lemma gc_drains_witness :
  backlog (clock world_gc) reg_gc = 1%nat /\
  exists w' g', Gc.run (D := string) 1 gc0 Ctx.Background world_gc = (false, w') /\ rep w' g' /\ sessions g' !! "s1" = None.
Proof.
  split; [vm_compute; reflexivity|].
  destruct (Gc.run (D := string) 1 gc0 Ctx.Background world_gc) as [ended w'] eqn:Hr.
  assert ((Gc.run (D := string) 1 gc0 Ctx.Background world_gc).1 = false) as He by (vm_compute; reflexivity).
  assert (clock (Gc.run (D := string) 1 gc0 Ctx.Background world_gc).2 = clock world_gc + 15 * Tm.Second) as Hk by (vm_compute; reflexivity).
  rewrite Hr in He, Hk. cbn [fst snd] in He, Hk. subst ended.
  destruct (gc_drains (Watchers0 := watchers) (Hst := stable_rep) (Hclk := stable_clock) rep store_clock0 1 gc0 Ctx.Background
    world_gc w' reg_gc false rep_world_gc
    (spec_run_consistent (OpStore (clock world0) info_gc) empty_registry consistent_empty) gc_answered0
    ltac:(split; vm_compute; discriminate) ltac:(rewrite Hk; split; vm_compute; discriminate) Hr) as (g' & HR & _ & _ & Hx).
  exists w', g'. split; [reflexivity|]. split; [exact HR|].
  apply (Hx ltac:(vm_compute; lia) "s1" (score (Info.ExpiresAt info_gc))); [vm_compute; reflexivity|vm_compute; discriminate].
Defined.

(** A stalled registry: a hundred entries of broken deletions and one session
    that has expired since. *)
Definition reg_stalled : registry :=
  {| sessions := {["s1" := info_gc]};
     expiry := <["s1" := 200]> (list_to_map ((fun n => ("o" +:+ Strs.Itoa n, n)) <$> seqZ 0 100));
     activity := {["s1" := 200]} |}.

Lemma reg_stalled_stalled : stalled 199 reg_stalled /\ expiry reg_stalled !! "s1" = Some 200.
Proof.
  split; [|vm_compute; reflexivity]. split; [vm_compute; lia|]. intros m sc Hm Hsc. cbn in Hm |- *.
  destruct (decide (m = "s1")) as [->|]; [|by rewrite lookup_singleton_ne]. rewrite lookup_insert_eq in Hm. simplify_eq. lia.
Qed.
