(* ===== verification/GcConcurrent.v ===== *)
(** * The garbage collector among other clients of the store

    [once] of [pkg/workloadmanager/garbage_collection.go] as the separate
    requests it makes, between which the router and the handlers use the
    same store and time passes. The collector holds no lock: what it deletes was
    listed earlier. *)

From stdpp Require Import base list gmap strings relations.
From S2P Require Import Prelude GoStrings GoTime GoError SandboxTypes StoreSpec StoreRefinement CodecModel K8sTypes Cluster WorldModel WorkloadBuilder GarbageCollector GcTheorems.

Module GcC.

(** Where [once] stands: between runs; with the idle candidates of the registry
    [g1] listed at [now]; in the deletion loop, the expired ones having been
    listed in [g2]. *)
Inductive pc :=
  | Waiting
  | ListedInactive (now : Time) (g1 : registry) (inactiveSandboxes : list SandboxInfo)
  | Deleting (now : Time) (g1 g2 : registry) (gcSandboxes : list SandboxInfo).

(** A deletion from the store: the run's instant and listings, then the registry
    and the instant of the deletion itself. *)
Record removal := {
  r_sid : string; r_now : Time; r_g1 : registry; r_g2 : registry; r_reg : registry; r_time : Time;
}.

Record state := { reg : registry; clk : Time; at_ : pc; removed : list removal }.

(** One request of [once], or something else in between. *)
Inductive step : state -> state -> Prop :=
  | s_listInactive g t rm :
      step {| reg := g; clk := t; at_ := Waiting; removed := rm |}
           {| reg := g; clk := t; removed := rm;
              at_ := ListedInactive t g
                (filter (fun s => Gc.idle t s = true) (list_inactive g (Tm.Add t (- Gc.gcMinInactiveLookback)) Gc.gcCandidateLimit)) |}
  | s_listInactive_fails g t rm :
      step {| reg := g; clk := t; at_ := Waiting; removed := rm |}
           {| reg := g; clk := t; at_ := ListedInactive t g []; removed := rm |}
  | s_listExpired g t rm now g1 l :
      step {| reg := g; clk := t; at_ := ListedInactive now g1 l; removed := rm |}
           {| reg := g; clk := t; removed := rm;
              at_ := Deleting now g1 g (Gc.deduplicateSandboxes [l; list_expired g now Gc.gcCandidateLimit]) |}
  | s_listExpired_fails g t rm now g1 l :
      step {| reg := g; clk := t; at_ := ListedInactive now g1 l; removed := rm |}
           {| reg := g; clk := t; removed := rm; at_ := Deleting now g1 g (Gc.deduplicateSandboxes [l; []]) |}
  (** the cluster object and then the record are deleted *)
  | s_delete g t rm now g1 g2 s l :
      step {| reg := g; clk := t; at_ := Deleting now g1 g2 (s :: l); removed := rm |}
           {| reg := spec_delete (Info.SessionID s) g; clk := t; at_ := Deleting now g1 g2 l;
              removed := rm ++ [{| r_sid := Info.SessionID s; r_now := now; r_g1 := g1; r_g2 := g2; r_reg := g; r_time := t |}] |}
  (** the cluster refuses the deletion: the record is kept *)
  | s_delete_refused g t rm now g1 g2 s l :
      step {| reg := g; clk := t; at_ := Deleting now g1 g2 (s :: l); removed := rm |}
           {| reg := g; clk := t; at_ := Deleting now g1 g2 l; removed := rm |}
  (** the store fails after the cluster object is gone *)
  | s_delete_fails g g' t rm now g1 g2 s l :
      frame (Some (Info.SessionID s)) g g' -> wf_registry g' ->
      step {| reg := g; clk := t; at_ := Deleting now g1 g2 (s :: l); removed := rm |}
           {| reg := g'; clk := t; at_ := Deleting now g1 g2 l; removed := rm |}
  | s_done g t rm now g1 g2 :
      step {| reg := g; clk := t; at_ := Deleting now g1 g2 []; removed := rm |}
           {| reg := g; clk := t; at_ := Waiting; removed := rm |}
  (** another client of the store *)
  | s_client g g' t p rm o r :
      spec_run o g = (r, g') \/ frame (op_sid o) g g' -> wf_registry g' ->
      step {| reg := g; clk := t; at_ := p; removed := rm |} {| reg := g'; clk := t; at_ := p; removed := rm |}
  | s_time g t t' p rm :
      t <= t' -> step {| reg := g; clk := t; at_ := p; removed := rm |} {| reg := g; clk := t'; at_ := p; removed := rm |}.

Definition start (g : registry) (t : Time) : state := {| reg := g; clk := t; at_ := Waiting; removed := [] |}.

End GcC.
Import GcC.

(** ** Why a session was listed *)

Definition idle_in (now : Time) (g : registry) (sid : string) : Prop :=
  exists i sc, sessions g !! sid = Some i /\ activity g !! sid = Some sc /\
    Gc.idle now (Info.set_LastActivityAt (Tm.OfUnix sc) i) = true.

Definition expired_in (now : Time) (g : registry) (sid : string) : Prop :=
  exists i sc, sessions g !! sid = Some i /\ expiry g !! sid = Some sc /\ sc <= score now.

Definition listed (now : Time) (g1 g2 : registry) (s : SandboxInfo) : Prop :=
  idle_in now g1 (Info.SessionID s) \/ expired_in now g2 (Info.SessionID s).

Definition pc_ok (t : Time) (p : pc) : Prop :=
  match p with
  | Waiting => True
  | ListedInactive now g1 l => now <= t /\ Forall (fun s => idle_in now g1 (Info.SessionID s)) l
  | Deleting now g1 g2 l => now <= t /\ Forall (listed now g1 g2) l
  end.

Record Inv (s : state) : Prop := {
  inv_wf : wf_registry (reg s);
  inv_pc : pc_ok (clk s) (at_ s);
  inv_removed : Forall (fun r => r_now r <= r_time r /\ (idle_in (r_now r) (r_g1 r) (r_sid r) \/ expired_in (r_now r) (r_g2 r) (r_sid r))) (removed s);
}.

Lemma wf_spec_delete sid g : wf_registry g -> wf_registry (spec_delete sid g).
Proof. intros Hw. by apply wf_del_activity, wf_del_expiry, wf_del_session. Qed.

Lemma pc_later t t' p : t <= t' -> pc_ok t p -> pc_ok t' p.
Proof. destruct p; cbn; intuition lia. Qed.

Lemma dedup_listed now g1 g2 l l' :
  Forall (fun s => idle_in now g1 (Info.SessionID s)) l -> Forall (fun s => expired_in now g2 (Info.SessionID s)) l' ->
  Forall (listed now g1 g2) (Gc.deduplicateSandboxes [l; l']).
Proof.
  rewrite !Forall_forall. intros H1 H2 s [Hs _]%elem_of_dedup. cbn in Hs. rewrite app_nil_r in Hs.
  apply elem_of_app in Hs as [?|?]; [left|right]; auto.
Qed.

Lemma listed_inactive now g n :
  wf_registry g ->
  Forall (fun s => idle_in now g (Info.SessionID s)) (filter (fun s => Gc.idle now s = true) (list_inactive g (Tm.Add now (- Gc.gcMinInactiveLookback)) n)).
Proof.
  intros Hw. apply Forall_forall. intros s [Hi Hs]%list_elem_of_filter.
  destruct (elem_of_list_inactive _ _ _ _ Hw Hs) as (i & sc & H1 & H2 & _ & ->). by exists i, sc.
Qed.

Lemma listed_expired now g n : wf_registry g -> Forall (fun s => expired_in now g (Info.SessionID s)) (list_expired g now n).
Proof.
  intros Hw. apply Forall_forall. intros s Hs.
  destruct (elem_of_list_expired _ _ _ _ Hw Hs) as (sc & H1 & H2 & H3). by exists s, sc.
Qed.

Lemma gc_inv_step s s' : Inv s -> step s s' -> Inv s'.
Proof.
  intros [Hw Hp Hr] Hs. destruct Hs; cbn [reg clk at_ removed pc_ok] in *.
  - split; cbn [reg clk at_ removed pc_ok]; [done| |done]. split; [lia|by apply listed_inactive].
  - split; cbn [reg clk at_ removed pc_ok]; [done| |done]. split; [lia|constructor].
  - split; cbn [reg clk at_ removed pc_ok]; [done| |done]. destruct Hp. split; [done|]. apply dedup_listed; [done|by apply listed_expired].
  - split; cbn [reg clk at_ removed pc_ok]; [done| |done]. destruct Hp. split; [done|]. by apply dedup_listed.
  - destruct Hp as [Hn [Hl Hf]%Forall_cons]. split; cbn [reg clk at_ removed pc_ok]; [by apply wf_spec_delete|done|].
    apply Forall_app. split; [done|]. by apply Forall_singleton.
  - destruct Hp as [Hn [Hl Hf]%Forall_cons]. by split.
  - destruct Hp as [Hn [Hl Hf]%Forall_cons]. by split.
  - by split.
  - by split.
  - split; cbn [reg clk at_ removed pc_ok]; [done|by eapply pc_later|done].
Qed.

Lemma gc_inv_reachable g t s : wf_registry g -> rtc step (start g t) s -> Inv s.
Proof.
  intros Hw Hs. assert (Inv (start g t)) as HI by (by split).
  revert HI. induction Hs as [|? ? ? H1 _ IH]; [done|]. intros HI. eapply IH, gc_inv_step; [exact HI|exact H1].
Qed.

(** ** Time only makes a session idler *)

Lemma idle_later t t' s : t <= t' -> Gc.idle t s = true -> Gc.idle t' s = true.
Proof.
  unfold Gc.idle, Tm.Before. intros Hle. set (d := if Tm.IsZero _ then _ else _). set (i := if _ =? 0 then _ else _).
  rewrite !Z.ltb_lt. lia.
Qed.

(** ** A deletion can come after a touch *)

Lemma delete_prefix now g1 g2 l1 l2 g t rm :
  exists rm', rtc step {| reg := g; clk := t; at_ := Deleting now g1 g2 (l1 ++ l2); removed := rm |}
                {| reg := delete_all l1 g; clk := t; at_ := Deleting now g1 g2 l2; removed := rm' |}.
Proof.
  revert g rm. induction l1 as [|s l1 IH]; intros g rm; [by exists rm|].
  destruct (IH (spec_delete (Info.SessionID s) g)
    (rm ++ [{| r_sid := Info.SessionID s; r_now := now; r_g1 := g1; r_g2 := g2; r_reg := g; r_time := t |}])) as [rm' H].
  exists rm'. eapply rtc_l; [apply s_delete|exact H].
Qed.

Lemma delete_all_activity l : forall g sid,
  (sid ∉ Info.SessionID <$> l) -> activity (delete_all l g) !! sid = activity g !! sid.
Proof.
  induction l as [|s l IH]; intros g sid Hn; [done|]. cbn in Hn. apply not_elem_of_cons in Hn as [Hne Hn].
  cbn [delete_all foldl]. fold (delete_all l (spec_delete (Info.SessionID s) g)). rewrite IH by done. cbn.
  by rewrite lookup_delete_ne by congruence.
Qed.

Lemma touched_then_deleted g t t' sid :
  wf_registry g -> t <= t' -> sid <> "" -> Tm.IsZero t' = false -> sid ∈ Info.SessionID <$> idle_candidates t g ->
  exists s r, rtc step (start g t) s /\ r ∈ removed s /\ r_sid r = sid /\ r_time r = t' /\ activity (r_reg r) !! sid = Some (score t').
Proof.
  intros Hw Hle Hne Hz Hin. pose proof Hin as (x & -> & Hx)%list_elem_of_fmap.
  destruct (proj1 (Forall_forall _ _) (listed_inactive t g Gc.gcCandidateLimit Hw) x Hx) as (i & sc & Hi & Ha & _).
  set (sid := Info.SessionID x) in *.
  assert (sid ∈ Info.SessionID <$> gc_plan t g) as Hplan.
  { apply dedup_complete; [|set_solver]. cbn. rewrite app_nil_r, fmap_app. by apply elem_of_app; left. }
  apply list_elem_of_fmap in Hplan as (y & Hy & (l1 & l2 & El)%list_elem_of_split).
  assert (NoDup (Info.SessionID <$> l1 ++ y :: l2)) as Hnd by (rewrite <- El; apply dedup_NoDup).
  rewrite fmap_app in Hnd. apply NoDup_app in Hnd as (_ & Hdis & _).
  assert (sid ∉ Info.SessionID <$> l1) as Hl1 by (intros H%Hdis; apply H; rewrite Hy; set_solver).
  set (g' := set_activity sid (score t') g).
  assert (wf_registry g') as Hw' by (apply wf_set_activity; [apply (wf_sessions _ Hw _ _ Hi)|done]).
  destruct (delete_prefix t g g l1 (y :: l2) g' t' []) as [rm' Hrun].
  eexists _, {| r_sid := sid; r_now := t; r_g1 := g; r_g2 := g; r_reg := delete_all l1 g'; r_time := t' |}.
  split; [|split; [|split; [done|split; [done|]]]].
  - eapply rtc_l; [apply s_listInactive|]. fold (idle_candidates t g). eapply rtc_l; [apply s_listExpired|]. fold (gc_plan t g).
    rewrite El. eapply rtc_l; [apply (s_time _ _ t'); done|].
    eapply rtc_l; [apply (s_client _ g' _ _ _ (OpTouch t' sid t') Done); [left|done]|].
    { cbn. destruct (String.eqb_spec sid ""); [done|]. rewrite Hi, Hz. done. }
    etransitivity; [exact Hrun|]. eapply rtc_l; [apply s_delete|apply rtc_refl].
  - cbn. apply elem_of_app. right. rewrite <- Hy. left.
  - cbn. rewrite delete_all_activity by done. unfold g'. cbn. by rewrite lookup_insert_eq.
Qed.


Import ApiModel CodecModel.CodecModel WM.

