(* ===== verification/CiController.v ===== *)
(** * The CodeInterpreter controller
    ([pkg/workloadmanager/codeinterpreter_controller.go])

    The controller keeps a SandboxTemplate and a SandboxWarmPool per code
    interpreter with a warm pool. The controller-runtime client is the class
    [CiApi]. *)

From stdpp Require Import base list gmap strings.
From S2P Require Import Prelude GoStrings GoTime GoError K8sTypes WorkloadBuilder.

(** [extensionsv1alpha1.SandboxTemplate] and [SandboxWarmPool] *)
Record SandboxTemplate := {
  st_Meta : ObjectMeta; st_PodSpec : PodSpec; st_PodLabels : gmap string string;
  st_NetworkPolicyManagement : string;
}.

Record SandboxWarmPool := { wp_Meta : ObjectMeta; wp_Replicas : Z; wp_TemplateRef : string }.

(** [client.Client], [controllerutil] and [apimeta] as the controller uses them. *)
Class CiApi (W : Type) := {
  ci_get : string * string -> W -> res CI.CodeInterpreter * W;
  ci_updateStatus : CI.CodeInterpreter -> W -> option goerr * W;
  tpl_get : string * string -> W -> res SandboxTemplate * W;
  tpl_create : SandboxTemplate -> W -> option goerr * W;
  tpl_update : SandboxTemplate -> W -> option goerr * W;
  tpl_delete : SandboxTemplate -> W -> option goerr * W;
  pool_get : string * string -> W -> res SandboxWarmPool * W;
  pool_create : SandboxWarmPool -> W -> option goerr * W;
  pool_update : SandboxWarmPool -> W -> option goerr * W;
  pool_delete : SandboxWarmPool -> W -> option goerr * W;
  SetControllerReference : ObjectMeta -> ObjectMeta -> res ObjectMeta;
  FindStatusCondition : list CI.StatusCondition -> string -> option CI.StatusCondition;
  SetStatusCondition : list CI.StatusCondition -> CI.StatusCondition -> list CI.StatusCondition;
}.

Module CiCtl.

Definition networkPolicyManagement : string := "Unmanaged".

(** [ctrl.Result]: the requeue delay, [0] for none. *)
Definition Result : Type := Duration.

Definition convertToPodTemplate (cachedKey : string) (template : CI.CodeInterpreterSandboxTemplate)
    (ci : CI.CodeInterpreter) : PodSpec * gmap string string :=
  ({| ImagePullSecrets := CI.t_ImagePullSecrets template;
      RuntimeClassName := Builder.normalizeRuntimeClassName (CI.t_RuntimeClassName template);
      Containers := [{| c_Name := "codeinterpreter"; c_Image := CI.Image template;
                        c_ImagePullPolicy := CI.ImagePullPolicy template;
                        c_Env := if negb (String.eqb (CI.AuthMode (CI.Spec ci)) AuthModeNone)
                                 then CI.Environment template ++
                                   [{| env_Name := "PICOD_AUTH_PUBLIC_KEY";
                                       env_Value := Builder.GetCachedPublicKey cachedKey |}]
                                 else CI.Environment template;
                        c_Command := CI.Command template; c_Args := CI.Args template;
                        c_Resources := CI.Resources template |}];
      podOther := ∅ |}, ∅).

Definition podTemplateEqual (a b : PodSpec) : bool := bool_decide (a = b).

Section controller.
Context {W : Type} `{!CiApi W} {AE : ApiErrors}.
Implicit Types w : W.

Definition key_of (ci : CI.CodeInterpreter) : string * string :=
  (Namespace (CI.ci_Meta ci), Name (CI.ci_Meta ci)).

(** The metadata of an object created for a code interpreter. *)
Definition child_meta (ci : CI.CodeInterpreter) : ObjectMeta :=
  {| Name := Name (CI.ci_Meta ci); Namespace := Namespace (CI.ci_Meta ci); UID := ""; Labels := ∅;
     Annotations := ∅; OwnerReferences := []; CreationTimestamp := Tm.zero |}.

Definition ensureSandboxTemplate (cachedKey : string) (ci : CI.CodeInterpreter) w : res Result * W :=
  if negb (String.eqb (CI.AuthMode (CI.Spec ci)) AuthModeNone) && negb (Builder.IsPublicKeyCached cachedKey)
  then (Ok (5 * Tm.Second), w)
  else
    match CI.Template (CI.Spec ci) with
    | None => (Err (EText "template is required"), w)
    | Some template =>
        let '(got, w) := tpl_get (key_of ci) w in
        let '(podSpec, podLabels) := convertToPodTemplate cachedKey template ci in
        match got with
        | Err e =>
            if IsNotFound e then
              match SetControllerReference (W := W) (CI.ci_Meta ci) (child_meta ci) with
              | Err e => (Err (Wrapf "failed to set controller reference" e), w)
              | Ok meta =>
                  let '(r, w) := tpl_create
                    {| st_Meta := meta; st_PodSpec := podSpec; st_PodLabels := podLabels;
                       st_NetworkPolicyManagement := networkPolicyManagement |} w in
                  match r with
                  | Some e => if negb (IsAlreadyExists e)
                              then (Err (Wrapf "failed to create SandboxTemplate" e), w) else (Ok 0, w)
                  | None => (Ok 0, w)
                  end
              end
            else (Err (Wrapf "failed to get SandboxTemplate" e), w)
        | Ok t =>
            let newSpec := negb (podTemplateEqual (st_PodSpec t) podSpec) in
            let newPolicy := negb (String.eqb (st_NetworkPolicyManagement t) networkPolicyManagement) in
            if newSpec || newPolicy then
              let '(r, w) := tpl_update
                {| st_Meta := st_Meta t;
                   st_PodSpec := if newSpec then podSpec else st_PodSpec t;
                   st_PodLabels := if newSpec then podLabels else st_PodLabels t;
                   st_NetworkPolicyManagement := networkPolicyManagement |} w in
              match r with
              | Some e => (Err (Wrapf "failed to update SandboxTemplate" e), w)
              | None => (Ok 0, w)
              end
            else (Ok 0, w)
        end
    end.

Definition ensureSandboxWarmPool (ci : CI.CodeInterpreter) w : option goerr * W :=
  match CI.WarmPoolSize (CI.Spec ci) with
  | None => (None, w)
  | Some n =>
      if n =? 0 then (None, w)
      else
        let '(got, w) := pool_get (key_of ci) w in
        match got with
        | Err e =>
            if IsNotFound e then
              match SetControllerReference (W := W) (CI.ci_Meta ci) (child_meta ci) with
              | Err e => (Some (Wrapf "failed to set controller reference" e), w)
              | Ok meta =>
                  let '(r, w) := pool_create
                    {| wp_Meta := meta; wp_Replicas := n; wp_TemplateRef := Name (CI.ci_Meta ci) |} w in
                  match r with
                  | Some e => if negb (IsAlreadyExists e)
                              then (Some (Wrapf "failed to create SandboxWarmPool" e), w) else (None, w)
                  | None => (None, w)
                  end
              end
            else (Some (Wrapf "failed to get SandboxWarmPool" e), w)
        | Ok p =>
            if negb (wp_Replicas p =? n) || negb (String.eqb (wp_TemplateRef p) (Name (CI.ci_Meta ci))) then
              let '(r, w) := pool_update
                {| wp_Meta := wp_Meta p; wp_Replicas := n; wp_TemplateRef := Name (CI.ci_Meta ci) |} w in
              match r with
              | Some e => (Some (Wrapf "failed to update SandboxWarmPool" e), w)
              | None => (None, w)
              end
            else (None, w)
        end
  end.

Definition deleteSandboxWarmPool (ci : CI.CodeInterpreter) w : option goerr * W :=
  let '(got, w) := pool_get (key_of ci) w in
  match got with
  | Err e => if IsNotFound e then (None, w) else (Some (Wrapf "failed to get SandboxWarmPool" e), w)
  | Ok p =>
      let '(r, w) := pool_delete p w in
      match r with
      | Some e => if negb (IsNotFound e) then (Some (Wrapf "failed to delete SandboxWarmPool" e), w) else (None, w)
      | None => (None, w)
      end
  end.

Definition deleteSandboxTemplate (ci : CI.CodeInterpreter) w : option goerr * W :=
  let '(got, w) := tpl_get (key_of ci) w in
  match got with
  | Err e => if IsNotFound e then (None, w) else (Some (Wrapf "failed to get SandboxTemplate" e), w)
  | Ok t =>
      let '(r, w) := tpl_delete t w in
      match r with
      | Some e => if negb (IsNotFound e) then (Some (Wrapf "failed to delete SandboxTemplate" e), w) else (None, w)
      | None => (None, w)
      end
  end.

Definition updateStatus (ci : CI.CodeInterpreter) w : option goerr * W :=
  let st := CI.Status ci in
  let upToDate :=
    match FindStatusCondition (W := W) (CI.Conditions st) "Ready" with
    | Some c => String.eqb (CI.st_Status c) "True" && (CI.ObservedGeneration c =? CI.Generation ci)
    | None => false
    end in
  if CI.Ready st && upToDate then (None, w)
  else
    ci_updateStatus
      {| CI.ci_Meta := CI.ci_Meta ci; CI.Generation := CI.Generation ci; CI.Spec := CI.Spec ci;
         CI.Status :=
           {| CI.Ready := true;
              CI.Conditions := SetStatusCondition (W := W) (CI.Conditions st)
                {| CI.st_Type := "Ready"; CI.st_Status := "True"; CI.st_Reason := "Reconciled";
                   CI.st_Message := "CodeInterpreter is ready"; CI.ObservedGeneration := CI.Generation ci |} |} |} w.

Definition finish (ci : CI.CodeInterpreter) w : res Result * W :=
  let '(e, w) := updateStatus ci w in
  match e with Some e => (Err e, w) | None => (Ok 0, w) end.

Definition Reconcile (cachedKey : string) (req : string * string) w : res Result * W :=
  let '(got, w) := ci_get req w in
  match got with
  | Err e => if IsNotFound e then (Ok 0, w) else (Err e, w)
  | Ok ci =>
      if (match CI.WarmPoolSize (CI.Spec ci) with Some n => 0 <? n | None => false end) then
        let '(r, w) := ensureSandboxTemplate cachedKey ci w in
        match r with
        | Err e => (Err e, w)
        | Ok requeue =>
            if 0 <? requeue then (Ok requeue, w)
            else
              let '(e, w) := ensureSandboxWarmPool ci w in
              match e with Some e => (Err e, w) | None => finish ci w end
        end
      else
        let '(e, w) := deleteSandboxWarmPool ci w in
        match e with
        | Some e => (Err e, w)
        | None =>
            let '(e, w) := deleteSandboxTemplate ci w in
            match e with Some e => (Err e, w) | None => finish ci w end
        end
  end.

End controller.
End CiCtl.
