(* ===== verification/CiTheorems.v ===== *)
(** * Properties of the CodeInterpreter controller *)

From stdpp Require Import base list gmap strings.
From S2P Require Import Prelude GoStrings GoTime GoError K8sTypes WorkloadBuilder CiController.

Definition meta_key (m : ObjectMeta) : string * string := (Namespace m, Name m).

(** The templates and pools of the cluster. *)
Record pools_view := {
  v_tpl : gmap (string * string) SandboxTemplate;
  v_pool : gmap (string * string) SandboxWarmPool;
}.

(** An API server that carries out what it is asked: reads return the object
    of that name or not-found, writes succeed and change that object only. *)
Class CiApiExact (W : Type) `{!CiApi W} {AE : ApiErrors} (view : W -> pools_view)
    (cis : W -> gmap (string * string) CI.CodeInterpreter) : Prop := {
  x_ci_get k w : exists w', view w' = view w /\ cis w' = cis w /\
    match cis w !! k with
    | Some ci => ci_get k w = (Ok ci, w') /\ CiCtl.key_of ci = k
    | None => exists e, ci_get k w = (Err e, w') /\ IsNotFound e = true
    end;
  x_ci_status ci w : exists w', ci_updateStatus ci w = (None, w') /\ view w' = view w;
  x_tpl_get k w : exists w', view w' = view w /\
    match v_tpl (view w) !! k with
    | Some t => tpl_get k w = (Ok t, w') /\ meta_key (st_Meta t) = k
    | None => exists e, tpl_get k w = (Err e, w') /\ IsNotFound e = true
    end;
  x_tpl_create t w : v_tpl (view w) !! meta_key (st_Meta t) = None ->
    exists w', tpl_create t w = (None, w') /\
      view w' = {| v_tpl := <[meta_key (st_Meta t) := t]> (v_tpl (view w)); v_pool := v_pool (view w) |};
  x_tpl_update t w : exists w', tpl_update t w = (None, w') /\
      view w' = {| v_tpl := <[meta_key (st_Meta t) := t]> (v_tpl (view w)); v_pool := v_pool (view w) |};
  x_tpl_delete t w : exists w', tpl_delete t w = (None, w') /\
      view w' = {| v_tpl := delete (meta_key (st_Meta t)) (v_tpl (view w)); v_pool := v_pool (view w) |};
  x_pool_get k w : exists w', view w' = view w /\
    match v_pool (view w) !! k with
    | Some p => pool_get k w = (Ok p, w') /\ meta_key (wp_Meta p) = k
    | None => exists e, pool_get k w = (Err e, w') /\ IsNotFound e = true
    end;
  x_pool_create p w : v_pool (view w) !! meta_key (wp_Meta p) = None ->
    exists w', pool_create p w = (None, w') /\
      view w' = {| v_tpl := v_tpl (view w); v_pool := <[meta_key (wp_Meta p) := p]> (v_pool (view w)) |};
  x_pool_update p w : exists w', pool_update p w = (None, w') /\
      view w' = {| v_tpl := v_tpl (view w); v_pool := <[meta_key (wp_Meta p) := p]> (v_pool (view w)) |};
  x_pool_delete p w : exists w', pool_delete p w = (None, w') /\
      view w' = {| v_tpl := v_tpl (view w); v_pool := delete (meta_key (wp_Meta p)) (v_pool (view w)) |};
  x_ref o m : exists m', SetControllerReference (W := W) o m = Ok m' /\ meta_key m' = meta_key m;
}.

Section controller.
Context {W : Type} `{!CiApi W} {AE : ApiErrors} (view : W -> pools_view)
  (cis : W -> gmap (string * string) CI.CodeInterpreter) `{!CiApiExact W view cis}.
Implicit Types w : W.

(** The template of [k] is the one the code interpreter asks for. *)
Definition tpl_ok (key : string) (ci : CI.CodeInterpreter) (template : CI.CodeInterpreterSandboxTemplate) (t : SandboxTemplate) : Prop :=
  st_PodSpec t = (CiCtl.convertToPodTemplate key template ci).1 /\
  st_NetworkPolicyManagement t = CiCtl.networkPolicyManagement.

Definition pool_ok (n : Z) (ci : CI.CodeInterpreter) (p : SandboxWarmPool) : Prop :=
  wp_Replicas p = n /\ wp_TemplateRef p = Name (CI.ci_Meta ci).

Lemma tpl_ok_spec key ci ci' template t :
  CI.Spec ci' = CI.Spec ci -> tpl_ok key ci template t -> tpl_ok key ci' template t.
Proof. unfold tpl_ok, CiCtl.convertToPodTemplate. by intros ->. Qed.

Lemma pool_ok_spec n ci ci' p : CiCtl.key_of ci' = CiCtl.key_of ci -> pool_ok n ci p -> pool_ok n ci' p.
Proof. unfold pool_ok, CiCtl.key_of. intros [= _ ->]. done. Qed.

(** Whether the controller must wait for the router's key. *)
Definition waits (key : string) (ci : CI.CodeInterpreter) : bool :=
  negb (String.eqb (CI.AuthMode (CI.Spec ci)) AuthModeNone) && negb (Builder.IsPublicKeyCached key).

Lemma ensure_template key ci template w :
  waits key ci = false -> CI.Template (CI.Spec ci) = Some template ->
  exists w' t, CiCtl.ensureSandboxTemplate key ci w = (Ok 0, w') /\ tpl_ok key ci template t /\
    view w' = {| v_tpl := <[CiCtl.key_of ci := t]> (v_tpl (view w)); v_pool := v_pool (view w) |} /\
    (forall t0, v_tpl (view w) !! CiCtl.key_of ci = Some t0 -> tpl_ok key ci template t0 -> t = t0).
Proof.
  unfold waits. intros Hw Ht. unfold CiCtl.ensureSandboxTemplate. rewrite Hw, Ht.
  destruct (x_tpl_get (view := view) (CiCtl.key_of ci) w) as (w1 & Hv1 & Hg).
  unfold tpl_ok. destruct (CiCtl.convertToPodTemplate key template ci) as [spec lbls]. cbn [fst].
  destruct (v_tpl (view w) !! CiCtl.key_of ci) as [t0|] eqn:Hl.
  - destruct Hg as [-> Hk]. unfold CiCtl.podTemplateEqual.
    destruct (negb (bool_decide (st_PodSpec t0 = spec)) || negb (String.eqb (st_NetworkPolicyManagement t0) _)) eqn:Hn.
    + match goal with |- context [tpl_update ?t w1] => destruct (x_tpl_update (view := view) t w1) as (w2 & -> & Hv2); exists w2, t end.
      split; [done|]. split.
      { split; cbn; [|done]. destruct (bool_decide_reflect (st_PodSpec t0 = spec)); done. }
      split; [rewrite Hv2, Hv1; unfold meta_key in *; cbn; by rewrite Hk|].
      intros t1 [= <-] [Hs Hp]. exfalso. rewrite bool_decide_true in Hn by congruence.
      rewrite Hp, String.eqb_refl in Hn. done.
    + exists w1, t0. apply orb_false_iff in Hn as [Hn1 Hn2]. b2p. split; [done|].
      split; [by split|]. split; [|by intros ? [= <-]].
      rewrite Hv1. destruct (view w) as [tp po]. cbn in *. by rewrite insert_id.
  - destruct Hg as (e & -> & He). rewrite He.
    destruct (x_ref (view := view) (CI.ci_Meta ci) (CiCtl.child_meta ci)) as (m' & -> & Hm).
    match goal with |- context [tpl_create ?t w1] =>
      destruct (x_tpl_create (view := view) t w1) as (w2 & -> & Hv2); [cbn; by rewrite Hm, Hv1|exists w2, t] end.
    split; [done|]. split; [by split|]. split; [|done]. rewrite Hv2, Hv1. cbn. by rewrite Hm.
Qed.

Lemma ensure_pool ci n w :
  CI.WarmPoolSize (CI.Spec ci) = Some n -> 0 < n ->
  exists w' p, CiCtl.ensureSandboxWarmPool ci w = (None, w') /\ pool_ok n ci p /\
    view w' = {| v_tpl := v_tpl (view w); v_pool := <[CiCtl.key_of ci := p]> (v_pool (view w)) |} /\
    (forall p0, v_pool (view w) !! CiCtl.key_of ci = Some p0 -> pool_ok n ci p0 -> p = p0).
Proof.
  intros Hn H0. unfold CiCtl.ensureSandboxWarmPool. rewrite Hn, (proj2 (Z.eqb_neq n 0)) by lia.
  destruct (x_pool_get (view := view) (CiCtl.key_of ci) w) as (w1 & Hv1 & Hg).
  destruct (v_pool (view w) !! CiCtl.key_of ci) as [p0|] eqn:Hl.
  - destruct Hg as [-> Hk]. destruct (negb (wp_Replicas p0 =? n) || negb (String.eqb _ _)) eqn:Hc.
    + match goal with |- context [pool_update ?t w1] => destruct (x_pool_update (view := view) t w1) as (w2 & -> & Hv2); exists w2, t end.
      split; [done|]. split; [done|]. split; [rewrite Hv2, Hv1; cbn; by rewrite Hk|].
      intros p1 [= <-] [Hr Ht]. rewrite Hr, Z.eqb_refl, Ht, String.eqb_refl in Hc. done.
    + exists w1, p0. apply orb_false_iff in Hc as [Hc1 Hc2]. b2p. split; [done|].
      split; [by split|]. split; [|by intros ? [= <-]].
      rewrite Hv1. destruct (view w) as [tp po]. cbn in *. by rewrite insert_id.
  - destruct Hg as (e & -> & He). rewrite He.
    destruct (x_ref (view := view) (CI.ci_Meta ci) (CiCtl.child_meta ci)) as (m' & -> & Hm).
    match goal with |- context [pool_create ?t w1] =>
      destruct (x_pool_create (view := view) t w1) as (w2 & -> & Hv2); [cbn; by rewrite Hm, Hv1|exists w2, t] end.
    split; [done|]. split; [done|]. split; [|done]. rewrite Hv2, Hv1. cbn. by rewrite Hm.
Qed.

Lemma delete_pool ci w :
  exists w', CiCtl.deleteSandboxWarmPool ci w = (None, w') /\
    view w' = {| v_tpl := v_tpl (view w); v_pool := delete (CiCtl.key_of ci) (v_pool (view w)) |}.
Proof.
  unfold CiCtl.deleteSandboxWarmPool. destruct (x_pool_get (view := view) (CiCtl.key_of ci) w) as (w1 & Hv1 & Hg).
  destruct (v_pool (view w) !! CiCtl.key_of ci) as [p0|] eqn:Hl.
  - destruct Hg as [-> Hk]. destruct (x_pool_delete (view := view) p0 w1) as (w2 & -> & Hv2). exists w2.
    split; [done|]. by rewrite Hv2, Hv1, Hk.
  - destruct Hg as (e & -> & He). rewrite He. exists w1. split; [done|]. rewrite Hv1.
    destruct (view w). cbn in *. by rewrite delete_id.
Qed.

Lemma delete_template ci w :
  exists w', CiCtl.deleteSandboxTemplate ci w = (None, w') /\
    view w' = {| v_tpl := delete (CiCtl.key_of ci) (v_tpl (view w)); v_pool := v_pool (view w) |}.
Proof.
  unfold CiCtl.deleteSandboxTemplate. destruct (x_tpl_get (view := view) (CiCtl.key_of ci) w) as (w1 & Hv1 & Hg).
  destruct (v_tpl (view w) !! CiCtl.key_of ci) as [p0|] eqn:Hl.
  - destruct Hg as [-> Hk]. destruct (x_tpl_delete (view := view) p0 w1) as (w2 & -> & Hv2). exists w2.
    split; [done|]. by rewrite Hv2, Hv1, Hk.
  - destruct Hg as (e & -> & He). rewrite He. exists w1. split; [done|]. rewrite Hv1.
    destruct (view w). cbn in *. by rewrite delete_id.
Qed.

Lemma finish_ok ci w : exists w', CiCtl.finish ci w = (Ok 0, w') /\ view w' = view w.
Proof.
  unfold CiCtl.finish, CiCtl.updateStatus. destruct (_ && _); [eauto|].
  match goal with |- context [ci_updateStatus ?c w] => destruct (x_ci_status (view := view) c w) as (w1 & -> & Hv) end.
  eauto.
Qed.

End controller.

(** What a reconciliation of [ci] should leave. *)
Definition converged (key : string) (ci : CI.CodeInterpreter) (v : pools_view) : Prop :=
  let k := CiCtl.key_of ci in
  match CI.WarmPoolSize (CI.Spec ci), CI.Template (CI.Spec ci) with
  | Some n, Some template =>
      if 0 <? n then
        (exists t, v_tpl v !! k = Some t /\ tpl_ok key ci template t) /\
        (exists p, v_pool v !! k = Some p /\ pool_ok n ci p)
      else v_tpl v !! k = None /\ v_pool v !! k = None
  | Some n, None => ~ 0 < n -> v_tpl v !! k = None /\ v_pool v !! k = None
  | None, _ => v_tpl v !! k = None /\ v_pool v !! k = None
  end.

(** Two views differ at most at [k]. *)
Definition same_elsewhere (k : string * string) (v v' : pools_view) : Prop :=
  forall k', k' <> k -> v_tpl v' !! k' = v_tpl v !! k' /\ v_pool v' !! k' = v_pool v !! k'.

Section reconcile.
Context {W : Type} `{!CiApi W} {AE : ApiErrors} (view : W -> pools_view)
  (cis : W -> gmap (string * string) CI.CodeInterpreter) `{!CiApiExact W view cis}.
Implicit Types w : W.

(** The two branches of [Reconcile] on a code interpreter that was read. *)
Lemma reconcile_warm key ci n template k w w1 :
  ci_get k w = (Ok ci, w1) -> waits key ci = false ->
  CI.WarmPoolSize (CI.Spec ci) = Some n -> 0 < n -> CI.Template (CI.Spec ci) = Some template ->
  exists w' t p, CiCtl.Reconcile key k w = (Ok 0, w') /\ tpl_ok key ci template t /\ pool_ok n ci p /\
    view w' = {| v_tpl := <[CiCtl.key_of ci := t]> (v_tpl (view w1));
                 v_pool := <[CiCtl.key_of ci := p]> (v_pool (view w1)) |} /\
    (forall t0, v_tpl (view w1) !! CiCtl.key_of ci = Some t0 -> tpl_ok key ci template t0 -> t = t0) /\
    (forall p0, v_pool (view w1) !! CiCtl.key_of ci = Some p0 -> pool_ok n ci p0 -> p = p0).
Proof.
  intros Hg Hw Hn H0 Ht. unfold CiCtl.Reconcile. rewrite Hg, Hn, (proj2 (Z.ltb_lt 0 n)) by done.
  destruct (ensure_template view cis key ci template w1 Hw Ht) as (w2 & t & -> & Htok & Hv2 & Ht0). cbn.
  destruct (ensure_pool view cis ci n w2 Hn H0) as (w3 & p & -> & Hpok & Hv3 & Hp0).
  destruct (finish_ok view cis ci w3) as (w4 & -> & Hv4). exists w4, t, p.
  rewrite Hv2 in Hv3, Hp0. cbn in Hv3, Hp0. by split_and!; [..|rewrite Hv4| |].
Qed.

Lemma reconcile_cold key ci k w w1 :
  ci_get k w = (Ok ci, w1) ->
  match CI.WarmPoolSize (CI.Spec ci) with Some n => ~ 0 < n | None => True end ->
  exists w', CiCtl.Reconcile key k w = (Ok 0, w') /\
    view w' = {| v_tpl := delete (CiCtl.key_of ci) (v_tpl (view w1));
                 v_pool := delete (CiCtl.key_of ci) (v_pool (view w1)) |}.
Proof.
  intros Hg Hn. unfold CiCtl.Reconcile. rewrite Hg.
  assert (match CI.WarmPoolSize (CI.Spec ci) with Some n => 0 <? n | None => false end = false) as ->.
  { destruct (CI.WarmPoolSize (CI.Spec ci)) as [n|]; [|done]. apply Z.ltb_ge. lia. }
  destruct (delete_pool view cis ci w1) as (w2 & -> & Hv2).
  destruct (delete_template view cis ci w2) as (w3 & -> & Hv3).
  destruct (finish_ok view cis ci w3) as (w4 & -> & Hv4). exists w4. split; [done|].
  by rewrite Hv4, Hv3, Hv2.
Qed.

End reconcile.


(** ** An API server for the witness

    The objects are kept in maps and shown under the name they are filed by. *)
Module CiWorld.
Import ApiModel.

Record world := {
  m_ci : gmap (string * string) CI.CodeInterpreter;
  m_tpl : gmap (string * string) SandboxTemplate;
  m_pool : gmap (string * string) SandboxWarmPool;
}.

Definition named (k : string * string) (m : ObjectMeta) : ObjectMeta :=
  {| Name := k.2; Namespace := k.1; UID := UID m; Labels := Labels m; Annotations := Annotations m;
     OwnerReferences := OwnerReferences m; CreationTimestamp := CreationTimestamp m |}.

Definition tpl_at k t : option SandboxTemplate :=
  Some {| st_Meta := named k (st_Meta t); st_PodSpec := st_PodSpec t; st_PodLabels := st_PodLabels t;
          st_NetworkPolicyManagement := st_NetworkPolicyManagement t |}.
Definition pool_at k p : option SandboxWarmPool :=
  Some {| wp_Meta := named k (wp_Meta p); wp_Replicas := wp_Replicas p; wp_TemplateRef := wp_TemplateRef p |}.
Definition ci_at k ci : option CI.CodeInterpreter :=
  Some {| CI.ci_Meta := named k (CI.ci_Meta ci); CI.Generation := CI.Generation ci; CI.Spec := CI.Spec ci;
          CI.Status := CI.Status ci |}.

Definition view (w : world) : pools_view := {| v_tpl := map_imap tpl_at (m_tpl w); v_pool := map_imap pool_at (m_pool w) |}.
Definition cis (w : world) : gmap (string * string) CI.CodeInterpreter := map_imap ci_at (m_ci w).

Definition found {A} (m : gmap (string * string) A) (k : string * string) : res A :=
  match m !! k with
  | Some x => Ok x
  | None => Err (EStatus (NewNotFound {| Group := ""; Resource := "object" |} k.2))
  end.

Definition set_tpl (f : gmap (string * string) SandboxTemplate -> gmap (string * string) SandboxTemplate) w : option goerr * world :=
  (None, {| m_ci := m_ci w; m_tpl := f (m_tpl w); m_pool := m_pool w |}).
Definition set_pool (f : gmap (string * string) SandboxWarmPool -> gmap (string * string) SandboxWarmPool) w : option goerr * world :=
  (None, {| m_ci := m_ci w; m_tpl := m_tpl w; m_pool := f (m_pool w) |}).

#[export] Instance api : CiApi world := {|
  ci_get k w := (found (cis w) k, w);
  ci_updateStatus ci w := (None, {| m_ci := <[CiCtl.key_of ci := ci]> (m_ci w); m_tpl := m_tpl w; m_pool := m_pool w |});
  tpl_get k w := (found (v_tpl (view w)) k, w);
  tpl_create t := set_tpl (insert (meta_key (st_Meta t)) t);
  tpl_update t := set_tpl (insert (meta_key (st_Meta t)) t);
  tpl_delete t := set_tpl (delete (meta_key (st_Meta t)));
  pool_get k w := (found (v_pool (view w)) k, w);
  pool_create p := set_pool (insert (meta_key (wp_Meta p)) p);
  pool_update p := set_pool (insert (meta_key (wp_Meta p)) p);
  pool_delete p := set_pool (delete (meta_key (wp_Meta p)));
  SetControllerReference o m := Ok m;
  FindStatusCondition l ty := List.find (fun c => String.eqb (CI.st_Type c) ty) l;
  SetStatusCondition l c := c :: List.filter (fun c' => negb (String.eqb (CI.st_Type c') (CI.st_Type c))) l;
|}.

Lemma tpl_at_own t : tpl_at (meta_key (st_Meta t)) t = Some t.
Proof. by destruct t as [[] ? ? ?]. Qed.

Lemma pool_at_own p : pool_at (meta_key (wp_Meta p)) p = Some p.
Proof. by destruct p as [[] ? ?]. Qed.

(** A read of a shown object, whatever its kind. *)
Lemma found_imap {A} (f : string * string -> A -> option A) (key : A -> string * string) m k :
  (forall k x y, f k x = Some y -> key y = k) ->
  match map_imap f m !! k with
  | Some y => found (map_imap f m) k = Ok y /\ key y = k
  | None => exists e, found (map_imap f m) k = Err e /\ IsNotFound e = true
  end.
Proof.
  intros Hk. unfold found. destruct (map_imap f m !! k) as [y|] eqn:Hl; [|eauto].
  split; [done|]. rewrite map_lookup_imap in Hl. apply bind_Some in Hl as (x & _ & Hf). eauto.
Qed.

(** How the answer is packed with the world. *)
Lemma found_pack {A} (o : option A) (r : res A) (key : A -> string * string) k (w : world) :
  match o with Some y => r = Ok y /\ key y = k | None => exists e, r = Err e /\ IsNotFound e = true end ->
  match o with
  | Some y => (r, w) = (Ok y, w) /\ key y = k
  | None => exists e, (r, w) = (Err e, w) /\ IsNotFound e = true
  end.
Proof. destruct o; [by intros [-> ?]|]. intros (e & -> & ?). eauto. Qed.

#[export] Instance exact : CiApiExact world view cis.
Proof.
  split.
  - intros k w. exists w. split; [done|]. split; [done|]. apply found_pack, found_imap.
    intros k0 x y [= <-]. by destruct k0.
  - intros ci w. by eexists.
  - intros k w. exists w. split; [done|]. apply found_pack, found_imap. intros k0 x y [= <-]. by destruct k0.
  - intros t w _. eexists. split; [done|]. unfold view. cbn. by rewrite (map_imap_insert_Some _ _ _ _ _ (tpl_at_own t)).
  - intros t w. eexists. split; [done|]. unfold view. cbn. by rewrite (map_imap_insert_Some _ _ _ _ _ (tpl_at_own t)).
  - intros t w. eexists. split; [done|]. unfold view. cbn. by rewrite map_imap_delete.
  - intros k w. exists w. split; [done|]. apply found_pack, found_imap. intros k0 x y [= <-]. by destruct k0.
  - intros p w _. eexists. split; [done|]. unfold view. cbn. by rewrite (map_imap_insert_Some _ _ _ _ _ (pool_at_own p)).
  - intros p w. eexists. split; [done|]. unfold view. cbn. by rewrite (map_imap_insert_Some _ _ _ _ _ (pool_at_own p)).
  - intros p w. eexists. split; [done|]. unfold view. cbn. by rewrite map_imap_delete.
  - intros o m. by exists m.
Qed.

Definition template : CI.CodeInterpreterSandboxTemplate :=
  {| CI.t_Labels := {["team" := "a"]}; CI.t_Annotations := ∅; CI.t_RuntimeClassName := Some "";
     CI.Image := "picod:1"; CI.ImagePullPolicy := ""; CI.t_ImagePullSecrets := []; CI.Environment := [];
     CI.Command := []; CI.Args := []; CI.Resources := ∅ |}.

Definition ci : CI.CodeInterpreter :=
  {| CI.ci_Meta := named ("ns", "ci") meta0; CI.Generation := 1;
     CI.Spec := {| CI.Ports := []; CI.Template := Some template; CI.SessionTimeout := None;
                   CI.MaxSessionDuration := None; CI.WarmPoolSize := Some 2; CI.AuthMode := AuthModePicoD |};
     CI.Status := {| CI.Ready := false; CI.Conditions := [] |} |}.

(** A stale pool of one replica is left from an earlier size. *)
Definition start : world :=
  {| m_ci := {[("ns", "ci") := ci]}; m_tpl := ∅;
     m_pool := {[("ns", "ci") := {| wp_Meta := named ("ns", "ci") meta0; wp_Replicas := 1; wp_TemplateRef := "ci" |}]} |}.

End CiWorld.

Import ApiModel CiWorld.

