(* ===== verification/GoHeap.v ===== *)
(** * The memory of a Go program

    Pointers, slices and maps are references to cells of a heap; a [nil] one is
    [None]. A computation reads and extends the heap, and fails when it follows
    a reference that leads nowhere. [rep h X x v] says that the object [x]
    represents the pure value [v] in the heap [h] and that every reference one
    can follow from it leads to a cell of [X]. *)

From stdpp Require Import base list gmap strings.
From S2P Require Import Prelude.

Abbreviation loc := positive.

(** References are typed by what they point to. *)
Record ptr (A : Type) := Ptr { addr : loc }.
Arguments Ptr {A}. Arguments addr {A}.

(** The references of Go at heap level: [nil] or an address. The same types at
    value level use [option]. *)
Definition ref (A : Type) : Type := option (ptr A).

(** Contents of type [A] in cells of type [C]. *)
Class Storable (C A : Type) := {
  as_cell : A -> C;
  of_cell : C -> option A;
  of_as_cell a : of_cell (as_cell a) = Some a;
}.

Abbreviation heap C := (gmap loc C).

(** ** Computations *)

Definition M (C A : Type) : Type := heap C -> option (A * heap C).

#[export] Instance M_ret C : MRet (M C) := fun A a h => Some (a, h).
#[export] Instance M_bind C : MBind (M C) := fun A B k m h =>
  match m h with Some (a, h) => k a h | None => None end.

Section operations.
Context {C : Type}.
Implicit Types h : heap C.

(** The contents of a cell. *)
Definition cell {A} `{!Storable C A} h (p : ptr A) : option A := h !! addr p ≫= of_cell.

Definition new {A} `{!Storable C A} (a : A) : M C (ptr A) :=
  fun h => let l := fresh (dom h) in Some (Ptr l, <[l := as_cell a]> h).

Definition load {A} `{!Storable C A} (p : ptr A) : M C A :=
  fun h => match cell h p with Some a => Some (a, h) | None => None end.

Definition put {A} `{!Storable C A} (p : ptr A) (a : A) : M C unit :=
  fun h => match cell h p with Some _ => Some (tt, <[addr p := as_cell a]> h) | None => None end.

(** ** The idioms of copying

    [*out = new(T); **out = **in] *)
Definition copyPtr {A} `{!Storable C A} (r : ref A) : M C (ref A) :=
  match r with
  | None => mret None
  | Some p => a ← load p; q ← new a; mret (Some q)
  end.

(** [*out = make([]T, len(in)); copy( *out, *in)] *)
Definition copySlice {A} `{!Storable C (list A)} (r : ref (list A)) : M C (ref (list A)) :=
  match r with
  | None => mret None
  | Some p => l ← load p; q ← new l; mret (Some q)
  end.

(** [*out = make(map[string]string, len(in)); for key, val := range *in ...] *)
Definition copyMap `{!Storable C (gmap string string)} (r : ref (gmap string string)) : M C (ref (gmap string string)) :=
  match r with
  | None => mret None
  | Some p =>
      m ← load p;
      q ← new (foldr (fun '(key, val) (out : gmap string string) => <[key := val]> out) ∅ (map_to_list m));
      mret (Some q)
  end.

(** [*out = new(T); ( *in).DeepCopyInto( *out)] *)
Definition copyPtrWith {A} `{!Storable C A} (deepCopyInto : A -> M C A) (r : ref A) : M C (ref A) :=
  match r with
  | None => mret None
  | Some p => a ← load p; b ← deepCopyInto a; q ← new b; mret (Some q)
  end.

(** [*out = make([]T, len(in)); for i := range *in { in[i].DeepCopyInto(&out[i]) }] *)
Definition copySliceWith {A} `{!Storable C (list A)} (deepCopyInto : A -> M C A) (r : ref (list A))
    : M C (ref (list A)) :=
  match r with
  | None => mret None
  | Some p => l ← load p; l' ← mapM deepCopyInto l; q ← new l'; mret (Some q)
  end.

End operations.

(** ** Representation *)

Section reps.
Context {C : Type}.
Implicit Types (h : heap C) (X : gset loc).

(** A reference to contents that are values themselves. *)
Definition rep_flat {A} `{!Storable C A} h X (r : ref A) (v : option A) : Prop :=
  match r, v with
  | None, None => True
  | Some p, Some a => addr p ∈ X /\ cell h p = Some a
  | _, _ => False
  end.

(** A reference to contents that hold references. *)
Definition rep_ptr {A V} `{!Storable C A} (R : heap C -> gset loc -> A -> V -> Prop) h X (r : ref A) (v : option V) : Prop :=
  match r, v with
  | None, None => True
  | Some p, Some b => addr p ∈ X /\ exists a, cell h p = Some a /\ R h X a b
  | _, _ => False
  end.

Definition rep_list {A V} (R : heap C -> gset loc -> A -> V -> Prop) h X (l : list A) (vs : list V) : Prop :=
  Forall2 (R h X) l vs.

(** A representation depends on the cells it mentions only. *)
Class LocalRep {A V} (R : heap C -> gset loc -> A -> V -> Prop) : Prop :=
  local h h' X X' x v : R h X x v -> X ⊆ X' ->
    (forall l, l ∈ X -> h !! l <> None -> h' !! l = h !! l) -> R h' X' x v.

Lemma cell_mono {A} `{!Storable C A} h h' (p : ptr A) a X :
  cell h p = Some a -> addr p ∈ X -> (forall l, l ∈ X -> h !! l <> None -> h' !! l = h !! l) -> cell h' p = Some a.
Proof.
  unfold cell. intros Hc Hin Hag. rewrite Hag; [done|done|]. intros Hn. by rewrite Hn in Hc.
Qed.

#[export] Instance local_flat {A} `{!Storable C A} : LocalRep (rep_flat (A := A)).
Proof.
  intros h h' X X' [p|] [a|] H HX Hag; try done. destruct H as [Hin Hc]. split; [set_solver|by eapply cell_mono].
Qed.

#[export] Instance local_ptr {A V} `{!Storable C A} (R : heap C -> gset loc -> A -> V -> Prop) `{!LocalRep R} : LocalRep (rep_ptr R).
Proof.
  intros h h' X X' [p|] [b|] H HX Hag; try done. destruct H as (Hin & a & Hc & Ha).
  split; [set_solver|]. exists a. split; [by eapply cell_mono|by eapply local].
Qed.

#[export] Instance local_list {A V} (R : heap C -> gset loc -> A -> V -> Prop) `{!LocalRep R} : LocalRep (rep_list R).
Proof. intros h h' X X' l vs H HX Hag. eapply Forall2_impl; [exact H|]. intros a b Hab. by eapply local. Qed.

(** ** Running a computation that leaves the heap [h0] alone *)

Definition runs {A} (h0 : heap C) (m : M C A) (h : heap C) (Q : A -> heap C -> Prop) : Prop :=
  exists a h', m h = Some (a, h') /\ h0 ⊆ h' /\ Q a h'.

Lemma runs_ret {A} h0 h (a : A) (Q : A -> heap C -> Prop) : h0 ⊆ h -> Q a h -> runs h0 (mret a) h Q.
Proof. intros Hs HQ. by exists a, h. Qed.

Lemma runs_bind {A B} h0 h (m : M C A) (k : A -> M C B) (Q : B -> heap C -> Prop) :
  runs h0 m h (fun a h1 => runs h0 (k a) h1 Q) -> runs h0 (m ≫= k) h Q.
Proof. intros (a & h1 & Hm & _ & b & h2 & Hk & Hs & HQ). exists b, h2. unfold mbind, M_bind. by rewrite Hm. Qed.

Lemma runs_wand {A} h0 h (m : M C A) (Q Q' : A -> heap C -> Prop) :
  runs h0 m h Q -> (forall a h', h0 ⊆ h' -> Q a h' -> Q' a h') -> runs h0 m h Q'.
Proof. intros (a & h' & Hm & Hs & HQ) H. exists a, h'. auto. Qed.

(** The cells allocated since [h0]. *)
Definition since (h0 h : heap C) : gset loc := dom h ∖ dom h0.

Lemma since_mono h0 h h' : h ⊆ h' -> since h0 h ⊆ since h0 h'.
Proof. intros Hs%(subseteq_dom (D := gset loc)). unfold since. set_solver. Qed.

Lemma later_since h0 h h' : h0 ⊆ h -> since h h' ⊆ since h0 h'.
Proof. intros Hs%(subseteq_dom (D := gset loc)). unfold since. set_solver. Qed.

Lemma agree_sub h h' X : h ⊆ h' -> forall l, l ∈ X -> h !! l <> None -> h' !! l = h !! l.
Proof. intros Hs l _ Hn. destruct (h !! l) eqn:Hl; [|done]. by eapply lookup_weaken. Qed.

(** What a copy promises, from any heap [h] that extends the heap [h0] of the
    original: it is made of new cells only, and represents the same value. *)
Class Copier {A V} (R : heap C -> gset loc -> A -> V -> Prop) (f : A -> M C A) : Prop :=
  copier h X x v : R h X x v ->
    exists y h', f x h = Some (y, h') /\ (h ⊆ h') /\ R h' (since h h') y v.

(** The rule of a copy inside a larger one that started at [h0]. *)
Lemma runs_copy {A V} (R : heap C -> gset loc -> A -> V -> Prop) (f : A -> M C A) `{!LocalRep R} `{!Copier R f} h0 h X x v :
  h0 ⊆ h -> R h0 X x v -> runs h0 (f x) h (fun y h' => h ⊆ h' /\ R h' (since h0 h') y v).
Proof.
  intros Hs Hx. destruct (copier (R := R) (f := f) h X x v) as (y & h' & Hy & Hs' & Hr).
  { eapply local; [exact Hx|done|]. by apply agree_sub. }
  exists y, h'. split_and!; [done|by etransitivity|done|]. eapply local; [exact Hr| |done].
  unfold since. apply (subseteq_dom (D := gset loc)) in Hs. set_solver.
Qed.

Lemma runs_new {A} `{!Storable C A} h0 h (a : A) :
  h0 ⊆ h -> runs h0 (new a) h (fun p h' => h ⊆ h' /\ addr p ∈ since h0 h' /\ (addr p ∉ dom h) /\ cell h' p = Some a).
Proof.
  intros Hs. unfold new. set (l := fresh (dom h)). assert (l ∉ dom h) as Hl by apply is_fresh.
  assert (h ⊆ <[l := as_cell a]> h) as Hi by (apply insert_subseteq; by apply not_elem_of_dom).
  exists (Ptr l), (<[l := as_cell a]> h). split_and!; [done|by etransitivity|done| |done|].
  - unfold since. rewrite dom_insert. cbn. apply (subseteq_dom (D := gset loc)) in Hs. set_solver.
  - unfold cell. cbn. rewrite lookup_insert_eq. cbn. apply of_as_cell.
Qed.

Lemma runs_load {A} `{!Storable C A} h0 h (p : ptr A) a :
  h0 ⊆ h -> cell h p = Some a -> runs h0 (load p) h (fun b h' => b = a /\ h' = h).
Proof. intros Hs Hc. exists a, h. unfold load. by rewrite Hc. Qed.

(** New objects stay what they are while the heap grows. *)
Lemma grown {A V} (R : heap C -> gset loc -> A -> V -> Prop) `{!LocalRep R} h0 h h' x v :
  R h (since h0 h) x v -> h ⊆ h' -> R h' (since h0 h') x v.
Proof. intros Hx Hs. eapply local; [exact Hx|by apply since_mono|by apply agree_sub]. Qed.

Lemma kept {A V} (R : heap C -> gset loc -> A -> V -> Prop) `{!LocalRep R} h h' X x v :
  R h X x v -> h ⊆ h' -> R h' X x v.
Proof. intros Hx Hs. eapply local; [exact Hx|done|by apply agree_sub]. Qed.

Lemma cell_sub {A} `{!Storable C A} h h' (p : ptr A) a : cell h p = Some a -> h ⊆ h' -> cell h' p = Some a.
Proof. intros Hc Hs. eapply (cell_mono h h' p a {[addr p]}); [done|set_solver|by apply agree_sub]. Qed.

(** ** The idioms are copies *)

(** From a run that started at the heap of the original. *)
Lemma copier_runs {A V} (R : heap C -> gset loc -> A -> V -> Prop) (f : A -> M C A) :
  (forall h X x v, R h X x v -> runs h (f x) h (fun y h' => R h' (since h h') y v)) -> Copier R f.
Proof. intros H h X x v Hx. by apply (H h X). Qed.

End reps.

(** [run_step] runs the first computation of a sequence with the rule given. *)
Ltac run_step tac :=
  eapply runs_bind, runs_wand; [tac|].

(** ** Rules that execute one operation

    They leave the heap as a term, for code that writes to its own cells. *)

Section execution.
Context {C : Type}.
Implicit Types h : heap C.

Lemma cell_here {A} `{!Storable C A} h l (a : A) : cell (<[l := as_cell a]> h) (Ptr l) = Some a.
Proof. unfold cell. cbn. rewrite lookup_insert_eq. cbn. apply of_as_cell. Qed.

Lemma cell_there {A} `{!Storable C A} h l c (p : ptr A) : addr p <> l -> cell (<[l := c]> h) p = cell h p.
Proof. intros Hne. unfold cell. by rewrite lookup_insert_ne by congruence. Qed.

Lemma cell_dom {A} `{!Storable C A} h (p : ptr A) a : cell h p = Some a -> addr p ∈ dom h.
Proof. unfold cell. intros Hc. apply elem_of_dom. destruct (h !! addr p); [by eexists|done]. Qed.

Lemma run_new {A B} `{!Storable C A} h0 h (a : A) (k : ptr A -> M C B) Q :
  h0 ⊆ h ->
  (forall l, (l ∉ dom h) -> h0 ⊆ <[l := as_cell a]> h -> runs h0 (k (Ptr l)) (<[l := as_cell a]> h) Q) ->
  runs h0 (new a ≫= k) h Q.
Proof.
  intros Hs Hk. set (l := fresh (dom h)). assert (l ∉ dom h) as Hl by apply is_fresh.
  assert (h0 ⊆ <[l := as_cell a]> h) as Hi by (etransitivity; [exact Hs|]; apply insert_subseteq; by apply not_elem_of_dom).
  exact (Hk l Hl Hi).
Qed.

Lemma run_load {A B} `{!Storable C A} h0 h (p : ptr A) a (k : A -> M C B) Q :
  cell h p = Some a -> runs h0 (k a) h Q -> runs h0 (load p ≫= k) h Q.
Proof. intros Hc (b & h' & Hb). exists b, h'. unfold mbind, M_bind, load. by rewrite Hc. Qed.

Lemma run_put {A B} `{!Storable C A} h0 h (p : ptr A) b a (k : unit -> M C B) Q :
  h0 ⊆ h -> cell h p = Some b -> (addr p ∉ dom h0) ->
  (h0 ⊆ <[addr p := as_cell a]> h -> runs h0 (k tt) (<[addr p := as_cell a]> h) Q) ->
  runs h0 (put p a ≫= k) h Q.
Proof.
  intros Hs Hc Hp Hk. destruct Hk as (c & h' & Hk).
  { apply map_subseteq_spec. intros l x Hl. rewrite lookup_insert_ne; [by eapply lookup_weaken|].
    intros <-. apply Hp. by apply elem_of_dom_2 in Hl. }
  exists c, h'. unfold mbind, M_bind, put. by rewrite Hc.
Qed.

Lemma run_ret {A B} h0 h (a : A) (k : A -> M C B) Q : runs h0 (k a) h Q -> runs h0 (mret a ≫= k) h Q.
Proof. done. Qed.

Lemma run_assoc {A B D} h0 h (m : M C A) (k : A -> M C B) (k' : B -> M C D) Q :
  runs h0 (m ≫= fun a => k a ≫= k') h Q -> runs h0 ((m ≫= k) ≫= k') h Q.
Proof.
  intros (c & h' & Hm & Hx). exists c, h'. split; [|exact Hx]. unfold mbind, M_bind in *. by destruct (m h) as [[a h1]|].
Qed.

(** A part that only adds cells. *)
Lemma run_part {A B} h0 h (m : M C A) (k : A -> M C B) (P : A -> heap C -> Prop) Q :
  h0 ⊆ h -> runs h m h P -> (forall a h1, h ⊆ h1 -> h0 ⊆ h1 -> P a h1 -> runs h0 (k a) h1 Q) -> runs h0 (m ≫= k) h Q.
Proof.
  intros Hs (a & h1 & Hm & Hs1 & HP) Hk. destruct (Hk a h1 Hs1 (transitivity Hs Hs1) HP) as (b & h2 & Hb & Hx).
  exists b, h2. split; [|exact Hx]. unfold mbind, M_bind. by rewrite Hm.
Qed.

(** A computation that starts later. *)
Lemma run_whole {A} h0 h (m : M C A) (P Q : A -> heap C -> Prop) :
  h0 ⊆ h -> runs h m h P -> (forall a h1, h ⊆ h1 -> P a h1 -> Q a h1) -> runs h0 m h Q.
Proof. intros Hs (a & h1 & Hm & Hs1 & HP) Hq. exists a, h1. split; [done|]. split; [by etransitivity|auto]. Qed.

Lemma run_alloc {A B} `{!Storable C A} h0 h (a : A) (k : ptr A -> M C B) Q :
  h0 ⊆ h ->
  (forall p h1, h ⊆ h1 -> h0 ⊆ h1 -> (addr p ∉ dom h) -> cell h1 p = Some a -> runs h0 (k p) h1 Q) ->
  runs h0 (new a ≫= k) h Q.
Proof.
  intros Hs Hk. eapply run_part; [done|by apply runs_new|]. intros p h1 H1 H2 (_ & _ & Hn & Hc). by apply Hk.
Qed.

Lemma cell_same {A} `{!Storable C A} h h' (p : ptr A) : h' !! addr p = h !! addr p -> cell h' p = cell h p.
Proof. unfold cell. by intros ->. Qed.

Lemma in_since {A} `{!Storable C A} h0 h (p : ptr A) a : cell h p = Some a -> (addr p ∉ dom h0) -> addr p ∈ since h0 h.
Proof. intros Hc%cell_dom Hn. unfold since. set_solver. Qed.

(** A cell added between [h1] and [h2] is still the same, and new, later. *)
Lemma since_flat {A} `{!Storable C A} h0 h1 h2 h (p : ptr A) a :
  addr p ∈ since h1 h2 -> cell h2 p = Some a -> h0 ⊆ h1 -> h2 ⊆ h -> rep_flat h (since h0 h) (Some p) (Some a).
Proof.
  intros Hp Hc H01 H2. split; [|by eapply cell_sub]. unfold since in *.
  apply (subseteq_dom (D := gset loc)) in H01, H2. set_solver.
Qed.

Lemma alloc_flat {A} `{!Storable C A} h0 h1 h2 h (p : ptr A) a :
  (addr p ∉ dom h1) -> cell h2 p = Some a -> h0 ⊆ h1 -> h2 ⊆ h -> rep_flat h (since h0 h) (Some p) (Some a).
Proof. intros Hp Hc. by apply since_flat; [eapply in_since|]. Qed.

End execution.

Section idioms.
Context {C : Type}.
Implicit Types (h : heap C) (X : gset loc).

#[export] Instance copier_ptr {A} `{!Storable C A} : Copier (rep_flat (A := A)) copyPtr.
Proof.
  apply copier_runs. intros h X [p|] [a|] Hx; try done; cbn; [|by apply runs_ret].
  destruct Hx as [_ Hc]. run_step ltac:(by apply runs_load). intros ? h1 _ [-> ->].
  run_step ltac:(by apply runs_new). intros q h2 Hs (_ & Hq & _ & Hc2). by apply runs_ret.
Qed.

#[export] Instance copier_slice {A} `{!Storable C (list A)} : Copier (rep_flat (A := list A)) copySlice.
Proof. exact copier_ptr. Qed.

Lemma copied_map (m : gmap string string) :
  foldr (fun '(key, val) (out : gmap string string) => <[key := val]> out) ∅ (map_to_list m) = m.
Proof.
  rewrite <- (list_to_map_to_list m) at 2. generalize (map_to_list m). intros l.
  induction l as [|[k v] l IH]; cbn; [done|]. by rewrite IH.
Qed.

#[export] Instance copier_map `{!Storable C (gmap string string)} : Copier (rep_flat (A := gmap string string)) copyMap.
Proof.
  intros h X [p|] v Hx; [|by apply (copier_ptr h X None v)].
  destruct (copier_ptr h X (Some p) v Hx) as (y & h' & Hy & Hs). exists y, h'. split; [|exact Hs].
  rewrite <- Hy. cbn. unfold mbind, M_bind. destruct (load p h) as [[m h1]|]; [|done]. by rewrite copied_map.
Qed.

#[export] Instance copier_ptr_with {A V} `{!Storable C A} (R : heap C -> gset loc -> A -> V -> Prop) (f : A -> M C A)
  `{!LocalRep R} `{!Copier R f} : Copier (rep_ptr R) (copyPtrWith f).
Proof.
  apply copier_runs. intros h X [p|] [b|] Hx; try done; cbn; [|by apply runs_ret].
  destruct Hx as (_ & a & Hc & Ha). run_step ltac:(by apply runs_load). intros ? h1 _ [-> ->].
  run_step ltac:(by eapply runs_copy). intros a' h2 Hs2 [_ Ha'].
  run_step ltac:(by apply runs_new). intros q h3 Hs3 (Hs & Hq & _ & Hc3). apply runs_ret; [done|]. cbn.
  split; [done|]. exists a'. split; [done|]. by eapply grown.
Qed.

#[export] Instance copier_list {A V} (R : heap C -> gset loc -> A -> V -> Prop) (f : A -> M C A)
  `{!LocalRep R} `{!Copier R f} : Copier (rep_list R) (mapM f).
Proof.
  apply copier_runs. intros h X l vs Hl.
  assert (forall h1, h ⊆ h1 -> runs h (mapM f l) h1 (fun y h' => h1 ⊆ h' /\ rep_list R h' (since h h') y vs)) as H.
  2:{ eapply runs_wand; [by apply (H h)|]. by intros y h' _ [_ ?]. }
  induction Hl as [|x v l vs Hx Hl IH]; intros h1 Hs; cbn; [apply runs_ret; [done|]; by split; [|constructor]|].
  run_step ltac:(by eapply runs_copy). intros y h2 Hs2 [H12 Hy].
  run_step ltac:(by apply IH). intros ys h3 Hs3 [H23 Hys]. apply runs_ret; [done|].
  split; [by etransitivity|]. constructor; [by eapply grown|done].
Qed.

#[export] Instance copier_slice_with {A V} `{!Storable C (list A)} (R : heap C -> gset loc -> A -> V -> Prop)
  (f : A -> M C A) `{!LocalRep R} `{!Copier R f} : Copier (rep_ptr (rep_list R)) (copySliceWith f).
Proof. exact (copier_ptr_with (rep_list R) (mapM f)). Qed.

End idioms.
