(* ===== verification/ApiHeap.v ===== *)
(** * The API types in memory, and their generated copies

    [pkg/apis/runtime/v1alpha1] with [zz_generated.deepcopy.go]. The records
    take the type of references as a parameter: with [ref] they are the structs
    in the heap, with [option] the pure values they stand for. The structs of
    [corev1] and [metav1] have the fields the repository uses, the rest of a pod
    specification being one opaque part; how they are copied is the class
    [LibCopies]. *)

From stdpp Require Import base list gmap strings.
From S2P Require Import Prelude GoTime K8sTypes GoHeap.

Module Api.

Record TypeMeta := { tm_Kind : string; tm_APIVersion : string }.

(** [metav1.Condition] *)
Record Condition := {
  cd_Type : string; cd_Status : string; cd_ObservedGeneration : Z; cd_LastTransitionTime : Time;
  cd_Reason : string; cd_Message : string;
}.

Section structs.
Variable P : Type -> Type.

Record ObjectMeta := {
  Name : string; Namespace : string; UID : string; Generation : Z; CreationTimestamp : Time;
  Labels : P (gmap string string); Annotations : P (gmap string string);
  OwnerReferences : P (list OwnerReference);
}.

Record ListMeta := { ResourceVersion : string; Continue_ : string; RemainingItemCount : P Z }.

Record EnvVar := { ev_Name : string; ev_Value : string; ev_ValueFrom : P string }.

Record ResourceRequirements := { Limits : P (gmap string string); Requests : P (gmap string string) }.

Record Container := {
  ct_Name : string; ct_Image : string; ct_ImagePullPolicy : string; ct_Env : P (list EnvVar);
  ct_Command : P (list string); ct_Args : P (list string); ct_Resources : ResourceRequirements;
}.

Record PodSpec := {
  ImagePullSecrets : P (list string); RuntimeClassName : P string; Containers : P (list Container);
  podOther : P (gmap string string);
}.

(** ** [agent_type.go] *)

Record SandboxTemplate := {
  st_Labels : P (gmap string string); st_Annotations : P (gmap string string); st_Spec : PodSpec;
}.

Record AgentRuntimeSpec := {
  as_Ports : P (list TargetPort); as_Template : P SandboxTemplate;
  as_SessionTimeout : P Duration; as_MaxSessionDuration : P Duration;
}.

Record AgentRuntimeStatus := { as_Conditions : P (list Condition) }.

Record AgentRuntime := {
  ar_TypeMeta : TypeMeta; ar_ObjectMeta : ObjectMeta; ar_Spec : AgentRuntimeSpec; ar_Status : AgentRuntimeStatus;
}.

Record AgentRuntimeList := { arl_TypeMeta : TypeMeta; arl_ListMeta : ListMeta; arl_Items : P (list AgentRuntime) }.

(** ** [codeinterpreter_types.go] *)

Record CodeInterpreterSandboxTemplate := {
  ct_Labels : P (gmap string string); ct_Annotations : P (gmap string string); ct_RuntimeClassName : P string;
  Image : string; ImagePullPolicy : string; ct_ImagePullSecrets : P (list string);
  Environment : P (list EnvVar); Command : P (list string); Args : P (list string); Resources : ResourceRequirements;
}.

Record CodeInterpreterSpec := {
  cs_Ports : P (list TargetPort); cs_Template : P CodeInterpreterSandboxTemplate;
  cs_SessionTimeout : P Duration; cs_MaxSessionDuration : P Duration; WarmPoolSize : P Z; AuthMode : string;
}.

Record CodeInterpreterStatus := { cs_Conditions : P (list Condition); Ready : bool }.

Record CodeInterpreter := {
  ci_TypeMeta : TypeMeta; ci_ObjectMeta : ObjectMeta; ci_Spec : CodeInterpreterSpec; ci_Status : CodeInterpreterStatus;
}.

Record CodeInterpreterList := { cil_TypeMeta : TypeMeta; cil_ListMeta : ListMeta; cil_Items : P (list CodeInterpreter) }.

End structs.

(** ** Memory *)

Inductive cell :=
  | CString (s : string) | CInt (z : Z) | CStrings (l : list string) | CMap (m : gmap string string)
  | COwners (l : list OwnerReference) | CPort (p : TargetPort) | CPorts (l : list TargetPort) | CConditions (l : list Condition)
  | CEnv (l : list (EnvVar ref)) | CContainers (l : list (Container ref)) | CPodSpec (s : PodSpec ref)
  | CTemplate (t : SandboxTemplate ref) | CARSpec (s : AgentRuntimeSpec ref) | CARStatus (s : AgentRuntimeStatus ref)
  | CAR (a : AgentRuntime ref) | CARs (l : list (AgentRuntime ref)) | CARList (l : AgentRuntimeList ref)
  | CCITemplate (t : CodeInterpreterSandboxTemplate ref) | CCISpec (s : CodeInterpreterSpec ref)
  | CCIStatus (s : CodeInterpreterStatus ref) | CCI (c : CodeInterpreter ref) | CCIs (l : list (CodeInterpreter ref))
  | CCIList (l : CodeInterpreterList ref).

(** What a cell of each kind holds. *)
#[export] Instance sto_CString : Storable cell string :=
  {| as_cell := CString; of_cell c := match c with CString x => Some x | _ => None end; of_as_cell a := eq_refl |}.
#[export] Instance sto_CInt : Storable cell Z :=
  {| as_cell := CInt; of_cell c := match c with CInt x => Some x | _ => None end; of_as_cell a := eq_refl |}.
#[export] Instance sto_CStrings : Storable cell (list string) :=
  {| as_cell := CStrings; of_cell c := match c with CStrings x => Some x | _ => None end; of_as_cell a := eq_refl |}.
#[export] Instance sto_CMap : Storable cell (gmap string string) :=
  {| as_cell := CMap; of_cell c := match c with CMap x => Some x | _ => None end; of_as_cell a := eq_refl |}.
#[export] Instance sto_COwners : Storable cell (list OwnerReference) :=
  {| as_cell := COwners; of_cell c := match c with COwners x => Some x | _ => None end; of_as_cell a := eq_refl |}.
#[export] Instance sto_CPort : Storable cell TargetPort :=
  {| as_cell := CPort; of_cell c := match c with CPort x => Some x | _ => None end; of_as_cell a := eq_refl |}.
#[export] Instance sto_CPorts : Storable cell (list TargetPort) :=
  {| as_cell := CPorts; of_cell c := match c with CPorts x => Some x | _ => None end; of_as_cell a := eq_refl |}.
#[export] Instance sto_CConditions : Storable cell (list Condition) :=
  {| as_cell := CConditions; of_cell c := match c with CConditions x => Some x | _ => None end; of_as_cell a := eq_refl |}.
#[export] Instance sto_CEnv : Storable cell (list (EnvVar ref)) :=
  {| as_cell := CEnv; of_cell c := match c with CEnv x => Some x | _ => None end; of_as_cell a := eq_refl |}.
#[export] Instance sto_CContainers : Storable cell (list (Container ref)) :=
  {| as_cell := CContainers; of_cell c := match c with CContainers x => Some x | _ => None end; of_as_cell a := eq_refl |}.
#[export] Instance sto_CPodSpec : Storable cell (PodSpec ref) :=
  {| as_cell := CPodSpec; of_cell c := match c with CPodSpec x => Some x | _ => None end; of_as_cell a := eq_refl |}.
#[export] Instance sto_CTemplate : Storable cell (SandboxTemplate ref) :=
  {| as_cell := CTemplate; of_cell c := match c with CTemplate x => Some x | _ => None end; of_as_cell a := eq_refl |}.
#[export] Instance sto_CARSpec : Storable cell (AgentRuntimeSpec ref) :=
  {| as_cell := CARSpec; of_cell c := match c with CARSpec x => Some x | _ => None end; of_as_cell a := eq_refl |}.
#[export] Instance sto_CARStatus : Storable cell (AgentRuntimeStatus ref) :=
  {| as_cell := CARStatus; of_cell c := match c with CARStatus x => Some x | _ => None end; of_as_cell a := eq_refl |}.
#[export] Instance sto_CAR : Storable cell (AgentRuntime ref) :=
  {| as_cell := CAR; of_cell c := match c with CAR x => Some x | _ => None end; of_as_cell a := eq_refl |}.
#[export] Instance sto_CARs : Storable cell (list (AgentRuntime ref)) :=
  {| as_cell := CARs; of_cell c := match c with CARs x => Some x | _ => None end; of_as_cell a := eq_refl |}.
#[export] Instance sto_CARList : Storable cell (AgentRuntimeList ref) :=
  {| as_cell := CARList; of_cell c := match c with CARList x => Some x | _ => None end; of_as_cell a := eq_refl |}.
#[export] Instance sto_CCITemplate : Storable cell (CodeInterpreterSandboxTemplate ref) :=
  {| as_cell := CCITemplate; of_cell c := match c with CCITemplate x => Some x | _ => None end; of_as_cell a := eq_refl |}.
#[export] Instance sto_CCISpec : Storable cell (CodeInterpreterSpec ref) :=
  {| as_cell := CCISpec; of_cell c := match c with CCISpec x => Some x | _ => None end; of_as_cell a := eq_refl |}.
#[export] Instance sto_CCIStatus : Storable cell (CodeInterpreterStatus ref) :=
  {| as_cell := CCIStatus; of_cell c := match c with CCIStatus x => Some x | _ => None end; of_as_cell a := eq_refl |}.
#[export] Instance sto_CCI : Storable cell (CodeInterpreter ref) :=
  {| as_cell := CCI; of_cell c := match c with CCI x => Some x | _ => None end; of_as_cell a := eq_refl |}.
#[export] Instance sto_CCIs : Storable cell (list (CodeInterpreter ref)) :=
  {| as_cell := CCIs; of_cell c := match c with CCIs x => Some x | _ => None end; of_as_cell a := eq_refl |}.
#[export] Instance sto_CCIList : Storable cell (CodeInterpreterList ref) :=
  {| as_cell := CCIList; of_cell c := match c with CCIList x => Some x | _ => None end; of_as_cell a := eq_refl |}.

Abbreviation Go A := (M cell A).

(** ** The copies of [corev1] and [metav1] *)

Class LibCopies := {
  ObjectMeta_DeepCopyInto : ObjectMeta ref -> Go (ObjectMeta ref);
  ListMeta_DeepCopyInto : ListMeta ref -> Go (ListMeta ref);
  Condition_DeepCopyInto : Condition -> Go Condition;
  PodSpec_DeepCopyInto : PodSpec ref -> Go (PodSpec ref);
  EnvVar_DeepCopyInto : EnvVar ref -> Go (EnvVar ref);
  ResourceRequirements_DeepCopyInto : ResourceRequirements ref -> Go (ResourceRequirements ref);
}.

(** ** [zz_generated.deepcopy.go] *)

Section generated.
Context {LC : LibCopies}.

Definition TargetPort_DeepCopyInto (inp : TargetPort) : Go TargetPort := mret inp.
Definition TargetPort_DeepCopy : ref TargetPort -> Go (ref TargetPort) := copyPtrWith TargetPort_DeepCopyInto.

Definition SandboxTemplate_DeepCopyInto (inp : SandboxTemplate ref) : Go (SandboxTemplate ref) :=
  labels ← copyMap (st_Labels _ inp);
  annotations ← copyMap (st_Annotations _ inp);
  spec ← PodSpec_DeepCopyInto (st_Spec _ inp);
  mret {| st_Labels := labels; st_Annotations := annotations; st_Spec := spec |}.
Definition SandboxTemplate_DeepCopy := copyPtrWith SandboxTemplate_DeepCopyInto.

Definition AgentRuntimeSpec_DeepCopyInto (inp : AgentRuntimeSpec ref) : Go (AgentRuntimeSpec ref) :=
  ports ← copySlice (as_Ports _ inp);
  template ← copyPtrWith SandboxTemplate_DeepCopyInto (as_Template _ inp);
  sessionTimeout ← copyPtr (as_SessionTimeout _ inp);
  maxSessionDuration ← copyPtr (as_MaxSessionDuration _ inp);
  mret {| as_Ports := ports; as_Template := template; as_SessionTimeout := sessionTimeout;
          as_MaxSessionDuration := maxSessionDuration |}.
Definition AgentRuntimeSpec_DeepCopy := copyPtrWith AgentRuntimeSpec_DeepCopyInto.

Definition AgentRuntimeStatus_DeepCopyInto (inp : AgentRuntimeStatus ref) : Go (AgentRuntimeStatus ref) :=
  conditions ← copySliceWith Condition_DeepCopyInto (as_Conditions _ inp);
  mret {| as_Conditions := conditions |}.
Definition AgentRuntimeStatus_DeepCopy := copyPtrWith AgentRuntimeStatus_DeepCopyInto.

Definition AgentRuntime_DeepCopyInto (inp : AgentRuntime ref) : Go (AgentRuntime ref) :=
  objectMeta ← ObjectMeta_DeepCopyInto (ar_ObjectMeta _ inp);
  spec ← AgentRuntimeSpec_DeepCopyInto (ar_Spec _ inp);
  status ← AgentRuntimeStatus_DeepCopyInto (ar_Status _ inp);
  mret {| ar_TypeMeta := ar_TypeMeta _ inp; ar_ObjectMeta := objectMeta; ar_Spec := spec; ar_Status := status |}.
Definition AgentRuntime_DeepCopy := copyPtrWith AgentRuntime_DeepCopyInto.

Definition AgentRuntimeList_DeepCopyInto (inp : AgentRuntimeList ref) : Go (AgentRuntimeList ref) :=
  listMeta ← ListMeta_DeepCopyInto (arl_ListMeta _ inp);
  items ← copySliceWith AgentRuntime_DeepCopyInto (arl_Items _ inp);
  mret {| arl_TypeMeta := arl_TypeMeta _ inp; arl_ListMeta := listMeta; arl_Items := items |}.
Definition AgentRuntimeList_DeepCopy := copyPtrWith AgentRuntimeList_DeepCopyInto.

Definition CodeInterpreterSandboxTemplate_DeepCopyInto (inp : CodeInterpreterSandboxTemplate ref)
    : Go (CodeInterpreterSandboxTemplate ref) :=
  labels ← copyMap (ct_Labels _ inp);
  annotations ← copyMap (ct_Annotations _ inp);
  runtimeClassName ← copyPtr (ct_RuntimeClassName _ inp);
  imagePullSecrets ← copySlice (ct_ImagePullSecrets _ inp);
  environment ← copySliceWith EnvVar_DeepCopyInto (Environment _ inp);
  command ← copySlice (Command _ inp);
  args ← copySlice (Args _ inp);
  resources ← ResourceRequirements_DeepCopyInto (Resources _ inp);
  mret {| ct_Labels := labels; ct_Annotations := annotations; ct_RuntimeClassName := runtimeClassName;
          Image := Image _ inp; ImagePullPolicy := ImagePullPolicy _ inp; ct_ImagePullSecrets := imagePullSecrets;
          Environment := environment; Command := command; Args := args; Resources := resources |}.
Definition CodeInterpreterSandboxTemplate_DeepCopy := copyPtrWith CodeInterpreterSandboxTemplate_DeepCopyInto.

Definition CodeInterpreterSpec_DeepCopyInto (inp : CodeInterpreterSpec ref) : Go (CodeInterpreterSpec ref) :=
  ports ← copySlice (cs_Ports _ inp);
  template ← copyPtrWith CodeInterpreterSandboxTemplate_DeepCopyInto (cs_Template _ inp);
  sessionTimeout ← copyPtr (cs_SessionTimeout _ inp);
  maxSessionDuration ← copyPtr (cs_MaxSessionDuration _ inp);
  warmPoolSize ← copyPtr (WarmPoolSize _ inp);
  mret {| cs_Ports := ports; cs_Template := template; cs_SessionTimeout := sessionTimeout;
          cs_MaxSessionDuration := maxSessionDuration; WarmPoolSize := warmPoolSize; AuthMode := AuthMode _ inp |}.
Definition CodeInterpreterSpec_DeepCopy := copyPtrWith CodeInterpreterSpec_DeepCopyInto.

Definition CodeInterpreterStatus_DeepCopyInto (inp : CodeInterpreterStatus ref) : Go (CodeInterpreterStatus ref) :=
  conditions ← copySliceWith Condition_DeepCopyInto (cs_Conditions _ inp);
  mret {| cs_Conditions := conditions; Ready := Ready _ inp |}.
Definition CodeInterpreterStatus_DeepCopy := copyPtrWith CodeInterpreterStatus_DeepCopyInto.

Definition CodeInterpreter_DeepCopyInto (inp : CodeInterpreter ref) : Go (CodeInterpreter ref) :=
  objectMeta ← ObjectMeta_DeepCopyInto (ci_ObjectMeta _ inp);
  spec ← CodeInterpreterSpec_DeepCopyInto (ci_Spec _ inp);
  status ← CodeInterpreterStatus_DeepCopyInto (ci_Status _ inp);
  mret {| ci_TypeMeta := ci_TypeMeta _ inp; ci_ObjectMeta := objectMeta; ci_Spec := spec; ci_Status := status |}.
Definition CodeInterpreter_DeepCopy := copyPtrWith CodeInterpreter_DeepCopyInto.

Definition CodeInterpreterList_DeepCopyInto (inp : CodeInterpreterList ref) : Go (CodeInterpreterList ref) :=
  listMeta ← ListMeta_DeepCopyInto (cil_ListMeta _ inp);
  items ← copySliceWith CodeInterpreter_DeepCopyInto (cil_Items _ inp);
  mret {| cil_TypeMeta := cil_TypeMeta _ inp; cil_ListMeta := listMeta; cil_Items := items |}.
Definition CodeInterpreterList_DeepCopy := copyPtrWith CodeInterpreterList_DeepCopyInto.

(** [runtime.Object]: an interface holding one of the four pointers. *)
Inductive Object :=
  | OAgentRuntime (p : ptr (AgentRuntime ref)) | OAgentRuntimeList (p : ptr (AgentRuntimeList ref))
  | OCodeInterpreter (p : ptr (CodeInterpreter ref)) | OCodeInterpreterList (p : ptr (CodeInterpreterList ref)).

(** A nil pointer becomes a nil interface. *)
Definition as_object {A} (mk : ptr A -> Object) (c : ref A) : option Object :=
  match c with Some p => Some (mk p) | None => None end.

Definition AgentRuntime_DeepCopyObject (inp : ref (AgentRuntime ref)) : Go (option Object) :=
  c ← AgentRuntime_DeepCopy inp; mret (as_object OAgentRuntime c).
Definition AgentRuntimeList_DeepCopyObject (inp : ref (AgentRuntimeList ref)) : Go (option Object) :=
  c ← AgentRuntimeList_DeepCopy inp; mret (as_object OAgentRuntimeList c).
Definition CodeInterpreter_DeepCopyObject (inp : ref (CodeInterpreter ref)) : Go (option Object) :=
  c ← CodeInterpreter_DeepCopy inp; mret (as_object OCodeInterpreter c).
Definition CodeInterpreterList_DeepCopyObject (inp : ref (CodeInterpreterList ref)) : Go (option Object) :=
  c ← CodeInterpreterList_DeepCopy inp; mret (as_object OCodeInterpreterList c).

End generated.
End Api.
