(* ===== verification/DeepCopyTheorems.v ===== *)
(** * The generated copies are deep

    What the structs in memory represent, and that a copy represents the same
    value with cells of its own. *)

From stdpp Require Import base list gmap strings.
From S2P Require Import Prelude GoTime K8sTypes GoHeap ApiHeap.
Import Api.

(** ** What the structs represent *)

Section reps.
Implicit Types (h : heap cell) (X : gset loc).

(** A struct without references is its own value. *)
Definition rep_value {A} h X (x v : A) : Prop := x = v.
#[export] Instance local_value {A} : LocalRep (rep_value (A := A)).
Proof. by intros h h' X X' x v ->. Qed.

(** Field by field. *)
Ltac local_struct :=
  intros h h' X X' x v H HX Hag;
  red in H; red; repeat match goal with H : _ /\ _ |- _ => destruct H end;
  repeat match goal with |- _ /\ _ => split end; first [done | by eapply local].

Definition rep_ObjectMeta h X (x : ObjectMeta ref) (v : ObjectMeta option) : Prop :=
  Name _ x = Name _ v /\ Namespace _ x = Namespace _ v /\ UID _ x = UID _ v /\ Generation _ x = Generation _ v /\
  CreationTimestamp _ x = CreationTimestamp _ v /\ rep_flat h X (Labels _ x) (Labels _ v) /\
  rep_flat h X (Annotations _ x) (Annotations _ v) /\ rep_flat h X (OwnerReferences _ x) (OwnerReferences _ v).
#[export] Instance local_ObjectMeta : LocalRep rep_ObjectMeta.
Proof. local_struct. Qed.

Definition rep_ListMeta h X (x : ListMeta ref) (v : ListMeta option) : Prop :=
  ResourceVersion _ x = ResourceVersion _ v /\ Continue_ _ x = Continue_ _ v /\
  rep_flat h X (RemainingItemCount _ x) (RemainingItemCount _ v).
#[export] Instance local_ListMeta : LocalRep rep_ListMeta.
Proof. local_struct. Qed.

Definition rep_EnvVar h X (x : EnvVar ref) (v : EnvVar option) : Prop :=
  ev_Name _ x = ev_Name _ v /\ ev_Value _ x = ev_Value _ v /\ rep_flat h X (ev_ValueFrom _ x) (ev_ValueFrom _ v).
#[export] Instance local_EnvVar : LocalRep rep_EnvVar.
Proof. local_struct. Qed.

Definition rep_ResourceRequirements h X (x : ResourceRequirements ref) (v : ResourceRequirements option) : Prop :=
  rep_flat h X (Limits _ x) (Limits _ v) /\ rep_flat h X (Requests _ x) (Requests _ v).
#[export] Instance local_ResourceRequirements : LocalRep rep_ResourceRequirements.
Proof. local_struct. Qed.

Definition rep_Container h X (x : Container ref) (v : Container option) : Prop :=
  ct_Name _ x = ct_Name _ v /\ ct_Image _ x = ct_Image _ v /\ ct_ImagePullPolicy _ x = ct_ImagePullPolicy _ v /\
  rep_ptr (rep_list rep_EnvVar) h X (ct_Env _ x) (ct_Env _ v) /\ rep_flat h X (ct_Command _ x) (ct_Command _ v) /\
  rep_flat h X (ct_Args _ x) (ct_Args _ v) /\ rep_ResourceRequirements h X (ct_Resources _ x) (ct_Resources _ v).
#[export] Instance local_Container : LocalRep rep_Container.
Proof. local_struct. Qed.

Definition rep_PodSpec h X (x : PodSpec ref) (v : PodSpec option) : Prop :=
  rep_flat h X (ImagePullSecrets _ x) (ImagePullSecrets _ v) /\
  rep_flat h X (RuntimeClassName _ x) (RuntimeClassName _ v) /\
  rep_ptr (rep_list rep_Container) h X (Containers _ x) (Containers _ v) /\
  rep_flat h X (podOther _ x) (podOther _ v).
#[export] Instance local_PodSpec : LocalRep rep_PodSpec.
Proof. local_struct. Qed.

Definition rep_SandboxTemplate h X (x : SandboxTemplate ref) (v : SandboxTemplate option) : Prop :=
  rep_flat h X (st_Labels _ x) (st_Labels _ v) /\ rep_flat h X (st_Annotations _ x) (st_Annotations _ v) /\
  rep_PodSpec h X (st_Spec _ x) (st_Spec _ v).
#[export] Instance local_SandboxTemplate : LocalRep rep_SandboxTemplate.
Proof. local_struct. Qed.

Definition rep_AgentRuntimeSpec h X (x : AgentRuntimeSpec ref) (v : AgentRuntimeSpec option) : Prop :=
  rep_flat h X (as_Ports _ x) (as_Ports _ v) /\
  rep_ptr rep_SandboxTemplate h X (as_Template _ x) (as_Template _ v) /\
  rep_flat h X (as_SessionTimeout _ x) (as_SessionTimeout _ v) /\
  rep_flat h X (as_MaxSessionDuration _ x) (as_MaxSessionDuration _ v).
#[export] Instance local_AgentRuntimeSpec : LocalRep rep_AgentRuntimeSpec.
Proof. local_struct. Qed.

Definition rep_AgentRuntimeStatus h X (x : AgentRuntimeStatus ref) (v : AgentRuntimeStatus option) : Prop :=
  rep_ptr (rep_list rep_value) h X (as_Conditions _ x) (as_Conditions _ v).
#[export] Instance local_AgentRuntimeStatus : LocalRep rep_AgentRuntimeStatus.
Proof. local_struct. Qed.

Definition rep_AgentRuntime h X (x : AgentRuntime ref) (v : AgentRuntime option) : Prop :=
  ar_TypeMeta _ x = ar_TypeMeta _ v /\ rep_ObjectMeta h X (ar_ObjectMeta _ x) (ar_ObjectMeta _ v) /\
  rep_AgentRuntimeSpec h X (ar_Spec _ x) (ar_Spec _ v) /\ rep_AgentRuntimeStatus h X (ar_Status _ x) (ar_Status _ v).
#[export] Instance local_AgentRuntime : LocalRep rep_AgentRuntime.
Proof. local_struct. Qed.

Definition rep_AgentRuntimeList h X (x : AgentRuntimeList ref) (v : AgentRuntimeList option) : Prop :=
  arl_TypeMeta _ x = arl_TypeMeta _ v /\ rep_ListMeta h X (arl_ListMeta _ x) (arl_ListMeta _ v) /\
  rep_ptr (rep_list rep_AgentRuntime) h X (arl_Items _ x) (arl_Items _ v).
#[export] Instance local_AgentRuntimeList : LocalRep rep_AgentRuntimeList.
Proof. local_struct. Qed.

Definition rep_CodeInterpreterSandboxTemplate h X (x : CodeInterpreterSandboxTemplate ref) (v : CodeInterpreterSandboxTemplate option) : Prop :=
  Image _ x = Image _ v /\ ImagePullPolicy _ x = ImagePullPolicy _ v /\
  rep_flat h X (ct_Labels _ x) (ct_Labels _ v) /\ rep_flat h X (ct_Annotations _ x) (ct_Annotations _ v) /\
  rep_flat h X (ct_RuntimeClassName _ x) (ct_RuntimeClassName _ v) /\
  rep_flat h X (ct_ImagePullSecrets _ x) (ct_ImagePullSecrets _ v) /\
  rep_ptr (rep_list rep_EnvVar) h X (Environment _ x) (Environment _ v) /\
  rep_flat h X (Command _ x) (Command _ v) /\ rep_flat h X (Args _ x) (Args _ v) /\
  rep_ResourceRequirements h X (Resources _ x) (Resources _ v).
#[export] Instance local_CodeInterpreterSandboxTemplate : LocalRep rep_CodeInterpreterSandboxTemplate.
Proof. local_struct. Qed.

Definition rep_CodeInterpreterSpec h X (x : CodeInterpreterSpec ref) (v : CodeInterpreterSpec option) : Prop :=
  AuthMode _ x = AuthMode _ v /\ rep_flat h X (cs_Ports _ x) (cs_Ports _ v) /\
  rep_ptr rep_CodeInterpreterSandboxTemplate h X (cs_Template _ x) (cs_Template _ v) /\
  rep_flat h X (cs_SessionTimeout _ x) (cs_SessionTimeout _ v) /\
  rep_flat h X (cs_MaxSessionDuration _ x) (cs_MaxSessionDuration _ v) /\
  rep_flat h X (WarmPoolSize _ x) (WarmPoolSize _ v).
#[export] Instance local_CodeInterpreterSpec : LocalRep rep_CodeInterpreterSpec.
Proof. local_struct. Qed.

Definition rep_CodeInterpreterStatus h X (x : CodeInterpreterStatus ref) (v : CodeInterpreterStatus option) : Prop :=
  Ready _ x = Ready _ v /\ rep_ptr (rep_list rep_value) h X (cs_Conditions _ x) (cs_Conditions _ v).
#[export] Instance local_CodeInterpreterStatus : LocalRep rep_CodeInterpreterStatus.
Proof. local_struct. Qed.

Definition rep_CodeInterpreter h X (x : CodeInterpreter ref) (v : CodeInterpreter option) : Prop :=
  ci_TypeMeta _ x = ci_TypeMeta _ v /\ rep_ObjectMeta h X (ci_ObjectMeta _ x) (ci_ObjectMeta _ v) /\
  rep_CodeInterpreterSpec h X (ci_Spec _ x) (ci_Spec _ v) /\
  rep_CodeInterpreterStatus h X (ci_Status _ x) (ci_Status _ v).
#[export] Instance local_CodeInterpreter : LocalRep rep_CodeInterpreter.
Proof. local_struct. Qed.

Definition rep_CodeInterpreterList h X (x : CodeInterpreterList ref) (v : CodeInterpreterList option) : Prop :=
  cil_TypeMeta _ x = cil_TypeMeta _ v /\ rep_ListMeta h X (cil_ListMeta _ x) (cil_ListMeta _ v) /\
  rep_ptr (rep_list rep_CodeInterpreter) h X (cil_Items _ x) (cil_Items _ v).
#[export] Instance local_CodeInterpreterList : LocalRep rep_CodeInterpreterList.
Proof. local_struct. Qed.

End reps.

(** What [corev1] and [metav1] promise of their own copies. *)
Class LibCopiesLaws `{!LibCopies} : Prop := {
  #[export] ObjectMeta_copier :: Copier rep_ObjectMeta ObjectMeta_DeepCopyInto;
  #[export] ListMeta_copier :: Copier rep_ListMeta ListMeta_DeepCopyInto;
  #[export] Condition_copier :: Copier rep_value Condition_DeepCopyInto;
  #[export] PodSpec_copier :: Copier rep_PodSpec PodSpec_DeepCopyInto;
  #[export] EnvVar_copier :: Copier rep_EnvVar EnvVar_DeepCopyInto;
  #[export] ResourceRequirements_copier :: Copier rep_ResourceRequirements ResourceRequirements_DeepCopyInto;
}.

(** ** The generated functions copy *)

(** One field after the other: every field is copied with the rule of its
    function, from the struct as it was at the start. *)
Ltac copy_field h0 :=
  run_step ltac:(eapply (runs_copy _ _ h0); [assumption | eassumption]);
  let y := fresh "y" in let h := fresh "h" in let Hs := fresh "Hs" in let Hy := fresh "Hy" in
  intros y h Hs [? Hy].

Ltac grow_fields :=
  repeat match goal with
  | H : ?R ?h (since ?h0 ?h) ?y ?v, Hs : ?h ⊆ ?h' |- _ => apply (grown _ h0 h h' y v) in H; [|exact Hs]
  end.

Ltac copy_struct :=
  apply copier_runs; intros h0 X x v H; red in H;
  repeat match goal with H : _ /\ _ |- _ => destruct H end;
  assert (h0 ⊆ h0) by reflexivity;
  repeat copy_field h0; apply runs_ret; [assumption|];
  grow_fields; red; repeat match goal with |- _ /\ _ => split end; assumption.

Section copies.
Context {LC : LibCopies} {LL : LibCopiesLaws}.

#[export] Instance TargetPort_copier : Copier rep_value TargetPort_DeepCopyInto.
Proof. intros h X x v ->. exists v, h. by split_and!. Qed.

#[export] Instance SandboxTemplate_copier : Copier rep_SandboxTemplate SandboxTemplate_DeepCopyInto.
Proof. copy_struct. Qed.

#[export] Instance AgentRuntimeSpec_copier : Copier rep_AgentRuntimeSpec AgentRuntimeSpec_DeepCopyInto.
Proof. copy_struct. Qed.

#[export] Instance AgentRuntimeStatus_copier : Copier rep_AgentRuntimeStatus AgentRuntimeStatus_DeepCopyInto.
Proof. copy_struct. Qed.

#[export] Instance AgentRuntime_copier : Copier rep_AgentRuntime AgentRuntime_DeepCopyInto.
Proof. copy_struct. Qed.

#[export] Instance AgentRuntimeList_copier : Copier rep_AgentRuntimeList AgentRuntimeList_DeepCopyInto.
Proof. copy_struct. Qed.

#[export] Instance CodeInterpreterSandboxTemplate_copier : Copier rep_CodeInterpreterSandboxTemplate CodeInterpreterSandboxTemplate_DeepCopyInto.
Proof. copy_struct. Qed.

#[export] Instance CodeInterpreterSpec_copier : Copier rep_CodeInterpreterSpec CodeInterpreterSpec_DeepCopyInto.
Proof. copy_struct. Qed.

#[export] Instance CodeInterpreterStatus_copier : Copier rep_CodeInterpreterStatus CodeInterpreterStatus_DeepCopyInto.
Proof. copy_struct. Qed.

#[export] Instance CodeInterpreter_copier : Copier rep_CodeInterpreter CodeInterpreter_DeepCopyInto.
Proof. copy_struct. Qed.

#[export] Instance CodeInterpreterList_copier : Copier rep_CodeInterpreterList CodeInterpreterList_DeepCopyInto.
Proof. copy_struct. Qed.

End copies.

(** ** What callers get *)

(** [f] returns a copy with the same value and with cells of its own: whatever
    happens to the cells of the copy leaves the original as it was, and whatever
    happens to the cells there were before leaves the copy as it was made. *)
Definition deep_copy {A V : Type} `{!Storable cell A} (R : heap cell -> gset loc -> A -> V -> Prop) (f : ref A -> Go (ref A))
    : Prop :=
  forall h X r v, rep_ptr R h X r v ->
    exists r' h', f r h = Some (r', h') /\ (h ⊆ h') /\ rep_ptr R h' (dom h' ∖ dom h) r' v /\
      (forall h2, (forall l, l ∈ dom h -> h2 !! l = h' !! l) -> rep_ptr R h2 X r v) /\
      (forall h2, (forall l, (l ∉ dom h) -> h2 !! l = h' !! l) -> rep_ptr R h2 (dom h' ∖ dom h) r' v).

Lemma deep_copy_of {A V} `{!Storable cell A} (R : heap cell -> gset loc -> A -> V -> Prop) (f : A -> Go A)
    `{!LocalRep R} `{!Copier R f} : deep_copy R (copyPtrWith f).
Proof.
  intros h X r v Hr. destruct (copier (R := rep_ptr R) (f := copyPtrWith f) h X r v Hr) as (r' & h' & Hf & Hs & Hr').
  exists r', h'. split_and!; [done|done|done|..].
  - intros h2 Hag. eapply local; [exact Hr|done|]. intros l _ Hn. rewrite Hag by (by apply elem_of_dom, not_eq_None_Some).
    by apply (agree_sub h h' {[l]}); [|set_solver|].
  - intros h2 Hag. eapply local; [exact Hr'|done|]. intros l Hl _. apply Hag. unfold since in Hl. set_solver.
Qed.

(** The same through the [runtime.Object] interface. *)
Definition deep_copy_object {A V : Type} `{!Storable cell A} (R : heap cell -> gset loc -> A -> V -> Prop)
    (mk : ptr A -> Object) (f : ref A -> Go (option Object)) : Prop :=
  exists g, deep_copy R g /\ forall r h, f r h = match g r h with Some (c, h') => Some (as_object mk c, h') | None => None end.

(** [C16] The generated copies of the API types are deep: for every type of the
    package, [DeepCopy] of an object, or of a nil pointer, succeeds, changes no
    cell that was there, and returns an object with the same value, nil fields
    included, that shares no pointer, slice or map with the original, as long as
    the copies of the Kubernetes libraries do. [DeepCopyObject] returns the same
    copy, and a nil interface for a nil pointer. *)
Theorem deep_copies {LC : LibCopies} {LL : LibCopiesLaws} :
  deep_copy rep_value TargetPort_DeepCopy /\
  deep_copy rep_SandboxTemplate SandboxTemplate_DeepCopy /\
  deep_copy rep_AgentRuntimeSpec AgentRuntimeSpec_DeepCopy /\
  deep_copy rep_AgentRuntimeStatus AgentRuntimeStatus_DeepCopy /\
  deep_copy rep_AgentRuntime AgentRuntime_DeepCopy /\
  deep_copy rep_AgentRuntimeList AgentRuntimeList_DeepCopy /\
  deep_copy rep_CodeInterpreterSandboxTemplate CodeInterpreterSandboxTemplate_DeepCopy /\
  deep_copy rep_CodeInterpreterSpec CodeInterpreterSpec_DeepCopy /\
  deep_copy rep_CodeInterpreterStatus CodeInterpreterStatus_DeepCopy /\
  deep_copy rep_CodeInterpreter CodeInterpreter_DeepCopy /\
  deep_copy rep_CodeInterpreterList CodeInterpreterList_DeepCopy /\
  deep_copy_object rep_AgentRuntime OAgentRuntime AgentRuntime_DeepCopyObject /\
  deep_copy_object rep_AgentRuntimeList OAgentRuntimeList AgentRuntimeList_DeepCopyObject /\
  deep_copy_object rep_CodeInterpreter OCodeInterpreter CodeInterpreter_DeepCopyObject /\
  deep_copy_object rep_CodeInterpreterList OCodeInterpreterList CodeInterpreterList_DeepCopyObject.
Proof.
  split_and!; try exact (deep_copy_of _ _).
  all: eexists; split; [exact (deep_copy_of _ _)|done].
Qed.

(** ** A concrete library and an object in memory *)

Module HeapModel.

Definition copy_env (inp : EnvVar ref) : Go (EnvVar ref) :=
  valueFrom ← copyPtr (ev_ValueFrom _ inp);
  mret {| ev_Name := ev_Name _ inp; ev_Value := ev_Value _ inp; ev_ValueFrom := valueFrom |}.

Definition copy_resources (inp : ResourceRequirements ref) : Go (ResourceRequirements ref) :=
  limits ← copyMap (Limits _ inp);
  requests ← copyMap (Requests _ inp);
  mret {| Limits := limits; Requests := requests |}.

Definition copy_container (inp : Container ref) : Go (Container ref) :=
  env ← copySliceWith copy_env (ct_Env _ inp);
  command ← copySlice (ct_Command _ inp);
  args ← copySlice (ct_Args _ inp);
  resources ← copy_resources (ct_Resources _ inp);
  mret {| ct_Name := ct_Name _ inp; ct_Image := ct_Image _ inp; ct_ImagePullPolicy := ct_ImagePullPolicy _ inp;
          ct_Env := env; ct_Command := command; ct_Args := args; ct_Resources := resources |}.

#[export] Instance lib : LibCopies := {|
  ObjectMeta_DeepCopyInto inp :=
    labels ← copyMap (Labels _ inp);
    annotations ← copyMap (Annotations _ inp);
    owners ← copySlice (OwnerReferences _ inp);
    mret {| Name := Name _ inp; Namespace := Namespace _ inp; UID := UID _ inp; Generation := Generation _ inp;
            CreationTimestamp := CreationTimestamp _ inp; Labels := labels; Annotations := annotations; OwnerReferences := owners |};
  ListMeta_DeepCopyInto inp :=
    remaining ← copyPtr (RemainingItemCount _ inp);
    mret {| ResourceVersion := ResourceVersion _ inp; Continue_ := Continue_ _ inp; RemainingItemCount := remaining |};
  Condition_DeepCopyInto inp := mret inp;
  PodSpec_DeepCopyInto inp :=
    secrets ← copySlice (ImagePullSecrets _ inp);
    class ← copyPtr (RuntimeClassName _ inp);
    containers ← copySliceWith copy_container (Containers _ inp);
    other ← copyMap (podOther _ inp);
    mret {| ImagePullSecrets := secrets; RuntimeClassName := class; Containers := containers; podOther := other |};
  EnvVar_DeepCopyInto := copy_env;
  ResourceRequirements_DeepCopyInto := copy_resources;
|}.

#[export] Instance copier_env : Copier rep_EnvVar copy_env.
Proof. copy_struct. Qed.
#[export] Instance copier_resources : Copier rep_ResourceRequirements copy_resources.
Proof. copy_struct. Qed.
#[export] Instance copier_container : Copier rep_Container copy_container.
Proof. copy_struct. Qed.

#[export] Instance lib_laws : LibCopiesLaws.
Proof.
  split; try apply _; cbn.
  - copy_struct.
  - copy_struct.
  - intros h X x v ->. exists v, h. by split_and!.
  - copy_struct.
Qed.

(** An AgentRuntime at address 5, with labels, a port and a pod of one container. *)
Definition pod1 : PodSpec ref :=
  {| ImagePullSecrets := None; RuntimeClassName := Some (Ptr 4); Containers := Some (Ptr 3); podOther := None |}.
Definition template1 : SandboxTemplate ref := {| st_Labels := Some (Ptr 1); st_Annotations := None; st_Spec := pod1 |}.
Definition port1 : TargetPort := {| PathPrefix := "/"; port_Name := ""; Port := 8080; Protocol := ProtocolTypeHTTP |}.
Definition container1 : Container ref :=
  {| ct_Name := "agent"; ct_Image := "agent:1"; ct_ImagePullPolicy := ""; ct_Env := None; ct_Command := None;
     ct_Args := None; ct_Resources := {| Limits := None; Requests := None |} |}.
Definition meta1 : ObjectMeta ref :=
  {| Name := "web"; Namespace := "ns"; UID := "u1"; Generation := 1; CreationTimestamp := 0; Labels := None;
     Annotations := None; OwnerReferences := None |}.
Definition runtime1 : AgentRuntime ref :=
  {| ar_TypeMeta := {| tm_Kind := "AgentRuntime"; tm_APIVersion := "v1alpha1" |}; ar_ObjectMeta := meta1;
     ar_Spec := {| as_Ports := Some (Ptr 2); as_Template := Some (Ptr 6); as_SessionTimeout := None;
                   as_MaxSessionDuration := None |};
     ar_Status := {| as_Conditions := None |} |}.

Definition heap1 : heap cell :=
  <[1%positive := CMap {[ "app" := "web" ]}]> (<[2%positive := CPorts [port1]]> (<[3%positive := CContainers [container1]]>
    (<[4%positive := CString ""]> (<[5%positive := CAR runtime1]> (<[6%positive := CTemplate template1]> ∅))))).

(** Its value. *)
Definition value1 : AgentRuntime option :=
  {| ar_TypeMeta := {| tm_Kind := "AgentRuntime"; tm_APIVersion := "v1alpha1" |};
     ar_ObjectMeta := {| Name := "web"; Namespace := "ns"; UID := "u1"; Generation := 1; CreationTimestamp := 0;
                         Labels := None; Annotations := None; OwnerReferences := None |};
     ar_Spec :=
       {| as_Ports := Some [port1];
          as_Template := Some
            {| st_Labels := Some {[ "app" := "web" ]}; st_Annotations := None;
               st_Spec := {| ImagePullSecrets := None; RuntimeClassName := Some "";
                             Containers := Some [{| ct_Name := "agent"; ct_Image := "agent:1"; ct_ImagePullPolicy := "";
                                                    ct_Env := None; ct_Command := None; ct_Args := None;
                                                    ct_Resources := {| Limits := None; Requests := None |} |}];
                             podOther := None |} |};
          as_SessionTimeout := None; as_MaxSessionDuration := None |};
     ar_Status := {| as_Conditions := None |} |}.

Lemma rep1 : rep_ptr rep_AgentRuntime heap1 (dom heap1) (Some (Ptr 5)) (Some value1).
Proof.
  split; [by apply elem_of_dom; eexists|]. exists runtime1. split; [done|]. split; [done|]. split; [by repeat split|].
  split; [|done]. split; [split; [by apply elem_of_dom; eexists|done]|]. split; [|done].
  split; [by apply elem_of_dom; eexists|]. exists template1. split; [done|].
  split; [split; [by apply elem_of_dom; eexists|done]|]. split; [done|]. split; [done|].
  split; [split; [by apply elem_of_dom; eexists|done]|]. split; [|done].
  split; [by apply elem_of_dom; eexists|]. exists [container1]. split; [done|]. constructor; [by repeat split|constructor].
Qed.

End HeapModel.
Import HeapModel.

Lemma deep_copies_witness :
  exists r' h', AgentRuntime_DeepCopy (Some (Ptr 5)) heap1 = Some (r', h') /\ (heap1 ⊆ h') /\
    rep_ptr rep_AgentRuntime h' (dom h' ∖ dom heap1) r' (Some value1).
Proof.
  destruct (deep_copies (LC := lib) (LL := lib_laws)) as (_ & _ & _ & _ & H & _).
  destruct (H heap1 (dom heap1) (Some (Ptr 5)) (Some value1) rep1) as (r' & h' & H1 & H2 & H3 & _).
  exists r', h'. exact (conj H1 (conj H2 H3)).
Defined.
