(* ===== verification/HeapBuilder.v ===== *)
(** * Building sandboxes in memory

    [pkg/workloadmanager/workload_builder.go] and [convertToPodTemplate] of
    [codeinterpreter_controller.go] once more, with the pointers, slices and maps
    they share with the objects of the informer cache. [WorkloadBuilder] and
    [CiController] say what is built; this file says in which cells. *)

From stdpp Require Import base list gmap strings.
From S2P Require Import Prelude GoStrings GoTime GoError SandboxTypes K8sTypes Cluster WmAuth WorkloadBuilder GoHeap ApiHeap.

Module HeapBuilder.
Import Api.

(** [sandboxv1alpha1.Sandbox], [extensionsv1alpha1.SandboxClaim] and
    [sandboxEntry] in memory. *)
Section structs.
Variable P : Type -> Type.

Record Sandbox := {
  sb_TypeMeta : TypeMeta; sb_ObjectMeta : ObjectMeta P; sb_PodSpec : PodSpec P;
  sb_PodLabels : P (gmap string string); sb_PodAnnotations : P (gmap string string);
  sb_ShutdownTime : P Time; sb_Replicas : P Z;
}.

Record SandboxClaim := { sc_TypeMeta : TypeMeta; sc_ObjectMeta : ObjectMeta P; sc_TemplateRef : string }.

Record sandboxEntry := { se_Kind : string; se_Ports : P (list TargetPort); se_SessionID : string; se_IdleTimeout : Duration }.

(** [buildSandboxParams] *)
Record buildSandboxParams := {
  p_namespace : string; p_workloadName : string; p_sandboxName : string; p_sessionID : string; p_ownerID : string;
  p_ttl : Duration; p_idleTimeout : Duration; p_podSpec : PodSpec P;
  p_podLabels : P (gmap string string); p_podAnnotations : P (gmap string string);
}.
End structs.

(** [m[k] = v] *)
Definition setKey (m : ptr (gmap string string)) (k v : string) : Go unit := x ← load m; put m (<[k := v]> x).

(** [maps.Copy(dst, src)] *)
Definition mapsCopy (dst : ptr (gmap string string)) (src : ref (gmap string string)) : Go unit :=
  match src with
  | None => mret tt
  | Some src => s ← load src; d ← load dst; put dst (s ∪ d)
  end.

Definition noMeta (ns name : string) (labels annotations : ref (gmap string string)) (owners : ref (list OwnerReference))
    : ObjectMeta ref :=
  {| Name := name; Namespace := ns; UID := ""; Generation := 0; CreationTimestamp := Tm.zero; Labels := labels;
     Annotations := annotations; OwnerReferences := owners |}.

(** The ownership metadata, written into the maps of the new object. *)
Definition setOwner (ownerID : string) (annotations labels : ptr (gmap string string)) : Go unit :=
  if negb (String.eqb ownerID "") then
    setKey annotations "agentcube.io/owner" ownerID;;
    setKey labels "agentcube.io/owner-hash" (Identity.sha256Short ownerID)
  else mret tt.

(** The maps of a new object's metadata, with its owner. *)
Definition newMetadata (ownerID : string) (labels0 annotations0 : gmap string string)
    : Go (ptr (gmap string string) * ptr (gmap string string)) :=
  labels ← new labels0;
  annotations ← new annotations0;
  setOwner ownerID annotations labels;;
  mret (labels, annotations).

(** The pod's metadata in maps allocated for it. *)
Definition freshLabels (params : buildSandboxParams ref) : Go (ptr (gmap string string)) :=
  podLabels ← new ∅;
  mapsCopy podLabels (p_podLabels _ params);;
  setKey podLabels SessionIdLabelKey (p_sessionID _ params);;
  setKey podLabels SandboxNameLabelKey (p_sandboxName _ params);;
  mret podLabels.

Definition freshAnnotations (params : buildSandboxParams ref) : Go (ptr (gmap string string)) :=
  podAnnotations ← new ∅;
  mapsCopy podAnnotations (p_podAnnotations _ params);;
  mret podAnnotations.

Definition buildSandboxObject (now : Time) (params : buildSandboxParams ref) : Go (Sandbox ref) :=
  let ttl := if p_ttl _ params =? 0 then DefaultSandboxTTL else p_ttl _ params in
  let idleTimeout := if p_idleTimeout _ params =? 0 then DefaultSandboxIdleTimeout else p_idleTimeout _ params in
  shutdownTime ← new (Tm.Add now ttl);
  podLabels ← freshLabels params;
  podAnnotations ← freshAnnotations params;
  replicas ← new 1;
  maps ← newMetadata (p_ownerID _ params)
    (<[SessionIdLabelKey := p_sessionID _ params]>
      (<[WorkloadNameLabelKey := p_workloadName _ params]>
        (<["managed-by" := "agentcube-workload-manager"]> ∅)))
    (<[IdleTimeoutAnnotationKey := Tm.String_ idleTimeout]> ∅);
  mret {| sb_TypeMeta := {| tm_Kind := SandboxKind; tm_APIVersion := "agents.x-k8s.io/v1alpha1" |};
          sb_ObjectMeta := noMeta (p_namespace _ params) (p_sandboxName _ params) (Some maps.1) (Some maps.2) None;
          sb_PodSpec := p_podSpec _ params; sb_PodLabels := Some podLabels; sb_PodAnnotations := Some podAnnotations;
          sb_ShutdownTime := Some shutdownTime; sb_Replicas := Some replicas |}.

Definition buildSandboxClaimObject (p : Builder.buildSandboxClaimParams) : Go (SandboxClaim ref) :=
  let idleTimeout := if Builder.c_idleTimeout p =? 0 then DefaultSandboxIdleTimeout else Builder.c_idleTimeout p in
  owners ← match Builder.c_ownerReference p with
           | Some r => q ← new [r]; mret (Some q)
           | None => mret None
           end;
  maps ← newMetadata (Builder.c_ownerID p)
    (<[SessionIdLabelKey := Builder.c_sessionID p]> (<[SandboxNameLabelKey := Builder.c_name p]> ∅))
    (<[IdleTimeoutAnnotationKey := Tm.String_ idleTimeout]> ∅);
  mret {| sc_TypeMeta := {| tm_Kind := SandboxClaimsKind; tm_APIVersion := "extensions.agents.x-k8s.io/v1alpha1" |};
          sc_ObjectMeta := noMeta (Builder.c_namespace p) (Builder.c_name p) (Some maps.1) (Some maps.2) owners;
          sc_TemplateRef := Builder.c_sandboxTemplateName p |}.

Definition publicKeyVar (cachedKey : string) : EnvVar ref :=
  {| ev_Name := "PICOD_AUTH_PUBLIC_KEY"; ev_Value := Builder.GetCachedPublicKey cachedKey; ev_ValueFrom := None |}.

(** [make] and [copy]: a new slice of the same elements; [append] beyond its
    capacity moves them to another new one. *)
Definition withKey (cachedKey : string) (inject : bool) (templateEnv : ref (list (EnvVar ref))) : Go (ptr (list (EnvVar ref))) :=
  env ← match templateEnv with Some p => load p | None => mret [] end;
  envVars ← new env;
  if inject then l ← load envVars; new (l ++ [publicKeyVar cachedKey]) else mret envVars.

Definition buildCodeInterpreterEnvVars (cachedKey : string) (templateEnv : ref (list (EnvVar ref))) (authMode : string)
    : Go (ptr (list (EnvVar ref))) :=
  withKey cachedKey (String.eqb authMode AuthModePicoD) templateEnv.

(** [if r != nil && *r == "" { r = nil }] *)
Definition normalizeRuntimeClassName (r : ref string) : Go (ref string) :=
  match r with
  | None => mret None
  | Some p => s ← load p; mret (if String.eqb s "" then None else Some p)
  end.

(** The pod of a code interpreter, which [buildSandboxByCodeInterpreter] and the
    controller build from a template and the environment they computed. *)
Definition interpreterPod (name : string) (t : CodeInterpreterSandboxTemplate ref) (runtimeClassName : ref string)
    (envVars : ptr (list (EnvVar ref))) : Go (PodSpec ref) :=
  containers ← new [{| ct_Name := name; ct_Image := Image _ t; ct_ImagePullPolicy := ImagePullPolicy _ t; ct_Env := Some envVars;
                       ct_Command := Command _ t; ct_Args := Args _ t; ct_Resources := Resources _ t |}];
  mret {| ImagePullSecrets := ct_ImagePullSecrets _ t; RuntimeClassName := runtimeClassName; Containers := Some containers;
          podOther := None |}.

(** [convertToPodTemplate] of the controller *)
Definition convertToPodTemplate (cachedKey : string) (t : CodeInterpreterSandboxTemplate ref) (authMode : string)
    : Go (PodSpec ref) :=
  runtimeClassName ← normalizeRuntimeClassName (ct_RuntimeClassName _ t);
  envVars ← withKey cachedKey (negb (String.eqb authMode AuthModeNone)) (Environment _ t);
  interpreterPod "codeinterpreter" t runtimeClassName envVars.

(** [*p] of an optional field, with a default. *)
Definition orElse {A} `{!Storable cell A} (r : ref A) (dflt : A) : Go A :=
  match r with Some p => load p | None => mret dflt end.

Section lookups.
Context {LC : LibCopies} {W : Type} `{!Env W} {AE : ApiErrors}.
Implicit Types w : W.

(** Following a nil pointer. *)
Definition nilDereference {A} : Go A := fun _ => None.

(** [podSpec := t.Spec.DeepCopy()], and its runtime class made nil if empty. *)
Definition copiedPodSpec (spec : PodSpec ref) : Go (PodSpec ref) :=
  pod ← PodSpec_DeepCopyInto spec;
  podSpec ← new pod;
  class ← normalizeRuntimeClassName (RuntimeClassName _ pod);
  put podSpec {| ImagePullSecrets := ImagePullSecrets _ pod; RuntimeClassName := class; Containers := Containers _ pod;
                 podOther := podOther _ pod |};;
  load podSpec.

(** The body of [buildSandboxByAgentRuntime] for the object the cache has. *)
Definition buildFromAgentRuntime (now : Time) (namespace name ownerID sessionID sandboxName : string)
    (obj : ptr (AgentRuntime ref)) : Go (Sandbox ref * sandboxEntry ref) :=
  ar ← load obj;
  let spec := ar_Spec _ ar in
  t ← match as_Template _ spec with Some p => load p | None => nilDereference end;
  podSpec ← copiedPodSpec (st_Spec _ t);
  ttl ← orElse (as_MaxSessionDuration _ spec) 0;
  idleTimeout ← orElse (as_SessionTimeout _ spec) DefaultSandboxIdleTimeout;
  sandbox ← buildSandboxObject now
    {| p_namespace := namespace; p_workloadName := name; p_sandboxName := sandboxName; p_sessionID := sessionID;
       p_ownerID := ownerID; p_ttl := ttl; p_idleTimeout := idleTimeout; p_podSpec := podSpec;
       p_podLabels := st_Labels _ t; p_podAnnotations := st_Annotations _ t |};
  mret (sandbox, {| se_Kind := SandboxKind; se_Ports := as_Ports _ spec; se_SessionID := sessionID;
                    se_IdleTimeout := idleTimeout |}).

(** [lister] is the informer's cache: the pointers it hands out. *)
Definition buildSandboxByAgentRuntime (lister : string -> string -> res (ptr (AgentRuntime ref)))
    (namespace name ownerID : string) w (h : heap cell) : option (res (Sandbox ref * sandboxEntry ref) * heap cell) * W :=
  match lister namespace name with
  | Err e =>
      if IsNotFound e then (Some (Err (ESent ErrAgentRuntimeNotFound), h), w)
      else (Some (Err (Wrapf ("failed to get agent runtime " +:+ namespace +:+ "/" +:+ name) e), h), w)
  | Ok obj =>
      let '(sessionID, w) := NewUUID w in
      let '(suffix, w) := Builder.RandString 8 w in
      (match buildFromAgentRuntime (clock w) namespace name ownerID sessionID (name +:+ "-" +:+ suffix) obj h with
       | Some (r, h') => Some (Ok r, h')
       | None => None
       end, w)
  end.

(** The ports of the entry: those of the object, or the default ones. *)
Definition entryPorts (ports : ref (list TargetPort)) : Go (ref (list TargetPort)) :=
  l ← orElse ports [];
  match l with
  | [] => p ← new Builder.defaultPorts; mret (Some p)
  | _ => mret ports
  end.

(** With a warm pool: a claim, and the sandbox it stands for. *)
Definition warmSandbox (now : Time) (namespace name ownerID sessionID sandboxName : string) (ci : CodeInterpreter ref)
    (idleTimeout : Duration) : Go (Sandbox ref * SandboxClaim ref) :=
  sandboxClaim ← buildSandboxClaimObject
    {| Builder.c_namespace := namespace; Builder.c_name := sandboxName; Builder.c_sandboxTemplateName := name;
       Builder.c_sessionID := sessionID; Builder.c_ownerID := ownerID; Builder.c_idleTimeout := idleTimeout;
       Builder.c_ownerReference := Some
         {| or_APIVersion := "runtime.agentcube.volcano.sh/v1alpha1"; or_Kind := "CodeInterpreter";
            or_Name := Name _ (ci_ObjectMeta _ ci); or_UID := UID _ (ci_ObjectMeta _ ci); or_Controller := None |} |};
  labels ← new (<[SessionIdLabelKey := sessionID]> ∅);
  shutdownTime ← match cs_MaxSessionDuration _ (ci_Spec _ ci) with
                 | Some p => d ← load p; q ← new (Tm.Add now d); mret (Some q)
                 | None => mret None
                 end;
  mret ({| sb_TypeMeta := {| tm_Kind := ""; tm_APIVersion := "" |};
           sb_ObjectMeta := noMeta namespace sandboxName (Some labels) None None;
           sb_PodSpec := {| ImagePullSecrets := None; RuntimeClassName := None; Containers := None; podOther := None |};
           sb_PodLabels := None; sb_PodAnnotations := None; sb_ShutdownTime := shutdownTime; sb_Replicas := None |},
        sandboxClaim).

(** Without one: a sandbox with the pod of the template. *)
Definition coldSandbox (cachedKey : string) (now : Time) (namespace name ownerID sessionID sandboxName : string)
    (ci : CodeInterpreter ref) (idleTimeout : Duration) : Go (Sandbox ref) :=
  let spec := ci_Spec _ ci in
  t ← match cs_Template _ spec with Some p => load p | None => nilDereference end;
  runtimeClassName ← normalizeRuntimeClassName (ct_RuntimeClassName _ t);
  envVars ← buildCodeInterpreterEnvVars cachedKey (Environment _ t) (AuthMode _ spec);
  podSpec ← interpreterPod "code-interpreter" t runtimeClassName envVars;
  ttl ← orElse (cs_MaxSessionDuration _ spec) 0;
  buildSandboxObject now
    {| p_namespace := namespace; p_workloadName := name; p_sandboxName := sandboxName; p_sessionID := sessionID;
       p_ownerID := ownerID; p_ttl := ttl; p_idleTimeout := idleTimeout; p_podSpec := podSpec;
       p_podLabels := ct_Labels _ t; p_podAnnotations := ct_Annotations _ t |}.

Definition buildFromCodeInterpreter (cachedKey : string) (now : Time) (namespace name ownerID sessionID sandboxName : string)
    (ci : CodeInterpreter ref) : Go (Sandbox ref * option (SandboxClaim ref) * sandboxEntry ref) :=
  let spec := ci_Spec _ ci in
  idleTimeout ← orElse (cs_SessionTimeout _ spec) DefaultSandboxIdleTimeout;
  ports ← entryPorts (cs_Ports _ spec);
  let entry kind := {| se_Kind := kind; se_Ports := ports; se_SessionID := sessionID; se_IdleTimeout := idleTimeout |} in
  n ← orElse (WarmPoolSize _ spec) 0;
  if 0 <? n then
    built ← warmSandbox now namespace name ownerID sessionID sandboxName ci idleTimeout;
    mret (built.1, Some built.2, entry SandboxClaimsKind)
  else
    sandbox ← coldSandbox cachedKey now namespace name ownerID sessionID sandboxName ci idleTimeout;
    mret (sandbox, None, entry SandboxKind).

Definition buildSandboxByCodeInterpreter (lister : string -> string -> res (ptr (CodeInterpreter ref))) (cachedKey : string)
    (namespace name ownerID : string) w (h : heap cell)
    : option (res (Sandbox ref * option (SandboxClaim ref) * sandboxEntry ref) * heap cell) * W :=
  match lister namespace name with
  | Err e =>
      if IsNotFound e then (Some (Err (ESent ErrCodeInterpreterNotFound), h), w)
      else (Some (Err (Wrapf ("failed to get code interpreter " +:+ namespace +:+ "/" +:+ name) e), h), w)
  | Ok obj =>
      match GoHeap.cell h obj with
      | None => (None, w)
      | Some ci =>
          if String.eqb (AuthMode _ (ci_Spec _ ci)) AuthModePicoD && negb (Builder.IsPublicKeyCached cachedKey)
          then (Some (Err (ESent ErrPublicKeyMissing), h), w)
          else
            let '(sessionID, w) := NewUUID w in
            let '(suffix, w) := Builder.RandString 8 w in
            (match buildFromCodeInterpreter cachedKey (clock w) namespace name ownerID sessionID (name +:+ "-" +:+ suffix) ci h with
             | Some (r, h') => Some (Ok r, h')
             | None => None
             end, w)
      end
  end.

End lookups.
End HeapBuilder.
