(* ===== verification/HeapBuilderTheorems.v ===== *)
(** * Building sandboxes leaves the informer cache alone

    The pointer-level builder refines the one of [WorkloadBuilder], and writes to
    new cells only. *)

From stdpp Require Import base list gmap strings.
From S2P Require Import Prelude GoStrings GoTime GoError SandboxTypes K8sTypes Cluster WmAuth WorkloadBuilder CiController WorldModel GoHeap ApiHeap DeepCopyTheorems HeapBuilder.
Import Api HeapBuilder.

(** ** The values of [WorkloadBuilder] behind those in memory

    There a nil map or slice is an empty one. *)

Definition meta_of (m : ObjectMeta option) : K8sTypes.ObjectMeta :=
  {| K8sTypes.Name := Name _ m; K8sTypes.Namespace := Namespace _ m; K8sTypes.UID := UID _ m;
     K8sTypes.Labels := default ∅ (Labels _ m); K8sTypes.Annotations := default ∅ (Annotations _ m);
     K8sTypes.OwnerReferences := default [] (OwnerReferences _ m); K8sTypes.CreationTimestamp := CreationTimestamp _ m |}.

Definition env_of (e : EnvVar option) : K8sTypes.EnvVar := {| env_Name := ev_Name _ e; env_Value := ev_Value _ e |}.

Definition resources_of (r : ResourceRequirements option) : gmap string string :=
  list_to_map (((fun '(k, v) => ("limits/" +:+ k, v)) <$> map_to_list (default ∅ (Limits _ r))) ++
               ((fun '(k, v) => ("requests/" +:+ k, v)) <$> map_to_list (default ∅ (Requests _ r)))).

Definition container_of (c : Container option) : K8sTypes.Container :=
  {| c_Name := ct_Name _ c; c_Image := ct_Image _ c; c_ImagePullPolicy := ct_ImagePullPolicy _ c;
     c_Env := env_of <$> default [] (ct_Env _ c); c_Command := default [] (ct_Command _ c);
     c_Args := default [] (ct_Args _ c); c_Resources := resources_of (ct_Resources _ c) |}.

Definition pod_of (p : PodSpec option) : K8sTypes.PodSpec :=
  {| K8sTypes.ImagePullSecrets := default [] (ImagePullSecrets _ p); K8sTypes.RuntimeClassName := RuntimeClassName _ p;
     K8sTypes.Containers := container_of <$> default [] (Containers _ p); K8sTypes.podOther := default ∅ (podOther _ p) |}.

Definition ar_of (a : AgentRuntime option) : AR.AgentRuntime :=
  {| AR.ar_Meta := meta_of (ar_ObjectMeta _ a);
     AR.Spec :=
       {| AR.Ports := default [] (as_Ports _ (ar_Spec _ a));
          AR.Template := (fun t => {| AR.t_Labels := default ∅ (st_Labels _ t); AR.t_Annotations := default ∅ (st_Annotations _ t);
                                      AR.t_Spec := pod_of (st_Spec _ t) |}) <$> as_Template _ (ar_Spec _ a);
          AR.SessionTimeout := as_SessionTimeout _ (ar_Spec _ a);
          AR.MaxSessionDuration := as_MaxSessionDuration _ (ar_Spec _ a) |} |}.

Definition template_of (t : CodeInterpreterSandboxTemplate option) : CI.CodeInterpreterSandboxTemplate :=
  {| CI.t_Labels := default ∅ (ct_Labels _ t); CI.t_Annotations := default ∅ (ct_Annotations _ t);
     CI.t_RuntimeClassName := ct_RuntimeClassName _ t; CI.Image := Image _ t; CI.ImagePullPolicy := ImagePullPolicy _ t;
     CI.t_ImagePullSecrets := default [] (ct_ImagePullSecrets _ t); CI.Environment := env_of <$> default [] (Environment _ t);
     CI.Command := default [] (Command _ t); CI.Args := default [] (Args _ t); CI.Resources := resources_of (Resources _ t) |}.

Definition status_of (s : CodeInterpreterStatus option) : CI.CodeInterpreterStatus :=
  {| CI.Ready := Ready _ s;
     CI.Conditions := (fun c => {| CI.st_Type := cd_Type c; CI.st_Status := cd_Status c; CI.st_Reason := cd_Reason c;
                                   CI.st_Message := cd_Message c; CI.ObservedGeneration := cd_ObservedGeneration c |})
                      <$> default [] (cs_Conditions _ s) |}.

Definition ci_of (c : CodeInterpreter option) : CI.CodeInterpreter :=
  {| CI.ci_Meta := meta_of (ci_ObjectMeta _ c); CI.Generation := Generation _ (ci_ObjectMeta _ c);
     CI.Spec :=
       {| CI.Ports := default [] (cs_Ports _ (ci_Spec _ c)); CI.Template := template_of <$> cs_Template _ (ci_Spec _ c);
          CI.SessionTimeout := cs_SessionTimeout _ (ci_Spec _ c); CI.MaxSessionDuration := cs_MaxSessionDuration _ (ci_Spec _ c);
          CI.WarmPoolSize := WarmPoolSize _ (ci_Spec _ c); CI.AuthMode := AuthMode _ (ci_Spec _ c) |};
     CI.Status := status_of (ci_Status _ c) |}.

Definition sandbox_of (s : HeapBuilder.Sandbox option) : K8sTypes.Sandbox :=
  {| K8sTypes.sb_APIVersion := tm_APIVersion (sb_TypeMeta _ s); K8sTypes.sb_Kind := tm_Kind (sb_TypeMeta _ s);
     sb_Meta := meta_of (sb_ObjectMeta _ s); K8sTypes.sb_PodSpec := pod_of (sb_PodSpec _ s);
     K8sTypes.sb_PodLabels := default ∅ (sb_PodLabels _ s); K8sTypes.sb_PodAnnotations := default ∅ (sb_PodAnnotations _ s);
     K8sTypes.sb_ShutdownTime := sb_ShutdownTime _ s; K8sTypes.sb_Replicas := sb_Replicas _ s; sb_Conditions := [] |}.

Definition claim_of (c : HeapBuilder.SandboxClaim option) : K8sTypes.SandboxClaim :=
  {| K8sTypes.sc_APIVersion := tm_APIVersion (sc_TypeMeta _ c); K8sTypes.sc_Kind := tm_Kind (sc_TypeMeta _ c);
     sc_Meta := meta_of (sc_ObjectMeta _ c); K8sTypes.sc_TemplateRef := sc_TemplateRef _ c; sc_StatusSandboxName := "" |}.

Definition entry_of (e : HeapBuilder.sandboxEntry option) : WorkloadBuilder.sandboxEntry :=
  {| Entry.Kind := se_Kind _ e; Entry.SessionID := se_SessionID _ e; Entry.OwnerID := "";
     Entry.Ports := default [] (se_Ports _ e); Entry.IdleTimeout := se_IdleTimeout _ e |}.

Definition params_of (p : HeapBuilder.buildSandboxParams option) : Builder.buildSandboxParams :=
  {| Builder.namespace := p_namespace _ p; Builder.workloadName := p_workloadName _ p; Builder.sandboxName := p_sandboxName _ p;
     Builder.sessionID := p_sessionID _ p; Builder.ownerID := p_ownerID _ p; Builder.ttl := p_ttl _ p;
     Builder.idleTimeout := p_idleTimeout _ p; Builder.podSpec := pod_of (p_podSpec _ p);
     Builder.podLabels := default ∅ (p_podLabels _ p); Builder.podAnnotations := default ∅ (p_podAnnotations _ p) |}.

(** ** What the built objects represent

    [Xp] holds the cells of the pod specification, [Xo] all others. *)

Section reps.
Implicit Types (h : heap cell) (X : gset loc).

Definition rep_Sandbox h Xp Xo (x : HeapBuilder.Sandbox ref) (v : HeapBuilder.Sandbox option) : Prop :=
  sb_TypeMeta _ x = sb_TypeMeta _ v /\ rep_ObjectMeta h Xo (sb_ObjectMeta _ x) (sb_ObjectMeta _ v) /\
  rep_PodSpec h Xp (sb_PodSpec _ x) (sb_PodSpec _ v) /\
  rep_flat h Xo (sb_PodLabels _ x) (sb_PodLabels _ v) /\ rep_flat h Xo (sb_PodAnnotations _ x) (sb_PodAnnotations _ v) /\
  rep_flat h Xo (sb_ShutdownTime _ x) (sb_ShutdownTime _ v) /\ rep_flat h Xo (sb_Replicas _ x) (sb_Replicas _ v).

Lemma sandbox_mono h Xp Xo Xp' Xo' x v : rep_Sandbox h Xp Xo x v -> Xp ⊆ Xp' -> Xo ⊆ Xo' -> rep_Sandbox h Xp' Xo' x v.
Proof.
  intros (H1 & H2 & H3 & H4 & H5 & H6 & H7) Hp Ho. split; [done|]. split; [by eapply local|]. split; [by eapply local|].
  split; [by eapply local|]. split; [by eapply local|]. split; by eapply local.
Qed.

Definition rep_Claim h X (x : HeapBuilder.SandboxClaim ref) (v : HeapBuilder.SandboxClaim option) : Prop :=
  sc_TypeMeta _ x = sc_TypeMeta _ v /\ rep_ObjectMeta h X (sc_ObjectMeta _ x) (sc_ObjectMeta _ v) /\
  sc_TemplateRef _ x = sc_TemplateRef _ v.

Lemma claim_mono h h' X X' x v : rep_Claim h X x v -> h ⊆ h' -> X ⊆ X' -> rep_Claim h' X' x v.
Proof. intros (H1 & H2 & H3) Hs HX. split; [done|]. split; [|done]. by eapply local, agree_sub. Qed.

Definition rep_Entry h X (x : HeapBuilder.sandboxEntry ref) (v : HeapBuilder.sandboxEntry option) : Prop :=
  se_Kind _ x = se_Kind _ v /\ rep_flat h X (se_Ports _ x) (se_Ports _ v) /\ se_SessionID _ x = se_SessionID _ v /\
  se_IdleTimeout _ x = se_IdleTimeout _ v.

Definition rep_Params h Xp X (x : HeapBuilder.buildSandboxParams ref) (v : HeapBuilder.buildSandboxParams option) : Prop :=
  (p_namespace _ x, p_workloadName _ x, p_sandboxName _ x, p_sessionID _ x, p_ownerID _ x) =
    (p_namespace _ v, p_workloadName _ v, p_sandboxName _ v, p_sessionID _ v, p_ownerID _ v) /\
  p_ttl _ x = p_ttl _ v /\ p_idleTimeout _ x = p_idleTimeout _ v /\ rep_PodSpec h Xp (p_podSpec _ x) (p_podSpec _ v) /\
  rep_flat h X (p_podLabels _ x) (p_podLabels _ v) /\ rep_flat h X (p_podAnnotations _ x) (p_podAnnotations _ v).

End reps.

(** ** Writing to maps of one's own *)

Section maps.
Implicit Types (h : heap cell).

Lemma map_here h l m : GoHeap.cell (<[l := CMap m]> h) (Ptr l) = Some m.
Proof. exact (cell_here (A := gmap string string) h l m). Qed.

Lemma run_setKey {B} h0 h m k v x (cont : unit -> Go B) Q :
  h0 ⊆ h -> GoHeap.cell h m = Some x -> (addr m ∉ dom h0) ->
  (h0 ⊆ <[addr m := CMap (<[k := v]> x)]> h -> runs h0 (cont tt) (<[addr m := CMap (<[k := v]> x)]> h) Q) ->
  runs h0 (setKey m k v ≫= cont) h Q.
Proof.
  intros Hs Hc Hm Hk. unfold setKey. apply run_assoc. eapply run_load; [done|]. by eapply run_put.
Qed.

(** [src] is in the heap as it was, [dst] is new. *)
Lemma run_mapsCopy {B} h0 h X dst src v x (cont : unit -> Go B) Q :
  h0 ⊆ h -> rep_flat h0 X src v -> GoHeap.cell h dst = Some x -> (addr dst ∉ dom h0) ->
  (forall h', h0 ⊆ h' -> GoHeap.cell h' dst = Some (default ∅ v ∪ x) -> runs h0 (cont tt) h' Q) ->
  runs h0 (mapsCopy dst src ≫= cont) h Q.
Proof.
  intros Hs Hr Hc Hd Hk. destruct src as [p|], v as [s|]; try done.
  - destruct Hr as [_ Hp]. cbn. apply run_assoc. eapply run_load; [by eapply cell_sub|]. apply run_assoc.
    eapply run_load; [done|]. eapply run_put; [done..|]. intros Hs'. apply Hk; [done|]. destruct dst. apply map_here.
  - cbn in *. apply run_ret, Hk; [done|]. by rewrite (left_id_L ∅ (∪)).
Qed.

(** New metadata: the owner is written into the new maps only. *)
Lemma run_metadata h o l0 a0 :
  runs h (newMetadata o l0 a0) h (fun m h' =>
    (addr m.1 ∈ since h h' /\ GoHeap.cell h' m.1 = Some (Builder.owned_labels o l0)) /\
    (addr m.2 ∈ since h h' /\ GoHeap.cell h' m.2 = Some (Builder.owned_annotations o a0))).
Proof.
  unfold newMetadata. apply run_new; [done|]. intros l Hl S1. apply run_new; [done|]. intros a Ha S2.
  rewrite dom_insert in Ha. assert (a <> l /\ (a ∉ dom h)) as [Hne Han] by set_solver.
  unfold setOwner, Builder.owned_annotations, Builder.owned_labels. destruct (negb _).
  - apply run_assoc. eapply run_setKey; [done|apply map_here|done|]. intros S3.
    eapply run_setKey; [done|rewrite !cell_there by done; apply map_here|done|]. intros S4. apply runs_ret; [done|]. cbn.
    rewrite map_here, cell_there, map_here by done. unfold since. set_solver.
  - apply run_ret, runs_ret; [done|]. cbn. rewrite cell_there by done. rewrite !map_here. unfold since. set_solver.
Qed.

End maps.

(** The copied maps are new, whatever they are copied from. *)
Lemma run_freshLabels h X params v :
  rep_flat h X (p_podLabels _ params) v ->
  runs h (freshLabels params) h (fun p h' => addr p ∈ since h h' /\ GoHeap.cell h' p =
    Some (<[SandboxNameLabelKey := p_sandboxName _ params]> (<[SessionIdLabelKey := p_sessionID _ params]> (default ∅ v)))).
Proof.
  intros Hr. unfold freshLabels. apply run_new; [done|]. intros l Hl S1.
  eapply run_mapsCopy; [done|exact Hr|apply map_here|done|]. intros h2 S2 C2.
  eapply run_setKey; [done|exact C2|done|]. intros S3. eapply run_setKey; [done|apply map_here|done|]. intros S4.
  apply runs_ret; [done|]. rewrite (right_id_L ∅ (∪)). split; [|apply map_here]. cbn. unfold since. set_solver.
Qed.

Lemma run_freshAnnotations h X params v :
  rep_flat h X (p_podAnnotations _ params) v ->
  runs h (freshAnnotations params) h (fun p h' => addr p ∈ since h h' /\ GoHeap.cell h' p = Some (default ∅ v)).
Proof.
  intros Hr. unfold freshAnnotations. apply run_new; [done|]. intros l Hl S1.
  eapply run_mapsCopy; [done|exact Hr|apply map_here|done|]. intros h2 S2 C2.
  apply runs_ret; [done|]. rewrite (right_id_L ∅ (∪)) in C2. split; [|done]. cbn. unfold since.
  apply elem_of_difference. split; [by apply (cell_dom _ (Ptr l)) in C2|done].
Qed.

(** ** The object *)

Lemma build_object now (params : HeapBuilder.buildSandboxParams ref) (pv : HeapBuilder.buildSandboxParams option) h Xp X :
  rep_Params h Xp X params pv ->
  runs h (HeapBuilder.buildSandboxObject now params) h (fun sb h' =>
    exists sv, rep_Sandbox h' Xp (since h h') sb sv /\ sandbox_of sv = Builder.buildSandboxObject now (params_of pv)).
Proof.
  intros (He & Ht & Hi & Hp & Hl & Ha). injection He as E1 E2 E3 E4 E5. unfold HeapBuilder.buildSandboxObject.
  apply run_alloc; [done|]. intros time h1 G1 S1 N1 C1.
  eapply run_part; [done|eapply run_freshLabels, (kept _ h); [exact Hl|done]|]. intros podLabels h2 G2 S2 [N2 C2].
  eapply run_part; [done|eapply run_freshAnnotations, (kept _ h); [exact Ha|done]|]. intros podAnnotations h3 G3 S3 [N3 C3].
  apply run_alloc; [done|]. intros replicas h4 G4 S4 N4 C4.
  eapply run_part; [done|apply run_metadata|]. intros [labels annotations] h5 G5 S5 [[N5 C5] [N6 C6]]. cbn in *.
  apply runs_ret; [done|].
  assert (h3 ⊆ h5 /\ h2 ⊆ h5 /\ h1 ⊆ h5) as (T3 & T2 & T1) by (split_and!; repeat (etransitivity; [eassumption|]); done).
  exists {| sb_TypeMeta := {| tm_Kind := SandboxKind; tm_APIVersion := "agents.x-k8s.io/v1alpha1" |};
            sb_ObjectMeta :=
              {| Name := p_sandboxName _ params; Namespace := p_namespace _ params; UID := ""; Generation := 0;
                 CreationTimestamp := Tm.zero; Labels := GoHeap.cell h5 labels; Annotations := GoHeap.cell h5 annotations;
                 OwnerReferences := None |};
            sb_PodSpec := p_podSpec _ pv; sb_PodLabels := GoHeap.cell h2 podLabels;
            sb_PodAnnotations := GoHeap.cell h3 podAnnotations; sb_ShutdownTime := GoHeap.cell h1 time;
            sb_Replicas := GoHeap.cell h4 replicas |}.
  rewrite C1, C2, C3, C4, C5, C6. split.
  - split; [done|]. cbn. split; [do 5 (split; [done|]); split; [by eapply since_flat|]; split; [by eapply since_flat|done]|]. split; [by eapply (kept _ h)|].
    split; [by eapply (since_flat h h1 h2)|]. split; [by eapply (since_flat h h2 h3)|].
    split; [by eapply (alloc_flat h h h1)|by eapply (alloc_flat h h3 h4)].
  - unfold sandbox_of, Builder.buildSandboxObject, params_of, meta_of. cbn. by rewrite E1, E2, E3, E4, E5, Ht, Hi.
Qed.

(** A sandbox built after other cells were added. *)
Lemma sandbox_grown h h1 h2 sb sv :
  h ⊆ h1 -> h1 ⊆ h2 -> rep_Sandbox h2 (since h h1) (since h1 h2) sb sv -> rep_Sandbox h2 (since h h2) (since h h2) sb sv.
Proof.
  intros S1 S2 Hr. eapply sandbox_mono; [exact Hr|by apply since_mono|].
  unfold since. apply (subseteq_dom (D := gset loc)) in S1. set_solver.
Qed.

Lemma build_claim p h :
  runs h (HeapBuilder.buildSandboxClaimObject p) h (fun c h' =>
    exists cv, rep_Claim h' (since h h') c cv /\ claim_of cv = Builder.buildSandboxClaimObject p).
Proof.
  unfold HeapBuilder.buildSandboxClaimObject, Builder.buildSandboxClaimObject. set (idle := if _ =? 0 then _ else _).
  set (owners := match Builder.c_ownerReference p with Some r => Some [r] | None => None end).
  eapply (run_part _ _ _ _ (fun o h1 => rep_flat h1 (since h h1) o owners)); [done| |].
  { unfold owners. destruct (Builder.c_ownerReference p) as [r|]; [|by apply runs_ret].
    apply run_alloc; [done|]. intros q h1 G1 _ N1 C1. apply runs_ret; [done|]. by eapply alloc_flat. }
  intros o h1 G1 S1 Ho. eapply run_part; [done|apply run_metadata|].
  intros [labels annotations] h2 G2 S2 [[N2 C2] [N3 C3]]. cbn in *. apply runs_ret; [done|].
  exists {| sc_TypeMeta := {| tm_Kind := SandboxClaimsKind; tm_APIVersion := "extensions.agents.x-k8s.io/v1alpha1" |};
            sc_ObjectMeta :=
              {| Name := Builder.c_name p; Namespace := Builder.c_namespace p; UID := ""; Generation := 0;
                 CreationTimestamp := Tm.zero; Labels := GoHeap.cell h2 labels; Annotations := GoHeap.cell h2 annotations;
                 OwnerReferences := owners |};
            sc_TemplateRef := Builder.c_sandboxTemplateName p |}.
  rewrite C2, C3. split.
  - split; [done|]. split; [|done]. do 5 (split; [done|]). split; [by eapply since_flat|]. split; [by eapply since_flat|].
    exact (grown (rep_flat (A := list OwnerReference)) h h1 h2 o owners Ho G2).
  - unfold claim_of, meta_of, owners. cbn. by destruct (Builder.c_ownerReference p).
Qed.

(** ** The pod *)

Lemma run_normalize h X r v :
  rep_flat h X r v ->
  runs h (HeapBuilder.normalizeRuntimeClassName r) h (fun r' h' =>
    h' = h /\ rep_flat h X r' (Builder.normalizeRuntimeClassName v)).
Proof.
  destruct r as [p|], v as [s|]; try done; intros Hr; [|by apply runs_ret].
  destruct Hr as [Hp Hc]. cbn. eapply run_load; [exact Hc|]. apply runs_ret; [done|]. split; [done|]. by destruct (String.eqb s "").
Qed.

Lemma run_orElse {A} `{!Storable cell A} h X (r : ref A) v d :
  rep_flat h X r v -> runs h (orElse r d) h (fun a h' => h' = h /\ a = default d v).
Proof.
  destruct r as [p|], v as [s|]; try done; intros Hr; [|by apply runs_ret].
  destruct Hr as [_ Hc]. exists s, h. unfold orElse, load. by rewrite Hc.
Qed.

(** A deep copy, with its runtime class normalised. *)
Lemma run_podSpec {LC : LibCopies} {LL : LibCopiesLaws} h X spec v :
  rep_PodSpec h X spec v ->
  runs h (copiedPodSpec spec) h (fun ps h' => exists pv, rep_PodSpec h' (since h h') ps pv /\
    pod_of pv = set_RuntimeClassName (Builder.normalizeRuntimeClassName (K8sTypes.RuntimeClassName (pod_of v))) (pod_of v)).
Proof.
  intros Hr. unfold copiedPodSpec. eapply run_part; [done|eapply (runs_copy rep_PodSpec PodSpec_DeepCopyInto h h X); [done|exact Hr]|]. intros pod h1 G1 S1 [_ Hp].
  apply run_alloc; [done|]. intros p h2 G2 S2 N2 C2.
  assert (rep_PodSpec h2 (since h h1) pod v) as Hp2 by exact (kept rep_PodSpec h1 h2 _ pod v Hp G2).
  destruct Hp2 as (R1 & R2 & R3 & R4). eapply run_part; [done|by eapply run_normalize|]. intros class h3 _ _ [-> Rc].
  eapply run_put; [done|exact C2|apply subseteq_dom in S1; set_solver|]. intros S3.
  exists {| ImagePullSecrets := ImagePullSecrets _ pod; RuntimeClassName := class; Containers := Containers _ pod;
            podOther := podOther _ pod |}.
  eexists. split; [unfold load; destruct p; by rewrite cell_here|]. split; [done|].
  exists {| ImagePullSecrets := ImagePullSecrets _ v;
            RuntimeClassName := Builder.normalizeRuntimeClassName (RuntimeClassName _ v);
            Containers := Containers _ v; podOther := podOther _ v |}.
  split; [|done].
  assert (forall (h' := <[addr p := as_cell {| ImagePullSecrets := ImagePullSecrets ref pod; RuntimeClassName := class;
      Containers := Containers ref pod; podOther := podOther ref pod |}]> h2), since h h1 ⊆ since h h' /\
      forall l, l ∈ since h h1 -> h2 !! l <> None -> h' !! l = h2 !! l) as [HX Hag].
  { intros h'. split; [unfold since, h'; rewrite dom_insert; apply subseteq_dom in G2; set_solver|].
    intros l Hl _. apply lookup_insert_ne. intros <-. unfold since in Hl. set_solver. }
  split; [by eapply local|]. split; [by eapply local|]. split; by eapply local.
Qed.

(** The environment: a new slice, whose elements may refer to what the template
    refers to. *)
Lemma run_withKey h X key inject env v :
  rep_ptr (rep_list rep_EnvVar) h X env v ->
  runs h (withKey key inject env) h (fun p h' => addr p ∈ since h h' /\ exists ev,
    rep_ptr (rep_list rep_EnvVar) h' (X ∪ since h h') (Some p) (Some ev) /\
    env_of <$> ev = (env_of <$> default [] v) ++
      if inject then [{| env_Name := "PICOD_AUTH_PUBLIC_KEY"; env_Value := Builder.GetCachedPublicKey key |}] else []).
Proof.
  intros Hr. unfold withKey.
  assert (exists l, rep_list rep_EnvVar h X l (default [] v) /\
    runs h (match env with Some p => load p | None => mret [] end) h (fun a h' => h' = h /\ a = l)) as (l & Hl & Hrun).
  { destruct env as [p|], v as [ev|]; try done; [|exists []; split; [constructor|by apply runs_ret]].
    destruct Hr as (_ & l & Hc & Hl). exists l. split; [done|]. exists l, h. unfold load. by rewrite Hc. }
  eapply run_part; [done|exact Hrun|]. intros l' h1 _ _ [-> ->]. apply run_alloc; [done|]. intros q h2 G2 S2 N2 C2.
  destruct inject.
  - eapply run_load; [exact C2|]. destruct (runs_new h h2 (l ++ [publicKeyVar key]) S2) as (p & h3 & Hn & S3 & G3 & N3 & _ & C3).
    exists p, h3. split; [done|]. split; [done|]. split; [done|].
    exists (default [] v ++ [{| ev_Name := "PICOD_AUTH_PUBLIC_KEY"; ev_Value := Builder.GetCachedPublicKey key; ev_ValueFrom := None |}]).
    split; [|by rewrite fmap_app]. split; [set_solver|]. exists (l ++ [publicKeyVar key]). split; [done|].
    apply Forall2_app; [|by repeat constructor]. eapply (local (R := rep_list rep_EnvVar)); [exact Hl|set_solver|by apply agree_sub].
  - exists q, h2. split; [done|]. split; [done|]. pose proof (in_since h h2 q l C2 N2) as Hq. split; [done|].
    exists (default [] v). split; [|by rewrite app_nil_r]. split; [set_solver|]. exists l. split; [done|].
    eapply (local (R := rep_list rep_EnvVar)); [exact Hl|set_solver|by apply agree_sub].
Qed.

(** The pod of a code interpreter shares what it has not copied with the
    template. *)
Lemma run_interpreterPod h0 h X name t v class cv env ev :
  h0 ⊆ h -> rep_CodeInterpreterSandboxTemplate h X t v -> rep_flat h X class cv ->
  rep_ptr (rep_list rep_EnvVar) h (X ∪ since h0 h) (Some env) (Some ev) ->
  runs h0 (interpreterPod name t class env) h (fun ps h' => (h ⊆ h') /\ exists pv, rep_PodSpec h' (X ∪ since h0 h') ps pv /\
    pod_of pv =
      {| K8sTypes.ImagePullSecrets := CI.t_ImagePullSecrets (template_of v); K8sTypes.RuntimeClassName := cv;
         K8sTypes.Containers := [{| c_Name := name; c_Image := CI.Image (template_of v);
                                    c_ImagePullPolicy := CI.ImagePullPolicy (template_of v); c_Env := env_of <$> ev;
                                    c_Command := CI.Command (template_of v); c_Args := CI.Args (template_of v);
                                    c_Resources := CI.Resources (template_of v) |}];
         K8sTypes.podOther := ∅ |}).
Proof.
  intros Hs (T1 & T2 & T3 & T4 & T5 & T6 & T7 & T8 & T9 & T10) Hc He. unfold interpreterPod.
  apply run_alloc; [done|]. intros q h1 G1 S1 N1 C1. apply runs_ret; [done|]. split; [done|].
  assert (X ⊆ X ∪ since h0 h1 /\ X ∪ since h0 h ⊆ X ∪ since h0 h1) as [X1 X2].
  { pose proof (since_mono h0 h h1 G1). set_solver. }
  exists {| ImagePullSecrets := ct_ImagePullSecrets _ v; RuntimeClassName := cv;
            Containers := Some [{| ct_Name := name; ct_Image := Image _ v; ct_ImagePullPolicy := ImagePullPolicy _ v;
                                   ct_Env := Some ev; ct_Command := Command _ v; ct_Args := Args _ v;
                                   ct_Resources := Resources _ v |}];
            podOther := None |}.
  split; [|done]. split; [by eapply local, agree_sub|]. split; [by eapply local, agree_sub|]. split; [|done].
  split; [|eexists; split; [exact C1|]; constructor; [|constructor]].
  { apply elem_of_union_r. eapply in_since; [exact C1|]. apply (subseteq_dom (D := gset loc)) in Hs. set_solver. }
  split; [done|]. split; [done|]. split; [done|]. split; [by eapply (local (R := rep_ptr (rep_list rep_EnvVar))), agree_sub|].
  split; [by eapply local, agree_sub|]. split; by eapply local, agree_sub.
Qed.

(** The pod template of the controller. *)
Lemma run_convert key h X t v ci :
  rep_CodeInterpreterSandboxTemplate h X t v ->
  runs h (HeapBuilder.convertToPodTemplate key t (CI.AuthMode (CI.Spec ci))) h (fun ps h' =>
    exists pv, rep_PodSpec h' (X ∪ since h h') ps pv /\ pod_of pv = (CiCtl.convertToPodTemplate key (template_of v) ci).1).
Proof.
  intros Ht. pose proof Ht as (T1 & T2 & T3 & T4 & T5 & T6 & T7 & T8 & T9 & T10). unfold HeapBuilder.convertToPodTemplate.
  eapply run_part; [done|by eapply run_normalize|]. intros class h1 _ _ [-> Rc].
  eapply run_part; [done|by eapply run_withKey|]. intros env h2 G2 S2 (N2 & ev & He & Ee).
  eapply runs_wand; [eapply (run_interpreterPod h h2 X); [done|by eapply (kept _ h)|by eapply (kept _ h)|exact He]|].
  intros ps h3 S3 (_ & pv & Hp & Epv). exists pv. split; [done|]. rewrite Epv, Ee. cbn.
  destruct (negb _); [done|]. by rewrite app_nil_r.
Qed.

(** ** The bodies of the builders *)

Section bodies.
Context {LC : LibCopies} {LL : LibCopiesLaws}.
Variables (now : Time) (namespace name ownerID sessionID sandboxName : string).

Lemma run_agentRuntime h X obj v t :
  rep_ptr rep_AgentRuntime h X (Some obj) (Some v) -> as_Template _ (ar_Spec _ v) = Some t ->
  runs h (buildFromAgentRuntime now namespace name ownerID sessionID sandboxName obj) h (fun r h' =>
    exists sv ev, rep_Sandbox h' (since h h') (since h h') r.1 sv /\ rep_Entry h' X r.2 ev /\
      let idleTimeout := default DefaultSandboxIdleTimeout (as_SessionTimeout _ (ar_Spec _ v)) in
      sandbox_of sv = Builder.buildSandboxObject now
        {| Builder.namespace := namespace; Builder.workloadName := name; Builder.sandboxName := sandboxName;
           Builder.sessionID := sessionID; Builder.ownerID := ownerID;
           Builder.ttl := default 0 (as_MaxSessionDuration _ (ar_Spec _ v)); Builder.idleTimeout := idleTimeout;
           Builder.podSpec := set_RuntimeClassName
             (Builder.normalizeRuntimeClassName (K8sTypes.RuntimeClassName (pod_of (st_Spec _ t)))) (pod_of (st_Spec _ t));
           Builder.podLabels := default ∅ (st_Labels _ t); Builder.podAnnotations := default ∅ (st_Annotations _ t) |} /\
      entry_of ev = {| Entry.Kind := SandboxKind; Entry.SessionID := sessionID; Entry.OwnerID := "";
                       Entry.Ports := default [] (as_Ports _ (ar_Spec _ v)); Entry.IdleTimeout := idleTimeout |}).
Proof.
  intros (_ & ar & Hc & _ & _ & (R1 & R2 & R3 & R4) & _) Ht. unfold buildFromAgentRuntime. eapply run_load; [exact Hc|].
  rewrite Ht in R2. destruct (as_Template _ (ar_Spec _ ar)) as [pt|]; [|done]. destruct R2 as (_ & tx & Hct & T1 & T2 & T3).
  eapply run_load; [exact Hct|].
  eapply run_part; [done|by eapply run_podSpec|]. intros ps h1 G1 S1 (pv & Hps & Epod).
  eapply run_part; [done|eapply run_orElse, (kept _ h); [exact R4|done]|]. intros ttl h2 _ _ [-> ->].
  eapply run_part; [done|eapply run_orElse, (kept _ h); [exact R3|done]|]. intros idle h3 _ _ [-> ->].
  eapply run_part; [done| |].
  { eapply (build_object _ _
      {| p_namespace := namespace; p_workloadName := name; p_sandboxName := sandboxName; p_sessionID := sessionID;
         p_ownerID := ownerID; p_ttl := default 0 (as_MaxSessionDuration _ (ar_Spec _ v));
         p_idleTimeout := default DefaultSandboxIdleTimeout (as_SessionTimeout _ (ar_Spec _ v)); p_podSpec := pv;
         p_podLabels := st_Labels _ t; p_podAnnotations := st_Annotations _ t |} h1 (since h h1) X).
    split; [done|]. split; [done|]. split; [done|]. split; [done|]. split; by eapply (kept _ h). }
  intros sb h2 G2 S2 (sv & Hsv & Esv). apply runs_ret; [done|].
  exists sv, {| se_Kind := SandboxKind; se_Ports := as_Ports _ (ar_Spec _ v); se_SessionID := sessionID;
                se_IdleTimeout := default DefaultSandboxIdleTimeout (as_SessionTimeout _ (ar_Spec _ v)) |}.
  split; [by eapply (sandbox_grown h h1 h2)|]. split; [split; [done|]; split; [by eapply (kept _ h)|done]|].
  split; [|done]. rewrite Esv. unfold params_of. cbn. by rewrite Epod.
Qed.

(** The ports of the entry: the cached slice itself, or a new one. *)
Lemma run_ports h X (r : ref (list TargetPort)) v :
  rep_flat h X r v ->
  runs h (entryPorts r) h (fun r' h' => exists v',
    rep_flat h' (X ∪ since h h') r' v' /\
    default [] v' = match default [] v with [] => Builder.defaultPorts | ps => ps end).
Proof.
  intros Hr. eapply run_part; [done|by eapply run_orElse|]. intros l h1 _ _ [-> ->]. destruct (default [] v) as [|q l] eqn:Ev.
  - apply run_alloc; [done|]. intros p h1 G1 S1 N1 C1. apply runs_ret; [done|]. exists (Some Builder.defaultPorts).
    split; [|done]. split; [|done]. apply elem_of_union_r. by eapply in_since.
  - apply runs_ret; [done|]. exists v. split; [|done]. eapply local; [exact Hr|set_solver|done].
Qed.

(** What is built from a code interpreter with the value [v]. *)
Definition built_warm (v : CodeInterpreter option) : K8sTypes.Sandbox * K8sTypes.SandboxClaim :=
  let spec := CI.Spec (ci_of v) in
  ({| K8sTypes.sb_APIVersion := ""; K8sTypes.sb_Kind := "";
      sb_Meta := {| K8sTypes.Name := sandboxName; K8sTypes.Namespace := namespace; K8sTypes.UID := "";
                    K8sTypes.Labels := <[SessionIdLabelKey := sessionID]> ∅; K8sTypes.Annotations := ∅;
                    K8sTypes.OwnerReferences := []; K8sTypes.CreationTimestamp := Tm.zero |};
      K8sTypes.sb_PodSpec := podSpec0; K8sTypes.sb_PodLabels := ∅; K8sTypes.sb_PodAnnotations := ∅;
      K8sTypes.sb_ShutdownTime := Tm.Add now <$> CI.MaxSessionDuration spec; K8sTypes.sb_Replicas := None;
      sb_Conditions := [] |},
   Builder.buildSandboxClaimObject
     {| Builder.c_namespace := namespace; Builder.c_name := sandboxName; Builder.c_sandboxTemplateName := name;
        Builder.c_sessionID := sessionID; Builder.c_ownerID := ownerID;
        Builder.c_idleTimeout := default DefaultSandboxIdleTimeout (CI.SessionTimeout spec);
        Builder.c_ownerReference := Some
          {| or_APIVersion := "runtime.agentcube.volcano.sh/v1alpha1"; or_Kind := "CodeInterpreter";
             or_Name := K8sTypes.Name (CI.ci_Meta (ci_of v)); or_UID := K8sTypes.UID (CI.ci_Meta (ci_of v));
             or_Controller := None |} |}).

Definition built_cold (key : string) (v : CodeInterpreter option) (t : CodeInterpreterSandboxTemplate option) : K8sTypes.Sandbox :=
  let spec := CI.Spec (ci_of v) in
  Builder.buildSandboxObject now
    {| Builder.namespace := namespace; Builder.workloadName := name; Builder.sandboxName := sandboxName;
       Builder.sessionID := sessionID; Builder.ownerID := ownerID; Builder.ttl := default 0 (CI.MaxSessionDuration spec);
       Builder.idleTimeout := default DefaultSandboxIdleTimeout (CI.SessionTimeout spec);
       Builder.podSpec := Builder.codeInterpreterPodSpec key (template_of t) (CI.AuthMode spec);
       Builder.podLabels := CI.t_Labels (template_of t); Builder.podAnnotations := CI.t_Annotations (template_of t) |}.

Lemma run_warm h X ci v :
  rep_CodeInterpreter h X ci v ->
  runs h (warmSandbox now namespace name ownerID sessionID sandboxName ci
            (default DefaultSandboxIdleTimeout (cs_SessionTimeout _ (ci_Spec _ v)))) h (fun r h' =>
    exists sv cv, rep_Sandbox h' (since h h') (since h h') r.1 sv /\ rep_Claim h' (since h h') r.2 cv /\
      sandbox_of sv = (built_warm v).1 /\ claim_of cv = (built_warm v).2).
Proof.
  intros (_ & (M1 & _ & M3 & _) & (_ & _ & _ & _ & R & _) & _). unfold warmSandbox.
  eapply run_part; [done|apply build_claim|]. intros c h1 G1 S1 (cv & Hcv & Ecv).
  apply run_alloc; [done|]. intros labels h2 G2 S2 N2 C2.
  eapply (run_part _ _ _ _ (fun r h3 => rep_flat h3 (since h h3) r (Tm.Add now <$> cs_MaxSessionDuration _ (ci_Spec _ v)))); [done| |].
  { destruct (cs_MaxSessionDuration _ (ci_Spec _ ci)) as [p|], (cs_MaxSessionDuration _ (ci_Spec _ v)) as [d|]; try done;
      [|by apply runs_ret]. destruct R as [_ Hd]. eapply run_load; [by eapply (cell_sub h)|].
    apply run_alloc; [done|]. intros q h3 G3 S3 N3 C3. apply runs_ret; [done|]. by eapply (alloc_flat h h2 h3 h3). }
  intros time h3 G3 S3 Htime. apply runs_ret; [done|].
  exists {| sb_TypeMeta := {| tm_Kind := ""; tm_APIVersion := "" |};
            sb_ObjectMeta := {| Name := sandboxName; Namespace := namespace; UID := ""; Generation := 0;
                                CreationTimestamp := Tm.zero; Labels := Some (<[SessionIdLabelKey := sessionID]> ∅);
                                Annotations := None; OwnerReferences := None |};
            sb_PodSpec := {| ImagePullSecrets := None; RuntimeClassName := None; Containers := None; podOther := None |};
            sb_PodLabels := None; sb_PodAnnotations := None;
            sb_ShutdownTime := Tm.Add now <$> cs_MaxSessionDuration _ (ci_Spec _ v); sb_Replicas := None |}, cv.
  split; [|split; [|split; [done|]]].
  - split; [done|]. split; [do 5 (split; [done|]); split; [by eapply (alloc_flat h h1 h2)|by split]|].
    split; [by repeat split|]. split; [done|]. split; [done|]. by split.
  - eapply claim_mono; [exact Hcv|by etransitivity|]. apply since_mono. by etransitivity.
  - rewrite Ecv. unfold built_warm. cbn. by rewrite M1, M3.
Qed.

Lemma run_cold key h X ci v t :
  rep_CodeInterpreter h X ci v -> cs_Template _ (ci_Spec _ v) = Some t ->
  runs h (coldSandbox key now namespace name ownerID sessionID sandboxName ci
            (default DefaultSandboxIdleTimeout (cs_SessionTimeout _ (ci_Spec _ v)))) h (fun sb h' =>
    exists sv, rep_Sandbox h' (X ∪ since h h') (since h h') sb sv /\ sandbox_of sv = built_cold key v t).
Proof.
  intros (_ & _ & (A & _ & R1 & _ & R2 & _) & _) Et. unfold coldSandbox, buildCodeInterpreterEnvVars.
  rewrite Et in R1. destruct (cs_Template _ (ci_Spec _ ci)) as [p|]; [|done]. destruct R1 as (_ & tx & Hc & Ht).
  eapply run_load; [exact Hc|]. pose proof Ht as (_ & _ & T3 & T4 & T5 & _ & T7 & _).
  eapply run_part; [done|by eapply run_normalize|]. intros class h1 _ _ [-> Rc].
  eapply run_part; [done|by eapply run_withKey|]. intros env h2 G2 S2 (_ & ev & He & Ee).
  eapply runs_bind, runs_wand; [eapply (run_interpreterPod h h2 X); [done|by eapply (kept _ h)|by eapply (kept _ h)|exact He]|].
  intros ps h3 S3 (G3 & pv & Hp & Epv).
  eapply run_part; [done|eapply run_orElse, (kept _ h); [exact R2|done]|]. intros ttl h4 _ _ [-> ->].
  eapply run_whole; [done| |].
  { eapply (build_object _ _
      {| p_namespace := namespace; p_workloadName := name; p_sandboxName := sandboxName; p_sessionID := sessionID;
         p_ownerID := ownerID; p_ttl := default 0 (cs_MaxSessionDuration _ (ci_Spec _ v));
         p_idleTimeout := default DefaultSandboxIdleTimeout (cs_SessionTimeout _ (ci_Spec _ v)); p_podSpec := pv;
         p_podLabels := ct_Labels _ t; p_podAnnotations := ct_Annotations _ t |} h3 (X ∪ since h h3) X).
    split; [done|]. split; [done|]. split; [done|]. split; [done|]. split; by eapply (kept _ h). }
  intros sb h5 G5 (sv & Hsv & Esv). exists sv. split.
  - eapply sandbox_mono; [exact Hsv|pose proof (since_mono h h3 h5 G5); set_solver|].
    unfold since. apply (subseteq_dom (D := gset loc)) in S3. set_solver.
  - assert (pod_of pv = Builder.codeInterpreterPodSpec key (template_of t) (AuthMode _ (ci_Spec _ v))) as Epod.
    { rewrite Epv, Ee, A. unfold Builder.codeInterpreterPodSpec, Builder.buildCodeInterpreterEnvVars.
      destruct (String.eqb (AuthMode _ (ci_Spec _ v)) AuthModePicoD); [done|]. by rewrite app_nil_r. }
    rewrite Esv. unfold built_cold, params_of. cbn [p_podSpec]. by rewrite Epod.
Qed.

(** The whole body. *)
Definition warm (v : CodeInterpreter option) : bool := 0 <? default 0 (WarmPoolSize _ (ci_Spec _ v)).

Definition built_entry (kind : string) (v : CodeInterpreter option) : WorkloadBuilder.sandboxEntry :=
  {| Entry.Kind := kind; Entry.SessionID := sessionID; Entry.OwnerID := "";
     Entry.Ports := match default [] (cs_Ports _ (ci_Spec _ v)) with [] => Builder.defaultPorts | ps => ps end;
     Entry.IdleTimeout := default DefaultSandboxIdleTimeout (cs_SessionTimeout _ (ci_Spec _ v)) |}.

(** What is returned in memory for the pure [b]. *)
Definition rep_built h X h' (a : HeapBuilder.Sandbox ref * option (HeapBuilder.SandboxClaim ref) * HeapBuilder.sandboxEntry ref)
    (b : K8sTypes.Sandbox * option K8sTypes.SandboxClaim * WorkloadBuilder.sandboxEntry) : Prop :=
  (exists sv, rep_Sandbox h' (X ∪ since h h') (since h h') a.1.1 sv /\ sandbox_of sv = b.1.1) /\
  match a.1.2, b.1.2 with
  | Some c, Some c' => exists cv, rep_Claim h' (since h h') c cv /\ claim_of cv = c'
  | None, None => True
  | _, _ => False
  end /\
  (exists ev, rep_Entry h' (X ∪ since h h') a.2 ev /\ entry_of ev = b.2).

(** Its start: the timeouts and the ports of the entry. *)
Lemma body_starts key h X ci v :
  rep_CodeInterpreter h X ci v ->
  exists en ev h1, (h ⊆ h1) /\ rep_flat h1 (X ∪ since h h1) en ev /\
    default [] ev = match default [] (cs_Ports _ (ci_Spec _ v)) with [] => Builder.defaultPorts | ps => ps end /\
    let idle := default DefaultSandboxIdleTimeout (cs_SessionTimeout _ (ci_Spec _ v)) in
    let entry kind := {| se_Kind := kind; se_Ports := en; se_SessionID := sessionID; se_IdleTimeout := idle |} in
    buildFromCodeInterpreter key now namespace name ownerID sessionID sandboxName ci h =
      (if warm v then
         built ← warmSandbox now namespace name ownerID sessionID sandboxName ci idle;
         mret (built.1, Some built.2, entry SandboxClaimsKind)
       else
         sandbox ← coldSandbox key now namespace name ownerID sessionID sandboxName ci idle;
         mret (sandbox, None, entry SandboxKind)) h1.
Proof.
  intros (_ & _ & (_ & R1 & _ & R3 & _ & R5) & _).
  destruct (run_orElse h X _ _ DefaultSandboxIdleTimeout R3) as (idle & h' & E1 & _ & -> & ->).
  destruct (run_ports h X _ _ R1) as (en & h1 & E2 & S1 & ev & Hev & Eev).
  destruct (run_orElse h1 X _ _ 0 (kept _ _ _ _ _ _ R5 S1)) as (n & h' & E3 & _ & -> & ->).
  exists en, ev, h1. split; [done|]. split; [done|]. split; [done|]. unfold buildFromCodeInterpreter, mbind, M_bind.
  rewrite E1, E2, E3. done.
Qed.

Lemma entry_built h h1 h2 X en ev kind v :
  rep_flat h1 (X ∪ since h h1) en ev -> h1 ⊆ h2 ->
  default [] ev = match default [] (cs_Ports _ (ci_Spec _ v)) with [] => Builder.defaultPorts | ps => ps end ->
  exists ev', rep_Entry h2 (X ∪ since h h2)
      {| se_Kind := kind; se_Ports := en; se_SessionID := sessionID;
         se_IdleTimeout := default DefaultSandboxIdleTimeout (cs_SessionTimeout _ (ci_Spec _ v)) |} ev' /\
    entry_of ev' = built_entry kind v.
Proof.
  intros Hr Hs Ee. exists {| se_Kind := kind; se_Ports := ev; se_SessionID := sessionID;
    se_IdleTimeout := default DefaultSandboxIdleTimeout (cs_SessionTimeout _ (ci_Spec _ v)) |}. split.
  - split; [done|]. split; [|done]. eapply local; [exact Hr|pose proof (since_mono h h1 h2 Hs); set_solver|by apply agree_sub].
  - unfold entry_of, built_entry. cbn. by rewrite Ee.
Qed.

Lemma run_codeInterpreter key h X ci v :
  rep_CodeInterpreter h X ci v ->
  match warm v, cs_Template _ (ci_Spec _ v) with
  | true, _ =>
      runs h (buildFromCodeInterpreter key now namespace name ownerID sessionID sandboxName ci) h (fun a h' =>
        rep_built h X h' a ((built_warm v).1, Some (built_warm v).2, built_entry SandboxClaimsKind v))
  | false, None => buildFromCodeInterpreter key now namespace name ownerID sessionID sandboxName ci h = None
  | false, Some t =>
      runs h (buildFromCodeInterpreter key now namespace name ownerID sessionID sandboxName ci) h (fun a h' =>
        rep_built h X h' a (built_cold key v t, None, built_entry SandboxKind v))
  end.
Proof.
  intros Hr. destruct (body_starts key h X ci v Hr) as (en & ev & h1 & S1 & Hev & Eev & E). unfold runs. rewrite E. clear E. cbn zeta.
  assert (rep_CodeInterpreter h1 X ci v) as Hr1 by exact (kept _ _ _ _ _ _ Hr S1).
  destruct (warm v); [|destruct (cs_Template _ (ci_Spec _ v)) as [t|] eqn:Et].
  - destruct (run_warm h1 X ci v Hr1) as ([sb c] & h2 & E & S2 & sv & cv & Hsv & Hcv & Esv & Ecv).
    eexists _, h2. unfold mbind, M_bind. rewrite E. split; [done|]. split; [by etransitivity|]. split; [|split].
    + exists sv. split; [|done]. eapply sandbox_mono; [exact Hsv|apply union_subseteq_r'|]; by apply later_since.
    + exists cv. split; [|done]. eapply claim_mono; [exact Hcv|done|by apply later_since].
    + by eapply entry_built.
  - destruct (run_cold key h1 X ci v t Hr1 Et) as (sb & h2 & E & S2 & sv & Hsv & Esv).
    eexists _, h2. unfold mbind, M_bind. rewrite E. split; [done|]. split; [by etransitivity|]. split; [|split].
    + exists sv. split; [|done]. eapply sandbox_mono; [exact Hsv| |by apply later_since].
      apply union_mono_l. by apply later_since.
    + done.
    + by eapply entry_built.
  - unfold coldSandbox, mbind, M_bind. destruct Hr1 as (_ & _ & (_ & _ & Ht & _) & _). rewrite Et in Ht.
    by destruct (cs_Template _ (ci_Spec _ ci)).
Qed.

End bodies.

(** ** The builders *)

(** The cache hands out a pointer to the object the lister of [Cluster] returns. *)
Definition cached {A V B : Type} `{!Storable cell A} (R : heap cell -> gset loc -> A -> V -> Prop) (value : V -> B) h X
    (got : res (ptr A)) (want : res B) : Prop :=
  match got, want with
  | Ok p, Ok b => exists v, rep_ptr R h X (Some p) (Some v) /\ b = value v
  | Err e, Err e' => e = e'
  | _, _ => False
  end.

(** The outcome in memory is the pure one: the same panic or error with the
    heap as it was, or objects [Q] relates in a heap with new cells only. *)
Definition same_outcome {A B : Type} (h : heap cell) (Q : heap cell -> A -> B -> Prop)
    (got : option (res A * heap cell)) (want : option (res B)) : Prop :=
  match got, want with
  | None, None => True
  | Some (Err e, h'), Some (Err e') => e = e' /\ h' = h
  | Some (Ok a, h'), Some (Ok b) => (h ⊆ h') /\ Q h' a b
  | _, _ => False
  end.

Section builders.
Context {LC : LibCopies} {LL : LibCopiesLaws} {D W : Type} `{!Env W} `{!Cluster D W} {AE : ApiErrors}.
Implicit Types (w : W) (h : heap cell) (X : gset loc).

Lemma agentRuntime_refines lister namespace name ownerID w h X :
  cached rep_AgentRuntime ar_of h X (lister namespace name) (lister_agentRuntime (D := D) namespace name w) ->
  let '(got, w1) := HeapBuilder.buildSandboxByAgentRuntime lister namespace name ownerID w h in
  let '(want, w2) := Builder.buildSandboxByAgentRuntime (D := D) namespace name ownerID w in
  w1 = w2 /\ same_outcome h (fun h' a b =>
    (exists sv, rep_Sandbox h' (since h h') (since h h') a.1 sv /\ sandbox_of sv = b.1) /\
    (exists ev, rep_Entry h' X a.2 ev /\ entry_of ev = b.2)) got want.
Proof.
  unfold HeapBuilder.buildSandboxByAgentRuntime, Builder.buildSandboxByAgentRuntime, cached.
  destruct (lister namespace name) as [obj|e], (lister_agentRuntime _ _ _) as [ar|e']; try done.
  2:{ intros ->. by destruct (IsNotFound e'). }
  intros (v & Hr & ->). destruct (NewUUID w) as [sessionID w1]. destruct (Builder.RandString 8 w1) as [suffix w2].
  destruct (as_Template _ (ar_Spec _ v)) as [t|] eqn:Et; unfold ar_of; cbn [AR.Spec AR.Template]; rewrite Et; cbn [fmap option_fmap option_map].
  - split; [done|].
    destruct (run_agentRuntime (clock w2) namespace name ownerID sessionID (name +:+ "-" +:+ suffix) h X obj v t Hr Et)
      as (r & h' & -> & Hs & sv & ev & Hsv & Hev & Esv & Eev).
    split; [done|]. split; [by exists sv|by exists ev].
  - split; [done|]. destruct Hr as (_ & ar & Hc & _ & _ & (_ & Ht & _) & _). rewrite Et in Ht.
    unfold buildFromAgentRuntime, mbind, M_bind, load. rewrite Hc. by destruct (as_Template _ (ar_Spec _ ar)).
Qed.

Lemma codeInterpreter_refines lister key namespace name ownerID w h X :
  cached rep_CodeInterpreter ci_of h X (lister namespace name) (lister_codeInterpreter (D := D) namespace name w) ->
  let '(got, w1) := HeapBuilder.buildSandboxByCodeInterpreter lister key namespace name ownerID w h in
  let '(want, w2) := Builder.buildSandboxByCodeInterpreter (D := D) key namespace name ownerID w in
  w1 = w2 /\ same_outcome h (rep_built h X) got want.
Proof.
  unfold HeapBuilder.buildSandboxByCodeInterpreter, Builder.buildSandboxByCodeInterpreter, cached.
  destruct (lister namespace name) as [obj|e], (lister_codeInterpreter _ _ _) as [ci|e']; try done.
  2:{ intros ->. by destruct (IsNotFound e'). }
  intros (v & (_ & ci' & Hc & Hr) & ->). rewrite Hc. pose proof Hr as (_ & _ & (A & _) & _). rewrite A.
  cbn [ci_of CI.Spec CI.AuthMode]. destruct (_ && _); [done|].
  destruct (NewUUID w) as [sessionID w1]. destruct (Builder.RandString 8 w1) as [suffix w2].
  pose proof (run_codeInterpreter (clock w2) namespace name ownerID sessionID (name +:+ "-" +:+ suffix) key h X ci' v Hr) as H.
  assert ((match CI.WarmPoolSize (CI.Spec (ci_of v)) with Some n => 0 <? n | None => false end) = warm v) as Ew
    by (unfold warm, ci_of; cbn; by destruct (WarmPoolSize _ (ci_Spec _ v))).
  cbn [ci_of CI.Spec] in Ew. rewrite Ew. destruct (warm v).
  - destruct H as (a & h' & -> & Hs & Hb). done.
  - cbn [CI.Template]. destruct (cs_Template _ (ci_Spec _ v)) as [t|]; cbn [fmap option_fmap option_map].
    + destruct H as (a & h' & -> & Hs & Hb). done.
    + by rewrite H.
Qed.

End builders.

(** [C15] The builders neither write to the informer cache nor alias what they write:
    when the cache's pointer leads to the object the lister returns, the builder in
    memory returns what the pure one returns, error or nil dereference included,
    after the same reads of the clock and the random source, and every cell that
    was there keeps its contents. The maps of metadata it sets keys in, the
    claim and the shutdown time are in cells of their own; so is the whole pod of
    an agent runtime, a deep copy, while the pod of a code interpreter and the
    ports of the session may share the cached slices, which are only read. The
    same holds of the pod template of the controller. *)
Theorem builders_keep_cache {LC : LibCopies} {LL : LibCopiesLaws} {D W : Type} `{!Env W} `{!Cluster D W} {AE : ApiErrors}
    (h : heap cell) (X : gset loc) :
  (forall lister namespace name ownerID w,
     cached rep_AgentRuntime ar_of h X (lister namespace name) (lister_agentRuntime (D := D) namespace name w) ->
     let '(got, w1) := HeapBuilder.buildSandboxByAgentRuntime lister namespace name ownerID w h in
     let '(want, w2) := Builder.buildSandboxByAgentRuntime (D := D) namespace name ownerID w in
     w1 = w2 /\ same_outcome h (fun h' a b =>
       (exists sv, rep_Sandbox h' (since h h') (since h h') a.1 sv /\ sandbox_of sv = b.1) /\
       (exists ev, rep_Entry h' X a.2 ev /\ entry_of ev = b.2)) got want) /\
  (forall lister key namespace name ownerID w,
     cached rep_CodeInterpreter ci_of h X (lister namespace name) (lister_codeInterpreter (D := D) namespace name w) ->
     let '(got, w1) := HeapBuilder.buildSandboxByCodeInterpreter lister key namespace name ownerID w h in
     let '(want, w2) := Builder.buildSandboxByCodeInterpreter (D := D) key namespace name ownerID w in
     w1 = w2 /\ same_outcome h (rep_built h X) got want) /\
  (forall key t v ci, rep_CodeInterpreterSandboxTemplate h X t v ->
     exists ps h', HeapBuilder.convertToPodTemplate key t (CI.AuthMode (CI.Spec ci)) h = Some (ps, h') /\ (h ⊆ h') /\
       exists pv, rep_PodSpec h' (X ∪ since h h') ps pv /\ pod_of pv = (CiCtl.convertToPodTemplate key (template_of v) ci).1).
Proof.
  split; [intros; by apply agentRuntime_refines|]. split; [intros; by apply codeInterpreter_refines|].
  intros key t v ci Ht. by apply run_convert.
Qed.

(** A cache that holds the AgentRuntime of [HeapModel]. *)
Import ApiModel WM.
Definition cache1 (namespace name : string) : res (ptr (AgentRuntime ref)) :=
  if bool_decide ((namespace, name) = ("ns", "web")) then Ok (Ptr 5) else Err WM.not_found.

Definition cluster1 : WM.world :=
  {| WM.w_kv := ∅; WM.w_clock := 0; WM.w_next := 0; WM.w_sandboxes := ∅; WM.w_claims := ∅; WM.w_pods := ∅;
     WM.w_ars := <[("ns", "web") := ar_of HeapModel.value1]> ∅; WM.w_cis := ∅; WM.w_users := ∅; WM.w_down := [];
     WM.w_chans := ∅ |}.

Lemma cached1 :
  cached rep_AgentRuntime ar_of HeapModel.heap1 (dom HeapModel.heap1) (cache1 "ns" "web")
    (lister_agentRuntime (D := string) "ns" "web" cluster1).
Proof. exists HeapModel.value1. split; [exact HeapModel.rep1|reflexivity]. Qed.

Lemma builders_keep_cache_witness :
  let '(got, w1) := HeapBuilder.buildSandboxByAgentRuntime (LC := HeapModel.lib) cache1 "ns" "web" "" cluster1 HeapModel.heap1 in
  let '(want, w2) := Builder.buildSandboxByAgentRuntime (D := string) "ns" "web" "" cluster1 in
  w1 = w2 /\ same_outcome HeapModel.heap1 (fun h' a b =>
    (exists sv, rep_Sandbox h' (since HeapModel.heap1 h') (since HeapModel.heap1 h') a.1 sv /\ sandbox_of sv = b.1) /\
    (exists ev, rep_Entry h' (dom HeapModel.heap1) a.2 ev /\ entry_of ev = b.2)) got want /\
  (exists r h', got = Some (Ok r, h')).
Proof.
  destruct (builders_keep_cache (LC := HeapModel.lib) (LL := HeapModel.lib_laws) (D := string) (W := WM.world)
    HeapModel.heap1 (dom HeapModel.heap1)) as (H & _ & _).
  pose proof (H cache1 "ns" "web" "" cluster1 cached1) as H1.
  destruct (HeapBuilder.buildSandboxByAgentRuntime (LC := HeapModel.lib) cache1 "ns" "web" "" cluster1 HeapModel.heap1) as [got w1] eqn:E.
  destruct (Builder.buildSandboxByAgentRuntime "ns" "web" "" cluster1) as [want w2].
  destruct H1 as [H1 H2]. split; [exact H1|]. split; [exact H2|].
  assert (match fst (HeapBuilder.buildSandboxByAgentRuntime (LC := HeapModel.lib) cache1 "ns" "web" "" cluster1 HeapModel.heap1) with
          | Some (Ok _, _) => true | _ => false end = true) as Hok by (vm_compute; reflexivity).
  rewrite E in Hok. cbn in Hok. destruct got as [[[r|e] h']|]; [|discriminate|discriminate]. exists r, h'. reflexivity.
Defined.
