(* ===== verification/InformerFactory.v ===== *)
(** * The informer factory of the custom resources

    [client-go/informers/externalversions]: the shared factory
    ([factory.go], [generic.go]), the informers of the two resources
    ([runtime/v1alpha1]) and the listers on their caches, with [NewInformers] of
    [pkg/workloadmanager/informers.go]. Informers are objects with an identity:
    an address of [mem]. The clientset, the options of a list and the functions
    that transform cached objects are parameters. *)

From Stdlib Require Import Permutation.
From stdpp Require Import base list gmap strings.
From S2P Require Import Prelude GoTime GoError GoContext.

Module Factory.
Section factory.
(** [versioned.Interface], [v1.ListOptions] and [cache.TransformFunc] *)
Context {C O T : Type}.

(** [internalinterfaces.TweakListOptionsFunc] *)
Definition TweakListOptionsFunc : Type := option (O -> O).

(** ** An informer *)

(** The request behind a list or watch function. *)
Record request := { rq_verb : string; rq_resource : string; rq_namespace : string; rq_ctx : Ctx.Context; rq_options : O }.

(** [cache.ListWatch]: its four functions. *)
Record ListWatch := {
  ListFunc : O -> request;
  WatchFunc : O -> request;
  ListWithContextFunc : Ctx.Context -> O -> request;
  WatchFuncWithContext : Ctx.Context -> O -> request;
}.

(** [cache.SharedIndexInformer]: what it is made of. *)
Record SharedIndexInformer := {
  i_type : string; i_listwatch : ListWatch; i_client : C; i_resync : Duration; i_indexers : list string;
  i_transform : option T;
}.

Definition SetTransform (t : option T) (i : SharedIndexInformer) : SharedIndexInformer :=
  {| i_type := i_type i; i_listwatch := i_listwatch i; i_client := i_client i; i_resync := i_resync i;
     i_indexers := i_indexers i; i_transform := t |}.

Definition tweaked (tweakListOptions : TweakListOptionsFunc) (options : O) : O :=
  match tweakListOptions with Some f => f options | None => options end.

(** The functions [NewFiltered...Informer] makes for a resource. *)
Definition listWatch (resource namespace : string) (tweakListOptions : TweakListOptionsFunc) : ListWatch :=
  let rq verb ctx options :=
    {| rq_verb := verb; rq_resource := resource; rq_namespace := namespace; rq_ctx := ctx;
       rq_options := tweaked tweakListOptions options |} in
  {| ListFunc := rq "list" Ctx.Background; WatchFunc := rq "watch" Ctx.Background;
     ListWithContextFunc := rq "list"; WatchFuncWithContext := rq "watch" |}.

(** [reflect.TypeOf] of an empty object. *)
Definition agentRuntimeType : string := "*v1alpha1.AgentRuntime".
Definition codeInterpreterType : string := "*v1alpha1.CodeInterpreter".

Definition NewFilteredAgentRuntimeInformer (client : C) (namespace : string) (resyncPeriod : Duration)
    (indexers : list string) (tweakListOptions : TweakListOptionsFunc) : SharedIndexInformer :=
  {| i_type := agentRuntimeType; i_listwatch := listWatch "agentruntimes" namespace tweakListOptions; i_client := client;
     i_resync := resyncPeriod; i_indexers := indexers; i_transform := None |}.

Definition NewAgentRuntimeInformer (client : C) (namespace : string) (resyncPeriod : Duration) (indexers : list string) :=
  NewFilteredAgentRuntimeInformer client namespace resyncPeriod indexers None.

Definition NewFilteredCodeInterpreterInformer (client : C) (namespace : string) (resyncPeriod : Duration)
    (indexers : list string) (tweakListOptions : TweakListOptionsFunc) : SharedIndexInformer :=
  {| i_type := codeInterpreterType; i_listwatch := listWatch "codeinterpreters" namespace tweakListOptions; i_client := client;
     i_resync := resyncPeriod; i_indexers := indexers; i_transform := None |}.

Definition NewCodeInterpreterInformer (client : C) (namespace : string) (resyncPeriod : Duration) (indexers : list string) :=
  NewFilteredCodeInterpreterInformer client namespace resyncPeriod indexers None.

(** ** The factory *)

Record sharedInformerFactory := {
  client : C; namespace : string; tweakListOptions : TweakListOptionsFunc; defaultResync : Duration;
  customResync : gmap string Duration; transform : option T;
  informers : gmap string nat; startedInformers : gmap string bool; wg : nat; shuttingDown : bool;
}.

Definition set_informers m f : sharedInformerFactory :=
  {| client := client f; namespace := namespace f; tweakListOptions := tweakListOptions f; defaultResync := defaultResync f;
     customResync := customResync f; transform := transform f; informers := m; startedInformers := startedInformers f;
     wg := wg f; shuttingDown := shuttingDown f |}.

(** [f.startedInformers[t] = true] and [f.wg.Add(1)] *)
Definition mark_started t f : sharedInformerFactory :=
  {| client := client f; namespace := namespace f; tweakListOptions := tweakListOptions f; defaultResync := defaultResync f;
     customResync := customResync f; transform := transform f; informers := informers f;
     startedInformers := <[t := true]> (startedInformers f); wg := S (wg f); shuttingDown := shuttingDown f |}.

Definition set_wg n f : sharedInformerFactory :=
  {| client := client f; namespace := namespace f; tweakListOptions := tweakListOptions f; defaultResync := defaultResync f;
     customResync := customResync f; transform := transform f; informers := informers f;
     startedInformers := startedInformers f; wg := n; shuttingDown := shuttingDown f |}.

Definition set_shuttingDown f : sharedInformerFactory :=
  {| client := client f; namespace := namespace f; tweakListOptions := tweakListOptions f; defaultResync := defaultResync f;
     customResync := customResync f; transform := transform f; informers := informers f;
     startedInformers := startedInformers f; wg := wg f; shuttingDown := true |}.

(** *** Options *)

Definition SharedInformerOption : Type := sharedInformerFactory -> sharedInformerFactory.

(** [range] visits [resyncConfig] in some order; the keys are types. *)
Definition WithCustomResyncConfig (resyncConfig : list (string * Duration)) : SharedInformerOption := fun f =>
  {| client := client f; namespace := namespace f; tweakListOptions := tweakListOptions f; defaultResync := defaultResync f;
     customResync := foldl (fun m '(k, v) => <[k := v]> m) (customResync f) resyncConfig; transform := transform f;
     informers := informers f; startedInformers := startedInformers f; wg := wg f; shuttingDown := shuttingDown f |}.

Definition WithTweakListOptions (tweak : TweakListOptionsFunc) : SharedInformerOption := fun f =>
  {| client := client f; namespace := namespace f; tweakListOptions := tweak; defaultResync := defaultResync f;
     customResync := customResync f; transform := transform f; informers := informers f;
     startedInformers := startedInformers f; wg := wg f; shuttingDown := shuttingDown f |}.

Definition WithNamespace (ns : string) : SharedInformerOption := fun f =>
  {| client := client f; namespace := ns; tweakListOptions := tweakListOptions f; defaultResync := defaultResync f;
     customResync := customResync f; transform := transform f; informers := informers f;
     startedInformers := startedInformers f; wg := wg f; shuttingDown := shuttingDown f |}.

Definition WithTransform (t : option T) : SharedInformerOption := fun f =>
  {| client := client f; namespace := namespace f; tweakListOptions := tweakListOptions f; defaultResync := defaultResync f;
     customResync := customResync f; transform := t; informers := informers f;
     startedInformers := startedInformers f; wg := wg f; shuttingDown := shuttingDown f |}.

Definition NamespaceAll : string := "".

Definition NewSharedInformerFactoryWithOptions (c : C) (resync : Duration) (options : list SharedInformerOption)
    : sharedInformerFactory :=
  foldl (fun f opt => opt f)
    {| client := c; namespace := NamespaceAll; tweakListOptions := None; defaultResync := resync; customResync := ∅;
       transform := None; informers := ∅; startedInformers := ∅; wg := 0; shuttingDown := false |} options.

Definition NewSharedInformerFactory (c : C) (resync : Duration) : sharedInformerFactory :=
  NewSharedInformerFactoryWithOptions c resync [].

Definition NewFilteredSharedInformerFactory (c : C) (resync : Duration) (ns : string) (tweak : TweakListOptionsFunc) :=
  NewSharedInformerFactoryWithOptions c resync [WithNamespace ns; WithTweakListOptions tweak].

(** *** Operations, each under the factory's lock *)

Implicit Types (f : sharedInformerFactory) (mem : list SharedIndexInformer).

Definition InformerFor (informerType : string) (newFunc : C -> Duration -> SharedIndexInformer) f mem
    : nat * sharedInformerFactory * list SharedIndexInformer :=
  match informers f !! informerType with
  | Some informer => (informer, f, mem)
  | None =>
      let resyncPeriod := match customResync f !! informerType with Some d => d | None => defaultResync f end in
      let informer := List.length mem in
      let mem := mem ++ [newFunc (client f) resyncPeriod] in
      let mem := alter (SetTransform (transform f)) informer mem in
      (informer, set_informers (<[informerType := informer]> (informers f)) f, mem)
  end.

(** The loop of [Start] over the map in the order of its iteration; the first
    result lists the informers whose goroutines it starts. *)
Fixpoint Start_loop (order : list (string * nat)) f : list nat * sharedInformerFactory :=
  match order with
  | [] => ([], f)
  | (informerType, informer) :: order =>
      if default false (startedInformers f !! informerType) then Start_loop order f
      else
        let '(started, f) := Start_loop order (mark_started informerType f) in
        (informer :: started, f)
  end.

Definition Start (order : list (string * nat)) f : list nat * sharedInformerFactory :=
  if shuttingDown f then ([], f) else Start_loop order f.

(** [Shutdown] up to [f.wg.Wait()] *)
Definition Shutdown_begin f : sharedInformerFactory := set_shuttingDown f.

(** What [WaitForCacheSync] waits for, and its result; [synced] says which
    informers synchronise before the channel closes. *)
Definition syncTargets f : gmap string nat :=
  filter (fun '(t, _) => default false (startedInformers f !! t) = true) (informers f).

Definition WaitForCacheSync (synced : nat -> bool) f : gmap string bool := synced <$> syncTargets f.

(** ** Groups, versions and the informers of the resources *)

(** [group], [version] and the two [...Informer] structs carry the same fields;
    the factory itself is the state. *)
Record version := { v_namespace : string; v_tweakListOptions : TweakListOptionsFunc }.

Definition Runtime f : version := {| v_namespace := namespace f; v_tweakListOptions := tweakListOptions f |}.
Definition V1alpha1 (g : version) : version := {| v_namespace := v_namespace g; v_tweakListOptions := v_tweakListOptions g |}.

Definition NamespaceIndex : string := "namespace".

Definition agentRuntime_defaultInformer (v : version) (c : C) (resyncPeriod : Duration) : SharedIndexInformer :=
  NewFilteredAgentRuntimeInformer c (v_namespace v) resyncPeriod [NamespaceIndex] (v_tweakListOptions v).

Definition agentRuntime_Informer (v : version) f mem :=
  InformerFor agentRuntimeType (agentRuntime_defaultInformer v) f mem.

Definition codeInterpreter_defaultInformer (v : version) (c : C) (resyncPeriod : Duration) : SharedIndexInformer :=
  NewFilteredCodeInterpreterInformer c (v_namespace v) resyncPeriod [NamespaceIndex] (v_tweakListOptions v).

Definition codeInterpreter_Informer (v : version) f mem :=
  InformerFor codeInterpreterType (codeInterpreter_defaultInformer v) f mem.

(** A lister reads the indexer of an informer. *)
Record Lister := { l_indexer : nat; l_resource : string }.

Definition NewAgentRuntimeLister (indexer : nat) : Lister := {| l_indexer := indexer; l_resource := "agentruntime" |}.
Definition NewCodeInterpreterLister (indexer : nat) : Lister := {| l_indexer := indexer; l_resource := "codeinterpreter" |}.

Definition agentRuntime_Lister (v : version) f mem :=
  let '(i, f, mem) := agentRuntime_Informer v f mem in (NewAgentRuntimeLister i, f, mem).
Definition codeInterpreter_Lister (v : version) f mem :=
  let '(i, f, mem) := codeInterpreter_Informer v f mem in (NewCodeInterpreterLister i, f, mem).

(** [schema.GroupVersionResource] *)
Record GroupVersionResource := { g_Group : string; g_Version : string; g_Resource : string }.

Definition WithResource (resource : string) : GroupVersionResource :=
  {| g_Group := "runtime.agentcube.volcano.sh"; g_Version := "v1alpha1"; g_Resource := resource |}.

#[export] Instance gvr_eq_dec : EqDecision GroupVersionResource.
Proof. solve_decision. Defined.

(** [genericInformer]: the informer and the group and resource of its lister. *)
Record genericInformer := { gi_informer : nat; gi_resource : string * string }.

Definition genericInformer_Lister (g : genericInformer) : Lister :=
  {| l_indexer := gi_informer g; l_resource := (gi_resource g).2 |}.

(** [ForResource]; [show] prints the resource in the error. *)
Definition ForResource (show : GroupVersionResource -> string) (resource : GroupVersionResource) f mem
    : res genericInformer * sharedInformerFactory * list SharedIndexInformer :=
  if bool_decide (resource = WithResource "agentruntimes") then
    let '(i, f, mem) := agentRuntime_Informer (V1alpha1 (Runtime f)) f mem in
    (Ok {| gi_informer := i; gi_resource := (g_Group resource, g_Resource resource) |}, f, mem)
  else if bool_decide (resource = WithResource "codeinterpreters") then
    let '(i, f, mem) := codeInterpreter_Informer (V1alpha1 (Runtime f)) f mem in
    (Ok {| gi_informer := i; gi_resource := (g_Group resource, g_Resource resource) |}, f, mem)
  else (Err (EText ("no informer found for " +:+ show resource)), f, mem).

(** ** [informers.go] of the workload manager *)

Record Informers := {
  AgentRuntimeLister : Lister; CodeInterpreterLister : Lister;
  AgentRuntimeInformer : nat; CodeInterpreterInformer : nat;
}.

(** [NewInformers], in the order of the composite literal. *)
Definition NewInformers f mem : Informers * sharedInformerFactory * list SharedIndexInformer :=
  let agentRuntimeInformer := V1alpha1 (Runtime f) in
  let codeInterpreterInformer := V1alpha1 (Runtime f) in
  let '(arLister, f, mem) := agentRuntime_Lister agentRuntimeInformer f mem in
  let '(ciLister, f, mem) := codeInterpreter_Lister codeInterpreterInformer f mem in
  let '(arInformer, f, mem) := agentRuntime_Informer agentRuntimeInformer f mem in
  let '(ciInformer, f, mem) := codeInterpreter_Informer codeInterpreterInformer f mem in
  ({| AgentRuntimeLister := arLister; CodeInterpreterLister := ciLister; AgentRuntimeInformer := arInformer;
      CodeInterpreterInformer := ciInformer |}, f, mem).

(** ** The factory among its goroutines *)

(** [threads]: informers running, each with its stop channel; [closed]: the stop
    channels closed so far; [ran]: every informer [Run] was called on, in the order of
    the calls; [waiting] and [returned]: the calls of [Shutdown]. *)
Record state := {
  mem : list SharedIndexInformer; fac : sharedInformerFactory; threads : list (nat * nat); closed : gset nat;
  ran : list nat; waiting : nat; returned : nat;
}.

Inductive step : state -> state -> Prop :=
  | s_InformerFor s t newFunc i f' mem' :
      InformerFor t newFunc (fac s) (mem s) = (i, f', mem') ->
      step s {| mem := mem'; fac := f'; threads := threads s; closed := closed s; ran := ran s; waiting := waiting s;
                returned := returned s |}
  | s_Start s stopCh order started f' :
      Permutation order (map_to_list (informers (fac s))) -> Start order (fac s) = (started, f') ->
      step s {| mem := mem s; fac := f'; threads := ((fun i => (i, stopCh)) <$> started) ++ threads s; closed := closed s;
                ran := ran s ++ started; waiting := waiting s; returned := returned s |}
  | s_Shutdown s :
      step s {| mem := mem s; fac := Shutdown_begin (fac s); threads := threads s; closed := closed s; ran := ran s;
                waiting := S (waiting s); returned := returned s |}
  | s_return s n :
      waiting s = S n -> wg (fac s) = 0%nat ->
      step s {| mem := mem s; fac := fac s; threads := threads s; closed := closed s; ran := ran s; waiting := n;
                returned := S (returned s) |}
  | s_close s ch :
      step s {| mem := mem s; fac := fac s; threads := threads s; closed := {[ch]} ∪ closed s; ran := ran s;
                waiting := waiting s; returned := returned s |}
  (** [informer.Run(stopCh)] returns once the channel is closed; [f.wg.Done()] panics at zero. *)
  | s_exit s l1 i ch l2 n :
      threads s = l1 ++ (i, ch) :: l2 -> ch ∈ closed s -> wg (fac s) = S n ->
      step s {| mem := mem s; fac := set_wg n (fac s); threads := l1 ++ l2; closed := closed s; ran := ran s;
                waiting := waiting s; returned := returned s |}.

(** A factory just made, in a program whose informers so far are [m]. *)
Definition initial (m : list SharedIndexInformer) (c : C) (resync : Duration) (options : list SharedInformerOption) : state :=
  {| mem := m; fac := NewSharedInformerFactoryWithOptions c resync options; threads := []; closed := ∅; ran := [];
     waiting := 0; returned := 0 |}.

End factory.
End Factory.
