(* ===== verification/InformerTheorems.v ===== *)
(** * The informer factory runs every informer once

    Invariants of the factory among its goroutines, and what [NewInformers] gets
    from it. *)

From Stdlib Require Import Permutation.
From stdpp Require Import base list gmap strings relations.
From S2P Require Import Prelude GoTime GoError GoContext InformerFactory.
Import Factory.

Section invariant.
Context {C O T : Type}.
Abbreviation factory := (sharedInformerFactory (C := C) (O := O) (T := T)).
Abbreviation informer := (SharedIndexInformer (C := C) (O := O) (T := T)).
Abbreviation fstate := (state (C := C) (O := O) (T := T)).
Implicit Types (f : factory) (s : fstate).

Definition is_started f (t : string) : bool := default false (startedInformers f !! t).

(** ** [Start] *)

Lemma is_started_mark f t t' : is_started (mark_started t f) t' = if decide (t = t') then true else is_started f t'.
Proof.
  unfold is_started. cbn. destruct (decide (t = t')) as [<-|Hne]; [by rewrite lookup_insert_eq|by rewrite lookup_insert_ne].
Qed.

Lemma Start_loop_spec order f started f' :
  NoDup order.*1 -> Start_loop order f = (started, f') ->
  informers f' = informers f /\ shuttingDown f' = shuttingDown f /\ wg f' = (List.length started + wg f)%nat /\
  (forall t, is_started f' t = is_started f t || bool_decide (t ∈ order.*1)) /\
  (forall i, i ∈ started <-> exists t, (t, i) ∈ order /\ is_started f t = false) /\
  (NoDup order.*2 -> NoDup started).
Proof.
  revert f started. induction order as [|[t i] order IH]; intros f started Hnd Hs; cbn in Hs.
  { injection Hs as <- <-. split_and!; try done; [intros t; cbn; by rewrite orb_false_r|set_solver]. }
  cbn in Hnd. apply NoDup_cons in Hnd as [Hnin Hnd]. fold (is_started f t) in Hs. destruct (is_started f t) eqn:Hst.
  - apply IH in Hs as (H1 & H2 & H3 & H4 & H5 & H6); [|done]. split_and!; try done.
    + intros t'. rewrite H4. cbn. destruct (decide (t' = t)) as [->|Hne]; [by rewrite Hst|]. f_equal. apply bool_decide_ext. set_solver.
    + intros j. rewrite H5. split; [set_solver|]. intros (t' & [[= -> ->]|Ht]%elem_of_cons & Hf); [congruence|by exists t'].
    + by intros [_ ?]%NoDup_cons; auto.
  - destruct (Start_loop order (mark_started t f)) as [l f1] eqn:Hl. injection Hs as <- <-.
    apply IH in Hl as (H1 & H2 & H3 & H4 & H5 & H6); [|done].
    assert (forall t' j, (t', j) ∈ order -> is_started (mark_started t f) t' = is_started f t') as Hsame.
    { intros t' j Hj. rewrite is_started_mark. destruct (decide (t = t')) as [<-|]; [|done].
      exfalso. apply Hnin, list_elem_of_fmap. by exists (t, j). }
    split_and!; try done; [cbn in *; lia|..].
    + intros t'. rewrite H4, is_started_mark. cbn. destruct (decide (t = t')) as [<-|Hne].
      * rewrite (bool_decide_true (t ∈ t :: _)) by set_solver. by rewrite orb_true_r.
      * f_equal. apply bool_decide_ext. set_solver.
    + intros j. rewrite elem_of_cons, H5. split.
      * intros [->|(t' & Hj & Hf)]; [exists t; set_solver|]. exists t'. erewrite Hsame in Hf by done. set_solver.
      * intros (t' & [[= -> ->]|Ht]%elem_of_cons & Hf); [by left|right; exists t']. by erewrite Hsame.
    + intros [Hi Hn]%NoDup_cons. constructor; [|auto]. rewrite H5. intros (t' & Hj & _). apply Hi, list_elem_of_fmap. by exists (t', i).
Qed.

(** ** The invariant *)

Record Inv s : Prop := {
  inv_mem t i : informers (fac s) !! t = Some i -> (i < List.length (mem s))%nat;
  inv_inj t t' i : informers (fac s) !! t = Some i -> informers (fac s) !! t' = Some i -> t = t';
  inv_known t : is_started (fac s) t = true -> is_Some (informers (fac s) !! t);
  inv_once : NoDup (ran s);
  inv_ran i : i ∈ ran s <-> exists t, informers (fac s) !! t = Some i /\ is_started (fac s) t = true;
  inv_wg : wg (fac s) = List.length (threads s);
  inv_flag : (0 < waiting s + returned s)%nat -> shuttingDown (fac s) = true;
  inv_idle : (0 < returned s)%nat -> threads s = [];
}.

(** What an operation leaves as it was. *)
Definition extends f f' : Prop :=
  informers f ⊆ informers f' /\ (shuttingDown f = true -> shuttingDown f' = true).

Lemma InformerFor_spec t newFunc f (m : list informer) i f' m' :
  InformerFor t newFunc f m = (i, f', m') ->
  (informers f !! t = Some i /\ f' = f /\ m' = m) \/
  (informers f !! t = None /\ i = List.length m /\ f' = set_informers (<[t := i]> (informers f)) f /\
   List.length m' = S (List.length m)).
Proof.
  unfold InformerFor. destruct (informers f !! t) as [j|] eqn:Ht; intros [= <- <- <-]; [by left|right].
  split_and!; try done. by rewrite length_alter, length_app, Nat.add_comm.
Qed.

Lemma inv_InformerFor s t newFunc i f' m' :
  Inv s -> InformerFor t newFunc (fac s) (mem s) = (i, f', m') ->
  Inv {| mem := m'; fac := f'; threads := threads s; closed := closed s; ran := ran s; waiting := waiting s;
         returned := returned s |} /\ extends (fac s) f'.
Proof.
  intros [M J K N R G F I] [(_ & -> & ->)|(Hn & -> & -> & Hm)]%InformerFor_spec; [by split|].
  assert (forall t', is_Some (informers (fac s) !! t') -> t <> t') as Hne by (intros t' [] ->; congruence).
  split; [split; cbn; try done|].
  - intros t' i Hi. rewrite Hm. destruct (decide (t = t')) as [<-|?]; simplify_map_eq; [lia|]. apply M in Hi. lia.
  - intros t1 t2 i Hi1 Hi2. destruct (decide (t = t1)) as [<-|?], (decide (t = t2)) as [<-|?]; simplify_map_eq; [done|..].
    + apply M in Hi2. lia.
    + apply M in Hi1. lia.
    + by eapply J.
  - intros t' Ht'%K. by rewrite lookup_insert_ne by (by apply Hne).
  - intros i. rewrite R. split; intros (t' & Ht' & Hs); exists t'.
    + by rewrite lookup_insert_ne by (apply Hne; eauto).
    + split; [|done]. by rewrite lookup_insert_ne in Ht' by (by apply Hne, K).
  - split; [|done]. cbn. by apply insert_subseteq.
Qed.

Lemma inv_Start s stopCh order started f' :
  Inv s -> Permutation order (map_to_list (informers (fac s))) -> Start order (fac s) = (started, f') ->
  Inv {| mem := mem s; fac := f'; threads := ((fun i => (i, stopCh)) <$> started) ++ threads s; closed := closed s;
         ran := ran s ++ started; waiting := waiting s; returned := returned s |} /\ extends (fac s) f'.
Proof.
  intros [M J K N R G F I] Hp. unfold Start. destruct (shuttingDown (fac s)) eqn:Hd.
  { intros [= <- <-]. rewrite app_nil_r. split; [split|]; try done; cbn; auto. }
  assert (forall t i, (t, i) ∈ order <-> informers (fac s) !! t = Some i) as Ho
    by (intros t i; rewrite Hp; apply elem_of_map_to_list).
  assert (NoDup order.*1) as Hn1 by (rewrite Hp; apply NoDup_fst_map_to_list).
  assert (NoDup order.*2) as Hn2.
  { apply NoDup_fmap_2_strong; [|rewrite Hp; apply NoDup_map_to_list].
    intros [t i] [t' i'] H1%Ho H2%Ho. cbn. intros ->. f_equal. by eapply J. }
  intros (H1 & H2 & H3 & H4 & H5 & H6)%Start_loop_spec; [|done].
  assert (forall t, is_started f' t = true <-> is_Some (informers (fac s) !! t)) as Hall.
  { intros t. rewrite H4, orb_true_iff, bool_decide_eq_true, list_elem_of_fmap. split.
    - intros [?%K|([t' i] & -> & Hi%Ho)]; eauto.
    - intros [i Hi]. right. exists (t, i). by rewrite Ho. }
  split; [split; cbn|split; [by rewrite H1|congruence]].
  - rewrite H1. exact M.
  - rewrite H1. exact J.
  - intros t Ht. rewrite H1. by apply Hall.
  - apply NoDup_app. split_and!; [done| |auto]. intros i (t & Ht & Hs)%R (t' & Ht'%Ho & Hs')%H5.
    rewrite (J _ _ _ Ht Ht') in Hs. congruence.
  - intros i. rewrite elem_of_app, R, H5, H1. split.
    + intros [(t & Ht & _)|(t & Ht%Ho & _)]; exists t; (split; [done|apply Hall; eauto]).
    + intros (t & Ht & _). destruct (is_started (fac s) t) eqn:Hst; [left|right]; exists t; by rewrite ?Ho.
  - rewrite length_app, length_fmap, H3, G. done.
  - intros Hw%F. congruence.
  - intros Hw. discriminate F. lia.
Qed.

Lemma factory_inv_step s s' : Inv s -> step s s' -> Inv s' /\ extends (fac s) (fac s').
Proof.
  intros HI Hs. pose proof HI as [M J K N R G F I]. destruct Hs as [s t newFunc i f' m' H|s ch order st f' Hp H|s|s n Hw Hz|s ch|s l1 i ch l2 n Ht Hc Hn].
  - by eapply inv_InformerFor.
  - by eapply inv_Start.
  - split; [|by split]. by split.
  - split; [|by split]. rewrite G in Hz. split; try done; cbn.
    + intros _. apply F. lia.
    + intros _. by apply nil_length_inv.
  - split; [|by split]. by split.
  - split; [|by split]. split; try done; cbn.
    + rewrite Ht, length_app in G. cbn in G. rewrite length_app. lia.
    + intros Hr%I. rewrite Hr in Ht. by destruct l1.
Qed.

Lemma factory_inv_steps s s' : Inv s -> rtc step s s' -> Inv s' /\ extends (fac s) (fac s').
Proof.
  intros HI Hs. revert HI. induction Hs as [s|s s1 s2 H1 H2 IH]; intros HI; [by split|].
  destruct (factory_inv_step s s1 HI H1) as [I1 [A1 B1]]. destruct (IH I1) as [I2 [A2 B2]].
  split; [done|]. split; [by etransitivity|auto].
Qed.

(** No informer is started any more once the factory shuts down. *)
Lemma shut_step s s' : shuttingDown (fac s) = true -> step s s' -> ran s' = ran s.
Proof.
  intros Hd Hs. destruct Hs as [| s ch order st f' Hp H | | | | ]; try done. unfold Start in H. rewrite Hd in H.
  injection H as <- <-. cbn. by rewrite app_nil_r.
Qed.

Lemma shut_steps s s' : Inv s -> shuttingDown (fac s) = true -> rtc step s s' -> ran s' = ran s.
Proof.
  intros HI Hd Hs. revert HI Hd. induction Hs as [s|s s1 s2 H1 H2 IH]; intros HI Hd; [done|].
  destruct (factory_inv_step s s1 HI H1) as [I1 [_ B1]]. rewrite IH by auto. by apply shut_step.
Qed.

(** Goroutines whose channel is closed can all end. *)
Lemma drain s : Inv s -> (forall th, th ∈ threads s -> th.2 ∈ closed s) ->
  exists s', rtc step s s' /\ threads s' = [] /\ waiting s' = waiting s /\ returned s' = returned s.
Proof.
  remember (threads s) as l eqn:Hl. revert s Hl. induction l as [|[i ch] l IH]; intros s Hl HI Hc; [by exists s|].
  pose proof (inv_wg s HI) as Hw. rewrite <- Hl in Hw. cbn in Hw.
  pose proof (s_exit s [] i ch l (List.length l) (eq_sym Hl) (Hc (i, ch) ltac:(set_solver)) Hw) as Hstep. cbn in Hstep.
  set (s1 := {| mem := _; fac := _; threads := _; closed := _; ran := _; waiting := _; returned := _ |}) in Hstep.
  destruct (factory_inv_step _ _ HI Hstep) as [I1 _]. destruct (IH s1 eq_refl I1) as (s2 & H2 & H3 & H4 & H5); [set_solver|].
  exists s2. split_and!; try done. by econstructor.
Qed.

Lemma shutdown_returns s n : Inv s -> (forall th, th ∈ threads s -> th.2 ∈ closed s) -> waiting s = S n ->
  exists s', rtc step s s' /\ returned s' = S (returned s).
Proof.
  intros HI Hc Hw. destruct (drain s HI Hc) as (s1 & H1 & Ht & Hw1 & Hr1).
  destruct (factory_inv_steps s s1 HI H1) as [I1 _]. pose proof (inv_wg s1 I1) as Hz. rewrite Ht in Hz.
  eexists. split; [eapply rtc_r; [exact H1|]; by eapply (s_return s1 n); [congruence|]|]. cbn. by rewrite Hr1.
Qed.

(** ** A factory just made *)

(** The options the package offers. *)
Inductive offered : SharedInformerOption (C := C) (O := O) (T := T) -> Prop :=
  | o_resync l : offered (WithCustomResyncConfig l)
  | o_tweak tw : offered (WithTweakListOptions tw)
  | o_namespace ns : offered (WithNamespace ns)
  | o_transform t : offered (WithTransform t).

Lemma options_keep opts f :
  Forall offered opts -> let f' := foldl (fun f opt => opt f) f opts in
  informers f' = informers f /\ startedInformers f' = startedInformers f /\ wg f' = wg f /\ shuttingDown f' = shuttingDown f.
Proof.
  intros Ho. revert f. induction Ho as [|opt opts Hopt _ IH]; intros f; [done|]. cbn.
  destruct (IH (opt f)) as (-> & -> & -> & ->). by destruct Hopt.
Qed.

Lemma inv_initial m c resync opts : Forall offered opts -> Inv (initial m c resync opts).
Proof.
  intros Ho. unfold initial, NewSharedInformerFactoryWithOptions.
  destruct (options_keep opts
    {| client := c; namespace := NamespaceAll; tweakListOptions := None; defaultResync := resync; customResync := ∅;
       transform := None; informers := ∅; startedInformers := ∅; wg := 0; shuttingDown := false |} Ho) as (E1 & E2 & E3 & E4).
  split; unfold is_started; cbn; rewrite ?E1, ?E2, ?E3; cbn; try done; try lia.
  - constructor.
  - intros i. split; [set_solver|]. by intros (t & Ht & _).
Qed.

End invariant.

(** [C17] The informer factory: in every reachable interleaving of its methods with
    the goroutines of its informers, no informer is ever run twice, and those that
    were run are the registered ones whose type is marked as started; the type of
    an object keeps the informer it first got; the wait group counts the running
    goroutines, so that none of them brings it below zero; after a call of
    [Shutdown] nothing is started any more, a call returns only when every goroutine
    has ended, none runs from then on, and with the stop channels closed
    every waiting call can return. *)
Theorem informers_run_once {C O T : Type} (m : list (SharedIndexInformer (C := C) (O := O) (T := T))) (c : C) (resync : Duration)
    (opts : list SharedInformerOption) (s : state) :
  Forall offered opts -> rtc step (initial m c resync opts) s ->
  NoDup (ran s) /\
  (forall i, i ∈ ran s <-> exists t, informers (fac s) !! t = Some i /\ startedInformers (fac s) !! t = Some true) /\
  wg (fac s) = List.length (threads s) /\
  (forall s', rtc step s s' -> informers (fac s) ⊆ informers (fac s')) /\
  ((0 < waiting s + returned s)%nat -> forall s', rtc step s s' -> ran s' = ran s) /\
  ((0 < returned s)%nat -> forall s', rtc step s s' -> threads s' = []) /\
  ((0 < waiting s)%nat -> (forall th, th ∈ threads s -> th.2 ∈ closed s) ->
     exists s', rtc step s s' /\ returned s' = S (returned s)).
Proof.
  intros Ho Hs. destruct (factory_inv_steps _ _ (inv_initial m c resync opts Ho) Hs) as [HI _].
  split; [apply HI|]. split; [|split; [apply HI|]].
  { intros i. rewrite (inv_ran s HI). unfold is_started. split; intros (t & Ht & Hst); exists t; (split; [done|]).
    - by destruct (startedInformers (fac s) !! t) as [[]|].
    - by rewrite Hst. }
  split; [intros s' Hs'; by apply (factory_inv_steps s s' HI Hs')|].
  split; [intros Hw s' Hs'; by apply shut_steps; [| apply HI|]|].
  split.
  - intros Hr s' Hs'. destruct (factory_inv_steps s s' HI Hs') as [HI' _]. apply (inv_idle s' HI').
    clear -Hr Hs'. induction Hs' as [|s s1 s2 H1 _ IH]; [done|]. apply IH. destruct H1; cbn in *; lia.
  - intros Hw Hc. destruct (waiting s) as [|n] eqn:Hn; [lia|]. by eapply shutdown_returns.
Qed.

Lemma informers_run_once_witness :
  let new := fun (c : nat) d => NewAgentRuntimeInformer (O := nat) (T := nat) c "" d [] in
  let s := {| mem := [new 7%nat 0]; fac := mark_started "ar" (set_informers {[ "ar" := 0%nat ]} (NewSharedInformerFactory 7%nat 0));
              threads := [(0%nat, 3%nat)]; closed := ∅; ran := [0%nat]; waiting := 0; returned := 0 |} in
  rtc step (initial [] 7%nat 0 []) s /\ NoDup (ran s).
Proof.
  intros new s.
  assert (rtc step (initial [] 7%nat 0 []) s) as Hr.
  { pose (s1 := {| mem := [new 7%nat 0]; fac := set_informers {[ "ar" := 0%nat ]} (NewSharedInformerFactory 7%nat 0);
                   threads := []; closed := ∅; ran := []; waiting := 0; returned := 0 |} : state).
    eapply (rtc_l _ _ s1); [exact (s_InformerFor (initial [] 7%nat 0 []) "ar" new _ _ _ eq_refl)|].
    eapply rtc_l; [|apply rtc_refl]. refine (s_Start s1 3%nat [("ar", 0%nat)] [0%nat] _ _ eq_refl).
    cbn. rewrite map_to_list_singleton. reflexivity. }
  split; [exact Hr|]. exact (proj1 (informers_run_once [] 7%nat 0 [] s (Forall_nil_2 _) Hr)).
Defined.

(** ** The informers of the workload manager *)

Lemma register_again {C O T : Type} t i newFunc f (m : list (SharedIndexInformer (C := C) (O := O) (T := T))) :
  informers f !! t = Some i -> InformerFor t newFunc f m = (i, f, m).
Proof. unfold InformerFor. by intros ->. Qed.

Lemma register_first {C O T : Type} t newFunc f (m : list (SharedIndexInformer (C := C) (O := O) (T := T))) :
  informers f !! t = None -> customResync f !! t = None ->
  InformerFor t newFunc f m =
    (List.length m, set_informers (<[t := List.length m]> (informers f)) f,
     m ++ [SetTransform (transform f) (newFunc (client f) (defaultResync f))]).
Proof.
  unfold InformerFor. intros -> ->. f_equal. by rewrite alter_app_r_alt, Nat.sub_diag.
Qed.

(** What [NewInformers] registers. *)
Lemma new_informers {C O T : Type} (m : list (SharedIndexInformer (C := C) (O := O) (T := T))) (c : C) resync :
  let n := List.length m in
  NewInformers (NewSharedInformerFactory c resync) m =
    ({| AgentRuntimeLister := NewAgentRuntimeLister n; CodeInterpreterLister := NewCodeInterpreterLister (S n);
        AgentRuntimeInformer := n; CodeInterpreterInformer := S n |},
     set_informers (<[codeInterpreterType := S n]> (<[agentRuntimeType := n]> ∅)) (NewSharedInformerFactory c resync),
     m ++ [NewFilteredAgentRuntimeInformer c NamespaceAll resync [NamespaceIndex] None;
           NewFilteredCodeInterpreterInformer c NamespaceAll resync [NamespaceIndex] None]).
Proof.
  intros n. set (f := NewSharedInformerFactory c resync).
  unfold NewInformers, agentRuntime_Lister, codeInterpreter_Lister, agentRuntime_Informer, codeInterpreter_Informer.
  rewrite (register_first agentRuntimeType) by done. cbn zeta iota.
  rewrite (register_first codeInterpreterType) by done. cbn zeta iota.
  rewrite (register_again agentRuntimeType n) by done. cbn zeta iota.
  rewrite (register_again codeInterpreterType (S n)) by (cbn; rewrite length_app, Nat.add_comm; done). cbn.
  rewrite length_app, Nat.add_comm, <- app_assoc. done.
Qed.

(** Both types are marked, whatever the order of the iteration. *)
Lemma start_both {C O T : Type} (f : sharedInformerFactory (C := C) (O := O) (T := T)) t1 t2 i1 i2 order started f' :
  t1 <> t2 -> informers f = <[t2 := i2]> (<[t1 := i1]> ∅) -> startedInformers f = ∅ -> shuttingDown f = false ->
  Permutation order (map_to_list (informers f)) -> Start order f = (started, f') ->
  Permutation started [i1; i2] /\ syncTargets f' = informers f /\ wg f' = (2 + wg f)%nat.
Proof.
  intros Hne Hi Hs Hd Hp. unfold Start. rewrite Hd.
  rewrite Hi, map_to_list_insert in Hp by (by rewrite lookup_insert_ne). rewrite insert_empty, map_to_list_singleton in Hp.
  symmetry in Hp. apply Permutation_length_2_inv in Hp.
  assert (forall t, is_started f t = false) as Hf by (intros t; unfold is_started; by rewrite Hs).
  intros Hl. assert (NoDup order.*1) as Hnd by (destruct Hp as [-> | ->]; repeat constructor; set_solver).
  destruct (Start_loop_spec order f started f' Hnd Hl) as (H1 & _ & H3 & H4 & _).
  assert (Permutation started [i1; i2]) as Hst.
  { assert (is_started (mark_started t1 f) t2 = false /\ is_started (mark_started t2 f) t1 = false) as [E1 E2]
      by (rewrite !is_started_mark, !decide_False by done; auto).
    unfold is_started in E1, E2, Hf.
    destruct Hp as [-> | ->]; cbn [Start_loop] in Hl; rewrite Hf in Hl; rewrite ?E1, ?E2 in Hl; injection Hl as <- <-;
      [apply perm_swap|reflexivity]. }
  split; [done|]. split; [|rewrite H3, Hst; done].
  unfold syncTargets. rewrite H1. apply map_filter_id. intros t i Ht. fold (is_started f' t). rewrite H4, Hf. cbn.
  apply bool_decide_eq_true. rewrite Hi in Ht. apply lookup_insert_Some in Ht as [[<- _]|[_ [[<- _]|[_ ?]]%lookup_insert_Some]];
    [..|done]; destruct Hp as [-> | ->]; set_solver.
Qed.

(** The caches the workload manager reads are the ones it starts and waits
    for: [NewInformers] on a new factory registers one informer per custom resource
    and gives each lister the cache of the informer it returns; those informers list and watch
    their resource in all namespaces, with the options unchanged, in the context given or in the background; asking
    the factory again, by type or by resource, returns the same two, and an unknown resource is an error that changes
    nothing; [Start] runs
    exactly these two, and the synchronisation waits for exactly these two. *)
Theorem listers_share_informers {C O T : Type} (m : list (SharedIndexInformer (C := C) (O := O) (T := T))) (c : C)
    (resync : Duration) (show : GroupVersionResource -> string) :
  let '(ifm, f, mem) := NewInformers (NewSharedInformerFactory c resync) m in
  let ar := AgentRuntimeInformer ifm in let ci := CodeInterpreterInformer ifm in
  l_indexer (AgentRuntimeLister ifm) = ar /\ l_indexer (CodeInterpreterLister ifm) = ci /\ ar <> ci /\
  (exists a b, mem = m ++ [a; b] /\ mem !! ar = Some a /\ mem !! ci = Some b /\
     (forall ctx o, ListWithContextFunc (i_listwatch a) ctx o =
        {| rq_verb := "list"; rq_resource := "agentruntimes"; rq_namespace := ""; rq_ctx := ctx; rq_options := o |}) /\
     (forall ctx o, WatchFuncWithContext (i_listwatch b) ctx o =
        {| rq_verb := "watch"; rq_resource := "codeinterpreters"; rq_namespace := ""; rq_ctx := ctx; rq_options := o |}) /\
     (forall i o, i = a \/ i = b -> ListFunc (i_listwatch i) o = ListWithContextFunc (i_listwatch i) Ctx.Background o /\
        WatchFunc (i_listwatch i) o = WatchFuncWithContext (i_listwatch i) Ctx.Background o)) /\
  (forall v, agentRuntime_Informer v f mem = (ar, f, mem) /\ codeInterpreter_Informer v f mem = (ci, f, mem)) /\
  (forall g, ForResource show g f mem =
     (if bool_decide (g = WithResource "agentruntimes") then Ok {| gi_informer := ar; gi_resource := (g_Group g, g_Resource g) |}
      else if bool_decide (g = WithResource "codeinterpreters") then Ok {| gi_informer := ci; gi_resource := (g_Group g, g_Resource g) |}
      else Err (EText ("no informer found for " +:+ show g)), f, mem)) /\
  (forall order started f', Permutation order (map_to_list (informers f)) -> Start order f = (started, f') ->
     Permutation started [ar; ci] /\
     forall synced, WaitForCacheSync synced f' = <[codeInterpreterType := synced ci]> (<[agentRuntimeType := synced ar]> ∅)).
Proof.
  rewrite new_informers. cbn zeta iota. set (n := List.length m). set (f := set_informers _ _).
  assert (forall v mem, agentRuntime_Informer v f mem = (n, f, mem) /\ codeInterpreter_Informer v f mem = (S n, f, mem)) as Hreg.
  { intros v mem. split; by apply register_again. }
  split; [done|]. split; [done|]. split; [cbn; lia|]. split; [|split; [intros v; apply Hreg|split]].
  - eexists _, _. split; [done|]. split; [by apply list_lookup_middle|].
    split; [rewrite lookup_app_r by (unfold n; cbn; lia); unfold n; cbn; by rewrite Nat.sub_succ_l, Nat.sub_diag|].
    split; [done|]. split; [done|]. by intros i o [-> | ->].
  - intros g. unfold ForResource. set (l := m ++ _). destruct (Hreg (V1alpha1 (Runtime f)) l) as [-> ->].
    repeat (case_bool_decide; [done|]). done.
  - intros order started f' Hp Hs. destruct (start_both f agentRuntimeType codeInterpreterType n (S n) order started f') as (H1 & H2 & _);
      try done. split; [done|]. intros synced. unfold WaitForCacheSync. rewrite H2. cbn. by rewrite !fmap_insert, fmap_empty.
Qed.

Lemma listers_share_informers_witness :
  let '(ifm, f, mem) := NewInformers (NewSharedInformerFactory (O := nat) (T := nat) 7%nat 0) [] in
  l_indexer (AgentRuntimeLister ifm) = AgentRuntimeInformer ifm /\
  exists started f', Start (map_to_list (informers f)) f = (started, f') /\
    Permutation started [AgentRuntimeInformer ifm; CodeInterpreterInformer ifm].
Proof.
  pose proof (listers_share_informers (O := nat) (T := nat) [] 7%nat 0 g_Resource) as H.
  destruct (NewInformers (NewSharedInformerFactory 7%nat 0) []) as [[ifm f] mem].
  destruct H as (H1 & _ & _ & _ & _ & _ & H7). split; [exact H1|].
  destruct (Start (map_to_list (informers f)) f) as [started f'] eqn:E. exists started, f'. split; [reflexivity|].
  exact (proj1 (H7 _ started f' (Permutation_refl _) E)).
Defined.
