(* ===== verification/Clientset.v ===== *)
(** * Clients of the API server

    The generated clientset of the custom resources
    ([client-go/clientset/versioned/clientset.go], [typed/runtime/v1alpha1])
    and the construction of [K8sClient] with its per-user clients
    ([pkg/workloadmanager/k8s_client.go]). What [k8s.io/client-go] builds from
    a configuration is the class [RestLib]. *)

From Stdlib Require Import QArith.
From stdpp Require Import base list gmap strings.
From S2P Require Import Prelude GoStrings GoTime GoError GoContext SandboxTypes K8sTypes Cluster Lru Caches K8sClient InformerFactory.

(** The types of the library. *)
Class RestTypes := {
  limiter : Type; serializer : Type; httpClient : Type; restClient : Type; discoveryClient : Type;
  kubeClientset : Type; dynClient : Type; coreFactory : Type; dynFactory : Type;
  podInformerT : Type; podListerT : Type; dynInformerT : Type; schemeT : Type;
  listOptions : Type; transformFunc : Type;
}.

Module Rest.
Section rest.
Context {RT : RestTypes}.

(** [rest.Config]: the fields that name the server, the credentials and the
    limits of the requests. *)
Record Config := {
  Host : string; APIPath : string; GroupVersion : option (string * string); NegotiatedSerializer : option serializer;
  Username : string; Password : string; BearerToken : string; BearerTokenFile : string; Impersonate : string;
  CertFile : string; KeyFile : string; CAFile : string; UserAgent : string;
  QPS : Q; Burst : Z; RateLimiter : option limiter;
}.

Definition set_UserAgent (u : string) (c : Config) : Config :=
  {| Host := Host c; APIPath := APIPath c; GroupVersion := GroupVersion c; NegotiatedSerializer := NegotiatedSerializer c;
     Username := Username c; Password := Password c; BearerToken := BearerToken c; BearerTokenFile := BearerTokenFile c;
     Impersonate := Impersonate c; CertFile := CertFile c; KeyFile := KeyFile c; CAFile := CAFile c; UserAgent := u;
     QPS := QPS c; Burst := Burst c; RateLimiter := RateLimiter c |}.

Definition set_RateLimiter (l : option limiter) (c : Config) : Config :=
  {| Host := Host c; APIPath := APIPath c; GroupVersion := GroupVersion c; NegotiatedSerializer := NegotiatedSerializer c;
     Username := Username c; Password := Password c; BearerToken := BearerToken c; BearerTokenFile := BearerTokenFile c;
     Impersonate := Impersonate c; CertFile := CertFile c; KeyFile := KeyFile c; CAFile := CAFile c; UserAgent := UserAgent c;
     QPS := QPS c; Burst := Burst c; RateLimiter := l |}.

Definition set_limits (q : Q) (b : Z) (c : Config) : Config :=
  {| Host := Host c; APIPath := APIPath c; GroupVersion := GroupVersion c; NegotiatedSerializer := NegotiatedSerializer c;
     Username := Username c; Password := Password c; BearerToken := BearerToken c; BearerTokenFile := BearerTokenFile c;
     Impersonate := Impersonate c; CertFile := CertFile c; KeyFile := KeyFile c; CAFile := CAFile c; UserAgent := UserAgent c;
     QPS := q; Burst := b; RateLimiter := RateLimiter c |}.

Definition set_token (token file : string) (c : Config) : Config :=
  {| Host := Host c; APIPath := APIPath c; GroupVersion := GroupVersion c; NegotiatedSerializer := NegotiatedSerializer c;
     Username := Username c; Password := Password c; BearerToken := token; BearerTokenFile := file;
     Impersonate := Impersonate c; CertFile := CertFile c; KeyFile := KeyFile c; CAFile := CAFile c; UserAgent := UserAgent c;
     QPS := QPS c; Burst := Burst c; RateLimiter := RateLimiter c |}.

(** [config.GroupVersion], [APIPath] and [NegotiatedSerializer] *)
Definition set_group (gv : string * string) (path : string) (s : serializer) (c : Config) : Config :=
  {| Host := Host c; APIPath := path; GroupVersion := Some gv; NegotiatedSerializer := Some s;
     Username := Username c; Password := Password c; BearerToken := BearerToken c; BearerTokenFile := BearerTokenFile c;
     Impersonate := Impersonate c; CertFile := CertFile c; KeyFile := KeyFile c; CAFile := CAFile c; UserAgent := UserAgent c;
     QPS := QPS c; Burst := Burst c; RateLimiter := RateLimiter c |}.

Class RestLib := {
  DefaultKubernetesUserAgent : string;
  HTTPClientFor : Config -> res httpClient;
  RESTClientForConfigAndClient : Config -> httpClient -> res restClient;
  NewDiscoveryClientForConfigAndClient : Config -> httpClient -> res discoveryClient;
  NewDiscoveryClient : restClient -> discoveryClient;
  NewTokenBucketRateLimiter : Q -> Z -> limiter;
  CodecFactoryForGeneratedClient : serializer;
  CopyConfig : Config -> Config;
  kubernetes_NewForConfig : Config -> res kubeClientset;
  dynamic_NewForConfig : Config -> res dynClient;
  InClusterConfig : res Config;
  kubeConfig_ClientConfig : res Config;
  sandbox_AddToScheme : res schemeT;
  core_NewSharedInformerFactory : kubeClientset -> Duration -> coreFactory;
  core_Pods_Informer : coreFactory -> podInformerT * coreFactory;
  core_Pods_Lister : coreFactory -> podListerT * coreFactory;
  core_Start : coreFactory -> coreFactory;
  dynamic_NewSharedInformerFactory : dynClient -> Duration -> dynFactory;
  dynamic_Informer : Factory.GroupVersionResource -> dynFactory -> dynInformerT * dynFactory;
}.

End rest.
End Rest.

(** ** Registration of the API types

    [pkg/apis/runtime/v1alpha1] registers its types with a builder of
    [controller-runtime]; the generated client and the main program of the
    workload manager add them to their schemes. A scheme is the set of the
    (group, version, kind) it knows. *)

Module Scheme.

Definition gvk : Type := string * string * string.

Definition GroupVersion : string * string := ("runtime.agentcube.volcano.sh", "v1alpha1").

Definition AgentRuntimeKind : string := "AgentRuntime".
Definition AgentRuntimeListKind : string := "AgentRuntimeList".
Definition AgentRuntimeGroupVersionKind : gvk := (GroupVersion, AgentRuntimeKind).
Definition CodeInterpreterKind : string := "CodeInterpreter".
Definition CodeInterpreterListKind : string := "CodeInterpreterList".
Definition CodeInterpreterGroupVersionKind : gvk := (GroupVersion, CodeInterpreterKind).

(** [scheme.Builder]: the group and version, and the names of the types given to [Register]. *)
Record Builder := { b_GroupVersion : string * string; b_types : list string }.

Definition Register (types : list string) (b : Builder) : Builder :=
  {| b_GroupVersion := b_GroupVersion b; b_types := b_types b ++ types |}.

(** [AddToScheme] adds the registered types and the types every group version
    of the API has ([metav1.AddToGroupVersion]), which are [meta]. *)
Definition builder_AddToScheme (meta : string * string -> gset gvk) (b : Builder) (scheme : gset gvk) : gset gvk :=
  scheme ∪ list_to_set ((fun k => (b_GroupVersion b, k)) <$> b_types b) ∪ meta (b_GroupVersion b).

(** The builder after the [init] functions of [agent_type.go] and
    [codeinterpreter_types.go], which Go runs in the order of the file names. *)
Definition agent_init : Builder -> Builder := Register [AgentRuntimeKind; AgentRuntimeListKind].
Definition codeinterpreter_init : Builder -> Builder := Register [CodeInterpreterKind; CodeInterpreterListKind].
Definition SchemeBuilder : Builder :=
  codeinterpreter_init (agent_init {| b_GroupVersion := GroupVersion; b_types := [] |}).

Definition AddToScheme (meta : string * string -> gset gvk) : gset gvk -> gset gvk := builder_AddToScheme meta SchemeBuilder.

(** [clientset/versioned/scheme/register.go] *)
Definition localSchemeBuilder (meta : string * string -> gset gvk) : list (gset gvk -> gset gvk) := [AddToScheme meta].
Definition clientset_AddToScheme (meta : string * string -> gset gvk) (scheme : gset gvk) : gset gvk :=
  foldl (fun s add => add s) scheme (localSchemeBuilder meta).
Definition clientset_Scheme (meta : string * string -> gset gvk) : gset gvk :=
  clientset_AddToScheme meta (∅ ∪ meta ("", "v1")).

(** [schemeBuilder] of [cmd/workload-manager/main.go] after [init]: the types of
    Kubernetes, of the two sandbox packages, and those of this repository; [None]
    when a [utilruntime.Must] panics. *)
Definition Must (r : res (gset gvk)) : option (gset gvk) := match r with Ok s => Some s | Err _ => None end.

Definition manager_scheme (meta : string * string -> gset gvk) (kubernetes sandbox extensions : gset gvk -> res (gset gvk))
    : option (gset gvk) :=
  s ← Must (kubernetes ∅);
  s ← Must (sandbox s);
  s ← Must (extensions s);
  Must (Ok (AddToScheme meta s)).

(** The objects the program reads and writes have kinds its schemes know. *)
Lemma schemes_know_kinds meta kubernetes sandbox extensions k s :
  k ∈ [AgentRuntimeGroupVersionKind; (GroupVersion, AgentRuntimeListKind); CodeInterpreterGroupVersionKind;
       (GroupVersion, CodeInterpreterListKind)] ->
  manager_scheme meta kubernetes sandbox extensions = Some s -> k ∈ clientset_Scheme meta /\ k ∈ s.
Proof.
  intros Hk Hs. assert (forall s, k ∈ AddToScheme meta s) as H.
  { intros s'. unfold AddToScheme, builder_AddToScheme. apply elem_of_union_l, elem_of_union_r, elem_of_list_to_set. exact Hk. }
  split; [exact (H _)|]. unfold manager_scheme in Hs.
  apply bind_Some in Hs as (s1 & _ & (s2 & _ & (s3 & _ & Hs)%bind_Some)%bind_Some). injection Hs as <-. apply H.
Qed.

End Scheme.

(** ** [typed/runtime/v1alpha1/runtime_client.go] *)

Module RuntimeClient.
Import Rest.
Section client.
Context {RT : RestTypes} {RL : RestLib}.

Record RuntimeV1alpha1Client := { restClient_ : restClient }.

Definition SchemeGroupVersion : string * string := Scheme.GroupVersion.

Definition setConfigDefaults (config : Config) : Config :=
  let config := set_group SchemeGroupVersion "/apis" CodecFactoryForGeneratedClient config in
  if String.eqb (UserAgent config) "" then set_UserAgent DefaultKubernetesUserAgent config else config.

Definition NewForConfigAndClient (c : Config) (h : httpClient) : res RuntimeV1alpha1Client :=
  match RESTClientForConfigAndClient (setConfigDefaults c) h with
  | Err e => Err e
  | Ok client => Ok {| restClient_ := client |}
  end.

Definition NewForConfig (c : Config) : res RuntimeV1alpha1Client :=
  let config := setConfigDefaults c in
  match HTTPClientFor config with
  | Err e => Err e
  | Ok h => NewForConfigAndClient config h
  end.

(** [None] is the panic. *)
Definition NewForConfigOrDie (c : Config) : option RuntimeV1alpha1Client :=
  match NewForConfig c with Err _ => None | Ok client => Some client end.

Definition New (c : restClient) : RuntimeV1alpha1Client := {| restClient_ := c |}.

(** The receiver may be nil. *)
Definition RESTClient (c : option RuntimeV1alpha1Client) : option restClient :=
  match c with None => None | Some c => Some (restClient_ c) end.

(** [gentype.NewClientWithList]: the resource, the client and the namespace of
    the requests. *)
Record resourceClient := { rc_resource : string; rc_client : option restClient; rc_namespace : string }.

Definition newAgentRuntimes (c : RuntimeV1alpha1Client) (namespace : string) : resourceClient :=
  {| rc_resource := "agentruntimes"; rc_client := RESTClient (Some c); rc_namespace := namespace |}.
Definition newCodeInterpreters (c : RuntimeV1alpha1Client) (namespace : string) : resourceClient :=
  {| rc_resource := "codeinterpreters"; rc_client := RESTClient (Some c); rc_namespace := namespace |}.
Definition AgentRuntimes := newAgentRuntimes.
Definition CodeInterpreters := newCodeInterpreters.

End client.
End RuntimeClient.

(** ** [clientset.go] *)

Module Versioned.
Import Rest.
Section clientset.
Context {RT : RestTypes} {RL : RestLib}.

Record Clientset := { DiscoveryClient : discoveryClient; runtimeV1alpha1 : RuntimeClient.RuntimeV1alpha1Client }.

Definition RuntimeV1alpha1 (c : Clientset) : RuntimeClient.RuntimeV1alpha1Client := runtimeV1alpha1 c.

Definition Discovery (c : option Clientset) : option discoveryClient :=
  match c with None => None | Some c => Some (DiscoveryClient c) end.

Definition positive_qps (q : Q) : bool := (0 <? Qnum q)%Z.

Definition burstRequired : goerr :=
  EText "burst is required to be greater than 0 when RateLimiter is not set and QPS is set to greater than 0".

(** The rate limiter of the copied configuration. *)
Definition withRateLimiter (c : Config) : res Config :=
  match RateLimiter c with
  | None =>
      if positive_qps (QPS c) then
        if Burst c <=? 0 then Err burstRequired
        else Ok (set_RateLimiter (Some (NewTokenBucketRateLimiter (QPS c) (Burst c))) c)
      else Ok c
  | Some _ => Ok c
  end.

Definition NewForConfigAndClient (c : Config) (h : httpClient) : res Clientset :=
  match withRateLimiter c with
  | Err e => Err e
  | Ok configShallowCopy =>
      match RuntimeClient.NewForConfigAndClient configShallowCopy h with
      | Err e => Err e
      | Ok rc =>
          match NewDiscoveryClientForConfigAndClient configShallowCopy h with
          | Err e => Err e
          | Ok d => Ok {| DiscoveryClient := d; runtimeV1alpha1 := rc |}
          end
      end
  end.

Definition NewForConfig (c : Config) : res Clientset :=
  let configShallowCopy := if String.eqb (UserAgent c) "" then set_UserAgent DefaultKubernetesUserAgent c else c in
  match HTTPClientFor configShallowCopy with
  | Err e => Err e
  | Ok h => NewForConfigAndClient configShallowCopy h
  end.

Definition NewForConfigOrDie (c : Config) : option Clientset :=
  match NewForConfig c with Err _ => None | Ok cs => Some cs end.

Definition New (c : restClient) : Clientset :=
  {| DiscoveryClient := NewDiscoveryClient c; runtimeV1alpha1 := RuntimeClient.New c |}.

End clientset.
End Versioned.

(** ** [k8s_client.go] *)

Module K8sSetup.
Import Rest.
Section setup.
Context {RT : RestTypes} {RL : RestLib}.

Record K8sClient := {
  clientset : kubeClientset; cubeClientset : Versioned.Clientset; dynamicClient : dynClient; scheme : schemeT;
  baseConfig : Config; clientCache : Lru.t (ClientCache.payload (K8s.UserK8sClient dynClient)); dynamicInformer : dynFactory;
  informerFactory : coreFactory;
  cubeInformerFactory : Factory.sharedInformerFactory (C := Versioned.Clientset) (O := listOptions) (T := transformFunc);
  podInformer : podInformerT; podLister : podListerT;
}.

(** The configuration of the process: in the cluster, or a kubeconfig. *)
Definition loadConfig : res Config :=
  match InClusterConfig with
  | Ok c => Ok c
  | Err _ =>
      match kubeConfig_ClientConfig with
      | Ok c => Ok c
      | Err e => Err (Wrapf "failed to load kubeconfig" e)
      end
  end.

Definition NewK8sClient : res K8sClient :=
  match loadConfig with
  | Err e => Err e
  | Ok config =>
      let config := set_limits 50 100 config in
      match kubernetes_NewForConfig config with
      | Err e => Err (Wrapf "failed to create clientset" e)
      | Ok clientset =>
          match Versioned.NewForConfig config with
          | Err e => Err (Wrapf "failed to create typed versioned clientset" e)
          | Ok cubeClientset =>
              match dynamic_NewForConfig config with
              | Err e => Err (Wrapf "failed to create dynamic client" e)
              | Ok dynamicClient =>
                  match sandbox_AddToScheme with
                  | Err e => Err (Wrapf "failed to add agent-sandbox scheme" e)
                  | Ok scheme =>
                      let informerFactory := core_NewSharedInformerFactory clientset 0 in
                      let cubeInformerFactory := Factory.NewSharedInformerFactory cubeClientset 0 in
                      let '(podInformer, informerFactory) := core_Pods_Informer informerFactory in
                      let '(podLister, informerFactory) := core_Pods_Lister informerFactory in
                      Ok {| clientset := clientset; cubeClientset := cubeClientset; dynamicClient := dynamicClient;
                            scheme := scheme; baseConfig := config; clientCache := ClientCache.NewClientCache 100;
                            dynamicInformer := dynamic_NewSharedInformerFactory dynamicClient 0;
                            informerFactory := informerFactory; cubeInformerFactory := cubeInformerFactory;
                            podInformer := podInformer; podLister := podLister |}
                  end
              end
          end
      end
  end.

(** The configuration of a user's client. *)
Definition userConfig (c : K8sClient) (userToken : string) : Config := set_token userToken "" (CopyConfig (baseConfig c)).

Definition NewUserK8sClient (c : K8sClient) (userToken namespace : string) : res (K8s.UserK8sClient dynClient) :=
  match dynamic_NewForConfig (userConfig c userToken) with
  | Err e => Err (Wrapf "failed to create dynamic client with user token" e)
  | Ok d => Ok {| K8s.dynamicClient := d; K8s.u_namespace := namespace |}
  end.

(** The resources of [informers.go]. *)
Definition AgentRuntimeGVR : Factory.GroupVersionResource :=
  {| Factory.g_Group := "runtime.agentcube.volcano.sh"; Factory.g_Version := "v1alpha1"; Factory.g_Resource := "agentruntimes" |}.
Definition CodeInterpreterGVR : Factory.GroupVersionResource :=
  {| Factory.g_Group := "runtime.agentcube.volcano.sh"; Factory.g_Version := "v1alpha1"; Factory.g_Resource := "codeinterpreters" |}.
Definition SandboxGVR : Factory.GroupVersionResource :=
  {| Factory.g_Group := "agents.x-k8s.io"; Factory.g_Version := "v1alpha1"; Factory.g_Resource := "sandboxes" |}.
Definition SandboxClaimGVR : Factory.GroupVersionResource :=
  {| Factory.g_Group := "extensions.agents.x-k8s.io"; Factory.g_Version := "v1alpha1"; Factory.g_Resource := "sandboxclaims" |}.

(** [GetSandboxInformer]; the factory registers the informer it returns. *)

Definition GetSandboxInformer (f : dynFactory) : dynInformerT * dynFactory := dynamic_Informer SandboxGVR f.

(** [run] of [Informers]: both factories are started. *)
Definition run (order : list (string * nat)) (core : coreFactory)
    (f : Factory.sharedInformerFactory (C := Versioned.Clientset) (O := listOptions) (T := transformFunc)) :=
  let core := core_Start core in
  let '(started, f) := Factory.Start order f in
  (core, started, f).

End setup.

(** The requests of a user's client are those of [K8sClient.K8s] with its own dynamic client. *)
Section user.
Context {D W : Type} `{!Env W} `{!Cluster D W} {AE : ApiErrors}.

Definition CreateSandboxClaim (u : K8s.UserK8sClient D) (ctx : Ctx.Context) (claim : SandboxClaim) (w : W) :=
  K8s.createSandboxClaim (K8s.dynamicClient u) ctx claim w.
Definition CreateSandbox (u : K8s.UserK8sClient D) (ctx : Ctx.Context) (sandbox : Sandbox) (w : W) :=
  K8s.createSandbox (K8s.dynamicClient u) ctx sandbox w.
Definition DeleteSandbox (u : K8s.UserK8sClient D) (ctx : Ctx.Context) (namespace name : string) (w : W) :=
  K8s.deleteSandbox (K8s.dynamicClient u) ctx namespace name w.
Definition DeleteSandboxClaim (u : K8s.UserK8sClient D) (ctx : Ctx.Context) (namespace name : string) (w : W) :=
  K8s.deleteSandboxClaim (K8s.dynamicClient u) ctx namespace name w.

End user.

(** ** Waiting on the unstructured object *)

(** Reads of the dynamic client, and the accessors of [unstructured]: an error
    when the field has another type, [None] when it is missing. *)
Class Unstructured (W : Type) := {
  object : Type;
  getUnstructured : Ctx.Context -> string -> string -> W -> res object * W;
  NestedMap : object -> string -> res (option object);
  NestedString : object -> string -> res (option string);
}.

Section wait.
Context {W : Type} `{!Env W} `{!Unstructured W}.

(** [status.phase], if the object has it. *)
Definition phaseOf (sandbox : object) : option string :=
  match NestedMap sandbox "status" with
  | Ok (Some status) => match NestedString status "phase" with Ok (Some phase) => Some phase | _ => None end
  | _ => None
  end.

Definition readyPhase (phase : string) : bool := String.eqb phase "Running" || String.eqb phase "Ready".

(** The loop on its ticker; [None] when the fuel runs out. *)
Fixpoint ready_loop (fuel : nat) (due start : Time) (ctx : Ctx.Context) (namespace sandboxName : string) (w : W)
    : option (option goerr) * W :=
  match fuel with
  | O => (None, w)
  | S fuel =>
      let '(tick, w) := select_timer ctx due w in
      if tick then
        let next := Tm.nextTick start (2 * Tm.Second) (clock w) in
        let '(r, w) := getUnstructured ctx namespace sandboxName w in
        match r with
        | Err _ => ready_loop fuel next start ctx namespace sandboxName w
        | Ok sandbox =>
            if (match phaseOf sandbox with Some phase => readyPhase phase | None => false end) then (Some None, w)
            else ready_loop fuel next start ctx namespace sandboxName w
        end
      else (Some (Some (EText "timeout waiting for sandbox to be ready")), w)
  end.

Definition WaitForSandboxReady (fuel : nat) (ctx : Ctx.Context) (namespace sandboxName : string) (timeout : Duration) (w : W) :=
  ready_loop fuel (clock w + 2 * Tm.Second) (clock w) (Ctx.WithTimeout ctx timeout (clock w)) namespace sandboxName w.

End wait.
End K8sSetup.
