(* ===== verification/ClientsetTheorems.v ===== *)
(** * Whose credentials a client carries

    The clients the workload manager builds, and what their configurations say. *)

From Stdlib Require Import QArith.
From stdpp Require Import base list gmap strings.
From S2P Require Import Prelude GoStrings GoTime GoError GoContext K8sTypes Cluster Lru Caches K8sClient InformerFactory Clientset.
Import Rest.

(** What a configuration authenticates with. *)
Inductive credential :=
  | Basic (username password : string) | Token (token : string) | TokenFile (file : string) | ClientCert (cert key : string).

Section clients.
Context {RT : RestTypes} {RL : RestLib}.

Definition given (s : string) (c : credential) : list credential := if String.eqb s "" then [] else [c].

Definition credentials (c : Config) : list credential :=
  given (Username c) (Basic (Username c) (Password c)) ++ given (BearerToken c) (Token (BearerToken c)) ++
  given (BearerTokenFile c) (TokenFile (BearerTokenFile c)) ++ given (CertFile c) (ClientCert (CertFile c) (KeyFile c)).

(** As documented. *)
Class RestLaws : Prop := { CopyConfig_same c : CopyConfig c = c }.

(** A configuration like [c], for another user agent, API group or limiter. *)
Definition same_caller (c c' : Config) : Prop :=
  Host c' = Host c /\ credentials c' = credentials c /\ Impersonate c' = Impersonate c /\ CAFile c' = CAFile c /\
  QPS c' = QPS c /\ Burst c' = Burst c.

Lemma same_caller_refl c : same_caller c c.
Proof. by repeat split. Qed.

Lemma same_caller_trans a b c : same_caller a b -> same_caller b c -> same_caller a c.
Proof. intros (A1 & A2 & A3 & A4 & A5 & A6) (B1 & B2 & B3 & B4 & B5 & B6). repeat split; congruence. Qed.

Lemma userAgent_same c u : same_caller c (set_UserAgent u c).
Proof. by repeat split. Qed.

Lemma defaults_same c : same_caller c (RuntimeClient.setConfigDefaults c).
Proof. unfold RuntimeClient.setConfigDefaults. destruct (String.eqb _ _); by repeat split. Qed.

Lemma limited c c' : Versioned.withRateLimiter c = Ok c' ->
  same_caller c c' /\ (Versioned.positive_qps (QPS c) = true -> RateLimiter c' <> None).
Proof.
  unfold Versioned.withRateLimiter. destruct (RateLimiter c) as [l|] eqn:El.
  - intros [= <-]. split; [apply same_caller_refl|]. by rewrite El.
  - destruct (Versioned.positive_qps (QPS c)) eqn:Eq.
    + destruct (Burst c <=? 0); [done|]. intros [= <-]. split; [by repeat split|done].
    + intros [= <-]. split; [apply same_caller_refl|done].
Qed.

(** What the generated clientset is made of. *)
Lemma clientset_built c cs :
  Versioned.NewForConfig c = Ok cs ->
  exists h typed disc, HTTPClientFor (if String.eqb (UserAgent c) "" then set_UserAgent DefaultKubernetesUserAgent c else c) = Ok h /\
    RESTClientForConfigAndClient typed h = Ok (RuntimeClient.restClient_ (Versioned.runtimeV1alpha1 cs)) /\
    NewDiscoveryClientForConfigAndClient disc h = Ok (Versioned.DiscoveryClient cs) /\
    same_caller c typed /\ same_caller c disc /\ RateLimiter typed = RateLimiter disc /\
    (Versioned.positive_qps (QPS c) = true -> RateLimiter typed <> None) /\
    GroupVersion typed = Some RuntimeClient.SchemeGroupVersion /\ APIPath typed = "/apis".
Proof.
  unfold Versioned.NewForConfig. set (c1 := if String.eqb _ _ then _ else _).
  assert (same_caller c c1) as S1 by (unfold c1; destruct (String.eqb _ _); [apply userAgent_same|apply same_caller_refl]).
  destruct (HTTPClientFor c1) as [h|e] eqn:Eh; [|done]. unfold Versioned.NewForConfigAndClient.
  destruct (Versioned.withRateLimiter c1) as [c2|e] eqn:El; [|done]. destruct (limited _ _ El) as [S2 L2].
  unfold RuntimeClient.NewForConfigAndClient. destruct (RESTClientForConfigAndClient _ h) as [r|e] eqn:Er; [|done].
  destruct (NewDiscoveryClientForConfigAndClient c2 h) as [d|e] eqn:Ed; [|done]. intros [= <-].
  exists h, (RuntimeClient.setConfigDefaults c2), c2. split; [done|]. split; [done|]. split; [done|].
  assert (same_caller c c2) as S by exact (same_caller_trans c c1 c2 S1 S2). split; [eapply same_caller_trans; [exact S|apply defaults_same]|].
  assert (RateLimiter (RuntimeClient.setConfigDefaults c2) = RateLimiter c2 /\
    GroupVersion (RuntimeClient.setConfigDefaults c2) = Some RuntimeClient.SchemeGroupVersion /\
    APIPath (RuntimeClient.setConfigDefaults c2) = "/apis") as (-> & -> & ->)
    by (unfold RuntimeClient.setConfigDefaults; cbn zeta; destruct (String.eqb (UserAgent (set_group _ _ _ c2)) ""); repeat split).
  split; [done|]. split; [done|]. split; [|done]. intros Hq. apply L2. destruct S1 as (_ & _ & _ & _ & -> & _). exact Hq.
Qed.

(** What [NewK8sClient] is made of. *)
Lemma client_built k :
  K8sSetup.NewK8sClient = Ok k ->
  exists c, K8sSetup.loadConfig = Ok c /\ K8sSetup.baseConfig k = set_limits 50 100 c /\
    kubernetes_NewForConfig (K8sSetup.baseConfig k) = Ok (K8sSetup.clientset k) /\
    Versioned.NewForConfig (K8sSetup.baseConfig k) = Ok (K8sSetup.cubeClientset k) /\
    dynamic_NewForConfig (K8sSetup.baseConfig k) = Ok (K8sSetup.dynamicClient k) /\
    K8sSetup.cubeInformerFactory k = Factory.NewSharedInformerFactory (K8sSetup.cubeClientset k) 0 /\
    K8sSetup.clientCache k = ClientCache.NewClientCache 100.
Proof.
  unfold K8sSetup.NewK8sClient. destruct K8sSetup.loadConfig as [c|e]; [|done].
  destruct (kubernetes_NewForConfig _) as [cl|e] eqn:E1; [|done]. destruct (Versioned.NewForConfig _) as [cu|e] eqn:E2; [|done].
  destruct (dynamic_NewForConfig _) as [dy|e] eqn:E3; [|done]. destruct sandbox_AddToScheme as [sc|e]; [|done].
  destruct (core_Pods_Informer _) as [pi f1]. destruct (core_Pods_Lister _) as [pl f2]. intros [= <-]. by exists c.
Qed.

(** The credentials of a user's client. *)
Lemma user_credentials `{!RestLaws} k token :
  credentials (K8sSetup.userConfig k token) =
    given (Username (K8sSetup.baseConfig k)) (Basic (Username (K8sSetup.baseConfig k)) (Password (K8sSetup.baseConfig k))) ++
    given token (Token token) ++
    given (CertFile (K8sSetup.baseConfig k)) (ClientCert (CertFile (K8sSetup.baseConfig k)) (KeyFile (K8sSetup.baseConfig k))).
Proof. unfold K8sSetup.userConfig, credentials. by rewrite CopyConfig_same. Qed.

End clients.


(** ** Waiting for a sandbox *)

Section wait.
Context {W : Type} `{!Env W} `{!EnvLaws W} `{!K8sSetup.Unstructured W}.

(** It reports success only for an object whose phase it has read, and a timeout
    only when the context has ended. *)
Theorem wait_ready_sound fuel ctx ns n timeout (w w' : W) r :
  K8sSetup.WaitForSandboxReady fuel ctx ns n timeout w = (Some r, w') ->
  match r with
  | None => exists w1 obj phase, K8sSetup.getUnstructured (Ctx.WithTimeout ctx timeout (clock w)) ns n w1 = (Ok obj, w') /\
      K8sSetup.phaseOf obj = Some phase /\ (phase = "Running" \/ phase = "Ready")
  | Some _ => Ctx.Err (Ctx.WithTimeout ctx timeout (clock w)) (clock w') <> None
  end.
Proof.
  unfold K8sSetup.WaitForSandboxReady. set (c := Ctx.WithTimeout _ _ _). clearbody c.
  generalize (clock w + 2 * Tm.Second). generalize (clock w). intros start due. revert due w.
  induction fuel as [|fuel IH]; intros due w; cbn; [done|].
  destruct (select_timer c due w) as [[] w1] eqn:Hs; [|by intros [= <- <-]; eapply timer_done].
  destruct (K8sSetup.getUnstructured c ns n w1) as [[obj|e] w2] eqn:Hg; [|apply IH].
  destruct (K8sSetup.phaseOf obj) as [phase|] eqn:Hp; [|apply IH].
  destruct (K8sSetup.readyPhase phase) eqn:Hr; [|apply IH]. intros [= <- <-]. exists w1, obj, phase.
  split; [done|]. split; [done|]. unfold K8sSetup.readyPhase in Hr. apply orb_true_iff in Hr.
  destruct Hr as [->%String.eqb_eq| ->%String.eqb_eq]; auto.
Qed.

End wait.

(** ** A concrete library: clients are the configurations they were made from *)

Module RestModel.

#[export] Instance types : RestTypes :=
  {| limiter := Q * Z; serializer := unit; httpClient := unit; restClient := unit; discoveryClient := unit;
     kubeClientset := unit; dynClient := string; coreFactory := unit; dynFactory := unit; podInformerT := unit;
     podListerT := unit; dynInformerT := unit; schemeT := unit; listOptions := unit; transformFunc := unit |}.

Definition inCluster : Config :=
  {| Host := "https://10.0.0.1"; APIPath := ""; GroupVersion := None; NegotiatedSerializer := None; Username := "";
     Password := ""; BearerToken := "service"; BearerTokenFile := "/var/run/token"; Impersonate := ""; CertFile := "";
     KeyFile := ""; CAFile := "/var/run/ca.crt"; UserAgent := ""; QPS := 0; Burst := 0; RateLimiter := None |}.

#[export] Instance lib : RestLib :=
  {| DefaultKubernetesUserAgent := "agentcube"; HTTPClientFor _ := Ok tt; RESTClientForConfigAndClient _ _ := Ok tt;
     NewDiscoveryClientForConfigAndClient _ _ := Ok tt; NewDiscoveryClient _ := tt; NewTokenBucketRateLimiter q b := (q, b);
     CodecFactoryForGeneratedClient := tt; CopyConfig c := c; kubernetes_NewForConfig _ := Ok tt;
     dynamic_NewForConfig c := Ok (BearerToken c); InClusterConfig := Ok inCluster;
     kubeConfig_ClientConfig := Err (EText "no kubeconfig"); sandbox_AddToScheme := Ok tt;
     core_NewSharedInformerFactory _ _ := tt; core_Pods_Informer f := (tt, f); core_Pods_Lister f := (tt, f);
     core_Start f := f; dynamic_NewSharedInformerFactory _ _ := tt; dynamic_Informer _ f := (tt, f) |}.

#[export] Instance laws : RestLaws.
Proof. by split. Qed.

Definition client1 : K8sSetup.K8sClient :=
  {| K8sSetup.clientset := tt;
     K8sSetup.cubeClientset := {| Versioned.DiscoveryClient := tt; Versioned.runtimeV1alpha1 := RuntimeClient.New tt |};
     K8sSetup.dynamicClient := "service"; K8sSetup.scheme := tt; K8sSetup.baseConfig := set_limits 50 100 inCluster;
     K8sSetup.clientCache := ClientCache.NewClientCache 100; K8sSetup.dynamicInformer := tt; K8sSetup.informerFactory := tt;
     K8sSetup.cubeInformerFactory :=
       Factory.NewSharedInformerFactory {| Versioned.DiscoveryClient := tt; Versioned.runtimeV1alpha1 := RuntimeClient.New tt |} 0;
     K8sSetup.podInformer := tt; K8sSetup.podLister := tt |}.

End RestModel.


(** The generic factory serves exactly those of the workload manager's resources
    that belong to the repository's own API group; the sandboxes go through the
    dynamic factory. *)
Lemma gvr_informers {C O T} (show : Factory.GroupVersionResource -> string) (f : Factory.sharedInformerFactory (C := C) (O := O) (T := T)) mem g :
  g ∈ [K8sSetup.AgentRuntimeGVR; K8sSetup.CodeInterpreterGVR; K8sSetup.SandboxGVR; K8sSetup.SandboxClaimGVR] ->
  is_ok (Factory.ForResource show g f mem).1.1 = bool_decide ((Factory.g_Group g, Factory.g_Version g) = Scheme.GroupVersion).
Proof.
  rewrite !elem_of_cons. intros Hg. unfold Factory.ForResource.
  destruct Hg as [-> |[-> |[-> |[-> |[]%elem_of_nil]]]]; cbn.
  1: by destruct (Factory.agentRuntime_Informer _ _ _) as [[]].
  1: by destruct (Factory.codeInterpreter_Informer _ _ _) as [[]].
  all: done.
Qed.
