(* ===== verification/GoPath.v ===== *)
(** * [path/filepath] on Unix

    [Clean] works on the components of a path, as its documentation states:
    empty and "." components are dropped, ".." removes the component before it,
    or is dropped at the root. *)

From Stdlib Require Import Ascii.
From stdpp Require Import base list strings.
From S2P Require Import Prelude GoStrings GoError.

Module Path.

Definition IsAbs (p : string) : bool := Strs.HasPrefix p "/".

(** The components that [Clean] keeps; [acc] holds them in reverse. *)
Fixpoint clean_comps (rooted : bool) (cs acc : list string) : list string :=
  match cs with
  | [] => rev acc
  | c :: cs =>
      if String.eqb c "" || String.eqb c "." then clean_comps rooted cs acc
      else if String.eqb c ".." then
        match acc with
        | [] => clean_comps rooted cs (if rooted then [] else [".."])
        | a :: acc' => clean_comps rooted cs (if String.eqb a ".." then ".." :: acc else acc')
        end
      else clean_comps rooted cs (c :: acc)
  end.

Definition slash (cs : list string) : string := Strs.Join cs "/".

Definition Clean (p : string) : string :=
  if IsAbs p then "/" +:+ slash (clean_comps true (Strs.Split "/" p) [])
  else match clean_comps false (Strs.Split "/" p) [] with [] => "." | cs => slash cs end.

(** [filepath.Join(a, b)] *)
Definition Join (a b : string) : string :=
  if String.eqb a "" then (if String.eqb b "" then "" else Clean b)
  else Clean (a +:+ "/" +:+ b).

(** Up to and including the last slash. *)
Fixpoint upto_slash (s : string) : string :=
  match s with
  | EmptyString => ""
  | String c s' =>
      let r := upto_slash s' in
      if negb (String.eqb r "") then String c r else if Ascii.eqb c "/" then "/" else ""
  end.

Definition Dir (p : string) : string := Clean (upto_slash p).

(** The components of a clean path. *)
Definition comps (p : string) : list string :=
  List.filter (fun c => negb (String.eqb c "") && negb (String.eqb c ".")) (Strs.Split "/" p).

(** What is left of two component lists without their common beginning. *)
Fixpoint strip_common (base targ : list string) : list string * list string :=
  match base, targ with
  | b :: base', t :: targ' => if String.eqb b t then strip_common base' targ' else (base, targ)
  | _, _ => (base, targ)
  end.

(** [filepath.Rel(base, targ)] *)
Definition Rel (base targ : string) : res string :=
  let base := Clean base in
  let targ := Clean targ in
  if String.eqb base targ then Ok "."
  else if xorb (IsAbs base) (IsAbs targ) then Err (EText ("Rel: can't make " +:+ targ +:+ " relative to " +:+ base))
  else
    let '(bs, ts) := strip_common (comps base) (comps targ) in
    match bs with
    | b :: _ =>
        if String.eqb b ".." then Err (EText ("Rel: can't make " +:+ targ +:+ " relative to " +:+ base))
        else Ok (slash (((fun _ => "..") <$> bs) ++ ts))
    | [] => Ok (slash ts)
    end.

(** The last component. *)
Definition Base (p : string) : string :=
  if String.eqb p "" then "."
  else match last (List.filter (fun c => negb (String.eqb c "")) (Strs.Split "/" p)) with
       | Some c => c
       | None => "/"
       end.

Definition Ext (p : string) : string :=
  match last (Strs.Split "/" p) with
  | Some b => match last (Strs.Split "." b), Strs.Split "." b with
              | Some e, _ :: _ :: _ => "." +:+ e
              | _, _ => ""
              end
  | None => ""
  end.

(** ** Facts *)

Lemma IsAbs_slash s : IsAbs ("/" +:+ s) = true.
Proof. apply Strs.prefix_append. Qed.

(** A proper component: what names a directory entry. *)
Definition proper (c : string) : Prop := c <> "" /\ c <> "." /\ c <> ".." /\ Strs.free_of "/" c = true.

Lemma clean_rooted_proper cs acc :
  Forall (fun c => Strs.free_of "/" c = true) cs -> Forall proper acc -> Forall proper (clean_comps true cs acc).
Proof.
  revert acc. induction cs as [|c cs IH]; intros acc Hf Ha; cbn [clean_comps]; [by apply List.Forall_rev|].
  apply Forall_cons in Hf as [Hc Hf].
  destruct (String.eqb_spec c ""); [by apply IH|]. destruct (String.eqb_spec c "."); [by apply IH|]. cbn [orb].
  destruct (String.eqb_spec c "..").
  - destruct acc as [|a acc]; [by apply IH|]. apply Forall_cons in Ha as [Ha Ha'].
    destruct (String.eqb_spec a ".."); [by destruct Ha as (_ & _ & ? & _)|by apply IH].
  - apply IH; [done|]. by constructor.
Qed.

(** Components survive joining and splitting. *)
Lemma Split_slash cs : cs <> [] -> Forall (fun c => Strs.free_of "/" c = true) cs -> Strs.Split "/" (slash cs) = cs.
Proof.
  induction cs as [|c [|d cs] IH]; intros Hne Hf; [done| |].
  - apply Forall_cons in Hf as [Hc _]. by apply Strs.Split_self.
  - apply Forall_cons in Hf as [Hc Hf]. change (slash (c :: d :: cs)) with (c +:+ String "/" (slash (d :: cs))).
    rewrite Strs.Split_app by done. by rewrite IH.
Qed.

Definition keep (c : string) : bool := negb (String.eqb c "") && negb (String.eqb c ".").

Lemma filter_proper cs : Forall proper cs -> List.filter keep cs = cs.
Proof.
  induction 1 as [|c cs (H1 & H2 & _) _ IH]; [done|]. cbn. unfold keep at 1.
  rewrite (proj2 (String.eqb_neq c "") H1), (proj2 (String.eqb_neq c ".") H2). cbn. by rewrite IH.
Qed.

Lemma proper_free cs : Forall proper cs -> Forall (fun c => Strs.free_of "/" c = true) cs.
Proof. intros H. eapply Forall_impl; [exact H|]. by intros c (_ & _ & _ & ?). Qed.

Lemma comps_rooted cs : Forall proper cs -> comps ("/" +:+ slash cs) = cs.
Proof.
  intros H. unfold comps. fold keep. change ("/" +:+ slash cs) with (String "/" (slash cs)). cbn [Strs.Split Ascii.eqb].
  destruct cs as [|c cs]; [done|]. cbn -[slash]. rewrite Split_slash by (done || by apply proper_free).
  by apply filter_proper.
Qed.

(** The components of a path, cleaned. *)
Definition norm (p : string) : list string := clean_comps true (Strs.Split "/" p) [].

Lemma norm_proper p : Forall proper (norm p).
Proof. apply clean_rooted_proper; [apply Strs.Split_free|done]. Qed.

Lemma Clean_abs p : IsAbs p = true -> Clean p = "/" +:+ slash (norm p) /\ comps (Clean p) = norm p.
Proof. intros H. unfold Clean. rewrite H. split; [done|]. apply comps_rooted, norm_proper. Qed.

Lemma clean_comps_proper cs acc : Forall proper cs -> clean_comps true cs acc = rev acc ++ cs.
Proof.
  revert acc. induction cs as [|c cs IH]; intros acc H; cbn [clean_comps]; [by rewrite app_nil_r|].
  apply Forall_cons in H as [(H1 & H2 & H3 & _) H].
  rewrite (proj2 (String.eqb_neq c "") H1), (proj2 (String.eqb_neq c ".") H2), (proj2 (String.eqb_neq c "..") H3). cbn [orb].
  rewrite IH by done. cbn. by rewrite <- app_assoc.
Qed.

Lemma norm_rooted cs : Forall proper cs -> norm ("/" +:+ slash cs) = cs.
Proof.
  intros H. unfold norm. change ("/" +:+ slash cs) with (String "/" (slash cs)).
  assert (Strs.Split "/" (String "/" (slash cs)) = "" :: Strs.Split "/" (slash cs)) as -> by done.
  destruct cs as [|c cs]; [done|]. rewrite Split_slash by (done || by apply proper_free). 
  change (clean_comps true ("" :: c :: cs) []) with (clean_comps true (c :: cs) []). by rewrite clean_comps_proper.
Qed.

(** Cleaning is idempotent on absolute paths. *)
Lemma Clean_Clean p : IsAbs p = true -> Clean (Clean p) = Clean p.
Proof.
  intros H. destruct (Clean_abs p H) as [-> _].
  destruct (Clean_abs ("/" +:+ slash (norm p)) (IsAbs_slash _)) as [-> _]. by rewrite (norm_rooted _ (norm_proper p)).
Qed.

(** A path is inside a directory: it extends its components. *)
Definition inside (base p : string) : Prop := exists cs, norm p = norm base ++ cs.

Lemma strip_common_spec base targ bs ts :
  strip_common base targ = (bs, ts) -> exists pre, base = pre ++ bs /\ targ = pre ++ ts.
Proof.
  revert targ. induction base as [|b base IH]; intros targ; cbn; [intros [= <- <-]; by exists []|].
  destruct targ as [|t targ]; [intros [= <- <-]; by exists []|].
  destruct (String.eqb_spec b t) as [->|]; [|intros [= <- <-]; by exists []].
  intros Hs. destruct (IH _ Hs) as (pre & -> & ->). by exists (t :: pre).
Qed.

Lemma norm_Clean p : IsAbs p = true -> norm (Clean p) = norm p.
Proof. intros H. destruct (Clean_abs p H) as [-> _]. apply norm_rooted, norm_proper. Qed.

(** The check the code makes on a relative path. *)
Definition escapes (rel : string) : bool := Strs.HasPrefix rel "../" || String.eqb rel "..".

Lemma slash_dotdot cs : escapes (slash (".." :: cs)) = true.
Proof. destruct cs; [done|]. unfold escapes, Strs.HasPrefix. change (slash (".." :: s :: cs)) with ("../" +:+ slash (s :: cs)).
  by rewrite Strs.prefix_append. Qed.

Lemma Rel_inside base targ rel :
  IsAbs base = true -> IsAbs targ = true -> Rel base targ = Ok rel -> escapes rel = false -> inside base targ.
Proof.
  intros Hb Ht. unfold Rel. destruct (String.eqb_spec (Clean base) (Clean targ)) as [He|_].
  - intros _ _. exists []. rewrite app_nil_r, <- (norm_Clean base Hb), He. symmetry. by apply norm_Clean.
  - destruct (xorb _ _); [done|]. destruct (Clean_abs base Hb) as [_ ->]. destruct (Clean_abs targ Ht) as [_ ->].
    destruct (strip_common (norm base) (norm targ)) as [bs ts] eqn:Hs. apply strip_common_spec in Hs as (pre & H1 & H2).
    destruct bs as [|b bs].
    + intros _ _. exists ts. by rewrite H1, H2, app_nil_r.
    + destruct (String.eqb b ".."); [done|]. intros [= <-]. cbn [fmap list_fmap app]. by rewrite slash_dotdot.
Qed.

End Path.
