(* ===== verification/Mtls.v ===== *)
(** * Mutual TLS ([pkg/mtls])

    Identities, the wait for certificate files at start-up, the verification of
    peers, and the watcher that reloads rotated certificates. Certificates and
    their verification ([crypto/x509], [crypto/tls]) are the class [X509]. *)

From stdpp Require Import base list gmap strings.
From S2P Require Import Prelude GoStrings GoTime GoError GoContext Cluster GoPath.

(** Parsed certificates [X], pools of roots [Pool], key pairs [Cert]. *)
Class X509 (X Pool Cert : Type) := {
  ParseCertificate : string -> res X;
  (** [cert.Verify(opts)] with roots, intermediates and a key usage, at the
      current time *)
  x509_Verify : X -> Pool -> list X -> string -> option goerr;
  URIs : X -> list string;
}.

Module Mtls.

Record Config := { CertFile : string; KeyFile : string; CAFile : string }.

(** ** [spiffeid.go] *)

Definition defaultTrustDomain : string := "cluster.local".
Definition trustDomainEnvVar : string := "AGENTCUBE_SPIFFE_TRUST_DOMAIN".
Definition defaultNamespace : string := "agentcube".
Definition namespaceEnvVar : string := "AGENTCUBE_NAMESPACE".

Definition configuredTrustDomain (env : string -> string) : string :=
  let t := Strs.TrimSpace (env trustDomainEnvVar) in if String.eqb t "" then defaultTrustDomain else t.

Definition configuredNamespace (env : string -> string) : string :=
  let n := Strs.TrimSpace (env namespaceEnvVar) in if String.eqb n "" then defaultNamespace else n.

Definition componentSPIFFEID (trustDomain namespace serviceAccount : string) : string :=
  "spiffe://" +:+ trustDomain +:+ "/ns/" +:+ namespace +:+ "/sa/" +:+ serviceAccount.

Definition RouterSPIFFEID (env : string -> string) : string :=
  componentSPIFFEID (configuredTrustDomain env) (configuredNamespace env) "agentcube-router".

Definition WorkloadManagerSPIFFEID (env : string -> string) : string :=
  componentSPIFFEID (configuredTrustDomain env) (configuredNamespace env) "workloadmanager".

(** ** [wait.go] *)

Definition DefaultCertificateFileWaitTimeout : Duration := 30 * Tm.Second.

(** [os.Stat] on a file: present, absent, or another error; [time.Sleep]. *)
Class Disk (W : Type) := {
  stat_file : string -> W -> option (bool * goerr);   (* [None]: present; [true]: does not exist *)
  Sleep : Duration -> W -> W;
}.

Section wait.
Context {W : Type} `{!Env W} `{!Disk W}.
Implicit Types w : W.

Fixpoint status (paths : list string) w : res (list string) :=
  match paths with
  | [] => Ok []
  | p :: paths =>
      match stat_file p w with
      | None => status paths w
      | Some (true, _) => match status paths w with Ok m => Ok (p :: m) | Err e => Err e end
      | Some (false, e) => Err (Wrapf ("stat " +:+ Strs.Quote p) e)
      end
  end.

(** The missing files; existence of all is the empty list. *)
Definition certificateFilesStatus (cfg : Config) w : res (list string) :=
  status [CertFile cfg; KeyFile cfg; CAFile cfg] w.

Fixpoint wait_loop (fuel : nat) (cfg : Config) (deadline : Time) w : option (option goerr) * W :=
  match fuel with
  | O => (None, w)
  | S fuel =>
      match certificateFilesStatus cfg w with
      | Err e => (Some (Some (Wrapf "failed to access mTLS cert/key/CA files" e)), w)
      | Ok [] => (Some None, w)
      | Ok missing =>
          if Tm.After (clock w) deadline then
            (Some (Some (EText ("timed out waiting for mTLS cert/key/CA files: missing " +:+ Strs.Join missing ", "))), w)
          else wait_loop fuel cfg deadline (Sleep (500 * Tm.Millisecond) w)
      end
  end.

(** Rounds that are enough: each sleeps half a second. *)
Definition wait_fuel (timeout : Duration) : nat := S (S (Z.to_nat (timeout / (500 * Tm.Millisecond)))).

Definition WaitForCertificateFiles (cfg : Config) (timeout : Duration) w : option (option goerr) * W :=
  if String.eqb (CertFile cfg) "" || String.eqb (KeyFile cfg) "" || String.eqb (CAFile cfg) "" then
    (Some (Some (EText ("mTLS requires cert, key, and CA file paths to be provided (got cert=" +:+ Strs.Quote (CertFile cfg)
       +:+ ", key=" +:+ Strs.Quote (KeyFile cfg) +:+ ", ca=" +:+ Strs.Quote (CAFile cfg) +:+ ")"))), w)
  else wait_loop (wait_fuel timeout) cfg (clock w + timeout) w.

End wait.

(** ** [watcher.go]: the state and its reloads *)

(** The certificate files at one moment [F], as [crypto/tls], [os] and
    [crypto/x509] read them, and the file notifications of [fsnotify]. *)
Class CertIO (F Pool Cert : Type) := {
  LoadX509KeyPair : string -> string -> F -> res Cert;
  ReadFile_pem : string -> F -> res string;
  AppendCertsFromPEM : string -> option Pool;   (* [None]: no certificate in the text *)
  fsnotify_NewWatcher : F -> option goerr;
  watcher_Add : string -> F -> option goerr;
}.

Section watcher.
Context {F X Pool Cert : Type} `{!CertIO F Pool Cert} `{!X509 X Pool Cert}.
Implicit Types f : F.

(** [debounce] is the pending timer of [watchLoop]; [watched] the directories
    of the file watcher; [stopped] says that [done] is closed. *)
Record CertWatcher := {
  certFile : string; keyFile : string; caFile : string; cert : option Cert; caPool : option Pool;
  watched : list string; debounce : option Time; stopped : bool;
}.

Definition watchDebounceDelay : Duration := 200 * Tm.Millisecond.

Definition with_cert (c : option Cert) (p : option Pool) (cw : CertWatcher) : CertWatcher :=
  {| certFile := certFile cw; keyFile := keyFile cw; caFile := caFile cw; cert := c; caPool := p;
     watched := watched cw; debounce := debounce cw; stopped := stopped cw |}.

Definition with_watched (dirs : list string) (cw : CertWatcher) : CertWatcher :=
  {| certFile := certFile cw; keyFile := keyFile cw; caFile := caFile cw; cert := cert cw; caPool := caPool cw;
     watched := dirs; debounce := debounce cw; stopped := stopped cw |}.

Definition loadCertificate (cw : CertWatcher) f : res Cert := LoadX509KeyPair (certFile cw) (keyFile cw) f.

Definition loadCAPool (cw : CertWatcher) f : res Pool :=
  match ReadFile_pem (caFile cw) f with
  | Err e => Err (Wrapf ("read CA file " +:+ caFile cw) e)
  | Ok caCert =>
      match AppendCertsFromPEM caCert with
      | None => Err (EText ("no valid CA certificates found in " +:+ caFile cw))
      | Some pool => Ok pool
      end
  end.

Definition reload f (cw : CertWatcher) : res CertWatcher :=
  match loadCertificate cw f with
  | Err e => Err e
  | Ok c => Ok (with_cert (Some c) (caPool cw) cw)
  end.

Definition reloadCA f (cw : CertWatcher) : res CertWatcher :=
  match loadCAPool cw f with
  | Err e => Err e
  | Ok p => Ok (with_cert (cert cw) (Some p) cw)
  end.

(** The directories to watch, each once; a Go map, which [order] enumerates. *)
Definition watchDirs (cw : CertWatcher) : list string :=
  remove_dups ([Path.Dir (certFile cw); Path.Dir (keyFile cw)] ++
    if String.eqb (caFile cw) "" then [] else [Path.Dir (caFile cw)]).

Fixpoint add_dirs (dirs : list string) f : option goerr :=
  match dirs with
  | [] => None
  | dir :: dirs =>
      match watcher_Add dir f with
      | Some e => Some (Wrapf ("watch certificate directory " +:+ dir) e)
      | None => add_dirs dirs f
      end
  end.

(** The files when the pair, the bundle and the directories are read: [fc],
    [fa], [fw]. *)
Definition NewCertWatcher (certFile keyFile caFile : string) (order : list string -> list string) (fc fa fw : F)
    : res CertWatcher :=
  let cw := {| certFile := certFile; keyFile := keyFile; caFile := caFile; cert := None; caPool := None;
               watched := []; debounce := None; stopped := false |} in
  match reload fc cw with
  | Err e => Err (Wrapf "initial cert load" e)
  | Ok cw =>
      match (if String.eqb caFile "" then Ok cw else reloadCA fa cw) with
      | Err e => Err (Wrapf "initial CA load" e)
      | Ok cw =>
          match fsnotify_NewWatcher fw with
          | Some e => Err (Wrapf "create file watcher" e)
          | None =>
              let dirs := order (watchDirs cw) in
              match add_dirs dirs fw with
              | Some e => Err e
              | None => Ok (with_watched dirs cw)
              end
          end
      end
  end.

Definition GetCertificate (cw : CertWatcher) : option Cert := cert cw.
Definition GetClientCertificate (cw : CertWatcher) : option Cert := cert cw.
Definition GetCAPool (cw : CertWatcher) : option Pool := caPool cw.

Definition Stop (cw : CertWatcher) : CertWatcher :=
  {| certFile := certFile cw; keyFile := keyFile cw; caFile := caFile cw; cert := cert cw; caPool := caPool cw;
     watched := []; debounce := debounce cw; stopped := true |}.

(** Both or none: nothing is stored unless every load succeeded. *)
Definition reloadAll (fc fa : F) (cw : CertWatcher) : CertWatcher :=
  match loadCertificate cw fc with
  | Err _ => cw
  | Ok c =>
      if String.eqb (caFile cw) "" then with_cert (Some c) None cw
      else match loadCAPool cw fa with Err _ => cw | Ok p => with_cert (Some c) (Some p) cw end
  end.

Definition set_debounce (d : option Time) (cw : CertWatcher) : CertWatcher :=
  {| certFile := certFile cw; keyFile := keyFile cw; caFile := caFile cw; cert := cert cw; caPool := caPool cw;
     watched := watched cw; debounce := d; stopped := stopped cw |}.

(** The branches of the select in [watchLoop]. *)
Definition on_event (relevant : bool) (now : Time) (cw : CertWatcher) : CertWatcher :=
  if relevant then
    match debounce cw with None => set_debounce (Some (now + watchDebounceDelay)) cw | Some _ => cw end
  else cw.

Definition on_timer (fc fa : F) (cw : CertWatcher) : CertWatcher := reloadAll fc fa (set_debounce None cw).

(** ** [loader.go]: verification of peers *)

Fixpoint parse_all (what : string) (i : Z) (raws : list string) : res (list X) :=
  match raws with
  | [] => Ok []
  | r :: raws =>
      match ParseCertificate r with
      | Err e => Err (Wrapf ("parse " +:+ what +:+ " intermediate certificate " +:+ Strs.Itoa i) e)
      | Ok x => match parse_all what (i + 1) raws with Ok l => Ok (x :: l) | Err e => Err e end
      end
  end.

Definition requireCAPool (cw : CertWatcher) : res Pool :=
  match GetCAPool cw with
  | None => Err (EText "CA pool is required for mTLS verification")
  | Some p => Ok p
  end.

(** The chain of a peer, of which [what] is "client" or "server". *)
Definition verify_chain (what usage : string) (cw : CertWatcher) (rawCerts : list string) : res X :=
  match rawCerts with
  | [] => Err (EText ("no " +:+ what +:+ " certificate presented"))
  | raw :: raws =>
      match ParseCertificate raw with
      | Err e => Err (Wrapf ("parse " +:+ what +:+ " certificate") e)
      | Ok peerCert =>
          match parse_all what 1 raws with
          | Err e => Err e
          | Ok intermediates =>
              match requireCAPool cw with
              | Err e => Err (Wrapf ("verify " +:+ what +:+ " certificate chain") e)
              | Ok pool =>
                  match x509_Verify peerCert pool intermediates usage with
                  | Some e => Err (Wrapf ("verify " +:+ what +:+ " certificate chain") e)
                  | None => Ok peerCert
                  end
              end
          end
      end
  end.

Definition verifyClientCert (cw : CertWatcher) (rawCerts : list string) : option goerr :=
  match verify_chain "client" "ClientAuth" cw rawCerts with Err e => Some e | Ok _ => None end.

Definition verifyServerCert (cw : CertWatcher) (expectedID : string) (rawCerts : list string) : option goerr :=
  match verify_chain "server" "ServerAuth" cw rawCerts with
  | Err e => Some e
  | Ok peerCert =>
      if existsb (fun uri => String.eqb uri expectedID) (URIs peerCert) then None
      else Some (EText ("server certificate SPIFFE ID does not match expected " +:+ Strs.Quote expectedID))
  end.

(** What a [tls.Config] of this package says. The callbacks hold the watcher,
    so they take its state at the time of the handshake. *)
Record TlsConfig := {
  ownCertificate : CertWatcher -> option Cert;   (* [GetCertificate] or [GetClientCertificate] *)
  RequireAnyClientCert : bool;                   (* [ClientAuth] *)
  MinVersion : Z;
  InsecureSkipVerify : bool;
  VerifyPeerCertificate : CertWatcher -> list string -> option goerr;
}.

Definition VersionTLS13 : Z := 772.

Definition LoadServerConfig (cfg : option Config) (order : list string -> list string) (fc fa fw : F)
    : res (TlsConfig * CertWatcher) :=
  match cfg with
  | None => Err (EText "server TLS config: mtls.Config is nil")
  | Some cfg =>
      if String.eqb (CAFile cfg) "" then Err (EText "server TLS config: CAFile is required for mTLS verification")
      else match NewCertWatcher (CertFile cfg) (KeyFile cfg) (CAFile cfg) order fc fa fw with
           | Err e => Err (Wrapf "server TLS cert watcher" e)
           | Ok watcher =>
               Ok ({| ownCertificate := GetCertificate; RequireAnyClientCert := true; MinVersion := VersionTLS13;
                      InsecureSkipVerify := false; VerifyPeerCertificate := verifyClientCert |}, watcher)
           end
  end.

Definition LoadClientConfig (cfg : option Config) (expectedServerID : string) (order : list string -> list string)
    (fc fa fw : F) : res (TlsConfig * CertWatcher) :=
  if String.eqb expectedServerID "" then
    Err (EText "client TLS config: expectedServerID is required for SPIFFE verification")
  else
    match cfg with
    | None => Err (EText "client TLS config: mtls.Config is nil")
    | Some cfg =>
        if String.eqb (CAFile cfg) "" then Err (EText "client TLS config: CAFile is required for mTLS verification")
        else match NewCertWatcher (CertFile cfg) (KeyFile cfg) (CAFile cfg) order fc fa fw with
             | Err e => Err (Wrapf "client TLS cert watcher" e)
             | Ok watcher =>
                 Ok ({| ownCertificate := GetClientCertificate; RequireAnyClientCert := false; MinVersion := VersionTLS13;
                        InsecureSkipVerify := true;
                        VerifyPeerCertificate cw := verifyServerCert cw expectedServerID |}, watcher)
             end
    end.

(** ** The watch loop as a transition system

    [reads] are the pairs of certificate and bundle that were read successfully
    in one load, latest first; [dirty] is the time of the first relevant event
    since the last reload started. Events and the timer are handled while not
    stopped; the files can change between the two reads of a load. *)

Record config := { cw : CertWatcher; reads : list (Cert * option Pool); dirty : option Time; time : Time }.

Definition good_read (cw : CertWatcher) (fc fa : F) : option (Cert * option Pool) :=
  match loadCertificate cw fc with
  | Err _ => None
  | Ok c =>
      if String.eqb (caFile cw) "" then Some (c, None)
      else match loadCAPool cw fa with Ok p => Some (c, Some p) | Err _ => None end
  end.

Inductive step : config -> config -> Prop :=
  | step_time c t : time c <= t -> step c {| cw := cw c; reads := reads c; dirty := dirty c; time := t |}
  | step_event c relevant :
      stopped (cw c) = false ->
      step c {| cw := on_event relevant (time c) (cw c); reads := reads c;
                dirty := if relevant then Some (default (time c) (dirty c)) else dirty c; time := time c |}
  | step_timer c fc fa d :
      stopped (cw c) = false -> debounce (cw c) = Some d -> d <= time c ->
      step c {| cw := on_timer fc fa (cw c);
                reads := match good_read (cw c) fc fa with Some r => r :: reads c | None => reads c end;
                dirty := None; time := time c |}
  | step_stop c : step c {| cw := Stop (cw c); reads := reads c; dirty := dirty c; time := time c |}.

Inductive reachable (start : config) : config -> Prop :=
  | reach_start : reachable start start
  | reach_step c c' : reachable start c -> step c c' -> reachable start c'.

End watcher.
Arguments CertWatcher : clear implicits.
Arguments TlsConfig : clear implicits.
Arguments config : clear implicits.
End Mtls.
