(* ===== verification/MtlsTheorems.v ===== *)
(** * Properties of mutual TLS *)

From stdpp Require Import base list gmap strings.
From S2P Require Import Prelude GoStrings GoTime GoError GoContext Cluster GoPath Mtls.
Import Mtls.

(** ** The watcher *)

Section watcher.
Context {F Pool Cert : Type} `{!CertIO F Pool Cert}.
Implicit Types (w : CertWatcher Pool Cert) (c : config Pool Cert).

(** The state right after construction. *)
Definition started (cfg : Config) (order : list string -> list string) (fc fa fw : F) (t : Time) c : Prop :=
  NewCertWatcher (CertFile cfg) (KeyFile cfg) (CAFile cfg) order fc fa fw = Ok (cw c) /\
  (exists crt, LoadX509KeyPair (CertFile cfg) (KeyFile cfg) fc = Ok crt /\ reads c = [(crt, caPool (cw c))]) /\
  dirty c = None /\ time c = t.

(** The directories of the files are watched. *)
Definition watches (cfg : Config) w : Prop :=
  forall p, p ∈ [CertFile cfg; KeyFile cfg; CAFile cfg] -> p <> "" -> Path.Dir p ∈ watched w.

Record inv (cfg : Config) c : Prop := {
  inv_files : certFile (cw c) = CertFile cfg /\ keyFile (cw c) = KeyFile cfg /\ caFile (cw c) = CAFile cfg;
  inv_served : exists crt, cert (cw c) = Some crt /\ head (reads c) = Some (crt, caPool (cw c));
  inv_pool : CAFile cfg <> "" -> is_Some (caPool (cw c));
  inv_pending : stopped (cw c) = false -> forall t, dirty c = Some t ->
    exists d, debounce (cw c) = Some d /\ d <= t + watchDebounceDelay;
  inv_past : forall t, dirty c = Some t -> t <= time c;
  inv_clean : dirty c = None -> debounce (cw c) = None;
  inv_watched : stopped (cw c) = false -> watches cfg (cw c);
}.

Lemma watchDirs_spec w p : p ∈ [certFile w; keyFile w; caFile w] -> p <> "" -> Path.Dir p ∈ watchDirs w.
Proof.
  intros Hp Hne. apply elem_of_remove_dups. destruct (String.eqb_spec (caFile w) ""); set_solver.
Qed.

(** What a successful construction has loaded and watches. *)
Lemma New_spec cfg order fc fa fw w crt :
  (forall l, order l ≡ₚ l) -> LoadX509KeyPair (CertFile cfg) (KeyFile cfg) fc = Ok crt ->
  NewCertWatcher (CertFile cfg) (KeyFile cfg) (CAFile cfg) order fc fa fw = Ok w ->
  (certFile w = CertFile cfg /\ keyFile w = KeyFile cfg /\ caFile w = CAFile cfg) /\
  cert w = Some crt /\ (CAFile cfg <> "" -> is_Some (caPool w)) /\ debounce w = None /\ watches cfg w.
Proof.
  intros Ho Hc. unfold NewCertWatcher, reload, reloadCA, loadCertificate. cbn [certFile keyFile]. rewrite Hc.
  destruct (String.eqb_spec (CAFile cfg) "") as [Hca|Hca].
  2: destruct (loadCAPool _ fa) as [pool|]; [|done].
  all: destruct (fsnotify_NewWatcher fw); [done|]; destruct (add_dirs _ fw); [done|]; intros [= <-]; cbn -[watchDirs].
  all: split_and!; try done; intros p Hp Hne; cbn -[watchDirs]; rewrite Ho; by apply watchDirs_spec.
Qed.

Lemma inv_started cfg order fc fa fw t c :
  (forall l, order l ≡ₚ l) -> started cfg order fc fa fw t c -> inv cfg c.
Proof.
  intros Ho (Hn & (crt & Hl & Hr) & Hd & _). destruct (New_spec _ _ _ _ _ _ _ Ho Hl Hn) as (H1 & H2 & H3 & H4 & H5).
  split; try done; try by rewrite Hd. exists crt. by rewrite Hr.
Qed.

(** A reload either stores a pair it read, or changes nothing. *)
Lemma reload_cases fc fa w :
  let w' := on_timer fc fa w in
  (certFile w', keyFile w', caFile w') = (certFile w, keyFile w, caFile w) /\ debounce w' = None /\
  stopped w' = stopped w /\ watched w' = watched w /\
  match good_read w fc fa with
  | Some (c, p) => cert w' = Some c /\ caPool w' = p /\ (caFile w <> "" -> is_Some p)
  | None => cert w' = cert w /\ caPool w' = caPool w
  end.
Proof.
  unfold on_timer, reloadAll, good_read, loadCertificate, loadCAPool. cbn.
  destruct (LoadX509KeyPair _ _ fc) as [cr|]; cbn; [|done]. destruct (String.eqb_spec (caFile w) ""); cbn; [done|].
  destruct (ReadFile_pem _ fa) as [text|]; [|done]. by destruct (AppendCertsFromPEM text).
Qed.

Lemma rotation_step cfg c c' : inv cfg c -> step c c' -> inv cfg c'.
Proof.
  intros [Hf Hs Hp Hpd Hpast Hcl Hw] Hstep. destruct Hstep as [c t Ht|c rel Hst|c fc fa d Hst Hd Hle|c]; cbn.
  - split; cbn; try done. intros u Hu. specialize (Hpast u Hu). lia.
  - unfold on_event. destruct rel; [|by split]. destruct (debounce (cw c)) as [d|] eqn:Hd.
    + split; cbn; try done.
      * intros _ t [= <-]. destruct (dirty c) as [u|] eqn:Hu; [|by specialize (Hcl eq_refl)].
        destruct (Hpd Hst u eq_refl) as (d' & Hd' & Hle). exists d'. split; [congruence|exact Hle].
      * intros t [= <-]. destruct (dirty c) as [u|] eqn:Hu; cbn; [by apply Hpast|lia].
    + destruct (dirty c) as [u|] eqn:Hu.
      { destruct (Hpd Hst u eq_refl) as (d & Hx & _). congruence. }
      split; cbn; try done.
      * intros _ t [= <-]. eexists. split; [done|]. lia.
      * intros t [= <-]. lia.
  - destruct (reload_cases fc fa (cw c)) as (H1 & H2 & H3 & H4 & H5). injection H1 as E1 E2 E3.
    destruct (good_read (cw c) fc fa) as [[cr p]|]; split; cbn; try done; try (intros _ q; rewrite H4; by apply Hw);
      rewrite ?E1, ?E2, ?E3; try done.
    + destruct H5 as (-> & -> & _). by eexists.
    + destruct H5 as (_ & -> & Hx). destruct Hf as (_ & _ & <-). exact Hx.
    + by destruct H5 as (-> & ->).
    + by destruct H5 as (_ & ->).
  - split; cbn; done.
Qed.

Lemma rotation_reachable cfg c0 c : inv cfg c0 -> reachable c0 c -> inv cfg c.
Proof. induction 2; [done|by eapply rotation_step]. Qed.

End watcher.


Lemma parse_all_spec {X Pool Cert : Type} `{!X509 X Pool Cert} what i raws l :
  parse_all what i raws = Ok l <-> Forall2 (fun r x => ParseCertificate r = Ok x) raws l.
Proof.
  revert i l. induction raws as [|r raws IH]; intros i l; cbn.
  - split; [intros [= <-]; constructor|by intros ->%Forall2_nil_inv_l].
  - destruct (ParseCertificate r) as [x|] eqn:Hx.
    2:{ split; [done|]. intros (y & l2 & Hy & _ & _)%Forall2_cons_inv_l. congruence. }
    destruct (parse_all what (i + 1) raws) as [l'|] eqn:Hl.
    + split; [intros [= <-]; constructor; [done|by apply (IH (i + 1))]|].
      intros (y & l2 & Hy & Hl2 & ->)%Forall2_cons_inv_l. apply (IH (i + 1)) in Hl2. congruence.
    + split; [done|]. intros (y & l2 & Hy & Hl2 & ->)%Forall2_cons_inv_l. apply (IH (i + 1)) in Hl2. congruence.
Qed.

(** [C38] The router talks only to the workload manager: its TLS client accepts
    a server exactly when the certificates it presents parse, their chain
    verifies for server authentication against the bundle in use at that
    moment, and one of the names of the leaf is the expected identity. *)
Theorem server_verified {X Pool Cert : Type} `{!X509 X Pool Cert} (cw : CertWatcher Pool Cert) (id : string) (raws : list string) :
  verifyServerCert cw id raws = None <->
  exists raw rest leaf inter pool,
    raws = raw :: rest /\ ParseCertificate raw = Ok leaf /\ Forall2 (fun r x => ParseCertificate r = Ok x) rest inter /\
    GetCAPool cw = Some pool /\ x509_Verify leaf pool inter "ServerAuth" = None /\ id ∈ URIs leaf.
Proof.
  unfold verifyServerCert, verify_chain, requireCAPool. destruct raws as [|raw rest].
  { split; [done|]. by intros (? & ? & ? & ? & ? & ? & _). }
  destruct (ParseCertificate raw) as [leaf|] eqn:Hr.
  2:{ split; [done|]. intros (? & ? & ? & ? & ? & ? & ? & _). simplify_eq. congruence. }
  destruct (parse_all "server" 1 rest) as [inter|] eqn:Hp.
  2:{ split; [done|]. intros (? & ? & ? & inter & ? & ? & ? & Hi & _). simplify_eq. apply (parse_all_spec "server" 1) in Hi. congruence. }
  apply parse_all_spec in Hp. destruct (GetCAPool cw) as [pool|] eqn:Hc.
  2:{ split; [done|]. intros (? & ? & ? & ? & ? & ? & ? & ? & ? & _). done. }
  assert (forall inter', Forall2 (fun r x => ParseCertificate r = Ok x) rest inter' -> inter' = inter) as Huniq.
  { intros inter' Hi. apply (parse_all_spec "server" 1) in Hi. apply (parse_all_spec "server" 1) in Hp. congruence. }
  destruct (x509_Verify leaf pool inter "ServerAuth") as [e|] eqn:Hv.
  { split; [done|]. intros (? & ? & ? & i & ? & ? & ? & Hi & ? & ? & _). simplify_eq. apply Huniq in Hi. congruence. }
  destruct (existsb _ (URIs leaf)) eqn:Hx.
  - split; [|done]. intros _. apply existsb_exists in Hx as (u & Hu & He%String.eqb_eq). subst u.
    exists raw, rest, leaf, inter, pool. split_and!; try done. by apply list_elem_of_In.
  - split; [done|]. intros (raw' & rest' & leaf' & i & pool' & Heq & Hl & _ & _ & _ & Hu). injection Heq as <- <-.
    assert (leaf' = leaf) as -> by congruence.
    exfalso. apply not_true_iff_false in Hx. apply Hx, existsb_exists. exists id. split; [by apply list_elem_of_In|apply String.eqb_refl].
Qed.

(** ** Waiting for the files *)

(** Sleeping takes at least the requested time. *)
Class SleepLaws (W : Type) `{!Env W} `{!Disk W} : Prop := {
  Sleep_advances d w : clock w + d <= clock (Sleep d w);
}.

Lemma wait_loop_ends {W} `{!Env W} `{!Disk W} `{!SleepLaws W} fuel cfg deadline (w : W) :
  deadline < clock w + Z.of_nat fuel * (500 * Tm.Millisecond) ->
  exists r w', wait_loop (S fuel) cfg deadline w = (Some r, w') /\
    (r = None -> certificateFilesStatus cfg w' = Ok []).
Proof.
  revert w. induction fuel as [|fuel IH]; intros w Hf.
  - cbn [wait_loop]. destruct (certificateFilesStatus cfg w) as [[|p l]|e] eqn:Hs; [eauto|..|eexists _, _; by split].
    unfold Tm.After. rewrite (proj2 (Z.ltb_lt _ _)) by lia. eexists _, _. by split.
  - remember (S fuel) as n eqn:Hn. cbn [wait_loop].
    destruct (certificateFilesStatus cfg w) as [[|p l]|e] eqn:Hs; [eauto|..|eexists _, _; by split].
    destruct (Tm.After (clock w) deadline); [eexists _, _; by split|]. subst n. apply IH.
    pose proof (Sleep_advances (500 * Tm.Millisecond) w). lia.
Qed.

(** Start-up does not hang on certificates: the wait ends, within a number
    of half-second rounds that the timeout bounds, and it ends without an error
    only when the certificate, the key and the bundle were all present. *)
Lemma certificate_wait_ends {W : Type} `{!Env W} `{!Disk W} `{!SleepLaws W} (cfg : Config) (timeout : Duration) (w : W) :
  0 <= timeout ->
  exists r w', WaitForCertificateFiles cfg timeout w = (Some r, w') /\
    (r = None -> CertFile cfg <> "" /\ KeyFile cfg <> "" /\ CAFile cfg <> "" /\
       forall p, p ∈ [CertFile cfg; KeyFile cfg; CAFile cfg] -> stat_file p w' = None).
Proof.
  intros Ht. unfold WaitForCertificateFiles.
  destruct (String.eqb_spec (CertFile cfg) "") as [|H1]; [eexists _, _; by split|].
  destruct (String.eqb_spec (KeyFile cfg) "") as [|H2]; [eexists _, _; by split|].
  destruct (String.eqb_spec (CAFile cfg) "") as [|H3]; [eexists _, _; by split|]. cbn [orb].
  destruct (wait_loop_ends (S (Z.to_nat (timeout / (500 * Tm.Millisecond)))) cfg (clock w + timeout) w) as (r & w' & Hr & Hok).
  { assert (0 <= timeout / (500 * Tm.Millisecond)) by (apply Z.div_pos; [done|reflexivity]).
    pose proof (Z.mod_pos_bound timeout (500 * Tm.Millisecond) ltac:(reflexivity)).
    pose proof (Z_div_mod_eq_full timeout (500 * Tm.Millisecond)). rewrite Nat2Z.inj_succ, Z2Nat.id by done. lia. }
  exists r, w'. split; [exact Hr|]. intros ->. split_and!; [done..|]. specialize (Hok eq_refl). revert Hok.
  unfold certificateFilesStatus. generalize [CertFile cfg; KeyFile cfg; CAFile cfg]. intros ps.
  induction ps as [|q ps IH]; cbn [status]; [by intros _ p []%not_elem_of_nil|].
  destruct (stat_file q w') as [[[] e]|] eqn:Hq; [by destruct (status ps w')|done|].
  intros Hps p [->|Hin]%elem_of_cons; [done|by apply IH].
Qed.

(** ** Witnesses *)

Module MtlsModel.

(** Certificates are their text; a chain verifies when the leaf names the pool. *)
#[export] Instance x509 : X509 string string string := {
  ParseCertificate s := if String.eqb s "" then Err (EText "asn1") else Ok s;
  x509_Verify leaf pool _ _ := if Strs.Contains leaf pool then None else Some (EText "unknown authority");
  URIs leaf := [leaf];
}.

(** Certificates and bundles are their texts; a bundle without a certificate
    does not parse. The files at a moment are a map. *)
Definition files : Type := gmap string string.

#[export] Instance cert_io : CertIO files string string := {
  LoadX509KeyPair c k f :=
    match f !! c, f !! k with
    | Some c, Some _ => Ok c
    | _, _ => Err (EText "no such file")
    end;
  ReadFile_pem p f := match f !! p with Some t => Ok t | None => Err (EText "no such file") end;
  AppendCertsFromPEM t := if String.eqb t "" then None else Some t;
  fsnotify_NewWatcher _ := None;
  watcher_Add d _ := if String.eqb d "/tls" then None else Some (EText "no such directory");
}.

Definition paths : Config := {| CertFile := "/tls/cert"; KeyFile := "/tls/key"; CAFile := "/tls/ca" |}.

Definition files0 : files := <["/tls/cert" := "cert-1"]> (<["/tls/key" := "key-1"]> (<["/tls/ca" := "ca-1"]> ∅)).
(** The certificate is rotated but the bundle is half-written. *)
Definition files1 : files := <["/tls/cert" := "cert-2"]> (<["/tls/key" := "key-2"]> (<["/tls/ca" := ""]> ∅)).

Definition cw0 : CertWatcher string string :=
  {| certFile := "/tls/cert"; keyFile := "/tls/key"; caFile := "/tls/ca"; cert := Some "cert-1"; caPool := Some "ca-1";
     watched := ["/tls"]; debounce := None; stopped := false |}.
Definition c0 : config string string := {| cw := cw0; reads := [("cert-1", Some "ca-1")]; dirty := None; time := 0 |}.

Definition c1 : config string string :=
  {| cw := on_event true 0 cw0; reads := reads c0; dirty := Some 0; time := 0 |}.
Definition c2 : config string string := {| cw := cw c1; reads := reads c1; dirty := dirty c1; time := 1000000000 |}.
Definition c3 : config string string :=
  {| cw := on_timer files1 files1 (cw c2); reads := reads c2; dirty := None; time := time c2 |}.

Lemma started0 : started paths (fun l => l) files0 files0 files0 0 c0.
Proof. split; [vm_compute; reflexivity|]. split; [exists "cert-1"; split; vm_compute; reflexivity|done]. Qed.

Lemma rotation_reachable3 : reachable c0 c3.
Proof.
  eapply reach_step; [eapply reach_step; [eapply reach_step; [apply reach_start|]|]|].
  - exact (step_event c0 true eq_refl).
  - exact (step_time c1 1000000000 ltac:(discriminate)).
  - exact (step_timer c2 files1 files1 200000000 eq_refl eq_refl ltac:(discriminate)).
Qed.

(** Files that appear two seconds after the start. *)
Record world := { now : Time }.
#[export] Instance env : Env world := {
  clock := now; Intn _ w := (0, w); NewUUID w := ("", w); select_timer _ _ w := (true, w);
  select_after _ _ w := (true, w); select_ready _ _ _ w := (ChanClosed, w);
}.
#[export] Instance disk : Disk world := {
  stat_file _ w := if 2 * Tm.Second <=? now w then None else Some (true, EText "no such file");
  Sleep d w := {| now := now w + d |};
}.
#[export] Instance sleep_laws : SleepLaws world.
Proof. split. intros d w. cbn. lia. Qed.

End MtlsModel.
Import MtlsModel.


Lemma certificate_wait_ends_witness :
  exists r w', WaitForCertificateFiles paths DefaultCertificateFileWaitTimeout {| now := 0 |} = (Some r, w').
Proof.
  destruct (certificate_wait_ends paths DefaultCertificateFileWaitTimeout {| now := 0 |} ltac:(discriminate))
    as (r & w' & H & _). exists r, w'. exact H.
Defined.
