(* ===== verification/GoProxy.v ===== *)
(** * [net.SplitHostPort] and [net/http/httputil.ReverseProxy]

    The request that a single-host reverse proxy with a [Director] sends: the
    default director, then the one of the caller, then the removal of
    hop-by-hop headers and the forwarding headers of [ServeHTTP], in that
    order. *)

From Stdlib Require Import Ascii.
From stdpp Require Import base list strings sets.
From S2P Require Import Prelude GoStrings GoHttp.

(** Cut at the last occurrence of a byte. *)
Fixpoint LastCut (sep : ascii) (s : string) : option (string * string) :=
  match s with
  | EmptyString => None
  | String c s =>
      match LastCut sep s with
      | Some (a, b) => Some (String c a, b)
      | None => if Ascii.eqb c sep then Some ("", s) else None
      end
  end.

(** [_, _, err := net.SplitHostPort(s); err == nil] *)
Definition SplitHostPort_ok (s : string) : bool :=
  match LastCut ":" s with
  | None => false
  | Some (h, p) =>
      if Strs.HasPrefix s "[" then
        match Strs.Cut "]" s with
        | (_, None) => false
        | (_, Some rest) =>
            String.eqb rest (":" +:+ p) && Strs.free_of "[" (Strs.drop 1 s) && Strs.free_of "]" rest
        end
      else Strs.free_of ":" h && Strs.free_of "[" s && Strs.free_of "]" s
  end.

(** All values of a header field. *)
Definition Values (k : string) (h : Header) : list string :=
  snd <$> List.filter (fun kv => Strs.EqualFold k kv.1) h.

Lemma Values_Get k h v l : Values k h = v :: l -> Hdr.Get k h = v.
Proof.
  unfold Values. induction h as [|[k' v'] h IH]; [done|]. cbn.
  destruct (Strs.EqualFold k k'); [|done]. cbn. by intros [= -> _].
Qed.

Lemma Values_Del k h : Values k (Hdr.Del k h) = [].
Proof.
  unfold Values. induction h as [|[k' v] h IH]; [done|]. cbn.
  destruct (Strs.EqualFold k k') eqn:E; [done|]. cbn. by rewrite E.
Qed.

Lemma Values_Del_ne k k' h : Strs.EqualFold k k' = false -> Values k (Hdr.Del k' h) = Values k h.
Proof.
  intros Hne. unfold Values. induction h as [|[k'' v] h IH]; [done|]. cbn.
  destruct (Strs.EqualFold k' k'') eqn:E1; cbn.
  - rewrite IH. destruct (Strs.EqualFold k k'') eqn:E2; [|done]. unfold Strs.EqualFold in *.
    apply String.eqb_eq in E1, E2. rewrite E2, <- E1, String.eqb_refl in Hne. done.
  - destruct (Strs.EqualFold k k''); cbn; [f_equal|]; apply IH.
Qed.

Lemma Values_Set k v h : Values k (Hdr.Set_ k v h) = [v].
Proof.
  unfold Hdr.Set_. assert (Values k ((k, v) :: Hdr.Del k h) = v :: Values k (Hdr.Del k h)) as ->.
  { unfold Values. cbn. by rewrite Hdr.EqualFold_refl. }
  by rewrite Values_Del.
Qed.

Lemma Values_Set_ne k k' v h : Strs.EqualFold k k' = false -> Values k (Hdr.Set_ k' v h) = Values k h.
Proof. intros Hne. unfold Hdr.Set_, Values. cbn. rewrite Hne. by apply Values_Del_ne. Qed.

(** ** The proxy *)

(** An outgoing request; [o_Host] is the [Host] field that overrides the one
    of the URL in the request line. *)
Record OutReq := {
  o_Method : string; o_Scheme : string; o_UrlHost : string; o_Path : string; o_RawQuery : string;
  o_Host : string; o_Header : Header;
}.

Record Response := { resp_Status : Z; resp_Header : Header; resp_Body : string }.

Definition hopHeaders : list string :=
  ["Connection"; "Proxy-Connection"; "Keep-Alive"; "Proxy-Authenticate"; "Proxy-Authorization"; "Te";
   "Trailer"; "Transfer-Encoding"; "Upgrade"].

(** The fields a [Connection] header lists. *)
Definition connection_fields (h : Header) : list string :=
  List.filter (fun sf => negb (String.eqb sf ""))
    (Strs.TrimSpace <$> concat (Strs.Split ","%char <$> Values "Connection" h)).

Definition del_all (ks : list string) (h : Header) : Header := fold_left (fun h k => Hdr.Del k h) ks h.

Definition removeHopByHopHeaders (h : Header) : Header :=
  del_all hopHeaders (del_all (connection_fields h) h).

(** [httpguts.HeaderValuesContainsToken] *)
Definition contains_token (vs : list string) (token : string) : bool :=
  existsb (fun v => existsb (fun t => Strs.EqualFold (Strs.TrimSpace t) token) (Strs.Split ","%char v)) vs.

Definition upgradeType (h : Header) : string :=
  if contains_token (Values "Connection" h) "Upgrade" then Hdr.Get "Upgrade" h else "".

(** [ascii.IsPrint] *)
Fixpoint printable (s : string) : bool :=
  match s with
  | EmptyString => true
  | String c s => let n := nat_of_ascii c in ((32 <=? n) && (n <=? 126))%nat && printable s
  end.

(** What [ServeHTTP] does to the headers after the director ran; [original]
    are the headers of the incoming request and [remoteIP] its peer. *)
Definition finish_header (original : Header) (remoteIP : option string) (h : Header) : Header :=
  let up := upgradeType h in
  let h := removeHopByHopHeaders h in
  let h := if contains_token (Values "Te" original) "trailers" then Hdr.Set_ "Te" "trailers" h else h in
  let h := if negb (String.eqb up "") then Hdr.Set_ "Upgrade" up (Hdr.Set_ "Connection" "Upgrade" h) else h in
  let h :=
    match remoteIP with
    | None => h
    | Some ip =>
        let prior := Values "X-Forwarded-For" h in
        Hdr.Set_ "X-Forwarded-For" (match prior with [] => ip | _ => Strs.Join prior ", " +:+ ", " +:+ ip end) h
    end in
  match Values "User-Agent" h with [] => Hdr.Set_ "User-Agent" "" h | _ => h end.

(** Fields that survive: not hop-by-hop, and not named by the client. *)
Lemma Get_del_all k ks h :
  Forall (fun k' => Strs.EqualFold k k' = false) ks -> Hdr.Get k (del_all ks h) = Hdr.Get k h.
Proof.
  unfold del_all. revert h. induction ks as [|k' ks IH]; intros h Hf; [done|].
  apply Forall_cons in Hf as [Hk Hf]. cbn. rewrite IH by done. by apply Hdr.Get_Del_ne.
Qed.

Lemma Get_removeHopByHop k h :
  Forall (fun k' => Strs.EqualFold k k' = false) (connection_fields h) ->
  Forall (fun k' => Strs.EqualFold k k' = false) hopHeaders ->
  Hdr.Get k (removeHopByHopHeaders h) = Hdr.Get k h.
Proof. intros Hc Hh. unfold removeHopByHopHeaders. by rewrite !Get_del_all. Qed.

Lemma Get_finish_header k original ip h :
  Forall (fun k' => Strs.EqualFold k k' = false) (connection_fields h) ->
  Forall (fun k' => Strs.EqualFold k k' = false) (hopHeaders ++ ["X-Forwarded-For"; "User-Agent"]) ->
  Hdr.Get k (finish_header original ip h) = Hdr.Get k h.
Proof.
  intros Hc [Hh Hx]%Forall_app. apply Forall_cons in Hx as [Hx [Hu _]%Forall_cons].
  assert (Strs.EqualFold k "Te" = false /\ Strs.EqualFold k "Upgrade" = false /\
    Strs.EqualFold k "Connection" = false) as (H1 & H2 & H3).
  { rewrite Forall_forall in Hh. by split_and!; apply Hh; set_solver. }
  unfold finish_header. cbv zeta.
  repeat match goal with
  | |- context [match ?x with _ => _ end] => destruct x
  end; rewrite ?Hdr.Get_Set_ne by done; by apply Get_removeHopByHop.
Qed.
