(* ===== verification/RouterAuth.v ===== *)
(** * Authentication of external users in the router

    [pkg/router/oidc.go] (validation of OIDC access tokens) and
    [pkg/router/auth.go] (the middleware). The key set of [go-oidc], which
    fetches keys over the network, is the class [KeySet]; the texts of the base64
    and JSON decoders, which are only logged, are abbreviated. *)

From Stdlib Require Import Ascii.
From stdpp Require Import base list gmap strings.
From S2P Require Import Prelude GoStrings GoTime GoError GoContext GoHttp GoEncoding Cluster.

(** [gooidc.KeySet]: the payload of a token whose signature verifies. *)
Class KeySet (W : Type) := {
  VerifySignature : Ctx.Context -> string -> W -> res string * W;
  (** the identity provider signed this payload in this token *)
  oidc_signed : string -> string -> Prop;
}.

Class KeySetLaws (W : Type) `{!KeySet W} : Prop := {
  VerifySignature_sound ctx raw w payload w' :
    VerifySignature ctx raw w = (Ok payload, w') -> oidc_signed raw payload;
}.

(** ** [oidc.go] *)

Module Oidc.

Definition clockSkewLeeway : Duration := 30 * Tm.Second.

Record OIDCConfig := { IssuerURL : string; Audience : string; RolesClaim : string }.

Record Claims := { Subject : string; Email : string; Roles : list string }.

(** The validator without its key set, which is the class. *)
Record OIDCValidator := { issuer : string; audience : string; rolesClaim : string }.

(** [discovered] is the outcome of [NewProvider] and of reading [jwks_uri]
    from the discovery document. *)
Definition NewOIDCValidator (cfg : OIDCConfig) (provider : res (res string)) : res OIDCValidator :=
  match provider with
  | Err e => Err (Wrapf ("failed to discover OIDC provider at " +:+ IssuerURL cfg) e)
  | Ok (Err e) => Err (Wrapf "failed to extract jwks_uri from OIDC discovery" e)
  | Ok (Ok _) => Ok {| issuer := IssuerURL cfg; audience := Audience cfg; rolesClaim := RolesClaim cfg |}
  end.

Definition allowedSigningAlgs : list string :=
  ["RS256"; "RS384"; "RS512"; "ES256"; "ES384"; "ES512"; "PS256"; "PS384"; "PS512"; "EdDSA"].

(** [json.Unmarshal] into [struct { Alg string `json:"alg"` }]: members are
    matched without case, a later one overrides, [null] leaves the field. *)
Fixpoint decode_alg (l : list (string * json)) (acc : string) : option string :=
  match l with
  | [] => Some acc
  | (k, v) :: l =>
      if Strs.EqualFold k "alg" then
        match v with
        | JStr s => decode_alg l s
        | JNull => decode_alg l acc
        | _ => None
        end
      else decode_alg l acc
  end.

Definition decode_header (v : option json) : option string :=
  match v with
  | Some (JObj l) => decode_alg l ""
  | Some JNull => Some ""
  | _ => None
  end.

(** [json.Unmarshal] into a map: [null] gives the nil map. *)
Definition decode_map (v : option json) : option (list (string * json)) :=
  match v with
  | Some (JObj l) => Some l
  | Some JNull => Some []
  | _ => None
  end.

(** [slices.Contains] *)
Definition contains (l : list string) (s : string) : bool := bool_decide (s ∈ l).

Definition parseAudienceClaim (audVal : option json) : list string :=
  match audVal with
  | Some (JStr s) => [s]
  | Some (JArr l) => strings_of l
  | _ => []
  end.

(** The walk along the path. *)
Fixpoint navigate (parts : list string) (current : json) : option json :=
  match parts with
  | [] => Some current
  | part :: parts =>
      match current with
      | JObj m => match obj_get part m with Some v => navigate parts v | None => None end
      | _ => None
      end
  end.

Definition extractRolesFromClaims (claims : list (string * json)) (path : string) : list string :=
  if String.eqb path "" then []
  else
    let parts := match obj_get path claims with Some _ => [path] | None => Strs.Split "."%char path end in
    match navigate parts (JObj claims) with
    | Some (JArr arr) => strings_of arr
    | _ => []
    end.

Section validate.
Context {W : Type} `{!KeySet W} {JT : JsonText}.
Implicit Types w : W.

Definition checkTokenAlgorithm (rawToken : string) : option goerr :=
  match Strs.SplitN "."%char 3 rawToken with
  | [p0; _; _] =>
      match B64.RawURLDecode p0 with
      | None => Some (EWrap "malformed JWT header: " (EText "illegal base64 data") "")
      | Some headerBytes =>
          match decode_header (json_parse headerBytes) with
          | None => Some (EWrap "malformed JWT header JSON: " (EText "json error") "")
          | Some alg =>
              if contains allowedSigningAlgs alg then None
              else Some (EText ("signing algorithm not supported: " +:+ Strs.Quote alg))
          end
      end
  | parts => Some (EText ("malformed JWT: expected 3 parts, got " +:+ Strs.Itoa (Z.of_nat (length parts))))
  end.

(** The checks on the claims of a verified payload, [now] and [now'] being
    the two readings of the clock. *)
Definition checkClaims (v : OIDCValidator) (now now' : Time) (allClaims : list (string * json)) : res Claims :=
  let iss := as_string (obj_get "iss" allClaims) in
  let subject := as_string (obj_get "sub" allClaims) in
  let email := as_string (obj_get "email" allClaims) in
  let expiry := as_float (obj_get "exp" allClaims) in
  let notBefore := as_float (obj_get "nbf" allClaims) in
  let audiences := parseAudienceClaim (obj_get "aud" allClaims) in
  if negb (String.eqb iss (issuer v)) then
    Err (EText ("invalid issuer: got " +:+ Strs.Quote iss +:+ ", expected " +:+ Strs.Quote (issuer v)))
  else if String.eqb subject "" then Err (EText "token missing required sub claim")
  else if float_is_zero expiry then Err (EText "token missing required exp claim")
  else if Tm.After now (Tm.Add (Tm.OfUnix (float_to_int64 expiry)) clockSkewLeeway) then
    Err (EText "token has expired")
  else if negb (float_is_zero notBefore) &&
          Tm.Before now' (Tm.Add (Tm.OfUnix (float_to_int64 notBefore)) (- clockSkewLeeway)) then
    Err (EText "token is not yet valid")
  else if negb (String.eqb (audience v) "") && negb (contains audiences (audience v)) then
    Err (EText ("invalid audience: token audiences [" +:+ Strs.Join audiences " " +:+
                "] do not include " +:+ Strs.Quote (audience v)))
  else
    Ok {| Subject := subject; Email := email;
          Roles := extractRolesFromClaims allClaims (rolesClaim v) |}.

Definition ValidateToken `{!Env W} (v : OIDCValidator) (ctx : Ctx.Context) (rawToken : string) w : res Claims * W :=
  if String.eqb rawToken "" then (Err (EText "empty token"), w)
  else
    match checkTokenAlgorithm rawToken with
    | Some e => (Err e, w)
    | None =>
        let '(r, w) := VerifySignature ctx rawToken w in
        match r with
        | Err e => (Err (Wrapf "token signature verification failed" e), w)
        | Ok payload =>
            match decode_map (json_parse payload) with
            | None => (Err (EWrap "failed to parse token claims: " (EText "json error") ""), w)
            | Some allClaims => (checkClaims v (clock w) (clock w) allClaims, w)
            end
        end
    end.

End validate.
End Oidc.

(** ** [auth.go] *)

Module RouterAuth.
Import Oidc.

(** A [gin.H] body and its status; [c.Abort()] goes with it. *)
Definition denial : Type := Z * list (string * string).

Definition denied (code : Z) (msg tag : string) : denial := (code, [("error", msg); ("code", tag)]).

(** A request as the router reads it; [claims] is the value under the context
    key, which the middleware sets in the Gin context and in the request
    context alike. *)
Record Request := {
  method : string;
  header : Header;
  host : string;
  rawQuery : string;
  tls : bool;
  clientIP : string;      (* c.ClientIP() *)
  remoteIP : option string; (* the host of RemoteAddr *)
  ctx : Ctx.Context;
  claims : option Claims;
}.

Definition with_claims (c : Claims) (r : Request) : Request :=
  {| method := method r; header := header r; host := host r; rawQuery := rawQuery r; tls := tls r;
     clientIP := clientIP r; remoteIP := remoteIP r; ctx := ctx r; claims := Some c |}.

Definition extractClaims (r : Request) : option Claims := claims r.

Section middleware.
Context {W : Type} `{!Env W} `{!KeySet W} {JT : JsonText}.
Implicit Types w : W.

Definition oidcAuthMiddleware (oidcValidator : option OIDCValidator) (r : Request) w
    : (Request + denial) * W :=
  match oidcValidator with
  | None => (inl r, w)
  | Some v =>
      let authHeader := Hdr.Get "Authorization" (header r) in
      if String.eqb authHeader "" then
        (inr (denied StatusUnauthorized "missing authorization header" "UNAUTHORIZED"), w)
      else
        match Strs.SplitN " "%char 2 authHeader with
        | [scheme; rest] =>
            if negb (Strs.EqualFold scheme "Bearer") then
              (inr (denied StatusUnauthorized "invalid authorization header format" "UNAUTHORIZED"), w)
            else
              let rawToken := Strs.TrimSpace rest in
              if String.eqb rawToken "" then
                (inr (denied StatusUnauthorized "empty bearer token" "UNAUTHORIZED"), w)
              else
                let '(res, w) := ValidateToken v (ctx r) rawToken w in
                match res with
                | Err _ => (inr (denied StatusUnauthorized "invalid or expired token" "UNAUTHORIZED"), w)
                | Ok c => (inl (with_claims c r), w)
                end
        | _ => (inr (denied StatusUnauthorized "invalid authorization header format" "UNAUTHORIZED"), w)
        end
  end.

Definition requireRole (role : string) (r : Request) : option denial :=
  match extractClaims r with
  | None => Some (denied StatusUnauthorized "authentication required" "UNAUTHORIZED")
  | Some c =>
      if contains (Roles c) role then None
      else Some (denied StatusForbidden ("insufficient permissions: missing role " +:+ role) "FORBIDDEN")
  end.

End middleware.
End RouterAuth.
