(* ===== verification/RouterJwt.v ===== *)
(** * The keys of the router and the tokens it signs ([pkg/router/jwt.go])

    RSA keys, their PEM and ASN.1 forms and the signing half of [golang-jwt]
    are the class [KeyPairs], over the parsing half in [WmAuth]. *)

From Stdlib Require Import Ascii.
From stdpp Require Import base list gmap strings.
From S2P Require Import Prelude GoStrings GoTime GoError GoContext GoHttp GoEncoding K8sTypes Cluster WmAuth.

(** Private keys [P] with their public keys [K]. *)
Class KeyPairs (P K : Type) := {
  public : P -> K;
  (** [jwt.NewWithClaims(SigningMethodRS256, claims).SignedString(key)] *)
  SignedString : P -> list (string * json) -> res string;
  MarshalPKIXPublicKey : K -> res string;
  MarshalPKCS1PrivateKey : P -> string;
  ParsePKCS1PrivateKey : string -> res P;
  EncodeToMemory : string -> string -> string;
}.

(** Values that the JSON text of a token keeps as they are: ASCII strings and
    integers a [float64] holds. *)
Fixpoint ascii_only (s : string) : bool :=
  match s with EmptyString => true | String c s => (nat_of_ascii c <? 128)%nat && ascii_only s end.

Definition exact_value (v : json) : bool :=
  match v with
  | JStr s => ascii_only s
  | JNum m e => (e =? 0) && (- 2 ^ 53 <=? m) && (m <=? 2 ^ 53)
  | _ => false
  end.

Definition exact_claims (l : list (string * json)) : bool :=
  forallb (fun kv => ascii_only kv.1 && exact_value kv.2) l.

(** What is documented of the formats and of the tokens: decoding inverts
    encoding, and a token signed with a key parses under its public key until
    it expires, with the claims it was signed with. *)
Class KeyPairLaws (P K : Type) `{!KeyPairs P K} `{!KeyFormats K} `{!JwtLib K} : Prop := {
  pem_roundtrip ty b : pem_Decode (EncodeToMemory ty b) = Some b;
  pem_nonempty ty b : EncodeToMemory ty b <> "";
  pkix_roundtrip k b : MarshalPKIXPublicKey k = Ok b -> ParsePKIXPublicKey b = Ok (RSAKey k);
  pkcs1_roundtrip p : ParsePKCS1PrivateKey (MarshalPKCS1PrivateKey p) = Ok p;
  signed_nonempty p claims tok : SignedString p claims = Ok tok -> tok <> "";
  signed_no_space p claims tok : SignedString p claims = Ok tok -> Strs.free_of " " tok = true;
  signed_parses p claims tok ms now x :
    SignedString p claims = Ok tok -> exact_claims claims = true -> "RS256" ∈ ms ->
    obj_get "exp" claims = Some (JNum x 0) -> now < Tm.OfUnix x ->
    exists claims', jwt_Parse (public p) ms now tok = Ok claims' /\
      forall k, obj_get k claims' = obj_get k claims;
}.

Module RouterJwt.

Definition jwtExpiration : Duration := 5 * Tm.Minute.
Definition IdentitySecretName : string := "picod-router-identity".
Definition PrivateKeyDataKey : string := "private.pem".
Definition PublicKeyDataKey : string := "public.pem".

(** [IdentityNamespace] after [init]; [env] is [os.Getenv]. *)
Definition IdentityNamespace (env : string -> string) : string :=
  let ns := env "AGENTCUBE_NAMESPACE" in if negb (String.eqb ns "") then ns else "default".

(** [corev1.Secret] as the router writes and reads it. *)
Record Secret := {
  sec_Name : string; sec_Namespace : string; sec_Labels : gmap string string; sec_Data : gmap string string;
}.

(** The secrets of the API server. *)
Class Secrets (W : Type) := {
  (** [rest.InClusterConfig] and [kubernetes.NewForConfig] *)
  InClusterConfig : W -> option goerr;
  NewForConfig : W -> option goerr;
  secret_Create : Ctx.Context -> Secret -> W -> option goerr * W;
  secret_Get : Ctx.Context -> string -> string -> W -> res Secret * W;
}.

Section jwt.
Context {P K : Type} `{!KeyPairs P K}.

(** [publicKey] is always the one of [privateKey]. *)
Record JWTManager := { privateKey : P; publicKey : K; clientset : bool }.

(** [generated] is the outcome of [rsa.GenerateKey(rand.Reader, 2048)]. *)
Definition NewJWTManager (generated : res P) : res JWTManager :=
  match generated with
  | Err e => Err (Wrapf "failed to generate RSA key pair" e)
  | Ok p => Ok {| privateKey := p; publicKey := public p; clientset := false |}
  end.

(** [now] and [now'] are the two readings of the clock; a custom claim
    overrides a standard one. *)
Definition GenerateToken (jm : JWTManager) (now now' : Time) (claims : list (string * json)) : res string :=
  let jwtClaims :=
    [("exp", JNum (Tm.Unix (Tm.Add now jwtExpiration)) 0);
     ("iat", JNum (Tm.Unix now') 0);
     ("iss", JStr "agentcube-router")] ++ claims in
  match SignedString (privateKey jm) jwtClaims with
  | Err e => Err (Wrapf "failed to sign JWT token" e)
  | Ok tokenString => Ok tokenString
  end.

Definition GetPublicKeyPEM (jm : JWTManager) : res string :=
  match MarshalPKIXPublicKey (publicKey jm) with
  | Err e => Err (Wrapf "failed to marshal public key" e)
  | Ok b => Ok (EncodeToMemory (P := P) "PUBLIC KEY" b)
  end.

Definition GetPrivateKeyPEM (jm : JWTManager) : string :=
  EncodeToMemory (P := P) "RSA PRIVATE KEY" (MarshalPKCS1PrivateKey (privateKey jm)).

Definition loadPrivateKeyPEM `{!KeyFormats K} (privateKeyPEM : string) (jm : JWTManager) : option goerr * JWTManager :=
  match pem_Decode privateKeyPEM with
  | None => (Some (EText "failed to decode private key PEM block"), jm)
  | Some block =>
      match ParsePKCS1PrivateKey block with
      | Err e => (Some (Wrapf "failed to parse private key" e), jm)
      | Ok p => (None, {| privateKey := p; publicKey := public p; clientset := clientset jm |})
      end
  end.

Definition with_clientset (jm : JWTManager) : JWTManager :=
  {| privateKey := privateKey jm; publicKey := publicKey jm; clientset := true |}.

Section secret.
Context {W : Type} `{!KeyFormats K} `{!Secrets W} {AE : ApiErrors}.
Implicit Types w : W.

(** The Secret the router stores. *)
Definition identitySecret (ns privateKeyPEM publicKeyPEM : string) : Secret :=
  {| sec_Name := IdentitySecretName; sec_Namespace := ns;
     sec_Labels := {["app" := "agentcube"; "component" := "router"]};
     sec_Data := {[PrivateKeyDataKey := privateKeyPEM; PublicKeyDataKey := publicKeyPEM]} |}.

(** After the client is set: create the Secret, or load the existing one. *)
Definition storeOrLoad (ns : string) (ctx : Ctx.Context) (jm : JWTManager) w : option goerr * JWTManager * W :=
  match GetPublicKeyPEM jm with
  | Err e => (Some (Wrapf "failed to get public key" e), jm, w)
  | Ok publicKeyPEM =>
      let '(r, w) := secret_Create ctx (identitySecret ns (GetPrivateKeyPEM jm) publicKeyPEM) w in
      match r with
      | None => (None, jm, w)
      | Some e =>
          if negb (IsAlreadyExists e) then (Some (Wrapf "failed to create identity secret" e), jm, w)
          else
            let '(got, w) := secret_Get ctx ns IdentitySecretName w in
            match got with
            | Err e => (Some (Wrapf "failed to get identity secret" e), jm, w)
            | Ok existingSecret =>
                match sec_Data existingSecret !! PrivateKeyDataKey with
                | None => (Some (EText "private key data not found in identity secret"), jm, w)
                | Some pem =>
                    let '(e, jm) := loadPrivateKeyPEM pem jm in
                    match e with
                    | Some e => (Some (Wrapf "failed to load private key from secret" e), jm, w)
                    | None => (None, jm, w)
                    end
                end
            end
      end
  end.

Definition TryStoreOrLoadJWTKeySecret (ns : string) (ctx : Ctx.Context) (jm : JWTManager) w
    : option goerr * JWTManager * W :=
  if clientset jm then storeOrLoad ns ctx jm w
  else
    match InClusterConfig w with
    | Some _ => (None, jm, w)
    | None =>
        match NewForConfig w with
        | Some e => (Some (Wrapf "failed to create kubernetes client" e), jm, w)
        | None => storeOrLoad ns ctx (with_clientset jm) w
        end
    end.

End secret.
End jwt.
Arguments JWTManager : clear implicits.
End RouterJwt.
