(* ===== verification/JwtModel.v ===== *)
(** * Concrete keys and tokens

    A token is the text of a key number and the claims, so that "signing" is
    transparent; it satisfies the laws of the token interfaces and is used to
    evaluate statements that are proved for every implementation. *)

From Stdlib Require Import Ascii.
From stdpp Require Import base list countable strings.
From S2P Require Import Prelude GoStrings GoTime GoError GoEncoding CodecModel WmAuth RouterJwt.

Module JwtModel.
Import CodecModel.CodecModel.

(** The values an exact claim has. *)
Definition to_val (v : json) : option (string + Z) :=
  match v with
  | JStr s => Some (inl s)
  | JNum m e => if e =? 0 then Some (inr m) else None
  | _ => None
  end.

Definition of_val (v : string + Z) : json :=
  match v with inl s => JStr s | inr m => JNum m 0 end.

Fixpoint to_vals (l : list (string * json)) : option (list (string * (string + Z))) :=
  match l with
  | [] => Some []
  | (k, v) :: l => match to_val v, to_vals l with Some v, Some l => Some ((k, v) :: l) | _, _ => None end
  end.

Definition of_vals (l : list (string * (string + Z))) : list (string * json) := prod_map id of_val <$> l.

Lemma of_to_vals l vs : to_vals l = Some vs -> of_vals vs = l.
Proof.
  revert vs. induction l as [|[k v] l IH]; intros vs; cbn; [by intros [= <-]|].
  destruct (to_val v) as [x|] eqn:Hx; [|done]. destruct (to_vals l) as [xs|] eqn:Hxs; [|done]. intros [= <-]. cbn.
  fold (of_vals xs). rewrite (IH xs) by done. f_equal. destruct v; cbn in Hx; try done; simplify_eq; [|done].
  destruct (Z.eqb_spec e 0); simplify_eq. done.
Qed.

Definition read (tok : string) : option (nat * list (string * json)) :=
  p ← text_pos tok; x ← decode (A := nat * list (string * (string + Z))) p; Some (x.1, of_vals x.2).

Lemma read_encode (p : nat) vs : read (pos_text (encode (p, vs))) = Some (p, of_vals vs).
Proof. unfold read. rewrite text_pos_text. cbn [mbind option_bind]. by rewrite decode_encode. Qed.

Definition unexpired (now : Time) (claims : list (string * json)) : bool :=
  match obj_get "exp" claims with
  | Some (JNum x e) => now <? Tm.OfUnix (float_to_int64 (x, e))
  | _ => false
  end.

Definition parse (k : nat) (ms : list string) (now : Time) (tok : string) : res (list (string * json)) :=
  match read tok with
  | Some (k', claims) =>
      if bool_decide (k = k') && bool_decide ("RS256" ∈ ms) && unexpired now claims then Ok claims
      else Err (EText "token is invalid")
  | None => Err (EText "token is malformed")
  end.

#[export] Instance jwt : JwtLib nat := {|
  jwt_Parse := parse;
  jwt_signed k m tok claims := m = "RS256" /\ read tok = Some (k, claims);
|}.

#[export] Instance jwt_laws : JwtLaws nat.
Proof.
  split; cbn; unfold parse.
  - intros k ms now raw claims. destruct (read raw) as [[k' l]|] eqn:Hr; [|done].
    destruct (bool_decide_reflect (k = k')); cbn; [|done].
    destruct (bool_decide_reflect ("RS256" ∈ ms)); cbn; [|done].
    destruct (unexpired now l) eqn:Hu; [|done]. intros [= <-]. exists "RS256". split; [done|]. split; [by subst|].
    unfold unexpired in Hu. destruct (obj_get "exp" l) as [[| |x y| | |]|]; try done. exists x, y. split; [done|]. by b2p.
  - intros k ms now raw e. destruct (read raw) as [[k' l]|]; [destruct (_ && _); [done|]|]; by intros [= <-].
Qed.

Definition text_of (p : positive) : string := pos_text p.

#[export] Instance formats : KeyFormats nat := {|
  pem_Decode s := if Strs.HasPrefix s "PEM " then Some (Strs.drop 4 s) else None;
  ParsePKIXPublicKey b :=
    match p ← text_pos b; decode (A := nat) p with Some k => Ok (RSAKey k) | None => Err (EText "asn1") end;
|}.

#[export] Instance format_laws : KeyFormatLaws nat.
Proof. split. cbn. intros b e. destruct (_ ≫= _); [done|]. by intros [= <-]. Qed.

#[export] Instance keypairs : KeyPairs nat nat := {|
  public p := p;
  SignedString p claims :=
    match to_vals claims with
    | Some vs => Ok (pos_text (encode (p, vs)))
    | None => Err (EText "unsupported claim")
    end;
  MarshalPKIXPublicKey k := Ok (pos_text (encode k));
  MarshalPKCS1PrivateKey p := pos_text (encode p);
  ParsePKCS1PrivateKey b :=
    match p ← text_pos b; decode (A := nat) p with Some k => Ok k | None => Err (EText "asn1") end;
  EncodeToMemory _ b := "PEM " +:+ b;
|}.

#[export] Instance keypair_laws : KeyPairLaws nat nat.
Proof.
  split; cbn.
  - intros ty b. unfold Strs.HasPrefix. by rewrite Strs.prefix_append.
  - done.
  - intros k b [= <-]. rewrite text_pos_text. cbn. by rewrite decode_encode.
  - intros p. rewrite text_pos_text. cbn. by rewrite decode_encode.
  - intros p claims tok. destruct (to_vals claims) as [vs|]; [|done]. intros [= <-]. by destruct (encode (p, vs)).
  - intros p claims tok. destruct (to_vals claims) as [vs|]; [|done]. intros [= <-].
    by induction (encode (p, vs)).
  - intros p claims tok ms now x. destruct (to_vals claims) as [vs|] eqn:Hv; [|done]. intros [= <-] Hex Hms Hexp Hnow.
    exists claims. split; [|done]. unfold parse. rewrite read_encode, (of_to_vals _ _ Hv), !bool_decide_true by done.
    unfold unexpired. rewrite Hexp. cbn [andb].
    assert (in_int64 x) as Hx.
    { assert (exact_value (JNum x 0) = true) as H.
      { clear -Hex Hexp. induction claims as [|[k v] l IH]; [done|]. unfold exact_claims in Hex. cbn [forallb obj_get fst snd] in Hex, Hexp. b2p.
        destruct (obj_get "exp" l) as [u|]; [apply IH; [done|by simplify_eq]|].
        destruct (String.eqb "exp" k); [|done]. by simplify_eq. }
      cbn in H. b2p. unfold in_int64, int64_min, int64_max. lia. }
    rewrite float_to_int64_int by done. by rewrite (proj2 (Z.ltb_lt _ _)).
Qed.

End JwtModel.
