(* ===== verification/RouterSession.v ===== *)
(** * The session manager of the router ([pkg/router/session_manager.go]) *)

From Stdlib Require Import Ascii.
From stdpp Require Import base list gmap strings.
From S2P Require Import Prelude GoStrings GoTime GoError GoContext GoHttp GoEncoding SandboxTypes StoreSpec Cluster WmAuth Mtls RouterAuth RouterJwt.

(** [net/url]: [url.Parse]. The parts of a URL the router uses. *)
Record URL := { Scheme : string; Host : string; RawQuery : string }.

Class UrlLib := { url_Parse : string -> res URL }.

(** A name or IPv4 address, with a port: no byte that is special in a URL. *)
Definition host_char (c : ascii) : bool :=
  let n := nat_of_ascii c in
  ((48 <=? n) && (n <=? 57))%nat || ((65 <=? n) && (n <=? 90))%nat || ((97 <=? n) && (n <=? 122))%nat
  || (n =? 45)%nat || (n =? 46)%nat.

Fixpoint all_chars (p : ascii -> bool) (s : string) : bool :=
  match s with EmptyString => true | String c s => p c && all_chars p s end.

Definition digit (c : ascii) : bool := let n := nat_of_ascii c in ((48 <=? n) && (n <=? 57))%nat.

Definition plain_host (h : string) : bool := negb (String.eqb h "") && all_chars host_char h.
Definition plain_port (p : string) : bool := negb (String.eqb p "") && all_chars digit p.

Lemma all_chars_free p c s : all_chars p s = true -> p c = false -> Strs.free_of c s = true.
Proof.
  intros Hs Hc. induction s as [|d s IH]; [done|]. cbn in *. apply andb_true_iff in Hs as [Hd Hs].
  rewrite (IH Hs). destruct (Ascii.eqb_spec d c); [congruence|done].
Qed.

Lemma Cut_free c s : Strs.free_of c s = true -> (Strs.Cut c s).1 = s.
Proof.
  induction s as [|d s IH]; [done|]. cbn. destruct (Ascii.eqb d c); cbn; [done|]. intros H.
  destruct (Strs.Cut c s) as [a b]. cbn in *. by rewrite (IH H).
Qed.

Lemma free_app c a b : Strs.free_of c a = true -> Strs.free_of c b = true -> Strs.free_of c (a +:+ b) = true.
Proof.
  intros Ha Hb. induction a as [|d a IH]; [done|]. rewrite Strs.append_cons. cbn in *.
  apply andb_true_iff in Ha as [-> Ha]. by rewrite (IH Ha).
Qed.

(** The documented form [scheme://host:port]. *)
Class UrlLaws `{!UrlLib} : Prop := {
  url_Parse_authority scheme h p :
    scheme = "http" \/ scheme = "https" -> plain_host h = true -> plain_port p = true ->
    url_Parse (scheme +:+ "://" +:+ h +:+ ":" +:+ p) =
      Ok {| Scheme := scheme; Host := h +:+ ":" +:+ p; RawQuery := "" |};
}.

(** The request to the workload manager, its body before marshalling, and the
    answer: a status and the body, or the failure to read it. *)
Record WmRequest := { wm_url : string; wm_body : CreateSandboxRequest; wm_header : Header }.

(** The network and the files of the router. The context of a request ends, as
    [net/http] documents, also when the timeout of the client has passed. *)
Class RouterNet (W : Type) := {
  client_Do : Ctx.Context -> WmRequest -> W -> res (Z * res string) * W;
  ReadFile_token : W -> res string;
  parse_response : string -> res CreateSandboxResponse;
}.

Module Session.

Section manager.
Context {P K W : Type} `{!KeyPairs P K} `{!Env W} `{!Store W} `{!RouterNet W} {UL : UrlLib} {AE : ApiErrors}.
Implicit Types w : W.

(** The store and the transport of the HTTP client are the classes; of the
    client there is its timeout. [closeMTLS] says that the field is set: it is
    the [Stop] of the watcher that [NewSessionManager] returns. *)
Record manager := {
  workloadMgrAddr : string;
  httpTimeout : Duration;
  closeMTLS : bool;
  jwtManager : option (RouterJwt.JWTManager P K);
}.

(** With mTLS only [https] is used. *)
Definition secureAddr (addr : string) : string :=
  if negb (Strs.HasPrefix addr "https://") then "https://" +:+ Strs.TrimPrefix addr "http://" else addr.

Definition newManager (addr : string) (closeMTLS : bool) (jm : option (RouterJwt.JWTManager P K)) : manager :=
  {| workloadMgrAddr := addr; httpTimeout := 2 * Tm.Minute; closeMTLS := closeMTLS; jwtManager := jm |}.

(** The manager with the TLS settings of its transport, and the certificate
    watcher that was started. [h2] is the outcome of
    [http2.ConfigureTransports]; [order], [fc], [fa] and [fw] are those of
    [Mtls.NewCertWatcher]. *)
Definition NewSessionManager {F X Pool Cert} `{!Mtls.CertIO F Pool Cert} `{!X509 X Pool Cert} (env : string -> string)
    (mtlsCfg : option Mtls.Config) (order : list string -> list string) (fc fa fw : F) (h2 : option goerr)
    (jm : option (RouterJwt.JWTManager P K))
    : res (manager * option (Mtls.TlsConfig Pool Cert)) * option (Mtls.CertWatcher Pool Cert) :=
  let addr := env "WORKLOAD_MANAGER_URL" in
  if String.eqb addr "" then (Err (EText "WORKLOAD_MANAGER_URL environment variable is not set"), None)
  else
    let mtlsConfigured :=
      match mtlsCfg with
      | None => false
      | Some c => negb (String.eqb (Mtls.CertFile c) "") && negb (String.eqb (Mtls.KeyFile c) "")
                  && negb (String.eqb (Mtls.CAFile c) "")
      end in
    if mtlsConfigured then
      match Mtls.LoadClientConfig mtlsCfg (Mtls.WorkloadManagerSPIFFEID env) order fc fa fw with
      | Err e => (Err (Wrapf "failed to load mTLS client config for WorkloadManager" e), None)
      | Ok (clientTLS, watcher) =>
          match h2 with
          | Some e => (Err (Wrapf "failed to configure HTTP/2 transport" e), Some (Mtls.Stop watcher))
          | None => (Ok (newManager (secureAddr addr) true jm, Some clientTLS), Some watcher)
          end
      end
    else
      match h2 with
      | Some e => (Err (Wrapf "failed to configure HTTP/2 transport" e), None)
      | None => (Ok (newManager addr false jm, None), None)
      end.

(** On the watcher of the manager. *)
Definition Close {Pool Cert} (m : manager) (watcher : option (Mtls.CertWatcher Pool Cert))
    : option goerr * option (Mtls.CertWatcher Pool Cert) :=
  (None, if closeMTLS m then Mtls.Stop <$> watcher else watcher).

Definition loadWorkloadManagerAuthToken w : string :=
  match ReadFile_token w with Err _ => "" | Ok b => Strs.TrimSpace b end.

(** The claims of the identity token. *)
Definition identityClaims (c : Oidc.Claims) : list (string * json) :=
  [("sub", JStr (Oidc.Subject c)); ("aud", JStr "workloadmanager")] ++
  (if negb (String.eqb (Oidc.Email c) "") then [("email", JStr (Oidc.Email c))] else []).

(** [claims] is the value in the request context. *)
Definition setIdentityHeader (m : manager) (claims : option Oidc.Claims) (now : Time) (h : Header) : Header :=
  match jwtManager m, claims with
  | Some jm, Some c =>
      match RouterJwt.GenerateToken jm now now (identityClaims c) with
      | Err _ => h
      | Ok identityToken => Hdr.Set_ "X-AgentCube-User-Identity" identityToken h
      end
  | _, _ => h
  end.

(** The request headers of a creation. *)
Definition createHeader (m : manager) (claims : option Oidc.Claims) w : Header :=
  let h := Hdr.Set_ "Content-Type" "application/json" [] in
  let token := loadWorkloadManagerAuthToken w in
  let h := if negb (String.eqb token "") then Hdr.Set_ "Authorization" ("Bearer " +:+ token) h else h in
  setIdentityHeader m claims (clock w) h.

(** The answer of the workload manager turned into a sandbox or an error. *)
Definition readAnswer (namespace name kind : string) (answer : Z * res string) : res SandboxInfo :=
  match answer with
  | (_, Err e) => Err (Wrapf "failed to read response body" e)
  | (status, Ok respBody) =>
      if negb (status =? StatusOK) then
        if status =? StatusNotFound then Err (Api.NewSandboxTemplateNotFoundError namespace name kind)
        else if (status =? StatusBadRequest) && Strs.Contains respBody "not found"
        then Err (Api.NewSandboxTemplateNotFoundError namespace name kind)
        else Err (Api.NewInternalError (EText ("workload manager returned status " +:+ Strs.Itoa status)))
      else
        match parse_response (W := W) respBody with
        | Err e => Err (Api.NewInternalError (Wrapf "failed to unmarshal response" e))
        | Ok r =>
            if String.eqb (CreateResp.SessionID r) "" then
              Err (Api.NewInternalError (EText "response with empty session id from workload manager"))
            else
              Ok {| Info.Kind := CreateResp.Kind r; Info.SandboxID := CreateResp.SandboxID r;
                    Info.SandboxNamespace := namespace; Info.Name := CreateResp.SandboxName r;
                    Info.EntryPoints := CreateResp.EntryPoints r; Info.SessionID := CreateResp.SessionID r;
                    Info.OwnerID := CreateResp.OwnerID r; Info.CreatedAt := Tm.zero; Info.ExpiresAt := Tm.zero;
                    Info.IdleTimeout := 0; Info.LastActivityAt := Tm.zero; Info.Status := "" |}
        end
  end.

Definition endpoint_of (m : manager) (kind : string) : option string :=
  if String.eqb kind AgentRuntimeKind then Some (workloadMgrAddr m +:+ "/v1/agent-runtime")
  else if String.eqb kind CodeInterpreterKind then Some (workloadMgrAddr m +:+ "/v1/code-interpreter")
  else None.

(** [json.Marshal] of three strings does not fail. *)
Definition createSandbox (m : manager) (ctx : Ctx.Context) (claims : option Oidc.Claims)
    (namespace name kind : string) w : res SandboxInfo * W :=
  match endpoint_of m kind with
  | None => (Err (EText ("unsupported kind: " +:+ kind)), w)
  | Some endpoint =>
      match url_Parse endpoint with
      | Err e => (Err (Wrapf "failed to create HTTP request" e), w)
      | Ok _ =>
          let '(resp, w) := client_Do (Ctx.WithTimeout ctx (httpTimeout m) (clock w))
            {| wm_url := endpoint;
               wm_body := {| CreateReq.Kind := kind; CreateReq.Name := name; CreateReq.Namespace := namespace |};
               wm_header := createHeader m claims w |} w in
          match resp with
          | Err e => (Err (Api.NewInternalError (Wrapf "failed calling workload manager" e)), w)
          | Ok answer => (readAnswer namespace name kind answer, w)
          end
      end
  end.

Definition GetSandboxBySession (m : manager) (ctx : Ctx.Context) (claims : option Oidc.Claims)
    (sessionID namespace name kind : string) w : res SandboxInfo * W :=
  if String.eqb sessionID "" then createSandbox m ctx claims namespace name kind w
  else
    let '(r, w) := store_Get sessionID w in
    match r with
    | Err e =>
        (Err (if Is e ErrNotFound then Api.NewSessionNotFoundError sessionID
              else Wrapf "failed to get sandbox from store" e), w)
    | Ok sandbox => (Ok sandbox, w)
    end.

End manager.
Arguments manager : clear implicits.
End Session.
