(* ===== verification/RouterHandlers.v ===== *)
(** * The request handlers of the router ([pkg/router/handlers.go]) *)

From Stdlib Require Import Ascii.
From stdpp Require Import base list gmap strings.
From S2P Require Import Prelude GoStrings GoTime GoError GoContext GoHttp GoEncoding GoProxy SandboxTypes StoreSpec Cluster WmAuth Mtls RouterAuth RouterJwt RouterSession.

(** The connections to sandboxes: [net.Dialer] and the proxy transport. *)
Class Upstream (W : Type) := {
  DialContext : Ctx.Context -> Duration -> string -> W -> option goerr * W;
  RoundTrip : Ctx.Context -> OutReq -> W -> res Response * W;
}.

Module Router.
Import RouterAuth.

(** What the client receives: a JSON body, or the response of the sandbox. *)
Inductive reply :=
  | RJson (code : Z) (fields : list (string * string))
  | RProxied (r : Response).

Definition deny (d : denial) : reply := RJson d.1 d.2.

Definition handleHealthLive : reply := RJson StatusOK [("status", "alive")].

Definition handleHealthReady (sessionManager : bool) : reply :=
  if negb sessionManager
  then RJson StatusServiceUnavailable [("status", "not ready"); ("error", "session manager not available")]
  else RJson StatusOK [("status", "ready")].

(** [config.go] *)
Record Config := {
  Port : string; Debug : bool; EnableTLS : bool; TLSCert : string; TLSKey : string;
  MaxConcurrentRequests : Z; InitialConnectRetryCount : Z; InitialConnectRetryInterval : Duration;
  MTLSConfig : Mtls.Config;
  JWTIssuerURL : string; JWTAudience : string; JWTRoleClaim : string; JWTRequiredRole : string;
}.

(** [server.go] *)
Record Server (P K : Type) := {
  config : Config;
  sessionManager : Session.manager P K;
  jwtManager : option (RouterJwt.JWTManager P K);
  oidcValidator : option Oidc.OIDCValidator;
}.
Arguments config {P K}. Arguments sessionManager {P K}.
Arguments jwtManager {P K}. Arguments oidcValidator {P K}.

Definition checkSandboxOwnership (validator : option Oidc.OIDCValidator) (r : Request) (sandbox : SandboxInfo)
    : option denial :=
  match validator, extractClaims r with
  | Some _, Some c =>
      if Oidc.contains (Oidc.Roles c) "admin" then None
      else if String.eqb (Info.OwnerID sandbox) "" then
        Some (denied StatusForbidden "sandbox has no owner record" "FORBIDDEN")
      else if negb (String.eqb (Info.OwnerID sandbox) (Oidc.Subject c)) then
        Some (denied StatusForbidden "you do not own this sandbox" "FORBIDDEN")
      else None
  | _, _ => None
  end.

(** The type assertion to [apierrors.APIStatus] does not unwrap. *)
Definition handleGetSandboxError (e : goerr) : reply :=
  match e with
  | EStatus st =>
      let code := if negb (Code st =? 0) then Code st else StatusInternalServerError in
      let message := if String.eqb (Message st) "" then Error e else Message st in
      RJson code [("error", if code =? StatusInternalServerError then "internal server error" else message)]
  | _ => RJson StatusInternalServerError [("error", "internal server error")]
  end.

Section url.
Context {UL : UrlLib}.

Definition buildURL (protocol endpoint : string) : res URL :=
  let endpoint :=
    if negb (String.eqb protocol "") && negb (Strs.Contains endpoint "://")
    then Strs.ToLower protocol +:+ "://" +:+ endpoint else endpoint in
  match url_Parse endpoint with
  | Err e => Err (Wrapf ("invalid upstream endpoint " +:+ Strs.Quote endpoint) e)
  | Ok u =>
      if String.eqb (Host u) ""
      then Err (EText ("invalid upstream endpoint " +:+ Strs.Quote endpoint +:+ ": missing host"))
      else Ok u
  end.

(** The first entry point whose path is a prefix. *)
Fixpoint match_entry (path : string) (eps : list SandboxEntryPoint) : option SandboxEntryPoint :=
  match eps with
  | [] => None
  | ep :: eps => if Strs.HasPrefix path (EntryPoint.Path ep) then Some ep else match_entry path eps
  end.

Definition determineUpstreamURL (sandbox : SandboxInfo) (path : string) : res URL :=
  match match_entry path (Info.EntryPoints sandbox) with
  | Some ep => buildURL (EntryPoint.Protocol ep) (EntryPoint.Endpoint ep)
  | None =>
      match Info.EntryPoints sandbox with
      | [] => Err (EText "no entry point found for sandbox")
      | ep :: _ => buildURL (EntryPoint.Protocol ep) (EntryPoint.Endpoint ep)
      end
  end.

End url.

Definition connectionRefusedRetryable (e : goerr) : bool :=
  Strs.Contains (Strs.ToLower (Error e)) "connection refused".

Definition preflightTargetAddress (targetURL : URL) : string :=
  if String.eqb (Host targetURL) "" then ""
  else if SplitHostPort_ok (Host targetURL) then Host targetURL
  else if String.eqb (Strs.ToLower (Scheme targetURL)) "https"
  then Strs.JoinHostPort (Host targetURL) "443"
  else Strs.JoinHostPort (Host targetURL) "80".

Definition upstreamUnavailableResponse (e : goerr) : reply :=
  let errText := Strs.ToLower (Error e) in
  if connectionRefusedRetryable e then RJson StatusBadGateway [("error", "sandbox unreachable")]
  else if Strs.Contains errText "deadline exceeded" || Strs.Contains errText "timeout"
  then RJson StatusGatewayTimeout [("error", "sandbox timeout")]
  else RJson StatusServiceUnavailable [("error", "sandbox unreachable")].

Definition normalizedProxyPath (path : string) : string :=
  if negb (String.eqb path "") && negb (Strs.HasPrefix path "/") then "/" +:+ path else path.

Definition forwardedClientIP (h : Header) (clientIP : string) : string :=
  match Values "X-Forwarded-For" h with
  | [] => clientIP
  | prior => Strs.Join prior ", " +:+ ", " +:+ clientIP
  end.

(** The headers after the director of [configureProxyDirector]. *)
Definition directed_header (r : Request) (jwtToken : string) : Header :=
  let h := Hdr.Set_ "X-Forwarded-Host" (host r) (header r) in
  let h := Hdr.Set_ "X-Forwarded-Proto" "http" h in
  let h := if tls r then Hdr.Set_ "X-Forwarded-Proto" "https" h else h in
  let h := Hdr.Set_ "X-Forwarded-For" (forwardedClientIP h (clientIP r)) h in
  if negb (String.eqb jwtToken "") then Hdr.Set_ "Authorization" ("Bearer " +:+ jwtToken) h else h.

(** [configureProxyDirector] on top of the default director. *)
Definition configureProxyDirector (r : Request) (targetURL : URL) (path jwtToken : string) : OutReq :=
  {| o_Method := method r; o_Scheme := Scheme targetURL; o_UrlHost := Host targetURL;
     o_Path := normalizedProxyPath path;
     o_RawQuery :=
       if String.eqb (RawQuery targetURL) "" || String.eqb (rawQuery r) ""
       then RawQuery targetURL +:+ rawQuery r else RawQuery targetURL +:+ "&" +:+ rawQuery r;
     o_Host := Host targetURL; o_Header := directed_header r jwtToken |}.

Definition with_header (h : Header) (o : OutReq) : OutReq :=
  {| o_Method := o_Method o; o_Scheme := o_Scheme o; o_UrlHost := o_UrlHost o; o_Path := o_Path o;
     o_RawQuery := o_RawQuery o; o_Host := o_Host o; o_Header := h |}.

Definition configureProxyResponse (sessionID : string) (resp : Response) : Response :=
  {| resp_Status := resp_Status resp; resp_Header := Hdr.Set_ "x-agentcube-session-id" sessionID (resp_Header resp);
     resp_Body := resp_Body resp |}.

Section handlers.
Context {P K W : Type} `{!KeyPairs P K} `{!Env W} `{!Store W} `{!RouterNet W} `{!Upstream W}.
Context {UL : UrlLib} {AE : ApiErrors}.
Implicit Types (w : W) (s : Server P K).

(** [n] attempts are left; the loop ends with the first error that is not a
    refused connection, or with the last one. *)
Fixpoint preflight_loop (n : nat) (retryInterval : Duration) (ctx : Ctx.Context) (address : string) w
    : option goerr * W :=
  match n with
  | O => (None, w)
  | S n =>
      let '(e, w) := DialContext ctx retryInterval address w in
      match e with
      | None => (None, w)
      | Some e =>
          if negb (connectionRefusedRetryable e) || (n =? 0)%nat
          then (Some (Wrapf "sandbox preflight connect failed" e), w)
          else
            let '(fired, w) := select_after ctx retryInterval w in
            if fired then preflight_loop n retryInterval ctx address w else (Ctx.Err ctx (clock w), w)
      end
  end.

Definition waitForUpstreamReachable (cfg : Config) (ctx : Ctx.Context) (targetURL : URL) w : option goerr * W :=
  let address := preflightTargetAddress targetURL in
  if String.eqb address "" then (None, w)
  else
    let retryInterval :=
      if 0 <? InitialConnectRetryInterval cfg then InitialConnectRetryInterval cfg else 200 * Tm.Millisecond in
    preflight_loop (Z.to_nat (InitialConnectRetryCount cfg + 1)) retryInterval ctx address w.

Definition resolveSandboxTarget (cfg : Config) (r : Request) (sandbox : SandboxInfo) (path : string) w
    : (URL + reply) * W :=
  match determineUpstreamURL sandbox path with
  | Err e => (inr (RJson StatusNotFound [("error", Error e)]), w)
  | Ok targetURL =>
      let '(e, w) := waitForUpstreamReachable cfg (ctx r) targetURL w in
      match e with
      | Some e => (inr (upstreamUnavailableResponse e), w)
      | None => (inl targetURL, w)
      end
  end.

(** The claims of the token for the sandbox. *)
Definition sandboxClaims (r : Request) (sandbox : SandboxInfo) : list (string * json) :=
  [("session_id", JStr (Info.SessionID sandbox))] ++
  match extractClaims r with
  | None => []
  | Some c => [("user_sub", JStr (Oidc.Subject c))] ++
              (if negb (String.eqb (Oidc.Email c) "") then [("user_email", JStr (Oidc.Email c))] else [])
  end.

Definition generateSandboxJWT s (r : Request) (sandbox : SandboxInfo) w : string + reply :=
  if negb (String.eqb (Info.Kind sandbox) SandboxClaimsKind) && negb (String.eqb (Info.Kind sandbox) SandboxKind)
  then inl ""
  else
    match jwtManager s with
    | None => inl ""
    | Some jm =>
        match RouterJwt.GenerateToken jm (clock w) (clock w) (sandboxClaims r sandbox) with
        | Err _ => inr (RJson StatusInternalServerError
                          [("error", "failed to sign request"); ("code", "JWT_SIGNING_FAILED")])
        | Ok token => inl token
        end
    end.

(** [proxy.ServeHTTP] with the three hooks configured; what follows a switch of
    protocols (status 101) is outside the model. *)
Definition serveProxy (r : Request) (targetURL : URL) (path jwtToken sessionID : string) w : reply * W :=
  let outreq := configureProxyDirector r targetURL path jwtToken in
  let up := upgradeType (o_Header outreq) in
  if negb (printable up) then
    (upstreamUnavailableResponse (EText ("client tried to switch to invalid protocol " +:+ Strs.Quote up)), w)
  else
    let outreq := with_header (finish_header (header r) (remoteIP r) (o_Header outreq)) outreq in
    let '(resp, w) := RoundTrip (ctx r) outreq w in
    match resp with
    | Err e => (upstreamUnavailableResponse e, w)
    | Ok resp =>
        (RProxied (configureProxyResponse sessionID
           {| resp_Status := resp_Status resp; resp_Header := removeHopByHopHeaders (resp_Header resp);
              resp_Body := resp_Body resp |}), w)
    end.

Definition forwardToSandbox s (r : Request) (sandbox : SandboxInfo) (path : string) w : reply * W :=
  let '(target, w) := resolveSandboxTarget (config s) r sandbox path w in
  match target with
  | inr e => (e, w)
  | inl targetURL =>
      match generateSandboxJWT s r sandbox w with
      | inr e => (e, w)
      | inl jwtToken => serveProxy r targetURL path jwtToken (Info.SessionID sandbox) w
      end
  end.

(** The failures to record activity are only logged. *)
Definition touch (sessionID : string) w : W := (store_Touch (clock w) sessionID (clock w) w).2.

Definition handleInvoke s (r : Request) (namespace name path kind : string) w : reply * W :=
  let sessionID := Hdr.Get "x-agentcube-session-id" (header r) in
  let '(got, w) := Session.GetSandboxBySession (sessionManager s) (ctx r) (extractClaims r) sessionID
    namespace name kind w in
  match got with
  | Err e => (handleGetSandboxError e, w)
  | Ok sandbox =>
      match (if negb (String.eqb sessionID "") then checkSandboxOwnership (oidcValidator s) r sandbox else None) with
      | Some d => (deny d, w)
      | None =>
          let w := touch (Info.SessionID sandbox) w in
          let '(out, w) := forwardToSandbox s r sandbox path w in
          (out, touch (Info.SessionID sandbox) w)
      end
  end.

Definition handleAgentInvoke s r namespace name path w := handleInvoke s r namespace name path AgentRuntimeKind w.
Definition handleCodeInterpreterInvoke s r namespace name path w :=
  handleInvoke s r namespace name path CodeInterpreterKind w.

End handlers.
End Router.
