(* ===== verification/RouterServer.v ===== *)
(** * The router server ([pkg/router/server.go])

    Construction with its defaults, the concurrency limit as a transition
    system, and the chain of middleware in front of the invocation handlers. *)

From stdpp Require Import base list gmap strings.
From S2P Require Import Prelude GoStrings GoTime GoError GoContext GoHttp GoEncoding GoProxy SandboxTypes StoreSpec Cluster WmAuth Mtls RouterAuth RouterJwt RouterSession RouterHandlers.

(** ** Construction *)

Module RouterServer.
Import RouterAuth Router.

Definition with_limits (c : Config) (mx retries : Z) (interval : Duration) : Config :=
  {| Port := Port c; Debug := Debug c; EnableTLS := EnableTLS c; TLSCert := TLSCert c; TLSKey := TLSKey c;
     MaxConcurrentRequests := mx; InitialConnectRetryCount := retries; InitialConnectRetryInterval := interval;
     MTLSConfig := MTLSConfig c;
     JWTIssuerURL := JWTIssuerURL c; JWTAudience := JWTAudience c; JWTRoleClaim := JWTRoleClaim c;
     JWTRequiredRole := JWTRequiredRole c |}.

(** The defaults [NewServer] writes into the configuration. *)
Definition applyDefaults (c : Config) : Config :=
  with_limits c
    (if MaxConcurrentRequests c <=? 0 then 1000 else MaxConcurrentRequests c)
    (if InitialConnectRetryCount c <? 0 then 0 else InitialConnectRetryCount c)
    (if InitialConnectRetryInterval c <=? 0 then 200 * Tm.Millisecond else InitialConnectRetryInterval c).

Section new.
Context {P K W F X Pool Cert : Type} `{!KeyPairs P K} `{!KeyFormats K} `{!RouterJwt.Secrets W} {AE : ApiErrors}.
Context `{!Mtls.CertIO F Pool Cert} `{!X509 X Pool Cert}.
Implicit Types w : W.

(** The outcomes of the libraries that [NewServer] calls. *)
Record boot := {
  generatedKey : res P;                     (* rsa.GenerateKey *)
  getenv : string -> string;
  certOrder : list string -> list string;   (* the iteration of a Go map *)
  certFiles : F * F * F;                    (* the files as mtls.NewCertWatcher reads them *)
  http2Conf : option goerr;                 (* http2.ConfigureTransports *)
  discovery : res (res string);             (* OIDC discovery *)
}.

Definition newValidator (c : Config) (provider : res (res string)) : res (option Oidc.OIDCValidator) :=
  if String.eqb (JWTIssuerURL c) "" then Ok None
  else if String.eqb (JWTRoleClaim c) "" then
    Err (EText "--jwt-role-claim is required when --jwt-issuer-url is set")
  else if String.eqb (JWTRequiredRole c) "" then
    Err (EText "--jwt-required-role is required when --jwt-issuer-url is set")
  else
    match Oidc.NewOIDCValidator {| Oidc.IssuerURL := JWTIssuerURL c; Oidc.Audience := JWTAudience c;
                                   Oidc.RolesClaim := JWTRoleClaim c |} provider with
    | Err e => Err (Wrapf "failed to initialize OIDC validator" e)
    | Ok v => Ok (Some v)
    end.

Definition NewServer (b : boot) (cfg : option Config) w : res (Server P K) * W :=
  match cfg with
  | None => (Err (EText "config cannot be nil"), w)
  | Some cfg =>
      let cfg := applyDefaults cfg in
      match RouterJwt.NewJWTManager (generatedKey b) with
      | Err e => (Err (Wrapf "failed to create JWT manager" e), w)
      | Ok jm =>
          let '(e, jm, w) :=
            RouterJwt.TryStoreOrLoadJWTKeySecret (RouterJwt.IdentityNamespace (getenv b)) Ctx.Background jm w in
          match e with
          | Some e => (Err (Wrapf "failed to store/load JWT key secret" e), w)
          | None =>
              let '(fc, fa, fw) := certFiles b in
              match (Session.NewSessionManager (getenv b) (Some (MTLSConfig cfg)) (certOrder b) fc fa fw
                       (http2Conf b) (Some jm)).1 with
              | Err e => (Err (Wrapf "failed to create session manager" e), w)
              | Ok (m, _) =>
                  match newValidator cfg (discovery b) with
                  | Err e => (Err e, w)
                  | Ok v => (Ok {| config := cfg; sessionManager := m; jwtManager := Some jm; oidcValidator := v |}, w)
                  end
              end
          end
      end
  end.

End new.
Arguments boot : clear implicits.

(** [Start]: what is served, or the refusal to start. *)
Inductive listening := Plain (addr : string) | WithTLS (addr cert key : string).

Definition Start_mode (c : Config) : res listening :=
  let addr := ":" +:+ Port c in
  if EnableTLS c then
    if String.eqb (TLSCert c) "" || String.eqb (TLSKey c) ""
    then Err (EText "TLS enabled but cert/key not provided")
    else Ok (WithTLS addr (TLSCert c) (TLSKey c))
  else Ok (Plain addr).

(** ** The chain of the [/v1] group *)

Section routes.
Context {P K W : Type} `{!KeyPairs P K} `{!Env W} `{!Store W} `{!RouterNet W} `{!Upstream W} `{!KeySet W}.
Context {UL : UrlLib} {AE : ApiErrors} {JT : JsonText}.
Implicit Types (w : W) (s : Server P K).

Definition overloaded : reply :=
  RJson StatusTooManyRequests [("error", "server overloaded, please try again later"); ("code", "SERVER_OVERLOADED")].

(** A request of a route of the group; [slot] says whether the limiter has
    room when the request reaches it. *)
Definition serve_v1 s (slot : bool) (r : Request) (namespace name path kind : string) w : reply * W :=
  let '(a, w) := oidcAuthMiddleware (oidcValidator s) r w in
  match a with
  | inr d => (deny d, w)
  | inl r =>
      match (match oidcValidator s with
             | Some _ => requireRole (JWTRequiredRole (config s)) r
             | None => None
             end) with
      | Some d => (deny d, w)
      | None => if negb slot then (overloaded, w) else handleInvoke s r namespace name path kind w
      end
  end.

(** The kind a route group serves. *)
Definition group_kind (group : string) : option string :=
  if String.eqb group "agent-runtimes" then Some AgentRuntimeKind
  else if String.eqb group "code-interpreters" then Some CodeInterpreterKind
  else None.

(** The routes: method, and the path split at its slashes; [*path] takes the
    last slash and everything after it. *)
Definition route s (sessionManagerSet slot : bool) (r : Request) (segments : list string) w : option (reply * W) :=
  let get := String.eqb (method r) "GET" in
  if bool_decide (segments = ["health"; "live"]) then if get then Some (handleHealthLive, w) else None
  else if bool_decide (segments = ["health"; "ready"]) then
    if get then Some (handleHealthReady sessionManagerSet, w) else None
  else
    match segments with
    | v1 :: nss :: namespace :: group :: name :: inv :: rest0 :: rest =>
        if String.eqb v1 "v1" && String.eqb nss "namespaces" && String.eqb inv "invocations" &&
           (get || String.eqb (method r) "POST")
        then
          match group_kind group with
          | Some kind => Some (serve_v1 s slot r namespace name ("/" +:+ Strs.Join (rest0 :: rest) "/") kind w)
          | None => None
          end
        else None
    | _ => None
    end.

End routes.
End RouterServer.

(** ** The concurrency limit

    The buffered channel is a counter of occupied slots. Requests enter, are
    rejected when it is full, and leave when the handler returns (the deferred
    receive, which runs also when the handler panics). *)

Module Limiter.

Record state := { used : nat; serving : gset nat; rejected : gset nat }.

Definition init : state := {| used := 0; serving := ∅; rejected := ∅ |}.

(** [select { case concurrency <- struct{}{}: ...; default: ... }] *)
Definition arrive (mx : Z) (id : nat) (s : state) : bool * state :=
  if Z.of_nat (used s) <? mx
  then (true, {| used := S (used s); serving := {[id]} ∪ serving s; rejected := rejected s |})
  else (false, {| used := used s; serving := serving s; rejected := {[id]} ∪ rejected s |}).

(** The deferred [<-concurrency] *)
Definition leave (id : nat) (s : state) : state :=
  {| used := pred (used s); serving := serving s ∖ {[id]}; rejected := rejected s |}.

Inductive step (mx : Z) : state -> state -> Prop :=
  | step_arrive id s : id ∉ serving s -> id ∉ rejected s -> step mx s (arrive mx id s).2
  | step_leave id s : id ∈ serving s -> step mx s (leave id s).

Inductive reachable (mx : Z) : state -> Prop :=
  | reach_init : reachable mx init
  | reach_step s s' : reachable mx s -> step mx s s' -> reachable mx s'.

End Limiter.
