(* ===== verification/RouterTheorems.v ===== *)
(** * Properties of the router: who reaches which sandbox *)

From Stdlib Require Import Ascii.
From stdpp Require Import base list gmap strings.
From S2P Require Import Prelude GoStrings GoTime GoError GoContext GoHttp GoEncoding GoProxy SandboxTypes StoreSpec Cluster WmAuth Mtls RouterAuth RouterJwt RouterSession RouterHandlers RouterServer.
Import RouterAuth Router RouterServer.

(** The requests the proxy transport has sent: only [RoundTrip] adds one. *)
Class RouterTrace (W : Type) `{!Env W} `{!Store W} `{!RouterNet W} `{!Upstream W} `{!KeySet W}
    (sent : W -> list OutReq) : Prop := {
  trace_RoundTrip ctx o w : sent (RoundTrip ctx o w).2 = sent w ++ [o];
  trace_dial ctx d a w : sent (DialContext ctx d a w).2 = sent w;
  trace_after ctx d w : sent (select_after ctx d w).2 = sent w;
  trace_get sid w : sent (store_Get sid w).2 = sent w;
  trace_touch now sid t w : sent (store_Touch now sid t w).2 = sent w;
  trace_client ctx q w : sent (client_Do ctx q w).2 = sent w;
  trace_verify ctx raw w : sent (VerifySignature ctx raw w).2 = sent w;
}.

Section trace.
Context {P K W : Type} `{!KeyPairs P K} `{!Env W} `{!Store W} `{!RouterNet W} `{!Upstream W} `{!KeySet W}.
Context {UL : UrlLib} {AE : ApiErrors} {JT : JsonText}.
Context (sent : W -> list OutReq) `{!RouterTrace W sent}.
Implicit Types (w : W) (s : Server P K).

Lemma sent_preflight n d ctx a w : sent (preflight_loop n d ctx a w).2 = sent w.
Proof.
  revert w. induction n as [|n IH]; intros w; cbn; [done|].
  pose proof (trace_dial (sent := sent) ctx d a w) as Hd. destruct (DialContext ctx d a w) as [[e|] w1]; [|done].
  destruct (_ || _); [done|].
  pose proof (trace_after (sent := sent) ctx d w1) as Ha. destruct (select_after ctx d w1) as [[] w2]; cbn in *.
  - by rewrite IH, Ha.
  - by rewrite Ha.
Qed.

Lemma sent_resolve cfg r sandbox path w : sent (resolveSandboxTarget cfg r sandbox path w).2 = sent w.
Proof.
  unfold resolveSandboxTarget, waitForUpstreamReachable. destruct (determineUpstreamURL sandbox path) as [u|e]; [|done].
  destruct (String.eqb _ ""); [done|].
  match goal with |- context [preflight_loop ?n ?d ?c ?a w] =>
    pose proof (sent_preflight n d c a w) as Hp; destruct (preflight_loop n d c a w) as [[e|] w1] end; done.
Qed.

Lemma sent_session m ctx claims sid ns name kind w :
  sent (Session.GetSandboxBySession m ctx claims sid ns name kind w).2 = sent w.
Proof.
  unfold Session.GetSandboxBySession, Session.createSandbox. destruct (String.eqb sid "").
  - destruct (Session.endpoint_of m kind) as [u|]; [|done]. destruct (url_Parse u); [|done].
    match goal with |- context [client_Do ?x ?q w] =>
      pose proof (trace_client (sent := sent) x q w) as Hc; destruct (client_Do x q w) as [[a0|e0] w1] end; done.
  - pose proof (trace_get (sent := sent) sid w) as Hg. destruct (store_Get sid w) as [[] w1]; done.
Qed.

Lemma sent_middleware v r w : sent (oidcAuthMiddleware v r w).2 = sent w.
Proof.
  unfold oidcAuthMiddleware, Oidc.ValidateToken.
  repeat case_match; simplify_eq; try done;
    match goal with H : VerifySignature ?c ?raw w = _ |- _ =>
      pose proof (trace_verify (sent := sent) c raw w) as Ht; rewrite H in Ht; done end.
Qed.

Lemma sent_touch sid w : sent (touch sid w) = sent w.
Proof. apply trace_touch. Qed.

(** What the proxy sends for a request, if it gets that far. *)
Definition proxied (r : Request) (u : URL) (path jwt : string) : OutReq :=
  let o := configureProxyDirector r u path jwt in
  with_header (finish_header (header r) (remoteIP r) (o_Header o)) o.

Lemma sent_forward s r sandbox path w :
  sent (forwardToSandbox s r sandbox path w).2 = sent w \/
  exists u jwt w1, determineUpstreamURL sandbox path = Ok u /\
    resolveSandboxTarget (config s) r sandbox path w = (inl u, w1) /\ generateSandboxJWT s r sandbox w1 = inl jwt /\
    sent (forwardToSandbox s r sandbox path w).2 = sent w ++ [proxied r u path jwt].
Proof.
  unfold forwardToSandbox. pose proof (sent_resolve (config s) r sandbox path w) as Hr.
  destruct (resolveSandboxTarget (config s) r sandbox path w) as [[u|e] w1] eqn:Hu; [|by left].
  assert (determineUpstreamURL sandbox path = Ok u) as Hd.
  { revert Hu. unfold resolveSandboxTarget. destruct (determineUpstreamURL sandbox path) as [u'|]; [|done].
    destruct (waitForUpstreamReachable _ _ u' w) as [[|] ?]; intros; by simplify_eq. }
  destruct (generateSandboxJWT s r sandbox w1) as [jwt|e] eqn:Hj; [|by left].
  unfold serveProxy. destruct (negb (printable _)); [by left|].
  pose proof (trace_RoundTrip (sent := sent) (ctx r) (proxied r u path jwt) w1) as Hs. unfold proxied in Hs.
  destruct (RoundTrip _ _ w1) as [[resp|e] w2]; right; exists u, jwt, w1; cbn in *; by rewrite ?Hs, ?Hr, ?Hu.
Qed.

(** An invocation that sends something holds a sandbox it may use. *)
Lemma sent_invoke s r ns name path kind w rep w' :
  handleInvoke s r ns name path kind w = (rep, w') ->
  let sid := Hdr.Get "x-agentcube-session-id" (header r) in
  sent w' = sent w \/
  exists sandbox u jwt w1 w2,
    Session.GetSandboxBySession (sessionManager s) (ctx r) (extractClaims r) sid ns name kind w = (Ok sandbox, w1) /\
    (sid <> "" -> checkSandboxOwnership (oidcValidator s) r sandbox = None) /\
    determineUpstreamURL sandbox path = Ok u /\ generateSandboxJWT s r sandbox w2 = inl jwt /\
    sent w' = sent w ++ [proxied r u path jwt].
Proof.
  unfold handleInvoke. cbv zeta. set (sid := Hdr.Get _ _).
  pose proof (sent_session (sessionManager s) (ctx r) (extractClaims r) sid ns name kind w) as Hs.
  destruct (Session.GetSandboxBySession _ _ _ sid ns name kind w) as [[sandbox|e] w1]; [|intros; simplify_eq; by left].
  cbn in Hs. destruct (if negb (String.eqb sid "") then _ else None) as [d|] eqn:Hd; [intros; simplify_eq; by left|].
  destruct (forwardToSandbox s r sandbox path (touch (Info.SessionID sandbox) w1)) as [out w2] eqn:Hf.
  pose proof (sent_forward s r sandbox path (touch (Info.SessionID sandbox) w1)) as H. rewrite Hf in H. cbn in H.
  rewrite sent_touch, Hs in H.
  intros [= <- <-]. rewrite sent_touch. destruct H as [H|(u & jwt & w3 & Hu & _ & Hj & H)]; [by left|right].
  exists sandbox, u, jwt, w1, w3. split_and!; try done. intros Hne.
  destruct (String.eqb_spec sid ""); [done|]. exact Hd.
Qed.

End trace.

(** The caller [c] presented a token of the provider that is within its
    validity at some instant of the validation. *)
Definition authenticated {W} `{!KeySet W} {JT : JsonText} (v : Oidc.OIDCValidator) (r : Request) (now : Time) (c : Oidc.Claims)
    : Prop :=
  exists scheme rest payload l,
    Hdr.Get "Authorization" (header r) = scheme +:+ " " +:+ rest /\ Strs.EqualFold scheme "Bearer" = true /\
    oidc_signed (W := W) (Strs.TrimSpace rest) payload /\
    Oidc.decode_map (json_parse payload) = Some l /\
    as_string (obj_get "iss" l) = Oidc.issuer v /\
    as_string (obj_get "sub" l) = Oidc.Subject c /\ Oidc.Subject c <> "" /\
    as_string (obj_get "email" l) = Oidc.Email c /\
    now <= Tm.Add (Tm.OfUnix (float_to_int64 (as_float (obj_get "exp" l)))) Oidc.clockSkewLeeway /\
    (Oidc.audience v <> "" -> Oidc.audience v ∈ Oidc.parseAudienceClaim (obj_get "aud" l)) /\
    Oidc.Roles c = Oidc.extractRolesFromClaims l (Oidc.rolesClaim v).

Section auth.
Context {W : Type} `{!Env W} `{!KeySet W} `{!KeySetLaws W} {JT : JsonText}.

Lemma checkClaims_sound v now now' l c :
  Oidc.checkClaims v now now' l = Ok c ->
  as_string (obj_get "iss" l) = Oidc.issuer v /\
  as_string (obj_get "sub" l) = Oidc.Subject c /\ Oidc.Subject c <> "" /\
  as_string (obj_get "email" l) = Oidc.Email c /\
  now <= Tm.Add (Tm.OfUnix (float_to_int64 (as_float (obj_get "exp" l)))) Oidc.clockSkewLeeway /\
  (Oidc.audience v <> "" -> Oidc.audience v ∈ Oidc.parseAudienceClaim (obj_get "aud" l)) /\
  Oidc.Roles c = Oidc.extractRolesFromClaims l (Oidc.rolesClaim v).
Proof.
  unfold Oidc.checkClaims, Tm.After, Tm.Before. cbv zeta.
  destruct (String.eqb_spec (as_string (obj_get "iss" l)) (Oidc.issuer v)); cbn [negb]; [|done].
  destruct (String.eqb_spec (as_string (obj_get "sub" l)) ""); [done|].
  destruct (float_is_zero (as_float (obj_get "exp" l))); [done|].
  destruct (Z.ltb_spec (Tm.Add (Tm.OfUnix (float_to_int64 (as_float (obj_get "exp" l)))) Oidc.clockSkewLeeway) now); [done|].
  destruct (negb (float_is_zero _) && _); [done|].
  destruct (negb (String.eqb (Oidc.audience v) "") && _) eqn:Ha; [done|]. intros [= <-]. cbn. split_and!; try done.
  intros Hne. apply andb_false_iff in Ha as [Ha|Ha]; b2p; [done|].
  unfold Oidc.contains in Ha. by apply bool_decide_eq_true in Ha.
Qed.

Lemma middleware_sound v r w r' w' :
  oidcAuthMiddleware (Some v) r w = (inl r', w') ->
  exists c, r' = with_claims c r /\ authenticated (W := W) v r (clock w') c.
Proof.
  unfold oidcAuthMiddleware. destruct (String.eqb _ ""); [done|].
  destruct (Strs.SplitN " " 2 _) as [|scheme [|rest [|? ?]]] eqn:Hsp; try done.
  apply Strs.SplitN_2_inv in Hsp as [Hh _]. destruct (Strs.EqualFold scheme "Bearer") eqn:Hb; cbn [negb]; [|done].
  destruct (String.eqb _ "") eqn:He; [done|]. unfold Oidc.ValidateToken. rewrite He.
  destruct (Oidc.checkTokenAlgorithm _); [done|].
  destruct (VerifySignature (ctx r) (Strs.TrimSpace rest) w) as [[payload|e] w1] eqn:Hv; [|done].
  destruct (Oidc.decode_map (json_parse payload)) as [l|] eqn:Hl; [|done].
  destruct (Oidc.checkClaims v (clock w1) (clock w1) l) as [c|] eqn:Hc; [|done]. intros [= <- <-].
  exists c. split; [done|]. exists scheme, rest, payload, l. apply checkClaims_sound in Hc.
  split_and!; try done; try apply Hc. by eapply VerifySignature_sound.
Qed.

End auth.

(** One request of the group on a server with a validator. *)
Lemma serve_v1_authorized {P K W : Type} `{!KeyPairs P K} `{!Env W} `{!Store W} `{!RouterNet W} `{!Upstream W}
    `{!KeySet W} `{!KeySetLaws W} {UL : UrlLib} {AE : ApiErrors} {JT : JsonText}
    (sent : W -> list OutReq) `{!RouterTrace W sent} (s : Server P K) v slot r ns name path kind w rep w' :
  oidcValidator s = Some v ->
  serve_v1 s slot r ns name path kind w = (rep, w') ->
  let sid := Hdr.Get "x-agentcube-session-id" (header r) in
  sent w' = sent w \/
  exists c now sandbox u jwt,
    slot = true /\ authenticated (W := W) v r now c /\ JWTRequiredRole (config s) ∈ Oidc.Roles c /\
    determineUpstreamURL sandbox path = Ok u /\
    sent w' = sent w ++ [proxied (with_claims c r) u path jwt] /\
    (sid <> "" -> (exists w1 w2, store_Get sid w1 = (Ok sandbox, w2)) /\
                  ("admin" ∈ Oidc.Roles c \/ Info.OwnerID sandbox = Oidc.Subject c)).
Proof.
  intros Hv. unfold serve_v1. rewrite Hv. pose proof (sent_middleware sent (Some v) r w) as Hs.
  destruct (oidcAuthMiddleware (Some v) r w) as [[r'|d] w1] eqn:Ha; cbn in Hs; [|intros; simplify_eq; by left].
  apply middleware_sound in Ha as (c & -> & Hau).
  unfold requireRole, extractClaims, with_claims. cbn [claims]. destruct (Oidc.contains _ _) eqn:Hrole.
  2:{ intros; simplify_eq. by left. }
  destruct slot; cbn [negb]; [|intros; simplify_eq; by left].
  intros H. apply (sent_invoke sent) in H as [H|(sandbox & u & jwt & w2 & w3 & Hg & Hown & Hu & Hj & H)].
  { left. by rewrite H, Hs. }
  right. exists c, (clock w1), sandbox, u, jwt. rewrite H, Hs. unfold Oidc.contains in Hrole. apply bool_decide_eq_true in Hrole.
  split_and!; try done. intros Hne. split.
  - revert Hg. unfold Session.GetSandboxBySession. cbn [header].
    destruct (String.eqb_spec (Hdr.Get "x-agentcube-session-id" (header r)) ""); [done|].
    destruct (store_Get _ w1) as [[i|e] w4] eqn:Hst; intros; simplify_eq. by exists w1, w2.
  - specialize (Hown Hne). revert Hown. unfold checkSandboxOwnership, extractClaims. rewrite Hv. cbn [claims].
    destruct (Oidc.contains (Oidc.Roles c) "admin") eqn:Had.
    { intros _. left. unfold Oidc.contains in Had. by apply bool_decide_eq_true in Had. }
    destruct (String.eqb_spec (Info.OwnerID sandbox) ""); [done|].
    destruct (String.eqb_spec (Info.OwnerID sandbox) (Oidc.Subject c)); [|done]. intros _. by right.
Qed.

(** What the routes lead to: nothing that changes the world, or a request of
    the group. *)
Lemma route_cases {P K W : Type} `{!KeyPairs P K} `{!Env W} `{!Store W} `{!RouterNet W} `{!Upstream W}
    `{!KeySet W} {UL : UrlLib} {AE : ApiErrors} {JT : JsonText} (s : Server P K) sm slot r segments (w : W) rep w' :
  route s sm slot r segments w = Some (rep, w') ->
  w' = w \/ exists ns name path kind, serve_v1 s slot r ns name path kind w = (rep, w').
Proof.
  unfold route. destruct (bool_decide _); [destruct (String.eqb _ _); intros; simplify_eq; by left|].
  destruct (bool_decide _); [destruct (String.eqb _ _); intros; simplify_eq; by left|].
  destruct segments as [|? [|? [|ns [|group [|name [|? [|r0 rest]]]]]]]; try done.
  destruct (_ && _ && _ && _); [|done]. destruct (group_kind group) as [kind|]; [|done].
  intros [= H]. right. by exists ns, name, ("/" +:+ Strs.Join (r0 :: rest) "/"), kind.
Qed.

(** A server that starts with an issuer has a validator for it. *)
Lemma NewServer_validator {P K W F X Pool Cert : Type} `{!KeyPairs P K} `{!KeyFormats K} `{!RouterJwt.Secrets W} {AE : ApiErrors}
    `{!Mtls.CertIO F Pool Cert} `{!X509 X Pool Cert} (b : boot P F) cfg (w0 w1 : W) (s : Server P K) :
  JWTIssuerURL cfg <> "" -> NewServer b (Some cfg) w0 = (Ok s, w1) ->
  config s = applyDefaults cfg /\ JWTRequiredRole cfg <> "" /\
  oidcValidator s = Some {| Oidc.issuer := JWTIssuerURL cfg; Oidc.audience := JWTAudience cfg; Oidc.rolesClaim := JWTRoleClaim cfg |}.
Proof.
  intros Hi. unfold NewServer. destruct (RouterJwt.NewJWTManager _) as [jm|]; [|done].
  destruct (RouterJwt.TryStoreOrLoadJWTKeySecret _ _ jm w0) as [[[e|] jm'] w2]; [done|].
  destruct (certFiles b) as [[fc fa] fw]. destruct (Session.NewSessionManager _ _ _ _ _ _ _ _).1 as [[m t]|]; [|done].
  unfold newValidator. cbn [applyDefaults with_limits JWTIssuerURL JWTRoleClaim JWTRequiredRole JWTAudience].
  rewrite (proj2 (String.eqb_neq _ _) Hi). destruct (String.eqb _ ""); [done|].
  destruct (String.eqb_spec (JWTRequiredRole cfg) "") as [|Hr]; [done|]. unfold Oidc.NewOIDCValidator.
  destruct (discovery b) as [[u|]|]; [|done..]. intros [= <- <-]. done.
Qed.

