(* ===== verification/RouterWorld.v ===== *)
(** * A concrete world for the router

    A key-value server with the session store, a clock, a secret, the requests
    sent so far; one user of the identity provider. It satisfies the laws of
    the router's interfaces and is used to evaluate statements. *)

From Stdlib Require Import Ascii.
From stdpp Require Import base list gmap strings.
From S2P Require Import Prelude GoStrings GoTime GoError GoContext GoHttp GoEncoding GoProxy SandboxTypes KVServer RedisStore StoreSpec StoreRefinement StoreInstances CodecModel Cluster WmAuth Mtls MtlsTheorems RouterAuth RouterJwt JwtModel RouterSession RouterHandlers RouterServer RouterTheorems.

Module RW.
Import ApiModel CodecModel.CodecModel JwtModel.

Record world := {
  r_kv : keyspace;
  r_clock : Time;
  r_sent : list OutReq;
  r_secret : gmap (string * string) RouterJwt.Secret;
  r_down : list string;
}.

Definition world0 : world :=
  {| r_kv := ∅; r_clock := Tm.OfUnix 1700000000; r_sent := []; r_secret := ∅; r_down := [] |}.

Definition set_kv (k : keyspace) (w : world) : world :=
  {| r_kv := k; r_clock := r_clock w; r_sent := r_sent w; r_secret := r_secret w; r_down := r_down w |}.
Definition set_clock (t : Time) (w : world) : world :=
  {| r_kv := r_kv w; r_clock := t; r_sent := r_sent w; r_secret := r_secret w; r_down := r_down w |}.
Definition add_sent (o : OutReq) (w : world) : world :=
  {| r_kv := r_kv w; r_clock := r_clock w; r_sent := r_sent w ++ [o]; r_secret := r_secret w; r_down := r_down w |}.
Definition set_secret m (w : world) : world :=
  {| r_kv := r_kv w; r_clock := r_clock w; r_sent := r_sent w; r_secret := m; r_down := r_down w |}.

#[export] Instance env : Env world := {
  clock := r_clock;
  Intn n w := (0, w);
  NewUUID w := ("uuid", w);
  select_timer ctx t w := (true, set_clock (Z.max t (r_clock w)) w);
  select_after ctx d w := (true, set_clock (r_clock w + Z.max 0 d) w);
  select_ready ch ctx t w := (ChanClosed, w);
}.

#[export] Instance store : Store world :=
  lift_store (redis_store (KVServer0 := KVModel.server)) r_kv set_kv.

Definition rep (w : world) (g : registry) : Prop := represents (KVServer0 := KVModel.server) (r_kv w) g.

#[export] Instance exact_store : StoreExact world rep.
Proof.
  apply (lift_exact _ r_kv set_kv represents); [done|].
  apply (redis_exact (KVLaws0 := KVModel.laws) (KVReliable0 := KVModel.reliable)).
Qed.

#[export] Instance store_laws : StoreLaws world rep.
Proof.
  apply (lift_laws _ r_kv set_kv represents); [done|]. apply (redis_laws (KVLaws0 := KVModel.laws)).
Qed.

Definition created : CreateSandboxResponse :=
  {| CreateResp.Kind := SandboxKind; CreateResp.SessionID := "s9"; CreateResp.SandboxID := "id";
     CreateResp.SandboxName := "sandbox-9"; CreateResp.EntryPoints := []; CreateResp.OwnerID := "alice" |}.

#[export] Instance net : RouterNet world := {
  client_Do _ _ w := (Ok (200, Ok "created"), w);
  ReadFile_token _ := Ok "sa-token";
  parse_response b := if String.eqb b "created" then Ok created else Err (EText "json");
}.

#[export] Instance upstream : Upstream world := {
  DialContext _ _ a w := (if bool_decide (a ∈ r_down w) then Some (EText "connect: connection refused") else None, w);
  RoundTrip _ o w := (Ok {| resp_Status := 200; resp_Header := []; resp_Body := "done" |}, add_sent o w);
}.

(** One provider user: the payload text of a token names the user. *)
#[export] Instance keyset : KeySet world := {
  VerifySignature _ raw w :=
    (if String.eqb raw "aGRy.alice.sig" then Ok "alice" else Err (EText "bad signature"), w);
  oidc_signed raw payload := raw = "aGRy.alice.sig" /\ payload = "alice";
}.

#[export] Instance keyset_laws : KeySetLaws world.
Proof. split. cbn. intros ctx raw w payload w'. destruct (String.eqb_spec raw "aGRy.alice.sig"); intros; by simplify_eq. Qed.

Definition alice_claims : list (string * json) :=
  [("iss", JStr "https://idp"); ("sub", JStr "alice"); ("aud", JStr "agentcube"); ("exp", JNum 1700000300 0);
   ("roles", JArr [JStr "user"])].

#[export] Instance text : JsonText := {
  json_parse s := if String.eqb s "hdr" then Some (JObj [("alg", JStr "RS256")])
                  else if String.eqb s "alice" then Some (JObj alice_claims) else None;
}.

(** URLs of the form [http(s)://authority/...]. *)
#[export] Instance urls : UrlLib := {
  url_Parse s :=
    if Strs.HasPrefix s "http://" then
      Ok {| Scheme := "http"; Host := (Strs.Cut "/" (Strs.drop 7 s)).1; RawQuery := "" |}
    else if Strs.HasPrefix s "https://" then
      Ok {| Scheme := "https"; Host := (Strs.Cut "/" (Strs.drop 8 s)).1; RawQuery := "" |}
    else Err (EText "unsupported");
}.

#[export] Instance url_laws : UrlLaws.
Proof.
  split. intros scheme h p Hs Hh Hp. unfold plain_host, plain_port in *. b2p.
  assert (Strs.free_of "/" (h +:+ ":" +:+ p) = true) as Hf.
  { apply free_app; [by apply (all_chars_free host_char)|]. apply free_app; [done|]. by apply (all_chars_free digit). }
  unfold url_Parse, urls, Strs.HasPrefix. destruct Hs as [-> | ->].
  - change ("http" +:+ "://" +:+ h +:+ ":" +:+ p) with ("http://" +:+ (h +:+ ":" +:+ p)).
    rewrite Strs.prefix_append. change 7%nat with (String.length "http://"). by rewrite Strs.drop_append, Cut_free.
  - change ("https" +:+ "://" +:+ h +:+ ":" +:+ p) with ("https://" +:+ (h +:+ ":" +:+ p)).
    change (String.prefix "http://" ("https://" +:+ (h +:+ ":" +:+ p))) with false. cbv iota.
    rewrite Strs.prefix_append. change 8%nat with (String.length "https://"). by rewrite Strs.drop_append, Cut_free.
Qed.

#[export] Instance secrets : RouterJwt.Secrets world := {
  RouterJwt.InClusterConfig _ := None;
  RouterJwt.NewForConfig _ := None;
  RouterJwt.secret_Create _ sec w :=
    let k := (RouterJwt.sec_Namespace sec, RouterJwt.sec_Name sec) in
    match r_secret w !! k with
    | Some _ => (Some (EStatus {| Reason := "AlreadyExists"; Code := 409; Message := "exists" |}), w)
    | None => (None, set_secret (<[k := sec]> (r_secret w)) w)
    end;
  RouterJwt.secret_Get _ ns n w :=
    (match r_secret w !! (ns, n) with
     | Some s => Ok s
     | None => Err (EStatus (NewNotFound {| Group := ""; Resource := "secrets" |} n))
     end, w);
}.

#[export] Instance trace : RouterTrace world r_sent.
Proof.
  split; try done; intros; cbn; unfold on;
    match goal with |- context [let '(_, _) := ?x in _] => by destruct x end.
Qed.

(** A server with external authentication and a stored session of alice. *)
Definition config0 : Router.Config :=
  {| Router.Port := "8080"; Router.Debug := false; Router.EnableTLS := false; Router.TLSCert := ""; Router.TLSKey := "";
     Router.MaxConcurrentRequests := 10; Router.InitialConnectRetryCount := 3;
     Router.InitialConnectRetryInterval := 200 * Tm.Millisecond;
     Router.MTLSConfig := {| Mtls.CertFile := ""; Mtls.KeyFile := ""; Mtls.CAFile := "" |}; Router.JWTIssuerURL := "https://idp";
     Router.JWTAudience := "agentcube"; Router.JWTRoleClaim := "roles"; Router.JWTRequiredRole := "user" |}.

Definition jm0 : RouterJwt.JWTManager nat nat :=
  {| RouterJwt.privateKey := 7%nat; RouterJwt.publicKey := 7%nat; RouterJwt.clientset := true |}.

Definition validator0 : Oidc.OIDCValidator :=
  {| Oidc.issuer := "https://idp"; Oidc.audience := "agentcube"; Oidc.rolesClaim := "roles" |}.

Definition server0 : Router.Server nat nat :=
  {| Router.config := config0;
     Router.sessionManager := Session.newManager "http://wm:8080" false (Some jm0);
     Router.jwtManager := Some jm0; Router.oidcValidator := Some validator0 |}.

Definition sandbox0 : SandboxInfo :=
  {| Info.Kind := SandboxKind; Info.SandboxID := "id"; Info.SandboxNamespace := "ns"; Info.Name := "sandbox-1";
     Info.EntryPoints := [{| EntryPoint.Path := "/"; EntryPoint.Protocol := "HTTP"; EntryPoint.Endpoint := "10.0.0.1:8080" |}];
     Info.SessionID := "s1"; Info.OwnerID := "alice"; Info.CreatedAt := Tm.OfUnix 1699999000;
     Info.ExpiresAt := Tm.OfUnix 1700009000; Info.IdleTimeout := 0; Info.LastActivityAt := Tm.zero; Info.Status := "running" |}.

Definition world1 : world := (store_Store (r_clock world0) sandbox0 world0).2.

Definition request0 : RouterAuth.Request :=
  {| RouterAuth.method := "POST";
     RouterAuth.header := [("Authorization", "Bearer aGRy.alice.sig"); ("X-Agentcube-Session-Id", "s1")];
     RouterAuth.host := "router"; RouterAuth.rawQuery := ""; RouterAuth.tls := false; RouterAuth.clientIP := "1.2.3.4";
     RouterAuth.remoteIP := Some "1.2.3.4"; RouterAuth.ctx := Ctx.Background; RouterAuth.claims := None |}.

End RW.

Import ApiModel JwtModel RW.
#[local] Existing Instances MtlsModel.cert_io MtlsModel.x509.

(** A start of the router, then a request of alice to her session. *)
Definition boot0 : RouterServer.boot nat MtlsModel.files :=
  {| RouterServer.generatedKey := Ok 7%nat;
     RouterServer.getenv x := if String.eqb x "WORKLOAD_MANAGER_URL" then "http://wm:8080" else "";
     RouterServer.certOrder l := l; RouterServer.certFiles := (∅, ∅, ∅); RouterServer.http2Conf := None;
     RouterServer.discovery := Ok (Ok "https://idp/keys") |}.

Definition segments0 : list string := ["v1"; "namespaces"; "ns"; "agent-runtimes"; "agent"; "invocations"; "run"].

Lemma started_server0 : (RouterServer.NewServer (X := string) boot0 (Some config0) world1).1 = Ok server0.
Proof. vm_compute. reflexivity. Qed.

