(* ===== verification/RouterTheorems2.v ===== *)
(** * Properties of the router: sessions, upstream selection, signing *)

From Stdlib Require Import Ascii.
From stdpp Require Import base list gmap strings.
From S2P Require Import Prelude GoStrings GoTime GoError GoContext GoHttp GoEncoding GoProxy SandboxTypes StoreSpec CodecModel K8sTypes Cluster WmAuth WorkloadBuilder K8sClient WmCreate WmTheorems3 RouterAuth RouterJwt JwtModel RouterSession RouterHandlers RouterServer RouterTheorems RouterWorld.
Import RouterAuth Router.

(** A predicate that no call of the router outside the session store affects. *)
Class RouterStable (W : Type) `{!Env W} `{!Upstream W} (P : W -> Prop) : Prop := {
  rstable_dial ctx d a w : P w -> P (DialContext ctx d a w).2;
  rstable_after ctx d w : P w -> P (select_after ctx d w).2;
  rstable_trip ctx o w : P w -> P (RoundTrip ctx o w).2;
}.

Section stable.
Context {P K W : Type} `{!KeyPairs P K} `{!Env W} `{!Store W} `{!RouterNet W} `{!Upstream W}.
Context {UL : UrlLib} {AE : ApiErrors} (Q : W -> Prop) `{!RouterStable W Q}.

Lemma preflight_stable n d ctx a (w : W) : Q w -> Q (preflight_loop n d ctx a w).2.
Proof.
  revert w. induction n as [|n IH]; intros w Hw; cbn; [done|].
  pose proof (rstable_dial ctx d a w Hw) as Hd. destruct (DialContext ctx d a w) as [[e|] w1]; [|done].
  destruct (_ || _); [done|].
  pose proof (rstable_after ctx d w1 Hd) as Ha. destruct (select_after ctx d w1) as [[] w2]; [by apply IH|done].
Qed.

Lemma resolve_stable cfg r i path (w : W) : Q w -> Q (resolveSandboxTarget cfg r i path w).2.
Proof.
  intros Hw. unfold resolveSandboxTarget, waitForUpstreamReachable.
  destruct (determineUpstreamURL i path) as [u|e]; [|done]. destruct (String.eqb _ ""); [done|].
  match goal with |- context [preflight_loop ?n ?d ?c ?a w] =>
    pose proof (preflight_stable n d c a w Hw) as Hf; destruct (preflight_loop n d c a w) as [[e|] w1] end; done.
Qed.

Lemma proxy_stable r u path jwt sid (w : W) : Q w -> Q (serveProxy r u path jwt sid w).2.
Proof.
  intros Hw. unfold serveProxy. destruct (negb _); [done|].
  match goal with |- context [RoundTrip ?c ?o w] => pose proof (rstable_trip c o w Hw) as Ht;
    destruct (RoundTrip c o w) as [[resp|e] w2] end; done.
Qed.

(** From the state in which the token is signed on. *)
Lemma signed_stable (s : Server P K) r i path (w w1 : W) u jwt :
  resolveSandboxTarget (config s) r i path w = (inl u, w1) -> generateSandboxJWT s r i w1 = inl jwt ->
  Q w1 -> Q (forwardToSandbox s r i path w).2.
Proof. intros Hr Hg H1. unfold forwardToSandbox. rewrite Hr, Hg. by apply proxy_stable. Qed.

Lemma forward_stable (s : Server P K) r i path (w : W) : Q w -> Q (forwardToSandbox s r i path w).2.
Proof.
  intros Hw. pose proof (resolve_stable (config s) r i path w Hw) as Hr. unfold forwardToSandbox.
  destruct (resolveSandboxTarget _ r i path w) as [[u|e] w1]; [|done].
  destruct (generateSandboxJWT s r i w1); [by apply proxy_stable|done].
Qed.

End stable.

(** ** Sessions *)

(** No call turns the clock back. *)
Class ClockMono (W : Type) `{!Env W} `{!Store W} `{!Upstream W} : Prop := {
  mono_stable t : RouterStable W (fun w => t <= clock w);
  mono_get sid w : clock w <= clock (store_Get sid w).2;
  mono_touch now sid t w : clock w <= clock (store_Touch now sid t w).2;
}.
#[export] Existing Instance mono_stable.

Section sessions.
Context {W : Type} `{!Env W} `{!Store W} `{!Upstream W} `{!ClockMono W} {SC : SandboxCodec}.
Context (rep : W -> registry -> Prop) `{!StoreExact W rep}.

Lemma touch_exact sid (w : W) g i :
  rep w g -> valid_sid sid -> sid <> "" -> sessions g !! sid = Some i ->
  rep (touch sid w) (set_activity sid (score (clock w)) g) /\ clock w <= clock (touch sid w).
Proof.
  intros HR Hv Hne Hs. split; [|apply mono_touch]. unfold touch.
  destruct (exact_unit rep (OpTouch (clock w) sid (clock w)) w g (store_Touch (clock w) sid (clock w)))
    as (g' & HR' & Hr); [done..|].
  cbn in Hr. apply String.eqb_neq in Hne. rewrite Hne, Hs in Hr. injection Hr as _ <-.
  by destruct (Tm.IsZero (clock w)).
Qed.

Lemma set_activity_twice sid a b g : set_activity sid a (set_activity sid b g) = set_activity sid a g.
Proof. unfold set_activity. cbn. by rewrite insert_insert_eq. Qed.

End sessions.


(** ** The request that is sent *)

(** The headers a director writes leave the others alone. *)
Lemma directed_connection r jwt : Values "Connection" (directed_header r jwt) = Values "Connection" (header r).
Proof.
  unfold directed_header. cbv zeta.
  assert (forall h, Values "Connection" (if negb (String.eqb jwt "") then Hdr.Set_ "Authorization" ("Bearer " +:+ jwt) h else h)
    = Values "Connection" h) as ->.
  { intros h. destruct (negb _); [by apply Values_Set_ne|done]. }
  rewrite Values_Set_ne by done. destruct (tls r); rewrite !Values_Set_ne by done; done.
Qed.

(** What the router sends to a sandbox of one of the two managed kinds is
    authenticated by the router itself: the request goes to the address of the
    selected entry point, with the path of the invocation, and its
    [Authorization] header, whatever the caller sent, is a token signed with
    the router's key for this session, provided the caller does not list that
    header as a connection option. *)
Theorem forwarded_signed {P K W : Type} `{!KeyPairs P K} `{!KeyFormats K} `{!JwtLib K} {KL : KeyPairLaws P K}
    `{!Env W} `{!Store W} `{!RouterNet W} `{!Upstream W} `{!KeySet W} {UL : UrlLib} {AE : ApiErrors}
    (sent : W -> list OutReq) `{!RouterTrace W sent} `{!ClockMono W} (s : Server P K) jm r sandbox path w rp w' :
  jwtManager s = Some jm ->
  Info.Kind sandbox = SandboxKind \/ Info.Kind sandbox = SandboxClaimsKind ->
  Forall (fun f => Strs.EqualFold "Authorization" f = false) (connection_fields (header r)) ->
  forwardToSandbox s r sandbox path w = (rp, w') ->
  sent w' = sent w \/
  exists out tok u now, sent w' = sent w ++ [out] /\ clock w <= now <= clock w' /\
    determineUpstreamURL sandbox path = Ok u /\ o_UrlHost out = Host u /\ o_Host out = Host u /\
    o_Path out = normalizedProxyPath path /\
    Hdr.Get "Authorization" (o_Header out) = "Bearer " +:+ tok /\
    RouterJwt.GenerateToken jm now now (sandboxClaims r sandbox) = Ok tok.
Proof.
  intros Hj Hk Hc Hf. pose proof (sent_forward sent s r sandbox path w) as H. rewrite Hf in H. cbn in H.
  destruct H as [H|(u & jwt & w1 & Hu & Hr & Hg & H)]; [by left|right].
  exists (proxied r u path jwt), jwt, u, (clock w1).
  assert (RouterJwt.GenerateToken jm (clock w1) (clock w1) (sandboxClaims r sandbox) = Ok jwt) as Htok.
  { revert Hg. unfold generateSandboxJWT. rewrite Hj.
    assert (negb (String.eqb (Info.Kind sandbox) SandboxClaimsKind) && negb (String.eqb (Info.Kind sandbox) SandboxKind)
      = false) as -> by (by destruct Hk as [-> | ->]).
    destruct (RouterJwt.GenerateToken _ _ _ _); [by intros [= <-]|done]. }
  assert (clock w <= clock w1 <= clock w') as Hnow.
  { pose proof (resolve_stable (fun x => clock w <= clock x) (config s) r sandbox path w (Z.le_refl _)) as H1.
    pose proof (signed_stable (fun x => clock w1 <= clock x) s r sandbox path w w1 u jwt Hr Hg (Z.le_refl _)) as H2.
    rewrite Hr in H1. rewrite Hf in H2. done. }
  split_and!; try done; [lia..|].
  assert (jwt <> "") as Hne.
  { revert Htok. unfold RouterJwt.GenerateToken. destruct (SignedString _ _) eqn:Hs; [|done]. intros [= <-].
    by eapply signed_nonempty. }
  unfold proxied. cbn [with_header o_Header configureProxyDirector].
  rewrite Get_finish_header; [|by unfold connection_fields; rewrite directed_connection|by repeat constructor].
  unfold directed_header. cbv zeta. rewrite (proj2 (String.eqb_neq jwt "") Hne). cbn [negb]. apply Hdr.Get_Set.
Qed.

(** ** Selection of the upstream *)

(** The port whose path prefix matches first, or the first one. *)
Definition selected (path : string) (ports : list TargetPort) : option TargetPort :=
  match List.find (fun p => Strs.HasPrefix path (PathPrefix p)) ports with
  | Some p => Some p
  | None => head ports
  end.

Definition entry_of (podIP : string) (p : TargetPort) : SandboxEntryPoint :=
  {| EntryPoint.Path := PathPrefix p; EntryPoint.Protocol := Protocol p; EntryPoint.Endpoint := K8s.entryEndpoint podIP p |}.

Lemma match_entry_ports podIP path ports :
  match_entry path (entry_of podIP <$> ports) =
    entry_of podIP <$> List.find (fun p => Strs.HasPrefix path (PathPrefix p)) ports.
Proof. induction ports as [|p ports IH]; [done|]. cbn. by destruct (Strs.HasPrefix path (PathPrefix p)). Qed.

(** A decimal numeral is made of digits. *)
Lemma pretty_go_digits x s : all_chars digit s = true -> s <> "" \/ (0 < x)%N -> plain_port (pretty.pretty_N_go x s) = true.
Proof.
  revert s. induction (N.lt_wf_0 x) as [x _ IH]; intros s Hs Hne. destruct (decide (x = 0)%N) as [->|Hx].
  - destruct Hne as [Hne|]; [|lia]. unfold plain_port. rewrite pretty.pretty_N_go_0, Hs.
    by rewrite (proj2 (String.eqb_neq s "") Hne).
  - rewrite pretty.pretty_N_go_step by lia. apply IH; [apply N.div_lt; lia| |by left].
    cbn [all_chars]. rewrite Hs, andb_true_r. unfold pretty.pretty_N_char. by repeat case_match.
Qed.

Lemma Itoa_port n : 0 <= n -> plain_port (Strs.Itoa n) = true.
Proof.
  intros Hn. unfold Strs.Itoa. destruct n as [|p|p]; [done| |lia].
  change (pretty.pretty (Zpos p)) with (pretty.pretty (Npos p)). unfold pretty.pretty, pretty.pretty_N.
  rewrite decide_False by done. apply pretty_go_digits; [done|by right].
Qed.

Lemma free_not_contains c s t : Strs.free_of c s = true -> Strs.free_of c t = false -> Strs.Contains s t = false.
Proof.
  intros Hs Ht. assert (forall u, Strs.free_of c u = true -> Strs.HasPrefix u t = false) as Hp.
  { intros u Hu. unfold Strs.HasPrefix. destruct (String.prefix t u) eqn:Hpre; [|done].
    apply Strs.prefix_spec in Hpre as [r ->]. exfalso. clear Hs. induction t as [|d t IH]; [done|].
    rewrite Strs.append_cons in Hu. cbn in Hu, Ht. destruct (Ascii.eqb d c); [done|]. by apply IH. }
  induction s as [|d s IH]; cbn [Strs.Contains].
  - by rewrite Hp.
  - rewrite Hp by done. apply IH. cbn in Hs. by apply andb_true_iff in Hs as [_ ?].
Qed.

Lemma built_url {UL : UrlLib} {ULl : UrlLaws} podIP p :
  plain_host podIP = true -> 0 <= K8sTypes.Port p -> Protocol p = ProtocolTypeHTTP \/ Protocol p = ProtocolTypeHTTPS ->
  buildURL (Protocol p) (K8s.entryEndpoint podIP p) =
    Ok {| Scheme := Strs.ToLower (Protocol p); Host := podIP +:+ ":" +:+ Strs.Itoa (K8sTypes.Port p); RawQuery := "" |}.
Proof.
  intros Hip Hp Hpr. pose proof (Itoa_port _ Hp) as Hport. unfold K8s.entryEndpoint, Strs.JoinHostPort.
  pose proof Hip as Hip'. unfold plain_host in Hip'. pose proof Hport as Hport'. unfold plain_port in Hport'. b2p.
  rewrite (free_not_contains ":" podIP ":") by (done || by apply (all_chars_free host_char)).
  set (ep := podIP +:+ ":" +:+ Strs.Itoa (K8sTypes.Port p)).
  assert (Strs.Contains ep "://" = false) as Hc.
  { apply (free_not_contains "/"); [|done]. apply free_app; [by apply (all_chars_free host_char)|].
    apply free_app; [done|]. by apply (all_chars_free digit). }
  assert (negb (String.eqb (Protocol p) "") = true) as Hne by (by destruct Hpr as [-> | ->]).
  unfold buildURL. cbv zeta. rewrite Hc, Hne. cbn [negb andb].
  assert (Strs.ToLower (Protocol p) = "http" \/ Strs.ToLower (Protocol p) = "https") as Hsch
    by (destruct Hpr as [-> | ->]; auto).
  unfold ep. rewrite url_Parse_authority by done. cbn [Host].
  rewrite (proj2 (String.eqb_neq _ "")); [done|].
  by destruct podIP.
Qed.

(** [C28] The address the router computes from a session record is the one the
    workload manager meant: for a sandbox with a name or IPv4 address, the
    record made from its port list leads to exactly the port whose path prefix
    is the first to match, or to the first port when none does, over the
    protocol of that port. *)
Theorem upstream_of_record {UL : UrlLib} {ULl : UrlLaws} (sandbox : Sandbox) (podIP : string) (entry : sandboxEntry)
    (path : string) (p : TargetPort) :
  plain_host podIP = true ->
  Forall (fun p => 0 <= K8sTypes.Port p /\ (Protocol p = ProtocolTypeHTTP \/ Protocol p = ProtocolTypeHTTPS)) (Entry.Ports entry) ->
  selected path (Entry.Ports entry) = Some p ->
  determineUpstreamURL (K8s.buildSandboxInfo sandbox podIP entry) path =
    Ok {| Scheme := Strs.ToLower (Protocol p); Host := podIP +:+ ":" +:+ Strs.Itoa (K8sTypes.Port p); RawQuery := "" |}.
Proof.
  intros Hip Hall Hsel. unfold determineUpstreamURL. cbn [Info.EntryPoints K8s.buildSandboxInfo].
  fold (entry_of podIP). change (fun port => entry_of podIP port) with (entry_of podIP). rewrite match_entry_ports.
  rewrite Forall_forall in Hall. unfold selected in Hsel.
  destruct (List.find _ (Entry.Ports entry)) as [q|] eqn:Hf; cbn [fmap option_fmap option_map].
  - simplify_eq. apply List.find_some in Hf as [Hin _]. apply list_elem_of_In in Hin.
    destruct (Hall _ Hin). by apply built_url.
  - destruct (Entry.Ports entry) as [|q ports]; [done|]. cbn in Hsel. simplify_eq. cbn [fmap list_fmap].
    destruct (Hall p ltac:(left)) as [? ?]. by apply built_url.
Qed.

(** ** Witnesses *)

Import ApiModel CodecModel.CodecModel JwtModel RW.

#[export] Instance stable_kv g : RouterStable world (fun w => rep w g).
Proof. by split. Qed.

#[export] Instance clock_mono : ClockMono world.
Proof.
  split; [intros t; split; cbn; lia|..]; intros; cbn; unfold StoreInstances.on;
    match goal with |- context [let '(_, _) := ?x in _] => destruct x end; cbn; lia.
Qed.

Lemma represented1 : rep world1 (spec_store (r_clock world0) sandbox0 empty_registry).
Proof.
  assert (rep world0 empty_registry) as H0 by apply StoreRefinement.represents_empty.
  destruct (exact_unit rep (OpStore (r_clock world0) sandbox0) world0 empty_registry
    (store_Store (r_clock world0) sandbox0)) as (g & Hg & Hs); [done|done|by split|].
  cbn [spec_run] in Hs. change (Tm.IsZero (Info.ExpiresAt sandbox0)) with false in Hs. cbv iota in Hs.
  apply (f_equal snd) in Hs. cbn [snd] in Hs. rewrite Hs. exact Hg.
Qed.


Lemma forwarded_signed_witness :
  exists rp w' out tok now, forwardToSandbox server0 request0 sandbox0 "/run" world1 = (rp, w') /\
    r_sent w' = [out] /\ Hdr.Get "Authorization" (o_Header out) = "Bearer " +:+ tok /\
    RouterJwt.GenerateToken jm0 now now (sandboxClaims request0 sandbox0) = Ok tok.
Proof.
  assert (length (r_sent (forwardToSandbox server0 request0 sandbox0 "/run" world1).2) = 1%nat) as Hl
    by (vm_compute; reflexivity).
  destruct (forwardToSandbox server0 request0 sandbox0 "/run" world1) as [rp w'] eqn:H. cbn [snd] in Hl.
  destruct (forwarded_signed r_sent server0 jm0 request0 sandbox0 "/run" world1 rp w' eq_refl (or_introl eq_refl)
    (Forall_nil_2 _) H) as [Hs|(out & tok & u & now & Hs & _ & _ & _ & _ & _ & Ha & Ht)].
  - rewrite Hs in Hl. discriminate Hl.
  - exact (ex_intro _ rp (ex_intro _ w' (ex_intro _ out (ex_intro _ tok (ex_intro _ now
      (conj eq_refl (conj Hs (conj Ha Ht)))))))).
Defined.

Definition entry0 : sandboxEntry :=
  {| Entry.Kind := SandboxKind; Entry.SessionID := "s1"; Entry.OwnerID := "alice"; Entry.IdleTimeout := 0;
     Entry.Ports := [{| PathPrefix := "/api"; port_Name := "api"; K8sTypes.Port := 9000; Protocol := "HTTPS" |};
                     {| PathPrefix := "/"; port_Name := "web"; K8sTypes.Port := 8080; Protocol := "HTTP" |}] |}.

Definition cr0 : Sandbox :=
  {| sb_APIVersion := ""; sb_Kind := ""; sb_Meta := meta0; sb_PodSpec := podSpec0; sb_PodLabels := ∅;
     sb_PodAnnotations := ∅; sb_ShutdownTime := None; sb_Replicas := None; sb_Conditions := [] |}.

Lemma upstream_of_record_witness :
  determineUpstreamURL (K8s.buildSandboxInfo cr0 "10.0.0.7" entry0) "/api/run" =
    Ok {| Scheme := "https"; Host := "10.0.0.7:9000"; RawQuery := "" |}.
Proof.
  refine (upstream_of_record cr0 "10.0.0.7" entry0 "/api/run"
    {| PathPrefix := "/api"; port_Name := "api"; K8sTypes.Port := 9000; Protocol := "HTTPS" |} eq_refl _ eq_refl).
  apply Forall_cons_2; [split; [cbn; lia|right; reflexivity]|].
  apply Forall_cons_2; [split; [cbn; lia|left; reflexivity]|apply Forall_nil_2].
Defined.
