(* ===== verification/RouterTheorems3.v ===== *)
(** * Properties of the router: identity, shared keys, the concurrency limit *)

From Stdlib Require Import Ascii.
From stdpp Require Import base list gmap strings sets.
From S2P Require Import Prelude GoStrings GoTime GoError GoContext GoHttp GoEncoding SandboxTypes K8sTypes Cluster WmAuth WorkloadBuilder RouterAuth RouterJwt JwtModel RouterSession RouterHandlers RouterServer RouterTheorems RouterWorld.
Import RouterAuth Router.

(** ** Identity across the two services *)

(** The expiry claim of a token signed at [now]. *)
Definition expiry_of (now : Time) : Z := Tm.Unix (Tm.Add now RouterJwt.jwtExpiration).

Lemma expiry_exact now : in_era now ->
  expiry_of now = (now + 5 * Tm.Minute) / Tm.Second - Tm.unixToInternal /\
  exact_value (JNum (expiry_of now) 0) = true /\ exact_value (JNum (Tm.Unix now) 0) = true.
Proof.
  intros Hn. destruct (in_era_sane now (5 * Tm.Minute) Hn ltac:(unfold Tm.Minute, Tm.Second; lia)) as [Hs1 Hs2].
  unfold expiry_of, RouterJwt.jwtExpiration.
  rewrite Tm.Add_exact by (done || (unfold in_int64, int64_min, int64_max, Tm.Minute, Tm.Second; lia)).
  rewrite !Tm.Unix_exact by done. split; [done|].
  assert (Tm.OfUnix 0 = 62135596800 * Tm.Second /\ Tm.OfUnix (2 ^ 50) = (2 ^ 50 + 62135596800) * Tm.Second) as [H1 H2]
    by (split; reflexivity).
  unfold in_era in Hn. rewrite H1, H2 in Hn. unfold Tm.Minute, Tm.Second, Tm.unixToInternal in *. unfold exact_value.
  assert (62135596800 <= now / 1000000000 <= 2 ^ 50 + 62135596800) as Ha.
  { split; [apply Z.div_le_lower_bound; lia|apply Z.div_le_upper_bound; lia]. }
  assert (62135596800 <= (now + 5 * (60 * 1000000000)) / 1000000000 <= 2 ^ 50 + 62135596800 + 300) as Hb.
  { split; [apply Z.div_le_lower_bound; lia|apply Z.div_le_upper_bound; lia]. }
  split; repeat (apply andb_true_iff; split); try done; apply Z.leb_le; lia.
Qed.

(** A token the router signs at [now] parses under its key while its lifetime
    lasts, with the claims it was asked to sign. *)
Lemma token_parses {P K} `{!KeyPairs P K} `{!KeyFormats K} `{!JwtLib K} {KL : KeyPairLaws P K}
    (jm : RouterJwt.JWTManager P K) ms now now' claims tok :
  "RS256" ∈ ms ->
  RouterJwt.GenerateToken jm now now claims = Ok tok ->
  exact_claims claims = true -> obj_get "exp" claims = None -> in_era now ->
  now' < now + 5 * Tm.Minute - Tm.Second ->
  exists claims', jwt_Parse (public (RouterJwt.privateKey jm)) ms now' tok = Ok claims' /\
    (forall k v, obj_get k claims = Some v -> obj_get k claims' = Some v) /\
    (obj_get "iat" claims = None -> obj_get "iat" claims' = Some (JNum (Tm.Unix now) 0)) /\
    (obj_get "nbf" claims = None -> obj_get "nbf" claims' = None).
Proof.
  intros Hms. unfold RouterJwt.GenerateToken. set (full := _ ++ claims). destruct (SignedString _ full) as [t|] eqn:Hs; [|done].
  intros [= ->] Hex Hexp Hera Hnow. destruct (expiry_exact now Hera) as (He & Hx & Hi).
  destruct (signed_parses (RouterJwt.privateKey jm) full tok ms now' (expiry_of now) Hs) as (l & Hp & Hl).
  - unfold full, exact_claims. rewrite forallb_app. apply andb_true_iff. split; [|exact Hex].
    cbn [forallb fst snd]. fold (expiry_of now). rewrite Hx, Hi. done.
  - done.
  - unfold full. cbn [app obj_get]. rewrite Hexp. done.
  - rewrite He. unfold Tm.OfUnix, Tm.unixToInternal.
    assert (in_int64 ((now + 5 * Tm.Minute) / Tm.Second)) as Hin.
    { destruct (in_era_sane now (5 * Tm.Minute) Hera ltac:(unfold Tm.Minute, Tm.Second; lia)) as [_ Hs2].
      unfold Tm.sane in Hs2. unfold in_int64, int64_min, int64_max.
      assert (- 2 ^ 62 <= (now + 5 * Tm.Minute) / Tm.Second <= 2 ^ 62); [|lia].
      split; [apply Z.div_le_lower_bound|apply Z.div_le_upper_bound]; unfold Tm.Second in *; lia. }
    replace (_ - 62135596800 + 62135596800) with ((now + 5 * Tm.Minute) / Tm.Second) by lia.
    rewrite wrap64_id by done. pose proof (Z.mod_pos_bound (now + 5 * Tm.Minute) Tm.Second ltac:(done)).
    pose proof (Z_div_mod_eq_full (now + 5 * Tm.Minute) Tm.Second). lia.
  - exists l. split; [done|]. split_and!.
    + intros k v Hk. rewrite Hl. unfold full. cbn [app obj_get]. by rewrite Hk.
    + intros Hk. rewrite Hl. unfold full. cbn [app obj_get]. by rewrite Hk.
    + intros Hk. rewrite Hl. unfold full. cbn [app obj_get]. by rewrite Hk.
Qed.

(** The ownership check of a session whose owner is a known subject. *)
Lemma owner_checked v c i : Info.OwnerID i = Oidc.Subject c -> Oidc.Subject c <> "" ->
  (forall r, claims r = Some c -> checkSandboxOwnership (Some v) r i = None) /\
  (forall r c', claims r = Some c' -> Oidc.Subject c' <> Oidc.Subject c -> "admin" ∉ Oidc.Roles c' ->
     exists d, checkSandboxOwnership (Some v) r i = Some d /\ d.1 = 403).
Proof.
  intros Ho Hne. unfold checkSandboxOwnership, extractClaims. rewrite Ho, (proj2 (String.eqb_neq _ "") Hne). split.
  - intros r ->. rewrite String.eqb_refl. by destruct (Oidc.contains _ _).
  - intros r c' -> Hs Had. unfold Oidc.contains. rewrite bool_decide_false by done.
    rewrite (proj2 (String.eqb_neq (Oidc.Subject c) (Oidc.Subject c'))) by congruence. cbn. by eexists.
Qed.


(** ** Replicas share one key *)

(** An API server that holds the identity Secret: creation succeeds exactly
    when there is none, and a read returns it. *)
Class SecretsExact (W : Type) `{!RouterJwt.Secrets W} {AE : ApiErrors} (ns : string)
    (secret : W -> option RouterJwt.Secret) : Prop := {
  sx_config w : RouterJwt.InClusterConfig w = None;
  sx_client w : RouterJwt.NewForConfig w = None;
  sx_create ctx sec w :
    RouterJwt.sec_Name sec = RouterJwt.IdentitySecretName -> RouterJwt.sec_Namespace sec = ns ->
    exists w', match secret w with
    | None => RouterJwt.secret_Create ctx sec w = (None, w') /\ secret w' = Some sec
    | Some old => exists e, RouterJwt.secret_Create ctx sec w = (Some e, w') /\ IsAlreadyExists e = true /\
                    secret w' = Some old
    end;
  sx_get ctx w sec :
    secret w = Some sec ->
    exists w', RouterJwt.secret_Get ctx ns RouterJwt.IdentitySecretName w = (Ok sec, w') /\ secret w' = Some sec;
}.

Section replicas.
Context {P K W : Type} `{!KeyPairs P K} `{!KeyFormats K} `{!JwtLib K} {KL : KeyPairLaws P K}.
Context `{!RouterJwt.Secrets W} {AE : ApiErrors} (ns : string) (secret : W -> option RouterJwt.Secret).
Context `{!SecretsExact W ns secret}.

(** A manager as [NewJWTManager] makes it, whose key can be marshalled. *)
Definition fresh (jm : RouterJwt.JWTManager P K) : Prop :=
  RouterJwt.publicKey jm = public (RouterJwt.privateKey jm) /\ exists pem, RouterJwt.GetPublicKeyPEM jm = Ok pem.

(** The Secret of the pair of a key. *)
Definition secret_of (jm : RouterJwt.JWTManager P K) (pem : string) : RouterJwt.Secret :=
  RouterJwt.identitySecret ns (RouterJwt.GetPrivateKeyPEM jm) pem.

Lemma secret_private jm pem :
  RouterJwt.sec_Data (secret_of jm pem) !! RouterJwt.PrivateKeyDataKey = Some (RouterJwt.GetPrivateKeyPEM jm).
Proof. apply lookup_insert_eq. Qed.

Lemma secret_public jm pem : RouterJwt.sec_Data (secret_of jm pem) !! RouterJwt.PublicKeyDataKey = Some pem.
Proof. cbn. rewrite lookup_insert_ne by done. apply lookup_insert_eq. Qed.

(** Starting reaches the Secret, with the key of the manager. *)
Lemma start_unfold ctx jm w :
  exists jm1, RouterJwt.TryStoreOrLoadJWTKeySecret ns ctx jm w = RouterJwt.storeOrLoad ns ctx jm1 w /\
    RouterJwt.privateKey jm1 = RouterJwt.privateKey jm /\ RouterJwt.publicKey jm1 = RouterJwt.publicKey jm.
Proof.
  unfold RouterJwt.TryStoreOrLoadJWTKeySecret. rewrite sx_config, sx_client. destruct (RouterJwt.clientset jm); eauto.
Qed.

Lemma pem_of_same (jm jm1 : RouterJwt.JWTManager P K) :
  RouterJwt.publicKey jm1 = RouterJwt.publicKey jm -> RouterJwt.GetPublicKeyPEM jm1 = RouterJwt.GetPublicKeyPEM jm.
Proof. unfold RouterJwt.GetPublicKeyPEM. by intros ->. Qed.

Lemma start_first ctx jm pem w :
  RouterJwt.publicKey jm = public (RouterJwt.privateKey jm) -> RouterJwt.GetPublicKeyPEM jm = Ok pem -> secret w = None ->
  exists jm' w', RouterJwt.TryStoreOrLoadJWTKeySecret ns ctx jm w = (None, jm', w') /\
    RouterJwt.privateKey jm' = RouterJwt.privateKey jm /\
    RouterJwt.publicKey jm' = public (RouterJwt.privateKey jm) /\ secret w' = Some (secret_of jm pem).
Proof.
  intros Hpub Hpem Hs. destruct (start_unfold ctx jm w) as (jm1 & -> & Hp1 & Hk1).
  unfold RouterJwt.storeOrLoad. rewrite (pem_of_same jm jm1), Hpem by done.
  destruct (sx_create (secret := secret) ctx (RouterJwt.identitySecret ns (RouterJwt.GetPrivateKeyPEM jm1) pem) w)
    as (w1 & Hc); [done..|].
  rewrite Hs in Hc. destruct Hc as [-> Hw1]. exists jm1, w1. split_and!; [done|done|congruence|].
  rewrite Hw1. unfold secret_of, RouterJwt.GetPrivateKeyPEM. by rewrite Hp1.
Qed.

Lemma start_later ctx jm j0 pem0 w :
  fresh jm -> secret w = Some (secret_of j0 pem0) ->
  exists jm' w', RouterJwt.TryStoreOrLoadJWTKeySecret ns ctx jm w = (None, jm', w') /\
    RouterJwt.privateKey jm' = RouterJwt.privateKey j0 /\
    RouterJwt.publicKey jm' = public (RouterJwt.privateKey j0) /\ secret w' = Some (secret_of j0 pem0).
Proof.
  intros [Hpub [pem Hpem]] Hs. destruct (start_unfold ctx jm w) as (jm1 & -> & Hp1 & Hk1).
  unfold RouterJwt.storeOrLoad. rewrite (pem_of_same jm jm1), Hpem by done.
  destruct (sx_create (secret := secret) ctx (RouterJwt.identitySecret ns (RouterJwt.GetPrivateKeyPEM jm1) pem) w)
    as (w1 & Hc); [done..|].
  rewrite Hs in Hc. destruct Hc as (e & -> & He & Hw1). rewrite He. cbn [negb].
  destruct (sx_get ctx w1 _ Hw1) as (w2 & -> & Hw2). rewrite secret_private.
  unfold RouterJwt.loadPrivateKeyPEM, RouterJwt.GetPrivateKeyPEM at 1.
  rewrite pem_roundtrip, pkcs1_roundtrip. eauto 8.
Qed.

(** A replica that started with the pair of [j0]. *)
Definition started_with (j0 : RouterJwt.JWTManager P K) (o : option goerr * RouterJwt.JWTManager P K) : Prop :=
  o.1 = None /\ RouterJwt.privateKey o.2 = RouterJwt.privateKey j0 /\
  RouterJwt.publicKey o.2 = public (RouterJwt.privateKey j0).

(** The replicas start one after the other, in any order. *)
Fixpoint start_all ctx (jms : list (RouterJwt.JWTManager P K)) (w : W)
    : list (option goerr * RouterJwt.JWTManager P K) * W :=
  match jms with
  | [] => ([], w)
  | jm :: jms =>
      let '(e, jm', w) := RouterJwt.TryStoreOrLoadJWTKeySecret ns ctx jm w in
      let '(rest, w) := start_all ctx jms w in ((e, jm') :: rest, w)
  end.

Lemma start_rest ctx j0 pem0 jms w :
  Forall fresh jms -> secret w = Some (secret_of j0 pem0) ->
  Forall (started_with j0) (start_all ctx jms w).1 /\
  secret (start_all ctx jms w).2 = Some (secret_of j0 pem0).
Proof.
  revert w. induction jms as [|jm jms IH]; intros w Hf Hs; [done|]. apply Forall_cons in Hf as [Hj Hf].
  destruct (start_later ctx jm j0 pem0 w Hj Hs) as (jm' & w1 & Hr & Hp & Hk & Hs1). cbn [start_all]. rewrite Hr.
  destruct (IH w1 Hf Hs1) as [H1 H2]. destruct (start_all ctx jms w1) as [rest w2]. cbn in *. split; [|done].
  by constructor.
Qed.

End replicas.


(** ** The concurrency limit *)

Section limiter.
Context (mx : Z) (Hmx : 0 < mx).

Lemma limiter_inv s : Limiter.reachable mx s ->
  Limiter.used s = size (Limiter.serving s) /\ Z.of_nat (Limiter.used s) <= mx.
Proof.
  induction 1 as [|s s' _ [Hu Hb] Hstep]; [split; [by cbn; rewrite size_empty|cbn; lia]|].
  destruct Hstep as [id s Hn Hr|id s Hin].
  - unfold Limiter.arrive. destruct (Z.ltb_spec (Z.of_nat (Limiter.used s)) mx); cbn; [|done].
    rewrite size_union, size_singleton by set_solver. split; lia.
  - cbn. rewrite size_difference, size_singleton by set_solver. split; lia.
Qed.

End limiter.

(** The limiter admits at most the configured number of requests at a
    time, counting exactly those being served: in every reachable state the
    occupied slots are the requests in service, never more than the limit, a
    request is turned away exactly when the limit is reached, and a limit that
    is zero or negative in the configuration means one thousand, not
    "unlimited". *)
Theorem limiter_bound (c : Config) (s : Limiter.state) (id : nat) :
  let mx := MaxConcurrentRequests (RouterServer.applyDefaults c) in
  Limiter.reachable mx s ->
  Limiter.used s = size (Limiter.serving s) /\ Z.of_nat (size (Limiter.serving s)) <= mx /\
  ((Limiter.arrive mx id s).1 = false <-> Z.of_nat (size (Limiter.serving s)) = mx) /\
  (MaxConcurrentRequests c <= 0 -> mx = 1000).
Proof.
  cbv zeta. cbn [RouterServer.applyDefaults RouterServer.with_limits MaxConcurrentRequests].
  set (mx := if MaxConcurrentRequests c <=? 0 then 1000 else MaxConcurrentRequests c).
  assert (0 < mx) as Hmx by (unfold mx; destruct (Z.leb_spec (MaxConcurrentRequests c) 0); lia).
  intros Hr. destruct (limiter_inv mx Hmx s Hr) as [Hu Hb]. rewrite <- Hu. split_and!; [done|done| |].
  - unfold Limiter.arrive. destruct (Z.ltb_spec (Z.of_nat (Limiter.used s)) mx); cbn; split; (done || lia).
  - unfold mx. intros Hc. by rewrite (proj2 (Z.leb_le _ _)).
Qed.

(** ** Witnesses *)

Import ApiModel JwtModel RW.

Definition alice : Oidc.Claims := {| Oidc.Subject := "alice"; Oidc.Email := ""; Oidc.Roles := ["user"] |}.
Definition now0 : Time := Tm.OfUnix 1700000000.


Definition held (w : world) : option RouterJwt.Secret := r_secret w !! ("default", RouterJwt.IdentitySecretName).

#[export] Instance held_exact : SecretsExact world "default" held.
Proof.
  split; [done|done| |].
  - intros ctx sec w Hn Hns. cbn. rewrite Hn, Hns. unfold held.
    destruct (r_secret w !! _) as [old|] eqn:Hl; [exists w; by eexists|].
    eexists. split; [done|]. cbn. by rewrite lookup_insert_eq.
  - intros ctx w sec Hs. exists w. split; [|done]. unfold held in Hs. unfold RouterJwt.secret_Get, secrets. by rewrite Hs.
Qed.

Definition manager_of (k : nat) : RouterJwt.JWTManager nat nat :=
  {| RouterJwt.privateKey := k; RouterJwt.publicKey := k; RouterJwt.clientset := false |}.

Lemma fresh_manager k : fresh (manager_of k).
Proof. split; [done|by eexists]. Qed.


Lemma limiter_bound_witness :
  let s := (Limiter.arrive 10 1 Limiter.init).2 in
  Limiter.reachable 10 s /\ Limiter.used s = size (Limiter.serving s).
Proof.
  assert (Limiter.reachable 10 (Limiter.arrive 10 1 Limiter.init).2) as Hr.
  { eapply Limiter.reach_step; [apply Limiter.reach_init|]. apply Limiter.step_arrive; apply not_elem_of_empty. }
  split; [exact Hr|]. exact (proj1 (limiter_bound config0 _ 2 Hr)).
Defined.
