(* ===== verification/PicodFiles.v ===== *)
(** * PicoD: the workspace jail and the file handlers ([pkg/picod/files.go])

    The file system is the class [Files]: paths are resolved by the operating
    system, symbolic links included. *)

From Stdlib Require Import Ascii.
From stdpp Require Import base list gmap strings.
From S2P Require Import Prelude GoStrings GoTime GoError GoHttp GoEncoding GoPath.

(** [os.FileInfo] *)
Record FileStat := { st_Size : Z; st_Mode : string; st_ModTime : Time; st_IsDir : bool }.

Class Files (W : Type) := {
  EvalSymlinks : string -> W -> res string;
  Lstat : string -> W -> res FileStat;
  Stat : string -> W -> res FileStat;
  MkdirAll : string -> Z -> W -> option goerr * W;
  WriteFile : string -> string -> Z -> W -> option goerr * W;
  (** [os.OpenFile(p, O_WRONLY|O_CREATE|O_TRUNC, mode)], then [io.Copy] *)
  OpenTrunc : string -> Z -> W -> option goerr * W;
  CopyTo : string -> string -> W -> option goerr * W;
  (** entries with the result of [entry.Info()] *)
  ReadDir : string -> W -> res (list (string * bool * res FileStat));
  ReadFile : string -> W -> res string;
  Getwd : W -> res string;
  IsNotExist : goerr -> bool;
  TypeByExtension : string -> string;
}.

Module Picod.

(** ** Responses *)

Record FileInfo := { Path : string; Size : Z; Mode : string; Modified : Time }.

Record FileEntry := { fe_Name : string; fe_Size : Z; fe_Modified : Time; fe_Mode : string; fe_IsDir : bool }.

Inductive reply :=
  | Failure (code : Z) (msg : string)
  | Uploaded (f : FileInfo)
  | Listing (files : list FileEntry)
  | Download (path contentType filename : string).

Definition maxFileMode : Z := 511. (* 0777 *)
Definition defaultFileMode : Z := 420. (* 0644 *)

(** [strconv.ParseUint(s, 8, 32)]: octal digits only, within 32 bits. *)
Fixpoint octal (s : string) (acc : Z) : option Z :=
  match s with
  | EmptyString => Some acc
  | String c s =>
      let d := Z.of_nat (nat_of_ascii c) - 48 in
      if (0 <=? d) && (d <=? 7) then
        let acc := acc * 8 + d in if acc <? 2 ^ 32 then octal s acc else None
      else None
  end.

Definition parseFileMode (modeStr : string) : Z :=
  if String.eqb modeStr "" then defaultFileMode
  else match octal modeStr 0 with
       | None => defaultFileMode
       | Some mode => if maxFileMode <? mode then defaultFileMode else mode
       end.

Section files.
Context {W : Type} `{!Files W}.
Implicit Types w : W.

(** [filepath.Abs] *)
Definition Abs (p : string) w : res string :=
  if Path.IsAbs p then Ok (Path.Clean p)
  else match Getwd w with Err e => Err e | Ok wd => Ok (Path.Join wd p) end.

(** The workspace after the resolution of its links. *)
Definition resolvedWorkspace (workspaceDir : string) w : string :=
  Path.Clean
    match EvalSymlinks workspaceDir w with
    | Ok r => r
    | Err _ => match Abs workspaceDir w with Ok a => a | Err _ => Path.Clean workspaceDir end
    end.

(** The place a request names, before links are resolved. *)
Definition candidate (workspace p : string) : string :=
  let cleanPath := Path.Clean p in
  let cleanPath := if Path.IsAbs cleanPath then Strs.TrimPrefix cleanPath "/" else cleanPath in
  Path.Clean (Path.Join workspace cleanPath).

Definition sanitizePath (workspaceDir p : string) w : res string :=
  if String.eqb workspaceDir "" then Err (EText "workspace directory not initialized")
  else
    let ws := resolvedWorkspace workspaceDir w in
    let full := candidate ws p in
    match Path.Rel ws full with
    | Err e => Err (EWrap ("access denied: path '" +:+ p +:+ "' escapes workspace jail (rel error: ") e ")")
    | Ok rel =>
        if Path.escapes rel then
          Err (EText ("access denied: path '" +:+ p +:+ "' escapes workspace jail (relative path traversal: " +:+ rel +:+ ")"))
        else
          match EvalSymlinks full w with
          | Err _ => Ok full
          | Ok final =>
              match Path.Rel ws final with
              | Ok rel =>
                  if Path.escapes rel then
                    Err (EText ("access denied: resolved path '" +:+ final +:+ "' (from '" +:+ p +:+ "') escapes workspace jail via symlink"))
                  else Ok final
              | Err _ =>
                  Err (EText ("access denied: resolved path '" +:+ final +:+ "' (from '" +:+ p +:+ "') escapes workspace jail via symlink"))
              end
          end
    end.

(** The walk to the deepest ancestor that exists: [fuel] bounds the number of
    components; [None] is the refusal to go on without bound. *)
Fixpoint deepest (fuel : nat) (ws dir existing : string) w : option (option goerr) :=
  match fuel with
  | O => None
  | S fuel =>
      match Lstat existing w with
      | Ok _ =>
          match EvalSymlinks existing w with
          | Err e => Some (Some (Wrapf ("failed to resolve path " +:+ Strs.Quote existing) e))
          | Ok resolved =>
              match Path.Rel ws resolved with
              | Ok rel =>
                  if Path.escapes rel
                  then Some (Some (EText ("access denied: path " +:+ Strs.Quote dir +:+ " escapes workspace jail via symlink")))
                  else Some None
              | Err _ => Some (Some (EText ("access denied: path " +:+ Strs.Quote dir +:+ " escapes workspace jail via symlink")))
              end
          end
      | Err _ =>
          let parent := Path.Dir existing in
          if String.eqb parent existing then Some None else deepest fuel ws dir parent w
      end
  end.

Definition mkdirSafe (workspaceDir dir : string) w : option goerr * W :=
  let ws := match EvalSymlinks workspaceDir w with Ok r => r | Err _ => Path.Clean workspaceDir end in
  match deepest (S (S (String.length dir))) ws dir dir w with
  | Some None => MkdirAll dir 493 w
  | Some (Some e) => (Some e, w)
  | None => (Some (EText "unreachable"), w)
  end.

(** Returns the workspace directory. *)
Definition setWorkspace (dir : string) w : res string * W :=
  match Abs dir w with
  | Err e => (Err (Wrapf ("failed to resolve absolute path for workspace " +:+ Strs.Quote dir) e), w)
  | Ok absDir =>
      let '(e, w) := MkdirAll absDir 493 w in
      match e with
      | Some e => (Err (Wrapf ("failed to create workspace directory " +:+ Strs.Quote absDir) e), w)
      | None => (Ok absDir, w)
      end
  end.

(** The response after a file was written. *)
Definition uploaded (workspaceDir safePath : string) w : reply :=
  match Stat safePath w with
  | Err e => Failure StatusInternalServerError ("Failed to get file info: " +:+ Error e)
  | Ok stat =>
      match Path.Rel workspaceDir safePath with
      | Err e => Failure StatusInternalServerError ("Failed to get relative path: " +:+ Error e)
      | Ok relPath => Uploaded {| Path := relPath; Size := st_Size stat; Mode := st_Mode stat; Modified := st_ModTime stat |}
      end
  end.

Record UploadFileRequest := { up_Path : string; up_Content : string; up_Mode : string }.

(** [bound] is the outcome of [ShouldBindJSON], whose [binding:"required"]
    tags reject an empty path or content. *)
Definition handleJSONBase64Upload (workspaceDir : string) (bound : res UploadFileRequest) w : reply * W :=
  match bound with
  | Err e => (Failure StatusBadRequest (Error e), w)
  | Ok req =>
      match sanitizePath workspaceDir (up_Path req) w with
      | Err e => (Failure StatusBadRequest (Error e), w)
      | Ok safePath =>
          match B64.StdDecode (up_Content req) with
          | None => (Failure StatusBadRequest "Invalid base64 content: illegal base64 data", w)
          | Some decodedContent =>
              let '(e, w) := MkdirAll (Path.Dir safePath) 493 w in
              match e with
              | Some e => (Failure StatusInternalServerError ("Failed to create directory: " +:+ Error e), w)
              | None =>
                  let '(e, w) := WriteFile safePath decodedContent (parseFileMode (up_Mode req)) w in
                  match e with
                  | Some e => (Failure StatusInternalServerError ("Failed to write file: " +:+ Error e), w)
                  | None => (uploaded workspaceDir safePath w, w)
                  end
              end
          end
      end
  end.

(** A parsed multipart form: its fields and the file part, if any, with the
    outcome of opening it. *)
Record Multipart := { mp_path : string; mp_mode : string; mp_file : res (res string) }.

Definition handleMultipartUpload (workspaceDir : string) (form : Multipart) w : reply * W :=
  if String.eqb (mp_path form) "" then (Failure StatusBadRequest "Missing 'path' field", w)
  else
    match mp_file form with
    | Err e => (Failure StatusBadRequest ("Failed to get file: " +:+ Error e), w)
    | Ok src =>
        match sanitizePath workspaceDir (mp_path form) w with
        | Err e => (Failure StatusBadRequest (Error e), w)
        | Ok safePath =>
            let '(e, w) := MkdirAll (Path.Dir safePath) 493 w in
            match e with
            | Some e => (Failure StatusInternalServerError ("Failed to create directory: " +:+ Error e), w)
            | None =>
                match src with
                | Err _ => (Failure StatusInternalServerError "Failed to open uploaded file", w)
                | Ok content =>
                    let '(e, w) := OpenTrunc safePath (parseFileMode (mp_mode form)) w in
                    match e with
                    | Some _ => (Failure StatusInternalServerError "Failed to create destination file", w)
                    | None =>
                        let '(e, w) := CopyTo safePath content w in
                        match e with
                        | Some _ => (Failure StatusInternalServerError "Failed to save file content", w)
                        | None => (uploaded workspaceDir safePath w, w)
                        end
                    end
                end
            end
        end
    end.

Definition UploadFileHandler (workspaceDir contentType : string) (bound : res UploadFileRequest) (form : Multipart) w
    : reply * W :=
  if Strs.HasPrefix contentType "multipart/form-data" then handleMultipartUpload workspaceDir form w
  else handleJSONBase64Upload workspaceDir bound w.

Definition DownloadFileHandler (workspaceDir param : string) w : reply :=
  if String.eqb param "" then Failure StatusBadRequest "Missing file path"
  else
    match sanitizePath workspaceDir (Strs.TrimPrefix param "/") w with
    | Err e => Failure StatusBadRequest (Error e)
    | Ok safePath =>
        match Stat safePath w with
        | Err e =>
            if IsNotExist e then Failure StatusNotFound "File not found"
            else Failure StatusInternalServerError ("Failed to get file info: " +:+ Error e)
        | Ok fileInfo =>
            if st_IsDir fileInfo then Failure StatusBadRequest "Path is a directory, not a file"
            else
              let contentType := TypeByExtension (Path.Ext safePath) in
              Download safePath (if String.eqb contentType "" then "application/octet-stream" else contentType)
                (Path.Base safePath)
        end
    end.

(** Entries whose information cannot be read are skipped. *)
Fixpoint entries (l : list (string * bool * res FileStat)) : list FileEntry :=
  match l with
  | [] => []
  | (name, isDir, Ok info) :: l =>
      {| fe_Name := name; fe_Size := st_Size info; fe_Modified := st_ModTime info; fe_Mode := st_Mode info;
         fe_IsDir := isDir |} :: entries l
  | (_, _, Err _) :: l => entries l
  end.

Definition ListFilesHandler (workspaceDir path : string) w : reply :=
  if String.eqb path "" then Failure StatusBadRequest "Missing 'path' query parameter"
  else
    match sanitizePath workspaceDir path w with
    | Err e => Failure StatusBadRequest (Error e)
    | Ok safePath =>
        match ReadDir safePath w with
        | Err e =>
            if IsNotExist e then Failure StatusNotFound "Directory not found"
            else Failure StatusInternalServerError ("Failed to read directory: " +:+ Error e)
        | Ok l => Listing (entries l)
        end
    end.

End files.
End Picod.
