(* ===== verification/PicodServer.v ===== *)
(** * PicoD: command execution, authentication and the server
    ([pkg/picod/execute.go], [auth.go], [server.go]) *)

From Stdlib Require Import Ascii.
From stdpp Require Import base list gmap strings.
From S2P Require Import Prelude GoStrings GoTime GoError GoContext GoHttp GoEncoding GoPath Cluster WmAuth PicodFiles.

(** [time.ParseDuration] and the rendering of seconds with [%.0f]. *)
Class TimeText := {
  ParseDuration : string -> res Duration;
  Seconds0f : Duration -> string;
}.

(** What is left of a command: output, the exit code of a process that was
    started, the error of [cmd.Run]. *)
Record RunResult := { out : string; errOut : string; state : option Z; runErr : option goerr }.

(** [os/exec]: a run that starts at [start] under a context. *)
Class Exec (W : Type) := {
  Environ : W -> list string;
  cmd_Run : Ctx.Context -> list string -> string -> option (list string) -> W -> RunResult * W;
}.

Module Execute.

Definition newline : string := String "010"%char "".

Definition TimeoutExitCode : Z := 124.

Record ExecuteRequest := {
  Command : list string; Timeout : string; WorkingDir : string; Env_ : list (string * string);
}.

(** Without the elapsed time in floating-point seconds, which is the
    difference of the two instants. *)
Record ExecuteResponse := {
  Stdout : string; Stderr : string; ExitCode : Z; StartTime : Time; EndTime : Time;
}.

Inductive outcome :=
  | Rejected (code : Z) (msg : string)
  | Ran (r : ExecuteResponse).

Section execute.
Context {W : Type} `{!Env W} `{!Files W} `{!Exec W} {TT : TimeText}.
Implicit Types w : W.

(** The working directory: the workspace, or the requested one, created when
    it does not exist. *)
Definition workingDir (workspaceDir requested : string) w : (string + outcome) * W :=
  if String.eqb requested "" then (inl workspaceDir, w)
  else
    match Picod.sanitizePath workspaceDir requested w with
    | Err e => (inr (Rejected StatusBadRequest ("Invalid working directory: " +:+ Error e)), w)
    | Ok safe =>
        match Stat safe w with
        | Err e =>
            if IsNotExist e then
              let '(r, w) := Picod.mkdirSafe workspaceDir safe w in
              match r with
              | Some e => (inr (Rejected StatusInternalServerError ("Failed to create working directory: " +:+ Error e)), w)
              | None => (inl safe, w)
              end
            else (inl safe, w)
        | Ok _ => (inl safe, w)
        end
    end.

Definition environment (env : list (string * string)) w : option (list string) :=
  match env with
  | [] => None
  | _ => Some (Environ w ++ ((fun kv => kv.1 +:+ "=" +:+ kv.2) <$> env))
  end.

(** The exit code and the standard error that are reported. *)
Definition conclude (timedOut : bool) (timeout : Duration) (r : RunResult) : Z * string :=
  if timedOut then (TimeoutExitCode, errOut r +:+ "Command timed out after " +:+ Seconds0f timeout +:+ " seconds")
  else
    match state r with
    | Some code => (code, errOut r)
    | None =>
        (1, errOut r +:+ (if negb (String.eqb (errOut r) "") then newline else "") +:+
            match runErr r with Some e => Error e | None => "" end)
    end.

(** [bound] is the outcome of [ShouldBindJSON]; the order of the map's entries
    is the one in which they are appended. *)
Definition ExecuteHandler (workspaceDir : string) (bound : res ExecuteRequest) w : outcome * W :=
  match bound with
  | Err e => (Rejected StatusBadRequest (Error e), w)
  | Ok req =>
      match Command req with
      | [] => (Rejected StatusBadRequest "command cannot be empty", w)
      | _ =>
          match (if String.eqb (Timeout req) "" then Ok (60 * Tm.Second) else ParseDuration (Timeout req)) with
          | Err e => (Rejected StatusBadRequest ("Invalid timeout format: " +:+ Error e), w)
          | Ok timeoutDuration =>
              let ctx := Ctx.WithTimeout Ctx.Background timeoutDuration (clock w) in
              let '(dir, w) := workingDir workspaceDir (WorkingDir req) w in
              match dir with
              | inr r => (r, w)
              | inl dir =>
                  let start := clock w in
                  let '(r, w) := cmd_Run ctx (Command req) dir (environment (Env_ req) w) w in
                  let timedOut := match Ctx.Err ctx (clock w) with Some e => Is e ctxDeadlineExceeded | None => false end in
                  let '(exitCode, stderr) := conclude timedOut timeoutDuration r in
                  (Ran {| Stdout := out r; Stderr := stderr; ExitCode := exitCode; StartTime := start; EndTime := clock w |}, w)
              end
          end
      end
  end.

End execute.
End Execute.

(** ** Authentication *)

(** [jwt.Parse] with a key function that accepts the given methods, with
    [WithExpirationRequired], [WithIssuedAt] and a leeway. *)
Class PicoJwt (K : Type) `{!JwtLib K} := {
  jwt_ParseLeeway : K -> list string -> Duration -> Time -> string -> res (list (string * json));
}.

Class PicoJwtLaws (K : Type) `{!JwtLib K} `{!PicoJwt K} : Prop := {
  ParseLeeway_sound k ms d now raw claims :
    jwt_ParseLeeway k ms d now raw = Ok claims ->
    exists m, m ∈ ms /\ jwt_signed k m raw claims /\
      exists x e, obj_get "exp" claims = Some (JNum x e) /\ now < Tm.OfUnix (float_to_int64 (x, e)) + d;
  (** what parses without leeway, and was issued no later than the leeway
      allows, parses with it *)
  ParseLeeway_complete k ms d now now' raw claims i :
    jwt_Parse k ms now raw = Ok claims -> 0 <= d -> now' <= now + d ->
    obj_get "iat" claims = Some (JNum i 0) -> Tm.OfUnix i - d <= now' ->
    obj_get "nbf" claims = None ->
    jwt_ParseLeeway k ms d now' raw = Ok claims;
}.

Module PicoAuth.

Definition PublicKeyEnvVar : string := "PICOD_AUTH_PUBLIC_KEY".

(** The methods of [*jwt.SigningMethodRSA]. *)
Definition rsaMethods : list string := ["RS256"; "RS384"; "RS512"].

Inductive verdict := Pass | Reject (code : Z) (error detail : string).

Section auth.
Context {K : Type} `{!KeyFormats K} `{!JwtLib K} `{!PicoJwt K}.

Definition LoadPublicKeyFromEnv (env : string -> string) : res K :=
  let keyData := env PublicKeyEnvVar in
  if String.eqb keyData "" then Err (EText ("environment variable " +:+ PublicKeyEnvVar +:+ " is not set"))
  else
    match pem_Decode keyData with
    | None => Err (EText ("failed to decode PEM block from " +:+ PublicKeyEnvVar))
    | Some block =>
        match ParsePKIXPublicKey block with
        | Err e => Err (Wrapf "failed to parse public key" e)
        | Ok OtherKey => Err (EText "key is not an RSA public key")
        | Ok (RSAKey k) => Ok k
        end
    end.

Definition AuthMiddleware (publicKey : K) (now : Time) (h : Header) : verdict :=
  let authHeader := Hdr.Get "Authorization" h in
  if String.eqb authHeader "" then
    Reject StatusUnauthorized "Missing Authorization header" "Request requires JWT authentication"
  else
    match Strs.Split " " authHeader with
    | [scheme; tokenString] =>
        if negb (String.eqb scheme "Bearer") then
          Reject StatusUnauthorized "Invalid Authorization header format" "Use Bearer <token>"
        else
          match jwt_ParseLeeway publicKey rsaMethods Tm.Minute now tokenString with
          | Err e => Reject StatusUnauthorized "Invalid token" ("JWT verification failed: " +:+ Error e)
          | Ok _ => Pass
          end
    | _ => Reject StatusUnauthorized "Invalid Authorization header format" "Use Bearer <token>"
    end.

End auth.
End PicoAuth.

(** ** The server *)

Module PicoServer.

Definition MaxBodySize : Z := 32 * 2 ^ 20.

Record Config := { Port : Z; Workspace : string }.

(** The request body: what the declared length and the transferred bytes are. *)
Record Body := { ContentLength : Z; transferred : Z }.

(** [maxBodySizeMiddleware]: refused by its declared length, or cut by
    [http.MaxBytesReader] when it is read. *)
Inductive body_verdict := TooLarge | ReadFails | Readable.

Definition maxBodySizeMiddleware (b : Body) : body_verdict :=
  if MaxBodySize <? ContentLength b then TooLarge
  else if MaxBodySize <? transferred b then ReadFails else Readable.

(** [authManager] is the key it has loaded; the engine is [route]. *)
Record Server (K : Type) := {
  config : Config;
  authManager : K;
  startTime : Time;
  workspaceDir : string;
}.
Arguments config {K}. Arguments authManager {K}. Arguments startTime {K}. Arguments workspaceDir {K}.

Section server.
Context {W K : Type} `{!Env W} `{!Files W} `{!KeyFormats K}.
Implicit Types w : W.

(** [klog.Fatalf] is an error. *)
Definition NewServer (cfg : Config) (env : string -> string) w : res (Server K) * W :=
  let startTime := clock w in
  match (if String.eqb (Workspace cfg) "" then Getwd w else Ok (Workspace cfg)) with
  | Err e => (Err (Wrapf "Failed to get current working directory" e), w)
  | Ok dir =>
      let '(ws, w) := Picod.setWorkspace dir w in
      match ws with
      | Err e => (Err (Wrapf "Failed to initialize workspace" e), w)
      | Ok ws =>
          match PicoAuth.LoadPublicKeyFromEnv env with
          | Err e => (Err (Wrapf "Failed to load public key from environment" e), w)
          | Ok k => (Ok {| config := cfg; authManager := k; startTime := startTime; workspaceDir := ws |}, w)
          end
      end
  end.

End server.

(** A request: the path split at its slashes, the query parameter [path], and
    what the binding of its body gives. *)
Record Request := {
  method : string; segments : list string; queryPath : string; body : Body; header : Header; contentType : string;
  boundExecute : res Execute.ExecuteRequest; boundUpload : res Picod.UploadFileRequest; form : Picod.Multipart;
}.

(** The calls of the [/api] group. *)
Inductive api_call :=
  | CallExecute (bound : res Execute.ExecuteRequest)
  | CallUpload (contentType : string) (bound : res Picod.UploadFileRequest) (form : Picod.Multipart)
  | CallList (path : string)
  | CallDownload (param : string).

Inductive api_reply :=
  | BodyTooLarge
  | Unauthorized (code : Z) (error detail : string)
  | OfExecute (o : Execute.outcome)
  | OfFiles (r : Picod.reply)
  | Health (fields : list (string * string)).

(** The routes of the group, after [/api]; [*path] takes the slash in front of
    it. *)
Definition api_route (r : Request) (rest : list string) : option api_call :=
  match rest with
  | [] => None
  | [x] =>
      if String.eqb x "execute" && String.eqb (method r) "POST" then Some (CallExecute (boundExecute r))
      else if String.eqb x "files" then
        if String.eqb (method r) "POST" then Some (CallUpload (contentType r) (boundUpload r) (form r))
        else if String.eqb (method r) "GET" then Some (CallList (queryPath r))
        else None
      else None
  | x :: path =>
      if String.eqb x "files" && String.eqb (method r) "GET" then Some (CallDownload ("/" +:+ Strs.Join path "/")) else None
  end.

Section serve.
Context {W K : Type} `{!Env W} `{!Files W} `{!Exec W} {TT : TimeText} `{!KeyFormats K} `{!JwtLib K} `{!PicoJwt K}.
Implicit Types (w : W) (s : Server K).

(** The handlers. *)
Definition dispatch (dir : string) (call : api_call) w : api_reply * W :=
  match call with
  | CallExecute bound => let '(o, w) := Execute.ExecuteHandler dir bound w in (OfExecute o, w)
  | CallUpload ct bound form => let '(r, w) := Picod.UploadFileHandler dir ct bound form w in (OfFiles r, w)
  | CallList path => (OfFiles (Picod.ListFilesHandler dir path w), w)
  | CallDownload param => (OfFiles (Picod.DownloadFileHandler dir param w), w)
  end.

(** A request of the [/api] group, behind the middleware. *)
Definition serve_api s (h : Header) (call : api_call) w : api_reply * W :=
  match PicoAuth.AuthMiddleware (authManager s) (clock w) h with
  | PicoAuth.Reject code error detail => (Unauthorized code error detail, w)
  | PicoAuth.Pass => dispatch (workspaceDir s) call w
  end.

Definition HealthCheckHandler s (now : Time) : list (string * string) :=
  [("status", "ok"); ("service", "PicoD"); ("version", "0.0.1"); ("uptime", Tm.String_ (Tm.Sub now (startTime s)))].

(** The size limit is in front of every route; [None] when none matches and the
    framework answers. *)
Definition route s (r : Request) w : option (api_reply * W) :=
  let limited (k : api_reply * W) := match maxBodySizeMiddleware (body r) with TooLarge => (BodyTooLarge, w) | _ => k end in
  match segments r with
  | [] => None
  | group :: rest =>
      if String.eqb group "api" then
        match api_route r rest with
        | Some call => Some (limited (serve_api s (header r) call w))
        | None => None
        end
      else if String.eqb group "health" && bool_decide (rest = []) && String.eqb (method r) "GET"
      then Some (limited (Health (HealthCheckHandler s (clock w)), w))
      else None
  end.

End serve.
End PicoServer.
