(* ===== verification/PicodTheorems.v ===== *)
(** * Properties of PicoD: the workspace jail and command execution *)

From Stdlib Require Import Ascii.
From stdpp Require Import base list gmap strings.
From S2P Require Import Prelude GoStrings GoTime GoError GoContext GoHttp GoEncoding GoPath Cluster WmAuth PicodFiles PicodServer.
Import Path.

(** [EvalSymlinks] of an absolute path is an absolute clean path. *)
Class FilesLaws (W : Type) `{!Files W} : Prop := {
  EvalSymlinks_abs p w r : IsAbs p = true -> EvalSymlinks p w = Ok r -> IsAbs r = true /\ Clean r = r;
}.

(** ** Paths *)

Lemma IsAbs_Clean p : IsAbs p = true -> IsAbs (Clean p) = true.
Proof. intros H. destruct (Clean_abs p H) as [-> _]. apply IsAbs_slash. Qed.

Lemma IsAbs_append a b : IsAbs a = true -> IsAbs (a +:+ b) = true.
Proof. unfold IsAbs, Strs.HasPrefix. intros [r ->]%Strs.prefix_spec. rewrite Strs.append_assoc. apply Strs.prefix_append. Qed.

Lemma IsAbs_Join a b : IsAbs a = true -> IsAbs (Join a b) = true.
Proof.
  intros Ha. unfold Join. destruct (String.eqb_spec a "") as [->|_]; [done|]. by apply IsAbs_Clean, IsAbs_append.
Qed.

Lemma candidate_abs ws p : IsAbs ws = true -> IsAbs (Picod.candidate ws p) = true /\ Clean (Picod.candidate ws p) = Picod.candidate ws p.
Proof.
  intros H. unfold Picod.candidate. cbv zeta. set (c := if IsAbs (Clean p) then _ else _).
  pose proof (IsAbs_Join ws c H) as Hj. split; [by apply IsAbs_Clean|by apply Clean_Clean].
Qed.

(** [Rel] of a path that extends the base. *)
Lemma strip_common_app a b : strip_common a (a ++ b) = ([], b).
Proof. induction a as [|x a IH]; [done|]. cbn. by rewrite String.eqb_refl. Qed.

Lemma proper_not_escapes cs : Forall proper cs -> escapes (slash cs) = false.
Proof.
  destruct cs as [|c cs]; [done|]. intros [(_ & _ & Hd & Hf) _]%Forall_cons. unfold escapes. apply orb_false_iff.
  split.
  - destruct (Strs.HasPrefix (slash (c :: cs)) "../") eqn:H; [|done]. exfalso. apply Strs.prefix_spec in H as [r Hr].
    assert (exists t, c +:+ t = ".." +:+ String "/" r /\ (t = "" \/ exists t', t = String "/" t')) as (t & Ht & Hor).
    { destruct cs as [|d cs]; [exists ""; rewrite Strs.append_nil_r; auto|].
      exists (String "/" (slash (d :: cs))). split; [exact Hr|eauto]. }
    destruct Hor as [->|[t' ->]].
    + rewrite Strs.append_nil_r in Ht. subst. by cbn in Hf.
    + apply Strs.free_append_inj in Ht as [Hc _]; done.
  - apply String.eqb_neq. intros He. destruct cs as [|d cs].
    + cbn in He. done.
    + change (slash (c :: d :: cs)) with (c +:+ String "/" (slash (d :: cs))) in He.
      assert (Strs.free_of "/" ".." = false); [|done]. rewrite <- He. clear.
      induction c as [|x c IH]; [done|]. rewrite Strs.append_cons. cbn [Strs.free_of]. rewrite IH. by destruct (negb _).
Qed.

Lemma Rel_extends base targ cs :
  IsAbs base = true -> IsAbs targ = true -> norm targ = norm base ++ cs ->
  exists rel, Rel base targ = Ok rel /\ escapes rel = false.
Proof.
  intros Hb Ht Hn. unfold Rel. destruct (String.eqb (Clean base) (Clean targ)); [by exists "."|].
  rewrite (IsAbs_Clean base Hb), (IsAbs_Clean targ Ht). cbn [xorb].
  destruct (Clean_abs base Hb) as [_ ->]. destruct (Clean_abs targ Ht) as [_ ->]. rewrite Hn, strip_common_app.
  exists (slash cs). split; [done|]. apply proper_not_escapes.
  pose proof (norm_proper targ) as Hp. rewrite Hn in Hp. by apply Forall_app in Hp as [_ ?].
Qed.

Lemma Split_append sep a b : Strs.Split sep (a +:+ String sep b) = Strs.Split sep a ++ Strs.Split sep b.
Proof.
  induction a as [|c a IH]; [rewrite Strs.append_nil_l; cbn [Strs.Split]; by rewrite Ascii.eqb_refl|]. rewrite Strs.append_cons. cbn [Strs.Split].
  destruct (Ascii.eqb c sep); [by rewrite IH|]. rewrite IH.
  pose proof (Strs.Split_nonempty sep a). by destruct (Strs.Split sep a).
Qed.

Lemma clean_comps_app xs ys acc :
  clean_comps true (xs ++ ys) acc = clean_comps true ys (rev (clean_comps true xs acc)).
Proof.
  revert acc. induction xs as [|c xs IH]; intros acc; cbn [app clean_comps]; [by rewrite rev_involutive|].
  destruct (_ || _); [done|]. destruct (String.eqb c ".."); [|done]. by destruct acc.
Qed.

Lemma norm_join a cs : Forall proper cs -> norm (a +:+ String "/" (slash cs)) = norm a ++ cs.
Proof.
  intros H. unfold norm. rewrite Split_append, clean_comps_app. fold (norm a).
  destruct cs as [|c cs]; [cbn; by rewrite rev_involutive, app_nil_r|].
  rewrite Split_slash by (done || by apply proper_free). by rewrite clean_comps_proper, rev_involutive.
Qed.

(** An absolute request is taken from the root of the workspace. *)
Lemma candidate_rooted ws p : IsAbs ws = true -> IsAbs p = true ->
  norm (Picod.candidate ws p) = norm ws ++ norm p.
Proof.
  intros Hw Hp. unfold Picod.candidate. cbv zeta. rewrite (IsAbs_Clean p Hp). destruct (Clean_abs p Hp) as [-> _].
  change ("/" +:+ slash (norm p)) with ("/" +:+ slash (norm p)). rewrite Strs.TrimPrefix_append.
  pose proof (IsAbs_Join ws (slash (norm p)) Hw) as Hj. rewrite norm_Clean by done. unfold Join in *.
  destruct (String.eqb_spec ws "") as [->|_]; [done|]. change ("/" +:+ slash (norm p)) with (String "/" (slash (norm p))).
  rewrite norm_Clean by (by apply IsAbs_append). apply norm_join, norm_proper.
Qed.

Lemma workspace_abs {W} `{!Files W} `{!FilesLaws W} ws (w : W) :
  IsAbs ws = true -> IsAbs (Picod.resolvedWorkspace ws w) = true.
Proof.
  intros H. unfold Picod.resolvedWorkspace, Picod.Abs. rewrite H. apply IsAbs_Clean.
  destruct (EvalSymlinks ws w) as [r|] eqn:He; [by apply (EvalSymlinks_abs ws w r H He)|by apply IsAbs_Clean].
Qed.

(** [C6] The path the jail hands out lies inside the resolved workspace: it is
    absolute and extends the components of the workspace, whatever the request
    contains; when the named place exists it is the place itself with every
    link resolved, and when it does not it is the lexical candidate. A request
    for an absolute path that does not exist yet is never refused, it is taken
    from the root of the workspace. *)
Theorem sanitize_jail {W : Type} `{!Files W} `{!FilesLaws W} (ws p : string) (w : W) :
  IsAbs ws = true ->
  let rw := Picod.resolvedWorkspace ws w in
  (forall q, Picod.sanitizePath ws p w = Ok q ->
     IsAbs q = true /\ inside rw q /\
     match EvalSymlinks (Picod.candidate rw p) w with
     | Ok final => q = final
     | Err _ => q = Picod.candidate rw p
     end) /\
  (IsAbs p = true -> forall e, EvalSymlinks (Picod.candidate rw p) w = Err e ->
     exists q, Picod.sanitizePath ws p w = Ok q /\ norm q = norm rw ++ norm p).
Proof.
  intros Hw. cbv zeta. pose proof (workspace_abs ws w Hw) as Hrw. set (rw := Picod.resolvedWorkspace ws w) in *.
  destruct (candidate_abs rw p Hrw) as [Hc _]. unfold Picod.sanitizePath. fold rw.
  assert (String.eqb ws "" = false) as -> by (by destruct ws). split.
  - intros q. destruct (Rel rw (Picod.candidate rw p)) as [rel|] eqn:Hr; [|done].
    destruct (escapes rel) eqn:He; [done|]. pose proof (Rel_inside _ _ _ Hrw Hc Hr He) as Hin.
    destruct (EvalSymlinks (Picod.candidate rw p) w) as [final|] eqn:Hs; [|by intros [= <-]].
    destruct (EvalSymlinks_abs _ w final Hc Hs) as [Hf _].
    destruct (Rel rw final) as [rel'|] eqn:Hr'; [|done]. destruct (escapes rel') eqn:He'; [done|]. intros [= <-].
    split_and!; [done|by apply (Rel_inside _ _ _ Hrw Hf Hr')|done].
  - intros Hp e Hs. destruct (Rel_extends rw (Picod.candidate rw p) (norm p) Hrw Hc (candidate_rooted rw p Hrw Hp))
      as (rel & -> & ->). rewrite Hs. exists (Picod.candidate rw p). split; [done|]. by apply candidate_rooted.
Qed.

(** ** Creation of directories *)

(** The absolute path of a list of components. *)
Definition at_ (cs : list string) : string := "/" +:+ slash cs.

Lemma upto_slash_app a c : Strs.free_of "/" c = true -> upto_slash (a +:+ String "/" c) = a +:+ "/".
Proof.
  intros Hc. assert (upto_slash c = "") as Hu.
  { induction c as [|x c IH]; [done|]. cbn in Hc. apply andb_true_iff in Hc as [Hx Hc]. cbn [upto_slash]. rewrite IH by done.
    cbn. by destruct (Ascii.eqb x "/"). }
  induction a as [|x a IH].
  - rewrite Strs.append_nil_l. cbn [upto_slash]. by rewrite Hu.
  - rewrite Strs.append_cons. cbn [upto_slash]. rewrite IH. by destruct a.
Qed.

Lemma slash_snoc cs c : cs <> [] -> slash (cs ++ [c]) = slash cs +:+ String "/" c.
Proof.
  induction cs as [|d [|e cs] IH]; intros Hne; [done|done|].
  change (slash ((d :: e :: cs) ++ [c])) with (d +:+ String "/" (slash ((e :: cs) ++ [c]))). rewrite IH by done.
  change (slash (d :: e :: cs)) with (d +:+ String "/" (slash (e :: cs))).
  by rewrite Strs.append_assoc, Strs.append_cons.
Qed.

Lemma norm_at cs : Forall proper cs -> norm (at_ cs) = cs.
Proof. apply norm_rooted. Qed.

Lemma Dir_snoc cs c : Forall proper (cs ++ [c]) -> Dir (at_ (cs ++ [c])) = at_ cs.
Proof.
  intros [Hcs [(_ & _ & _ & Hc) _]%Forall_cons]%Forall_app.
  assert (exists A, at_ (cs ++ [c]) = A +:+ String "/" c /\ norm A = cs /\ IsAbs (A +:+ "/") = true) as (A & -> & HA & Habs).
  { destruct cs as [|d cs]; [by exists ""|]. exists (at_ (d :: cs)).
    unfold at_ at 1. rewrite slash_snoc by done. split; [by unfold at_; rewrite Strs.append_assoc|].
    split; [by apply norm_at|apply IsAbs_append, IsAbs_slash]. }
  unfold Dir. rewrite upto_slash_app by done. destruct (Clean_abs _ Habs) as [-> _]. unfold at_. do 2 f_equal.
  change "/" with (String "/" (slash [])). rewrite norm_join by done. by rewrite HA, app_nil_r.
Qed.

Lemma length_slash cs : Forall proper cs -> (length cs <= String.length (slash cs))%nat.
Proof.
  induction 1 as [|c [|d cs] (Hc & _) Hcs IH]; [done|destruct c; [done|cbn; lia]|].
  change (slash (c :: d :: cs)) with (c +:+ String "/" (slash (d :: cs))).
  assert (forall a b, String.length (a +:+ b) = (String.length a + String.length b)%nat) as Hl.
  { intros a b. induction a as [|x a IHa]; [done|]. rewrite Strs.append_cons. cbn. by rewrite IHa. }
  rewrite Hl. cbn in *. lia.
Qed.

(** The walk has enough fuel, and where it stops: at an ancestor that exists
    and resolves into the workspace, or with nothing on the way existing. *)
Lemma deepest_spec {W} `{!Files W} ws dir (w : W) fuel cs :
  Forall proper cs -> (length cs < fuel)%nat ->
  match Picod.deepest fuel ws dir (at_ cs) w with
  | None => False
  | Some (Some _) => True
  | Some None =>
      exists pre post, cs = pre ++ post /\
        (forall post1 post2, post = post1 ++ post2 -> post1 <> [] -> exists e, Lstat (at_ (pre ++ post1)) w = Err e) /\
        ((exists st r rel, Lstat (at_ pre) w = Ok st /\ EvalSymlinks (at_ pre) w = Ok r /\ Rel ws r = Ok rel /\
            escapes rel = false) \/
         (pre = [] /\ exists e, Lstat "/" w = Err e))
  end.
Proof.
  revert cs. induction fuel as [|fuel IH]; intros cs Hcs Hf; [lia|]. cbn [Picod.deepest].
  destruct (Lstat (at_ cs) w) as [st|e] eqn:Hl.
  - destruct (EvalSymlinks (at_ cs) w) as [r|] eqn:Hs; [|done]. destruct (Rel ws r) as [rel|] eqn:Hr; [|done].
    destruct (escapes rel) eqn:He; [done|]. exists cs, []. split; [by rewrite app_nil_r|]. split; [|left; eauto 8].
    intros post1 post2 Hp Hne. symmetry in Hp. by apply app_eq_nil in Hp as [? _].
  - destruct cs as [|c0 cs0 _] using rev_ind.
    + change (Dir (at_ [])) with "/". change (at_ []) with "/". change (String.eqb "/" "/") with true. cbv iota.
      exists [], []. split; [done|]. split; [|right; eauto]. intros post1 post2 Hp Hne. symmetry in Hp. by apply app_eq_nil in Hp as [? _].
    + rewrite (Dir_snoc cs0 c0 Hcs). destruct (String.eqb_spec (at_ cs0) (at_ (cs0 ++ [c0]))) as [Heq|_].
      { apply (f_equal norm) in Heq. rewrite norm_at, norm_at in Heq; [|done|by apply Forall_app in Hcs as [? _]].
        apply (f_equal length) in Heq. rewrite length_app in Heq. cbn in Heq. lia. }
      pose proof Hcs as [Hcs0 _]%Forall_app. rewrite length_app in Hf. cbn in Hf.
      specialize (IH cs0 Hcs0 ltac:(lia)). destruct (Picod.deepest fuel ws dir (at_ cs0) w) as [[|]|]; [done| |done].
      destruct IH as (pre & post & -> & Hn & Hor). exists pre, (post ++ [c0]). split; [by rewrite app_assoc|].
      split; [|done]. intros post1 post2 Hp Hne.
      destruct post2 as [|x post2 _] using rev_ind.
      * rewrite app_nil_r in Hp. subst. rewrite app_assoc. eauto.
      * rewrite app_assoc in Hp. apply app_inj_tail in Hp as [Hp _]. by apply (Hn post1 post2).
Qed.

(** A directory may be created at [dir]: the part of it that exists resolves
    into the workspace, the rest does not exist. *)
Definition creatable {W} `{!Files W} (rw dir : string) (w : W) : Prop :=
  exists pre post, norm dir = pre ++ post /\
    (forall post1 post2, post = post1 ++ post2 -> post1 <> [] -> exists e, Lstat (at_ (pre ++ post1)) w = Err e) /\
    ((exists r, EvalSymlinks (at_ pre) w = Ok r /\ inside rw r) \/ (pre = [] /\ exists e, Lstat "/" w = Err e)).

Lemma mkdirSafe_spec {W} `{!Files W} `{!FilesLaws W} ws dir (w : W) r w' :
  IsAbs ws = true -> IsAbs dir = true -> Clean dir = dir -> Picod.mkdirSafe ws dir w = (r, w') ->
  (MkdirAll dir 493 w = (r, w') /\ creatable (Picod.resolvedWorkspace ws w) dir w) \/ (r <> None /\ w' = w).
Proof.
  intros Hw Hd Hcl. unfold Picod.mkdirSafe. set (ws' := match EvalSymlinks ws w with Ok _ => _ | Err _ => _ end).
  assert (IsAbs ws' = true /\ norm ws' = norm (Picod.resolvedWorkspace ws w)) as [Hab Hn].
  { unfold ws', Picod.resolvedWorkspace, Picod.Abs. rewrite Hw. destruct (EvalSymlinks ws w) as [q|] eqn:He.
    - destruct (EvalSymlinks_abs _ _ _ Hw He) as [Hq _]. split; [done|]. by rewrite norm_Clean.
    - split; [by apply IsAbs_Clean|]. by rewrite !norm_Clean by (done || by apply IsAbs_Clean). }
  assert (dir = at_ (norm dir)) as Hat by (rewrite <- Hcl at 1; by apply Clean_abs).
  pose proof (deepest_spec ws' dir w (S (S (String.length dir))) (norm dir) (norm_proper dir)) as Hs.
  assert (length (norm dir) < S (S (String.length dir)))%nat as Hlen.
  { pose proof (length_slash (norm dir) (norm_proper dir)). assert (String.length dir = S (String.length (slash (norm dir)))) by (by rewrite Hat at 1). lia. }
  specialize (Hs Hlen). rewrite <- Hat in Hs.
  destruct (Picod.deepest _ ws' dir dir w) as [[e|]|]; [intros [= <- <-]; by right| |done].
  intros Hm. left. split; [done|]. destruct Hs as (pre & post & Hsp & Hno & Hor). exists pre, post.
  split; [done|]. split; [done|]. destruct Hor as [(st & q & rel & _ & Hq & Hrel & Hesc)|Hor]; [left|by right].
  exists q. split; [done|]. destruct (EvalSymlinks_abs (at_ pre) w q (IsAbs_slash _) Hq) as [Hqa _].
  destruct (Rel_inside _ _ _ Hab Hqa Hrel Hesc) as [cs Hin]. exists cs. by rewrite <- Hn.
Qed.

(** Where a command runs. *)
Definition confined {W} `{!Files W} (ws requested dir : string) (w w1 : W) : Prop :=
  (requested = "" /\ dir = ws /\ w1 = w) \/
  (requested <> "" /\ IsAbs dir = true /\ inside (Picod.resolvedWorkspace ws w) dir /\
   (w1 = w \/ (MkdirAll dir 493 w = (None, w1) /\ creatable (Picod.resolvedWorkspace ws w) dir w))).

Lemma workingDir_confined {W} `{!Env W} `{!Files W} `{!FilesLaws W} `{!Exec W} {TT : TimeText} ws requested (w : W) dir w1 :
  IsAbs ws = true -> Execute.workingDir ws requested w = (inl dir, w1) -> confined ws requested dir w w1.
Proof.
  intros Hw. unfold Execute.workingDir. destruct (String.eqb_spec requested "") as [->|Hne].
  { intros [= <- <-]. by left. }
  destruct (Picod.sanitizePath ws requested w) as [safe|] eqn:Hs; [|done].
  assert (IsAbs safe = true /\ inside (Picod.resolvedWorkspace ws w) safe /\ Clean safe = safe) as (Ha & Hin & Hcl).
  { pose proof (workspace_abs ws w Hw) as Hrw. destruct (candidate_abs _ requested Hrw) as [Hca Hcc].
    revert Hs. unfold Picod.sanitizePath. assert (String.eqb ws "" = false) as -> by (by destruct ws).
    destruct (Rel _ (Picod.candidate _ requested)) as [rel|] eqn:Hr; [|done]. destruct (escapes rel) eqn:He; [done|].
    destruct (EvalSymlinks (Picod.candidate _ requested) w) as [final|] eqn:Hf.
    - destruct (EvalSymlinks_abs _ w final Hca Hf) as [Hfa Hfc].
      destruct (Rel _ final) as [rel'|] eqn:Hr'; [|done]. destruct (escapes rel') eqn:He'; [done|]. intros [= <-].
      split_and!; [done| |done]. by apply (Rel_inside _ _ rel').
    - intros [= <-]. split_and!; [done| |done]. by apply (Rel_inside _ _ rel). }
  intros H. right. split; [done|]. revert H. destruct (Stat safe w) as [st|e]; [intros [= <- <-]; auto|].
  destruct (IsNotExist e); [|intros [= <- <-]; auto].
  destruct (Picod.mkdirSafe ws safe w) as [[e'|] w2] eqn:Hm; [done|]. intros [= <- <-].
  split_and!; [done|done|]. destruct (mkdirSafe_spec ws safe w None w2 Hw Ha Hcl Hm) as [H|[? _]]; [by right|done].
Qed.

