(* ===== verification/PicodWorld.v ===== *)
(** * A concrete file system and process runner for PicoD

    A tree of directories, files and symbolic links with the resolution of
    POSIX: links in the middle of a path, and in last position where the call
    follows them, are replaced by their target. *)

From Stdlib Require Import Ascii.
From stdpp Require Import base list gmap strings.
From S2P Require Import Prelude GoStrings GoTime GoError GoContext GoHttp GoEncoding GoPath Cluster WmAuth RouterAuth RouterJwt JwtModel RouterSession RouterHandlers RouterTheorems RouterWorld RouterTheorems3 PicodFiles PicodServer PicodTheorems.

Module PW.
Import Path.

Inductive node := NDir | NFile (content : string) (mode : Z) | NLink (target : string).

Record world := { fs : gmap (list string) node; now : Time; ran : list (list string * string) }.

Definition lookup_node (w : world) (cs : list string) : option node :=
  match cs with [] => Some NDir | _ => fs w !! cs end.

Definition put (cs : list string) (n : node) (w : world) : world :=
  {| fs := <[cs := n]> (fs w); now := now w; ran := ran w |}.

(** [walk fuel cur rest]: the place that [rest] names from the directory [cur];
    every step uses fuel. *)
Fixpoint walk (w : world) (fuel : nat) (cur rest : list string) : option (list string) :=
  match fuel with
  | O => None
  | S fuel =>
      match rest with
      | [] => Some cur
      | c :: rest =>
          if String.eqb c ".." then walk w fuel (take (pred (length cur)) cur) rest
          else
            match lookup_node w (cur ++ [c]) with
            | Some NDir => walk w fuel (cur ++ [c]) rest
            | Some (NFile _ _) => match rest with [] => walk w fuel (cur ++ [c]) [] | _ => None end
            | Some (NLink t) => walk w fuel (if IsAbs t then [] else cur) (comps t ++ rest)
            | None => None
            end
      end
  end.

Definition limit : nat := 255.

#[export] Instance proper_dec c : Decision (proper c).
Proof. unfold proper. apply _. Defined.

Definition resolve (p : string) (w : world) : option (list string) :=
  match walk w limit [] (comps p) with
  | Some cs => if bool_decide (Forall proper cs) then Some cs else None
  | None => None
  end.

(** The directory of a path resolved, its last component not. *)
Definition resolve_last (p : string) (w : world) : option (list string) :=
  match last (comps p) with
  | None => Some []
  | Some c => match walk w limit [] (take (pred (length (comps p))) (comps p)) with
              | Some d => Some (d ++ [c])
              | None => None
              end
  end.

(** Where a file that is written ends up. *)
Definition locate (p : string) (w : world) : option (list string) :=
  match resolve_last p w with
  | Some cs => match lookup_node w cs with
               | Some (NLink _) => resolve p w
               | _ => Some cs
               end
  | None => None
  end.

(** Creation of the missing directories along a path. *)
Fixpoint mkdirs (fuel : nat) (cur rest : list string) (w : world) : option world :=
  match fuel with
  | O => None
  | S fuel =>
      match rest with
      | [] => Some w
      | c :: rest =>
          match lookup_node w (cur ++ [c]) with
          | Some NDir => mkdirs fuel (cur ++ [c]) rest w
          | Some (NFile _ _) => None
          | Some (NLink t) => mkdirs fuel (if IsAbs t then [] else cur) (comps t ++ rest) w
          | None => mkdirs fuel (cur ++ [c]) rest (put (cur ++ [c]) NDir w)
          end
      end
  end.

Definition missing : goerr := EText "no such file or directory".

Definition stat_of (n : node) : FileStat :=
  match n with
  | NDir => {| st_Size := 4096; st_Mode := "drwxr-xr-x"; st_ModTime := 0; st_IsDir := true |}
  | NFile c _ => {| st_Size := Z.of_nat (String.length c); st_Mode := "-rw-r--r--"; st_ModTime := 0; st_IsDir := false |}
  | NLink t => {| st_Size := Z.of_nat (String.length t); st_Mode := "Lrwxrwxrwx"; st_ModTime := 0; st_IsDir := false |}
  end.

(** Writing a file: it is created with a mode, or truncated and keeps its own. *)
Definition write (p content : string) (mode : Z) (w : world) : option goerr * world :=
  match locate p w with
  | Some cs =>
      match lookup_node w cs with
      | Some NDir => (Some (EText "is a directory"), w)
      | Some (NLink _) => (Some (EText "too many levels of symbolic links"), w)
      | n =>
          let w' := put cs (NFile content (match n with Some (NFile _ m) => m | _ => mode end)) w in
          if bool_decide (resolve p w' = Some cs) then (None, w')
          else (Some (EText "too many levels of symbolic links"), w)
      end
  | None => (Some missing, w)
  end.

#[export] Instance files : Files world := {
  EvalSymlinks p w := match resolve p w with Some cs => Ok (at_ cs) | None => Err missing end;
  Lstat p w := match resolve_last p w ≫= lookup_node w with Some n => Ok (stat_of n) | None => Err missing end;
  Stat p w := match resolve p w ≫= lookup_node w with Some n => Ok (stat_of n) | None => Err missing end;
  MkdirAll p _ w := match mkdirs limit [] (comps p) w with Some w' => (None, w') | None => (Some (EText "not a directory"), w) end;
  WriteFile := write;
  OpenTrunc p m := write p "" m;
  CopyTo p c := write p c 420;
  ReadDir p w :=
    match resolve p w with
    | Some d => Ok (omap (fun '(cs, n) =>
        match last cs with
        | Some c => if bool_decide (cs = d ++ [c]) then Some (c, st_IsDir (stat_of n), Ok (stat_of n)) else None
        | None => None
        end) (map_to_list (fs w)))
    | None => Err missing
    end;
  ReadFile p w := match resolve p w ≫= lookup_node w with Some (NFile c _) => Ok c | _ => Err missing end;
  Getwd _ := Ok "/ws";
  IsNotExist e := String.eqb (Error e) "no such file or directory";
  TypeByExtension _ := "";
}.

#[export] Instance files_laws : FilesLaws world.
Proof.
  split. cbn. unfold resolve. intros p w r _. destruct (walk w limit [] (comps p)) as [cs|]; [|done].
  destruct (bool_decide_reflect (Forall proper cs)) as [Hp|Hp]; [|done]. intros [= <-]. split; [apply IsAbs_slash|].
  destruct (Clean_abs (at_ cs) (IsAbs_slash _)) as [-> _]. by rewrite norm_at.
Qed.

#[export] Instance env : Env world := {
  clock := now;
  Intn _ w := (0, w);
  NewUUID w := ("uuid", w);
  select_timer _ t w := (true, w);
  select_after _ d w := (true, w);
  select_ready _ _ _ w := (ChanClosed, w);
}.

(** A command prints its name and succeeds one second later. *)
#[export] Instance exec : Exec world := {
  Environ _ := ["HOME=/ws"];
  cmd_Run _ argv dir _ w :=
    ({| out := default "" (head argv); errOut := ""; state := Some 0; runErr := None |},
     {| fs := fs w; now := now w + Tm.Second; ran := (argv, dir) :: ran w |});
}.

#[export] Instance time_text : TimeText := {
  ParseDuration s := if String.eqb s "5s" then Ok (5 * Tm.Second) else Err (EText "invalid duration");
  Seconds0f d := Strs.Itoa (d / Tm.Second);
}.

(** The workspace [/ws] holds a link to the directory [/outside]. *)
Definition world0 : world :=
  {| fs := {[ ["ws"] := NDir; ["outside"] := NDir; ["ws"; "link"] := NLink "/outside" ]};
     now := Tm.OfUnix 1700000000; ran := [] |}.

End PW.

Import PW.

Lemma sanitize_jail_witness :
  Picod.sanitizePath "/ws" "../etc/../ws/a.txt" world0 = Ok "/ws/a.txt" /\ Path.inside (Picod.resolvedWorkspace "/ws" world0) "/ws/a.txt".
Proof.
  assert (Picod.sanitizePath "/ws" "../etc/../ws/a.txt" world0 = Ok "/ws/a.txt") as H by (vm_compute; reflexivity).
  split; [exact H|]. exact (proj1 (proj2 (proj1 (sanitize_jail "/ws" "../etc/../ws/a.txt" world0 eq_refl) _ H))).
Defined.

Definition run_ls : Execute.ExecuteRequest :=
  {| Execute.Command := ["ls"]; Execute.Timeout := "5s"; Execute.WorkingDir := "sub"; Execute.Env_ := [] |}.


(** ** Links in the path of a new file *)

Definition upload_via (path : string) : Picod.UploadFileRequest :=
  {| Picod.up_Path := path; Picod.up_Content := "aGVsbG8="; Picod.up_Mode := "" |}.

(** The upload handlers do not keep new files inside the workspace when a
    directory on the way is a link: with a link in the workspace to a directory
    outside, which any executed command may create, uploading a new file below
    the link is accepted and the content is written outside, although the jail
    reports a path inside; creating a working directory at the same place is
    refused, since that path is checked again after resolution. *)
Theorem upload_follows_link :
  Picod.sanitizePath "/ws" "link/sub/new.txt" world0 = Ok "/ws/link/sub/new.txt" /\
  (exists f w', Picod.handleJSONBase64Upload "/ws" (Ok (upload_via "link/sub/new.txt")) world0 = (Picod.Uploaded f, w') /\
     fs w' !! ["outside"; "sub"; "new.txt"] = Some (NFile "hello" 420) /\
     fs w' !! ["ws"; "link"; "sub"; "new.txt"] = None) /\
  (exists e, Picod.mkdirSafe "/ws" "/ws/link/sub" world0 = (Some e, world0)).
Proof.
  split; [vm_compute; reflexivity|]. split; [|eexists; vm_compute; reflexivity].
  assert (match Picod.handleJSONBase64Upload "/ws" (Ok (upload_via "link/sub/new.txt")) world0 with
    | (Picod.Uploaded _, w') =>
        match fs w' !! ["outside"; "sub"; "new.txt"], fs w' !! ["ws"; "link"; "sub"; "new.txt"] with
        | Some (NFile c m), None => String.eqb c "hello" && (m =? 420)
        | _, _ => false
        end
    | _ => false end = true) as Hb by (vm_compute; reflexivity).
  destruct (Picod.handleJSONBase64Upload _ _ world0) as [[|f| |] w'] eqn:H; try discriminate Hb.
  exists f, w'. split; [reflexivity|].
  destruct (fs w' !! ["outside"; "sub"; "new.txt"]) as [[|c m|]|]; try discriminate Hb.
  destruct (fs w' !! ["ws"; "link"; "sub"; "new.txt"]); [discriminate Hb|].
  apply andb_true_iff in Hb as [Hc Hm]. apply String.eqb_eq in Hc as ->. apply Z.eqb_eq in Hm as ->. split; reflexivity.
Qed.
