(* ===== verification/PicodFilesTheorems.v ===== *)
(** * PicoD: what is uploaded can be downloaded *)

From Stdlib Require Import Ascii.
From stdpp Require Import base list gmap strings.
From S2P Require Import Prelude GoStrings GoTime GoError GoHttp GoEncoding GoPath PicodFiles PicodServer PicodTheorems PicodWorld.
Import Path.

(** What POSIX promises about files nobody else is writing to: a write is read
    back under the same path; what can be read is a file that has a resolved
    name, under which it is the same file; creating directories and writing
    files changes no existing link or directory. *)
Class WriteLaws (W : Type) `{!Files W} : Prop := {
  WriteFile_read p c m w w' : WriteFile p c m w = (None, w') -> ReadFile p w' = Ok c;
  CopyTo_read p c m w w1 w' : OpenTrunc p m w = (None, w1) -> CopyTo p c w1 = (None, w') -> ReadFile p w' = Ok c;
  ReadFile_stat p w c : ReadFile p w = Ok c ->
    exists s, Stat p w = Ok s /\ st_IsDir s = false /\ st_Size s = Z.of_nat (String.length c);
  ReadFile_resolves p w c : IsAbs p = true -> ReadFile p w = Ok c ->
    exists q, EvalSymlinks p w = Ok q /\ ReadFile q w = Ok c;
  MkdirAll_keeps p m w r w' d q : MkdirAll p m w = (r, w') -> EvalSymlinks d w = Ok q -> EvalSymlinks d w' = Ok q;
  WriteFile_keeps p c m w r w' d q : WriteFile p c m w = (r, w') -> EvalSymlinks d w = Ok q -> EvalSymlinks d w' = Ok q;
  OpenTrunc_keeps p m w r w' d q : OpenTrunc p m w = (r, w') -> EvalSymlinks d w = Ok q -> EvalSymlinks d w' = Ok q;
  CopyTo_keeps p c w r w' d q : CopyTo p c w = (r, w') -> EvalSymlinks d w = Ok q -> EvalSymlinks d w' = Ok q;
}.

(** The path and the bytes of an upload request. *)
Definition upload_of (contentType : string) (bound : res Picod.UploadFileRequest) (form : Picod.Multipart)
    : option (string * string) :=
  if Strs.HasPrefix contentType "multipart/form-data" then
    match Picod.mp_file form with Ok (Ok content) => Some (Picod.mp_path form, content) | _ => None end
  else
    match bound with
    | Ok req => match B64.StdDecode (Picod.up_Content req) with Some c => Some (Picod.up_Path req, c) | None => None end
    | Err _ => None
    end.

Section roundtrip.
Context {W : Type} `{!Files W} `{!FilesLaws W} `{!WriteLaws W}.
Implicit Types w : W.

(** Nothing that resolved before resolves differently. *)
Definition keeps w w' : Prop := forall d q, EvalSymlinks d w = Ok q -> EvalSymlinks d w' = Ok q.

(** A successful upload wrote the bytes at the path the jail returned. *)
Lemma upload_written workspaceDir contentType bound form w f w' :
  Picod.UploadFileHandler workspaceDir contentType bound form w = (Picod.Uploaded f, w') ->
  exists p content safePath, upload_of contentType bound form = Some (p, content) /\
    Picod.sanitizePath workspaceDir p w = Ok safePath /\ ReadFile safePath w' = Ok content /\ keeps w w' /\
    Picod.uploaded workspaceDir safePath w' = Picod.Uploaded f.
Proof.
  unfold Picod.UploadFileHandler, upload_of. destruct (Strs.HasPrefix contentType _); intros H.
  - unfold Picod.handleMultipartUpload in H. destruct (String.eqb _ ""); [done|].
    destruct (Picod.mp_file form) as [src|]; [|done]. destruct (Picod.sanitizePath _ _ w) as [safe|] eqn:Hs; [|done].
    destruct (MkdirAll _ _ w) as [[e|] w1] eqn:Hm; [done|]. destruct src as [content|]; [|done].
    destruct (OpenTrunc _ _ w1) as [[e|] w2] eqn:Ho; [done|]. destruct (CopyTo _ _ w2) as [[e|] w3] eqn:Hc; [done|].
    injection H as Hu <-. exists (Picod.mp_path form), content, safe. split_and!; [done|done| | |done].
    + by eapply CopyTo_read.
    + intros d q Hd. eapply CopyTo_keeps, OpenTrunc_keeps, MkdirAll_keeps; done.
  - unfold Picod.handleJSONBase64Upload in H. destruct bound as [req|]; [|done].
    destruct (Picod.sanitizePath _ _ w) as [safe|] eqn:Hs; [|done]. destruct (B64.StdDecode _) as [content|]; [|done].
    destruct (MkdirAll _ _ w) as [[e|] w1] eqn:Hm; [done|]. destruct (WriteFile _ _ _ w1) as [[e|] w2] eqn:Ho; [done|].
    injection H as Hu <-. exists (Picod.up_Path req), content, safe. split_and!; [done|done| | |done].
    + by eapply WriteFile_read.
    + intros d q Hd. eapply WriteFile_keeps, MkdirAll_keeps; done.
Qed.

(** The workspace resolves to the same place as long as it exists. *)
Lemma workspace_of workspaceDir w ws :
  IsAbs workspaceDir = true -> EvalSymlinks workspaceDir w = Ok ws -> Picod.resolvedWorkspace workspaceDir w = ws.
Proof. intros Ha He. unfold Picod.resolvedWorkspace. rewrite He. by apply (EvalSymlinks_abs workspaceDir w). Qed.

(** What the jail says of a place that exists. *)
Lemma sanitize_existing workspaceDir ws p q w :
  IsAbs workspaceDir = true -> EvalSymlinks workspaceDir w = Ok ws -> inside ws (Picod.candidate ws p) ->
  EvalSymlinks (Picod.candidate ws p) w = Ok q ->
  (inside ws q -> Picod.sanitizePath workspaceDir p w = Ok q) /\
  (~ inside ws q -> exists e, Picod.sanitizePath workspaceDir p w = Err e).
Proof.
  intros Ha He [cs Hcs] Hq. destruct (EvalSymlinks_abs _ _ _ Ha He) as [Hws _].
  destruct (candidate_abs ws p Hws) as [Hc _]. destruct (EvalSymlinks_abs _ _ _ Hc Hq) as [Hqa _].
  unfold Picod.sanitizePath. rewrite (workspace_of _ _ _ Ha He), Hq.
  assert (String.eqb workspaceDir "" = false) as -> by (by destruct workspaceDir).
  destruct (Rel_extends ws _ cs Hws Hc Hcs) as (rel & -> & ->). split.
  - intros [ds Hds]. by destruct (Rel_extends ws q ds Hws Hqa Hds) as (rel' & -> & ->).
  - intros Hn. destruct (Rel ws q) as [rel'|] eqn:Hr; [|by eexists].
    destruct (escapes rel') eqn:Hesc; [by eexists|]. destruct Hn. by apply (Rel_inside ws q rel').
Qed.

(** After an upload the requested place exists and holds the bytes. *)
Lemma upload_placed workspaceDir ws p w w' content safePath :
  IsAbs workspaceDir = true -> EvalSymlinks workspaceDir w = Ok ws ->
  Picod.sanitizePath workspaceDir p w = Ok safePath -> ReadFile safePath w' = Ok content -> keeps w w' ->
  inside ws (Picod.candidate ws p) /\
  exists q, EvalSymlinks (Picod.candidate ws p) w' = Ok q /\ ReadFile q w' = Ok content.
Proof.
  intros Ha He Hs Hr Hk. destruct (EvalSymlinks_abs _ _ _ Ha He) as [Hws _].
  destruct (candidate_abs ws p Hws) as [Hc _]. revert Hs. unfold Picod.sanitizePath. rewrite (workspace_of _ _ _ Ha He).
  destruct (String.eqb workspaceDir ""); [done|]. destruct (Rel ws _) as [rel|] eqn:Hrel; [|done].
  destruct (escapes rel) eqn:Hesc; [done|]. intros Hs. split; [by apply (Rel_inside ws _ rel)|].
  destruct (EvalSymlinks (Picod.candidate ws p) w) as [final|] eqn:Hf.
  - destruct (Rel ws final) as [rel'|]; [|done]. destruct (escapes rel'); [done|]. injection Hs as <-.
    exists final. split; [by apply Hk|done].
  - injection Hs as <-. by apply ReadFile_resolves.
Qed.

End roundtrip.


(** ** The laws hold of the concrete file system *)

Import PW.

Definition same_kind (n n' : node) : Prop :=
  match n, n' with
  | NDir, NDir | NFile _ _, NFile _ _ => True
  | NLink t, NLink t' => t = t'
  | _, _ => False
  end.

(** Every node is still there, with the same kind and, for a link, target. *)
Definition grows (w w' : world) : Prop :=
  forall cs n, lookup_node w cs = Some n -> exists n', lookup_node w' cs = Some n' /\ same_kind n n'.

Lemma grows_refl w : grows w w.
Proof. intros cs n Hn. exists n. split; [done|]. by destruct n. Qed.

Lemma grows_trans w1 w2 w3 : grows w1 w2 -> grows w2 w3 -> grows w1 w3.
Proof.
  intros H1 H2 cs n Hn. destruct (H1 cs n Hn) as (n1 & Hn1 & Hs1). destruct (H2 cs n1 Hn1) as (n2 & Hn2 & Hs2).
  exists n2. split; [done|]. destruct n, n1, n2; cbn in *; congruence || done.
Qed.

Lemma lookup_put cs n w : cs <> [] -> lookup_node (put cs n w) cs = Some n.
Proof. destruct cs; [done|]. intros _. apply lookup_insert_eq. Qed.

Lemma lookup_put_ne cs cs' n w : cs <> cs' -> lookup_node (put cs n w) cs' = lookup_node w cs'.
Proof. intros Hne. destruct cs'; [done|]. by apply lookup_insert_ne. Qed.

Lemma grows_put cs n w :
  match lookup_node w cs with Some m => same_kind m n | None => True end -> grows w (put cs n w).
Proof.
  intros Hk cs' m Hm. destruct (decide (cs = cs')) as [<-|Hne].
  - destruct cs as [|c cs]; [exists NDir; by destruct m|]. exists n. rewrite lookup_put by done. split; [done|]. by rewrite Hm in Hk.
  - exists m. rewrite lookup_put_ne by done. split; [done|]. by destruct m.
Qed.

Lemma walk_grows w w' fuel cur rest r : grows w w' -> walk w fuel cur rest = Some r -> walk w' fuel cur rest = Some r.
Proof.
  intros Hg. revert cur rest. induction fuel as [|fuel IH]; intros cur rest; [done|]. cbn [walk].
  destruct rest as [|c rest]; [done|]. destruct (String.eqb c ".."); [apply IH|].
  destruct (lookup_node w (cur ++ [c])) as [n|] eqn:Hn; [|done]. destruct (Hg _ _ Hn) as (n' & -> & Hk).
  destruct n, n'; try done; cbn in Hk; subst; try apply IH. destruct rest; [apply IH|done].
Qed.

Lemma resolve_grows w w' p cs : grows w w' -> resolve p w = Some cs -> resolve p w' = Some cs.
Proof.
  intros Hg. unfold resolve. destruct (walk w _ _ _) as [r|] eqn:Hw; [|done]. by rewrite (walk_grows w w' _ _ _ r Hg Hw).
Qed.

Lemma mkdirs_grows fuel cur rest w w' : mkdirs fuel cur rest w = Some w' -> grows w w'.
Proof.
  revert cur rest w. induction fuel as [|fuel IH]; intros cur rest w; [done|]. cbn [mkdirs].
  destruct rest as [|c rest]; [intros [= <-]; apply grows_refl|].
  destruct (lookup_node w (cur ++ [c])) as [[| |t]|] eqn:Hn; [apply IH|done|apply IH|].
  intros H. eapply grows_trans; [|by eapply IH]. apply grows_put. by rewrite Hn.
Qed.

(** What a successful write did. *)
Lemma write_spec p content m w r w' : write p content m w = (r, w') ->
  (r <> None /\ w' = w) \/
  (r = None /\ grows w w' /\ exists cs m', resolve p w' = Some cs /\ lookup_node w' cs = Some (NFile content m')).
Proof.
  unfold write. destruct (locate p w) as [cs|]; [|intros [= <- <-]; by left].
  assert (forall m', match lookup_node w cs with Some n => same_kind n (NFile content m') | None => True end -> cs <> [] ->
    (if bool_decide (resolve p (put cs (NFile content m') w) = Some cs) then (None, put cs (NFile content m') w)
     else (Some (EText "too many levels of symbolic links"), w)) = (r, w') ->
    (r <> None /\ w' = w) \/
    (r = None /\ grows w w' /\ exists cs m', resolve p w' = Some cs /\ lookup_node w' cs = Some (NFile content m'))) as Hput.
  { intros m' Hk Hne. destruct (bool_decide_reflect (resolve p (put cs (NFile content m') w) = Some cs)) as [Hr|Hr];
      intros [= <- <-]; [right|by left].
    split; [done|]. split; [by apply grows_put|]. exists cs, m'. split; [done|]. by apply lookup_put. }
  destruct cs as [|c cs]; [intros [= <- <-]; by left|].
  destruct (lookup_node w (c :: cs)) as [[| |]|]; [intros [= <- <-]; by left| |intros [= <- <-]; by left|]; by apply Hput.
Qed.

(** *** Resolved names resolve to themselves *)

Definition dirs (w : world) (cs : list string) : Prop := forall pre, pre `prefix_of` cs -> lookup_node w pre = Some NDir.

Definition is_place (w : world) (cs : list string) : Prop :=
  dirs w cs \/ exists d c f m, cs = d ++ [c] /\ dirs w d /\ lookup_node w cs = Some (NFile f m).

Lemma dirs_snoc w cur c : dirs w cur -> lookup_node w (cur ++ [c]) = Some NDir -> dirs w (cur ++ [c]).
Proof.
  intros Hd Hc pre [post Hp]. destruct post as [|x post _] using rev_ind.
  - rewrite app_nil_r in Hp. by subst.
  - rewrite app_assoc in Hp. apply app_inj_tail in Hp as [-> _]. apply Hd. by exists post.
Qed.

Lemma dirs_prefix w cur pre : dirs w cur -> pre `prefix_of` cur -> dirs w pre.
Proof. intros Hd Hp p Hpp. apply Hd. by etransitivity. Qed.

Lemma walk_place w fuel cur rest r :
  dirs w cur -> walk w fuel cur rest = Some r -> is_place w r /\ (length r < length cur + fuel)%nat.
Proof.
  revert cur rest. induction fuel as [|fuel IH]; intros cur rest Hd; [done|]. cbn [walk].
  destruct rest as [|c rest]; [intros [= <-]; split; [by left|lia]|].
  destruct (String.eqb c "..").
  { intros H. apply IH in H as [Hp Hl]; [|by eapply dirs_prefix, prefix_take]. split; [done|].
    rewrite length_take in Hl. lia. }
  destruct (lookup_node w (cur ++ [c])) as [[|f m|t]|] eqn:Hn; [| | |done].
  - intros H. apply IH in H as [Hp Hl]; [|by apply dirs_snoc]. split; [done|]. rewrite length_app in Hl. cbn in Hl. lia.
  - destruct rest; [|done]. destruct fuel; [done|]. intros [= <-]. split; [right; by exists cur, c, f, m|].
    rewrite length_app. cbn. lia.
  - intros H. apply IH in H as [Hp Hl]; [|destruct (IsAbs t); [|done]].
    + split; [done|]. destruct (IsAbs t); cbn in Hl; lia.
    + intros pre ->%prefix_nil_inv. done.
Qed.

Lemma walk_direct w fuel cur rest :
  is_place w (cur ++ rest) -> Forall proper rest -> (length rest < fuel)%nat -> walk w fuel cur rest = Some (cur ++ rest).
Proof.
  revert cur rest. induction fuel as [|fuel IH]; intros cur rest Hp Hf Hl; [lia|]. cbn [walk].
  destruct rest as [|c rest]; [by rewrite app_nil_r|]. apply Forall_cons in Hf as [(_ & _ & Hdd & _) Hf].
  rewrite (proj2 (String.eqb_neq c "..") Hdd). cbn in Hl.
  assert (cur ++ c :: rest = (cur ++ [c]) ++ rest) as Ha by (by rewrite <- app_assoc). rewrite Ha in Hp |- *.
  assert ((rest = [] /\ exists f m, lookup_node w (cur ++ [c]) = Some (NFile f m)) \/ lookup_node w (cur ++ [c]) = Some NDir) as Hc.
  { destruct Hp as [Hd|(d & x & f & m & He & Hd & Hn)]; [right; apply Hd; by exists rest|].
    destruct rest as [|y rest _] using rev_ind; [left; rewrite app_nil_r in Hn; eauto|right].
    rewrite app_assoc in He. apply app_inj_tail in He as [<- _]. apply Hd. by exists rest. }
  destruct Hc as [[-> (f & m & ->)]| ->]; [destruct fuel; [cbn in Hl; lia|by rewrite app_nil_r]|]. apply IH; [done|done|lia].
Qed.

Lemma resolve_resolved p w cs : resolve p w = Some cs -> resolve (at_ cs) w = Some cs.
Proof.
  unfold resolve. destruct (walk w limit [] (comps p)) as [r|] eqn:Hw; [|done].
  destruct (bool_decide_reflect (Forall proper r)) as [Hp|]; [|done]. intros [= <-].
  destruct (walk_place w limit [] (comps p) r) as [Hr Hl]; [intros pre ->%prefix_nil_inv; done|done|].
  unfold at_. rewrite (comps_rooted r Hp), (walk_direct w limit [] r Hr Hp) by (cbn in Hl; lia). cbn.
  by rewrite bool_decide_eq_true_2.
Qed.

#[export] Instance write_laws : WriteLaws world.
Proof.
  assert (forall p c m w r w' d q, write p c m w = (r, w') -> EvalSymlinks d w = Ok q -> EvalSymlinks d w' = Ok q) as Hk.
  { intros p c m w r w' d q H. destruct (write_spec _ _ _ _ _ _ H) as [[_ ->]|(_ & Hg & _)]; [done|]. cbn [EvalSymlinks files].
    destruct (resolve d w) as [cs|] eqn:Hr; [|done]. by rewrite (resolve_grows w w' d cs Hg Hr). }
  assert (forall p c m w w', write p c m w = (None, w') -> ReadFile p w' = Ok c) as Hw.
  { intros p c m w w' H. destruct (write_spec _ _ _ _ _ _ H) as [[? _]|(_ & _ & cs & m' & Hr & Hn)]; [done|].
    cbn [ReadFile files]. rewrite Hr. cbn [mbind option_bind]. by rewrite Hn. }
  split.
  - exact Hw.
  - intros p c m w w1 w' _. exact (Hw p c 420 w1 w').
  - intros p w c. cbn [ReadFile Stat files]. destruct (resolve p w ≫= lookup_node w) as [[|f m|]|]; try done. intros [= ->]. by eexists.
  - intros p w c _. cbn [ReadFile EvalSymlinks files]. destruct (resolve p w) as [cs|] eqn:Hr; [|done]. intros Hc. exists (at_ cs). split; [done|].
    rewrite (resolve_resolved p w cs Hr). exact Hc.
  - intros p m w r w' d q. cbn [MkdirAll EvalSymlinks files]. destruct (mkdirs _ _ _ w) as [w2|] eqn:Hm; intros [= <- <-]; [|done].
    destruct (resolve d w) as [cs|] eqn:Hr; [|done]. by rewrite (resolve_grows w w2 d cs (mkdirs_grows _ _ _ _ _ Hm) Hr).
  - exact Hk.
  - intros p m. exact (Hk p "" m).
  - intros p c. exact (Hk p c 420).
Qed.

