(* ===== verification/PicodAuthTheorems.v ===== *)
(** * PicoD and the router

    The tokens of the router at PicoD's middleware, what PicoD does for a caller,
    and a call on its way from the router to a handler of PicoD, in a container
    as the workload manager describes it. *)

From Stdlib Require Import Ascii.
From stdpp Require Import base list gmap strings.
From S2P Require Import Prelude GoStrings GoTime GoError GoContext GoHttp GoEncoding SandboxTypes StoreSpec K8sTypes Cluster WorldModel WmAuth WorkloadBuilder WmHandlers BuilderTheorems CiController GoProxy RouterAuth RouterJwt JwtModel RouterSession RouterHandlers RouterTheorems RouterWorld RouterTheorems2 RouterTheorems3 PicodFiles PicodServer PicodWorld.

Lemma sandbox_claims_exact (r : RouterAuth.Request) (i : SandboxInfo) :
  ascii_only (Info.SessionID i) = true ->
  (forall c, RouterAuth.claims r = Some c -> ascii_only (Oidc.Subject c) = true /\ ascii_only (Oidc.Email c) = true) ->
  exact_claims (Router.sandboxClaims r i) = true /\
  (forall k, k = "exp" \/ k = "iat" \/ k = "nbf" -> obj_get k (Router.sandboxClaims r i) = None).
Proof.
  intros Hs Hc. unfold Router.sandboxClaims, RouterAuth.extractClaims. destruct (RouterAuth.claims r) as [c|].
  - destruct (Hc c eq_refl) as [H1 H2]. split.
    + cbn. rewrite Hs, H1. destruct (negb _); cbn; [by rewrite H2|done].
    + intros k [->|[->| ->]]; by destruct (negb _).
  - split; [cbn; by rewrite Hs|]. by intros k [->|[->| ->]].
Qed.

(** What passes is signed, by an RSA method, and expired at most a minute ago. *)
Lemma pico_middleware_sound {K : Type} `{!KeyFormats K} `{!JwtLib K} `{!PicoJwt K} {PL : PicoJwtLaws K} (key : K) now h :
  PicoAuth.AuthMiddleware key now h = PicoAuth.Pass ->
  exists tok m claims x e, Hdr.Get "Authorization" h = "Bearer " +:+ tok /\ m ∈ PicoAuth.rsaMethods /\
    jwt_signed key m tok claims /\ obj_get "exp" claims = Some (JNum x e) /\
    now < Tm.OfUnix (float_to_int64 (x, e)) + Tm.Minute.
Proof.
  unfold PicoAuth.AuthMiddleware. destruct (String.eqb _ ""); [done|].
  destruct (Strs.Split " " (Hdr.Get "Authorization" h)) as [|scheme [|tok [|? ?]]] eqn:Hsp; try done.
  destruct (String.eqb_spec scheme "Bearer") as [->|]; cbn [negb]; [|done].
  destruct (jwt_ParseLeeway _ _ _ now tok) as [claims|] eqn:Hp; [|done]. intros _.
  destruct (ParseLeeway_sound _ _ _ _ _ _ Hp) as (m & Hm & Hsig & x & e & Hexp & Hnow).
  exists tok, m, claims, x, e. split_and!; try done.
  rewrite <- (Strs.Join_Split " " (Hdr.Get "Authorization" h)), Hsp. done.
Qed.

Lemma pico_middleware_rejects {K : Type} `{!KeyFormats K} `{!JwtLib K} `{!PicoJwt K} (key : K) now h code err detail :
  PicoAuth.AuthMiddleware key now h = PicoAuth.Reject code err detail -> code = StatusUnauthorized.
Proof. unfold PicoAuth.AuthMiddleware. repeat case_match; congruence. Qed.

(** The router's public key, given in the environment, is the key PicoD uses. *)
Lemma pico_loads_router_key {P K : Type} `{!KeyPairs P K} `{!KeyFormats K} `{!JwtLib K} {KL : KeyPairLaws P K}
    (jm : RouterJwt.JWTManager P K) (env : string -> string) pem :
  RouterJwt.publicKey jm = public (RouterJwt.privateKey jm) ->
  RouterJwt.GetPublicKeyPEM jm = Ok pem -> env PicoAuth.PublicKeyEnvVar = pem ->
  PicoAuth.LoadPublicKeyFromEnv env = Ok (public (RouterJwt.privateKey jm)).
Proof.
  intros Hpub Hpem Henv. unfold PicoAuth.LoadPublicKeyFromEnv. rewrite Henv. revert Hpem. unfold RouterJwt.GetPublicKeyPEM.
  rewrite Hpub. destruct (MarshalPKIXPublicKey _) as [b|] eqn:Hb; [|done]. intros [= <-].
  rewrite (proj2 (String.eqb_neq _ "") (pem_nonempty _ _)), pem_roundtrip, (pkix_roundtrip _ _ Hb). done.
Qed.

(** A token of the router for a session passes. *)
Lemma pico_passes_token {P K : Type} `{!KeyPairs P K} `{!KeyFormats K} `{!JwtLib K} `{!PicoJwt K}
    {KL : KeyPairLaws P K} {PL : PicoJwtLaws K} (jm : RouterJwt.JWTManager P K) r i now now' tok h :
  RouterJwt.GenerateToken jm now now (Router.sandboxClaims r i) = Ok tok ->
  ascii_only (Info.SessionID i) = true ->
  (forall c, RouterAuth.claims r = Some c -> ascii_only (Oidc.Subject c) = true /\ ascii_only (Oidc.Email c) = true) ->
  in_era now -> now - Tm.Minute <= now' < now + 6 * Tm.Minute - Tm.Second ->
  Hdr.Get "Authorization" h = "Bearer " +:+ tok ->
  PicoAuth.AuthMiddleware (public (RouterJwt.privateKey jm)) now' h = PicoAuth.Pass.
Proof.
  intros Htok Hsid Hcl Hera Hnow Hh. destruct (sandbox_claims_exact r i Hsid Hcl) as [Hex Hno].
  destruct (token_parses jm PicoAuth.rsaMethods now (now' - Tm.Minute) (Router.sandboxClaims r i) tok) as (l & Hl & _ & Hiat & Hnbf);
    [by left|done|done|by apply Hno; left|done|lia|].
  assert (Strs.free_of " " tok = true) as Hsp.
  { revert Htok. unfold RouterJwt.GenerateToken. destruct (SignedString _ _) eqn:Hs; [|done]. intros [= <-].
    by eapply signed_no_space. }
  unfold PicoAuth.AuthMiddleware. rewrite Hh. change ("Bearer " +:+ tok) with ("Bearer" +:+ String " " tok).
  change (String.eqb ("Bearer" +:+ String " " tok) "") with false. cbv iota.
  rewrite Strs.Split_app by done. rewrite Strs.Split_self by done. rewrite String.eqb_refl. cbn [negb].
  rewrite (ParseLeeway_complete _ _ Tm.Minute (now' - Tm.Minute) now' tok l (Tm.Unix now) Hl); try done.
  + lia.
  + by apply Hiat, Hno; right; left.
  + destruct (in_era_sane now 0 Hera) as [Hs _]; [unfold Tm.Minute, Tm.Second; lia|].
    rewrite Tm.OfUnix_Unix by done. pose proof (Z.mod_pos_bound now Tm.Second ltac:(done)).
    pose proof (Z_div_mod_eq_full now Tm.Second). lia.
  + by apply Hnbf, Hno; right; right.
Qed.



(** A daemon that started uses the key of its environment. *)
Lemma picod_started_key {W K : Type} `{!Env W} `{!Files W} `{!KeyFormats K} cfg env (w0 w1 : W) (s : PicoServer.Server K) k :
  PicoServer.NewServer cfg env w0 = (Ok s, w1) -> PicoAuth.LoadPublicKeyFromEnv env = Ok k -> PicoServer.authManager s = k.
Proof.
  intros Hn Hk. revert Hn. unfold PicoServer.NewServer. rewrite Hk.
  destruct (if String.eqb _ "" then _ else _) as [dir|]; [|done].
  destruct (Picod.setWorkspace dir w0) as [[ws|] w2]; [|done]. by intros [= <- _].
Qed.

(** A request of the API that passes the middleware and fits is dispatched. *)
Lemma picod_routes {W K : Type} `{!Env W} `{!Files W} `{!Exec W} {TT : TimeText} `{!KeyFormats K} `{!JwtLib K} `{!PicoJwt K}
    (s : PicoServer.Server K) (r : PicoServer.Request) (w : W) rest call :
  PicoServer.ContentLength (PicoServer.body r) <= PicoServer.MaxBodySize ->
  PicoServer.segments r = "api" :: rest -> PicoServer.api_route r rest = Some call ->
  PicoAuth.AuthMiddleware (PicoServer.authManager s) (clock w) (PicoServer.header r) = PicoAuth.Pass ->
  PicoServer.route s r w = Some (PicoServer.dispatch (PicoServer.workspaceDir s) call w).
Proof.
  intros Hl Hs Hc Ha. unfold PicoServer.route. rewrite Hs. cbn. rewrite Hc. unfold PicoServer.serve_api. rewrite Ha.
  unfold PicoServer.maxBodySizeMiddleware. rewrite (proj2 (Z.ltb_ge _ _) Hl). by destruct (_ <? _).
Qed.

(** ** A call on its way to PicoD *)

(** The environment a container's process sees: of several entries for a name
    the last one counts. *)
Definition env_of (vars : list EnvVar) (name : string) : string :=
  foldl (fun v e => if String.eqb (env_Name e) name then env_Value e else v) "" vars.

Lemma env_of_last vars name v : last vars = Some {| env_Name := name; env_Value := v |} -> env_of vars name = v.
Proof. intros (l & ->)%last_Some. unfold env_of. rewrite foldl_app. cbn. by rewrite String.eqb_refl. Qed.

(** The containers the workload manager describes, with the router's key at hand,
    for a code interpreter that asks for PicoD's authentication: that of a sandbox
    it creates, and that of the template of a warm pool. *)
Inductive picod_container {D W : Type} `{!Env W} `{!Cluster D W} {AE : ApiErrors} (pem : string) : Container -> Prop :=
  | created_container ns n o (w w' : W) sb entry ci c :
      Wm.buildSandbox (D := D) CodeInterpreterKind pem ns n o w = (Some (Ok (sb, None, entry)), w') ->
      lister_codeInterpreter (D := D) ns n w = Ok ci -> CI.AuthMode (CI.Spec ci) = AuthModePicoD ->
      c ∈ Containers (sb_PodSpec sb) -> picod_container pem c
  | pooled_container template ci c :
      CI.AuthMode (CI.Spec ci) = AuthModePicoD ->
      c ∈ Containers (CiCtl.convertToPodTemplate pem template ci).1 -> picod_container pem c.

Lemma picod_container_key {D W : Type} `{!Env W} `{!EnvLaws W} `{!Cluster D W} {AE : ApiErrors} pem c :
  picod_container (D := D) (W := W) pem c -> env_of (c_Env c) PicoAuth.PublicKeyEnvVar = pem.
Proof.
  intros [ns n o w w' sb entry ci c' Hb Hl Hm Hc|template ci c' Hm Hc].
  - apply interpreter_built in Hb as (_ & _ & _ & Hk). destruct (Hk ci Hl Hm) as [_ Hkey]. apply env_of_last. by apply Hkey.
  - cbn in Hc. rewrite Hm in Hc. apply list_elem_of_singleton in Hc as ->. apply env_of_last. cbn. apply last_snoc.
Qed.

(** What the network hands to PicoD of a request the router sent. *)
Record delivered (out : OutReq) (rq : PicoServer.Request) : Prop := {
  delivered_method : PicoServer.method rq = o_Method out;
  delivered_path : "/" +:+ Strs.Join (PicoServer.segments rq) "/" = o_Path out;
  delivered_header : PicoServer.header rq = o_Header out;
}.


(** ** The concrete tokens *)

Module PicoJwtModel.
Import JwtModel.

Definition fresh_with (d : Duration) (now : Time) (claims : list (string * json)) : bool :=
  match obj_get "exp" claims with
  | Some (JNum x e) => now <? Tm.OfUnix (float_to_int64 (x, e)) + d
  | _ => false
  end &&
  match obj_get "iat" claims with
  | Some (JNum i 0) => Tm.OfUnix i - d <=? now
  | Some _ => false
  | None => true
  end.

#[export] Instance pico : PicoJwt nat := {|
  jwt_ParseLeeway k ms d now tok :=
    match read tok with
    | Some (k', claims) =>
        if bool_decide (k = k') && bool_decide ("RS256" ∈ ms) && fresh_with d now claims then Ok claims
        else Err (EText "token is invalid")
    | None => Err (EText "token is malformed")
    end;
|}.

#[export] Instance pico_laws : PicoJwtLaws nat.
Proof.
  split; cbn.
  - intros k ms d now raw claims. destruct (read raw) as [[k' l]|] eqn:Hr; [|done].
    destruct (bool_decide_reflect (k = k')); cbn; [|done].
    destruct (bool_decide_reflect ("RS256" ∈ ms)); cbn; [|done].
    destruct (fresh_with d now l) eqn:Hu; [|done]. intros [= <-]. exists "RS256". split; [done|]. split; [by subst|].
    unfold fresh_with in Hu. apply andb_true_iff in Hu as [Hu _].
    destruct (obj_get "exp" l) as [[| |x y| | |]|]; try done. exists x, y. split; [done|]. by b2p.
  - intros k ms d now now' raw claims i. unfold parse. destruct (read raw) as [[k' l]|] eqn:Hr; [|done].
    destruct (bool_decide_reflect (k = k')); cbn; [|done].
    destruct (bool_decide_reflect ("RS256" ∈ ms)); cbn; [|done].
    destruct (unexpired now l) eqn:Hu; [|done]. intros [= <-] Hd Hle Hi Hiat Hnbf. unfold fresh_with. rewrite Hi.
    unfold unexpired in Hu. destruct (obj_get "exp" l) as [[| |x y| | |]|]; try done. b2p.
    rewrite (proj2 (Z.ltb_lt _ _)) by lia. cbn. by rewrite (proj2 (Z.leb_le _ _)).
Qed.

End PicoJwtModel.

Import ApiModel JwtModel PicoJwtModel RW.

Definition pem0 : string := match RouterJwt.GetPublicKeyPEM jm0 with Ok p => p | Err _ => "" end.


(** ** A daemon in the sandbox of [PicodWorld] that runs a command for the router *)

#[local] Existing Instances PW.env PW.files PW.exec PW.time_text.

Definition token0 : string :=
  match RouterJwt.GenerateToken jm0 (clock PW.world0) (clock PW.world0) (Router.sandboxClaims request0 sandbox0) with
  | Ok tok => tok | Err _ => "" end.

Definition execute0 : PicoServer.Request :=
  {| PicoServer.method := "POST"; PicoServer.segments := ["api"; "execute"]; PicoServer.queryPath := "";
     PicoServer.body := {| PicoServer.ContentLength := 40; PicoServer.transferred := 40 |};
     PicoServer.header := [("Authorization", "Bearer " +:+ token0)]; PicoServer.contentType := "application/json";
     PicoServer.boundExecute := Ok run_ls; PicoServer.boundUpload := Err (EText "EOF");
     PicoServer.form := {| Picod.mp_path := ""; Picod.mp_mode := ""; Picod.mp_file := Err (EText "EOF") |} |}.


(** ** From the router to the daemon *)

#[local] Existing Instances WM.env WM.cluster WM.laws.

Definition container0 : Container :=
  {| c_Name := "code-interpreter"; c_Image := "picod:latest"; c_ImagePullPolicy := "";
     c_Env := [{| env_Name := "PICOD_AUTH_PUBLIC_KEY"; env_Value := "forged" |};
               {| env_Name := "PICOD_AUTH_PUBLIC_KEY"; env_Value := pem0 |}];
     c_Command := []; c_Args := []; c_Resources := ∅ |}.

Lemma container0_picod : picod_container (D := string) (W := WM.world) pem0 container0.
Proof.
  destruct (Wm.buildSandbox (D := string) CodeInterpreterKind pem0 "ns" "ci" "alice" world_ci) as [b w'] eqn:Hb.
  assert (match b with Some (Ok (sb, None, _)) => bool_decide (Containers (sb_PodSpec sb) = [container0]) | _ => false end = true) as Hc.
  { replace b with (Wm.buildSandbox (D := string) CodeInterpreterKind pem0 "ns" "ci" "alice" world_ci).1 by (by rewrite Hb).
    vm_compute. reflexivity. }
  destruct b as [[[[sb [cl|]] entry]|e]|]; try discriminate Hc. apply bool_decide_eq_true in Hc.
  eapply (created_container pem0 "ns" "ci" "alice" world_ci w' sb entry ci0); [exact Hb|reflexivity|reflexivity|]. rewrite Hc. by left.
Qed.

Definition arrives (out : OutReq) : PicoServer.Request :=
  {| PicoServer.method := o_Method out; PicoServer.segments := ["api"; "execute"]; PicoServer.queryPath := "";
     PicoServer.body := {| PicoServer.ContentLength := 40; PicoServer.transferred := 40 |};
     PicoServer.header := o_Header out; PicoServer.contentType := "application/json";
     PicoServer.boundExecute := Ok run_ls; PicoServer.boundUpload := Err (EText "EOF");
     PicoServer.form := {| Picod.mp_path := ""; Picod.mp_mode := ""; Picod.mp_file := Err (EText "EOF") |} |}.

