(* ===== verification/WmServer.v ===== *)
(** * The workload manager's server and the command lines

    [pkg/workloadmanager/server.go], [informers.go], and the parts of
    [cmd/workload-manager/main.go] and [cmd/router/main.go] that decide what
    is served and in which order the process stops. *)

From stdpp Require Import base list gmap strings.
From S2P Require Import Prelude GoStrings GoTime GoError GoContext GoHttp GoEncoding SandboxTypes StoreSpec K8sTypes Cluster Lru Caches WmAuth Reconciler WorkloadBuilder K8sClient WmHandlers GarbageCollector Mtls.

Module WmServer.

Record Config := {
  Port : string;
  RuntimeClassName : string;
  EnableTLS : bool;
  TLSCert : string;
  TLSKey : string;
  EnableAuth : bool;
  SandboxReadyProbeTimeout : Duration;
  SandboxReadyProbeInterval : Duration;
  MTLSConfig : Mtls.Config;
}.

(** ** The command lines *)

(** The flags of [cmd/workload-manager]. *)
Record Flags := {
  f_port : string; f_runtimeClassName : string; f_enableTLS : bool;
  f_tlsCert : string; f_tlsKey : string; f_tlsCA : string; f_enableAuth : bool;
}.

Definition set (s : string) : bool := negb (String.eqb s "").

Definition allFiles (c : Mtls.Config) : bool :=
  set (Mtls.CertFile c) && set (Mtls.KeyFile c) && set (Mtls.CAFile c).

Definition validateTLSFlags (enableTLS : bool) (cfg : Mtls.Config) : option goerr :=
  if set (Mtls.CAFile cfg) then
    if String.eqb (Mtls.CertFile cfg) "" || String.eqb (Mtls.KeyFile cfg) ""
    then Some (EText "tls-cert, tls-key, and tls-ca must all be specified together for mTLS")
    else None
  else if enableTLS && (String.eqb (Mtls.CertFile cfg) "" || String.eqb (Mtls.KeyFile cfg) "")
  then Some (EText "both --tls-cert and --tls-key must be provided when --enable-tls is set")
  else None.

(** [cmd/router] *)
Definition validateMTLSFlags (cfg : Mtls.Config) : option goerr :=
  if String.eqb (Mtls.CertFile cfg) "" && String.eqb (Mtls.KeyFile cfg) "" && String.eqb (Mtls.CAFile cfg) ""
  then None
  else if String.eqb (Mtls.CertFile cfg) "" || String.eqb (Mtls.KeyFile cfg) "" || String.eqb (Mtls.CAFile cfg) ""
  then Some (EText "mtls-cert, mtls-key, and mtls-ca must all be specified together")
  else None.

Definition tlsConfig (f : Flags) : Mtls.Config :=
  {| Mtls.CertFile := f_tlsCert f; Mtls.KeyFile := f_tlsKey f; Mtls.CAFile := f_tlsCA f |}.

Definition configOf (f : Flags) : Config :=
  {| Port := f_port f; RuntimeClassName := f_runtimeClassName f; EnableTLS := f_enableTLS f;
     TLSCert := f_tlsCert f; TLSKey := f_tlsKey f; EnableAuth := f_enableAuth f;
     SandboxReadyProbeTimeout := 0; SandboxReadyProbeInterval := 0; MTLSConfig := tlsConfig f |}.

(** [main] up to the configuration of the server; [Err] is [klog.Fatalf]. *)
Definition main_config {W} `{!Env W} `{!Mtls.Disk W} (f : Flags) (w : W) : option (res Config) * W :=
  match validateTLSFlags (f_enableTLS f) (tlsConfig f) with
  | Some e => (Some (Err (Wrapf "Invalid TLS configuration" e)), w)
  | None =>
      if allFiles (tlsConfig f) then
        let '(r, w) := Mtls.WaitForCertificateFiles (tlsConfig f) Mtls.DefaultCertificateFileWaitTimeout w in
        match r with
        | None => (None, w)
        | Some (Some e) => (Some (Err (Wrapf "Invalid mTLS configuration" e)), w)
        | Some None => (Some (Ok (configOf f)), w)
        end
      else (Some (Ok (configOf f)), w)
  end.

(** ** Construction *)

Definition applyDefaults (c : Config) : Config :=
  {| Port := Port c; RuntimeClassName := RuntimeClassName c; EnableTLS := EnableTLS c;
     TLSCert := TLSCert c; TLSKey := TLSKey c; EnableAuth := EnableAuth c;
     SandboxReadyProbeTimeout :=
       if SandboxReadyProbeTimeout c <=? 0 then K8s.defaultSandboxReadyProbeTimeout else SandboxReadyProbeTimeout c;
     SandboxReadyProbeInterval :=
       if SandboxReadyProbeInterval c <=? 0 then K8s.defaultSandboxReadyProbeInterval else SandboxReadyProbeInterval c;
     MTLSConfig := MTLSConfig c |}.

(** [k8s] is the outcome of [NewK8sClient]; the public key is loaded later, in
    the background. *)
Definition NewServer {D} (cfg : option Config) (k8s : option goerr) : res (Config * Wm.Srv D) :=
  match cfg with
  | None => Err (EText "config cannot be nil")
  | Some c =>
      let c := applyDefaults c in
      match k8s with
      | Some e => Err (Wrapf "failed to create Kubernetes client" e)
      | None =>
          Ok (c, {| Wm.EnableAuth := EnableAuth c;
                    Wm.probe := {| K8s.SandboxReadyProbeTimeout := SandboxReadyProbeTimeout c;
                                   K8s.SandboxReadyProbeInterval := SandboxReadyProbeInterval c |};
                    Wm.tokenCache := TokenCache.NewTokenCache 1000 (5 * Tm.Minute);
                    Wm.clientCache := ClientCache.NewClientCache 100;
                    Wm.cachedPublicKey := "" |})
      end
  end.

(** ** Routes *)

Section routes.
Context {D W K : Type} `{!Env W} `{!Cluster D W} `{!Watchers W} `{!Store W}.
Context {AE : ApiErrors} {NE : NetErrors} {JT : JsonText} `{!KeyFormats K} `{!JwtLib K}.
Implicit Types (w : W) (s : Wm.Srv D).

Definition with_tokenCache s tc : Wm.Srv D :=
  {| Wm.EnableAuth := Wm.EnableAuth s; Wm.probe := Wm.probe s; Wm.tokenCache := tc;
     Wm.clientCache := Wm.clientCache s; Wm.cachedPublicKey := Wm.cachedPublicKey s |}.

Definition with_publicKey s pem : Wm.Srv D :=
  {| Wm.EnableAuth := Wm.EnableAuth s; Wm.probe := Wm.probe s; Wm.tokenCache := Wm.tokenCache s;
     Wm.clientCache := Wm.clientCache s; Wm.cachedPublicKey := pem |}.

Definition with_user (r : Wm.Request) (u : option WmAuth.UserInfo) : Wm.Request :=
  {| Wm.reqBody := Wm.reqBody r; Wm.reqHeader := Wm.reqHeader r; Wm.reqCtx := Wm.reqCtx r; Wm.reqUser := u |}.

Definition handler : Type := Wm.Request -> Wm.Srv D -> W -> Wm.response * Wm.Srv D * W.

(** The handler of a route of the [/v1] group: method, and the path split at
    its slashes. *)
Definition v1_handler (method : string) (segments : list string) : option handler :=
  match segments with
  | [kind] =>
      if negb (String.eqb method "POST") then None
      else if String.eqb kind "agent-runtime" then Some (Wm.handleAgentRuntimeCreate (K := K))
      else if String.eqb kind "code-interpreter" then Some (Wm.handleCodeInterpreterCreate (K := K))
      else None
  | [kind; sessions; sessionId] =>
      if String.eqb method "DELETE" && String.eqb sessions "sessions" && set sessionId &&
         (String.eqb kind "agent-runtime" || String.eqb kind "code-interpreter")
      then Some (fun r => Wm.handleDeleteSandbox r sessionId) else None
  | _ => None
  end.

(** The group's middleware, then the handler. *)
Definition serve_v1 (h : handler) (r : Wm.Request) s w : Wm.response * Wm.Srv D * W :=
  let '(v, tc, w) := WmAuth.authMiddleware (D := D) (Wm.EnableAuth s) (Wm.reqCtx r) (Wm.reqHeader r) (Wm.tokenCache s) w in
  let s := with_tokenCache s tc in
  match v with
  | WmAuth.Aborted code msg => (Wm.ErrorJSON code msg, s, w)
  | WmAuth.Next u => h (with_user r u) s w
  end.

(** [None] when no route matches. *)
Definition route (method : string) (segments : list string) (r : Wm.Request) s w
    : option (Wm.response * Wm.Srv D * W) :=
  match segments with
  | [] => None
  | group :: rest =>
      if String.eqb group "v1" then
        match v1_handler method rest with
        | Some h => Some (serve_v1 h r s w)
        | None => None
        end
      else if bool_decide (segments = ["health"]) && String.eqb method "GET"
      then Some (Wm.handleHealth, s, w)
      else None
  end.

(** What happens to a server: requests, and the public key arriving. *)
Inductive event := Serve (method : string) (segments : list string) (r : Wm.Request) | KeyCached (pem : string).

Definition handle (e : event) (sw : Wm.Srv D * W) : Wm.Srv D * W :=
  match e with
  | Serve m segs r =>
      match route m segs r sw.1 sw.2 with Some (_, s, w) => (s, w) | None => sw end
  | KeyCached pem => (with_publicKey sw.1 pem, sw.2)
  end.

Definition handles (es : list event) (sw : Wm.Srv D * W) : Wm.Srv D * W := foldl (fun sw e => handle e sw) sw es.

End routes.

(** ** Start-up *)

(** The outcomes of [cache.WaitForCacheSync] for the three informers, and the
    error of the context when a wait gave up. *)
Record syncs := { arSynced : bool; ciSynced : bool; podSynced : bool; syncCtxErr : option goerr }.

Definition sync_error (what : string) (ctxErr : option goerr) : goerr :=
  let msg := "timed out waiting for " +:+ what +:+ " to sync" in
  match ctxErr with Some e => Wrapf msg e | None => EText msg end.

Definition waitForCacheSync (y : syncs) : option goerr :=
  if negb (arSynced y) then
    Some (sync_error "runtime.agentcube.volcano.sh/v1alpha1, Resource=agentruntimes caches" (syncCtxErr y))
  else if negb (ciSynced y) then
    Some (sync_error "runtime.agentcube.volcano.sh/v1alpha1, Resource=codeinterpreters caches" (syncCtxErr y))
  else if negb (podSynced y) then Some (sync_error "pod informer cache" (syncCtxErr y))
  else None.

Definition RunAndWaitForCacheSync (y : syncs) : option goerr :=
  Wrapf "failed to wait for caches to sync" <$> waitForCacheSync y.

Inductive listening :=
  | MTLS (addr : string) (cfg : Mtls.Config)
  | WithTLS (addr cert key : string)
  | H2C (addr : string).

(** The choice [Start] makes once the caches have synced and the store has
    answered. *)
Definition Start_mode (c : Config) : res listening :=
  let addr := ":" +:+ Port c in
  if allFiles (MTLSConfig c) then Ok (MTLS addr (MTLSConfig c))
  else if EnableTLS c then
    if String.eqb (TLSCert c) "" || String.eqb (TLSKey c) ""
    then Err (EText "TLS enabled but cert/key not provided")
    else Ok (WithTLS addr (TLSCert c) (TLSKey c))
  else Ok (H2C addr).

(** The listener, and the garbage collector that was started before it. *)
Definition Start {W} `{!StoreConn W} (y : syncs) (c : Config) (w : W) : res listening * option Gc.garbageCollector * W :=
  match RunAndWaitForCacheSync y with
  | Some e => (Err (Wrapf "failed to wait for caches to sync" e), None, w)
  | None =>
      let '(ping, w) := store_Ping w in
      match ping with
      | Some e => (Err (Wrapf "failed to ping store" e), None, w)
      | None =>
          let gc := Gc.newGarbageCollector (15 * Tm.Second) in
          (Start_mode c, Some gc, w)
      end
  end.

Definition CloseStore {W} `{!StoreConn W} (w : W) : option goerr * W :=
  let '(e, w) := store_Close w in (Wrapf "store close" <$> e, w).

(** The mutual TLS listener: the verification it applies to clients, and the
    watcher the server keeps. *)
Definition startMTLSServer {F X Pool Cert} `{!Mtls.CertIO F Pool Cert} `{!X509 X Pool Cert} (addr : string) (c : Config)
    (order : list string -> list string) (fc fa fw : F) (http2 listen : option goerr)
    : res (Mtls.TlsConfig Pool Cert) * option (Mtls.CertWatcher Pool Cert) :=
  if negb (allFiles (MTLSConfig c))
  then (Err (EText "mTLS requires --tls-cert, --tls-key, and --tls-ca to be set"), None)
  else
    match Mtls.LoadServerConfig (Some (MTLSConfig c)) order fc fa fw with
    | Err e => (Err (Wrapf "failed to load mTLS server config" e), None)
    | Ok (serverTLS, watcher) =>
        match http2 with
        | Some e => (Err (Wrapf "failed to configure HTTP/2 for mTLS server" e), Some (Mtls.Stop watcher))
        | None =>
            match listen with
            | Some e => (Err (Wrapf ("failed to listen on " +:+ addr) e), Some (Mtls.Stop watcher))
            | None => (Ok serverTLS, Some watcher)
            end
        end
    end.

End WmServer.
