(* ===== verification/WmServerTheorems.v ===== *)
(** * Properties of the workload manager's server: who is served, how *)

From stdpp Require Import base list gmap strings.
From S2P Require Import Prelude GoStrings GoTime GoError GoContext GoHttp GoEncoding SandboxTypes StoreSpec StoreRefinement StoreInstances K8sTypes Cluster WorldModel Lru Caches CacheTheorems WmAuth WmAuthTheorems Reconciler WorkloadBuilder K8sClient WmHandlers GarbageCollector WmTheorems WmTheorems2 WmTheorems3 RouterAuth RouterJwt RouterSession Mtls MtlsTheorems WmServer.
Import ApiModel CodecModel.CodecModel WM.

(** ** The handlers keep the token cache and the configuration *)

Section frame.
Context {D W K : Type} `{!Env W} `{!Cluster D W} `{!Watchers W} `{!Store W}.
Context {AE : ApiErrors} {NE : NetErrors} {JT : JsonText} `{!KeyFormats K} `{!JwtLib K}.
Implicit Types (w : W) (s : Wm.Srv D).

(** [s'] differs from [s] in the client cache only. *)
Definition same_but_clients s s' : Prop := exists c, s' = Wm.with_clientCache s c.

Lemma same_refl s : same_but_clients s s.
Proof. exists (Wm.clientCache s). by destruct s. Qed.

Lemma client_frame r s w : same_but_clients s (Wm.extractUserK8sClient r s w).2.
Proof.
  unfold Wm.extractUserK8sClient. destruct (_ || _); [apply same_refl|].
  destruct (K8s.GetOrCreateUserK8sClient _ _ _ _ _) as [[c|e] cache]; by eexists.
Qed.

Lemma create_frame r kind s w : same_but_clients s (Wm.handleSandboxCreate (K := K) r kind s w).1.2.
Proof.
  unfold Wm.handleSandboxCreate. destruct (Wm.reqBody r); [|apply same_refl].
  destruct (CreateReq.Validate _); [apply same_refl|].
  destruct (Identity.resolveSandboxOwnerID _ _ _) as [[owner code] msg].
  destruct (negb (code =? 0)); [apply same_refl|].
  destruct (Wm.buildSandbox _ _ _ _ _ w) as [[[[[sb claim] entry]|e]|] w1];
    [|destruct (_ || _); apply same_refl|apply same_refl].
  pose proof (client_frame r s w1) as Hc. destruct (Wm.EnableAuth s);
    [destruct (Wm.extractUserK8sClient r s w1) as [[d|e] s1]; [|exact Hc]|].
  all: destruct (match claim with Some _ => _ | None => _ end) as [ch w2];
    destruct (Wm.createSandbox _ _ _ _ _ _ _ w2) as [[resp|e] w3]; first [exact Hc|apply same_refl].
Qed.

Lemma delete_frame r sid s w : same_but_clients s (Wm.handleDeleteSandbox r sid s w).1.2.
Proof.
  unfold Wm.handleDeleteSandbox. destruct (store_Get sid w) as [[i|e] w1]; [|destruct (Is _ _); apply same_refl].
  pose proof (client_frame r s w1) as Hc. destruct (Wm.EnableAuth s);
    [destruct (Wm.extractUserK8sClient r s w1) as [[d|e] s1]; [|exact Hc]|].
  all: repeat split_match; first [exact Hc|apply same_refl].
Qed.

Lemma handler_frame m segs h r s w :
  WmServer.v1_handler (D := D) (W := W) (K := K) m segs = Some h -> same_but_clients s (h r s w).1.2.
Proof.
  unfold WmServer.v1_handler. intros Hh. repeat (split_match_in Hh; try done); simplify_eq.
  all: first [apply create_frame|apply delete_frame].
Qed.

End frame.

(** ** Authentication in front of every handler *)

Section serving.
Context {D W K : Type} `{!Env W} `{!Cluster D W} `{!Watchers W} `{!Store W}.
Context {AE : ApiErrors} {NE : NetErrors} {JT : JsonText} `{!KeyFormats K} `{!JwtLib K}.
Context (P : string -> bool -> string -> Prop).
Context (HP : forall ctx t w a u w', api_reviewToken (D := D) (W := W) ctx t w = (Ok (a, u), w') -> P t a (if a then u else "")).
Implicit Types (w : W) (s : Wm.Srv D).

(** Authentication is on and every cached verdict is one of the reviews. *)
Definition guarded s : Prop := Wm.EnableAuth s = true /\ cache_sound P (Wm.tokenCache s).

(** The user the middleware lets through. *)
Definition admitted (r : Wm.Request) (u : WmAuth.UserInfo) : Prop :=
  Strs.Fields (Hdr.Get "Authorization" (Wm.reqHeader r)) = ["Bearer"; WmAuth.userToken u] /\
  P (WmAuth.userToken u) true (WmAuth.serviceAccount u) /\
  WmAuth.serviceAccount u = "system:serviceaccount:" +:+ WmAuth.userNamespace u +:+ ":" +:+ WmAuth.serviceAccountName u.

Lemma auth_stable (Q : W -> Prop) {HQ : Stable D W Q} b ctx h tc w :
  Q w -> Q (WmAuth.authMiddleware (D := D) b ctx h tc w).2.
Proof.
  intros Hw. unfold WmAuth.authMiddleware, WmAuth.validateServiceAccountToken.
  destruct (negb b); [done|]. destruct (String.eqb _ ""); [done|].
  destruct (Strs.Fields _) as [|scheme [|token [|]]]; try done. destruct (negb _); [done|].
  destruct (TokenCache.Get _ _ token tc) as [[[[] auth] user] tc1].
  - destruct auth; [destruct (WmAuth.parseServiceAccount user) as [[]|]|]; done.
  - pose proof (stable_review ctx token w Hw) as Hr.
    destruct (api_reviewToken ctx token w) as [[[[] user']|e] w1]; [|exact Hr..].
    destruct (WmAuth.parseServiceAccount user') as [[]|]; exact Hr.
Qed.

Lemma aborted_401 b ctx h tc w code msg tc' w' :
  WmAuth.authMiddleware (D := D) b ctx h tc w = (WmAuth.Aborted code msg, tc', w') -> code = 401.
Proof.
  unfold WmAuth.authMiddleware. intros Ha. repeat (split_match_in Ha; try done); by simplify_eq.
Qed.

(** One request of the group: refused, without an effect beyond the review of
    the token, or handed to its handler for an admitted user. *)
Lemma serve_v1_cases h r s w resp s' w' :
  guarded s -> WmServer.serve_v1 h r s w = (resp, s', w') ->
  (exists msg tc, resp = Wm.ErrorJSON 401 msg /\ s' = WmServer.with_tokenCache s tc /\ guarded s' /\
     forall Q, Stable D W Q -> Q w -> Q w') \/
  (exists u tc w1, admitted r u /\ guarded (WmServer.with_tokenCache s tc) /\
     (forall Q, Stable D W Q -> Q w -> Q w1) /\
     h (WmServer.with_user r (Some u)) (WmServer.with_tokenCache s tc) w1 = (resp, s', w')).
Proof.
  intros [Hon Hs]. unfold WmServer.serve_v1. rewrite Hon.
  destruct (WmAuth.authMiddleware true _ _ _ w) as [[v tc] w1] eqn:Ha.
  destruct (auth_accepts_reviewed P _ _ _ _ _ _ _ HP Hs Ha) as (Hs' & Hnone & Hu).
  assert (forall Q, Stable D W Q -> Q w -> Q w1) as Hst.
  { intros Q HQ Hw. pose proof (auth_stable Q true (Wm.reqCtx r) (Wm.reqHeader r) (Wm.tokenCache s) w Hw) as H1.
    by rewrite Ha in H1. }
  destruct v as [[u|]|code msg]; [|by destruct Hnone|].
  - destruct (Hu u eq_refl) as (H1 & H2 & H3 & _). intros Hh. right. by exists u, tc, w1.
  - apply aborted_401 in Ha as ->. intros [= <- <- <-]. left. by exists msg, tc.
Qed.

Lemma guarded_same s s' : same_but_clients s s' -> guarded s -> guarded s'.
Proof. by intros [c ->]. Qed.

Lemma guarded_handle e sw : guarded sw.1 -> guarded (WmServer.handle (K := K) e sw).1.
Proof.
  intros Hg. destruct e as [m segs r|pem]; [|done]. destruct sw as [s w]. cbn in *.
  unfold WmServer.route. destruct segs as [|g rest]; [done|].
  destruct (String.eqb g "v1"); [|by destruct (_ && _)].
  destruct (WmServer.v1_handler m rest) as [h|] eqn:Hh; [|done].
  destruct (WmServer.serve_v1 h r s w) as [[resp s'] w'] eqn:Hs.
  destruct (serve_v1_cases _ _ _ _ _ _ _ Hg Hs) as [(msg & tc & _ & _ & Hg' & _)|(u & tc & w1 & _ & Hg' & _ & Hr)]; [done|].
  cbn. apply (guarded_same (WmServer.with_tokenCache s tc)); [|done].
  pose proof (handler_frame m rest h (WmServer.with_user r (Some u)) (WmServer.with_tokenCache s tc) w1 Hh) as Hf.
  by rewrite Hr in Hf.
Qed.

Lemma guarded_handles es sw : guarded sw.1 -> guarded (WmServer.handles (K := K) es sw).1.
Proof.
  revert sw. induction es as [|e es IH]; intros sw Hg; [done|]. apply (IH (WmServer.handle e sw)), guarded_handle, Hg.
Qed.

Lemma guarded_New cfg k8s c s :
  WmServer.EnableAuth cfg = true -> WmServer.NewServer (Some cfg) k8s = Ok (c, s) -> guarded s.
Proof.
  intros Hon. unfold WmServer.NewServer. destruct k8s; [done|]. intros [= <- <-]. split; [done|]. apply cache_sound_New.
Qed.

End serving.

(** [C8] A workload manager started with authentication serves nobody it has
    not authenticated, whatever it served before. After any sequence of
    requests, a request of the API is either answered 401, and nothing but the
    review of its token happened (any property of the world that the cluster's
    calls leave alone, such as the contents of the session store, is kept), or
    its handler runs, as the service account of a bearer token of the request
    that a TokenReview accepted. Only the health check is served to everyone,
    and it has no effect. *)
Theorem wm_serves_reviewed {D W K : Type} `{!Env W} `{!Cluster D W} `{!Watchers W} `{!Store W}
    {AE : ApiErrors} {NE : NetErrors} {JT : JsonText} `{!KeyFormats K} `{!JwtLib K}
    (P : string -> bool -> string -> Prop) cfg k8s c s0 w0 (es : list WmServer.event) s (w : W) m segs r resp s' w' :
  (forall ctx t w a u w', api_reviewToken (D := D) (W := W) ctx t w = (Ok (a, u), w') -> P t a (if a then u else "")) ->
  WmServer.EnableAuth cfg = true -> WmServer.NewServer (Some cfg) k8s = Ok (c, s0) ->
  WmServer.handles (K := K) es (s0, w0) = (s, w) ->
  WmServer.route (K := K) m segs r s w = Some (resp, s', w') ->
  (segs = ["health"] /\ resp = Wm.handleHealth /\ s' = s /\ w' = w) \/
  (exists msg, resp = Wm.ErrorJSON 401 msg /\ forall Q, Stable D W Q -> Q w -> Q w') \/
  (exists u tc w1 rest h, admitted P r u /\ segs = "v1" :: rest /\
     WmServer.v1_handler (K := K) m rest = Some h /\ (forall Q, Stable D W Q -> Q w -> Q w1) /\
     h (WmServer.with_user r (Some u)) (WmServer.with_tokenCache s tc) w1 = (resp, s', w')).
Proof.
  intros HP Hon Hnew Hes Hr. apply (guarded_New P) in Hnew; [|done].
  pose proof (guarded_handles (K := K) P HP es (s0, w0) Hnew) as Hg. rewrite Hes in Hg.
  unfold WmServer.route in Hr. destruct segs as [|g rest]; [done|].
  destruct (String.eqb_spec g "v1") as [->|].
  - destruct (WmServer.v1_handler m rest) as [h|] eqn:Hh; [|done]. injection Hr as Hr.
    destruct (serve_v1_cases P HP _ _ _ _ _ _ _ Hg Hr) as [(msg & tc & -> & _ & _ & Hq)|(u & tc & w1 & Hu & _ & Hq & Hr')];
      right; [left; by exists msg|right; by exists u, tc, w1, rest, h].
  - destruct (bool_decide_reflect (g :: rest = ["health"])) as [Hh|]; [|done]. cbn in Hr.
    destruct (String.eqb m "GET"); [|done]. simplify_eq. by left.
Qed.

(** *** A server that refused a request, then serves bob *)

Definition cfg_auth : WmServer.Config :=
  WmServer.configOf {| WmServer.f_port := "8080"; WmServer.f_runtimeClassName := "kuasar-vmm"; WmServer.f_enableTLS := false;
    WmServer.f_tlsCert := ""; WmServer.f_tlsKey := ""; WmServer.f_tlsCA := ""; WmServer.f_enableAuth := true |}.

Definition req_of (token : string) : Wm.Request :=
  {| Wm.reqBody := Some {| CreateReq.Kind := ""; CreateReq.Name := "web"; CreateReq.Namespace := "ns" |};
     Wm.reqHeader := [("Authorization", "Bearer " +:+ token)]; Wm.reqCtx := Ctx.Background; Wm.reqUser := None |}.

Definition world_agent_bob : world :=
  {| w_kv := ∅; w_clock := Tm.OfUnix 1700000000; w_next := 0; w_sandboxes := ∅; w_claims := ∅; w_pods := ∅;
     w_ars := <[("ns", "web") := agent0]> ∅; w_cis := ∅;
     w_users := <["tok" := "system:serviceaccount:ns:bob"]> ∅; w_down := []; w_chans := ∅ |}.

Definition srv_auth : Wm.Srv string :=
  match WmServer.NewServer (Some cfg_auth) None with Ok (_, s) => s | Err _ => srv0 end.

Definition history0 : list WmServer.event :=
  [WmServer.Serve "GET" ["health"] req_mallory; WmServer.Serve "POST" ["v1"; "agent-runtime"] (req_of "forged");
   WmServer.KeyCached "PEM"].

Definition after0 : Wm.Srv string * world := WmServer.handles (K := unit) history0 (srv_auth, world_agent_bob).

Definition answered_bob : option (Wm.response * Wm.Srv string * world) :=
  WmServer.route (K := unit) "POST" ["v1"; "agent-runtime"] (req_of "tok") after0.1 after0.2.

Lemma wm_serves_reviewed_witness :
  exists resp s' w', answered_bob = Some (resp, s', w') /\ is_created resp = true /\
    exists u, admitted reviewed (req_of "tok") u /\ WmAuth.userToken u = "tok".
Proof.
  assert (match answered_bob with Some (resp, _, _) => is_created resp | None => false end = true)
    as Hok by (vm_compute; reflexivity).
  destruct answered_bob as [[[resp s'] w']|] eqn:Hr; [|discriminate Hok].
  exists resp, s', w'. split; [reflexivity|]. split; [exact Hok|].
  destruct (wm_serves_reviewed (K := unit) reviewed cfg_auth None (WmServer.applyDefaults cfg_auth) srv_auth world_agent_bob history0
    after0.1 after0.2 "POST" ["v1"; "agent-runtime"] (req_of "tok") resp s' w') as [Hx|[(msg & -> & _)|(u & tc & w1 & rest & h & Hu & _)]].
  - intros ctx t w a u w2 Hrev. exists ctx, w, u, w2. split; [exact Hrev|reflexivity].
  - reflexivity.
  - reflexivity.
  - symmetry. apply surjective_pairing.
  - exact Hr.
  - destruct Hx as [Hx _]. discriminate Hx.
  - discriminate Hok.
  - exists u. split; [exact Hu|]. destruct Hu as (Hf & _ & _). vm_compute in Hf. injection Hf as Hf. symmetry. exact Hf.
Defined.

(** ** Listeners *)

(** The server listens only after all three caches have synced and the store has
    answered; once both hold a collector runs, every fifteen seconds, even when
    the listener is refused. *)
Theorem start_gated {W} `{!StoreConn W} y c (w : W) r gc w' :
  WmServer.Start y c w = (r, gc, w') ->
  (gc = None /\ is_ok r = false) \/
  (WmServer.arSynced y = true /\ WmServer.ciSynced y = true /\ WmServer.podSynced y = true /\
   store_Ping w = (None, w') /\ r = WmServer.Start_mode c /\ Gc.interval <$> gc = Some (15 * Tm.Second)).
Proof.
  unfold WmServer.Start, WmServer.RunAndWaitForCacheSync, WmServer.waitForCacheSync.
  destruct (WmServer.arSynced y), (WmServer.ciSynced y), (WmServer.podSynced y); cbn; intros H; simplify_eq; auto.
  destruct (store_Ping w) as [[e|] w1]; simplify_eq; auto. right. done.
Qed.

Lemma set_spec s : WmServer.set s = true <-> s <> "".
Proof. unfold WmServer.set. destruct (String.eqb_spec s ""); cbn; naive_solver. Qed.

Lemma allFiles_spec c :
  WmServer.allFiles c = true <-> Mtls.CertFile c <> "" /\ Mtls.KeyFile c <> "" /\ Mtls.CAFile c <> "".
Proof. unfold WmServer.allFiles. rewrite !andb_true_iff, !set_spec. tauto. Qed.

Lemma verify_chain_pool {X Pool Cert : Type} `{!X509 X Pool Cert} what usage (cw : Mtls.CertWatcher Pool Cert) raws x :
  Mtls.verify_chain what usage cw raws = Ok x ->
  exists raw rest pool inter, raws = raw :: rest /\ ParseCertificate raw = Ok x /\
    Mtls.GetCAPool cw = Some pool /\ x509_Verify x pool inter usage = None.
Proof.
  unfold Mtls.verify_chain, Mtls.requireCAPool. destruct raws as [|raw rest]; [done|].
  destruct (ParseCertificate raw) as [leaf|] eqn:Hp; [|done]. destruct (Mtls.parse_all _ _ _) as [inter|]; [|done].
  destruct (Mtls.GetCAPool cw) as [pool|]; [|done].
  destruct (x509_Verify leaf pool inter usage) eqn:Hv; [done|]. intros [= <-]. by exists raw, rest, pool, inter.
Qed.

Lemma server_cert_pool {X Pool Cert : Type} `{!X509 X Pool Cert} (cw : Mtls.CertWatcher Pool Cert) id raws :
  Mtls.verifyServerCert cw id raws = None ->
  exists raw rest leaf inter pool, raws = raw :: rest /\ ParseCertificate raw = Ok leaf /\
    Mtls.GetCAPool cw = Some pool /\ x509_Verify leaf pool inter "ServerAuth" = None /\ id ∈ URIs leaf.
Proof.
  unfold Mtls.verifyServerCert. destruct (Mtls.verify_chain _ _ _ _) as [x|] eqn:Hv; [|done].
  apply verify_chain_pool in Hv as (raw & rest & pool & inter & -> & Hp & Hc & Hx).
  destruct (existsb _ (URIs x)) eqn:He; [|done]. intros _. exists raw, rest, x, inter, pool. split_and!; try done.
  apply existsb_exists in He as (u & Hu & ->%String.eqb_eq). by apply list_elem_of_In.
Qed.

(** The session manager over complete mTLS files. *)
Lemma manager_mtls {F X Pool Cert P K : Type} {CIO : Mtls.CertIO F Pool Cert} `{!X509 X Pool Cert} (rc : Mtls.Config)
    (jm : option (RouterJwt.JWTManager P K)) :
  WmServer.allFiles rc = true ->
  forall env order (fc fa fw : F) h2 m tls cw0,
    Session.NewSessionManager env (Some rc) order fc fa fw h2 jm = (Ok (m, tls), cw0) ->
    Strs.HasPrefix (Session.workloadMgrAddr m) "https://" = true /\
    exists (t : Mtls.TlsConfig Pool Cert) watcher, tls = Some t /\ cw0 = Some watcher /\ Mtls.MinVersion t = Mtls.VersionTLS13 /\
      (Session.Close m cw0).2 = Some (Mtls.Stop watcher) /\
      forall cw raws, Mtls.VerifyPeerCertificate t cw raws = None ->
        exists raw rest leaf inter pool, raws = raw :: rest /\ ParseCertificate raw = Ok leaf /\
          Mtls.GetCAPool cw = Some pool /\ x509_Verify leaf pool inter "ServerAuth" = None /\
          Mtls.WorkloadManagerSPIFFEID env ∈ URIs leaf.
Proof.
  intros Hall env order fc fa fw h2 m tls cw0. unfold Session.NewSessionManager.
  destruct (String.eqb _ ""); [done|]. unfold WmServer.allFiles, WmServer.set in Hall. rewrite Hall.
  destruct (Mtls.LoadClientConfig _ _ _ _ _ _) as [[t watcher]|] eqn:Hl; [|done]. destruct h2; [done|].
  intros [= <- <- <-]. split.
  { cbn. unfold Session.secureAddr. destruct (Strs.HasPrefix (env _) "https://") eqn:Hp; cbn [negb]; [done|].
    apply (Strs.prefix_append "https://"). }
  exists t, watcher. clear Hall. revert Hl. unfold Mtls.LoadClientConfig. destruct (String.eqb _ ""); [done|]. destruct (String.eqb _ ""); [done|].
  destruct (Mtls.NewCertWatcher _ _ _ _ _ _ _); [|done]. intros [= <- <-]. repeat split.
  intros cw raws. apply server_cert_pool.
Qed.

(** [C35] No silent downgrade of transport security. A workload manager whose
    command line passes validation always finds a listener; it is the mutual
    TLS one exactly when a CA bundle is given, and never the clear-text one
    when TLS is asked for; the mutual TLS listener, once it listens, speaks
    TLS 1.3 or later, requires a certificate, and only lets in clients whose chain verifies for client authentication against the
    bundle in use. A router whose command line passes validation with any of
    the three files given uses mutual TLS, and then only https, for every
    request to the workload manager, and accepts only a server whose leaf
    carries the identity of the workload manager and whose chain verifies;
    closing its session manager stops the certificate watcher. *)
Theorem tls_no_downgrade {F X Pool Cert P K : Type} {CIO : Mtls.CertIO F Pool Cert} `{!X509 X Pool Cert} (f : WmServer.Flags)
    (rc : Mtls.Config) (jm : option (RouterJwt.JWTManager P K)) :
  (WmServer.validateTLSFlags (WmServer.f_enableTLS f) (WmServer.tlsConfig f) = None ->
   exists l, WmServer.Start_mode (WmServer.configOf f) = Ok l /\
     (WmServer.f_tlsCA f <> "" <-> exists addr cfg, l = WmServer.MTLS addr cfg) /\
     (WmServer.f_enableTLS f = true -> forall addr, l <> WmServer.H2C addr)) /\
  (forall addr order (fc fa fw : F) http2 listen (serverTLS : Mtls.TlsConfig Pool Cert) cw0 cw raws,
     WmServer.startMTLSServer addr (WmServer.configOf f) order fc fa fw http2 listen = (Ok serverTLS, cw0) ->
     Mtls.MinVersion serverTLS = Mtls.VersionTLS13 /\ Mtls.RequireAnyClientCert serverTLS = true /\
     (Mtls.VerifyPeerCertificate serverTLS cw raws = None ->
      exists raw rest leaf inter pool, raws = raw :: rest /\ ParseCertificate raw = Ok leaf /\
        Mtls.GetCAPool cw = Some pool /\ x509_Verify leaf pool inter "ClientAuth" = None)) /\
  (WmServer.validateMTLSFlags rc = None ->
   (Mtls.CertFile rc <> "" \/ Mtls.KeyFile rc <> "" \/ Mtls.CAFile rc <> "") ->
   forall env order (fc fa fw : F) h2 m tls cw0,
     Session.NewSessionManager env (Some rc) order fc fa fw h2 jm = (Ok (m, tls), cw0) ->
     Strs.HasPrefix (Session.workloadMgrAddr m) "https://" = true /\
     exists (t : Mtls.TlsConfig Pool Cert) watcher, tls = Some t /\ cw0 = Some watcher /\ Mtls.MinVersion t = Mtls.VersionTLS13 /\
       (Session.Close m cw0).2 = Some (Mtls.Stop watcher) /\
       forall cw raws, Mtls.VerifyPeerCertificate t cw raws = None ->
         exists raw rest leaf inter pool, raws = raw :: rest /\ ParseCertificate raw = Ok leaf /\
           Mtls.GetCAPool cw = Some pool /\ x509_Verify leaf pool inter "ServerAuth" = None /\
           Mtls.WorkloadManagerSPIFFEID env ∈ URIs leaf).
Proof.
  split_and!.
  - unfold WmServer.validateTLSFlags, WmServer.Start_mode. cbn.
    destruct (WmServer.allFiles (WmServer.tlsConfig f)) eqn:Ha.
    + apply allFiles_spec in Ha as (_ & _ & H3). cbn in H3. intros _. eexists. split; [done|].
      split; [|done]. split; [eauto|done].
    + destruct (WmServer.set (WmServer.f_tlsCA f)) eqn:Hca.
      { destruct (String.eqb_spec (WmServer.f_tlsCert f) ""); [done|]. destruct (String.eqb_spec (WmServer.f_tlsKey f) ""); [done|].
        apply set_spec in Hca. assert (WmServer.allFiles (WmServer.tlsConfig f) = true) by (by apply allFiles_spec). congruence. }
      assert (~ WmServer.f_tlsCA f <> "") as Hn by (rewrite <- set_spec; congruence).
      destruct (WmServer.f_enableTLS f); cbn; [destruct (_ || _); [done|]|]; intros _; eexists; (split; [done|]);
        (split; [split; [done|by intros (? & ? & ?)]|done]).
  - intros addr order fc fa fw http2 listen serverTLS cw0 cw raws. unfold WmServer.startMTLSServer, Mtls.LoadServerConfig.
    destruct (negb _); [done|]. destruct (String.eqb _ ""); [done|]. destruct (Mtls.NewCertWatcher _ _ _ _ _ _ _); [|done].
    destruct http2; [done|]. destruct listen; [done|]. intros [= <- _]. split_and!; [done..|]. cbn. unfold Mtls.verifyClientCert.
    destruct (Mtls.verify_chain _ _ _ _) as [x|] eqn:Hv; [|done]. apply verify_chain_pool in Hv as (raw & rest & pool & inter & Hx).
    by exists raw, rest, x, inter, pool.
  - intros Hv Hany. apply (manager_mtls rc jm). revert Hv Hany. unfold WmServer.validateMTLSFlags. rewrite allFiles_spec.
    destruct (String.eqb_spec (Mtls.CertFile rc) ""), (String.eqb_spec (Mtls.KeyFile rc) ""), (String.eqb_spec (Mtls.CAFile rc) "");
      cbn; naive_solver.
Qed.

Definition flags_mtls : WmServer.Flags :=
  {| WmServer.f_port := "8080"; WmServer.f_runtimeClassName := "kuasar-vmm"; WmServer.f_enableTLS := true;
     WmServer.f_tlsCert := "/tls/cert"; WmServer.f_tlsKey := "/tls/key"; WmServer.f_tlsCA := "/tls/ca";
     WmServer.f_enableAuth := false |}.

Lemma tls_no_downgrade_witness :
  (exists l, WmServer.Start_mode (WmServer.configOf flags_mtls) = Ok l /\ exists addr cfg, l = WmServer.MTLS addr cfg) /\
  exists m t cw, Session.NewSessionManager (H := MtlsModel.cert_io) (X510 := MtlsModel.x509) (fun x => if String.eqb x "WORKLOAD_MANAGER_URL" then "http://workloadmanager:8080" else "")
      (Some MtlsModel.paths) (fun l => l) MtlsModel.files0 MtlsModel.files0 MtlsModel.files0 None
      (None : option (RouterJwt.JWTManager nat nat)) = (Ok (m, t), cw) /\
    Session.workloadMgrAddr m = "https://workloadmanager:8080" /\ Strs.HasPrefix (Session.workloadMgrAddr m) "https://" = true.
Proof.
  destruct (tls_no_downgrade (CIO := MtlsModel.cert_io) (X510 := MtlsModel.x509) flags_mtls MtlsModel.paths
    (None : option (RouterJwt.JWTManager nat nat))) as (H1 & _ & H3).
  split.
  - destruct (H1 eq_refl) as (l & Hl & Hca & _). exists l. split; [exact Hl|]. apply Hca. discriminate.
  - match goal with |- exists m t cw, ?f = _ /\ _ => destruct f as [[[m t]|e] cw] eqn:Hn; [|vm_compute in Hn; discriminate Hn] end.
    exists m, t, cw. split; [reflexivity|]. split.
    + vm_compute in Hn. injection Hn as <- _ _. reflexivity.
    + exact (proj1 (H3 eq_refl ltac:(left; discriminate) _ _ _ _ _ _ _ _ _ Hn)).
Defined.
