(* ===== verification/Lifecycle.v ===== *)
(** * Starting and stopping the workload manager

    [cmd/workload-manager/main.go] with [Start], [Shutdown],
    [WaitForBackgroundWorkers] and [CloseStore] of
    [pkg/workloadmanager/server.go]. Five kinds of threads take turns: [main],
    the goroutine that runs [Start], the garbage collector it spawns, the
    requests, and the controller manager, whose failure is fatal; a step of any of them is one step of the transition system. *)

From stdpp Require Import base list.
From S2P Require Import Prelude.

Module Lifecycle.

(** [main], from the select to its end *)
Inductive main_pc := Selecting | ShuttingDown | Cancelling | Joining | Closing | Stopped.
(** The goroutine that runs [Start] *)
Inductive start_pc := Syncing | Pinging | Building | Spawning | Binding | Listening | Returned.
(** The garbage collector: between two ticks, or in [once] *)
Inductive gc_pc := Absent | Idle | Collecting | Exited.

Record state := {
  main : main_pc;
  start : start_pc;
  gc : gc_pc;
  wg : nat;               (* s.wg *)
  httpServer : bool;      (* s.httpServer is set *)
  closed : bool;          (* httpServer.Shutdown was called *)
  inflight : nat;         (* requests being handled *)
  ctxDone : bool;         (* the root context is cancelled *)
  storeOpen : bool;
  timedOut : bool;        (* Shutdown gave up on requests in flight *)
  early : bool;           (* the signal came before the listener was up *)
  mtls : bool;            (* the listener is configured for mutual TLS *)
  watching : bool;        (* s.certWatcher is running *)
  alive : bool;           (* klog.Fatalf has not ended the process *)
}.

Definition init (withMTLS : bool) : state :=
  {| main := Selecting; start := Syncing; gc := Absent; wg := 0; httpServer := false; closed := false;
     inflight := 0; ctxDone := false; storeOpen := true; timedOut := false; early := false;
     mtls := withMTLS; watching := false; alive := true |}.

Definition set_main m s := {| main := m; start := start s; gc := gc s; wg := wg s; httpServer := httpServer s;
  closed := closed s; inflight := inflight s; ctxDone := ctxDone s; storeOpen := storeOpen s;
  timedOut := timedOut s; early := early s; mtls := mtls s; watching := watching s; alive := alive s |}.
Definition set_start p s := {| main := main s; start := p; gc := gc s; wg := wg s; httpServer := httpServer s;
  closed := closed s; inflight := inflight s; ctxDone := ctxDone s; storeOpen := storeOpen s;
  timedOut := timedOut s; early := early s; mtls := mtls s; watching := watching s; alive := alive s |}.
Definition set_gc p n s := {| main := main s; start := start s; gc := p; wg := n; httpServer := httpServer s;
  closed := closed s; inflight := inflight s; ctxDone := ctxDone s; storeOpen := storeOpen s;
  timedOut := timedOut s; early := early s; mtls := mtls s; watching := watching s; alive := alive s |}.
Definition set_http b s := {| main := main s; start := start s; gc := gc s; wg := wg s; httpServer := b;
  closed := closed s; inflight := inflight s; ctxDone := ctxDone s; storeOpen := storeOpen s;
  timedOut := timedOut s; early := early s; mtls := mtls s; watching := watching s; alive := alive s |}.
Definition set_closed b s := {| main := main s; start := start s; gc := gc s; wg := wg s; httpServer := httpServer s;
  closed := b; inflight := inflight s; ctxDone := ctxDone s; storeOpen := storeOpen s;
  timedOut := timedOut s; early := early s; mtls := mtls s; watching := watching s; alive := alive s |}.
Definition set_inflight n s := {| main := main s; start := start s; gc := gc s; wg := wg s; httpServer := httpServer s;
  closed := closed s; inflight := n; ctxDone := ctxDone s; storeOpen := storeOpen s;
  timedOut := timedOut s; early := early s; mtls := mtls s; watching := watching s; alive := alive s |}.
Definition set_ctxDone b s := {| main := main s; start := start s; gc := gc s; wg := wg s; httpServer := httpServer s;
  closed := closed s; inflight := inflight s; ctxDone := b; storeOpen := storeOpen s;
  timedOut := timedOut s; early := early s; mtls := mtls s; watching := watching s; alive := alive s |}.
Definition set_storeOpen b s := {| main := main s; start := start s; gc := gc s; wg := wg s; httpServer := httpServer s;
  closed := closed s; inflight := inflight s; ctxDone := ctxDone s; storeOpen := b;
  timedOut := timedOut s; early := early s; mtls := mtls s; watching := watching s; alive := alive s |}.
Definition set_timedOut b s := {| main := main s; start := start s; gc := gc s; wg := wg s; httpServer := httpServer s;
  closed := closed s; inflight := inflight s; ctxDone := ctxDone s; storeOpen := storeOpen s;
  timedOut := b; early := early s; mtls := mtls s; watching := watching s; alive := alive s |}.
Definition set_early b s := {| main := main s; start := start s; gc := gc s; wg := wg s; httpServer := httpServer s;
  closed := closed s; inflight := inflight s; ctxDone := ctxDone s; storeOpen := storeOpen s;
  timedOut := timedOut s; early := b; mtls := mtls s; watching := watching s; alive := alive s |}.
Definition set_watching b s := {| main := main s; start := start s; gc := gc s; wg := wg s; httpServer := httpServer s;
  closed := closed s; inflight := inflight s; ctxDone := ctxDone s; storeOpen := storeOpen s;
  timedOut := timedOut s; early := early s; mtls := mtls s; watching := b; alive := alive s |}.
Definition die s := {| main := main s; start := start s; gc := gc s; wg := wg s; httpServer := httpServer s;
  closed := closed s; inflight := inflight s; ctxDone := ctxDone s; storeOpen := storeOpen s;
  timedOut := timedOut s; early := early s; mtls := mtls s; watching := watching s; alive := false |}.

(** One step of each thread; [None] when it cannot move. *)

Inductive action :=
  | Begin (ok : bool)   (* Start: the next part of start-up, and whether it succeeds *)
  | Arrive | Finish     (* a request *)
  | Tick | Swept | Quit (* the garbage collector *)
  | Signal | Drained | Deadline | Cancel | Wait | Close | Fatal  (* main *)
  | ManagerError.       (* the controller manager *)

(** The parts of [Start], in order: caches, store, the [http.Server] value, the
    goroutine of the collector, the listener. A failure returns. *)
Definition Start (ok : bool) (s : state) : option state :=
  match start s with
  | Syncing => Some (set_start (if ok then Pinging else Returned) s)
  | Pinging => Some (set_start (if ok then Building else Returned) s)
  | Building => Some (set_start Spawning (set_http true s))
  | Spawning => Some (set_start Binding (set_gc Idle (S (wg s)) s))
  | Binding =>
      let s := set_watching (mtls s && ok) s in
      Some (set_start (if ok && negb (closed s) then Listening else Returned) s)
  | Listening => if closed s then Some (set_start Returned s) else None
  | Returned => None
  end.

(** [run]: the select between the ticker and the stop channel *)
Definition gc_step (a : action) (s : state) : option state :=
  match a, gc s with
  | Tick, Idle => Some (set_gc Collecting (wg s) s)
  | Swept, Collecting => Some (set_gc Idle (wg s) s)
  | Quit, Idle => if ctxDone s then Some (set_gc Exited (pred (wg s)) s) else None
  | _, _ => None
  end.

(** [Shutdown]: the listener is closed at once; then it returns when no request
    is left, after stopping the certificate watcher, or with the error of its
    context. *)
Definition Shutdown (s : state) : state :=
  if httpServer s then set_main ShuttingDown (set_closed true s) else set_main Cancelling (set_watching false s).

Definition Shutdown_drained (s : state) : option state :=
  if decide (inflight s = 0%nat) then Some (set_main Cancelling (set_watching false s)) else None.

Definition Shutdown_deadline (s : state) : state := set_main Cancelling (set_timedOut true s).

Definition WaitForBackgroundWorkers (s : state) : option state :=
  if decide (wg s = 0%nat) then Some (set_main Closing s) else None.

Definition CloseStore (s : state) : state := set_main Stopped (set_storeOpen false s).

Definition note_early (s : state) : state :=
  set_early (match start s with Listening => false | _ => true end) s.

(** [main] from its select on. [Start] returns before a signal only with an
    error, which is fatal. *)
Definition main_step (a : action) (s : state) : option state :=
  match a, main s with
  | Signal, Selecting => Some (Shutdown (note_early s))
  | Fatal, Selecting => match start s with Returned => Some (die s) | _ => None end
  | Drained, ShuttingDown => Shutdown_drained s
  | Deadline, ShuttingDown => Some (Shutdown_deadline s)
  | Cancel, Cancelling => Some (set_main Joining (set_ctxDone true s))
  | Wait, Joining => WaitForBackgroundWorkers s
  | Close, Closing => Some (CloseStore s)
  | _, _ => None
  end.

Definition act (a : action) (s : state) : option state :=
  if negb (alive s) then None
  else
    match a with
    | Begin ok => Start ok s
    | Arrive => match start s with
                | Listening => if closed s then None else Some (set_inflight (S (inflight s)) s)
                | _ => None
                end
    | Finish => match inflight s with O => None | S n => Some (set_inflight n s) end
    | Tick | Swept | Quit => gc_step a s
    | ManagerError => Some (die s)
    | _ => main_step a s
    end.

Fixpoint acts (l : list action) (s : state) : option state :=
  match l with
  | [] => Some s
  | a :: l => match act a s with Some s => acts l s | None => None end
  end.

(** Threads that may still use the store. *)
Definition uses_store (s : state) : Prop :=
  gc s = Idle \/ gc s = Collecting \/ inflight s <> 0%nat.

End Lifecycle.
