(* ===== verification/LifecycleTheorems.v ===== *)
(** * Properties of the shutdown of the workload manager *)

From stdpp Require Import base list.
From S2P Require Import Prelude Lifecycle.
Import Lifecycle.

Definition passed_listener (s : state) : Prop := start s = Listening \/ start s = Returned.

(** The collector is counted while it runs; main's position says what has
    happened. *)
Record inv (s : state) : Prop := {
  lc_wg : wg s = match gc s with Idle | Collecting => 1%nat | _ => 0%nat end;
  lc_spawn : match start s with
              | Binding | Listening => gc s <> Absent
              | Returned => True
              | Spawning => gc s = Absent /\ httpServer s = true
              | _ => gc s = Absent
              end;
  lc_http : gc s <> Absent -> httpServer s = true;
  lc_main : match main s with
             | Selecting => closed s = false /\ early s = false
             | ShuttingDown => httpServer s = true /\ closed s = true
             | _ => early s = false -> closed s = true
             end;
  lc_early : main s <> Selecting -> early s = false ->
              gc s <> Absent /\ passed_listener s;
  lc_drained : match main s with Selecting | ShuttingDown => True
                | _ => early s = false -> timedOut s = false -> inflight s = 0%nat /\ watching s = false end;
  lc_ctx : match main s with Joining | Closing | Stopped => ctxDone s = true | _ => True end;
  lc_joined : match main s with Closing | Stopped => early s = false -> gc s = Exited | _ => True end;
  lc_store : storeOpen s = false -> main s = Stopped;
}.

Lemma lc_init b : inv (init b).
Proof. split; cbn; try done. Qed.

(** Case analysis that keeps the invariant's clauses usable. *)
Ltac by_clauses :=
  split; unfold passed_listener in *; cbn in *;
  repeat match goal with E : ?f _ = _, H : context [match ?f _ with _ => _ end] |- _ => rewrite E in H end;
  repeat match goal with E : ?f _ = _ |- context [match ?f _ with _ => _ end] => rewrite E end;
  try done; repeat case_match; intuition congruence.

Lemma lc_Start ok s s' : inv s -> Start ok s = Some s' -> inv s'.
Proof.
  intros [H1 H2 H3 H4 H5 H6 H7 H8 H9] Ha. unfold Start in Ha.
  destruct (start s) eqn:E; repeat case_match; simplify_eq; by_clauses.
Qed.

Lemma lc_gc a s s' : inv s -> gc_step a s = Some s' -> inv s'.
Proof.
  intros [H1 H2 H3 H4 H5 H6 H7 H8 H9] Ha. unfold gc_step in Ha.
  destruct a, (gc s) eqn:E; simplify_eq; [| |destruct (ctxDone s) eqn:Ex; simplify_eq; rewrite H1];
    by_clauses.
Qed.

Lemma lc_main_step a s s' : inv s -> main_step a s = Some s' -> inv s'.
Proof.
  intros [H1 H2 H3 H4 H5 H6 H7 H8 H9] Ha.
  unfold main_step, Shutdown, Shutdown_drained, Shutdown_deadline, WaitForBackgroundWorkers, CloseStore, note_early in Ha.
  destruct a, (main s) eqn:E; simplify_eq.
  - destruct (start s) eqn:Es, (httpServer s) eqn:Eh; cbn in *; rewrite Eh; by_clauses.
  - destruct (decide _); simplify_eq. by_clauses.
  - by_clauses.
  - by_clauses.
  - destruct (decide _); simplify_eq. by_clauses.
  - by_clauses.
  - destruct (start s) eqn:Es; simplify_eq. by_clauses.
Qed.

Lemma lc_act a s s' : inv s -> act a s = Some s' -> inv s'.
Proof.
  intros Hi Ha. unfold act in Ha. destruct (alive s); [|done]. cbn [negb] in Ha.
  destruct a; try (by apply (lc_Start ok s)); try (by eapply lc_gc); try (by eapply lc_main_step).
  all: destruct Hi as [H1 H2 H3 H4 H5 H6 H7 H8 H9].
  - destruct (start s) eqn:E; try done. destruct (closed s) eqn:Ec; [done|]. injection Ha as <-. by_clauses.
  - destruct (inflight s) eqn:E; [done|]. injection Ha as <-. by_clauses.
  - injection Ha as <-. by split.
Qed.

Lemma lc_acts l s s' : inv s -> acts l s = Some s' -> inv s'.
Proof.
  revert s. induction l as [|a l IH]; intros s Hi; cbn; [by intros [= <-]|].
  destruct (act a s) as [s1|] eqn:Ha; [|done]. by apply IH, (lc_act a s).
Qed.

(** ** The way out *)

(** The process ends: by its own way through [main], or by a fatal error. *)
Definition can_stop (s : state) : Prop :=
  exists l s', acts l s = Some s' /\ (main s' = Stopped \/ alive s' = false).

Lemma can_stop_step a s s1 : act a s = Some s1 -> can_stop s1 -> can_stop s.
Proof. intros Ha (l & s' & Hl & Hm). exists (a :: l), s'. cbn. by rewrite Ha. Qed.

Lemma act_main a s : alive s = true ->
  match a with Signal | Drained | Deadline | Cancel | Wait | Close | Fatal => act a s = main_step a s | _ => True end.
Proof. intros Hl. unfold act. rewrite Hl. by destruct a. Qed.

Lemma can_stop_joining s : inv s -> alive s = true -> main s = Joining -> can_stop s.
Proof.
  intros [H1 H2 H3 H4 H5 H6 H7 H8 H9] Hl E. rewrite E in *.
  destruct s as [m st g n h c f x o t e b wt al]. cbn in *. subst m x n al. unfold can_stop.
  destruct g; [exists [Wait; Close]|exists [Quit; Wait; Close]
    |exists [Swept; Quit; Wait; Close]|exists [Wait; Close]]; eexists; (split; [done|by left]).
Qed.

Lemma can_stop_cancelling s : inv s -> alive s = true -> main s = Cancelling -> can_stop s.
Proof.
  intros Hi Hl E. assert (act Cancel s = Some (set_main Joining (set_ctxDone true s))) as Ha.
  { rewrite (act_main Cancel s Hl). unfold main_step. by rewrite E. }
  apply (can_stop_step Cancel _ _ Ha), can_stop_joining; [by apply (lc_act Cancel s)|done..].
Qed.

Lemma can_stop_shutting s : inv s -> alive s = true -> main s = ShuttingDown -> can_stop s.
Proof.
  intros Hi Hl E. assert (act Deadline s = Some (Shutdown_deadline s)) as Ha.
  { rewrite (act_main Deadline s Hl). unfold main_step. by rewrite E. }
  apply (can_stop_step Deadline _ _ Ha), can_stop_cancelling; [by apply (lc_act Deadline s)|done..].
Qed.

Lemma can_stop_any s : inv s -> can_stop s.
Proof.
  intros Hi. destruct (alive s) eqn:Hl; [|by exists [], s; split; [|right]]. destruct (main s) eqn:E.
  - assert (act Signal s = Some (Shutdown (note_early s))) as Ha.
    { rewrite (act_main Signal s Hl). unfold main_step. by rewrite E. }
    apply (can_stop_step Signal _ _ Ha). pose proof (lc_act _ _ _ Hi Ha) as Hi1. unfold Shutdown, note_early in *. cbn in *.
    destruct (httpServer s); [by apply can_stop_shutting|by apply can_stop_cancelling].
  - by apply can_stop_shutting.
  - by apply can_stop_cancelling.
  - by apply can_stop_joining.
  - exists [Close]. eexists. cbn. unfold act, main_step. rewrite Hl, E. split; [reflexivity|by left].
  - exists [], s. by split; [|left].
Qed.


(** A request in flight delays the drain; then everything stops in order. *)
Definition orderly : list action :=
  [Begin true; Begin true; Begin true; Begin true; Begin true; Arrive; Tick; Signal; Finish; Drained; Swept; Cancel; Quit;
   Wait; Close].

