(* ===== verification/ServerMain.v ===== *)
(** * Starting and stopping the router and PicoD

    [cmd/router/main.go] with [Start] of [pkg/router/server.go], and
    [cmd/picod/main.go] with [Start] of [pkg/picod/server.go], which have the
    same shape: [main] starts a goroutine that runs [Start]; [Start] starts a
    goroutine that waits for the context and then shuts the [http.Server] down,
    and itself serves until the listener is closed. As [net/http] documents,
    [ListenAndServe] returns as soon as [Shutdown] is called, not when it
    returns. Also the command lines, with the way of the workload manager to its
    threads ([cmd/workload-manager/main.go]). *)

From stdpp Require Import base list strings.
From S2P Require Import Prelude GoStrings GoTime GoError Cluster WmHandlers RouterHandlers Mtls WmServer PicodServer.

Module ServerMain.

(** [main]: in the select; waiting for [errCh] after the signal; returned;
    ended by [klog.Fatalf] *)
Inductive main_pc := Selecting | Waiting | Exited | Fatal.
(** The goroutine of [Start] *)
Inductive start_pc := Preparing | Listening | Returned.
(** The goroutine [Start] spawns: at [<-ctx.Done()], in [Shutdown], finished *)
Inductive stopper_pc := Unborn | Blocked | Draining | Finished.

Record state := {
  main : main_pc;
  start : start_pc;
  stopper : stopper_pc;
  signalled : bool;        (* the context of signal.NotifyContext is done *)
  closed : bool;           (* Shutdown was called *)
  inflight : nat;          (* requests being handled *)
  errCh : bool * bool;     (* an error was sent; the channel is closed *)
  expired : bool;          (* the ten seconds of Shutdown have passed *)
  mtlsOpen : bool;         (* the session manager's certificate watcher runs *)
}.

Definition init (mtls : bool) : state :=
  {| main := Selecting; start := Preparing; stopper := Unborn; signalled := false; closed := false; inflight := 0;
     errCh := (false, false); expired := false; mtlsOpen := mtls |}.

Definition set_main m s := {| main := m; start := start s; stopper := stopper s; signalled := signalled s; closed := closed s;
  inflight := inflight s; errCh := errCh s; expired := expired s; mtlsOpen := mtlsOpen s |}.
Definition set_start p e s := {| main := main s; start := p; stopper := stopper s; signalled := signalled s; closed := closed s;
  inflight := inflight s; errCh := e; expired := expired s; mtlsOpen := mtlsOpen s |}.
Definition set_stopper p s := {| main := main s; start := start s; stopper := p; signalled := signalled s; closed := closed s;
  inflight := inflight s; errCh := errCh s; expired := expired s; mtlsOpen := mtlsOpen s |}.
Definition set_signalled s := {| main := main s; start := start s; stopper := stopper s; signalled := true; closed := closed s;
  inflight := inflight s; errCh := errCh s; expired := expired s; mtlsOpen := mtlsOpen s |}.
Definition set_closed s := {| main := main s; start := start s; stopper := stopper s; signalled := signalled s; closed := true;
  inflight := inflight s; errCh := errCh s; expired := expired s; mtlsOpen := mtlsOpen s |}.
Definition set_inflight n s := {| main := main s; start := start s; stopper := stopper s; signalled := signalled s; closed := closed s;
  inflight := n; errCh := errCh s; expired := expired s; mtlsOpen := mtlsOpen s |}.
Definition finish (x : bool) s := {| main := main s; start := start s; stopper := Finished; signalled := signalled s; closed := closed s;
  inflight := inflight s; errCh := errCh s; expired := x; mtlsOpen := false |}.

Inductive action :=
  | Begin                 (* Start: up to the listener *)
  | Serve (ok : bool)     (* Start: ListenAndServe returns; [ok] is false for an error of its own *)
  | Arrive | Finish_      (* a request *)
  | Sig                   (* the operating system *)
  | StopperWakes | StopperDrained | StopperDeadline
  | MainSignal | MainErr | MainJoin.

(** [Start] in its goroutine, with the send on and the closing of [errCh] that
    [main] wraps around it. *)
Definition Start (a : action) (s : state) : option state :=
  match a, start s with
  | Begin, Preparing => Some (set_start Listening (errCh s) (set_stopper Blocked s))
  | Serve false, Listening => Some (set_start Returned (true, true) s)
  | Serve true, Listening => if closed s then Some (set_start Returned (false, true) s) else None
  | _, _ => None
  end.

(** The goroutine that [Start] spawns; the session manager is closed after
    [Shutdown] returned, with or without an error. *)
Definition stop_goroutine (a : action) (s : state) : option state :=
  match a, stopper s with
  | StopperWakes, Blocked => if signalled s then Some (set_stopper Draining (set_closed s)) else None
  | StopperDrained, Draining => if decide (inflight s = 0%nat) then Some (finish false s) else None
  | StopperDeadline, Draining => Some (finish true s)
  | _, _ => None
  end.

(** [main] from its select on: a ready case is chosen; a receive from [errCh]
    is ready when an error was sent or the channel is closed. *)
Definition main_step (a : action) (s : state) : option state :=
  match a, main s with
  | MainSignal, Selecting => if signalled s then Some (set_main Waiting s) else None
  | MainErr, Selecting => if (errCh s).1 || (errCh s).2 then Some (set_main Fatal s) else None
  | MainJoin, Waiting => if (errCh s).1 || (errCh s).2 then Some (set_main Exited s) else None
  | _, _ => None
  end.

(** The process: nothing moves once [main] has ended. *)
Definition act (a : action) (s : state) : option state :=
  match main s with
  | Exited | Fatal => None
  | _ =>
      match a with
      | Begin | Serve _ => Start a s
      | Arrive => match start s with
                  | Listening => if closed s then None else Some (set_inflight (S (inflight s)) s)
                  | _ => None
                  end
      | Finish_ => match inflight s with O => None | S n => Some (set_inflight n s) end
      | Sig => Some (set_signalled s)
      | StopperWakes | StopperDrained | StopperDeadline => stop_goroutine a s
      | MainSignal | MainErr | MainJoin => main_step a s
      end
  end.

Fixpoint acts (l : list action) (s : state) : option state :=
  match l with
  | [] => Some s
  | a :: l => match act a s with Some s => acts l s | None => None end
  end.

(** PicoD has no session manager to close: its process is the same system
    from this state. *)
Definition picod_init : state := init false.
Definition picod_Start (a : action) (s : state) : option state :=
  match a with
  | Begin | Serve _ => Start a s
  | _ => stop_goroutine a s
  end.
Definition picod_main (a : action) (s : state) : option state := main_step a s.

End ServerMain.

(** ** The command line of the router *)

Module RouterMain.

Record Flags := {
  f_port : string; f_enableTLS : bool; f_tlsCert : string; f_tlsKey : string; f_debug : bool;
  f_maxConcurrentRequests : Z; f_mtlsCert : string; f_mtlsKey : string; f_mtlsCA : string;
  f_jwtIssuerURL : string; f_jwtAudience : string; f_jwtRoleClaim : string; f_jwtRequiredRole : string;
}.

(** The values without any flag. *)
Definition defaultFlags : Flags :=
  {| f_port := "8080"; f_enableTLS := false; f_tlsCert := ""; f_tlsKey := ""; f_debug := false;
     f_maxConcurrentRequests := 1000; f_mtlsCert := ""; f_mtlsKey := ""; f_mtlsCA := "";
     f_jwtIssuerURL := ""; f_jwtAudience := "agentcube-api"; f_jwtRoleClaim := ""; f_jwtRequiredRole := "" |}.

Definition tlsConfig (f : Flags) : Mtls.Config :=
  {| Mtls.CertFile := f_mtlsCert f; Mtls.KeyFile := f_mtlsKey f; Mtls.CAFile := f_mtlsCA f |}.

(** Fields the literal leaves out are zero. *)
Definition configOf (f : Flags) : Router.Config :=
  {| Router.Port := f_port f; Router.Debug := f_debug f; Router.EnableTLS := f_enableTLS f; Router.TLSCert := f_tlsCert f;
     Router.TLSKey := f_tlsKey f; Router.MaxConcurrentRequests := f_maxConcurrentRequests f;
     Router.InitialConnectRetryCount := 0; Router.InitialConnectRetryInterval := 0; Router.MTLSConfig := tlsConfig f;
     Router.JWTIssuerURL := f_jwtIssuerURL f; Router.JWTAudience := f_jwtAudience f;
     Router.JWTRoleClaim := f_jwtRoleClaim f; Router.JWTRequiredRole := f_jwtRequiredRole f |}.

(** [main] up to the configuration of the server; [Err] is [klog.Fatalf]. *)
Definition main_config {W} `{!Env W} `{!Mtls.Disk W} (f : Flags) (w : W)
    : option (res Router.Config) * W :=
  match WmServer.validateMTLSFlags (tlsConfig f) with
  | Some e => (Some (Err (Wrapf "Invalid mTLS configuration" e)), w)
  | None =>
      if WmServer.allFiles (tlsConfig f) then
        let '(r, w) := Mtls.WaitForCertificateFiles (tlsConfig f) Mtls.DefaultCertificateFileWaitTimeout w in
        match r with
        | None => (None, w)
        | Some (Some e) => (Some (Err (Wrapf "Invalid mTLS configuration" e)), w)
        | Some None => (Some (Ok (configOf f)), w)
        end
      else (Some (Ok (configOf f)), w)
  end.

End RouterMain.

(** ** The command line of PicoD *)

Module PicodMain.

Record Flags := { f_port : Z; f_workspace : string }.

Definition configOf (f : Flags) : PicoServer.Config :=
  {| PicoServer.Port := f_port f; PicoServer.Workspace := f_workspace f |}.

End PicodMain.

(** ** The workload manager up to its threads *)

Module WmMain.

Definition defaultFlags : WmServer.Flags :=
  {| WmServer.f_port := "8080"; WmServer.f_runtimeClassName := "kuasar-vmm"; WmServer.f_enableTLS := false;
     WmServer.f_tlsCert := ""; WmServer.f_tlsKey := ""; WmServer.f_tlsCA := ""; WmServer.f_enableAuth := false |}.

(** A controller as the builder of controller-runtime registers it: the kind it
    watches, whether updates of the status alone are filtered out, and the
    reconciler it calls, an object with an identity. *)
Record controller := { c_for : string; c_generationChanged : bool; c_reconciler : nat }.

(** [ctrl.NewManager] and [Complete] of a controller's builder. *)
Class Manager (M : Type) := {
  NewManager : res M;
  Complete : controller -> M -> option goerr * M;
}.

Section boot.
Context {M : Type} `{!Manager M}.

(** Of [CodeInterpreterReconciler] *)
Definition SetupWithManager (reconciler : nat) (mgr : M) : option goerr * M :=
  Complete {| c_for := "CodeInterpreter"; c_generationChanged := true; c_reconciler := reconciler |} mgr.

Definition setupControllers (mgr : M) (sandboxReconciler codeInterpreterReconciler : nat) : option goerr * M :=
  let '(err, mgr) := Complete {| c_for := "Sandbox"; c_generationChanged := false; c_reconciler := sandboxReconciler |} mgr in
  match err with
  | Some e => (Some (Wrapf "unable to create sandbox controller" e), mgr)
  | None =>
      let '(err, mgr) := SetupWithManager codeInterpreterReconciler mgr in
      match err with
      | Some e => (Some (Wrapf "unable to create codeinterpreter controller" e), mgr)
      | None => (None, mgr)
      end
  end.

(** How [main] ends, or the threads it starts with: the manager, and the server
    with the reconciler whose watchers it uses. *)
Inductive boot (D : Type) :=
  | Exit (e : goerr)
  | Running (mgr : M) (config : WmServer.Config) (server : Wm.Srv D) (sandboxController : nat).
Arguments Exit {D}. Arguments Running {D}.

(** [k8s] is the outcome of [NewK8sClient] in [NewServer]; the two reconcilers
    are the objects 1 and 2. *)
Definition main {D W} `{!Env W} `{!Mtls.Disk W} (f : WmServer.Flags) (k8s : option goerr) (w : W) : option (boot D) * W :=
  let '(r, w) := WmServer.main_config f w in
  match r with
  | None => (None, w)
  | Some (Err e) => (Some (Exit e), w)
  | Some (Ok config) =>
      match NewManager with
      | Err e => (Some (Exit (Wrapf "unable to start manager" e)), w)
      | Ok mgr =>
          let sandboxReconciler := 1%nat in
          let codeInterpreterReconciler := 2%nat in
          match setupControllers mgr sandboxReconciler codeInterpreterReconciler with
          | (Some e, _) => (Some (Exit (Wrapf "unable to setup controllers" e)), w)
          | (None, mgr) =>
              match WmServer.NewServer (Some config) k8s with
              | Err e => (Some (Exit (Wrapf "Failed to create API server" e)), w)
              | Ok (config, server) => (Some (Running mgr config server sandboxReconciler), w)
              end
          end
      end
  end.

End boot.
Arguments Exit {M D}. Arguments Running {M D}.
End WmMain.
