(* ===== verification/ServerMainTheorems.v ===== *)
(** * Properties of the mains *)

From stdpp Require Import base list strings.
From S2P Require Import Prelude GoStrings GoTime GoError GoContext Cluster WmAuth WmHandlers RouterAuth RouterJwt RouterSession RouterHandlers RouterServer Mtls MtlsTheorems WmServer ServerMain.

(** ** From the command line to the preflight *)

Section preflight.
Context {P K W F X Pool Cert : Type} `{!KeyPairs P K} `{!KeyFormats K} `{!RouterJwt.Secrets W} `{!Env W} `{!Upstream W} `{!Mtls.Disk W}.
Context `{!Mtls.CertIO F Pool Cert} `{!X509 X Pool Cert}.
Context {UL : UrlLib} {AE : ApiErrors}.

Lemma NewServer_config (b : RouterServer.boot P F) cfg (w0 w1 : W) (s : Router.Server P K) :
  RouterServer.NewServer b (Some cfg) w0 = (Ok s, w1) -> Router.config s = RouterServer.applyDefaults cfg.
Proof.
  unfold RouterServer.NewServer. intros Hn. repeat (split_match_in Hn; try done). by simplify_eq.
Qed.

(** The router as it is shipped tries to reach a sandbox once: no flag sets the
    number of preflight retries, so the server runs with zero of them, and the
    preflight is a single dial with a timeout of 200 milliseconds. *)
Theorem preflight_single_dial (f : RouterMain.Flags) (w w' : W) cfg (b : RouterServer.boot P F) (w0 w1 : W) (s : Router.Server P K) :
  RouterMain.main_config f w = (Some (Ok cfg), w') ->
  RouterServer.NewServer b (Some cfg) w0 = (Ok s, w1) ->
  Router.InitialConnectRetryCount (Router.config s) = 0 /\
  forall ctx u (x : W), Router.preflightTargetAddress u <> "" ->
    Router.waitForUpstreamReachable (Router.config s) ctx u x =
      let '(e, x') := DialContext ctx (200 * Tm.Millisecond) (Router.preflightTargetAddress u) x in
      (match e with Some e => Some (Wrapf "sandbox preflight connect failed" e) | None => None end, x').
Proof.
  intros Hm Hn. apply NewServer_config in Hn as ->.
  assert (cfg = RouterMain.configOf f) as ->.
  { revert Hm. unfold RouterMain.main_config. destruct (WmServer.validateMTLSFlags _); [done|].
    destruct (WmServer.allFiles _); [|congruence]. destruct (Mtls.WaitForCertificateFiles _ _ w) as [[[e|]|] w2]; congruence. }
  split; [done|]. intros ctx u x Hu. unfold Router.waitForUpstreamReachable. rewrite (proj2 (String.eqb_neq _ _) Hu).
  change (Z.to_nat _) with 1%nat. cbn [Router.preflight_loop].
  change (if 0 <? _ then _ else _) with (200 * Tm.Millisecond).
  destruct (DialContext ctx _ _ x) as [[e|] x']; [|done]. by rewrite orb_true_r.
Qed.

End preflight.

Import ServerMain.

(** What has happened when [main] has come to a certain point. *)
Record ordered (s : state) : Prop := {
  ord_err : (errCh s).1 = true \/ (errCh s).2 = true -> start s = Returned;
  ord_chan : (errCh s).1 = true -> (errCh s).2 = true;
  ord_closed : closed s = true -> signalled s = true;
  ord_returned : start s = Returned -> (errCh s).1 = false -> closed s = true;
  ord_main : main s = Waiting \/ main s = Exited -> signalled s = true;
  ord_end : main s = Exited \/ main s = Fatal -> start s = Returned;
}.

Lemma ordered_init b : ordered (init b).
Proof. split; cbn; naive_solver. Qed.

Lemma ordered_Start a s s' : ordered s -> Start a s = Some s' -> ordered s'.
Proof.
  intros [H1 H2 H3 H4 H5 H6] Ha. unfold Start in Ha.
  destruct a as [|[]| | | | | | | | |], (start s) eqn:E; try done; try (destruct (closed s) eqn:Ec; [|done]); simplify_eq;
    split; cbn in *; intuition congruence.
Qed.

Lemma ordered_stop a s s' : ordered s -> stop_goroutine a s = Some s' -> ordered s'.
Proof.
  intros [H1 H2 H3 H4 H5 H6] Ha. unfold stop_goroutine in Ha.
  destruct a, (stopper s) eqn:E; try done; [destruct (signalled s) eqn:Es; [|done]|destruct (decide _); [|done]|];
    simplify_eq; split; cbn in *; intuition congruence.
Qed.

Lemma ordered_main a s s' : ordered s -> main_step a s = Some s' -> ordered s'.
Proof.
  intros [H1 H2 H3 H4 H5 H6] Ha. unfold main_step in Ha.
  destruct a, (main s) eqn:E; try done; [destruct (signalled s) eqn:Es; [|done]|..];
    try (destruct (_ || _) eqn:Ee; [apply orb_true_iff in Ee|done]); simplify_eq; split; cbn in *; intuition congruence.
Qed.

Lemma ordered_act a s s' : ordered s -> act a s = Some s' -> ordered s'.
Proof.
  intros Hs Ha. assert (match main s with Exited | Fatal => False | _ => True end) as Hm.
  { unfold act in Ha. by destruct (main s). }
  assert (forall o, match main s with Exited | Fatal => None | _ => o end = Some s' -> o = Some s') as Hx by (by destruct (main s)).
  apply Hx in Ha. clear Hx Hm. destruct a; try (by eapply ordered_Start); try (by eapply ordered_stop); try (by eapply ordered_main).
  all: destruct Hs as [H1 H2 H3 H4 H5 H6].
  - destruct (start s) eqn:E; try done. destruct (closed s) eqn:Ec; [done|]. simplify_eq. split; cbn in *; intuition congruence.
  - destruct (inflight s); [done|]. simplify_eq. split; cbn in *; intuition congruence.
  - simplify_eq. split; cbn in *; intuition congruence.
Qed.

Lemma ordered_acts l s s' : ordered s -> acts l s = Some s' -> ordered s'.
Proof.
  revert s. induction l as [|a l IH]; intros s Hs; cbn; [by intros [= <-]|].
  destruct (act a s) as [s1|] eqn:Ha; [|done]. by apply IH, (ordered_act a s).
Qed.

(** A request in flight when the signal comes: [Shutdown] closes the listener,
    [Start] returns, and [main] ends while the drain goes on. *)
Definition hasty (n : nat) : list action :=
  [Begin] ++ replicate n Arrive ++ [Sig; MainSignal; StopperWakes; Serve true; MainJoin].

Lemma run_app l l' s : acts (l ++ l') s = match acts l s with Some s1 => acts l' s1 | None => None end.
Proof. revert s. induction l as [|a l IH]; intros s; cbn; [done|]. by destruct (act a s). Qed.

Lemma acts_arrivals n s :
  main s = Selecting -> start s = Listening -> closed s = false ->
  acts (replicate n Arrive) s = Some (set_inflight (n + inflight s) s).
Proof.
  revert s. induction n as [|n IH]; intros s Hm Hs Hc; cbn [replicate acts].
  - by destruct s.
  - unfold act. rewrite Hm, Hs, Hc. rewrite (IH (set_inflight (S (inflight s)) s)) by done. cbn. f_equal. unfold set_inflight. cbn. f_equal. lia.
Qed.

(** [C34] The end of the router and of PicoD. [main] returns only after a signal
    and after the listener was closed or failed, so no request is accepted
    later. But it does not wait for the requests in flight, although the code
    around it says that it does: for every number of requests there is a run in
    which [main] returns with all of them unfinished, before the ten seconds of
    grace have passed, and with the session manager not closed. And as [errCh]
    is closed when [Start] returns, a signal may also end the process as a
    fatal server error. *)
Theorem exit_cuts_requests (mtls : bool) :
  (forall l s, acts l (init mtls) = Some s -> main s = Exited ->
     signalled s = true /\ start s = Returned /\ (closed s = true \/ (errCh s).1 = true)) /\
  (forall n, exists s, acts (hasty n) (init mtls) = Some s /\ main s = Exited /\ inflight s = n /\
     stopper s = Draining /\ expired s = false /\ mtlsOpen s = mtls) /\
  (exists l s, acts l (init mtls) = Some s /\ main s = Fatal /\ signalled s = true /\ (errCh s).1 = false).
Proof.
  split_and!.
  - intros l s Hl Hm. destruct (ordered_acts _ _ _ (ordered_init mtls) Hl) as [_ _ _ H4 H5 H6].
    split_and!; [auto..|]. destruct (errCh s).1; auto.
  - intros n. unfold hasty. cbn [app acts]. change (act Begin (init mtls)) with
      (Some (set_start Listening (false, false) (set_stopper Blocked (init mtls)))). cbv beta iota.
    rewrite run_app, acts_arrivals by done. eexists. split; [reflexivity|]. cbn. split_and!; try done.
  - exists [Begin; Sig; StopperWakes; Serve true; MainErr]. eexists. by split.
Qed.

(** ** The workload manager *)

(** What controller-runtime promises of a registration. *)
Class ManagerLaws (M : Type) `{!WmMain.Manager M} (controllers : M -> list WmMain.controller) : Prop := {
  NewManager_empty m : WmMain.NewManager = Ok m -> controllers m = [];
  Complete_adds c m m' : WmMain.Complete c m = (None, m') -> controllers m' = controllers m ++ [c];
}.

Section boot.
Context {M D W : Type} `{!WmMain.Manager M} (controllers : M -> list WmMain.controller) `{!ManagerLaws M controllers}.
Context `{!Env W} `{!Mtls.Disk W}.

(** When the threads start, both controllers are registered, and the sandbox
    controller is the one whose watchers the server uses. *)
Theorem boot_wired f k8s (w w' : W) mgr config (server : Wm.Srv D) r :
  WmMain.main f k8s w = (Some (WmMain.Running mgr config server r), w') ->
  controllers mgr = [{| WmMain.c_for := "Sandbox"; WmMain.c_generationChanged := false; WmMain.c_reconciler := r |};
                     {| WmMain.c_for := "CodeInterpreter"; WmMain.c_generationChanged := true; WmMain.c_reconciler := 2 |}] /\
  k8s = None /\ WmServer.NewServer (Some (WmServer.configOf f)) None = Ok (config, server) /\
  WmServer.validateTLSFlags (WmServer.f_enableTLS f) (WmServer.tlsConfig f) = None.
Proof.
  unfold WmMain.main, WmServer.main_config. destruct (WmServer.validateTLSFlags _ _) as [e|] eqn:Hv; [done|].
  set (r0 := if WmServer.allFiles _ then _ else _). assert (forall c w1, r0 = (Some (Ok c), w1) -> c = WmServer.configOf f) as Hc.
  { intros c w1. unfold r0. destruct (WmServer.allFiles _); [|by intros [= <- _]].
    destruct (Mtls.WaitForCertificateFiles _ _ w) as [[[e|]|] w2]; [done|by intros [= <- _]|done]. }
  destruct r0 as [[[c|e]|] w1]; [|done..]. specialize (Hc c w1 eq_refl) as ->.
  destruct WmMain.NewManager as [m0|e] eqn:Hm; [|done]. apply NewManager_empty in Hm. unfold WmMain.setupControllers, WmMain.SetupWithManager.
  destruct (WmMain.Complete _ m0) as [[e|] m1] eqn:H1; [done|]. destruct (WmMain.Complete _ m1) as [[e|] m2] eqn:H2; [done|].
  apply Complete_adds in H1, H2. destruct k8s as [e|]; [done|]. destruct (WmServer.NewServer _ None) as [[c s]|e]; [|done].
  intros [= <- <- <- <- _]. rewrite H2, H1, Hm. done.
Qed.

(** The flag for the runtime class of the sandbox pods has no effect on the server. *)
Theorem runtime_class_unused f g k8s :
  WmServer.f_enableAuth f = WmServer.f_enableAuth g ->
  match WmServer.NewServer (D := D) (Some (WmServer.configOf f)) k8s, WmServer.NewServer (Some (WmServer.configOf g)) k8s with
  | Ok (_, server), Ok (_, server') => server = server'
  | Err e, Err e' => e = e'
  | _, _ => False
  end.
Proof. intros E. unfold WmServer.NewServer. destruct k8s; [done|]. cbn. by rewrite E. Qed.

End boot.
