(* ===== verification/EndToEndTheorems.v ===== *)
(** * The router and the workload manager together

    The router's [http.Client] connected to the routes of the workload manager,
    over one world and one session store. What the network does with a request
    is a parameter. Then what a session is, seen through both. *)

From Stdlib Require Import Ascii.
From stdpp Require Import base list gmap strings.
From S2P Require Import Prelude GoStrings GoTime GoError GoContext GoHttp GoEncoding SandboxTypes StoreSpec StoreRefinement StoreInstances K8sTypes Cluster WorldModel Lru Caches CacheTheorems WmAuth WmAuthTheorems Reconciler WorkloadBuilder K8sClient WmHandlers WmStable WmCreate WmTheorems WmTheorems2 WmTheorems3 RouterAuth RouterJwt JwtModel RouterSession RouterHandlers RouterServer RouterWorld RouterTheorems3 WmServer WmServerTheorems.

(** A request may be lost before it is served, its answer may be lost, or both
    arrive. *)
Inductive delivery := Lost (e : goerr) | AnswerLost (e : goerr) | Delivered.

Class Wire (W : Type) := {
  fate : WmRequest -> W -> delivery;
  (** the context of the request on the serving side *)
  serverCtx : Ctx.Context -> W -> Ctx.Context;
  (** the file with the router's service account token *)
  tokenFile : W -> res string;
}.

(** [encoding/json] on [types.CreateSandboxResponse] and on the error bodies. *)
Class ResponseCodec := {
  response_text : CreateSandboxResponse -> string;
  error_text : string -> string;
  response_parse : string -> res CreateSandboxResponse;
}.

Class ResponseCodecLaws `{!ResponseCodec} : Prop := {
  response_roundtrip r : response_parse (response_text r) = Ok r;
}.

Section system.
Context {D W K : Type} `{!Env W} `{!Cluster D W} `{!Watchers W} `{!Store W}.
Context {AE : ApiErrors} {NE : NetErrors} {JT : JsonText} `{!KeyFormats K} `{!JwtLib K}.
Context `{!Wire W} {RC : ResponseCodec}.

(** The world, and the memory of the workload manager. *)
Definition sys : Type := W * Wm.Srv D.

#[export] Instance sys_env : Env sys := {
  clock x := clock x.1;
  Intn n x := let '(r, w) := Intn n x.1 in (r, (w, x.2));
  NewUUID x := let '(r, w) := NewUUID x.1 in (r, (w, x.2));
  select_timer ctx t x := let '(r, w) := select_timer ctx t x.1 in (r, (w, x.2));
  select_after ctx d x := let '(r, w) := select_after ctx d x.1 in (r, (w, x.2));
  select_ready ch ctx t x := let '(r, w) := select_ready ch ctx t x.1 in (r, (w, x.2));
}.

#[export] Instance sys_store : Store sys := lift_store Store0 fst (fun w x => (w, x.2)).

(** The body of an answer. *)
Definition answer_text (r : Wm.response) : string :=
  match r with
  | Wm.JSON _ (Wm.CreatedBody resp) => response_text resp
  | Wm.JSON _ (Wm.MessageBody _) => error_text ""
  | Wm.ErrorJSON _ msg => error_text msg
  | Wm.NoBody _ | Wm.Panicked => ""
  end.

(** The serving side: the path after the address of the workload manager. *)
Definition serve (addr : string) (ctx : Ctx.Context) (q : WmRequest) (x : sys) : (Z * string) * sys :=
  let r := {| Wm.reqBody := Some (wm_body q); Wm.reqHeader := wm_header q; Wm.reqCtx := serverCtx ctx x.1;
              Wm.reqUser := None |} in
  match WmServer.route (K := K) "POST" (drop 1 (Strs.Split "/"%char (Strs.TrimPrefix (wm_url q) addr))) r x.2 x.1 with
  | Some (resp, s, w) => ((Wm.code_of resp, answer_text resp), (w, s))
  | None => ((StatusNotFound, "404 page not found"), x)
  end.

Definition sys_net (addr : string) : RouterNet sys := {|
  client_Do ctx q x :=
    match fate q x.1 with
    | Lost e => (Err e, x)
    | AnswerLost e => (Err e, (serve addr ctx q x).2)
    | Delivered => let '((code, body), x) := serve addr ctx q x in (Ok (code, Ok body), x)
    end;
  ReadFile_token x := tokenFile x.1;
  parse_response := response_parse;
|}.

End system.
Arguments sys : clear implicits.

(** ** A successful creation, as the handler sees it *)

(** [g'] is [g] with one new session: the record of the response. *)
Record recorded (resp : CreateSandboxResponse) (g g' : registry) : Prop := {
  rec_fresh : sessions g !! CreateResp.SessionID resp = None;
  rec_valid : valid_sid (CreateResp.SessionID resp);
  rec_entry : exists i, sessions g' !! CreateResp.SessionID resp = Some i /\
    Info.OwnerID i = CreateResp.OwnerID resp /\ Info.EntryPoints i = CreateResp.EntryPoints resp /\
    Info.Kind i = CreateResp.Kind resp /\ Info.SessionID i = CreateResp.SessionID resp;
  rec_frame : forall sid, sid <> CreateResp.SessionID resp -> sessions g' !! sid = sessions g !! sid;
}.

Section handler.
Context {D W K : Type} `{!Env W} `{!Cluster D W} `{!Watchers W} `{!Store W}.
Context {AE : ApiErrors} {NE : NetErrors} {JT : JsonText} {SC : SandboxCodec} `{!KeyFormats K} `{!JwtLib K}.
Context (rep : W -> registry -> Prop) `{!StoreExact W rep} {Hst : forall g, Stable D W (fun w => rep w g)}.
Context (Hall : forall i, storable i).
Implicit Types (w : W) (s : Wm.Srv D) (g : registry).

Lemma any_storable : StorableObjects D W (fun _ => True) (fun _ => True).
Proof. by split. Qed.

Lemma create_recorded cfg ctx (d : D) sb claim entry ch w g resp w' :
  rep w g -> fresh_sid (Entry.SessionID entry) g ->
  Wm.createSandbox cfg ctx d sb claim entry ch w = (Ok resp, w') ->
  exists g', rep w' g' /\ recorded resp g g' /\ CreateResp.OwnerID resp = Entry.OwnerID entry.
Proof.
  intros HR Hf Hc.
  destruct (create_registry rep (fun _ => True) (fun _ => True) (StorableObjects0 := any_storable) (Hst := Hst)
    cfg ctx d sb claim entry ch w g (Ok resp) w' HR Hf (Hall _) (fun _ _ _ _ => Hall _) Hc) as (i & -> & Hs & Ho & HR').
  eexists. split; [exact HR'|]. destruct Hf as (Hv & Hn & _). split; [|done].
  split; [done|done| |].
  - exists (Info.persisted i). cbn. rewrite lookup_insert_eq. by split_and!; [|destruct i..].
  - intros sid Hne. cbn in *. rewrite lookup_insert_ne by done. unfold add_session. cbn. rewrite Hn. cbn.
    by rewrite lookup_insert_ne.
Qed.

(** The identifier of the built entry is the UUID drawn at the start. *)
Lemma build_uuid kind key ns n o w sb claim entry w' g :
  rep w g -> Wm.buildSandbox (D := D) kind key ns n o w = (Some (Ok (sb, claim, entry)), w') ->
  rep w' g /\ Entry.SessionID entry = (NewUUID w).1.
Proof.
  intros HR. unfold Wm.buildSandbox, Builder.buildSandboxByAgentRuntime, Builder.buildSandboxByCodeInterpreter.
  assert (forall n w, rep w g -> rep (Builder.RandString n w).2 g) as Hrand.
  { clear -Hst. induction n as [|n IH]; intros w HR; [done|]. cbn [Builder.RandString]. pose proof (stable_Intn (P := fun w => rep w g) 36 w HR) as H1.
    change (Z.of_nat (String.length Builder.letters)) with 36. destruct (Intn 36 w) as [i w1]. cbn in H1. specialize (IH w1 H1).
    revert IH. by destruct (Builder.RandString n w1). }
  pose proof (stable_UUID (P := fun w => rep w g) w HR) as H1.
  destruct (String.eqb kind AgentRuntimeKind).
  - destruct (lister_agentRuntime ns n w) as [ar|e]; [|by destruct (IsNotFound e)].
    destruct (NewUUID w) as [sid w1]. cbn [fst snd] in *. specialize (Hrand 8%nat w1 H1).
    destruct (Builder.RandString 8 w1) as [sfx w2]. destruct (AR.Template (AR.Spec ar)); cbn; by intros [= _ <- <- <-].
  - destruct (lister_codeInterpreter ns n w) as [ci|e]; [|by destruct (IsNotFound e)].
    destruct (_ && _); [done|]. destruct (NewUUID w) as [sid w1]. cbn [fst snd] in *. specialize (Hrand 8%nat w1 H1).
    destruct (Builder.RandString 8 w1) as [sfx w2].
    destruct (match CI.WarmPoolSize _ with Some _ => _ | None => _ end); [by intros [= _ _ <- <-]|].
    destruct (CI.Template _); [by intros [= _ _ <- <-]|done].
Qed.

Lemma handler_recorded r kind s w g resp s' w' :
  rep w g -> fresh_sid (NewUUID w).1 g ->
  Wm.handleSandboxCreate (K := K) r kind s w = (Wm.JSON 200 (Wm.CreatedBody resp), s', w') ->
  exists g', rep w' g' /\ recorded resp g g' /\
    exists msg, Identity.resolveSandboxOwnerID (K := K) (clock w) (Wm.cachedPublicKey s) (Wm.reqHeader r)
      = (CreateResp.OwnerID resp, 0, msg).
Proof.
  intros HR Hfresh. unfold Wm.handleSandboxCreate. destruct (Wm.reqBody r) as [body|]; [|done].
  destruct (CreateReq.Validate _); [done|].
  destruct (Identity.resolveSandboxOwnerID _ _ _) as [[owner code] msg] eqn:Ho.
  destruct (Z.eqb_spec code 0) as [->|]; [|done]. cbn [negb].
  destruct (Wm.buildSandbox _ _ _ _ _ w) as [[[[[sb claim] entry]|e]|] w1] eqn:Hb; [|by destruct (_ || _)|done].
  pose proof (build_owner _ _ _ _ _ _ _ _ _ _ Hb) as Hown.
  destruct (build_uuid _ _ _ _ _ _ _ _ _ _ g HR Hb) as [HR1 Hsid].
  set (entry' := if negb (String.eqb owner "") then _ else _).
  assert (Entry.OwnerID entry' = owner /\ Entry.SessionID entry' = Entry.SessionID entry) as [Hent Hids].
  { unfold entry'. by destruct (String.eqb_spec owner "") as [->|]. }
  destruct (if Wm.EnableAuth s then _ else _) as [[d|e] s1]; [|done].
  assert (rep (match claim with None => let '(ch, w) := WatchSandboxOnce (Namespace (sb_Meta sb)) (Name (sb_Meta sb)) w1 in (Some ch, w)
    | Some _ => (None, w1) end).2 g) as HR2.
  { destruct claim; [done|]. pose proof (stable_watch (P := fun w => rep w g) (Namespace (sb_Meta sb)) (Name (sb_Meta sb)) w1 HR1).
    by destruct (WatchSandboxOnce _ _ w1). }
  destruct (match claim with Some _ => _ | None => _ end) as [ch w2]. cbn in HR2.
  destruct (Wm.createSandbox _ _ _ _ _ _ _ w2) as [[resp'|e] w3] eqn:Hc;
    [|unfold Wm.respondSandboxCreateError; by repeat destruct (Is _ _)].
  intros [= -> _ <-].
  eapply create_recorded in Hc as (g' & HR3 & Hrec & Howner); [|exact HR2|by rewrite Hids, Hsid].
  exists g'. split; [|split; [done|by exists msg; rewrite Howner, Hent]].
  destruct claim; [done|]. by apply (stable_unwatch (P := fun w => rep w g')).
Qed.

End handler.

(** ** The identity on its way *)

(** The claims of a token are decoded from its text: they do not depend on when
    and how it is checked. *)
Class JwtPayload (K : Type) `{!JwtLib K} : Prop := {
  jwt_payload (k : K) ms now ms' now' tok l l' :
    jwt_Parse k ms now tok = Ok l -> jwt_Parse k ms' now' tok = Ok l' -> l = l';
}.

Section identity.
Context {P K : Type} `{!KeyPairs P K} `{!KeyFormats K} `{!JwtLib K} {KL : KeyPairLaws P K} {JL : JwtLaws K}
  {FL : KeyFormatLaws K} {JP : JwtPayload K}.

(** Whatever owner the workload manager resolves from the router's identity
    header, it is the subject the router signed, or the request is refused. *)
Lemma resolved_is_subject (jm : RouterJwt.JWTManager P K) c now now' pem tok h owner msg :
  RouterJwt.publicKey jm = public (RouterJwt.privateKey jm) -> RouterJwt.GetPublicKeyPEM jm = Ok pem ->
  RouterJwt.GenerateToken jm now now (Session.identityClaims c) = Ok tok ->
  ascii_only (Oidc.Subject c) = true -> ascii_only (Oidc.Email c) = true -> in_era now ->
  Identity.resolveSandboxOwnerID (K := K) now' pem (Hdr.Set_ "X-AgentCube-User-Identity" tok h) = (owner, 0, msg) ->
  owner = Oidc.Subject c.
Proof.
  intros Hpub Hpem Htok Hsub Hemail Hera.
  destruct (token_parses jm ["RS256"] now now (Session.identityClaims c) tok ltac:(by left) Htok) as (l & Hl & Hg & _);
    [| |done|unfold Tm.Minute, Tm.Second; lia|].
  { unfold Session.identityClaims, exact_claims. rewrite forallb_app. cbn. rewrite Hsub. cbn.
    destruct (negb _); [|done]. cbn. by rewrite Hemail. }
  { unfold Session.identityClaims. destruct (negb _); done. }
  assert (obj_get "sub" l = Some (JStr (Oidc.Subject c))) as Hs by (apply Hg; unfold Session.identityClaims; by destruct (negb _)).
  assert (tok <> "") as Hne.
  { revert Htok. unfold RouterJwt.GenerateToken. destruct (SignedString _ _) eqn:E; [|done]. intros [= <-]. by eapply signed_nonempty. }
  unfold Identity.resolveSandboxOwnerID, Identity.extractOwnerID.
  change Identity.identityJWTHeader with "X-AgentCube-User-Identity". rewrite Hdr.Get_Set, (proj2 (String.eqb_neq tok "") Hne).
  destruct (String.eqb pem ""). { cbn. rewrite bool_decide_false, bool_decide_true by done. by intros [=]. }
  destruct (Identity.verifyIdentityJWT now' pem tok) as [sub|e] eqn:Hv.
  2: { destruct (verify_foreign JL FL _ _ _ _ Hv) as [H1 H2]. cbn. rewrite H1, H2, !bool_decide_false by done. by intros [=]. }
  intros [= <- _]. revert Hv. unfold Identity.verifyIdentityJWT.
  revert Hpem. unfold RouterJwt.GetPublicKeyPEM. rewrite Hpub. destruct (MarshalPKIXPublicKey _) as [b|] eqn:Hb; [|done].
  intros [= <-]. rewrite pem_roundtrip, (pkix_roundtrip _ _ Hb).
  destruct (jwt_Parse _ ["RS256"] now' tok) as [l'|e] eqn:Hl'; [|done].
  rewrite <- (jwt_payload _ _ _ _ _ _ _ _ Hl Hl'), Hs. cbn [as_string].
  destruct (negb _); [done|]. destruct (String.eqb _ ""); [done|]. by intros [= <-].
Qed.

End identity.

(** ** A creation through the wire *)

Section wire.
Context {P D W K : Type} `{!Env W} `{!Cluster D W} `{!Watchers W} `{!Store W}.
Context {AE : ApiErrors} {NE : NetErrors} {JT : JsonText} {SC : SandboxCodec} `{!KeyPairs P K} `{!KeyFormats K} `{!JwtLib K}.
Context `{!Wire W} {RC : ResponseCodec} {RL : ResponseCodecLaws}.
Context (rep : W -> registry -> Prop) `{!StoreExact W rep} {Hst : forall g, Stable D W (fun w => rep w g)}.
Context (Hall : forall i, storable i).
Implicit Types (w : W) (s : Wm.Srv D) (g : registry).

Lemma create_200 r kind s w :
  Wm.code_of (Wm.handleSandboxCreate (D := D) (K := K) r kind s w).1.1 = 200 ->
  exists resp, (Wm.handleSandboxCreate (K := K) r kind s w).1.1 = Wm.JSON 200 (Wm.CreatedBody resp).
Proof.
  unfold Wm.handleSandboxCreate. destruct (Wm.reqBody r) as [body|]; [|done].
  destruct (CreateReq.Validate _); [done|].
  destruct (Identity.resolveSandboxOwnerID _ _ _) as [[owner code] msg] eqn:Ho.
  destruct (Z.eqb_spec code 0) as [->|Hne]; cbn [negb].
  2: { intros Hc. cbn in Hc. subst code. revert Ho. unfold Identity.resolveSandboxOwnerID.
       destruct (Identity.extractOwnerID _ _ _); [done|]. by repeat case_match. }
  destruct (Wm.buildSandbox _ _ _ _ _ w) as [[[[[sb claim] entry]|e]|] w1]; [|by destruct (_ || _)|done].
  destruct (if Wm.EnableAuth s then _ else _) as [[d|e] s1]; [|done].
  destruct (match claim with Some _ => _ | None => _ end) as [ch w2].
  destruct (Wm.createSandbox _ _ _ _ _ _ _ w2) as [[resp'|e] w3]; [by eexists|].
  unfold Wm.respondSandboxCreateError. by repeat destruct (Is _ _).
Qed.

Lemma serve_v1_world h r s w g resp s' w' :
  rep w g -> WmServer.serve_v1 h r s w = (resp, s', w') ->
  (exists msg, resp = Wm.ErrorJSON 401 msg) \/
  exists u tc w1, rep w1 g /\ h (WmServer.with_user r u) (WmServer.with_tokenCache s tc) w1 = (resp, s', w').
Proof.
  intros HR. unfold WmServer.serve_v1.
  pose proof (auth_stable (fun w => rep w g) (Wm.EnableAuth s) (Wm.reqCtx r) (Wm.reqHeader r) (Wm.tokenCache s) w HR) as HR1.
  destruct (WmAuth.authMiddleware _ _ _ _ w) as [[v tc] w1] eqn:Ha. cbn in HR1. destruct v as [u|code msg].
  - intros Hh. right. by exists u, tc, w1.
  - apply aborted_401 in Ha as ->. intros [= <- _ _]. left. eauto.
Qed.

(** What an answer with status 200 to a creation means. *)
Lemma serve_created addr ctx (q : WmRequest) path (x x' : sys D W) g body :
  wm_url q = addr +:+ path -> path = "/v1/agent-runtime" \/ path = "/v1/code-interpreter" ->
  rep x.1 g -> (forall w, rep w g -> fresh_sid (NewUUID w).1 g) ->
  serve (K := K) addr ctx q x = ((200, body), x') ->
  exists resp g' now msg, body = response_text resp /\ rep x'.1 g' /\ recorded resp g g' /\
    Identity.resolveSandboxOwnerID (K := K) now (Wm.cachedPublicKey x.2) (wm_header q) = (CreateResp.OwnerID resp, 0, msg).
Proof.
  intros Hu Hp HR Hfresh. unfold serve. rewrite Hu, Strs.TrimPrefix_append.
  assert (exists kind, forall r s w,
    WmServer.route (D := D) (K := K) "POST" (drop 1 (Strs.Split "/"%char path)) r s w =
      Some (WmServer.serve_v1 (fun r => Wm.handleSandboxCreate (K := K) r kind) r s w)) as [kind Hroute].
  { destruct Hp as [-> | ->]; [exists AgentRuntimeKind|exists CodeInterpreterKind]; reflexivity. }
  rewrite Hroute. set (r := {| Wm.reqBody := _ |}).
  destruct (WmServer.serve_v1 _ r x.2 x.1) as [[resp s'] w'] eqn:Hs.
  intros [= Hc <- <-]. destruct (serve_v1_world _ _ _ _ g _ _ _ HR Hs) as [[msg ->]|(u & tc & w1 & HR1 & Hh)]; [done|].
  destruct (create_200 (WmServer.with_user r u) kind (WmServer.with_tokenCache x.2 tc) w1) as [cr Hcr]; [by rewrite Hh|].
  rewrite Hh in Hcr. cbn in Hcr. subst resp.
  destruct (handler_recorded rep Hall _ _ _ _ g _ _ _ HR1 (Hfresh w1 HR1) Hh) as (g' & HR' & Hrec & msg & Ho).
  by exists cr, g', (clock w1), msg.
Qed.

End wire.


(** ** A system: alice's first call *)

Import ApiModel CodecModel.CodecModel WM JwtModel.

#[export] Instance resp_eq_dec : EqDecision CreateSandboxResponse.
Proof. solve_decision. Defined.

#[export] Instance resp_countable : Countable CreateSandboxResponse.
Proof.
  apply (inj_countable'
    (fun r => (CreateResp.Kind r, CreateResp.SessionID r, CreateResp.SandboxID r, CreateResp.SandboxName r,
               CreateResp.EntryPoints r, CreateResp.OwnerID r))
    (fun '(k, s, i, n, e, o) => {| CreateResp.Kind := k; CreateResp.SessionID := s; CreateResp.SandboxID := i;
       CreateResp.SandboxName := n; CreateResp.EntryPoints := e; CreateResp.OwnerID := o |})).
  by intros [].
Defined.

#[export] Instance resp_codec : ResponseCodec := {
  response_text r := pos_text (encode r);
  error_text msg := msg;
  response_parse b := match text_pos b ≫= decode with Some r => Ok r | None => Err (EText "json") end;
}.

#[export] Instance resp_codec_laws : ResponseCodecLaws.
Proof. split. intros r. cbn. rewrite text_pos_text. cbn. by rewrite decode_encode. Qed.

#[export] Instance wire : Wire world := {
  fate _ _ := Delivered; serverCtx ctx _ := ctx; tokenFile _ := Err (EText "no such file");
}.

#[export] Instance payload_laws : JwtPayload nat (JwtLib0 := JwtModel.jwt).
Proof.
  split. cbn. unfold JwtModel.parse. intros k ms now ms' now' tok l l'.
  destruct (JwtModel.read tok) as [[k' claims]|]; [|done]. repeat destruct (_ && _); congruence.
Qed.

Definition pem0 : string := match RouterJwt.GetPublicKeyPEM RW.jm0 with Ok p => p | Err _ => "" end.

Definition srv_key : Wm.Srv string :=
  {| Wm.EnableAuth := false; Wm.probe := probe0; Wm.tokenCache := TokenCache.NewTokenCache 0 0;
     Wm.clientCache := ClientCache.NewClientCache 0; Wm.cachedPublicKey := pem0 |}.

Definition manager0 : Session.manager nat nat := Router.sessionManager RW.server0.

Definition first_call : res SandboxInfo * sys string world :=
  Session.GetSandboxBySession (UL := RW.urls) (RouterNet0 := sys_net (K := nat) (Session.workloadMgrAddr manager0))
    manager0 Ctx.Background (Some alice) "" "ns" "web" AgentRuntimeKind (world_agent, srv_key).

Lemma uuid_fresh (w : world) : rep w empty_registry -> fresh_sid (NewUUID w).1 empty_registry.
Proof. intros _. split; [split; cbn; discriminate|]. cbn. by rewrite !lookup_empty. Qed.

